(* ===== verification/_CoqProject ===== *)
-Q . S2P
Prelude.v
PyVal.v
Text.v
Fields.v
Effects.v
Domain.v
StripeObjects.v
Repos.v
Relational.v
Store.v
StoreFacts.v
Django.v
Repositories.v
RepositoriesFacts.v
Credits.v
CreditsFacts.v
Webhooks.v
WebhookFacts.v
Subscriptions.v
SubscriptionFacts.v
Billing.v
BillingFacts.v
Gdpr.v
GdprFacts.v
Auth.v
AuthViews.v
Mail.v
Currency.v
RedirectUrls.v
Profile.v
Avatar.v
TokenFacts.v
SessionFacts.v
Orgs.v
OrgViews.v
OrgRequests.v
OrgFacts.v
Account.v
OrgInvariant.v
OrgLifecycle.v
EntryFacts.v
Requests.v
OrgRequestFacts.v
CacheFacts.v
ProfileFacts.v
AvatarFacts.v
AccessFacts.v
OAuthFacts.v
OAuthProviders.v
AuthForms.v
OAuthProviderFacts.v
AuthFormsFacts.v
Middleware.v
RedirectFacts.v
BillingContext.v
LocalizedSync.v
BillingCatalog.v
Pages.v
CatalogSync.v
CatalogSeed.v
StripeCatalog.v
BillingViews.v
BillingTraces.v
BillingViewFacts.v
BillingAuthority.v
CatalogFacts.v
LocalizedPlan.v
LocalizedSyncFacts.v
CatalogSyncRows.v
CatalogSyncFacts.v
CatalogSeedFacts.v
CatalogSeedTotal.v
CatalogAuditFacts.v
CheckoutFacts.v
Demo.v
AuthWitnesses.v
Witnesses.v
BillingWitnesses.v
CatalogWitnesses.v
ProfileWitnesses.v
