(* ===== verification/Prelude.v ===== *)
(** * SaasMint core: a verification library

    SaasMint is the backend of a software service sold by subscription: a Django
    project ([apps/], [middleware/], [config/]) around a framework-agnostic core
    ([core/saasmint_core]).  Users sign up by password or through an OAuth provider,
    buy personal plans, team plans and credits through Stripe, and run
    organisations with members, roles, invitations and seats.  Stripe tells the
    backend what happened through webhooks, from which the local mirror of
    subscriptions is kept.  This library models that code as executable Rocq
    definitions, one per function, and proves what makes it correct.

    ** How the code is represented

    A handler is a function [world D → outcome A * world D] ([Effects.v]): the store
    [D], the calls made to Stripe in order, the Celery queue, the clock and the
    supply of fresh ids.  A Python exception is [Raise e] and keeps the state it was
    raised in; [catch] is [try ... except], [atomic] is [transaction.atomic()]: it
    restores the database and drops the queued tasks, not the cache nor the calls
    already made.  The store is abstract for the core, whose services see it through
    the protocols of [Repos.v] (type classes of operations, with classes of laws),
    and is the Django database of [Store.v] for the apps: a [gmap] per model, with
    the constraints of its [Meta] class as a [Relational.schema] that every save
    checks.  [Repositories.v] implements the protocols over that database and
    [RepositoriesFacts.v] discharges the laws, so a theorem about a service holds of
    the backend.  Rows carry the columns the code reads or writes; an instance and
    its row are distinct where the code can save a stale one.

    ** The files and the code they model

    - [PyVal.v]: JSON values, [dict] access, [datetime], [uuid], the exceptions.
      [Effects.v], [Relational.v], [Text.v], [Fields.v]: the monad, tables, string
      methods and serializer fields.
    - [Domain.v]: [core/saasmint_core/domain] and the role rules of
      [services/orgs.py].  [StripeObjects.v]: the documented shape of Stripe objects.
    - [Repos.v]: [core/saasmint_core/repositories].  [Store.v], [StoreFacts.v],
      [Django.v]: the [models.py] of users, orgs and billing, transactions, cache and
      signals, and the library functions that are parameters.  [Repositories.v]: the
      [repositories.py] of users and billing.
    - [Webhooks.v]: [services/webhooks.py].  [Subscriptions.v]:
      [services/subscriptions.py].  [Billing.v]: [services/billing.py].  [Gdpr.v]:
      [services/gdpr.py].  [Currency.v]: [services/currency.py].
    - [Credits.v]: [apps/billing/services.py].  [Account.v]: the endpoint
      [apps/billing/webhook.py], the task [process_stripe_webhook] and the account
      deletion of [apps/users/views.py], with the callbacks of [get_webhook_repos]
      that tie the core to the apps.
    - [Auth.v]: [apps/users/authentication.py] and [managers.py].  [AuthViews.v]:
      [apps/users/auth_views.py], [services.py] and the clean-up of [tasks.py], from
      the accepted values on; [AuthForms.v]: the bodies of those endpoints
      ([auth_serializers.py]), [captcha.py] and the state in the browser's session.
      [OAuthProviders.v]: [apps/users/oauth.py].
    - [Profile.v], [Avatar.v]: the rest of [apps/users/views.py] and
      [serializers.py], [views_references.py], the phone and locale tables and the
      avatar pipeline of [apps/users/services.py].
    - [Orgs.v]: [apps/orgs/services.py] and [tasks.py].  [OrgViews.v]: the writes of
      [apps/orgs/views.py]; [OrgRequests.v]: their requests, the reads, the listings
      and [apps/orgs/serializers.py].
    - [RedirectUrls.v], [BillingContext.v], [BillingCatalog.v], [BillingViews.v]:
      [apps/billing/views.py] and [serializers.py].
    - [LocalizedSync.v]: the price recomputation of [apps/billing/tasks.py].
      [CatalogSync.v], [CatalogSeed.v]: the commands [sync_stripe_catalog],
      [seed_catalog] and [audit_stripe_catalog]; [StripeCatalog.v]: what they rely on
      in Stripe.
    - [Mail.v]: the four [email.py], [apps/email_transport.py] and the mail tasks.
      [Pages.v]: [apps/marketing], [apps/dashboard], the computed columns and the
      deletions of the admin.
    - [Middleware.v]: [middleware/exceptions.py] and [security.py].

    How they meet: the endpoints of [BillingViews.v] call the services of [Billing.v]
    and [Subscriptions.v], whose calls Stripe answers by events that [Account.v]
    stores and [Webhooks.v] dispatches to the callbacks of [Credits.v] and [Orgs.v];
    [AuthForms.v] hands accepted bodies to [AuthViews.v], which composes the exchange
    of [OAuthProviders.v] with the accounts and tokens of [Auth.v], which authenticate
    the caller of every other endpoint; [OrgRequests.v] does the same for
    [OrgViews.v]; [CatalogSeed.v] writes the catalogue that [CatalogSync.v] carries to
    Stripe and [LocalizedSync.v] prices, and whose amounts [BillingCatalog.v] displays
    and a checkout charges; the tasks that endpoints queue are run by [Account.v],
    [Orgs.v] and [Mail.v].

    ** What is proved

    - Invariants over sequences of requests: every organisation has exactly one
      owner and no declared constraint is ever broken ([OrgInvariant.v]); a balance
      is the sum of its ledger ([CreditsFacts.v]); a redeemed token stays dead
      ([TokenFacts.v]); a cached user is the current row ([CacheFacts.v], over the
      requests of [Requests.v]: those of the API, not the edits of Django's user admin);
      a profile names supported values ([ProfileFacts.v]);
      every stored file was re-encoded ([AvatarFacts.v]).
    - Authority: whose subscription a request may change, refined from an abstract
      policy ([BillingAuthority.v], [BillingViewFacts.v]); that an organisation's
      reads reveal nothing to others ([OrgRequestFacts.v]); whom an OAuth answer signs
      in, what counts as evidence and that its state is used once ([OAuthFacts.v],
      [OAuthProviderFacts.v], [AuthFormsFacts.v]); what an access token is worth
      ([AccessFacts.v]); that nothing is attempted without a captcha
      ([AuthFormsFacts.v]); that no text of a user is markup in a mail ([Mail.v]).
    - Functional behaviour on every branch: rotation ([SessionFacts.v]), the mirror
      of a subscription ([WebhookFacts.v]), plan changes and seats
      ([SubscriptionFacts.v]), cancellation ([BillingFacts.v]), erasure
      ([GdprFacts.v]), invitations ([OrgLifecycle.v]), cascades ([OrgFacts.v]),
      checkouts ([CheckoutFacts.v]), redirect URLs ([RedirectFacts.v]), the
      recomputation of prices ([LocalizedPlan.v], [LocalizedSyncFacts.v]), the answer
      of an exception ([Middleware.v]), the pages of a listing ([OrgRequestFacts.v]),
      the catalogue mirrored at Stripe and audited ([CatalogSyncRows.v],
      [CatalogSyncFacts.v], [CatalogAuditFacts.v]), notices and inquiries ([Mail.v],
      [Pages.v]).
    - Round trips: a checkout session or a downgrade schedule comes back through the
      webhook as what was asked ([CheckoutFacts.v], [SubscriptionFacts.v]); the
      authorization URL parses back; a registration leads to a sign-in
      ([AuthFormsFacts.v]); a write is what the next read shows
      ([OrgRequestFacts.v]); what a repository saves is what its lookups find
      ([RepositoriesFacts.v]); an uploaded avatar's URL names its file
      ([AvatarFacts.v]).
    - Equivalence and refinement: the batched clean-up is the one-statement deletion
      ([SessionFacts.v]); which Stripe price is charged for the amount displayed
      ([CatalogFacts.v]);
      deletions in a row are one cascade ([OrgFacts.v], [Pages.v]); requests with
      their bodies refine the writes of the invariant ([OrgRequestFacts.v]).
    - Termination and liveness: the webhook task ([EntryFacts.v]), slugs
      ([OrgFacts.v]), a deployment's seeding completes with the whole list
      ([CatalogSeedFacts.v], [CatalogSeedTotal.v]).

    [BillingTraces.v] holds the traces of Stripe calls the billing theorems share.
    [Demo.v] is a concrete backend; the [...Witnesses.v] files apply every theorem
    with hypotheses to it, and exhibit the behaviours reported as findings.

    ** Bounds and fuel

    The webhook task runs at most [1 + max_retries] = 4 times ([run_task], shown to
    reach an outcome); [slug_loop] gets one more step than there are slugs
    ([OrgFacts.slug_loop_enough]); [delete_expired_rows] one more round than
    there are rows ([SessionFacts.Cleanup.delete_expired_exact]);
    [CatalogSync.fetch_batches] one more round than there are lookup keys, each round
    taking at least one; [OrgRequestFacts.collect] follows as many links as its fuel
    says, and the theorem asks for more than there are rows;
    [LocalizedSync.shortest] 17 digits, which every binary64 number needs at most, and
    [digits10] 400, more than the decimal digits of the greatest one.  Integer columns
    are checked at their width ([int4]), strings at theirs ([varchar]); floats are
    binary64 ([SpecFloat] at precision 53).

    ** Parameters

    Code that is not in the repository is a class of operations: [StripeServer] (any
    answer or exception to any call, depending on the calls before) with the laws of
    its catalogue ([StripeCatalog.v]), hashing, token generation, JWT encoding,
    password hashing and the authentication backend ([Django.v]), the
    password policy, the e-mail and URL validators and Google's siteverify
    ([AuthForms.v], [Fields.v]), the providers' HTTP servers and Microsoft's token
    verification ([OAuthProviders.v]), DRF's exception handler ([Middleware.v]) and
    its paginator, the database's order of equal rows ([OrgRequests.v]), the exchange-rate feed and the reading of floats
    ([LocalizedSync.v]), Pillow, the file storage and the host of a request
    ([Avatar.v]), the time zones ([Profile.v]), Resend and Django's [escape]
    ([Mail.v]), and the settings of a deployment.  Laws are named classes or
    hypotheses with an instance in [Demo.v] or a witness file.  The verdict on the
    signature of a webhook is a field of its request ([Account.HttpRequest]).

    ** What is not modelled

    Requests start from the caller's identity and the parsed body: routing, the
    counting of throttles and OpenAPI metadata are the framework's.  Requests run one
    after the other: interleavings are modelled where a theorem names them (two
    rotations, a webhook inside a cancellation, other browsers' requests between the
    steps of an OAuth flow).  Database queries return rows in key order where the
    code fixes none, and ties of an ordered query keep it, but for the pages of a
    listing, whose ties come in any order at every page; a list call to Stripe
    stands for all its pages.  Text is ASCII.  Log lines and what the commands print
    are left out.  Nothing further is planned for: settings and URL tables (values),
    the migrations (generated schema changes whose result [Store.v] models), the
    templates, the forms, filters and permissions declared to Django's admin and the
    success URLs of the hijack views (declarations the framework interprets), and the
    build scripts. *)

From Stdlib Require Export ZArith Ascii String Lia.
From stdpp Require Export base gmap strings list fin_maps pretty sorting.

#[export] Set Default Goal Selector "!".

(** ** Tactics shared by the components *)

(** [split_match] destructs the scrutinee of the first [match] found in the
    context or the goal, keeping the equation. *)
Ltac split_match :=
  match goal with
  | H : context [match ?x with _ => _ end] |- _ =>
      lazymatch x with context [match _ with _ => _ end] => fail | _ => destruct x eqn:? end
  | |- context [match ?x with _ => _ end] =>
      lazymatch x with context [match _ with _ => _ end] => fail | _ => destruct x eqn:? end
  end.

(** ** Booleans of decidable propositions *)

(** [b_eq x y] is Python's [==] on values with decidable equality. *)
Definition b_eq `{EqDecision A} (x y : A) : bool := bool_decide (x = y).

(** [str_in s l] is Python's [s in (...)] for a tuple of strings. *)
Definition str_in (s : string) (l : list string) : bool := bool_decide (s ∈ l).

Lemma b_eq_true `{EqDecision A} (x y : A) : b_eq x y = true ↔ x = y.
Proof. apply bool_decide_eq_true. Qed.

Lemma b_eq_false `{EqDecision A} (x y : A) : b_eq x y = false ↔ x ≠ y.
Proof. apply bool_decide_eq_false. Qed.

Lemma b_eq_refl `{EqDecision A} (x : A) : b_eq x x = true.
Proof. by apply b_eq_true. Qed.

Lemma str_in_true s l : str_in s l = true ↔ s ∈ l.
Proof. apply bool_decide_eq_true. Qed.

Create HintDb saas discriminated.
#[export] Hint Constants Opaque : saas.
Create Rewrite HintDb saas.
#[export] Hint Rewrite @b_eq_true @b_eq_false @b_eq_refl str_in_true : saas.

(** [bsimp] turns boolean tests into propositions. *)
Ltac bsimp :=
  repeat first
    [ progress autorewrite with saas in *
    | progress rewrite ?andb_true_iff, ?andb_false_iff, ?orb_true_iff, ?orb_false_iff,
        ?negb_true_iff, ?negb_false_iff in *
    | progress rewrite ?Z.ltb_lt, ?Z.ltb_ge, ?Z.leb_le, ?Z.leb_gt, ?Z.eqb_eq, ?Z.eqb_neq in * ].

(** ** Options *)

(** Python's [x if x is not None else d]. *)
Definition or_else {A} (o : option A) (d : A) : A := match o with Some x => x | None => d end.

Definition is_none {A} (o : option A) : bool := match o with Some _ => false | None => true end.
Definition not_none {A} (o : option A) : bool := negb (is_none o).

Lemma is_none_true {A} (o : option A) : is_none o = true ↔ o = None.
Proof. by destruct o. Qed.
Lemma is_none_false {A} (o : option A) : is_none o = false ↔ is_Some o.
Proof. destruct o; split; [eauto|done|done|by intros []]. Qed.
Lemma not_none_true {A} (o : option A) : not_none o = true ↔ is_Some o.
Proof. destruct o; split; [eauto|done|done|by intros []]. Qed.
Lemma not_none_false {A} (o : option A) : not_none o = false ↔ o = None.
Proof. by destruct o. Qed.
#[export] Hint Rewrite @is_none_true @is_none_false @not_none_true @not_none_false : saas.
