(* ===== verification/PyVal.v ===== *)
(** * Python values and exceptions

    The fragment of Python the source relies on: the exceptions it raises and
    catches, the values [json.loads] and the Stripe SDK produce with the
    operations the code applies to them ([d[k]], [.get], [or], [len], [str],
    [int], [isinstance]), [uuid.UUID] parsing and printing, and
    [datetime.fromtimestamp].  A Python function that can raise returns an
    [outcome].  JSON numbers are integers, except in [fx_json]: no other field the
    code reads holds a fractional number. *)

From Stdlib Require SpecFloat.
From S2P Require Import Prelude.

#[local] Open Scope string_scope.
#[local] Set Warnings "-register-all".

(** ** Exceptions *)

(** One constructor per exception class the code raises, catches or lets
    through.  [StripeError cls code http_status msg] stands for the SDK's
    hierarchy, [cls] being the concrete class name, and so does [ArithmeticError cls msg]
    for the arithmetic ones.  [APIException status code]
    is DRF's, with the status and code of the subclass. *)
Inductive exn :=
  | WebhookDataError (msg : string)
  | UserNotFoundError (msg : string)
  | OrgNotFoundError (msg : string)
  | SubscriptionNotFoundError (msg : string)
  | SeatsBelowMemberCountError (msg : string)
  | InsufficientPermissionError (msg : string)
  | SeatCapReachedAtAcceptError (msg : string)
  | StripeError (cls : string) (code : option string) (http_status : option Z) (msg : string)
  | ConnectionError (msg : string)
  | OSError (msg : string)
  | OperationalError (msg : string)
  | DatabaseError (msg : string)
  | IntegrityError (msg : string)
  | DataError (msg : string)
  | DoesNotExist (msg : string)
  | MultipleObjectsReturned (msg : string)
  | KeyError (key : string)
  | IndexError (msg : string)
  | TypeError (msg : string)
  | AttributeError (msg : string)
  | ValueError (msg : string)
  | RuntimeError (msg : string)
  | ArithmeticError (cls : string) (msg : string)
  | OAuthEmailNotVerifiedError (msg : string)
  | HTTPError (msg : string)
  | OAuthError (msg : string)
  | DjangoValidationError (msg : string)
  | AuthenticationFailed (code : string)
  | APIException (status : Z) (code : string).

#[export] Instance exn_eq_dec : EqDecision exn.
Proof. solve_decision. Defined.

(** [type(exc).__name__]. *)
Definition exn_class (e : exn) : string :=
  match e with
  | WebhookDataError _ => "WebhookDataError"
  | UserNotFoundError _ => "UserNotFoundError"
  | OrgNotFoundError _ => "OrgNotFoundError"
  | SubscriptionNotFoundError _ => "SubscriptionNotFoundError"
  | SeatsBelowMemberCountError _ => "SeatsBelowMemberCountError"
  | InsufficientPermissionError _ => "InsufficientPermissionError"
  | SeatCapReachedAtAcceptError _ => "SeatCapReachedAtAcceptError"
  | StripeError cls _ _ _ => cls
  | ConnectionError _ => "ConnectionError"
  | OSError _ => "OSError"
  | OperationalError _ => "OperationalError"
  | DatabaseError _ => "DatabaseError"
  | IntegrityError _ => "IntegrityError"
  | DataError _ => "DataError"
  | DoesNotExist _ => "DoesNotExist"
  | MultipleObjectsReturned _ => "MultipleObjectsReturned"
  | KeyError _ => "KeyError"
  | IndexError _ => "IndexError"
  | TypeError _ => "TypeError"
  | AttributeError _ => "AttributeError"
  | ValueError _ => "ValueError"
  | RuntimeError _ => "RuntimeError"
  | ArithmeticError cls _ => cls
  | OAuthEmailNotVerifiedError _ => "OAuthEmailNotVerifiedError"
  | HTTPError _ => "HTTPError"
  | OAuthError _ => "OAuthError"
  | DjangoValidationError _ => "ValidationError"
  | AuthenticationFailed _ => "AuthenticationFailed"
  | APIException _ _ => "APIException"
  end.

(** [str(exc)]; the [str] of a [KeyError] is the repr of its key. *)
Definition exn_str (e : exn) : string :=
  match e with
  | WebhookDataError m | UserNotFoundError m | OrgNotFoundError m
  | SubscriptionNotFoundError m | SeatsBelowMemberCountError m
  | InsufficientPermissionError m | SeatCapReachedAtAcceptError m
  | StripeError _ _ _ m | ConnectionError m | OSError m | OperationalError m | DatabaseError m
  | IntegrityError m | DataError m | DoesNotExist m | MultipleObjectsReturned m | IndexError m
  | TypeError m | AttributeError m | ValueError m | RuntimeError m | ArithmeticError _ m
  | OAuthEmailNotVerifiedError m | HTTPError m | OAuthError m
  | DjangoValidationError m | AuthenticationFailed m | APIException _ m => m
  | KeyError k => "'" ++ k ++ "'"
  end.

(** ** Outcomes *)

Inductive outcome (A : Type) :=
  | Ok (a : A)
  | Raise (e : exn).
Arguments Ok {A} a.
Arguments Raise {A} e.

#[export] Instance outcome_ret : MRet outcome := @Ok.
#[export] Instance outcome_bind : MBind outcome := λ A B f o,
  match o with Ok a => f a | Raise e => Raise e end.
#[export] Instance outcome_eq_dec `{EqDecision A} : EqDecision (outcome A).
Proof. solve_decision. Defined.

(** ** JSON-like values *)

Inductive json :=
  | JNull
  | JBool (b : bool)
  | JNum (z : Z)
  | JStr (s : string)
  | JArr (l : list json)
  | JObj (fields : list (string * json)).

(** [isinstance(v, dict)], [isinstance(v, int)] ([bool] is a subclass of [int])
    and [isinstance(v, str)]. *)
Definition is_dict (v : json) : bool := match v with JObj _ => true | _ => false end.
Definition is_int (v : json) : bool := match v with JNum _ | JBool _ => true | _ => false end.
Definition is_str (v : json) : bool := match v with JStr _ => true | _ => false end.
Definition is_null (v : json) : bool := match v with JNull => true | _ => false end.

(** [bool(v)]. *)
Definition truthy (v : json) : bool :=
  match v with
  | JNull => false
  | JBool b => b
  | JNum z => negb (Z.eqb z 0)
  | JStr s => negb (b_eq s "")
  | JArr l => match l with [] => false | _ => true end
  | JObj l => match l with [] => false | _ => true end
  end.

(** [a or b]. *)
Definition py_or (a b : json) : json := if truthy a then a else b.

(** The association list of a dict holds each key once. *)
Fixpoint assoc (k : string) (l : list (string * json)) : option json :=
  match l with
  | [] => None
  | (k', v) :: l => if b_eq k k' then Some v else assoc k l
  end.

(** [v[k]] for a string key [k]. *)
Definition getitem (v : json) (k : string) : outcome json :=
  match v with
  | JObj l => match assoc k l with Some x => Ok x | None => Raise (KeyError k) end
  | _ => Raise (TypeError "indices must be integers")
  end.

(** [v.get(k, d)]. *)
Definition get_default (v : json) (k : string) (d : json) : outcome json :=
  match v with
  | JObj l => Ok (or_else (assoc k l) d)
  | _ => Raise (AttributeError "object has no attribute 'get'")
  end.

(** [v.get(k)]. *)
Definition get (v : json) (k : string) : outcome json := get_default v k JNull.

(** [obj.attr] on a Stripe object. *)
Definition getattr (v : json) (k : string) : outcome json :=
  match v with
  | JObj l => match assoc k l with Some x => Ok x | None => Raise (AttributeError k) end
  | _ => Raise (AttributeError k)
  end.

(** [v[n]] for a non-negative integer literal [n]. *)
Definition index (v : json) (n : nat) : outcome json :=
  match v with
  | JArr l => match l !! n with Some x => Ok x | None => Raise (IndexError "list index out of range") end
  | JStr s => match list_ascii_of_string s !! n with
              | Some c => Ok (JStr (String c ""))
              | None => Raise (IndexError "string index out of range")
              end
  | JObj _ => Raise (KeyError (pretty n))
  | _ => Raise (TypeError "object is not subscriptable")
  end.

(** [len(v)]. *)
Definition py_len (v : json) : outcome nat :=
  match v with
  | JArr l => Ok (length l)
  | JObj l => Ok (length l)
  | JStr s => Ok (String.length s)
  | _ => Raise (TypeError "object has no len()")
  end.

(** [iter(v)]: the elements of a list, the keys of a dict or the characters of a
    string. *)
Definition py_iter (v : json) : outcome (list json) :=
  match v with
  | JArr l => Ok l
  | JObj l => Ok (map (λ p, JStr p.1) l)
  | JStr s => Ok (map (λ c, JStr (String c "")) (list_ascii_of_string s))
  | _ => Raise (TypeError "object is not iterable")
  end.

(** [repr(v)] and [str(v)]; the repr of a string quotes it without escapes. *)
Fixpoint py_repr (v : json) : string :=
  match v with
  | JNull => "None"
  | JBool b => if b then "True" else "False"
  | JNum z => pretty z
  | JStr s => "'" ++ s ++ "'"
  | JArr l => "[" ++ String.concat ", " (map py_repr l) ++ "]"
  | JObj l => "{" ++ String.concat ", " (map (λ p, "'" ++ fst p ++ "': " ++ py_repr (snd p)) l) ++ "}"
  end.

Definition py_str (v : json) : string :=
  match v with JStr s => s | _ => py_repr v end.

(** ** Strings *)

Definition ascii_lower (c : ascii) : ascii :=
  let n := N_of_ascii c in
  if ((65 <=? n) && (n <=? 90))%N then ascii_of_N (n + 32) else c.

Definition ascii_upper (c : ascii) : ascii :=
  let n := N_of_ascii c in
  if ((97 <=? n) && (n <=? 122))%N then ascii_of_N (n - 32) else c.

(** [s.lower()] and [s.upper()] on ASCII text. *)
Definition lower (s : string) : string :=
  string_of_list_ascii (map ascii_lower (list_ascii_of_string s)).
Definition upper (s : string) : string :=
  string_of_list_ascii (map ascii_upper (list_ascii_of_string s)).

(** [s.strip(chars)]. *)
Fixpoint lstrip_chars (cs : list ascii) (l : list ascii) : list ascii :=
  match l with
  | [] => []
  | c :: l' => if bool_decide (c ∈ cs) then lstrip_chars cs l' else l
  end.

Definition strip_chars (cs : list ascii) (l : list ascii) : list ascii :=
  rev (lstrip_chars cs (rev (lstrip_chars cs l))).

(** ASCII white space of [str.strip()]. *)
Definition py_spaces : list ascii :=
  ascii_of_N <$> [9; 10; 11; 12; 13; 28; 29; 30; 31; 32]%N.

Fixpoint is_prefix (p l : list ascii) : bool :=
  match p, l with
  | [], _ => true
  | c :: p, d :: l => b_eq c d && is_prefix p l
  | _, _ => false
  end.

(** [s.replace(pat, "")]; [skip] counts the characters of a match still to drop. *)
Fixpoint remove_all (pat : list ascii) (skip : nat) (l : list ascii) : list ascii :=
  match l with
  | [] => []
  | c :: l' =>
      match skip with
      | S n => remove_all pat n l'
      | O => if is_prefix pat l then remove_all pat (length pat - 1) l' else c :: remove_all pat 0 l'
      end
  end.

(** ** Integers *)

Definition dec_val (c : ascii) : option Z :=
  let n := N_of_ascii c in
  if ((48 <=? n) && (n <=? 57))%N then Some (Z.of_N n - 48)%Z else None.

(** Digits, with single underscores between them; [sep] when one is not allowed. *)
Fixpoint dec_digits (sep : bool) (acc : Z) (l : list ascii) : option Z :=
  match l with
  | [] => if sep then None else Some acc
  | c :: l =>
      match dec_val c with
      | Some d => dec_digits false (10 * acc + d) l
      | None => if b_eq c "_"%char && negb sep then dec_digits true acc l else None
      end
  end.

(** [int(s)] for a string: an optional sign and decimal digits, white space around. *)
Definition int_of_string (s : string) : option Z :=
  match strip_chars py_spaces (list_ascii_of_string s) with
  | "-"%char :: l => Z.opp <$> dec_digits true 0 l
  | "+"%char :: l => dec_digits true 0 l
  | l => dec_digits true 0 l
  end.

(** [int(v)]. *)
Definition py_int (v : json) : outcome Z :=
  match v with
  | JNum z => Ok z
  | JBool b => Ok (if b then 1 else 0)%Z
  | JStr s => match int_of_string s with
              | Some z => Ok z
              | None => Raise (ValueError "invalid literal for int()")
              end
  | _ => Raise (TypeError "int() argument must be a string or a number")
  end.

(** ** Dates: microseconds since the Unix epoch, UTC *)

Abbreviation datetime := Z (only parsing).

Definition dt_min : Z := -62135596800.
Definition dt_max : Z := 253402300799.

(** [datetime.fromtimestamp(t, tz=UTC)]: years 1 to 9999. *)
Definition fromtimestamp (t : Z) : outcome datetime :=
  if ((dt_min <=? t) && (t <=? dt_max))%Z then Ok (t * 1000000)%Z
  else Raise (ValueError "year is out of range").

(** [services/_stripe_time.py]: Stripe timestamp to datetime, [None] passes. *)
Definition ts_to_dt (value : json) : outcome (option datetime) :=
  if is_null value then Ok None
  else t ← py_int value; d ← fromtimestamp t; Ok (Some d).

(** ** UUIDs: 128-bit integers *)

Abbreviation uuid := N (only parsing).

Definition hex_char (d : N) : ascii :=
  ascii_of_N (if (d <? 10)%N then d + 48 else d + 87)%N.

Definition hex_val (c : ascii) : option N :=
  let n := N_of_ascii c in
  if ((48 <=? n) && (n <=? 57))%N then Some (n - 48)%N
  else if ((97 <=? n) && (n <=? 102))%N then Some (n - 87)%N
  else if ((65 <=? n) && (n <=? 70))%N then Some (n - 55)%N
  else None.

(** The [n] low hexadecimal digits of [u], most significant first. *)
Fixpoint hex_digits (n : nat) (u : N) : list ascii :=
  match n with
  | O => []
  | S n => (hex_digits n (u / 16) ++ [hex_char (u mod 16)])%list
  end.

Fixpoint hex_parse (acc : N) (l : list ascii) : option N :=
  match l with
  | [] => Some acc
  | c :: l => match hex_val c with Some d => hex_parse (16 * acc + d) l | None => None end
  end.

(** [str(u)]: 8-4-4-4-12 hexadecimal digits. *)
Definition uuid_str (u : uuid) : string :=
  let h := hex_digits 32 u in
  string_of_list_ascii
    (take 8 h ++ ["-"%char] ++ take 4 (drop 8 h) ++ ["-"%char] ++ take 4 (drop 12 h)
     ++ ["-"%char] ++ take 4 (drop 16 h) ++ ["-"%char] ++ drop 20 h)%list.

(** [u.hex]. *)
Definition uuid_hex (u : uuid) : string := string_of_list_ascii (hex_digits 32 u).

(** [UUID(s)]: drops [urn:], [uuid:], braces and hyphens, then wants 32 hex digits. *)
Definition uuid_parse (s : string) : option uuid :=
  let l := remove_all (list_ascii_of_string "uuid:") 0
             (remove_all (list_ascii_of_string "urn:") 0 (list_ascii_of_string s)) in
  let l := filter (λ c, c ≠ "-"%char) (strip_chars ["{"%char; "}"%char] l) in
  if b_eq (length l) 32 then hex_parse 0 l else None.

Definition py_uuid (v : json) : outcome uuid :=
  match v with
  | JStr s => match uuid_parse s with
              | Some u => Ok u
              | None => Raise (ValueError "badly formed hexadecimal UUID string")
              end
  | _ => Raise (AttributeError "object has no attribute 'replace'")
  end.

(** Reading a value where the code's annotation says [str], [bool] or
    [str | None]; another type is a [TypeError]. *)
Definition expect_str (v : json) : outcome string :=
  match v with JStr s => Ok s | _ => Raise (TypeError "expected str") end.
Definition expect_bool (v : json) : outcome bool :=
  match v with JBool b => Ok b | _ => Raise (TypeError "expected bool") end.
Definition expect_opt_str (v : json) : outcome (option string) :=
  match v with JNull => Ok None | JStr s => Ok (Some s) | _ => Raise (TypeError "expected str") end.

(** ** JSON with binary64 numbers *)

(** What [json()] of an HTTP answer returns where the code reads fractional numbers. *)
Inductive fx_json :=
  | FxNum (x : SpecFloat.spec_float)
  | FxStr (s : string)
  | FxBool (b : bool)
  | FxNull
  | FxArr (l : list fx_json)
  | FxObj (fields : list (string * fx_json)).

Fixpoint fx_assoc (k : string) (l : list (string * fx_json)) : option fx_json :=
  match l with
  | [] => None
  | (k', v) :: l => if b_eq k k' then Some v else fx_assoc k l
  end.

(** [data.get(k)]. *)
Definition fx_get (data : fx_json) (k : string) : outcome fx_json :=
  match data with
  | FxObj fields => Ok (or_else (fx_assoc k fields) FxNull)
  | _ => Raise (AttributeError "object has no attribute 'get'")
  end.

Definition fx_is_str (v : fx_json) (s : string) : bool :=
  match v with FxStr t => b_eq t s | _ => false end.

(** ** Lemmas *)

Lemma outcome_bind_Ok {A B} (o : outcome A) (f : A → outcome B) b :
  (x ← o; f x) = Ok b ↔ ∃ a, o = Ok a ∧ f a = Ok b.
Proof. destruct o; cbn; naive_solver. Qed.

Lemma outcome_bind_Raise {A B} (o : outcome A) (f : A → outcome B) e :
  (x ← o; f x) = Raise e ↔ o = Raise e ∨ ∃ a, o = Ok a ∧ f a = Raise e.
Proof. destruct o; cbn; naive_solver. Qed.

(** *** Printing and parsing a UUID *)

Lemma hex_digits_length n u : length (hex_digits n u) = n.
Proof. revert u. induction n as [|n IH]; intros u; cbn; [done|]. rewrite length_app, IH. cbn. lia. Qed.

Lemma hex_val_char d : (d < 16)%N → hex_val (hex_char d) = Some d.
Proof.
  intros H. assert (∃ n : nat, d = N.of_nat n ∧ n < 16) as (n & -> & Hn).
  { exists (N.to_nat d). rewrite N2Nat.id. lia. }
  do 16 (destruct n as [|n]; [reflexivity|]). lia.
Qed.

Lemma hex_parse_app acc l1 l2 :
  hex_parse acc (l1 ++ l2) = a ← hex_parse acc l1; hex_parse a l2.
Proof. revert acc. induction l1 as [|c l1 IH]; intros acc; cbn; [done|]. destruct (hex_val c); [apply IH|done]. Qed.

Lemma hex_parse_digits n u : (u < 16 ^ N.of_nat n)%N → hex_parse 0 (hex_digits n u) = Some u.
Proof.
  revert u. induction n as [|n IH]; intros u Hu.
  { cbn in *. f_equal. lia. }
  rewrite Nat2N.inj_succ, N.pow_succ_r' in Hu.
  cbn [hex_digits]. rewrite hex_parse_app, IH by (apply N.Div0.div_lt_upper_bound; lia).
  cbn. rewrite hex_val_char by (apply N.mod_lt; lia).
  f_equal. pose proof (N.div_mod u 16). lia.
Qed.

(** Characters of a printed UUID: hexadecimal digits and hyphens. *)
Definition uuid_char (c : ascii) : bool := b_eq c "-"%char || not_none (hex_val c).

Lemma hex_digits_chars n u : Forall (λ c, is_Some (hex_val c)) (hex_digits n u).
Proof.
  revert u. induction n as [|n IH]; intros u; cbn; [constructor|].
  apply Forall_app. split; [apply IH|]. repeat constructor.
  rewrite hex_val_char; [eauto|apply N.mod_lt; lia].
Qed.

Lemma remove_all_id p pat l :
  Forall (λ c, c ≠ p) l → remove_all (p :: pat) 0 l = l.
Proof.
  induction 1 as [|c l Hc Hl IH]; [done|].
  cbn [remove_all is_prefix]. rewrite (proj2 (b_eq_false p c)) by done. cbn. by rewrite IH.
Qed.

Lemma lstrip_chars_id cs l : Forall (λ c, c ∉ cs) l → lstrip_chars cs l = l.
Proof. destruct 1 as [|c l Hc Hl]; cbn; [done|]. by rewrite bool_decide_eq_false_2. Qed.

Lemma strip_chars_id cs l : Forall (λ c, c ∉ cs) l → strip_chars cs l = l.
Proof.
  intros H. unfold strip_chars. rewrite (lstrip_chars_id cs l) by done.
  rewrite lstrip_chars_id by by apply Forall_rev. apply rev_involutive.
Qed.

Lemma Forall_sublist_app {A} (P : A → Prop) (l : list A) n m :
  Forall P l → Forall P (take n (drop m l)).
Proof. auto using Forall_take, Forall_drop. Qed.

(** [UUID(str(u)) = u]. *)
Lemma uuid_parse_str u : (u < 2 ^ 128)%N → uuid_parse (uuid_str u) = Some u.
Proof.
  intros Hu. unfold uuid_parse, uuid_str. rewrite list_ascii_of_string_of_list_ascii.
  pose proof (hex_digits_chars 32 u) as Hh. pose proof (hex_digits_length 32 u) as Hlen.
  pose proof (hex_parse_digits 32 u) as Hp.
  set (h := hex_digits 32 u) in *. clearbody h.
  set (l := (take 8 h ++ _)%list).
  assert (Forall (λ c, c = "-"%char ∨ is_Some (hex_val c)) l) as Hl.
  { unfold l. rewrite !Forall_app. assert (Forall (λ c, c = "-"%char ∨ is_Some (hex_val c)) h) as Hh'
      by (eapply Forall_impl; [exact Hh|]; auto).
    split_and!; auto using Forall_take, Forall_drop; repeat constructor; auto. }
  assert (∀ p, hex_val p = None → p ≠ "-"%char → Forall (λ c, c ≠ p) l) as Hne.
  { intros p Hp1 Hp2. eapply Forall_impl; [exact Hl|]. cbn. intros c [->|[? Hc]]; [congruence|].
    intros ->. congruence. }
  change (list_ascii_of_string "urn:") with (["u"; "r"; "n"; ":"]%char).
  change (list_ascii_of_string "uuid:") with (["u"; "u"; "i"; "d"; ":"]%char).
  rewrite (remove_all_id "u"%char _ l) by by apply Hne.
  rewrite (remove_all_id "u"%char _ l) by by apply Hne.
  rewrite strip_chars_id.
  2:{ eapply Forall_impl; [apply Forall_and; split; [apply (Hne "{"%char)|apply (Hne "}"%char)]; done|].
      cbn. intros c [? ?]. set_solver. }
  assert (∀ l' : list ascii, Forall (λ c, is_Some (hex_val c)) l' → filter (λ c, c ≠ "-"%char) l' = l') as Hf.
  { induction 1 as [|c l' [x Hc] _ IH]; [done|]. rewrite filter_cons_True by (intros ->; done). by rewrite IH. }
  unfold l. rewrite !filter_app, !(filter_cons_False _ "-"%char), !filter_nil by tauto.
  repeat rewrite Hf by auto using Forall_take, Forall_drop. cbn [app].
  assert ((take 8 h ++ take 4 (drop 8 h) ++ take 4 (drop 12 h) ++ take 4 (drop 16 h) ++ drop 20 h)%list = h) as ->.
  { replace (drop 12 h) with (drop 4 (drop 8 h)) by by rewrite drop_drop.
    replace (drop 16 h) with (drop 4 (drop 4 (drop 8 h))) by by rewrite !drop_drop.
    replace (drop 20 h) with (drop 4 (drop 4 (drop 4 (drop 8 h)))) by by rewrite !drop_drop.
    by rewrite !take_drop. }
  rewrite Hlen, b_eq_refl. apply Hp. exact Hu.
Qed.

Lemma uuid_str_nonempty u : uuid_str u ≠ "".
Proof.
  unfold uuid_str. pose proof (hex_digits_length 32 u) as Hl.
  destruct (hex_digits 32 u) as [|c h]; [done|]. done.
Qed.

Lemma uuid_str_inj a b : (a < 2 ^ 128)%N → (b < 2 ^ 128)%N → uuid_str a = uuid_str b → a = b.
Proof. intros Ha Hb Heq. apply uuid_parse_str in Ha, Hb. congruence. Qed.

Lemma string_of_list_length l : String.length (string_of_list_ascii l) = length l.
Proof. induction l as [|c l IH]; cbn; congruence. Qed.

Lemma uuid_str_length u : String.length (uuid_str u) = 36%nat.
Proof.
  unfold uuid_str. rewrite string_of_list_length. pose proof (hex_digits_length 32 u) as Hl.
  rewrite !length_app, !length_take, !length_drop, Hl. reflexivity.
Qed.
