(* ===== verification/Text.v ===== *)
(** * Text

    Python's string methods the request handling relies on, on lists of ASCII
    characters: [partition], [rpartition], [split], [startswith], [endswith]. *)

From S2P Require Import Prelude PyVal.

#[local] Open Scope string_scope.

Abbreviation chars := (list ascii) (only parsing).

(** [l.partition(c)]: before, found, after. *)
Fixpoint partition (c : ascii) (l : chars) : chars * bool * chars :=
  match l with
  | [] => ([], false, [])
  | x :: l' =>
      if b_eq x c then ([], true, l')
      else match partition c l' with (b, found, a) => (x :: b, found, a) end
  end.

(** [l.rpartition(c)[2]]. *)
Definition after_last (c : ascii) (l : chars) : chars := rev (partition c (rev l)).1.1.

(** [l[:min(l.find(c) for c in "/?#")]]. *)
Fixpoint until (stop : chars) (l : chars) : chars :=
  match l with
  | [] => []
  | x :: l => if bool_decide (x ∈ stop) then [] else x :: until stop l
  end.

(** [s.startswith(p)] and [s.endswith(p)]. *)
Definition startswith (s p : string) : bool :=
  is_prefix (list_ascii_of_string p) (list_ascii_of_string s).
Definition endswith (s p : string) : bool :=
  is_prefix (rev (list_ascii_of_string p)) (rev (list_ascii_of_string s)).

(** [s.removeprefix(p)] of a string that starts with [p]. *)
Definition removeprefix (s p : string) : string :=
  string_of_list_ascii (drop (String.length p) (list_ascii_of_string s)).

(** [l.split(c)]. *)
Fixpoint split_on (c : ascii) (l : chars) : list chars :=
  match l with
  | [] => [[]]
  | x :: l =>
      if b_eq x c then [] :: split_on c l
      else match split_on c l with h :: t => (x :: h) :: t | [] => [[x]] end
  end.

(** ** Lemmas *)

Lemma partition_free c l1 l2 :
  Forall (λ x, x ≠ c) l1 →
  partition c (l1 ++ l2) =
  match partition c l2 with (b, found, a) => ((l1 ++ b)%list, found, a) end.
Proof.
  induction 1 as [|x l1 Hx _ IH]; cbn; [by destruct (partition c l2) as [[]]|].
  rewrite (proj2 (b_eq_false x c)) by done. rewrite IH. by destruct (partition c l2) as [[]].
Qed.

Lemma partition_none c l : Forall (λ x, x ≠ c) l → partition c l = (l, false, []).
Proof. intros Hl. rewrite <-(app_nil_r l) at 1. rewrite partition_free by done. cbn. by rewrite app_nil_r. Qed.

Lemma partition_at c l1 l2 : Forall (λ x, x ≠ c) l1 → partition c (l1 ++ c :: l2) = (l1, true, l2).
Proof. intros Hl. rewrite partition_free by done. cbn. by rewrite b_eq_refl, app_nil_r. Qed.

Lemma after_last_free c l : Forall (λ x, x ≠ c) l → after_last c l = l.
Proof.
  intros Hl. unfold after_last. rewrite partition_none by by apply Forall_rev. cbn. apply rev_involutive.
Qed.

Lemma after_last_at c l1 l2 : Forall (λ x, x ≠ c) l2 → after_last c (l1 ++ c :: l2) = l2.
Proof.
  intros Hl. unfold after_last. rewrite rev_app_distr. cbn. rewrite <-app_assoc. cbn.
  rewrite partition_at by by apply Forall_rev. cbn. apply rev_involutive.
Qed.

Lemma until_app stop l1 l2 :
  Forall (λ x, x ∉ stop) l1 → match l2 with [] => True | c :: _ => c ∈ stop end →
  until stop (l1 ++ l2) = l1.
Proof.
  induction 1 as [|x l1 Hx _ IH]; cbn.
  - destruct l2 as [|c l2]; [done|]. intros Hc. cbn. by rewrite bool_decide_eq_true_2.
  - intros Hl2. rewrite bool_decide_eq_false_2 by done. by rewrite IH.
Qed.

Lemma forallb_Forall {A} (f : A → bool) (P : A → Prop) l :
  (∀ x, f x = true → P x) → forallb f l = true → Forall P l.
Proof. intros Hf Hl. apply Forall_forall. intros x Hx. apply Hf. rewrite forallb_forall in Hl. by apply Hl, list_elem_of_In. Qed.

Lemma string_app_nil s : s ++ "" = s.
Proof. induction s as [|c s IH]; [done|]. change (String c s ++ "") with (String c (s ++ "")). by rewrite IH. Qed.

Lemma chars_app a b : list_ascii_of_string (a ++ b) = (list_ascii_of_string a ++ list_ascii_of_string b)%list.
Proof. induction a as [|c a IH]; [done|]. change (String c a ++ b) with (String c (a ++ b)). cbn. by rewrite IH. Qed.

Lemma split_on_free c l : Forall (λ x, x ≠ c) l → split_on c l = [l].
Proof.
  induction 1 as [|x l Hx _ IH]; [done|]. cbn. by rewrite (proj2 (b_eq_false x c)), IH by done.
Qed.

Lemma split_on_at c l1 l2 :
  Forall (λ x, x ≠ c) l1 → split_on c (l1 ++ c :: l2) = l1 :: split_on c l2.
Proof.
  induction 1 as [|x l Hx _ IH]; cbn; [by rewrite b_eq_refl|].
  by rewrite (proj2 (b_eq_false x c)), IH by done.
Qed.

(** Joining pieces without the separator and splitting gives them back. *)
Lemma split_on_concat c (l : list string) :
  l ≠ [] → Forall (λ s, Forall (λ x, x ≠ c) (list_ascii_of_string s)) l →
  split_on c (list_ascii_of_string (String.concat (String c "") l)) = list_ascii_of_string <$> l.
Proof.
  intros Hne Hl. induction Hl as [|s l Hs Hl IH]; [done|]. destruct l as [|s' l].
  - cbn. by apply split_on_free.
  - change (String.concat (String c "") (s :: s' :: l))
      with (s ++ String c "" ++ String.concat (String c "") (s' :: l)).
    rewrite !chars_app. cbn [list_ascii_of_string app].
    rewrite split_on_at by done. cbn [fmap list_fmap]. f_equal. by apply IH.
Qed.

Lemma concat_cons (s : string) l : String.concat "" (s :: l) = s ++ String.concat "" l.
Proof. destruct l; cbn; [by rewrite string_app_nil|done]. Qed.

Lemma chars_length s : length (list_ascii_of_string s) = String.length s.
Proof. induction s; cbn; congruence. Qed.

Lemma string_length_app a b : String.length (a ++ b) = (String.length a + String.length b)%nat.
Proof. by rewrite <-!chars_length, chars_app, length_app. Qed.

Lemma is_prefix_app p l : is_prefix p (p ++ l) = true.
Proof. induction p as [|c p IH]; [done|]. cbn. by rewrite b_eq_refl, IH. Qed.

Lemma removeprefix_app p s : removeprefix (p ++ s) p = s.
Proof.
  unfold removeprefix. rewrite chars_app, <-chars_length, drop_app_length. apply string_of_list_ascii_of_string.
Qed.

Lemma startswith_app p s : startswith (p ++ s) p = true.
Proof. unfold startswith. rewrite chars_app. apply is_prefix_app. Qed.

Lemma endswith_app s p : endswith (s ++ p) p = true.
Proof. unfold endswith. rewrite chars_app, rev_app_distr. apply is_prefix_app. Qed.
