(* ===== verification/Fields.v ===== *)
(** * Request fields

    The serializer fields the endpoints declare, with the documented behaviour of
    Django REST framework's [CharField] and [IntegerField] on ASCII text: a value is
    the request's, coerced to its type. *)

From S2P Require Import Prelude PyVal.

#[local] Open Scope string_scope.

Definition ValidationError : exn := APIException 400 "invalid".

Definition strip (s : string) : string :=
  string_of_list_ascii (strip_chars py_spaces (list_ascii_of_string s)).

Definition no_null_char (s : string) : bool :=
  negb (existsb (λ c, (N_of_ascii c =? 0)%N) (list_ascii_of_string s)).

(** [CharField(min_length=lo, max_length=hi)]: trimmed, not blank, no null
    character. *)
Definition CharField_between (lo hi : nat) (s : string) : outcome string :=
  let s := strip s in
  if b_eq s "" || (String.length s <? lo)%nat || (hi <? String.length s)%nat || negb (no_null_char s)
  then Raise ValidationError else Ok s.

Definition CharField (n : nat) (s : string) : outcome string := CharField_between 0 n s.

(** [CharField()], and [CharField(allow_blank=True)]. *)
Definition CharField_any (s : string) : outcome string :=
  let s := strip s in
  if b_eq s "" || negb (no_null_char s) then Raise ValidationError else Ok s.
Definition CharField_blank (s : string) : outcome string :=
  let s := strip s in
  if negb (no_null_char s) then Raise ValidationError else Ok s.

(** The verdict of [EmailValidator], and [EmailField()]. *)
Class EmailValidator := email_valid : string → bool.
Definition EmailField `{EmailValidator} (s : string) : outcome string :=
  s ← CharField_any s; if email_valid s then Ok s else Raise ValidationError.

(** A field of a request body: absent, null or given. *)
Inductive field (A : Type) := Absent | Null | Given (a : A).
Arguments Absent {A}.
Arguments Null {A}.
Arguments Given {A} _.

Definition given {A} (a : field A) : option A := match a with Given a => Some a | _ => None end.

(** [required=False]: no value when absent; null is refused. *)
Definition optional {A B} (validate : A → outcome B) (a : field A) : outcome (option B) :=
  match a with
  | Absent => Ok None
  | Null => Raise ValidationError
  | Given a => b ← validate a; Ok (Some b)
  end.

(** [required=False, allow_null=True]. *)
Definition optional_null {A B} (validate : A → outcome B) (a : field A) : outcome (option (option B)) :=
  match a with
  | Absent => Ok None
  | Null => Ok (Some None)
  | Given a => b ← validate a; Ok (Some (Some b))
  end.

(** [required=False, default=d]. *)
Definition defaulted {A B} (d : B) (validate : A → outcome B) (a : field A) : outcome B :=
  match a with Absent => Ok d | Null => Raise ValidationError | Given a => validate a end.

(** [required=True]. *)
Definition required {A B} (validate : A → outcome B) (a : field A) : outcome B :=
  match a with Given a => validate a | _ => Raise ValidationError end.

(** ** Lemmas *)

Lemma CharField_between_Ok lo hi s t :
  CharField_between lo hi s = Ok t →
  t = strip s ∧ t ≠ "" ∧ (lo <= String.length t <= hi)%nat ∧ no_null_char t = true.
Proof.
  unfold CharField_between. destruct (_ || _) eqn:Hc; [done|]. intros [= <-].
  rewrite !orb_false_iff, b_eq_false, negb_false_iff, !Nat.ltb_ge in Hc. naive_solver.
Qed.
