(* ===== verification/Effects.v ===== *)
(** * Effects

    The monad the handlers run in: a store (abstract for the
    framework-agnostic services, the Django database for the apps), the
    exceptions of [PyVal.v], the calls made to Stripe, the Celery queue, the
    clock and the UUID supply.  A Python exception keeps the state reached when
    it was raised: [catch] is [try ... except].

    Stripe is not in the repository.  Its server is a parameter, the
    [StripeServer] class: the answer to a call may depend on every earlier
    call, and may be any object or exception.  Calls are recorded in order. *)

From S2P Require Import Prelude PyVal.

#[local] Open Scope string_scope.

(** ** Requests to Stripe *)

(** One phase of a [SubscriptionSchedule.modify] call. *)
Record phase := Phase {
  ph_price : string;
  ph_quantity : Z;
  ph_start : json;
  ph_end : option json;
  ph_proration : string
}.

(** The keyword arguments of [Price.create], with [transfer_lookup_key=True], and of
    [Product.create] and [Product.modify]; absent ones are [None]. *)
Record price_params := PriceParams {
  prm_product : string;
  prm_unit_amount : Z;
  prm_currency : string;
  prm_lookup_key : string;
  prm_price_metadata : gmap string string;
  prm_interval : option string
}.

Record product_params := ProductParams {
  prm_name : option string;
  prm_description : option string;
  prm_metadata : option (gmap string string);
  prm_active : option bool
}.

(** A list call stands for the iteration over all its pages. *)
Inductive stripe_call :=
  | SubscriptionRetrieve (id : string)
  | SubscriptionModifyItem (id item_id : string) (price : option string) (quantity : Z)
      (proration : string)
  | SubscriptionModifyCancelAt (id cancel_at : string)
  | SubscriptionCancel (id : string) (prorate : option bool)
  | ScheduleRetrieve (id : string)
  | ScheduleCreate (from_subscription : string)
  | ScheduleModify (id end_behavior : string) (phases : list phase)
  | ScheduleRelease (id : string)
  | PriceRetrieve (id : string)
  | CustomerCreate (email : string) (name : option string) (locale : string)
      (metadata : list (string * string))
  | CustomerDelete (id : string)
  | CheckoutSessionCreate (params : json)
  | PortalSessionCreate (params : json)
  | PriceListByKeys (lookup_keys : list string)
  | PriceListByProduct (product : string)
  | PriceCreate (params : price_params)
  | PriceModify (id : string) (active : bool)
  | ProductCreate (params : product_params)
  | ProductModify (id : string) (params : product_params)
  | ProductListActive
  | SubscriptionListActive (price : string).

Class StripeServer := stripe_respond : list stripe_call → stripe_call → outcome json.

(** ** Celery tasks: one constructor per [@app.task] the code enqueues *)

Inductive task :=
  | process_stripe_webhook_delay (event_row_id : uuid)
  | delete_org_on_subscription_cancel_task_delay (org_id : string)
  | cancel_stripe_subs_task_delay (stripe_sub_ids : list string) (org_id : string)
  | send_verification_email_task_delay (email token : string)
  | send_password_reset_email_task_delay (email token : string)
  | send_social_link_email_task_delay (email token provider : string)
  | send_invitation_email_task_delay (email token org_name inviter_name : string)
  | send_subscription_cancel_notice_task_delay (emails : list string) (label action : string)
  | send_marketing_inquiry_email_task_delay (to source sender message : string).

(** ** The world and the monad *)

Record world (D : Type) := World {
  w_db : D;
  w_stripe : list stripe_call;
  w_tasks : list task;
  w_now : datetime;
  w_next : N
}.
Arguments World {D} _ _ _ _ _.
Arguments w_db {D} _.
Arguments w_stripe {D} _.
Arguments w_tasks {D} _.
Arguments w_now {D} _.
Arguments w_next {D} _.

Definition M (D A : Type) : Type := world D → outcome A * world D.

Section Effects.
  Context {D : Type}.
  Implicit Types w : world D.

#[export] Instance M_ret : MRet (M D) := λ A a w, (Ok a, w).
#[export] Instance M_bind : MBind (M D) := λ A B f m w,
    match m w with
    | (Ok a, w') => f a w'
    | (Raise e, w') => (Raise e, w')
    end.

Definition set_db (d : D) (w : world D) : world D :=
    World d w.(w_stripe) w.(w_tasks) w.(w_now) w.(w_next).
Definition set_tasks (ts : list task) (w : world D) : world D :=
    World w.(w_db) w.(w_stripe) ts w.(w_now) w.(w_next).
Definition set_now (t : datetime) (w : world D) : world D :=
    World w.(w_db) w.(w_stripe) w.(w_tasks) t w.(w_next).

Definition raise {A} (e : exn) : M D A := λ w, (Raise e, w).
Definition lift {A} (o : outcome A) : M D A := λ w, (o, w).
  (** A query: reads the store. *)
Definition query {A} (f : D → A) : M D A := λ w, (Ok (f w.(w_db)), w).
  (** A statement: updates the store or fails leaving it as it was. *)
Definition exec (f : D → outcome D) : M D unit := λ w,
    match f w.(w_db) with
    | Ok d => (Ok tt, set_db d w)
    | Raise e => (Raise e, w)
    end.
  (** [datetime.now(UTC)]: the clock does not advance inside a handler. *)
Definition utcnow : M D datetime := λ w, (Ok w.(w_now), w).
  (** [uuid.uuid4()]: a supply of identifiers never drawn before. *)
Definition uuid4 : M D uuid := λ w,
    (Ok w.(w_next), World w.(w_db) w.(w_stripe) w.(w_tasks) w.(w_now) (w.(w_next) + 1)%N).
  (** [task.delay(...)]. *)
Definition delay (t : task) : M D unit := λ w, (Ok tt, set_tasks (w.(w_tasks) ++ [t])%list w).
  (** [await asyncio.to_thread(stripe.X.y, ...)]. *)
Definition stripe `{StripeServer} (c : stripe_call) : M D json := λ w,
    (stripe_respond w.(w_stripe) c,
     World w.(w_db) (w.(w_stripe) ++ [c])%list w.(w_tasks) w.(w_now) w.(w_next)).
  (** [try: m except Exception as e: h(e)]. *)
Definition catch {A} (m : M D A) (h : exn → M D A) : M D A := λ w,
    match m w with
    | (Raise e, w') => h e w'
    | r => r
    end.
  (** [for a in l: f(a)]. *)
Fixpoint for_each {A} (f : A → M D unit) (l : list A) : M D unit :=
    match l with
    | [] => mret tt
    | a :: l => f a;; for_each f l
    end.
Definition when (b : bool) (m : M D unit) : M D unit := if b then m else mret tt.

  (** Hoare triples; the postcondition sees the outcome. *)
Definition hoare {A} (P : world D → Prop) (m : M D A) (Q : outcome A → world D → Prop) : Prop :=
    ∀ w, P w → Q (m w).1 (m w).2.

  (** [preserves I m]: whatever its outcome, [m] keeps [I]. *)
Definition preserves {A} (I : world D → Prop) (m : M D A) : Prop := hoare I m (λ _, I).

End Effects.

(** ** Running *)

Section Lemmas.
  Context {D : Type}.
  Implicit Types w : world D.

Lemma bind_run {A B} (m : M D A) (f : A → M D B) w :
  (m ≫= f) w = match m w with (Ok a, w') => f a w' | (Raise e, w') => (Raise e, w') end.
Proof. reflexivity. Qed.

Lemma bind_Ok {A B} (m : M D A) (f : A → M D B) w a w1 :
  m w = (Ok a, w1) → (m ≫= f) w = f a w1.
Proof. intros H. by rewrite bind_run, H. Qed.

Lemma bind_Raise {A B} (m : M D A) (f : A → M D B) w e w1 :
  m w = (Raise e, w1) → (m ≫= f) w = (Raise e, w1).
Proof. intros H. by rewrite bind_run, H. Qed.

Lemma bind_inv {A B} (m : M D A) (f : A → M D B) w r w' :
  (m ≫= f) w = (r, w') →
  (∃ a w1, m w = (Ok a, w1) ∧ f a w1 = (r, w')) ∨ (∃ e, m w = (Raise e, w') ∧ r = Raise e).
Proof. rewrite bind_run. destruct (m w) as [[a|e] w1]; [by eauto|]. intros [= <- <-]. eauto. Qed.

Lemma bind_Ok_inv {A B} (m : M D A) (f : A → M D B) w b w' :
  (m ≫= f) w = (Ok b, w') → ∃ a w1, m w = (Ok a, w1) ∧ f a w1 = (Ok b, w').
Proof. intros [?|(e & _ & ?)]%bind_inv; [done|congruence]. Qed.

Lemma lift_bind {A B} (o : outcome A) (f : A → M D B) w :
  (lift o ≫= f) w = match o with Ok a => f a w | Raise e => (Raise e, w) end.
Proof. by destruct o. Qed.

Lemma query_bind {A B} (q : D → A) (f : A → M D B) w : (query q ≫= f) w = f (q (w_db w)) w.
Proof. done. Qed.

(** ** Rules for invariants *)

Lemma hoare_bind {A B} P (m : M D A) (f : A → M D B) R (Q : outcome B → world D → Prop) :
  hoare P m R →
  (∀ a, hoare (R (Ok a)) (f a) Q) →
  (∀ e w, R (Raise e) w → Q (Raise e) w) →
  hoare P (m ≫= f) Q.
Proof.
  intros Hm Hf He w HP. specialize (Hm w HP). rewrite bind_run.
  destruct (m w) as [[a|e] w1]; [by apply Hf|by apply He].
Qed.

Lemma preserves_bind {A B} I (m : M D A) (f : A → M D B) :
  preserves I m → (∀ a, preserves I (f a)) → preserves I (m ≫= f).
Proof. intros Hm Hf. eapply hoare_bind; [exact Hm|exact Hf|done]. Qed.

Lemma preserves_bind_dep {A B} I (m : M D A) (f : A → M D B) :
  preserves I m → (∀ a w w', I w → m w = (Ok a, w') → I w' → I (f a w').2) → preserves I (m ≫= f).
Proof.
  intros Hm Hf w HI. specialize (Hm w HI). rewrite bind_run.
  specialize (Hf). destruct (m w) as [[a|e] w1] eqn:E; [|done]. by eapply Hf.
Qed.

Lemma preserves_ret {A} I (a : A) : preserves (D:=D) I (mret a).
Proof. intros w HI. exact HI. Qed.
Lemma preserves_raise {A} I e : preserves (D:=D) (A:=A) I (raise e).
Proof. intros w HI. exact HI. Qed.
Lemma preserves_lift {A} I (o : outcome A) : preserves (D:=D) I (lift o).
Proof. intros w HI. exact HI. Qed.
Lemma preserves_query {A} I (f : D → A) : preserves I (query f).
Proof. intros w HI. exact HI. Qed.
Lemma preserves_utcnow I : preserves (D:=D) I utcnow.
Proof. intros w HI. exact HI. Qed.
Lemma preserves_catch {A} I (m : M D A) h :
  preserves I m → (∀ e, preserves I (h e)) → preserves I (catch m h).
Proof.
  intros Hm Hh w HI. specialize (Hm w HI). unfold catch.
  destruct (m w) as [[a|e] w1]; [done|by apply Hh].
Qed.
Lemma preserves_when I b (m : M D unit) : preserves I m → preserves I (when b m).
Proof. destruct b; [done|intros _; apply preserves_ret]. Qed.
Lemma preserves_for_each {A} I (f : A → M D unit) l :
  (∀ a, preserves I (f a)) → preserves I (for_each f l).
Proof.
  intros Hf. induction l as [|a l IH]; [intros w HI; exact HI|].
  apply (preserves_bind); [apply Hf|done].
Qed.
Lemma preserves_if {A} I (b : bool) (m1 m2 : M D A) :
  preserves I m1 → preserves I m2 → preserves I (if b then m1 else m2).
Proof. by destruct b. Qed.
End Lemmas.

(** The rule of a loop: [I] of the elements gone through, [F] where one raises. *)
Lemma for_each_rule {D A} (f : A → M D unit) l (I : list A → world D → Prop) (F : world D → Prop) w :
  I [] w →
  (∀ gone a rest w0, l = gone ++ a :: rest → I gone w0 →
     match f a w0 with (Ok _, w1) => I (gone ++ [a]) w1 | (Raise _, w1) => F w1 end)%list →
  match for_each f l w with (Ok _, w1) => I l w1 | (Raise _, w1) => F w1 end.
Proof.
  intros H0 Hstep. assert (∀ gone rest w0, l = (gone ++ rest)%list → I gone w0 →
    match for_each f rest w0 with (Ok _, w1) => I l w1 | (Raise _, w1) => F w1 end) as Hrun.
  { intros gone rest. revert gone. induction rest as [|a rest IH]; intros gone w0 Hl HI.
    { rewrite app_nil_r in Hl. by subst. }
    cbn. rewrite bind_run. specialize (Hstep gone a rest w0 Hl HI).
    destruct (f a w0) as [[[]|e] w1]; [|done]. apply (IH (gone ++ [a])%list); [|done]. by rewrite <-app_assoc. }
  by apply (Hrun []).
Qed.

(** An invariant that reads the store only. *)
Definition db_inv {D} (P : D → Prop) (w : world D) : Prop := P w.(w_db).

Lemma preserves_stripe {D} `{StripeServer} (P : D → Prop) c : preserves (db_inv P) (stripe c).
Proof. intros w HI. exact HI. Qed.
Lemma preserves_uuid4 {D} (P : D → Prop) : preserves (db_inv P) uuid4.
Proof. intros w HI. exact HI. Qed.
Lemma preserves_delay {D} (P : D → Prop) t : preserves (db_inv P) (delay t).
Proof. intros w HI. exact HI. Qed.
Lemma preserves_exec {D} (P : D → Prop) f :
  (∀ d d', P d → f d = Ok d' → P d') → preserves (db_inv P) (exec f).
Proof.
  intros Hf w HP. unfold exec. destruct (f (w_db w)) as [d|e] eqn:E; [|done].
  cbn. by eapply Hf.
Qed.

(** ** Traces

    [emits P R m w]: run from [w], [m] only makes Stripe calls that satisfy [P], each
    with the log before it, and changes the store within [R]; whatever its outcome. *)

(** The calls [l] after the log [past], each with the log before it. *)
Fixpoint held (P : list stripe_call → stripe_call → Prop) (past l : list stripe_call) : Prop :=
  match l with
  | [] => True
  | c :: l => P past c ∧ held P (past ++ [c])%list l
  end.

Lemma held_app P past l1 l2 : held P past (l1 ++ l2) ↔ held P past l1 ∧ held P (past ++ l1) l2.
Proof.
  revert past. induction l1 as [|c l1 IH]; intros past; cbn.
  - rewrite app_nil_r. tauto.
  - rewrite IH, <-app_assoc. cbn. tauto.
Qed.

Lemma held_impl (P Q : list stripe_call → stripe_call → Prop) past l :
  (∀ past c, P past c → Q past c) → held P past l → held Q past l.
Proof. intros HPQ. revert past. induction l as [|c l IH]; intros past; cbn; [done|]. intros [Hc Hl]. eauto. Qed.

Lemma held_Forall (P : list stripe_call → stripe_call → Prop) (Q : stripe_call → Prop) past l :
  (∀ past c, P past c → Q c) → held P past l → Forall Q l.
Proof. intros HPQ. revert past. induction l as [|c l IH]; intros past; cbn; [done|]. intros [Hc Hl]. constructor; eauto. Qed.

(** [c] is in the log, and [r] was the answer. *)
Definition answered `{StripeServer} (log : list stripe_call) (c : stripe_call) (r : json) : Prop :=
  ∃ before after, log = (before ++ c :: after)%list ∧ stripe_respond before c = Ok r.

Lemma answered_app `{StripeServer} log c r more : answered log c r → answered (log ++ more) c r.
Proof.
  intros (before & after & -> & Hr). exists before, (after ++ more)%list. by rewrite <-app_assoc.
Qed.

Section Traces.
  Context {D : Type} (P : list stripe_call → stripe_call → Prop) (R : relation D) `{!PreOrder R}.
  Implicit Types w : world D.

Definition emits {A} (m : M D A) w : Prop :=
  ∃ l, w_stripe (m w).2 = (w_stripe w ++ l)%list ∧ held P (w_stripe w) l ∧ R (w_db w) (w_db (m w).2).

Lemma emits_bind {A B} (m : M D A) (f : A → M D B) w :
  emits m w → (∀ a w', m w = (Ok a, w') → emits (f a) w') → emits (m ≫= f) w.
Proof.
  unfold emits. intros (l1 & Hl1 & HP1 & HR1) Hf. rewrite bind_run.
  destruct (m w) as [[a|e] w1] eqn:E; [|by exists l1]. cbn in *.
  destruct (Hf a w1 eq_refl) as (l2 & Hl2 & HP2 & HR2). exists (l1 ++ l2)%list.
  split_and!; [by rewrite Hl2, Hl1, app_assoc|by rewrite held_app, <-Hl1|by etrans].
Qed.

Lemma emits_pure {A} (m : M D A) w : (m w).2 = w → emits m w.
Proof. intros Hm. exists []. rewrite Hm, app_nil_r. done. Qed.

Lemma emits_ret {A} (a : A) w : emits (mret a) w.
Proof. by apply emits_pure. Qed.
Lemma emits_raise {A} e w : emits (raise (A:=A) e) w.
Proof. by apply emits_pure. Qed.
Lemma emits_lift {A} (o : outcome A) w : emits (lift o) w.
Proof. by apply emits_pure. Qed.
Lemma emits_query {A} (q : D → A) w : emits (query q) w.
Proof. by apply emits_pure. Qed.
Lemma emits_utcnow w : emits utcnow w.
Proof. by apply emits_pure. Qed.
Lemma emits_uuid4 w : emits uuid4 w.
Proof. exists []. cbn. by rewrite app_nil_r. Qed.
Lemma emits_delay t w : emits (delay t) w.
Proof. exists []. cbn. by rewrite app_nil_r. Qed.
Lemma emits_stripe `{StripeServer} c w : P (w_stripe w) c → emits (stripe c) w.
Proof. intros Hc. exists [c]. cbn. done. Qed.

(** A call whose answer is used. *)
Lemma emits_ask `{StripeServer} {B} c (f : json → M D B) w :
  P (w_stripe w) c →
  (∀ j w', answered (w_stripe w') c j → w_stripe w' = (w_stripe w ++ [c])%list → emits (f j) w') →
  emits (stripe c ≫= f) w.
Proof.
  intros Hc Hf. apply emits_bind; [by apply emits_stripe|]. intros j w' [= Hr <-]. apply Hf; [|done]. by exists (w_stripe w), [].
Qed.

Lemma emits_lifted {A B} (o : outcome A) (f : A → M D B) w :
  (∀ a, o = Ok a → emits (f a) w) → emits (lift o ≫= f) w.
Proof. intros Hf. apply emits_bind; [apply emits_lift|]. intros a w' [= -> <-]. by apply Hf. Qed.
Lemma emits_exec f w : (∀ d, f (w_db w) = Ok d → R (w_db w) d) → emits (exec f) w.
Proof.
  intros Hf. exists []. unfold exec. destruct (f (w_db w)) as [d|e]; cbn; rewrite app_nil_r; [|done].
  split_and!; [done|constructor|by apply Hf].
Qed.

End Traces.

(** ** Runs against Stripe *)

(** [w] after the calls [l]. *)
Definition on_log {D} (w : world D) (l : list stripe_call) : world D :=
  World w.(w_db) (w.(w_stripe) ++ l)%list w.(w_tasks) w.(w_now) w.(w_next).

Section Runs.
  Context {D : Type} `{StripeServer}.
  Implicit Types w : world D.

Lemma on_log_nil w : on_log w [] = w.
Proof. destruct w. unfold on_log. cbn. by rewrite app_nil_r. Qed.

Lemma on_log_app w l1 l2 : on_log (on_log w l1) l2 = on_log w (l1 ++ l2).
Proof. unfold on_log. cbn. by rewrite <-app_assoc. Qed.

Lemma stripe_bind {B} c (f : json → M D B) w :
  (stripe c ≫= f) w =
  match stripe_respond w.(w_stripe) c with
  | Ok v => f v (on_log w [c])
  | Raise e => (Raise e, on_log w [c])
  end.
Proof. done. Qed.

(** Runs of [m] from [w] are described by [R]. *)
Definition runs_as (m : M D unit) (R : outcome unit → list stripe_call → Prop) w : Prop :=
  ∃ r l, m w = (r, on_log w l) ∧ R r l.

Lemma runs_as_lift {A} (o : outcome A) f (R : outcome unit → list stripe_call → Prop) w :
  (∀ e, R (Raise e) []) → (∀ a, o = Ok a → runs_as (f a) R w) → runs_as (lift o ≫= f) R w.
Proof.
  intros He Hf. unfold runs_as. rewrite lift_bind. destruct o as [a|e]; [by apply Hf|].
  exists (Raise e), []. by rewrite on_log_nil.
Qed.

Lemma runs_as_stripe c f (R : outcome unit → list stripe_call → Prop) w :
  (∀ e, R (Raise e) [c]) →
  (∀ v, stripe_respond (w_stripe w) c = Ok v → runs_as (f v) (λ r l, R r (c :: l)) (on_log w [c])) →
  runs_as (stripe c ≫= f) R w.
Proof.
  intros He Hf. unfold runs_as. rewrite stripe_bind. destruct (stripe_respond _ _) as [v|e]; [|by eauto].
  destruct (Hf v) as (r & l & Hr & HR); [done|]. exists r, (c :: l). by rewrite Hr, on_log_app.
Qed.

Lemma runs_as_raise e (R : outcome unit → list stripe_call → Prop) w :
  R (Raise e) [] → runs_as (raise e) R w.
Proof. intros HR. exists (Raise e), []. by rewrite on_log_nil. Qed.

(** The last call: the handler returns [None] or lets its exception through. *)
Lemma runs_as_last c (R : outcome unit → list stripe_call → Prop) w :
  (∀ r, R r [c]) → runs_as (stripe c;; mret tt) R w.
Proof. intros HR. unfold runs_as. rewrite stripe_bind. destruct (stripe_respond _ _); by eexists _, _. Qed.

Lemma runs_as_assoc {A B} (m : M D A) (g : A → M D B) f R w :
  runs_as (m ≫= λ a, g a ≫= f) R w → runs_as ((m ≫= g) ≫= f) R w.
Proof. unfold runs_as. rewrite !bind_run. by destruct (m w) as [[]]. Qed.

End Runs.

Create HintDb preserve discriminated.
#[export] Hint Resolve preserves_bind preserves_ret preserves_raise preserves_lift preserves_query
  preserves_utcnow preserves_catch preserves_when preserves_for_each preserves_if preserves_stripe preserves_uuid4
  preserves_delay : preserve.
#[export] Hint Extern 1 (preserves _ (match ?x with _ => _ end)) => destruct x : preserve.

(** [munfold] exposes the primitive steps as matches on outcomes. *)
Ltac munfold :=
  unfold mbind, M_bind, outcome_bind, mret, M_ret, outcome_ret, lift, raise, query, exec, utcnow,
    uuid4, delay, when, catch.
Tactic Notation "munfold" "in" hyp(H) :=
  unfold mbind, M_bind, outcome_bind, mret, M_ret, outcome_ret, lift, raise, query, exec, utcnow,
    uuid4, delay, when, catch in H.

(** [mcases] splits every remaining match, closing the contradictory branches. *)
Ltac mcases := repeat (case_match; simplify_eq/=; try done).
