(* ===== verification/Domain.v ===== *)
(** * Domain models

    [core/saasmint_core/domain]: the enumerations with their wire values, the
    frozen pydantic models with the [model_copy] updates the services make, and
    the role hierarchy of [core/saasmint_core/services/orgs.py]. *)

From S2P Require Import Prelude PyVal.

#[local] Open Scope string_scope.

(** ** Enumerations *)

Inductive SubscriptionStatus :=
  | ACTIVE | TRIALING | PAST_DUE | CANCELED | INCOMPLETE | INCOMPLETE_EXPIRED | PAUSED | UNPAID.

#[export] Instance SubscriptionStatus_eq_dec : EqDecision SubscriptionStatus.
Proof. solve_decision. Defined.

Definition status_value (s : SubscriptionStatus) : string :=
  match s with
  | ACTIVE => "active" | TRIALING => "trialing" | PAST_DUE => "past_due" | CANCELED => "canceled"
  | INCOMPLETE => "incomplete" | INCOMPLETE_EXPIRED => "incomplete_expired"
  | PAUSED => "paused" | UNPAID => "unpaid"
  end.

Definition all_statuses : list SubscriptionStatus :=
  [ACTIVE; TRIALING; PAST_DUE; CANCELED; INCOMPLETE; INCOMPLETE_EXPIRED; PAUSED; UNPAID].

(** [SubscriptionStatus(s)]. *)
Definition status_of_value (s : string) : outcome SubscriptionStatus :=
  match list_find (λ st, status_value st = s) all_statuses with
  | Some (_, st) => Ok st
  | None => Raise (ValueError ("'" ++ s ++ "' is not a valid SubscriptionStatus"))
  end.

Definition ACTIVE_SUBSCRIPTION_STATUSES : list SubscriptionStatus := [ACTIVE; TRIALING; PAST_DUE].

Definition is_active_status (s : SubscriptionStatus) : bool :=
  bool_decide (s ∈ ACTIVE_SUBSCRIPTION_STATUSES).

Inductive PlanInterval := MONTH | YEAR.
Inductive PlanContext := PERSONAL | TEAM.
Inductive PlanTier := FREE | BASIC | PRO.

#[export] Instance PlanInterval_eq_dec : EqDecision PlanInterval.
Proof. solve_decision. Defined.
#[export] Instance PlanContext_eq_dec : EqDecision PlanContext.
Proof. solve_decision. Defined.
#[export] Instance PlanTier_eq_dec : EqDecision PlanTier.
Proof. solve_decision. Defined.

Definition context_value (c : PlanContext) : string :=
  match c with PERSONAL => "personal" | TEAM => "team" end.

Inductive OrgRole := OWNER | ADMIN | MEMBER.
Inductive InvitationStatus := PENDING | ACCEPTED | EXPIRED | CANCELLED | DECLINED.

#[export] Instance OrgRole_eq_dec : EqDecision OrgRole.
Proof. solve_decision. Defined.
#[export] Instance InvitationStatus_eq_dec : EqDecision InvitationStatus.
Proof. solve_decision. Defined.

(** ** Models *)

Record Plan := mkPlan {
  plan_id : uuid;
  plan_name : string;
  plan_description : string;
  plan_context : PlanContext;
  plan_tier : PlanTier;
  plan_interval : PlanInterval;
  plan_is_active : bool
}.

Record PlanPrice := mkPlanPrice {
  pp_id : uuid;
  pp_plan_id : uuid;
  pp_stripe_price_id : string;
  pp_amount : Z
}.

Record Product := mkProduct {
  prod_id : uuid;
  prod_name : string;
  prod_credits : Z;
  prod_is_active : bool
}.

Record Subscription := mkSubscription {
  sub_id : uuid;
  sub_stripe_id : option string;
  sub_stripe_customer_id : option uuid;
  sub_user_id : option uuid;
  sub_status : SubscriptionStatus;
  sub_plan_id : uuid;
  sub_seat_limit : Z;
  sub_trial_ends_at : option datetime;
  sub_current_period_start : datetime;
  sub_current_period_end : datetime;
  sub_canceled_at : option datetime;
  sub_cancel_at : option datetime;
  sub_scheduled_plan_id : option uuid;
  sub_scheduled_change_at : option datetime;
  sub_currency : string;
  sub_created_at : datetime
}.

#[export] Instance Subscription_eq_dec : EqDecision Subscription.
Proof. solve_decision. Defined.

Record StripeCustomer := mkStripeCustomer {
  cus_id : uuid;
  cus_stripe_id : string;
  cus_user_id : option uuid;
  cus_org_id : option uuid;
  cus_livemode : bool;
  cus_created_at : datetime
}.

#[export] Instance StripeCustomer_eq_dec : EqDecision StripeCustomer.
Proof. solve_decision. Defined.

(** The validator [exactly_one_owner]. *)
Definition exactly_one_owner (user_id org_id : option uuid) : bool :=
  negb (eqb (not_none user_id) (not_none org_id)).

(** [StripeCustomer(...)]: construction runs the validator. *)
Definition new_StripeCustomer (id : uuid) (stripe_id : string) (user_id org_id : option uuid)
    (livemode : bool) (created_at : datetime) : outcome StripeCustomer :=
  if exactly_one_owner user_id org_id
  then Ok (mkStripeCustomer id stripe_id user_id org_id livemode created_at)
  else Raise (ValueError "exactly one of user_id or org_id must be set").

Record User := mkUser {
  du_id : uuid;
  du_email : string;
  du_full_name : string;
  du_avatar_url : option string;
  du_preferred_locale : string;
  du_preferred_currency : string;
  du_pronouns : option string;
  du_is_verified : bool;
  du_created_at : datetime;
  du_updated_at : option datetime
}.

Record StripeEvent := mkStripeEvent {
  ev_id : uuid;
  ev_stripe_id : string;
  ev_type : string;
  ev_livemode : bool;
  ev_payload : json;
  ev_processed_at : option datetime;
  ev_error : option string;
  ev_created_at : datetime
}.

(** ** [model_copy(update=...)] *)

Definition sub_copy_canceled (s : Subscription) (now : datetime) : Subscription :=
  mkSubscription s.(sub_id) s.(sub_stripe_id) s.(sub_stripe_customer_id) s.(sub_user_id)
    CANCELED s.(sub_plan_id) s.(sub_seat_limit) s.(sub_trial_ends_at)
    s.(sub_current_period_start) s.(sub_current_period_end) (Some now) s.(sub_cancel_at)
    s.(sub_scheduled_plan_id) s.(sub_scheduled_change_at) s.(sub_currency) s.(sub_created_at).

Definition sub_copy_scheduled (s : Subscription) (plan : option uuid) (at_ : option datetime) :
    Subscription :=
  mkSubscription s.(sub_id) s.(sub_stripe_id) s.(sub_stripe_customer_id) s.(sub_user_id)
    s.(sub_status) s.(sub_plan_id) s.(sub_seat_limit) s.(sub_trial_ends_at)
    s.(sub_current_period_start) s.(sub_current_period_end) s.(sub_canceled_at) s.(sub_cancel_at)
    plan at_ s.(sub_currency) s.(sub_created_at).

Definition sub_copy_seats (s : Subscription) (n : Z) : Subscription :=
  mkSubscription s.(sub_id) s.(sub_stripe_id) s.(sub_stripe_customer_id) s.(sub_user_id)
    s.(sub_status) s.(sub_plan_id) n s.(sub_trial_ends_at)
    s.(sub_current_period_start) s.(sub_current_period_end) s.(sub_canceled_at) s.(sub_cancel_at)
    s.(sub_scheduled_plan_id) s.(sub_scheduled_change_at) s.(sub_currency) s.(sub_created_at).

Definition sub_copy_cancel_state (s : Subscription) (cancel_at canceled_at : option datetime)
    (status : SubscriptionStatus) : Subscription :=
  mkSubscription s.(sub_id) s.(sub_stripe_id) s.(sub_stripe_customer_id) s.(sub_user_id)
    status s.(sub_plan_id) s.(sub_seat_limit) s.(sub_trial_ends_at)
    s.(sub_current_period_start) s.(sub_current_period_end) canceled_at cancel_at
    s.(sub_scheduled_plan_id) s.(sub_scheduled_change_at) s.(sub_currency) s.(sub_created_at).

Definition sub_with_created_at (s : Subscription) (t : datetime) : Subscription :=
  mkSubscription s.(sub_id) s.(sub_stripe_id) s.(sub_stripe_customer_id) s.(sub_user_id)
    s.(sub_status) s.(sub_plan_id) s.(sub_seat_limit) s.(sub_trial_ends_at)
    s.(sub_current_period_start) s.(sub_current_period_end) s.(sub_canceled_at) s.(sub_cancel_at)
    s.(sub_scheduled_plan_id) s.(sub_scheduled_change_at) s.(sub_currency) t.

(** The model's documented invariant: [scheduled_plan_id] and
    [scheduled_change_at] are both set or both [None]. *)
Definition scheduled_pair (s : Subscription) : Prop :=
  is_Some s.(sub_scheduled_plan_id) ↔ is_Some s.(sub_scheduled_change_at).

(** Equality of two mirrors up to [created_at], which the database owns. *)
Definition sub_equiv (s1 s2 : Subscription) : Prop :=
  sub_with_created_at s1 0 = sub_with_created_at s2 0.

#[export] Instance Subscription_equiv : Equiv Subscription := sub_equiv.

(** ** Roles: [core/saasmint_core/services/orgs.py] *)

Definition ORG_ROLE_RANK (r : OrgRole) : Z :=
  match r with OWNER => 3 | ADMIN => 2 | MEMBER => 1 end.

Definition check_can_manage_member (caller_role target_role : OrgRole) : outcome unit :=
  if (ORG_ROLE_RANK caller_role <=? ORG_ROLE_RANK target_role)%Z
  then Raise (InsufficientPermissionError "Insufficient permissions for this action.")
  else Ok tt.

Definition check_can_assign_role (caller_role new_role : OrgRole) : outcome unit :=
  if (ORG_ROLE_RANK caller_role <=? ORG_ROLE_RANK new_role)%Z
  then Raise (InsufficientPermissionError "Cannot assign a role equal to or above your own.")
  else Ok tt.

(** ** Lemmas *)

Lemma status_value_inj s1 s2 : status_value s1 = status_value s2 → s1 = s2.
Proof. by destruct s1, s2. Qed.

Lemma status_of_value_value st : status_of_value (status_value st) = Ok st.
Proof. by destruct st. Qed.

Lemma status_of_value_Ok s st : status_of_value s = Ok st ↔ s = status_value st.
Proof.
  split; [|intros ->; apply status_of_value_value]. unfold status_of_value.
  destruct (list_find _ _) as [[i st']|] eqn:E; [|done]. intros [= <-].
  apply list_find_Some in E as (_ & -> & _). done.
Qed.

#[export] Instance sub_equiv_equivalence : Equivalence (≡@{Subscription}).
Proof. split; unfold equiv, Subscription_equiv, sub_equiv; congruence. Qed.

#[export] Instance sub_status_proper : Proper ((≡) ==> (=)) sub_status.
Proof. intros [] []. by inversion 1. Qed.
#[export] Instance sub_id_proper : Proper ((≡) ==> (=)) sub_id.
Proof. intros [] []. by inversion 1. Qed.
#[export] Instance sub_stripe_id_proper : Proper ((≡) ==> (=)) sub_stripe_id.
Proof. intros [] []. by inversion 1. Qed.
#[export] Instance sub_scheduled_plan_id_proper : Proper ((≡) ==> (=)) sub_scheduled_plan_id.
Proof. intros [] []. by inversion 1. Qed.
#[export] Instance sub_scheduled_change_at_proper : Proper ((≡) ==> (=)) sub_scheduled_change_at.
Proof. intros [] []. by inversion 1. Qed.
#[export] Instance scheduled_pair_proper : Proper ((≡) ==> iff) scheduled_pair.
Proof. intros s1 s2 H. unfold scheduled_pair. by rewrite H. Qed.
#[export] Instance sub_copy_scheduled_proper :
  Proper ((≡) ==> (=) ==> (=) ==> (≡)) sub_copy_scheduled.
Proof. intros [] [] H ?? -> ?? ->. by inversion H. Qed.

Lemma sub_with_created_at_equiv s t : sub_with_created_at s t ≡ s.
Proof. done. Qed.
