(* ===== verification/StripeObjects.v ===== *)
(** * Stripe objects

    The JSON objects Stripe sends, in the shape its documentation gives them:
    the specifications of the webhook and subscription services quantify over
    these records. *)

From S2P Require Import Prelude PyVal Effects Domain.

#[local] Open Scope string_scope.

(** ** Subscriptions *)

(** The fields of a subscription object in the shape Stripe documents; API
    versions since 2024-06 carry the period on the line item, older ones on the
    subscription. *)
Record SubObj := mkSubObj {
  so_id : string;
  so_customer : string;
  so_status : SubscriptionStatus;
  so_item : string;
  so_price : string;
  so_amount : Z;
  so_quantity : Z;
  so_period_on_item : bool;
  so_period_start : Z;
  so_period_end : Z;
  so_trial_end : option Z;
  so_canceled_at : option Z;
  so_cancel_at : option Z;
  so_currency : string;
  so_schedule : option string
}.

Definition opt_num (o : option Z) : json := match o with Some z => JNum z | None => JNull end.

Definition so_period (o : SubObj) : list (string * json) :=
  [("current_period_start", JNum o.(so_period_start)); ("current_period_end", JNum o.(so_period_end))].

Definition so_item_json (o : SubObj) : json :=
  JObj ([("id", JStr o.(so_item));
         ("price", JObj [("id", JStr o.(so_price)); ("currency", JStr o.(so_currency));
                         ("unit_amount", JNum o.(so_amount))]);
         ("quantity", JNum o.(so_quantity))]
        ++ if o.(so_period_on_item) then so_period o else []).

Definition so_json (o : SubObj) : json :=
  JObj ([("id", JStr o.(so_id)); ("customer", JStr o.(so_customer));
         ("status", JStr (status_value o.(so_status)));
         ("items", JObj [("data", JArr [so_item_json o])]);
         ("trial_end", opt_num o.(so_trial_end)); ("canceled_at", opt_num o.(so_canceled_at));
         ("cancel_at", opt_num o.(so_cancel_at)); ("currency", JStr o.(so_currency));
         ("schedule", match o.(so_schedule) with Some k => JStr k | None => JNull end)]
        ++ if o.(so_period_on_item) then [] else so_period o).

Definition ts_ok (t : Z) : bool := ((dt_min <=? t) && (t <=? dt_max))%Z.

Definition so_wf (o : SubObj) : bool :=
  ts_ok o.(so_period_start) && ts_ok o.(so_period_end)
  && forallb (λ t, match t with Some t => ts_ok t | None => true end)
       [o.(so_trial_end); o.(so_canceled_at); o.(so_cancel_at)]
  && negb (b_eq o.(so_currency) "").

Definition usec (t : Z) : datetime := (t * 1000000)%Z.

(** ** Schedules *)

(** The schedule Stripe keeps after a [SubscriptionSchedule.modify]: it echoes
    the phases it was given. *)
Definition phase_json (p : phase) : json :=
  JObj [("items", JArr [JObj [("price", JStr p.(ph_price)); ("quantity", JNum p.(ph_quantity))]]);
        ("start_date", p.(ph_start)); ("end_date", or_else p.(ph_end) JNull);
        ("proration_behavior", JStr p.(ph_proration))].

Definition schedule_json (id sub : string) (phases : list phase) : json :=
  JObj [("id", JStr id); ("subscription", JStr sub); ("phases", JArr (map phase_json phases))].

Lemma fromtimestamp_ok t : ts_ok t = true → fromtimestamp t = Ok (usec t).
Proof. unfold ts_ok, fromtimestamp. by intros ->. Qed.

Lemma ts_to_dt_opt o :
  match o with Some t => ts_ok t | None => true end = true → ts_to_dt (opt_num o) = Ok (usec <$> o).
Proof. destruct o as [t|]; [|done]. intros Ht. unfold ts_to_dt. cbn. by rewrite fromtimestamp_ok. Qed.
