(* ===== verification/Repos.v ===== *)
(** * Repository protocols

    [core/saasmint_core/repositories]: the protocols the framework-agnostic
    services are written against, as operational type classes over an abstract
    store [D], with the laws the services rely on.  [Repositories.v] gives the
    Django implementation and discharges the laws. *)

From S2P Require Import Prelude PyVal Effects Domain.

(** ** The protocols *)

Class SubscriptionRepository (D : Type) := {
  subs_get_by_stripe_id : D → string → option Subscription;
  subs_get_active_for_user : D → uuid → option Subscription;
  subs_get_active_for_customer : D → uuid → option Subscription;
  subs_save_db : datetime → Subscription → D → outcome D
}.

(** [save] may draw a primary key for a new row: the second argument. *)
Class StripeCustomerRepository (D : Type) := {
  custs_get_by_id : D → uuid → option StripeCustomer;
  custs_get_by_stripe_id : D → string → option StripeCustomer;
  custs_get_by_user_id : D → uuid → option StripeCustomer;
  custs_get_by_org_id : D → uuid → option StripeCustomer;
  custs_save_db : datetime → uuid → StripeCustomer → D → outcome D;
  custs_delete_db : uuid → D → D
}.

Class PlanRepository (D : Type) := {
  plans_list_active : D → list Plan;
  plans_get_price_by_stripe_id : D → string → option PlanPrice
}.

Class UserRepository (D : Type) := {
  users_get_by_id : D → uuid → option User;
  users_hard_delete_db : uuid → D → D
}.

(** [events_status] observes a stored event: its [processed_at] and [error]. *)
Class StripeEventRepository (D : Type) := {
  events_status : D → string → option (option datetime * option string);
  events_mark_processed_db : datetime → string → D → D;
  events_mark_failed_db : string → string → D → D
}.

(** ** The async methods *)

Section Methods.
  Context {D : Type}.

Definition subs_save `{SubscriptionRepository D} (s : Subscription) : M D Subscription :=
  now ← utcnow; exec (subs_save_db now s);; mret s.

Definition custs_save `{StripeCustomerRepository D} (c : StripeCustomer) : M D StripeCustomer :=
  now ← utcnow; pk ← uuid4; exec (custs_save_db now pk c);; mret c.

Definition custs_delete `{StripeCustomerRepository D} (id : uuid) : M D unit :=
  exec (λ d, Ok (custs_delete_db id d)).

Definition users_hard_delete `{UserRepository D} (id : uuid) : M D unit :=
  exec (λ d, Ok (users_hard_delete_db id d)).

Definition events_mark_processed `{StripeEventRepository D} (k : string) : M D unit :=
  now ← utcnow; exec (λ d, Ok (events_mark_processed_db now k d)).

Definition events_mark_failed `{StripeEventRepository D} (k err : string) : M D unit :=
  exec (λ d, Ok (events_mark_failed_db k err d)).

End Methods.

(** ** The laws *)

(** What the services rely on from a subscription repository: rows are keyed by
    [stripe_id]; [save] upserts by [id], keeps every other row, and fails only
    on a key conflict or a missing reference. *)
Class SubscriptionRepositoryLaws (D : Type) `{SubscriptionRepository D}
    `{StripeCustomerRepository D} `{PlanRepository D} := {
  subs_valid : D → Prop;
  subs_refs : D → Subscription → Prop;
  subs_get_key d k s :
    subs_valid d → subs_get_by_stripe_id d k = Some s → s.(sub_stripe_id) = Some k;
  subs_get_id_inj d k1 k2 s1 s2 :
    subs_valid d → subs_get_by_stripe_id d k1 = Some s1 → subs_get_by_stripe_id d k2 = Some s2 →
    s1.(sub_id) = s2.(sub_id) → s1 = s2;
  subs_save_valid t s d d' : subs_valid d → subs_save_db t s d = Ok d' → subs_valid d';
  subs_save_get t s d d' k :
    subs_valid d → subs_save_db t s d = Ok d' → s.(sub_stripe_id) = Some k →
    ∃ s', subs_get_by_stripe_id d' k = Some s' ∧ s' ≡ s ∧
      ∀ s0, subs_get_by_stripe_id d k = Some s0 → sub_created_at s' = sub_created_at s0;
  subs_save_frame t s d d' k s0 :
    subs_valid d → subs_save_db t s d = Ok d' → s0.(sub_id) ≠ s.(sub_id) →
    subs_get_by_stripe_id d' k = Some s0 ↔ subs_get_by_stripe_id d k = Some s0;
  subs_save_id t s d d' k s0 :
    subs_valid d → subs_save_db t s d = Ok d' → s.(sub_stripe_id) = Some k →
    subs_get_by_stripe_id d k = Some s0 → s0.(sub_id) = s.(sub_id);
  subs_save_ok t s d :
    subs_valid d → subs_refs d s →
    (∀ k s0, s.(sub_stripe_id) = Some k → subs_get_by_stripe_id d k = Some s0 →
      s0.(sub_id) = s.(sub_id)) →
    ∃ d', subs_save_db t s d = Ok d';
  subs_save_refs t s d d' :
    subs_save_db t s d = Ok d' → subs_refs d s ∧ ∀ s0, subs_refs d s0 → subs_refs d' s0;
  subs_refs_equiv d s1 s2 : s1 ≡ s2 → subs_refs d s1 → subs_refs d s2;
  subs_refs_canceled d s t : subs_refs d s → subs_refs d (sub_copy_canceled s t);
  subs_save_reads t s d d' :
    subs_save_db t s d = Ok d' →
    custs_get_by_stripe_id d' = custs_get_by_stripe_id d ∧
    custs_get_by_id d' = custs_get_by_id d ∧
    plans_get_price_by_stripe_id d' = plans_get_price_by_stripe_id d;
  subs_active_for_customer d c s :
    subs_valid d → subs_get_active_for_customer d c = Some s →
    is_active_status s.(sub_status) = true ∧ s.(sub_stripe_customer_id) = Some c ∧
    ∀ k, s.(sub_stripe_id) = Some k → subs_get_by_stripe_id d k = Some s
}.

(** What the services rely on from a customer repository: [save] upserts by
    owner. *)
Class StripeCustomerRepositoryLaws (D : Type) `{StripeCustomerRepository D} := {
  custs_valid : D → Prop;
  custs_save_get_user t pk c d d' u :
    custs_valid d → custs_save_db t pk c d = Ok d' → c.(cus_user_id) = Some u →
    ∃ c', custs_get_by_user_id d' u = Some c' ∧ cus_stripe_id c' = cus_stripe_id c ∧
      cus_user_id c' = cus_user_id c ∧ cus_org_id c' = cus_org_id c;
  custs_save_get_org t pk c d d' o :
    custs_valid d → custs_save_db t pk c d = Ok d' → c.(cus_user_id) = None →
    c.(cus_org_id) = Some o →
    ∃ c', custs_get_by_org_id d' o = Some c' ∧ cus_stripe_id c' = cus_stripe_id c ∧
      cus_user_id c' = cus_user_id c ∧ cus_org_id c' = cus_org_id c
}.

(** [hard_delete] removes one user. *)
Class UserRepositoryLaws (D : Type) `{UserRepository D} := {
  users_hard_delete_get u d u' :
    users_get_by_id (users_hard_delete_db u d) u' =
    if decide (u' = u) then None else users_get_by_id d u'
}.

(** A stored event's status changes exactly as the two [mark_*] methods say. *)
Class StripeEventRepositoryLaws (D : Type) `{StripeEventRepository D} := {
  events_mark_processed_status t k d k' :
    events_status (events_mark_processed_db t k d) k' =
    if decide (k' = k) then const (Some t, None) <$> events_status d k else events_status d k';
  events_mark_failed_status k err d k' :
    events_status (events_mark_failed_db k err d) k' =
    if decide (k' = k) then (λ st, (st.1, Some err)) <$> events_status d k else events_status d k'
}.

(** Marking an event leaves the subscriptions alone. *)
Class StripeEventFrame (D : Type) `{SubscriptionRepositoryLaws D} `{!StripeEventRepository D} := {
  events_mark_processed_subs t k d :
    subs_get_by_stripe_id (events_mark_processed_db t k d) = subs_get_by_stripe_id d;
  events_mark_failed_subs k err d :
    subs_get_by_stripe_id (events_mark_failed_db k err d) = subs_get_by_stripe_id d;
  events_mark_processed_valid t k d : subs_valid d → subs_valid (events_mark_processed_db t k d);
  events_mark_failed_valid k err d : subs_valid d → subs_valid (events_mark_failed_db k err d)
}.
