(* ===== verification/Relational.v ===== *)
(** * Tables and constraints

    The part of a relational database the Django models rely on: tables keyed by
    primary key, and a schema per table with its column types, CHECK
    constraints, (partial) unique constraints and foreign keys.  A statement
    that would break one fails with Django's [DataError] or [IntegrityError] and
    leaves the table as it was. *)

From S2P Require Import Prelude PyVal.

#[local] Open Scope string_scope.

Abbreviation table A := (gmap N A).

(** A component of a unique key. *)
Inductive kv := KN (n : N) | KS (s : string).

#[export] Instance kv_eq_dec : EqDecision kv.
Proof. solve_decision. Defined.

(** [T] names the tables of a database.  A unique key is [None] on the rows a
    partial constraint leaves out (and on NULL columns). *)
Record schema (T A : Type) := Schema {
  sc_fits : A → bool;
  sc_checks : A → bool;
  sc_uniques : list (A → option (list kv));
  sc_refs : A → list (T * N)
}.
Arguments Schema {T A} _ _ _ _.
Arguments sc_fits {T A} _ _.
Arguments sc_checks {T A} _ _.
Arguments sc_uniques {T A} _.
Arguments sc_refs {T A} _ _.

(** ** Definitions *)

(** A nullable foreign key. *)
Definition ref_opt {T} (t : T) (o : option N) : list (T * N) :=
  match o with Some n => [(t, n)] | None => [] end.

Definition unique_on {A} (key : A → option (list kv)) (t : table A) : Prop :=
  map_Forall (λ i a, map_Forall (λ j b, is_Some (key a) → key a = key b → i = j) t) t.

(** Another row of [t] holds the key of [a]. *)
Definition conflicts {A} (key : A → option (list kv)) (i : N) (a : A) (t : table A) : bool :=
  match key a with
  | None => false
  | Some k => existsb (λ p, negb (b_eq p.1 i) && b_eq (key p.2) (Some k)) (map_to_list t)
  end.

Section Tables.
  Context {T A : Type} (sc : schema T A) (has : T → N → bool).

(** INSERT or UPDATE of one row. *)
Definition tput (i : N) (a : A) (t : table A) : outcome (table A) :=
  if negb (sc.(sc_fits) a) then Raise (DataError "value out of range for the column type")
  else if negb (sc.(sc_checks) a) then Raise (IntegrityError "check constraint")
  else if existsb (λ key, conflicts key i a t) sc.(sc_uniques)
       then Raise (IntegrityError "duplicate key value")
  else if negb (forallb (λ r, has r.1 r.2) (sc.(sc_refs) a))
       then Raise (IntegrityError "foreign key constraint")
  else Ok (<[i := a]> t).

Definition row_ok (a : A) : bool :=
  sc.(sc_fits) a && sc.(sc_checks) a && forallb (λ r, has r.1 r.2) (sc.(sc_refs) a).

(** Every constraint of the schema holds. *)
Definition table_ok (t : table A) : Prop :=
  map_Forall (λ _ a, row_ok a = true) t ∧ Forall (λ key, unique_on key t) sc.(sc_uniques).

End Tables.

#[export] Instance unique_on_dec {A} (key : A → option (list kv)) t : Decision (unique_on key t).
Proof. unfold unique_on. apply _. Defined.

#[export] Instance table_ok_dec {T A} (sc : schema T A) has t : Decision (table_ok sc has t).
Proof. unfold table_ok. apply _. Defined.

(** ** Queries *)

Definition rows {A} (t : table A) : list (N * A) := map_to_list t.

(** The matching row with the greatest [f]. *)
Definition newer {A} (f : N → A → Z) (best : option (N * A)) (r : N * A) : option (N * A) :=
  match best with
  | Some b => if (f b.1 b.2 <? f r.1 r.2)%Z then Some r else best
  | None => Some r
  end.

Definition tbest {A} (f : N → A → Z) (p : N → A → bool) (t : table A) : option (N * A) :=
  foldl (newer f) None (filter (λ r, p r.1 r.2 = true) (rows t)).

(** [.first()] of an unordered queryset: the lowest primary key. *)
Definition tfind {A} (p : N → A → bool) (t : table A) : option (N * A) :=
  tbest (λ i _, (- Z.of_N i)%Z) p t.

(** [.latest(f)] and [.order_by("-f").first()]. *)
Definition tlatest {A} (f : A → Z) (p : N → A → bool) (t : table A) : option (N * A) :=
  tbest (λ _ a, f a) p t.

Definition tcount {A} (p : N → A → bool) (t : table A) : nat :=
  length (filter (λ r, p r.1 r.2 = true) (rows t)).

Definition tfilter {A} (p : N → A → bool) (t : table A) : table A :=
  filter (λ r, p r.1 r.2 = true) t.

(** ** Lemmas *)

Lemma rows_elem {A} (t : table A) i a : (i, a) ∈ rows t ↔ t !! i = Some a.
Proof. apply elem_of_map_to_list. Qed.

Lemma foldl_newer {A} (f : N → A → Z) l best r :
  foldl (newer f) best l = Some r →
  (best = Some r ∨ r ∈ l) ∧ (∀ b, best = Some b → (f b.1 b.2 <= f r.1 r.2)%Z) ∧
  ∀ x, x ∈ l → (f x.1 x.2 <= f r.1 r.2)%Z.
Proof.
  revert best. induction l as [|x l IH]; intros best; cbn.
  - intros ->. split_and!; [by left| |by intros ? ?%elem_of_nil].
    intros b [= ->]. lia.
  - intros Hr. destruct (IH _ Hr) as (Hin & Hb & Hl). unfold newer in *. split_and!.
    + destruct Hin as [Hin|Hin]; [|right; by constructor]. destruct best as [b|].
      * case_match; [right|by left]. injection Hin as ->. by constructor.
      * injection Hin as ->. right. by constructor.
    + intros b ->. case_match eqn:E; [|by apply Hb]. apply Z.ltb_lt in E.
      pose proof (Hb x eq_refl). lia.
    + intros y [->|Hy]%elem_of_cons; [|by apply Hl]. destruct best as [b|].
      * case_match eqn:E; [by apply Hb|]. apply Z.ltb_ge in E. pose proof (Hb b eq_refl). lia.
      * by apply Hb.
Qed.

Lemma foldl_newer_None {A} (f : N → A → Z) l best :
  foldl (newer f) best l = None ↔ best = None ∧ l = [].
Proof.
  revert best. induction l as [|x l IH]; intros best; cbn; [naive_solver|]. rewrite IH. unfold newer.
  destruct best as [b|]; [case_match|]; naive_solver.
Qed.

Lemma tbest_Some {A} (f : N → A → Z) p (t : table A) i a :
  tbest f p t = Some (i, a) →
  t !! i = Some a ∧ p i a = true ∧
  ∀ j b, t !! j = Some b → p j b = true → (f j b <= f i a)%Z.
Proof.
  unfold tbest. intros [[?|Hin] [_ Hmax]]%foldl_newer; [done|].
  apply list_elem_of_filter in Hin as [Hp Hin]. apply rows_elem in Hin. cbn in *.
  split_and!; [done|done|]. intros j b Hb Hpb. apply (Hmax (j, b)).
  apply list_elem_of_filter. split; [done|]. by apply rows_elem.
Qed.

Lemma tbest_None {A} (f : N → A → Z) p (t : table A) :
  tbest f p t = None ↔ ∀ i a, t !! i = Some a → p i a = false.
Proof.
  unfold tbest. rewrite foldl_newer_None. split.
  - intros [_ Hnil] i a Ha. destruct (p i a) eqn:Hp; [|done].
    assert ((i, a) ∈ filter (λ r, p r.1 r.2 = true) (rows t)) as Hin.
    { apply list_elem_of_filter. split; [done|]. by apply rows_elem. }
    rewrite Hnil in Hin. by apply elem_of_nil in Hin.
  - intros H. split; [done|].
    destruct (filter (λ r, p r.1 r.2 = true) (rows t)) as [|[i a] l] eqn:E; [done|].
    assert ((i, a) ∈ filter (λ r, p r.1 r.2 = true) (rows t)) as Hin by (rewrite E; by constructor).
    apply list_elem_of_filter in Hin as [Hp Hin]. apply rows_elem in Hin. cbn in *.
    by rewrite (H _ _ Hin) in Hp.
Qed.

(** A rewrite of rows the query cannot see is a rewrite of its result. *)
Lemma tbest_fmap {A} (f : N → A → Z) p (g : A → A) (t : table A) :
  (∀ i a, p i (g a) = p i a) → (∀ i a, f i (g a) = f i a) →
  tbest f p (g <$> t) = prod_map id g <$> tbest f p t.
Proof.
  intros Hp Hf. unfold tbest, rows. rewrite map_to_list_fmap.
  assert (∀ l best, foldl (newer f) (prod_map id g <$> best)
            (filter (λ r, p r.1 r.2 = true) (prod_map id g <$> l)) =
          prod_map id g <$> foldl (newer f) best (filter (λ r, p r.1 r.2 = true) l)) as H.
  { induction l as [|[i a] l IH]; intros best; [done|]. rewrite fmap_cons.
    destruct (decide (p i a = true)) as [E|E].
    - rewrite !filter_cons_True by (cbn; by rewrite ?Hp). cbn [foldl]. rewrite <-IH. f_equal.
      unfold newer. destruct best as [[j b]|]; cbn; [|done]. rewrite !Hf. by case_match.
    - rewrite !filter_cons_False by (cbn; by rewrite ?Hp). apply IH. }
  apply (H _ None).
Qed.

Lemma tfind_Some {A} (p : N → A → bool) t i a :
  tfind p t = Some (i, a) → t !! i = Some a ∧ p i a = true.
Proof. intros (? & ? & _)%tbest_Some. done. Qed.

Lemma tfind_None {A} (p : N → A → bool) t :
  tfind p t = None ↔ ∀ i a, t !! i = Some a → p i a = false.
Proof. apply tbest_None. Qed.

Lemma tfind_is_Some {A} (p : N → A → bool) t i a :
  t !! i = Some a → p i a = true → ∃ j b, tfind p t = Some (j, b).
Proof.
  intros Ha Hp. destruct (tfind p t) as [[j b]|] eqn:E; [by eauto|].
  rewrite tfind_None in E. by rewrite (E _ _ Ha) in Hp.
Qed.

Lemma tfind_unique {A} (p : N → A → bool) t i a :
  t !! i = Some a → p i a = true →
  (∀ j b, t !! j = Some b → p j b = true → j = i) → tfind p t = Some (i, a).
Proof.
  intros Ha Hp Hu. destruct (tfind_is_Some _ _ _ _ Ha Hp) as (j & b & Hf). rewrite Hf.
  apply tfind_Some in Hf as [Hb Hpb]. pose proof (Hu j b Hb Hpb) as ->. congruence.
Qed.

Lemma tcount_zero {A} (p : N → A → bool) t :
  (∀ i a, t !! i = Some a → p i a = false) → tcount p t = 0.
Proof.
  intros Hp. unfold tcount. destruct (filter _ _) as [|[i a] l] eqn:E; [done|].
  assert ((i, a) ∈ (i, a) :: l) as Hin by left. rewrite <-E in Hin.
  apply list_elem_of_filter in Hin as [Hpa Hin]. apply rows_elem in Hin. cbn in Hpa.
  by rewrite (Hp _ _ Hin) in Hpa.
Qed.

(** *** Constraints *)

Lemma conflicts_false {A} (key : A → option (list kv)) i a t :
  conflicts key i a t = false ↔
  ∀ j b, t !! j = Some b → j ≠ i → is_Some (key a) → key b ≠ key a.
Proof.
  unfold conflicts. destruct (key a) as [k|] eqn:Hk; [|naive_solver].
  rewrite <-not_true_iff_false, existsb_exists. split.
  - intros H j b Hb Hne _ Heq. apply H. exists (j, b).
    rewrite <-list_elem_of_In, elem_of_map_to_list, andb_true_iff, negb_true_iff, b_eq_false, b_eq_true.
    by split_and!.
  - intros H [[j b] [Hin Hb]]. rewrite <-list_elem_of_In, elem_of_map_to_list in Hin.
    apply andb_true_iff in Hb as [Hne Heq]. apply negb_true_iff, b_eq_false in Hne.
    apply (b_eq_true (key b)) in Heq. cbn in *. apply (H j b Hin Hne); [by eexists|done].
Qed.

Lemma unique_on_spec {A} (key : A → option (list kv)) t :
  unique_on key t ↔
  ∀ i j a b k, t !! i = Some a → t !! j = Some b → key a = Some k → key b = Some k → i = j.
Proof.
  unfold unique_on, map_Forall. split.
  - intros H i j a b k Ha Hb Hka Hkb. apply (H i a Ha j b Hb); [by eexists|congruence].
  - intros H i a Ha j b Hb [k Hk] Heq. apply (H i j a b k); congruence.
Qed.

Lemma conflict_free_same {A} (key : A → option (list kv)) i a a' t :
  unique_on key t → t !! i = Some a → key a' = key a → conflicts key i a' t = false.
Proof.
  rewrite unique_on_spec, conflicts_false. intros Hu Hi Hk j b Hj Hne [k Hk'] Hb. apply Hne.
  apply (Hu j i b a k); congruence.
Qed.

Lemma unique_on_insert {A} (key : A → option (list kv)) i a t :
  unique_on key t → conflicts key i a t = false → unique_on key (<[i := a]> t).
Proof.
  rewrite !unique_on_spec, conflicts_false. intros H Hc j1 j2 b1 b2 k.
  rewrite !lookup_insert_Some. intros [[<- <-]|[? H1]] [[<- <-]|[? H2]] K1 K2; [done| | |by eapply H].
  - exfalso. eapply (Hc j2 b2); [done|congruence|by eexists|congruence].
  - exfalso. eapply (Hc j1 b1); [done|congruence|by eexists|congruence].
Qed.

Lemma unique_on_subseteq {A} (key : A → option (list kv)) (t t' : table A) :
  t' ⊆ t → unique_on key t → unique_on key t'.
Proof.
  rewrite !unique_on_spec. intros Hsub H i j a b k Ha Hb. eapply H; by eapply lookup_weaken.
Qed.

(** A rewrite of rows that keeps the key. *)
Lemma unique_on_fmap {A} (key : A → option (list kv)) (f : A → A) t :
  (∀ a, key (f a) = key a) → unique_on key t → unique_on key (f <$> t).
Proof.
  rewrite !unique_on_spec. intros Hf H i j a b k. rewrite !lookup_fmap_Some.
  intros (a' & <- & Ha) (b' & <- & Hb). rewrite !Hf. by apply H.
Qed.

Section TableLemmas.
  Context {T A : Type} (sc : schema T A).
  Implicit Types (has : T → N → bool) (t : table A).

Lemma tput_inv has i a t t' :
  tput sc has i a t = Ok t' →
  t' = <[i := a]> t ∧ row_ok sc has a = true ∧
  Forall (λ key, conflicts key i a t = false) (sc_uniques sc).
Proof.
  unfold tput, row_ok. destruct (sc_fits sc a); [|done]. destruct (sc_checks sc a); [|done]. cbn.
  destruct (existsb _ _) eqn:Hc; [done|]. destruct (forallb _ _); [|done]. intros [= <-].
  split_and!; [done|done|]. apply Forall_forall. intros key Hkey.
  rewrite <-not_true_iff_false in *. intros Htrue. apply Hc, existsb_exists.
  exists key. by rewrite <-list_elem_of_In.
Qed.

Lemma tput_Ok has i a t :
  row_ok sc has a = true → Forall (λ key, conflicts key i a t = false) (sc_uniques sc) →
  tput sc has i a t = Ok (<[i := a]> t).
Proof.
  unfold tput, row_ok. rewrite !andb_true_iff. intros [[-> ->] ->] Hc. cbn.
  destruct (existsb _ _) eqn:E; [|done]. apply existsb_exists in E as (key & Hin & Htrue).
  rewrite <-list_elem_of_In in Hin. rewrite Forall_forall in Hc. by rewrite Hc in Htrue.
Qed.

Lemma row_ok_mono has has' a :
  (∀ r, r ∈ sc_refs sc a → has r.1 r.2 = true → has' r.1 r.2 = true) →
  row_ok sc has a = true → row_ok sc has' a = true.
Proof.
  unfold row_ok. rewrite !andb_true_iff, !forallb_forall. intros Hm [? Hr].
  split; [done|]. intros r Hin. apply Hm; [by apply list_elem_of_In|by apply Hr].
Qed.

Lemma table_ok_mono has has' t :
  (∀ a r, r ∈ sc_refs sc a → has r.1 r.2 = true → has' r.1 r.2 = true) →
  table_ok sc has t → table_ok sc has' t.
Proof.
  intros Hm [H1 H2]. split; [|done]. eapply map_Forall_impl; [exact H1|]. cbn.
  intros i a. apply row_ok_mono. intros r. apply Hm.
Qed.

Lemma table_ok_put has i a t t' :
  table_ok sc has t → tput sc has i a t = Ok t' → table_ok sc has t'.
Proof.
  intros [H1 H2] (-> & Ha & Hc)%tput_inv. split; [by apply map_Forall_insert_2|].
  rewrite Forall_forall in *. intros key Hk. apply unique_on_insert; auto.
Qed.

(** After a delete the surviving rows refer to survivors only. *)
Lemma table_ok_filter has has' p t :
  (∀ i a, t !! i = Some a → p i a = true → row_ok sc has a = true → row_ok sc has' a = true) →
  table_ok sc has t → table_ok sc has' (tfilter p t).
Proof.
  intros Hp [H1 H2]. unfold tfilter. split.
  - intros i a Ha. apply map_lookup_filter_Some in Ha as [Ha Hpa]. eapply Hp; [done|done|by eapply H1].
  - rewrite Forall_forall in *. intros key Hk. eapply unique_on_subseteq; [|by apply H2].
    apply map_filter_subseteq.
Qed.

Lemma table_ok_fmap has has' (f : A → A) t :
  (∀ key a, key ∈ sc_uniques sc → key (f a) = key a) →
  (∀ i a, t !! i = Some a → row_ok sc has a = true → row_ok sc has' (f a) = true) →
  table_ok sc has t → table_ok sc has' (f <$> t).
Proof.
  intros Hk Hr [H1 H2]. split.
  - intros i a. rewrite lookup_fmap_Some. intros (a' & <- & Ha). eapply Hr; [done|by eapply H1].
  - rewrite Forall_forall in *. intros key Hkey. apply unique_on_fmap; auto.
Qed.

Lemma table_ok_unique has t key i j a b k :
  table_ok sc has t → key ∈ sc_uniques sc → t !! i = Some a → t !! j = Some b →
  key a = Some k → key b = Some k → i = j.
Proof.
  intros [_ Hu] Hk. rewrite Forall_forall in Hu. apply Hu in Hk.
  rewrite unique_on_spec in Hk. by apply Hk.
Qed.

Lemma table_ok_row has t i a : table_ok sc has t → t !! i = Some a → row_ok sc has a = true.
Proof. intros [H1 _] Ha. by eapply H1. Qed.

(** A lookup by a unique key finds its row. *)
Lemma tfind_key has t key k i a (p : N → A → bool) :
  table_ok sc has t → key ∈ sc_uniques sc →
  (∀ j b, p j b = true ↔ key b = Some k) →
  t !! i = Some a → key a = Some k → tfind p t = Some (i, a).
Proof.
  intros Hok Hk Hp Ha Hka. apply tfind_unique; [done|by apply Hp|].
  intros j b Hb Hpb. apply Hp in Hpb. by eapply table_ok_unique.
Qed.
End TableLemmas.

Lemma tfilter_lookup {A} (p : N → A → bool) t i a :
  tfilter p t !! i = Some a ↔ t !! i = Some a ∧ p i a = true.
Proof. apply map_lookup_filter_Some. Qed.
