(* ===== verification/Store.v ===== *)
(** * The Django database

    The models of [apps/users], [apps/orgs] and [apps/billing]: a row type per
    model with the columns the code reads or writes, the constraints each
    [Meta] class declares as a [Relational.schema], saves that check them, and
    the cascades of the three deletions the code performs.  Rows of the billing
    tables whose columns are exactly a domain model's are that domain model. *)

From S2P Require Import Prelude PyVal Domain Relational.

(** ** Rows *)

(** [apps/users/models.py], without [is_staff], [is_superuser] and [last_login].  [u_password] is the
    password hash, [None] the unusable one. *)
Record UserRow := mkUserRow {
  u_email : string;
  u_full_name : string;
  u_avatar_url : option string;
  u_preferred_locale : string;
  u_preferred_currency : string;
  u_phone_prefix : option string;
  u_phone : option string;
  u_timezone : option string;
  u_job_title : option string;
  u_pronouns : option string;
  u_bio : option string;
  u_is_verified : bool;
  u_registration_method : string;
  u_is_active : bool;
  u_password : option string;
  u_password_changed_at : option datetime;
  u_created_at : datetime;
  u_updated_at : datetime
}.

Record RefreshRow := mkRefreshRow {
  rt_user : uuid;
  rt_token_hash : string;
  rt_created_at : datetime;
  rt_expires_at : datetime;
  rt_revoked_at : option datetime
}.

(** The abstract model [_OneTimeToken]. *)
Record OneTimeRow := mkOneTimeRow {
  ot_user : uuid;
  ot_token_hash : string;
  ot_created_at : datetime;
  ot_expires_at : datetime;
  ot_used_at : option datetime
}.

Record LinkRow := mkLinkRow {
  lr_token : OneTimeRow;
  lr_provider : string;
  lr_provider_user_id : string;
  lr_full_name : string;
  lr_avatar_url : option string
}.

Record SocialRow := mkSocialRow {
  sa_user : uuid;
  sa_provider : string;
  sa_provider_user_id : string
}.

(** [apps/orgs/models.py]. *)
Record OrgRow := mkOrgRow {
  o_name : string;
  o_slug : string;
  o_logo_url : option string;
  o_created_by : option uuid;
  o_created_at : datetime
}.

Record MemberRow := mkMemberRow {
  m_org : uuid;
  m_user : uuid;
  m_role : OrgRole;
  m_is_billing : bool;
  m_joined_at : datetime
}.

Record InvitationRow := mkInvitationRow {
  i_org : uuid;
  i_email : string;
  i_role : OrgRole;
  i_token : string;
  i_status : InvitationStatus;
  i_invited_by : option uuid;
  i_created_at : datetime;
  i_expires_at : datetime
}.

(** [apps/billing/models.py]. *)
Record EventRow := mkEventRow {
  e_stripe_id : string;
  e_type : string;
  e_livemode : bool;
  e_payload : json;
  e_processed_at : option datetime;
  e_error : option string;
  e_created_at : datetime
}.

Record BalanceRow := mkBalanceRow {
  b_user : option uuid;
  b_org : option uuid;
  b_balance : Z
}.

Record TransactionRow := mkTransactionRow {
  t_user : option uuid;
  t_org : option uuid;
  t_amount : Z;
  t_reason : string;
  t_stripe_session_id : option string;
  t_created_at : datetime
}.

(** [ProductPrice], and [LocalizedPrice]: a price of a plan or of a product in
    another currency, with the Stripe price it is charged with, if any. *)
Record ProductPriceRow := mkProductPriceRow {
  pr_product : uuid;
  pr_stripe_price_id : string;
  pr_amount : Z
}.

Record LocalizedRow := mkLocalizedRow {
  lp_plan_price : option uuid;
  lp_product_price : option uuid;
  lp_currency : string;
  lp_amount_minor : Z;
  lp_stripe_price_id : option string;
  lp_synced_at : datetime
}.

(** ** Schemas *)

(** The tables foreign keys point to. *)
Inductive target := TUsers | TOrgs | TPlans | TCustomers | TPrices | TProducts | TProductPrices.

Definition varchar (n : nat) (s : string) : bool := (String.length s <=? n)%nat.
Definition varchar_opt (n : nat) (s : option string) : bool :=
  match s with Some s => varchar n s | None => true end.
Definition int4 (z : Z) : bool := ((-2147483648 <=? z) && (z <=? 2147483647))%Z.

Definition key_str (s : string) : option (list kv) := Some [KS s].
Definition key_opt_str (s : option string) : option (list kv) := (λ s, [KS s]) <$> s.
Definition key_opt_id (o : option uuid) : option (list kv) := (λ n, [KN n]) <$> o.

Definition no_checks {A} (_ : A) : bool := true.

Definition user_schema : schema target UserRow :=
  Schema (λ u, varchar 254 u.(u_email) && varchar 255 u.(u_full_name)
               && varchar 10 u.(u_preferred_locale) && varchar 3 u.(u_preferred_currency)
               && varchar_opt 5 u.(u_phone_prefix) && varchar_opt 15 u.(u_phone)
               && varchar_opt 50 u.(u_timezone) && varchar_opt 100 u.(u_job_title)
               && varchar_opt 50 u.(u_pronouns))
    no_checks
    [(λ u, key_str u.(u_email)); (λ u, key_str (lower u.(u_email)))]
    (λ _, []).

Definition org_schema : schema target OrgRow :=
  Schema (λ o, varchar 255 o.(o_name) && varchar 255 o.(o_slug)) no_checks
    [(λ o, key_str o.(o_slug))]
    (λ o, ref_opt TUsers o.(o_created_by)).

Definition is_owner (r : OrgRole) : bool := b_eq r OWNER.

Definition member_schema : schema target MemberRow :=
  Schema (λ _, true) (λ m, implb (is_owner m.(m_role)) m.(m_is_billing))
    [(λ m, Some [KN m.(m_org); KN m.(m_user)]);
     (λ m, if is_owner m.(m_role) then Some [KN m.(m_user)] else None)]
    (λ m, [(TOrgs, m.(m_org)); (TUsers, m.(m_user))]).

Definition is_pending (s : InvitationStatus) : bool := b_eq s PENDING.

Definition invitation_schema : schema target InvitationRow :=
  Schema (λ i, varchar 254 i.(i_email) && varchar 255 i.(i_token)) no_checks
    [(λ i, key_str i.(i_token));
     (λ i, if is_pending i.(i_status) then Some [KN i.(i_org); KS i.(i_email)] else None)]
    (λ i, (TOrgs, i.(i_org)) :: ref_opt TUsers i.(i_invited_by)).

Definition tier_value (t : PlanTier) : N := match t with FREE => 1 | BASIC => 2 | PRO => 3 end.
Definition interval_value (i : PlanInterval) : string :=
  match i with MONTH => "month" | YEAR => "year" end.

Definition plan_schema : schema target Plan :=
  Schema (λ p, varchar 255 p.(plan_name)) no_checks
    [(λ p, if p.(plan_is_active)
           then Some [KS (context_value p.(plan_context)); KN (tier_value p.(plan_tier));
                      KS (interval_value p.(plan_interval))]
           else None)]
    (λ _, []).

Definition price_schema : schema target PlanPrice :=
  Schema (λ p, varchar 255 p.(pp_stripe_price_id) && int4 p.(pp_amount)) no_checks
    [(λ p, Some [KN p.(pp_plan_id)]); (λ p, key_str p.(pp_stripe_price_id))]
    (λ p, [(TPlans, p.(pp_plan_id))]).

Definition customer_schema : schema target StripeCustomer :=
  Schema (λ c, varchar 255 c.(cus_stripe_id))
    (λ c, exactly_one_owner c.(cus_user_id) c.(cus_org_id))
    [(λ c, key_str c.(cus_stripe_id)); (λ c, key_opt_id c.(cus_user_id));
     (λ c, key_opt_id c.(cus_org_id))]
    (λ c, ref_opt TUsers c.(cus_user_id) ++ ref_opt TOrgs c.(cus_org_id)).

Definition sub_schema : schema target Subscription :=
  Schema (λ s, varchar_opt 255 s.(sub_stripe_id) && int4 s.(sub_seat_limit)
               && varchar 3 s.(sub_currency))
    (λ s, not_none s.(sub_user_id) || not_none s.(sub_stripe_customer_id))
    [(λ s, key_opt_str s.(sub_stripe_id))]
    (λ s, ref_opt TCustomers s.(sub_stripe_customer_id) ++ ref_opt TUsers s.(sub_user_id)
          ++ [(TPlans, s.(sub_plan_id))] ++ ref_opt TPlans s.(sub_scheduled_plan_id)).

Definition event_schema : schema target EventRow :=
  Schema (λ e, varchar 255 e.(e_stripe_id) && varchar 255 e.(e_type)) no_checks
    [(λ e, key_str e.(e_stripe_id))] (λ _, []).

Definition product_schema : schema target Product :=
  Schema (λ p, varchar 255 p.(prod_name) && int4 p.(prod_credits)) no_checks [] (λ _, []).

Definition balance_schema : schema target BalanceRow :=
  Schema (λ b, int4 b.(b_balance))
    (λ b, exactly_one_owner b.(b_user) b.(b_org) && (0 <=? b.(b_balance))%Z)
    [(λ b, key_opt_id b.(b_user)); (λ b, key_opt_id b.(b_org))]
    (λ b, ref_opt TUsers b.(b_user) ++ ref_opt TOrgs b.(b_org)).

Definition transaction_schema : schema target TransactionRow :=
  Schema (λ t, int4 t.(t_amount) && varchar 64 t.(t_reason) && varchar_opt 255 t.(t_stripe_session_id))
    (λ t, exactly_one_owner t.(t_user) t.(t_org) && negb (t.(t_amount) =? 0)%Z)
    [(λ t, key_opt_str t.(t_stripe_session_id))]
    (λ t, ref_opt TUsers t.(t_user) ++ ref_opt TOrgs t.(t_org)).

Definition refresh_schema : schema target RefreshRow :=
  Schema (λ r, varchar 64 r.(rt_token_hash)) no_checks
    [(λ r, key_str r.(rt_token_hash))] (λ r, [(TUsers, r.(rt_user))]).

Definition onetime_schema : schema target OneTimeRow :=
  Schema (λ t, varchar 64 t.(ot_token_hash)) no_checks
    [(λ t, key_str t.(ot_token_hash))] (λ t, [(TUsers, t.(ot_user))]).

Definition link_schema : schema target LinkRow :=
  Schema (λ l, varchar 64 l.(lr_token).(ot_token_hash) && varchar 20 l.(lr_provider)
               && varchar 255 l.(lr_provider_user_id) && varchar 255 l.(lr_full_name)) no_checks
    [(λ l, key_str l.(lr_token).(ot_token_hash))] (λ l, [(TUsers, l.(lr_token).(ot_user))]).

Definition social_schema : schema target SocialRow :=
  Schema (λ a, varchar 20 a.(sa_provider) && varchar 255 a.(sa_provider_user_id)) no_checks
    [(λ a, Some [KS a.(sa_provider); KS a.(sa_provider_user_id)]);
     (λ a, Some [KN a.(sa_user); KS a.(sa_provider)])]
    (λ a, [(TUsers, a.(sa_user))]).

Definition product_price_schema : schema target ProductPriceRow :=
  Schema (λ p, varchar 255 p.(pr_stripe_price_id) && int4 p.(pr_amount)) no_checks
    [(λ p, Some [KN p.(pr_product)]); (λ p, key_str p.(pr_stripe_price_id))]
    (λ p, [(TProducts, p.(pr_product))]).

Definition key_currency (owner : option uuid) (currency : string) : option (list kv) :=
  (λ o, [KN o; KS currency]) <$> owner.

Definition localized_schema : schema target LocalizedRow :=
  Schema (λ l, varchar 3 l.(lp_currency) && int4 l.(lp_amount_minor)
               && varchar_opt 255 l.(lp_stripe_price_id))
    (λ l, exactly_one_owner l.(lp_plan_price) l.(lp_product_price))
    [(λ l, key_currency l.(lp_plan_price) l.(lp_currency));
     (λ l, key_currency l.(lp_product_price) l.(lp_currency));
     (λ l, key_opt_str l.(lp_stripe_price_id))]
    (λ l, ref_opt TPrices l.(lp_plan_price) ++ ref_opt TProductPrices l.(lp_product_price)).

(** ** The database *)

Record db := mkDb {
  d_users : table UserRow;
  d_orgs : table OrgRow;
  d_members : table MemberRow;
  d_invitations : table InvitationRow;
  d_plans : table Plan;
  d_prices : table PlanPrice;
  d_customers : table StripeCustomer;
  d_subs : table Subscription;
  d_events : table EventRow;
  d_products : table Product;
  d_balances : table BalanceRow;
  d_transactions : table TransactionRow;
  d_refresh : table RefreshRow;
  d_verify : table OneTimeRow;
  d_reset : table OneTimeRow;
  d_links : table LinkRow;
  d_socials : table SocialRow;
  d_product_prices : table ProductPriceRow;
  d_localized : table LocalizedRow
}.

Definition empty_db : db := mkDb ∅ ∅ ∅ ∅ ∅ ∅ ∅ ∅ ∅ ∅ ∅ ∅ ∅ ∅ ∅ ∅ ∅ ∅ ∅.

Definition set_users (t : table UserRow) (d : db) : db :=
  mkDb t d.(d_orgs) d.(d_members) d.(d_invitations) d.(d_plans) d.(d_prices) d.(d_customers) d.(d_subs) d.(d_events) d.(d_products) d.(d_balances) d.(d_transactions) d.(d_refresh) d.(d_verify) d.(d_reset) d.(d_links) d.(d_socials) d.(d_product_prices) d.(d_localized).
Definition set_orgs (t : table OrgRow) (d : db) : db :=
  mkDb d.(d_users) t d.(d_members) d.(d_invitations) d.(d_plans) d.(d_prices) d.(d_customers) d.(d_subs) d.(d_events) d.(d_products) d.(d_balances) d.(d_transactions) d.(d_refresh) d.(d_verify) d.(d_reset) d.(d_links) d.(d_socials) d.(d_product_prices) d.(d_localized).
Definition set_members (t : table MemberRow) (d : db) : db :=
  mkDb d.(d_users) d.(d_orgs) t d.(d_invitations) d.(d_plans) d.(d_prices) d.(d_customers) d.(d_subs) d.(d_events) d.(d_products) d.(d_balances) d.(d_transactions) d.(d_refresh) d.(d_verify) d.(d_reset) d.(d_links) d.(d_socials) d.(d_product_prices) d.(d_localized).
Definition set_invitations (t : table InvitationRow) (d : db) : db :=
  mkDb d.(d_users) d.(d_orgs) d.(d_members) t d.(d_plans) d.(d_prices) d.(d_customers) d.(d_subs) d.(d_events) d.(d_products) d.(d_balances) d.(d_transactions) d.(d_refresh) d.(d_verify) d.(d_reset) d.(d_links) d.(d_socials) d.(d_product_prices) d.(d_localized).
Definition set_plans (t : table Plan) (d : db) : db :=
  mkDb d.(d_users) d.(d_orgs) d.(d_members) d.(d_invitations) t d.(d_prices) d.(d_customers) d.(d_subs) d.(d_events) d.(d_products) d.(d_balances) d.(d_transactions) d.(d_refresh) d.(d_verify) d.(d_reset) d.(d_links) d.(d_socials) d.(d_product_prices) d.(d_localized).
Definition set_prices (t : table PlanPrice) (d : db) : db :=
  mkDb d.(d_users) d.(d_orgs) d.(d_members) d.(d_invitations) d.(d_plans) t d.(d_customers) d.(d_subs) d.(d_events) d.(d_products) d.(d_balances) d.(d_transactions) d.(d_refresh) d.(d_verify) d.(d_reset) d.(d_links) d.(d_socials) d.(d_product_prices) d.(d_localized).
Definition set_customers (t : table StripeCustomer) (d : db) : db :=
  mkDb d.(d_users) d.(d_orgs) d.(d_members) d.(d_invitations) d.(d_plans) d.(d_prices) t d.(d_subs) d.(d_events) d.(d_products) d.(d_balances) d.(d_transactions) d.(d_refresh) d.(d_verify) d.(d_reset) d.(d_links) d.(d_socials) d.(d_product_prices) d.(d_localized).
Definition set_subs (t : table Subscription) (d : db) : db :=
  mkDb d.(d_users) d.(d_orgs) d.(d_members) d.(d_invitations) d.(d_plans) d.(d_prices) d.(d_customers) t d.(d_events) d.(d_products) d.(d_balances) d.(d_transactions) d.(d_refresh) d.(d_verify) d.(d_reset) d.(d_links) d.(d_socials) d.(d_product_prices) d.(d_localized).
Definition set_events (t : table EventRow) (d : db) : db :=
  mkDb d.(d_users) d.(d_orgs) d.(d_members) d.(d_invitations) d.(d_plans) d.(d_prices) d.(d_customers) d.(d_subs) t d.(d_products) d.(d_balances) d.(d_transactions) d.(d_refresh) d.(d_verify) d.(d_reset) d.(d_links) d.(d_socials) d.(d_product_prices) d.(d_localized).
Definition set_products (t : table Product) (d : db) : db :=
  mkDb d.(d_users) d.(d_orgs) d.(d_members) d.(d_invitations) d.(d_plans) d.(d_prices) d.(d_customers) d.(d_subs) d.(d_events) t d.(d_balances) d.(d_transactions) d.(d_refresh) d.(d_verify) d.(d_reset) d.(d_links) d.(d_socials) d.(d_product_prices) d.(d_localized).
Definition set_balances (t : table BalanceRow) (d : db) : db :=
  mkDb d.(d_users) d.(d_orgs) d.(d_members) d.(d_invitations) d.(d_plans) d.(d_prices) d.(d_customers) d.(d_subs) d.(d_events) d.(d_products) t d.(d_transactions) d.(d_refresh) d.(d_verify) d.(d_reset) d.(d_links) d.(d_socials) d.(d_product_prices) d.(d_localized).
Definition set_transactions (t : table TransactionRow) (d : db) : db :=
  mkDb d.(d_users) d.(d_orgs) d.(d_members) d.(d_invitations) d.(d_plans) d.(d_prices) d.(d_customers) d.(d_subs) d.(d_events) d.(d_products) d.(d_balances) t d.(d_refresh) d.(d_verify) d.(d_reset) d.(d_links) d.(d_socials) d.(d_product_prices) d.(d_localized).
Definition set_refresh (t : table RefreshRow) (d : db) : db :=
  mkDb d.(d_users) d.(d_orgs) d.(d_members) d.(d_invitations) d.(d_plans) d.(d_prices) d.(d_customers) d.(d_subs) d.(d_events) d.(d_products) d.(d_balances) d.(d_transactions) t d.(d_verify) d.(d_reset) d.(d_links) d.(d_socials) d.(d_product_prices) d.(d_localized).
Definition set_verify (t : table OneTimeRow) (d : db) : db :=
  mkDb d.(d_users) d.(d_orgs) d.(d_members) d.(d_invitations) d.(d_plans) d.(d_prices) d.(d_customers) d.(d_subs) d.(d_events) d.(d_products) d.(d_balances) d.(d_transactions) d.(d_refresh) t d.(d_reset) d.(d_links) d.(d_socials) d.(d_product_prices) d.(d_localized).
Definition set_reset (t : table OneTimeRow) (d : db) : db :=
  mkDb d.(d_users) d.(d_orgs) d.(d_members) d.(d_invitations) d.(d_plans) d.(d_prices) d.(d_customers) d.(d_subs) d.(d_events) d.(d_products) d.(d_balances) d.(d_transactions) d.(d_refresh) d.(d_verify) t d.(d_links) d.(d_socials) d.(d_product_prices) d.(d_localized).
Definition set_links (t : table LinkRow) (d : db) : db :=
  mkDb d.(d_users) d.(d_orgs) d.(d_members) d.(d_invitations) d.(d_plans) d.(d_prices) d.(d_customers) d.(d_subs) d.(d_events) d.(d_products) d.(d_balances) d.(d_transactions) d.(d_refresh) d.(d_verify) d.(d_reset) t d.(d_socials) d.(d_product_prices) d.(d_localized).
Definition set_socials (t : table SocialRow) (d : db) : db :=
  mkDb d.(d_users) d.(d_orgs) d.(d_members) d.(d_invitations) d.(d_plans) d.(d_prices) d.(d_customers) d.(d_subs) d.(d_events) d.(d_products) d.(d_balances) d.(d_transactions) d.(d_refresh) d.(d_verify) d.(d_reset) d.(d_links) t d.(d_product_prices) d.(d_localized).

Definition set_product_prices (t : table ProductPriceRow) (d : db) : db :=
  mkDb d.(d_users) d.(d_orgs) d.(d_members) d.(d_invitations) d.(d_plans) d.(d_prices) d.(d_customers) d.(d_subs) d.(d_events) d.(d_products) d.(d_balances) d.(d_transactions) d.(d_refresh) d.(d_verify) d.(d_reset) d.(d_links) d.(d_socials) t d.(d_localized).
Definition set_localized (t : table LocalizedRow) (d : db) : db :=
  mkDb d.(d_users) d.(d_orgs) d.(d_members) d.(d_invitations) d.(d_plans) d.(d_prices) d.(d_customers) d.(d_subs) d.(d_events) d.(d_products) d.(d_balances) d.(d_transactions) d.(d_refresh) d.(d_verify) d.(d_reset) d.(d_links) d.(d_socials) d.(d_product_prices) t.

Definition has (d : db) (t : target) (i : N) : bool :=
  match t with
  | TUsers => not_none (d.(d_users) !! i)
  | TOrgs => not_none (d.(d_orgs) !! i)
  | TPlans => not_none (d.(d_plans) !! i)
  | TCustomers => not_none (d.(d_customers) !! i)
  | TPrices => not_none (d.(d_prices) !! i)
  | TProducts => not_none (d.(d_products) !! i)
  | TProductPrices => not_none (d.(d_product_prices) !! i)
  end.

(** ** Saves: INSERT or UPDATE by primary key *)

Definition save_user (i : N) (a : UserRow) (d : db) : outcome db :=
  t ← tput user_schema (has d) i a d.(d_users); Ok (set_users t d).
Definition save_org (i : N) (a : OrgRow) (d : db) : outcome db :=
  t ← tput org_schema (has d) i a d.(d_orgs); Ok (set_orgs t d).
Definition save_member (i : N) (a : MemberRow) (d : db) : outcome db :=
  t ← tput member_schema (has d) i a d.(d_members); Ok (set_members t d).
Definition save_invitation (i : N) (a : InvitationRow) (d : db) : outcome db :=
  t ← tput invitation_schema (has d) i a d.(d_invitations); Ok (set_invitations t d).
Definition save_plan (a : Plan) (d : db) : outcome db :=
  t ← tput plan_schema (has d) a.(plan_id) a d.(d_plans); Ok (set_plans t d).
Definition save_price (a : PlanPrice) (d : db) : outcome db :=
  t ← tput price_schema (has d) a.(pp_id) a d.(d_prices); Ok (set_prices t d).
Definition save_customer (a : StripeCustomer) (d : db) : outcome db :=
  t ← tput customer_schema (has d) a.(cus_id) a d.(d_customers); Ok (set_customers t d).
Definition save_sub (a : Subscription) (d : db) : outcome db :=
  t ← tput sub_schema (has d) a.(sub_id) a d.(d_subs); Ok (set_subs t d).
Definition save_event (i : N) (a : EventRow) (d : db) : outcome db :=
  t ← tput event_schema (has d) i a d.(d_events); Ok (set_events t d).
Definition save_product (a : Product) (d : db) : outcome db :=
  t ← tput product_schema (has d) a.(prod_id) a d.(d_products); Ok (set_products t d).
Definition save_balance (i : N) (a : BalanceRow) (d : db) : outcome db :=
  t ← tput balance_schema (has d) i a d.(d_balances); Ok (set_balances t d).
Definition save_transaction (i : N) (a : TransactionRow) (d : db) : outcome db :=
  t ← tput transaction_schema (has d) i a d.(d_transactions); Ok (set_transactions t d).
Definition save_refresh (i : N) (a : RefreshRow) (d : db) : outcome db :=
  t ← tput refresh_schema (has d) i a d.(d_refresh); Ok (set_refresh t d).
Definition save_verify (i : N) (a : OneTimeRow) (d : db) : outcome db :=
  t ← tput onetime_schema (has d) i a d.(d_verify); Ok (set_verify t d).
Definition save_reset (i : N) (a : OneTimeRow) (d : db) : outcome db :=
  t ← tput onetime_schema (has d) i a d.(d_reset); Ok (set_reset t d).
Definition save_link (i : N) (a : LinkRow) (d : db) : outcome db :=
  t ← tput link_schema (has d) i a d.(d_links); Ok (set_links t d).
Definition save_social (i : N) (a : SocialRow) (d : db) : outcome db :=
  t ← tput social_schema (has d) i a d.(d_socials); Ok (set_socials t d).

Definition save_product_price (i : N) (a : ProductPriceRow) (d : db) : outcome db :=
  t ← tput product_price_schema (has d) i a d.(d_product_prices); Ok (set_product_prices t d).
Definition save_localized (i : N) (a : LocalizedRow) (d : db) : outcome db :=
  t ← tput localized_schema (has d) i a d.(d_localized); Ok (set_localized t d).

(** [objects.create]: a forced INSERT. *)
Definition fresh_pk {A} (t : table A) (i : N) : outcome unit :=
  if not_none (t !! i) then Raise (IntegrityError "duplicate key value: primary key") else Ok tt.

Definition insert_user (i : N) (a : UserRow) (d : db) : outcome db :=
  _ ← fresh_pk d.(d_users) i; save_user i a d.
Definition insert_org (i : N) (a : OrgRow) (d : db) : outcome db :=
  _ ← fresh_pk d.(d_orgs) i; save_org i a d.
Definition insert_member (i : N) (a : MemberRow) (d : db) : outcome db :=
  _ ← fresh_pk d.(d_members) i; save_member i a d.
Definition insert_invitation (i : N) (a : InvitationRow) (d : db) : outcome db :=
  _ ← fresh_pk d.(d_invitations) i; save_invitation i a d.
Definition insert_customer (a : StripeCustomer) (d : db) : outcome db :=
  _ ← fresh_pk d.(d_customers) a.(cus_id); save_customer a d.
Definition insert_sub (a : Subscription) (d : db) : outcome db :=
  _ ← fresh_pk d.(d_subs) a.(sub_id); save_sub a d.
Definition insert_event (i : N) (a : EventRow) (d : db) : outcome db :=
  _ ← fresh_pk d.(d_events) i; save_event i a d.
Definition insert_balance (i : N) (a : BalanceRow) (d : db) : outcome db :=
  _ ← fresh_pk d.(d_balances) i; save_balance i a d.
Definition insert_transaction (i : N) (a : TransactionRow) (d : db) : outcome db :=
  _ ← fresh_pk d.(d_transactions) i; save_transaction i a d.
Definition insert_refresh (i : N) (a : RefreshRow) (d : db) : outcome db :=
  _ ← fresh_pk d.(d_refresh) i; save_refresh i a d.
Definition insert_verify (i : N) (a : OneTimeRow) (d : db) : outcome db :=
  _ ← fresh_pk d.(d_verify) i; save_verify i a d.
Definition insert_reset (i : N) (a : OneTimeRow) (d : db) : outcome db :=
  _ ← fresh_pk d.(d_reset) i; save_reset i a d.
Definition insert_link (i : N) (a : LinkRow) (d : db) : outcome db :=
  _ ← fresh_pk d.(d_links) i; save_link i a d.
Definition insert_social (i : N) (a : SocialRow) (d : db) : outcome db :=
  _ ← fresh_pk d.(d_socials) i; save_social i a d.

(** ** Deletions *)

Definition opt_in (p : N → bool) (o : option N) : bool :=
  match o with Some n => p n | None => false end.

(** [ON DELETE SET NULL]. *)
Definition null_if (p : N → bool) (o : option N) : option N := if opt_in p o then None else o.

Definition org_null_creator (p : N → bool) (o : OrgRow) : OrgRow :=
  mkOrgRow o.(o_name) o.(o_slug) o.(o_logo_url) (null_if p o.(o_created_by)) o.(o_created_at).
Definition invitation_null_inviter (p : N → bool) (i : InvitationRow) : InvitationRow :=
  mkInvitationRow i.(i_org) i.(i_email) i.(i_role) i.(i_token) i.(i_status)
    (null_if p i.(i_invited_by)) i.(i_created_at) i.(i_expires_at).

(** Customers [p] with the subscriptions that cascade. *)
Definition delete_customers (p : N → bool) (d : db) : db :=
  set_customers (tfilter (λ i _, negb (p i)) d.(d_customers))
    (set_subs (tfilter (λ _ s, negb (opt_in p s.(sub_stripe_customer_id))) d.(d_subs)) d).

(** The customers owned by users or orgs in [p]. *)
Definition customer_of (own : StripeCustomer → option N) (p : N → bool) (d : db) (i : N) : bool :=
  match d.(d_customers) !! i with Some c => opt_in p (own c) | None => false end.

(** The rows of users [p] once their customers are gone: everything keyed by a
    user cascades, [created_by] and [invited_by] are set to NULL. *)
Definition drop_users (p : N → bool) (d : db) : db :=
  mkDb
    (tfilter (λ i _, negb (p i)) d.(d_users))
    (org_null_creator p <$> d.(d_orgs))
    (tfilter (λ _ m, negb (p m.(m_user))) d.(d_members))
    (invitation_null_inviter p <$> d.(d_invitations))
    d.(d_plans) d.(d_prices) d.(d_customers)
    (tfilter (λ _ s, negb (opt_in p s.(sub_user_id))) d.(d_subs))
    d.(d_events) d.(d_products)
    (tfilter (λ _ b, negb (opt_in p b.(b_user))) d.(d_balances))
    (tfilter (λ _ t, negb (opt_in p t.(t_user))) d.(d_transactions))
    (tfilter (λ _ r, negb (p r.(rt_user))) d.(d_refresh))
    (tfilter (λ _ t, negb (p t.(ot_user))) d.(d_verify))
    (tfilter (λ _ t, negb (p t.(ot_user))) d.(d_reset))
    (tfilter (λ _ l, negb (p l.(lr_token).(ot_user))) d.(d_links))
    (tfilter (λ _ a, negb (p a.(sa_user))) d.(d_socials))
    d.(d_product_prices) d.(d_localized).

Definition delete_users (p : N → bool) (d : db) : db :=
  drop_users p (delete_customers (customer_of cus_user_id p d) d).

(** The rows of orgs [p] once their customers are gone: members, invitations,
    balance and ledger cascade. *)
Definition drop_orgs (p : N → bool) (d : db) : db :=
  set_orgs (tfilter (λ i _, negb (p i)) d.(d_orgs))
  (set_members (tfilter (λ _ m, negb (p m.(m_org))) d.(d_members))
  (set_invitations (tfilter (λ _ i, negb (p i.(i_org))) d.(d_invitations))
  (set_balances (tfilter (λ _ b, negb (opt_in p b.(b_org))) d.(d_balances))
  (set_transactions (tfilter (λ _ t, negb (opt_in p t.(t_org))) d.(d_transactions)) d)))).

Definition delete_orgs (p : N → bool) (d : db) : db :=
  drop_orgs p (delete_customers (customer_of cus_org_id p d) d).

(** ** Well-formedness: every declared constraint holds *)

Definition ids_ok (d : db) : Prop :=
  map_Forall (λ i a, plan_id a = i) d.(d_plans) ∧
  map_Forall (λ i a, pp_id a = i) d.(d_prices) ∧
  map_Forall (λ i a, cus_id a = i) d.(d_customers) ∧
  map_Forall (λ i a, sub_id a = i) d.(d_subs) ∧
  map_Forall (λ i a, prod_id a = i) d.(d_products).

Definition db_ok (d : db) : Prop :=
  table_ok user_schema (has d) d.(d_users) ∧
  table_ok org_schema (has d) d.(d_orgs) ∧
  table_ok member_schema (has d) d.(d_members) ∧
  table_ok invitation_schema (has d) d.(d_invitations) ∧
  table_ok plan_schema (has d) d.(d_plans) ∧
  table_ok price_schema (has d) d.(d_prices) ∧
  table_ok customer_schema (has d) d.(d_customers) ∧
  table_ok sub_schema (has d) d.(d_subs) ∧
  table_ok event_schema (has d) d.(d_events) ∧
  table_ok product_schema (has d) d.(d_products) ∧
  table_ok balance_schema (has d) d.(d_balances) ∧
  table_ok transaction_schema (has d) d.(d_transactions) ∧
  table_ok refresh_schema (has d) d.(d_refresh) ∧
  table_ok onetime_schema (has d) d.(d_verify) ∧
  table_ok onetime_schema (has d) d.(d_reset) ∧
  table_ok link_schema (has d) d.(d_links) ∧
  table_ok social_schema (has d) d.(d_socials) ∧
  table_ok product_price_schema (has d) d.(d_product_prices) ∧
  table_ok localized_schema (has d) d.(d_localized) ∧
  ids_ok d.

#[export] Instance db_ok_dec d : Decision (db_ok d).
Proof. unfold db_ok, ids_ok. apply _. Defined.

Lemma empty_db_ok : db_ok empty_db.
Proof. by apply (bool_decide_unpack _). Qed.
