(* ===== verification/StoreFacts.v ===== *)
(** * Lemmas on the Django database

    Every save and deletion of [Store.v] keeps the declared constraints. *)

From S2P Require Import Prelude PyVal Domain Relational Store.

(** [has_grows d d']: no referenced row disappeared. *)
Definition has_grows (d d' : db) : Prop := ∀ t i, has d t i = true → has d' t i = true.

Lemma not_none_insert {A} (t : table A) i j a :
  not_none (t !! j) = true → not_none (<[i := a]> t !! j) = true.
Proof. rewrite !not_none_true. intros [x Hx]. apply lookup_insert_is_Some'. eauto. Qed.

(** A save keeps every reference alive. *)
Ltac solve_has_grows := intros [] j; cbn; first [done | apply not_none_insert].

(** The constraints of every table after a save of one of them. *)
Ltac solve_save :=
  let Hput := fresh "Hput" in
  let Hok := fresh "Hok" in
  intros Hok (t & Hput & [= <-])%outcome_bind_Ok;
  match goal with |- db_ok ?d' => match type of Hok with db_ok ?d =>
    let Hg := fresh "Hg" in
    assert (has_grows d d') as Hg
      by (pose proof (tput_inv _ _ _ _ _ _ Hput) as (-> & _ & _); solve_has_grows);
    unfold db_ok, ids_ok in Hok |- *; cbn in Hok |- *; destruct_and!; split_and!;
    first
      [ apply (table_ok_mono _ (has d)); [intros ? ? _; apply Hg|]; first [eassumption | eapply table_ok_put; [|exact Hput]; eassumption]
      | apply tput_inv in Hput as (-> & _ & _); by apply map_Forall_insert_2
      | assumption ]
  end end.

Lemma save_user_ok i a d d' : db_ok d → save_user i a d = Ok d' → db_ok d'.
Proof. solve_save. Qed.
Lemma save_org_ok i a d d' : db_ok d → save_org i a d = Ok d' → db_ok d'.
Proof. solve_save. Qed.
Lemma save_member_ok i a d d' : db_ok d → save_member i a d = Ok d' → db_ok d'.
Proof. solve_save. Qed.
Lemma save_invitation_ok i a d d' : db_ok d → save_invitation i a d = Ok d' → db_ok d'.
Proof. solve_save. Qed.
Lemma save_plan_ok a d d' : db_ok d → save_plan a d = Ok d' → db_ok d'.
Proof. solve_save. Qed.
Lemma save_price_ok a d d' : db_ok d → save_price a d = Ok d' → db_ok d'.
Proof. solve_save. Qed.
Lemma save_customer_ok a d d' : db_ok d → save_customer a d = Ok d' → db_ok d'.
Proof. solve_save. Qed.
Lemma save_sub_ok a d d' : db_ok d → save_sub a d = Ok d' → db_ok d'.
Proof. solve_save. Qed.
Lemma save_event_ok i a d d' : db_ok d → save_event i a d = Ok d' → db_ok d'.
Proof. solve_save. Qed.
Lemma save_product_ok a d d' : db_ok d → save_product a d = Ok d' → db_ok d'.
Proof. solve_save. Qed.
Lemma save_balance_ok i a d d' : db_ok d → save_balance i a d = Ok d' → db_ok d'.
Proof. solve_save. Qed.
Lemma save_transaction_ok i a d d' : db_ok d → save_transaction i a d = Ok d' → db_ok d'.
Proof. solve_save. Qed.
Lemma save_refresh_ok i a d d' : db_ok d → save_refresh i a d = Ok d' → db_ok d'.
Proof. solve_save. Qed.
Lemma save_verify_ok i a d d' : db_ok d → save_verify i a d = Ok d' → db_ok d'.
Proof. solve_save. Qed.
Lemma save_reset_ok i a d d' : db_ok d → save_reset i a d = Ok d' → db_ok d'.
Proof. solve_save. Qed.
Lemma save_link_ok i a d d' : db_ok d → save_link i a d = Ok d' → db_ok d'.
Proof. solve_save. Qed.
Lemma save_social_ok i a d d' : db_ok d → save_social i a d = Ok d' → db_ok d'.
Proof. solve_save. Qed.
Lemma save_product_price_ok i a d d' : db_ok d → save_product_price i a d = Ok d' → db_ok d'.
Proof. solve_save. Qed.
Lemma save_localized_ok i a d d' : db_ok d → save_localized i a d = Ok d' → db_ok d'.
Proof. solve_save. Qed.
Lemma insert_user_ok i a d d' : db_ok d → insert_user i a d = Ok d' → db_ok d'.
Proof. intros Hok (? & _ & Hs)%outcome_bind_Ok. by eapply save_user_ok. Qed.
Lemma insert_org_ok i a d d' : db_ok d → insert_org i a d = Ok d' → db_ok d'.
Proof. intros Hok (? & _ & Hs)%outcome_bind_Ok. by eapply save_org_ok. Qed.
Lemma insert_member_ok i a d d' : db_ok d → insert_member i a d = Ok d' → db_ok d'.
Proof. intros Hok (? & _ & Hs)%outcome_bind_Ok. by eapply save_member_ok. Qed.
Lemma insert_invitation_ok i a d d' : db_ok d → insert_invitation i a d = Ok d' → db_ok d'.
Proof. intros Hok (? & _ & Hs)%outcome_bind_Ok. by eapply save_invitation_ok. Qed.
Lemma insert_customer_ok a d d' : db_ok d → insert_customer a d = Ok d' → db_ok d'.
Proof. intros Hok (? & _ & Hs)%outcome_bind_Ok. by eapply save_customer_ok. Qed.
Lemma insert_sub_ok a d d' : db_ok d → insert_sub a d = Ok d' → db_ok d'.
Proof. intros Hok (? & _ & Hs)%outcome_bind_Ok. by eapply save_sub_ok. Qed.
Lemma insert_event_ok i a d d' : db_ok d → insert_event i a d = Ok d' → db_ok d'.
Proof. intros Hok (? & _ & Hs)%outcome_bind_Ok. by eapply save_event_ok. Qed.
Lemma insert_balance_ok i a d d' : db_ok d → insert_balance i a d = Ok d' → db_ok d'.
Proof. intros Hok (? & _ & Hs)%outcome_bind_Ok. by eapply save_balance_ok. Qed.
Lemma insert_transaction_ok i a d d' : db_ok d → insert_transaction i a d = Ok d' → db_ok d'.
Proof. intros Hok (? & _ & Hs)%outcome_bind_Ok. by eapply save_transaction_ok. Qed.
Lemma insert_refresh_ok i a d d' : db_ok d → insert_refresh i a d = Ok d' → db_ok d'.
Proof. intros Hok (? & _ & Hs)%outcome_bind_Ok. by eapply save_refresh_ok. Qed.
Lemma insert_verify_ok i a d d' : db_ok d → insert_verify i a d = Ok d' → db_ok d'.
Proof. intros Hok (? & _ & Hs)%outcome_bind_Ok. by eapply save_verify_ok. Qed.
Lemma insert_reset_ok i a d d' : db_ok d → insert_reset i a d = Ok d' → db_ok d'.
Proof. intros Hok (? & _ & Hs)%outcome_bind_Ok. by eapply save_reset_ok. Qed.
Lemma insert_link_ok i a d d' : db_ok d → insert_link i a d = Ok d' → db_ok d'.
Proof. intros Hok (? & _ & Hs)%outcome_bind_Ok. by eapply save_link_ok. Qed.
Lemma insert_social_ok i a d d' : db_ok d → insert_social i a d = Ok d' → db_ok d'.
Proof. intros Hok (? & _ & Hs)%outcome_bind_Ok. by eapply save_social_ok. Qed.

(** ** Deletions *)


Lemma not_none_tfilter {A} (p : N → bool) (t : table A) j :
  not_none (tfilter (λ i _, negb (p i)) t !! j) = not_none (t !! j) && negb (p j).
Proof.
  apply eq_true_iff_eq. rewrite andb_true_iff, !not_none_true. split.
  - intros [a [Ha Hp]%tfilter_lookup]. eauto.
  - intros [[a Ha] Hp]. exists a. by apply tfilter_lookup.
Qed.

Lemma not_none_fmap {A B} (f : A → B) (t : table A) (j : N) :
  not_none ((f <$> t) !! j) = not_none (t !! j).
Proof. rewrite lookup_fmap. by destruct (t !! j). Qed.

Lemma table_ok_weaken {A} (sc : schema target A) h h' (t : table A) :
  (∀ i a, t !! i = Some a → row_ok sc h a = true → row_ok sc h' a = true) →
  table_ok sc h t → table_ok sc h' t.
Proof.
  intros Hr [H1 H2]. split; [|done]. intros i a Ha. eapply Hr; [done|by eapply H1].
Qed.

Lemma map_Forall_tfilter {A} (P : N → A → Prop) p (t : table A) :
  map_Forall P t → map_Forall P (tfilter p t).
Proof. intros H i a [Ha _]%tfilter_lookup. by apply H. Qed.

(** The references of a surviving row survive. *)
Ltac solve_row :=
  let i := fresh "i" in let a := fresh "a" in
  intros i a; destruct a; unfold row_ok; cbn;
  repeat match goal with
    | o : option N |- _ => destruct o
    | l : OneTimeRow |- _ => destruct l
    end; cbn; rewrite ?andb_true_r, ?not_none_tfilter, ?not_none_fmap;
  rewrite ?andb_true_iff, ?negb_true_iff; intros; destruct_and?; split_and?; assumption.

Ltac solve_delete :=
  lazymatch goal with
  | |- table_ok _ _ (tfilter _ _) => eapply table_ok_filter; [|eassumption]; solve_row
  | |- table_ok _ _ _ => eapply table_ok_weaken; [|eassumption]; solve_row
  | |- map_Forall _ (tfilter _ _) => by apply map_Forall_tfilter
  | |- _ => assumption
  end.

Lemma delete_customers_ok p d : db_ok d → db_ok (delete_customers p d).
Proof.
  unfold db_ok, ids_ok. cbn. intros Hok. destruct_and!. split_and!;
    solve_delete.
Qed.

Lemma delete_customers_owner own p d i c :
  d_customers (delete_customers (customer_of own p d) d) !! i = Some c → opt_in p (own c) = false.
Proof.
  cbn. intros [Hc Hp]%tfilter_lookup. unfold customer_of in Hp. rewrite Hc in Hp.
  by apply negb_true_iff in Hp.
Qed.

Lemma null_if_kept p o n : null_if p o = Some n → o = Some n ∧ p n = false.
Proof. unfold null_if, opt_in. destruct o as [m|]; [|done]. destruct (p m) eqn:E; [done|]. by intros [= <-]. Qed.

Lemma row_ok_creator p d a :
  row_ok org_schema (has d) a = true →
  row_ok org_schema (has (drop_users p d)) (org_null_creator p a) = true.
Proof.
  unfold row_ok. cbn. rewrite !andb_true_iff. intros [Hf Hr]. split; [done|].
  destruct (null_if p (o_created_by a)) as [n|] eqn:Hn; [|done].
  apply null_if_kept in Hn as [Hn Hp]. rewrite Hn in Hr. cbn in *.
  rewrite not_none_tfilter, Hp. rewrite !andb_true_iff in *. tauto.
Qed.

Lemma row_ok_inviter p d a :
  row_ok invitation_schema (has d) a = true →
  row_ok invitation_schema (has (drop_users p d)) (invitation_null_inviter p a) = true.
Proof.
  unfold row_ok. cbn. rewrite not_none_fmap, !andb_true_iff. intros [Hf [Ho Hr]].
  split; [done|]. split; [done|].
  destruct (null_if p (i_invited_by a)) as [n|] eqn:Hn; [|done].
  apply null_if_kept in Hn as [Hn Hp]. rewrite Hn in Hr. cbn in *.
  rewrite not_none_tfilter, Hp. rewrite !andb_true_iff in *. tauto.
Qed.

(** A customer keeps its references when its owner is not dropped. *)
Lemma row_ok_customer_users p d c :
  opt_in p (cus_user_id c) = false →
  row_ok customer_schema (has d) c = true → row_ok customer_schema (has (drop_users p d)) c = true.
Proof.
  destruct c as [? ? [u|] [o|] ? ?]; unfold row_ok; cbn; try done; intros Hp;
    rewrite ?not_none_tfilter, ?not_none_fmap, ?Hp, ?andb_true_iff; tauto.
Qed.

Lemma row_ok_customer_orgs p d c :
  opt_in p (cus_org_id c) = false →
  row_ok customer_schema (has d) c = true → row_ok customer_schema (has (drop_orgs p d)) c = true.
Proof.
  destruct c as [? ? [u|] [o|] ? ?]; unfold row_ok; cbn; try done; intros Hp;
    rewrite ?not_none_tfilter, ?Hp, ?andb_true_iff; tauto.
Qed.

Ltac solve_keys :=
  let key := fresh in let a := fresh in let Hk := fresh in
  intros key a Hk; cbn in Hk;
  repeat (apply elem_of_cons in Hk as [->|Hk]; [by destruct a|]); by apply elem_of_nil in Hk.

Lemma drop_users_ok p d :
  (∀ i c, d_customers d !! i = Some c → opt_in p (cus_user_id c) = false) →
  db_ok d → db_ok (drop_users p d).
Proof.
  intros Hown. unfold db_ok, ids_ok. cbn. intros Hok. destruct_and!. split_and!;
    try solve [solve_delete].
  - eapply table_ok_fmap; [solve_keys| |eassumption]. intros _ a _. apply row_ok_creator.
  - eapply table_ok_fmap; [solve_keys| |eassumption]. intros _ a _. apply row_ok_inviter.
  - eapply table_ok_weaken; [|eassumption]. intros i c Hc. apply row_ok_customer_users. by eapply Hown.
Qed.

Lemma drop_orgs_ok p d :
  (∀ i c, d_customers d !! i = Some c → opt_in p (cus_org_id c) = false) →
  db_ok d → db_ok (drop_orgs p d).
Proof.
  intros Hown. unfold db_ok, ids_ok. cbn. intros Hok. destruct_and!. split_and!;
    try solve [solve_delete].
  eapply table_ok_weaken; [|eassumption]. intros i c Hc. apply row_ok_customer_orgs. by eapply Hown.
Qed.

Lemma delete_users_ok p d : db_ok d → db_ok (delete_users p d).
Proof.
  intros Hok. apply drop_users_ok; [apply delete_customers_owner|by apply delete_customers_ok].
Qed.

Lemma delete_orgs_ok p d : db_ok d → db_ok (delete_orgs p d).
Proof.
  intros Hok. apply drop_orgs_ok; [apply delete_customers_owner|by apply delete_customers_ok].
Qed.

(** [db_step] closes [db_ok d' ] from the statement that produced [d']. *)
Ltac db_step :=
  let d := fresh "d" in let d' := fresh "d'" in let Hd := fresh "Hd" in let Hs := fresh "Hs" in
  intros d d' Hd Hs;
  lazymatch type of Hs with
  | save_user _ _ _ = _ => exact (save_user_ok _ _ _ _ Hd Hs)
  | save_org _ _ _ = _ => exact (save_org_ok _ _ _ _ Hd Hs)
  | save_member _ _ _ = _ => exact (save_member_ok _ _ _ _ Hd Hs)
  | save_invitation _ _ _ = _ => exact (save_invitation_ok _ _ _ _ Hd Hs)
  | save_plan _ _ = _ => exact (save_plan_ok _ _ _ Hd Hs)
  | save_price _ _ = _ => exact (save_price_ok _ _ _ Hd Hs)
  | save_customer _ _ = _ => exact (save_customer_ok _ _ _ Hd Hs)
  | save_sub _ _ = _ => exact (save_sub_ok _ _ _ Hd Hs)
  | save_event _ _ _ = _ => exact (save_event_ok _ _ _ _ Hd Hs)
  | save_product _ _ = _ => exact (save_product_ok _ _ _ Hd Hs)
  | save_balance _ _ _ = _ => exact (save_balance_ok _ _ _ _ Hd Hs)
  | save_transaction _ _ _ = _ => exact (save_transaction_ok _ _ _ _ Hd Hs)
  | save_refresh _ _ _ = _ => exact (save_refresh_ok _ _ _ _ Hd Hs)
  | save_verify _ _ _ = _ => exact (save_verify_ok _ _ _ _ Hd Hs)
  | save_reset _ _ _ = _ => exact (save_reset_ok _ _ _ _ Hd Hs)
  | save_link _ _ _ = _ => exact (save_link_ok _ _ _ _ Hd Hs)
  | save_social _ _ _ = _ => exact (save_social_ok _ _ _ _ Hd Hs)
  | save_product_price _ _ _ = _ => exact (save_product_price_ok _ _ _ _ Hd Hs)
  | save_localized _ _ _ = _ => exact (save_localized_ok _ _ _ _ Hd Hs)
  | insert_user _ _ _ = _ => exact (insert_user_ok _ _ _ _ Hd Hs)
  | insert_org _ _ _ = _ => exact (insert_org_ok _ _ _ _ Hd Hs)
  | insert_member _ _ _ = _ => exact (insert_member_ok _ _ _ _ Hd Hs)
  | insert_invitation _ _ _ = _ => exact (insert_invitation_ok _ _ _ _ Hd Hs)
  | insert_customer _ _ = _ => exact (insert_customer_ok _ _ _ Hd Hs)
  | insert_sub _ _ = _ => exact (insert_sub_ok _ _ _ Hd Hs)
  | insert_event _ _ _ = _ => exact (insert_event_ok _ _ _ _ Hd Hs)
  | insert_balance _ _ _ = _ => exact (insert_balance_ok _ _ _ _ Hd Hs)
  | insert_transaction _ _ _ = _ => exact (insert_transaction_ok _ _ _ _ Hd Hs)
  | insert_refresh _ _ _ = _ => exact (insert_refresh_ok _ _ _ _ Hd Hs)
  | insert_verify _ _ _ = _ => exact (insert_verify_ok _ _ _ _ Hd Hs)
  | insert_reset _ _ _ = _ => exact (insert_reset_ok _ _ _ _ Hd Hs)
  | insert_link _ _ _ = _ => exact (insert_link_ok _ _ _ _ Hd Hs)
  | insert_social _ _ _ = _ => exact (insert_social_ok _ _ _ _ Hd Hs)
  end.
