(* ===== verification/Django.v ===== *)
(** * Django: the store, transactions and the cache

    The state of the backend: the database of [Store.v] and the cache.
    [transaction.atomic()] restores the database and drops the [on_commit]
    dispatches when its block raises; the cache, the clock and the calls already
    made to Stripe are not transactional.  The functions of Django, of the standard
    library's secrets and of PyJWT that the apps call are parameters. *)

From S2P Require Import Prelude PyVal Effects Domain Relational Store StoreFacts.

#[local] Open Scope string_scope.

(** ** The cache *)

(** Entries with their expiry: [auth_user:{id}] holds a snapshot of a user,
    [oauth_exchange:{code}] a pair of access and refresh tokens,
    [oauth_exchange:{code}:consumed] a mark. *)
Record cache := mkCache {
  c_auth : gmap string (uuid * UserRow * datetime);
  c_codes : gmap string (string * string * datetime);
  c_consumed : gmap string datetime
}.

Record store := mkStore {
  s_db : db;
  s_cache : cache;
  s_media : gmap string string
}.

Definition on_db (f : db → outcome db) (s : store) : outcome store :=
  d ← f s.(s_db); Ok (mkStore d s.(s_cache) s.(s_media)).

(** ** Definitions *)

Definition dquery {A} (f : db → A) : M store A := query (λ s, f s.(s_db)).
Definition dexec (f : db → outcome db) : M store unit := exec (on_db f).

(** [with transaction.atomic(): m]. *)
Definition atomic {A} (m : M store A) : M store A := λ w,
  match m w with
  | (Ok a, w') => (Ok a, w')
  | (Raise e, w') =>
      (Raise e, World (mkStore (w_db w).(s_db) (w_db w').(s_cache) (w_db w').(s_media)) (w_stripe w') (w_tasks w)
                  (w_now w') (w_next w'))
  end.

(** [transaction.on_commit(lambda: task.delay(...))]. *)
Definition on_commit (t : task) : M store unit := delay t.

(** The signal receiver [_invalidate_auth_user_cache]. *)
Definition invalidate_auth_user_cache (id : uuid) : M store unit :=
  exec (λ s, Ok (mkStore s.(s_db)
    (mkCache (delete (uuid_str id) s.(s_cache).(c_auth)) s.(s_cache).(c_codes) s.(s_cache).(c_consumed))
    s.(s_media))).

(** [user.save(...)]: the row, then the [post_save] signal. *)
Definition save_user_instance (i : uuid) (u : UserRow) : M store unit :=
  dexec (save_user i u);; invalidate_auth_user_cache i.

(** [User.objects.filter(p).delete()]: a [post_delete] signal per user. *)
Definition delete_users_signals (p : N → bool) (s : store) : store :=
  let gone := map_to_list (tfilter (λ i _, p i) s.(s_db).(d_users)) in
  mkStore (delete_users p s.(s_db))
    (mkCache (foldr (λ r m, delete (uuid_str r.1) m) s.(s_cache).(c_auth) gone)
       s.(s_cache).(c_codes) s.(s_cache).(c_consumed))
    s.(s_media).

Definition delete_users_m (p : N → bool) : M store unit := exec (λ s, Ok (delete_users_signals p s)).

(** [get_object_or_404] and [.get()] on a query. *)
Definition get_or_404 {A} (q : db → option A) : M store A :=
  r ← dquery q;
  match r with Some a => mret a | None => raise (APIException 404 "not_found") end.

Definition objects_get {A} (q : db → option A) (model : string) : M store A :=
  r ← dquery q;
  match r with
  | Some a => mret a
  | None => raise (DoesNotExist (model ++ " matching query does not exist."))
  end.

(** ** Library functions

    Functions of Django and of [secrets]/[hashlib] the apps call and whose definition is
    not in the repository: parameters of the model, with the documented behaviour the
    theorems rely on as laws. *)

(** Django's [slugify], [BaseUserManager.normalize_email] and password hashers.
    [make_password] takes the salt it draws. *)
Class DjangoLib := {
  slugify : string → string;
  normalize_email : string → string;
  make_password : N → string → string;
  check_password_hash : string → string → bool
}.

Class DjangoLibLaws `{DjangoLib} := {
  check_make_password salt raw : check_password_hash raw (make_password salt raw) = true;
  (* only the case of the domain changes *)
  lower_normalize_email email : lower (normalize_email email) = lower email
}.

(** [django.contrib.auth.authenticate] with the default [ModelBackend]: the
    active user with this exact address and password. *)
Class AuthBackend := backend_authenticate : string → string → db → option (N * UserRow).

Class AuthBackendLaws `{DjangoLib} `{AuthBackend} := {
  backend_authenticate_spec email password d i u : db_ok d →
    backend_authenticate email password d = Some (i, u) ↔
    d.(d_users) !! i = Some u ∧ u.(u_email) = email ∧ u.(u_is_active) = true ∧
    ∃ h, u.(u_password) = Some h ∧ check_password_hash password h = true
}.

(** [secrets.token_urlsafe(n)] drawn from the supply of fresh values, and the
    SHA-256 hex digest. *)
Class Secrets := {
  token_urlsafe : N → string;
  sha256_hex : string → string
}.

(** The draws of one run of the system: no two of them give the same token, nor
    tokens with the same digest. *)
Definition token_space : N := 2 ^ 128.

Class SecretsLaws `{Secrets} := {
  token_urlsafe_short n : (n < token_space)%N → varchar 64 (token_urlsafe n) = true;
  sha256_hex_inj a b : (a < token_space)%N → (b < token_space)%N →
    sha256_hex (token_urlsafe a) = sha256_hex (token_urlsafe b) → a = b;
  sha256_hex_length s : varchar 64 (sha256_hex s) = true
}.

(** PyJWT with the signing key: a token decodes to its claims, or is expired, or
    is refused ([InvalidTokenError]). *)
Inductive jwt_result :=
  | JwtOk (payload : json)
  | JwtExpired
  | JwtInvalid.

Class JWT := {
  jwt_encode : json → string;
  jwt_decode : datetime → string → jwt_result
}.

(** A token we signed is accepted, with the claims it was given, from its [iat]
    to its [exp], and reported expired from then on.  No token is accepted that
    was not signed with the key. *)
Class JWTLaws `{JWT} := {
  jwt_decode_encode now fields iat exp :
    assoc "iat" fields = Some (JNum iat) → assoc "exp" fields = Some (JNum exp) →
    (iat * 1000000 <= now)%Z →
    jwt_decode now (jwt_encode (JObj fields)) =
    if (exp * 1000000 <=? now)%Z then JwtExpired else JwtOk (JObj fields);
  jwt_decode_signed now t payload : jwt_decode now t = JwtOk payload → t = jwt_encode payload
}.

(** ** Tokens and durations *)

Definition fresh_token `{Secrets} : M store string := n ← uuid4; mret (token_urlsafe n).

(** Durations as microseconds. *)
Definition seconds (n : Z) : Z := n * 1000000.
Definition minutes (n : Z) : Z := seconds (n * 60).
Definition hours (n : Z) : Z := minutes (n * 60).
Definition days (n : Z) : Z := hours (n * 24).

(** ** Invariants of the database *)

Definition store_ok (s : store) : Prop := db_ok s.(s_db).

(** A handler keeps the declared constraints. *)
Abbreviation keeps_ok := (preserves (db_inv store_ok)).

(** ** Lemmas *)

Lemma on_db_inv f s s' : on_db f s = Ok s' → f s.(s_db) = Ok s'.(s_db) ∧ s'.(s_cache) = s.(s_cache).
Proof. unfold on_db. by intros (d & Hd & [= <-])%outcome_bind_Ok. Qed.

Lemma dexec_run f w :
  dexec f w =
  match f (w_db w).(s_db) with
  | Ok d => (Ok tt, set_db (mkStore d (w_db w).(s_cache) (w_db w).(s_media)) w)
  | Raise e => (Raise e, w)
  end.
Proof. unfold dexec, exec, on_db. by destruct (f _). Qed.

Lemma keeps_dexec f :
  (∀ d d', db_ok d → f d = Ok d' → db_ok d') → keeps_ok (dexec f).
Proof.
  intros Hf. apply preserves_exec. intros s s' Hs [Hd _]%on_db_inv. by eapply Hf.
Qed.

Lemma keeps_dquery {A} (f : db → A) : keeps_ok (dquery f).
Proof. apply preserves_query. Qed.

Lemma keeps_atomic {A} (m : M store A) : keeps_ok m → keeps_ok (atomic m).
Proof.
  intros Hm w Hw. specialize (Hm w Hw). unfold atomic.
  destruct (m w) as [[a|e] w']; [exact Hm|exact Hw].
Qed.

Lemma keeps_invalidate i : keeps_ok (invalidate_auth_user_cache i).
Proof. apply preserves_exec. intros s s' Hs [= <-]. exact Hs. Qed.

Lemma keeps_save_user_instance i u : keeps_ok (save_user_instance i u).
Proof.
  apply preserves_bind; [|intros _; apply keeps_invalidate].
  apply keeps_dexec. db_step.
Qed.

Lemma keeps_delete_users p : keeps_ok (delete_users_m p).
Proof. apply preserves_exec. intros s s' Hs [= <-]. by apply delete_users_ok. Qed.

Lemma keeps_get_or_404 {A} (q : db → option A) : keeps_ok (get_or_404 q).
Proof. apply preserves_bind; [apply preserves_query|]. intros []; [apply preserves_ret|apply preserves_raise]. Qed.

Lemma keeps_objects_get {A} (q : db → option A) m : keeps_ok (objects_get q m).
Proof. apply preserves_bind; [apply preserves_query|]. intros []; [apply preserves_ret|apply preserves_raise]. Qed.

(** A raising block leaves the database, and the dispatches, as they were. *)
Lemma atomic_raise {A} (m : M store A) w e w' :
  atomic m w = (Raise e, w') → (w_db w').(s_db) = (w_db w).(s_db) ∧ w_tasks w' = w_tasks w.
Proof. unfold atomic. destruct (m w) as [[a|e'] w1]; [done|]. by intros [= _ <-]. Qed.

Lemma atomic_Ok {A} (m : M store A) w a w' : atomic m w = (Ok a, w') → m w = (Ok a, w').
Proof. unfold atomic. by destruct (m w) as [[a'|e'] w1]. Qed.

#[export] Hint Resolve keeps_dquery keeps_atomic keeps_invalidate
  keeps_save_user_instance keeps_delete_users keeps_get_or_404 keeps_objects_get : preserve.
#[export] Hint Extern 1 (preserves (db_inv store_ok) (dexec _)) => apply keeps_dexec; db_step : preserve.
