(* ===== verification/Repositories.v ===== *)
(** * The Django repositories

    [apps/billing/repositories.py] and [apps/users/repositories.py]: the
    implementations of the protocols of [Repos.v] over the Django database.
    [RepositoriesFacts.v] proves the laws the services rely on. *)

From S2P Require Import Prelude PyVal Effects Domain Relational Store Django Repos.

#[local] Open Scope string_scope.

(** ** Definitions *)

(** *** [DjangoStripeCustomerRepository] *)

Definition customer_by_stripe_id (d : db) (k : string) : option StripeCustomer :=
  snd <$> tfind (λ _ c, b_eq c.(cus_stripe_id) k) d.(d_customers).
Definition customer_by_user (d : db) (u : uuid) : option StripeCustomer :=
  snd <$> tfind (λ _ c, b_eq c.(cus_user_id) (Some u)) d.(d_customers).
Definition customer_by_org (d : db) (o : uuid) : option StripeCustomer :=
  snd <$> tfind (λ _ c, b_eq c.(cus_org_id) (Some o)) d.(d_customers).

(** [save]: [aupdate_or_create] by user, else by org, else by id. *)
Definition customer_lookup (c : StripeCustomer) (d : db) : option StripeCustomer :=
  match c.(cus_user_id), c.(cus_org_id) with
  | Some u, _ => customer_by_user d u
  | None, Some o => customer_by_org d o
  | None, None => d.(d_customers) !! c.(cus_id)
  end.

Definition customer_save (now : datetime) (pk : uuid) (c : StripeCustomer) (d : db) : outcome db :=
  match customer_lookup c d with
  | Some row => save_customer (mkStripeCustomer row.(cus_id) c.(cus_stripe_id) c.(cus_user_id)
                  c.(cus_org_id) c.(cus_livemode) row.(cus_created_at)) d
  | None =>
      let id := match c.(cus_user_id), c.(cus_org_id) with None, None => c.(cus_id) | _, _ => pk end in
      insert_customer (mkStripeCustomer id c.(cus_stripe_id) c.(cus_user_id) c.(cus_org_id)
        c.(cus_livemode) now) d
  end.

#[export] Instance DjangoStripeCustomerRepository : StripeCustomerRepository store := {|
  custs_get_by_id s i := s.(s_db).(d_customers) !! i;
  custs_get_by_stripe_id s := customer_by_stripe_id s.(s_db);
  custs_get_by_user_id s := customer_by_user s.(s_db);
  custs_get_by_org_id s := customer_by_org s.(s_db);
  custs_save_db now pk c := on_db (customer_save now pk c);
  custs_delete_db i s := mkStore (delete_customers (λ j, b_eq j i) s.(s_db)) s.(s_cache) s.(s_media)
|}.

(** *** [DjangoSubscriptionRepository] *)

Definition sub_by_stripe_id (d : db) (k : string) : option Subscription :=
  snd <$> tfind (λ _ s, b_eq s.(sub_stripe_id) (Some k)) d.(d_subs).

Definition sub_is_active (s : Subscription) : bool := is_active_status s.(sub_status).

Definition sub_active_for_customer (d : db) (c : uuid) : option Subscription :=
  snd <$> tlatest sub_created_at
    (λ _ s, b_eq s.(sub_stripe_customer_id) (Some c) && sub_is_active s) d.(d_subs).

(** The user a subscription's customer belongs to. *)
Definition sub_customer_user (d : db) (s : Subscription) : option uuid :=
  s.(sub_stripe_customer_id) ≫= λ c, d.(d_customers) !! c ≫= cus_user_id.

(** [get_active_for_user]: the latest by user and the latest by customer, and of
    the two the more recent ([max] keeps the first of equals). *)
Definition sub_active_for_user (d : db) (u : uuid) : option Subscription :=
  let by_user := snd <$> tlatest sub_created_at
    (λ _ s, sub_is_active s && b_eq s.(sub_user_id) (Some u)) d.(d_subs) in
  let by_customer := snd <$> tlatest sub_created_at
    (λ _ s, sub_is_active s && b_eq (sub_customer_user d s) (Some u)) d.(d_subs) in
  match by_user, by_customer with
  | Some a, Some b => if (a.(sub_created_at) <? b.(sub_created_at))%Z then Some b else Some a
  | Some a, None => Some a
  | None, b => b
  end.

(** [save]: [aupdate_or_create(id=...)]; [created_at] belongs to the database. *)
Definition subscription_save (now : datetime) (s : Subscription) (d : db) : outcome db :=
  match d.(d_subs) !! s.(sub_id) with
  | Some row => save_sub (sub_with_created_at s row.(sub_created_at)) d
  | None => save_sub (sub_with_created_at s now) d
  end.

#[export] Instance DjangoSubscriptionRepository : SubscriptionRepository store := {|
  subs_get_by_stripe_id s := sub_by_stripe_id s.(s_db);
  subs_get_active_for_user s := sub_active_for_user s.(s_db);
  subs_get_active_for_customer s := sub_active_for_customer s.(s_db);
  subs_save_db now sub := on_db (subscription_save now sub)
|}.

(** *** [DjangoPlanRepository] *)

#[export] Instance DjangoPlanRepository : PlanRepository store := {|
  plans_list_active s := snd <$> map_to_list (tfilter (λ _ p, p.(plan_is_active)) s.(s_db).(d_plans));
  plans_get_price_by_stripe_id s k :=
    snd <$> tfind (λ _ p, b_eq p.(pp_stripe_price_id) k) s.(s_db).(d_prices)
|}.

(** *** [DjangoProductRepository] *)

Definition products_list_active (d : db) : list Product :=
  snd <$> map_to_list (tfilter (λ _ p, p.(prod_is_active)) d.(d_products)).

(** *** [DjangoUserRepository] *)

Definition user_to_domain (i : uuid) (u : UserRow) : User :=
  mkUser i u.(u_email) u.(u_full_name) u.(u_avatar_url) u.(u_preferred_locale)
    u.(u_preferred_currency) u.(u_pronouns) u.(u_is_verified) u.(u_created_at)
    (Some u.(u_updated_at)).

(** [save]: [aupdate_or_create(id=...)]; a row it creates has the model's
    defaults and an empty password column; the [post_save] signal clears the
    cached snapshot. *)
Definition user_save (now : datetime) (u : User) (s : store) : outcome store :=
  let row := match s.(s_db).(d_users) !! u.(du_id) with
             | Some r => mkUserRow u.(du_email) u.(du_full_name) u.(du_avatar_url)
                 u.(du_preferred_locale) u.(du_preferred_currency) r.(u_phone_prefix) r.(u_phone)
                 r.(u_timezone) r.(u_job_title) u.(du_pronouns) r.(u_bio) u.(du_is_verified)
                 r.(u_registration_method) r.(u_is_active) r.(u_password) r.(u_password_changed_at)
                 r.(u_created_at) now
             | None => mkUserRow u.(du_email) u.(du_full_name) u.(du_avatar_url)
                 u.(du_preferred_locale) u.(du_preferred_currency) None None None None u.(du_pronouns) None
                 u.(du_is_verified) "email" true (Some "") None now now
             end in
  d ← save_user u.(du_id) row s.(s_db);
  Ok (mkStore d (mkCache (delete (uuid_str u.(du_id)) s.(s_cache).(c_auth)) s.(s_cache).(c_codes) s.(s_cache).(c_consumed))
        s.(s_media)).

#[export] Instance DjangoUserRepository : UserRepository store := {|
  users_get_by_id s i := user_to_domain i <$> s.(s_db).(d_users) !! i;
  users_hard_delete_db i := delete_users_signals (λ j, b_eq j i)
|}.

(** *** [DjangoStripeEventRepository] *)

Definition event_exists (d : db) (k : string) : bool :=
  not_none (tfind (λ _ e, b_eq e.(e_stripe_id) k) d.(d_events)).

(** [save]: [aupdate_or_create(id=...)]. *)
Definition event_save (now : datetime) (e : StripeEvent) (d : db) : outcome db :=
  let created_at := match d.(d_events) !! e.(ev_id) with Some row => row.(e_created_at) | None => now end in
  save_event e.(ev_id) (mkEventRow e.(ev_stripe_id) e.(ev_type) e.(ev_livemode) e.(ev_payload)
    e.(ev_processed_at) e.(ev_error) created_at) d.

Definition event_set_processed (now : datetime) (k : string) (e : EventRow) : EventRow :=
  if b_eq e.(e_stripe_id) k
  then mkEventRow e.(e_stripe_id) e.(e_type) e.(e_livemode) e.(e_payload) (Some now) None
         e.(e_created_at)
  else e.

Definition event_set_failed (k err : string) (e : EventRow) : EventRow :=
  if b_eq e.(e_stripe_id) k
  then mkEventRow e.(e_stripe_id) e.(e_type) e.(e_livemode) e.(e_payload) e.(e_processed_at)
         (Some err) e.(e_created_at)
  else e.

Definition map_events (f : EventRow → EventRow) (s : store) : store :=
  mkStore (set_events (f <$> s.(s_db).(d_events)) s.(s_db)) s.(s_cache) s.(s_media).

#[export] Instance DjangoStripeEventRepository : StripeEventRepository store := {|
  events_status s k :=
    (λ r, (r.2.(e_processed_at), r.2.(e_error)))
      <$> tfind (λ _ e, b_eq e.(e_stripe_id) k) s.(s_db).(d_events);
  events_mark_processed_db now k := map_events (event_set_processed now k);
  events_mark_failed_db k err := map_events (event_set_failed k err)
|}.
