(* ===== verification/RepositoriesFacts.v ===== *)
(** * The Django repositories keep the protocols' laws

    Instances of the law classes of [Repos.v] for [Repositories.v]; the theorems
    about the services apply to the backend through them. *)

From S2P Require Import Prelude PyVal Effects Domain Relational Store StoreFacts Django Repos.
From S2P Require Import Repositories.

#[local] Open Scope string_scope.

(** ** Subscriptions *)

Lemma db_ok_subs d : db_ok d → table_ok sub_schema (has d) d.(d_subs).
Proof. unfold db_ok. tauto. Qed.
Lemma db_ok_customers d : db_ok d → table_ok customer_schema (has d) d.(d_customers).
Proof. unfold db_ok. tauto. Qed.
Lemma db_ok_sub_id d i s : db_ok d → d.(d_subs) !! i = Some s → s.(sub_id) = i.
Proof. unfold db_ok, ids_ok. intros Hok Hs. destruct_and!. match goal with H : map_Forall _ (d_subs d) |- _ => exact (H i s Hs) end. Qed.
Lemma db_ok_customer_id d i c : db_ok d → d.(d_customers) !! i = Some c → c.(cus_id) = i.
Proof. unfold db_ok, ids_ok. intros Hok Hs. destruct_and!. match goal with H : map_Forall _ (d_customers d) |- _ => exact (H i c Hs) end. Qed.

Lemma sub_by_stripe_id_iff d k s :
  db_ok d →
  sub_by_stripe_id d k = Some s ↔ d.(d_subs) !! s.(sub_id) = Some s ∧ s.(sub_stripe_id) = Some k.
Proof.
  intros Hok. unfold sub_by_stripe_id. split.
  - intros [[i s'] [Hf [= ->]]]%fmap_Some. apply tfind_Some in Hf as [Hs Hk].
    rewrite b_eq_true in Hk. cbn. by rewrite (db_ok_sub_id _ _ _ Hok Hs).
  - intros [Hs Hk]. erewrite (tfind_key sub_schema (has d) _ (λ s, key_opt_str s.(sub_stripe_id)) [KS k]);
      [done|by apply db_ok_subs|by left| |done|by rewrite Hk].
    intros j b. rewrite b_eq_true. unfold key_opt_str. destruct (sub_stripe_id b); cbn; [|done].
    split; congruence.
Qed.

Lemma subscription_save_row now s d :
  subscription_save now s d =
  save_sub (sub_with_created_at s
    (match d.(d_subs) !! s.(sub_id) with Some r => r.(sub_created_at) | None => now end)) d.
Proof. unfold subscription_save. by destruct (_ !! _). Qed.

Lemma subscription_save_inv now s d d' :
  subscription_save now s d = Ok d' →
  d' = set_subs (<[sub_id s := sub_with_created_at s
    (match d.(d_subs) !! s.(sub_id) with Some r => r.(sub_created_at) | None => now end)]> d.(d_subs)) d ∧
  row_ok sub_schema (has d) s = true.
Proof.
  rewrite subscription_save_row. intros (t & Ht & [= <-])%outcome_bind_Ok.
  by apply tput_inv in Ht as (-> & Hr & _).
Qed.

Lemma sub_row_ok_equiv h s1 s2 : s1 ≡ s2 → row_ok sub_schema h s1 = row_ok sub_schema h s2.
Proof.
  intros Heq. destruct s1, s2. unfold equiv, Subscription_equiv, sub_equiv in Heq. cbn in Heq.
  by injection Heq as -> -> -> -> -> -> -> -> -> -> -> -> -> -> ->.
Qed.

#[export] Program Instance DjangoSubscriptionLaws : SubscriptionRepositoryLaws store := {|
  subs_valid := store_ok;
  subs_refs st s := row_ok sub_schema (has st.(s_db)) s = true
|}.
Next Obligation. intros [d c] k s Hok Hs. by apply sub_by_stripe_id_iff in Hs as [_ ?]. Qed.
Next Obligation.
  intros [d c] k1 k2 s1 s2 Hok H1 H2 Hid. cbn in *.
  apply sub_by_stripe_id_iff in H1 as [H1 _]; [|done].
  apply sub_by_stripe_id_iff in H2 as [H2 _]; [|done]. congruence.
Qed.
Next Obligation.
  intros t s [d c] st' Hok [Hs _]%on_db_inv. cbn in *. rewrite subscription_save_row in Hs.
  by eapply save_sub_ok.
Qed.
Next Obligation.
  intros t s [d c] [d' c'] k Hok [Hs _]%on_db_inv Hk. cbn in *.
  assert (db_ok d') as Hok' by (rewrite subscription_save_row in Hs; by eapply save_sub_ok).
  apply subscription_save_inv in Hs as [-> _].
  set (t0 := match d_subs d !! sub_id s with Some r => r.(sub_created_at) | None => t end) in *.
  exists (sub_with_created_at s t0). split_and!; [|done|].
  - apply sub_by_stripe_id_iff; [done|]. cbn. by rewrite lookup_insert_eq.
  - intros s0 Hs0. apply sub_by_stripe_id_iff in Hs0 as [Hs0 Hk0]; [|done]. cbn.
    unfold t0.
    assert (sub_id s0 = sub_id s) as Hid; [|by rewrite <-Hid, Hs0].
    destruct (decide (sub_id s0 = sub_id s)) as [|Hne]; [done|]. exfalso. apply Hne.
    eapply (table_ok_unique sub_schema _ _ (λ s, key_opt_str s.(sub_stripe_id)) _ _ s0
      (sub_with_created_at s t0) [KS k]); [by apply db_ok_subs| by left| | | |].
    + cbn. by rewrite lookup_insert_ne.
    + cbn. by rewrite lookup_insert_eq.
    + by rewrite Hk0.
    + cbn. by rewrite Hk.
Qed.
Next Obligation.
  intros t s [d c] [d' c'] k s0 Hok [Hs _]%on_db_inv Hne. cbn in *.
  assert (db_ok d') as Hok' by (rewrite subscription_save_row in Hs; by eapply save_sub_ok).
  apply subscription_save_inv in Hs as [-> _]. rewrite !sub_by_stripe_id_iff by done. cbn.
  by rewrite lookup_insert_ne by done.
Qed.
Next Obligation.
  intros t s [d c] [d' c'] k s0 Hok [Hs _]%on_db_inv Hk Hs0. cbn in *.
  assert (db_ok d') as Hok' by (rewrite subscription_save_row in Hs; by eapply save_sub_ok).
  apply subscription_save_inv in Hs as [-> _].
  apply sub_by_stripe_id_iff in Hs0 as [Hs0 Hk0]; [|done].
  destruct (decide (sub_id s0 = sub_id s)) as [|Hne]; [done|]. exfalso. apply Hne.
  eapply (table_ok_unique sub_schema _ _ (λ s, key_opt_str s.(sub_stripe_id)) _ _ s0 _ [KS k]);
    [by apply db_ok_subs|by left| | | |].
  - cbn. by rewrite lookup_insert_ne.
  - cbn. by rewrite lookup_insert_eq.
  - by rewrite Hk0.
  - cbn. by rewrite Hk.
Qed.
Next Obligation.
  intros t s [d c] Hok Hrow Hkey. cbn in *. unfold on_db. rewrite subscription_save_row.
  set (t0 := match d_subs d !! sub_id s with Some r => r.(sub_created_at) | None => t end). unfold save_sub.
  rewrite tput_Ok; [by eexists|by rewrite (sub_row_ok_equiv _ _ s)|].
  repeat constructor. apply conflicts_false. intros j b Hb Hne [k Hk] Hkb. cbn in *.
  destruct (sub_stripe_id s) as [k'|] eqn:Hk'; [|done]. apply Hne.
  rewrite <-(db_ok_sub_id _ _ _ Hok Hb). apply (Hkey k'); [done|].
  apply sub_by_stripe_id_iff; [done|]. rewrite (db_ok_sub_id _ _ _ Hok Hb). split; [done|].
  destruct (sub_stripe_id b); cbn in *; congruence.
Qed.
Next Obligation.
  intros t s [d c] [d' c'] [Hs _]%on_db_inv. cbn in *.
  apply subscription_save_inv in Hs as [-> Hr]. done.
Qed.
Next Obligation. intros st s1 s2 Heq Hr. cbn in *. by rewrite <-(sub_row_ok_equiv _ s1 s2). Qed.
Next Obligation. done. Qed.
Next Obligation.
  intros t s [d c] [d' c'] [Hs _]%on_db_inv. cbn in *.
  apply subscription_save_inv in Hs as [-> _]. done.
Qed.
Next Obligation.
  intros [d c] cid s Hok. cbn. intros [[i s'] [Hf [= ->]]]%fmap_Some.
  apply tbest_Some in Hf as (Hs & Hp & _). rewrite andb_true_iff, b_eq_true in Hp. destruct Hp as [Hc Ha].
  split_and!; [done|done|]. intros k Hk. apply sub_by_stripe_id_iff; [done|].
  by rewrite (db_ok_sub_id _ _ _ Hok Hs).
Qed.

(** ** Customers *)

Lemma customer_by_key d key k (p : N → StripeCustomer → bool) i c :
  db_ok d → key ∈ sc_uniques customer_schema → (∀ j b, p j b = true ↔ key b = Some k) →
  d.(d_customers) !! i = Some c → key c = Some k → tfind p d.(d_customers) = Some (i, c).
Proof. intros Hok. apply tfind_key with (has := has d). by apply db_ok_customers. Qed.

Lemma customer_by_user_iff d u c :
  db_ok d → customer_by_user d u = Some c ↔
  d.(d_customers) !! c.(cus_id) = Some c ∧ c.(cus_user_id) = Some u.
Proof.
  intros Hok. unfold customer_by_user. split.
  - intros [[i c'] [Hf [= ->]]]%fmap_Some. apply tfind_Some in Hf as [Hc Hu].
    rewrite b_eq_true in Hu. cbn. by rewrite (db_ok_customer_id _ _ _ Hok Hc).
  - intros [Hc Hu]. erewrite (customer_by_key d (λ c, key_opt_id c.(cus_user_id)) [KN u]);
      [done|done|by right; left| |done|by rewrite Hu].
    intros j b. rewrite b_eq_true. unfold key_opt_id. destruct (cus_user_id b); cbn; split; congruence.
Qed.

Lemma customer_by_org_iff d o c :
  db_ok d → customer_by_org d o = Some c ↔
  d.(d_customers) !! c.(cus_id) = Some c ∧ c.(cus_org_id) = Some o.
Proof.
  intros Hok. unfold customer_by_org. split.
  - intros [[i c'] [Hf [= ->]]]%fmap_Some. apply tfind_Some in Hf as [Hc Hu].
    rewrite b_eq_true in Hu. cbn. by rewrite (db_ok_customer_id _ _ _ Hok Hc).
  - intros [Hc Hu]. erewrite (customer_by_key d (λ c, key_opt_id c.(cus_org_id)) [KN o]);
      [done|done|by right; right; left| |done|by rewrite Hu].
    intros j b. rewrite b_eq_true. unfold key_opt_id. destruct (cus_org_id b); cbn; split; congruence.
Qed.

Lemma save_customer_inv c d d' :
  save_customer c d = Ok d' → d' = set_customers (<[cus_id c := c]> d.(d_customers)) d.
Proof. intros (t & Ht & [= <-])%outcome_bind_Ok. by apply tput_inv in Ht as (-> & _). Qed.

(** The row [save] leaves carries the given fields, not always the given id. *)
Lemma customer_save_inv now pk c d d' :
  db_ok d → customer_save now pk c d = Ok d' →
  db_ok d' ∧ ∃ row,
    d'.(d_customers) !! row.(cus_id) = Some row ∧ row.(cus_stripe_id) = c.(cus_stripe_id) ∧
    row.(cus_user_id) = c.(cus_user_id) ∧ row.(cus_org_id) = c.(cus_org_id).
Proof.
  intros Hok. unfold customer_save. destruct (customer_lookup c d) as [r|].
  - intros Hs. split; [by eapply save_customer_ok|]. apply save_customer_inv in Hs as ->.
    match goal with |- context [<[_ := ?r]> _] => exists r end. cbn. by rewrite lookup_insert_eq.
  - intros Hs. split; [by eapply insert_customer_ok|].
    apply outcome_bind_Ok in Hs as (_ & _ & Hs). apply save_customer_inv in Hs as ->.
    match goal with |- context [<[_ := ?r]> _] => exists r end. cbn. by rewrite lookup_insert_eq.
Qed.

#[export] Program Instance DjangoStripeCustomerLaws : StripeCustomerRepositoryLaws store := {|
  custs_valid := store_ok
|}.
Next Obligation.
  intros t pk c [d ch] [d' ch'] u Hok [Hs _]%on_db_inv Hu. cbn in *.
  apply customer_save_inv in Hs as (Hok' & row & Hr & H1 & H2 & H3); [|done].
  exists row. split_and!; try done. apply customer_by_user_iff; [done|]. by rewrite H2.
Qed.
Next Obligation.
  intros t pk c [d ch] [d' ch'] o Hok [Hs _]%on_db_inv Hu Ho. cbn in *.
  apply customer_save_inv in Hs as (Hok' & row & Hr & H1 & H2 & H3); [|done].
  exists row. split_and!; try done. apply customer_by_org_iff; [done|]. by rewrite H3.
Qed.

(** ** Users *)

#[export] Program Instance DjangoUserLaws : UserRepositoryLaws store := {}.
Next Obligation.
  intros u [d c] u'. cbn. destruct (decide (u' = u)) as [->|Hne].
  - apply fmap_None, map_lookup_filter_None. right. intros x _. by rewrite b_eq_refl.
  - f_equal. apply option_eq. intros x. rewrite tfilter_lookup, negb_true_iff, b_eq_false. tauto.
Qed.

(** ** Events *)

Lemma events_status_fmap f g k' s :
  (∀ e, e_stripe_id (f e) = e_stripe_id e) →
  (∀ e, e_stripe_id e = k' →
    (e_processed_at (f e), e_error (f e)) = g (e_processed_at e, e_error e)) →
  events_status (map_events f s) k' = g <$> events_status s k'.
Proof.
  intros Hk Hg. cbn. unfold tfind. rewrite tbest_fmap; [|by intros; rewrite Hk|done].
  destruct (tbest _ _ _) as [[i e]|] eqn:E; [|done]. cbn. f_equal. apply Hg.
  apply tbest_Some in E as (_ & E & _). by rewrite b_eq_true in E.
Qed.

#[export] Program Instance DjangoStripeEventLaws : StripeEventRepositoryLaws store := {}.
Next Obligation.
  intros t k s k'. change (events_mark_processed_db t k s) with (map_events (event_set_processed t k) s).
  case_decide as Hk; [subst k'|].
  - rewrite (events_status_fmap _ (const (Some t, None))); [done| |].
    + intros e. unfold event_set_processed. by case_match.
    + intros e He. unfold event_set_processed. by rewrite He, b_eq_refl.
  - rewrite (events_status_fmap _ id); [by destruct (events_status s k')| |].
    + intros e. unfold event_set_processed. by case_match.
    + intros e He. unfold event_set_processed. by rewrite (proj2 (b_eq_false _ _)) by congruence.
Qed.
Next Obligation.
  intros k err s k'. change (events_mark_failed_db k err s) with (map_events (event_set_failed k err) s).
  case_decide as Hk; [subst k'|].
  - rewrite (events_status_fmap _ (λ st, (st.1, Some err))); [done| |].
    + intros e. unfold event_set_failed. by case_match.
    + intros e He. unfold event_set_failed. by rewrite He, b_eq_refl.
  - rewrite (events_status_fmap _ id); [by destruct (events_status s k')| |].
    + intros e. unfold event_set_failed. by case_match.
    + intros e He. unfold event_set_failed. by rewrite (proj2 (b_eq_false _ _)) by congruence.
Qed.

Lemma map_events_ok f s :
  (∀ e, e_stripe_id (f e) = e_stripe_id e ∧ e_type (f e) = e_type e) →
  store_ok s → store_ok (map_events f s).
Proof.
  unfold store_ok, db_ok, ids_ok. cbn. intros Hf Hok. destruct_and!. split_and!; try assumption.
  all: try (eapply table_ok_weaken; [|eassumption]; done).
  eapply table_ok_fmap; [| |eassumption].
  - intros key e Hk. apply elem_of_cons in Hk as [->|Hk]; [|by apply elem_of_nil in Hk].
    by rewrite (proj1 (Hf e)).
  - intros i e _. unfold row_ok. cbn. by rewrite (proj1 (Hf e)), (proj2 (Hf e)).
Qed.

#[export] Program Instance DjangoStripeEventFrame : StripeEventFrame store := {}.
Next Obligation. done. Qed.
Next Obligation. done. Qed.
Next Obligation.
  intros t k s Hok. cbn. apply map_events_ok; [|done].
  intros e. unfold event_set_processed. by case_match.
Qed.
Next Obligation.
  intros k err s Hok. cbn. apply map_events_ok; [|done].
  intros e. unfold event_set_failed. by case_match.
Qed.

(** ** Reading back *)







(** ** Properties *)

