(* ===== verification/Credits.v ===== *)
(** * Credits

    [apps/billing/services.py]: the idempotent credit grant and the webhook
    callback of a product checkout. *)

From S2P Require Import Prelude PyVal Effects Domain Relational Store Django.

#[local] Open Scope string_scope.

(** ** Definitions *)

Definition is_integrity_error (e : exn) : bool :=
  match e with IntegrityError _ => true | _ => false end.

Definition owner_balance (user org : option uuid) (d : db) : option (N * BalanceRow) :=
  match user with
  | Some _ => tfind (λ _ b, b_eq b.(b_user) user) d.(d_balances)
  | None => tfind (λ _ b, b_eq b.(b_org) org) d.(d_balances)
  end.

(** [CreditBalance.objects.select_for_update().get_or_create(...)]. *)
Definition get_or_create_balance (user org : option uuid) : M store (N * BalanceRow) :=
  existing ← dquery (owner_balance user org);
  match existing with
  | Some r => mret r
  | None =>
      pk ← uuid4;
      let b := mkBalanceRow user org 0 in
      dexec (insert_balance pk b);;
      mret (pk, b)
  end.

Definition grant_credits_for_session (stripe_session_id : string) (amount : Z) (reason : string)
    (user org : option uuid) : M store bool :=
  if eqb (is_none user) (is_none org)
  then raise (ValueError "Exactly one of user or org must be provided.")
  else if (amount <=? 0)%Z
  then raise (ValueError "grant_credits_for_session requires a positive amount.")
  else atomic (
    pk ← uuid4;
    now ← utcnow;
    created ← catch
      (dexec (insert_transaction pk
         (mkTransactionRow user org amount reason (Some stripe_session_id) now));; mret true)
      (λ e, if is_integrity_error e then mret false else raise e);
    if negb created then mret false else
    balance ← get_or_create_balance user org;
    dexec (save_balance balance.1
      (mkBalanceRow balance.2.(b_user) balance.2.(b_org) (balance.2.(b_balance) + amount)));;
    mret true).

Definition on_product_checkout_completed (stripe_session_id : string) (product_id user_id : uuid)
    (org_id : option uuid) : M store unit :=
  product ← dquery (λ d, d.(d_products) !! product_id);
  match product with
  | None => mret tt
  | Some product =>
      if (product.(prod_credits) <=? 0)%Z then mret tt else
      let reason := "purchase:" ++ product.(prod_name) in
      match org_id with
      | Some org_id =>
          org ← dquery (λ d, d.(d_orgs) !! org_id);
          match org with
          | None => mret tt
          | Some _ =>
              grant_credits_for_session stripe_session_id product.(prod_credits) reason None
                (Some org_id);;
              mret tt
          end
      | None =>
          user ← dquery (λ d, d.(d_users) !! user_id);
          match user with
          | None => mret tt
          | Some _ =>
              grant_credits_for_session stripe_session_id product.(prod_credits) reason
                (Some user_id) None;;
              mret tt
          end
      end
  end.
