(* ===== verification/CreditsFacts.v ===== *)
(** * Correctness of credits

    Theorems about [Credits.v]: the balance is the sum of the ledger, and a
    Stripe session is granted once. *)

From S2P Require Import Prelude PyVal Effects Domain Relational Store StoreFacts Django Credits.

#[local] Open Scope string_scope.

(** ** Specification *)

Definition owned_by (user org : option uuid) (t : TransactionRow) : bool :=
  b_eq t.(t_user) user && b_eq t.(t_org) org.

(** The sum of an owner's ledger. *)
Definition ledger_sum (user org : option uuid) (d : db) : Z :=
  map_fold (λ _ t acc, if owned_by user org t then t.(t_amount) + acc else acc)%Z 0%Z
    d.(d_transactions).

(** The owner's stored balance. *)
Definition balance_of (user org : option uuid) (d : db) : Z :=
  match owner_balance user org d with Some r => r.2.(b_balance) | None => 0 end.

(** The balance caches the ledger, for every owner. *)
Definition ledger_ok (d : db) : Prop :=
  ∀ user org, exactly_one_owner user org = true → balance_of user org d = ledger_sum user org d.

(** A session has been granted. *)
Definition granted (k : string) (d : db) : Prop :=
  ∃ i t, d.(d_transactions) !! i = Some t ∧ t.(t_stripe_session_id) = Some k.

(** ** Helper lemmas *)

Lemma owner_balance_spec user org d i b :
  db_ok d → exactly_one_owner user org = true →
  owner_balance user org d = Some (i, b) ↔
  d.(d_balances) !! i = Some b ∧ b.(b_user) = user ∧ b.(b_org) = org.
Proof.
  intros Hok Hown. assert (table_ok balance_schema (has d) d.(d_balances)) as Ht by (unfold db_ok in Hok; tauto).
  assert (∀ j b', d.(d_balances) !! j = Some b' → exactly_one_owner b'.(b_user) b'.(b_org) = true) as Hone.
  { intros j b' Hb. pose proof (table_ok_row _ _ _ _ _ Ht Hb) as Hr. unfold row_ok in Hr. cbn in Hr.
    rewrite !andb_true_iff in Hr. tauto. }
  unfold owner_balance. destruct user as [u|], org as [o|]; try done; split.
  - intros [Hb Hu]%tfind_Some. rewrite b_eq_true in Hu. split_and!; [done|done|].
    specialize (Hone _ _ Hb). rewrite Hu in Hone. by destruct (b_org b).
  - intros (Hb & Hu & _). apply (tfind_key balance_schema (has d) _ (λ b, key_opt_id b.(b_user)) [KN u]); [done|by left| |done|by rewrite Hu].
    intros j b'. rewrite b_eq_true. unfold key_opt_id. destruct (b_user b'); cbn; split; congruence.
  - intros [Hb Ho]%tfind_Some. rewrite b_eq_true in Ho. split_and!; [done| |done].
    specialize (Hone _ _ Hb). rewrite Ho in Hone. by destruct (b_user b).
  - intros (Hb & _ & Ho). apply (tfind_key balance_schema (has d) _ (λ b, key_opt_id b.(b_org)) [KN o]); [done|by right; left| |done|by rewrite Ho].
    intros j b'. rewrite b_eq_true. unfold key_opt_id. destruct (b_org b'); cbn; split; congruence.
Qed.

Lemma ledger_sum_insert user org i t d :
  d.(d_transactions) !! i = None →
  ledger_sum user org (set_transactions (<[i := t]> d.(d_transactions)) d) =
  ((if owned_by user org t then t.(t_amount) else 0) + ledger_sum user org d)%Z.
Proof.
  intros Hi. unfold ledger_sum. cbn. rewrite map_fold_insert_L; [|intros; repeat case_match; lia|done].
  case_match; lia.
Qed.

Lemma save_balance_inv i b d d' :
  save_balance i b d = Ok d' → d' = set_balances (<[i := b]> d.(d_balances)) d.
Proof. intros (t & Ht & [= <-])%outcome_bind_Ok. by apply tput_inv in Ht as (-> & _). Qed.

Lemma fresh_pk_Ok {A} (t : table A) i u : fresh_pk t i = Ok u → t !! i = None.
Proof. unfold fresh_pk. destruct (not_none _) eqn:E; [done|]. by rewrite not_none_false in E. Qed.

Lemma insert_transaction_inv i t d d' :
  insert_transaction i t d = Ok d' →
  d.(d_transactions) !! i = None ∧ d' = set_transactions (<[i := t]> d.(d_transactions)) d ∧
  Forall (λ key, conflicts key i t d.(d_transactions) = false) (sc_uniques transaction_schema).
Proof.
  intros (u & Hf & Hs)%outcome_bind_Ok. apply fresh_pk_Ok in Hf.
  apply outcome_bind_Ok in Hs as (t' & Ht & [= <-]). by apply tput_inv in Ht as (-> & _ & Hc).
Qed.

Lemma insert_balance_inv i b d d' :
  insert_balance i b d = Ok d' →
  d.(d_balances) !! i = None ∧ d' = set_balances (<[i := b]> d.(d_balances)) d.
Proof.
  intros (u & Hf & Hs)%outcome_bind_Ok. apply fresh_pk_Ok in Hf. by apply save_balance_inv in Hs.
Qed.

(** What a grant that returned did to the database. *)
Inductive grant_result (k : string) (amount : Z) (reason : string) (user org : option uuid)
    (d : db) : bool → db → Prop :=
  | gr_duplicate : grant_result k amount reason user org d false d
  | gr_granted i t j d1 :
      t.(t_user) = user → t.(t_org) = org → t.(t_amount) = amount → t.(t_reason) = reason →
      t.(t_stripe_session_id) = Some k →
      insert_transaction i t d = Ok d1 →
      match owner_balance user org d with
      | Some r => j = r.1
      | None => d.(d_balances) !! j = None
      end →
      grant_result k amount reason user org d true
        (set_balances (<[j := mkBalanceRow user org (balance_of user org d + amount)]> d.(d_balances)) d1).

Lemma get_or_create_balance_run user org w r w' :
  db_ok (s_db (w_db w)) → exactly_one_owner user org = true →
  get_or_create_balance user org w = (Ok r, w') →
  db_ok (s_db (w_db w')) ∧
  r.2 = mkBalanceRow user org (balance_of user org (s_db (w_db w))) ∧
  (w' = w ∧ owner_balance user org (s_db (w_db w)) = Some r ∨
   owner_balance user org (s_db (w_db w)) = None ∧ d_balances (s_db (w_db w)) !! r.1 = None ∧
   s_db (w_db w') = set_balances (<[r.1 := r.2]> (d_balances (s_db (w_db w)))) (s_db (w_db w))).
Proof.
  intros Hok Hone. unfold get_or_create_balance, balance_of, dquery. munfold.
  destruct (owner_balance user org _) as [[i b]|] eqn:Hb.
  - intros [= <- <-]. split; [done|]. split; [|by left].
    apply owner_balance_spec in Hb as (_ & Hu & Ho); [|done..]. destruct b. cbn in *. by subst.
  - rewrite dexec_run. cbn. destruct (insert_balance _ _ _) as [d1|] eqn:Hi; [|done].
    intros [= <- <-]. cbn. split; [by eapply insert_balance_ok|]. split; [done|]. right.
    by apply insert_balance_inv in Hi as [? ->].
Qed.

Lemma grant_run k amount reason user org w r w' :
  db_ok (s_db (w_db w)) →
  grant_credits_for_session k amount reason user org w = (Ok r, w') →
  exactly_one_owner user org = true ∧ (0 < amount)%Z ∧
  grant_result k amount reason user org (s_db (w_db w)) r (s_db (w_db w')) ∧
  db_ok (s_db (w_db w')).
Proof.
  intros Hok. unfold grant_credits_for_session. destruct (eqb _ _) eqn:Hown; [done|].
  destruct (Z.leb_spec amount 0) as [|Hpos]; [done|].
  assert (exactly_one_owner user org = true) as Hone by (by destruct user, org).
  intros Hrun%atomic_Ok. split; [done|]. split; [done|].
  rewrite bind_run in Hrun. cbn in Hrun. rewrite bind_run in Hrun. cbn in Hrun.
  set (w1 := World _ _ _ _ _) in Hrun. rewrite bind_run in Hrun. unfold catch in Hrun.
  rewrite bind_run, dexec_run in Hrun. change (s_db (w_db w1)) with (s_db (w_db w)) in Hrun.
  destruct (insert_transaction _ _ _) as [d1|e] eqn:Hi.
  2:{ destruct (is_integrity_error e); [|done]. injection Hrun as <- <-. by split; [constructor|]. }
  cbn in Hrun. rewrite bind_run in Hrun. set (w2 := set_db _ w1) in Hrun.
  assert (db_ok d1) as Hok1 by (exact (insert_transaction_ok _ _ _ _ Hok Hi)).
  pose proof Hi as Hi'. apply insert_transaction_inv in Hi' as (_ & Hd1 & _).
  destruct (get_or_create_balance user org w2) as [[[j b]|e] w3] eqn:Hb; [|done].
  apply get_or_create_balance_run in Hb as (Hok3 & Hb & Hcase); [|done..].
  cbn in Hb, Hcase, Hrun. rewrite bind_run, dexec_run in Hrun.
  destruct (save_balance _ _ _) as [d4|] eqn:Hs; [|done]. injection Hrun as <- <-. cbn.
  assert (db_ok d4) as Hok4 by (exact (save_balance_ok _ _ _ _ Hok3 Hs)). split; [|done].
  apply save_balance_inv in Hs as ->.
  assert (d1.(d_balances) = (s_db (w_db w)).(d_balances)) as Hbal by by rewrite Hd1.
  assert (owner_balance user org d1 = owner_balance user org (s_db (w_db w))) as Hown1
    by (unfold owner_balance; by rewrite Hbal).
  assert (balance_of user org d1 = balance_of user org (s_db (w_db w))) as Hbo
    by (unfold balance_of; by rewrite Hown1).
  rewrite Hb, Hbo. cbn.
  assert (∀ m, set_balances m (s_db (w_db w3)) = set_balances m d1) as Hset.
  { intros m. destruct Hcase as [[-> _]|(_ & _ & ->)]; reflexivity. }
  assert (∀ x, <[j := x]> (d_balances (s_db (w_db w3))) = <[j := x]> (d_balances (s_db (w_db w)))) as Hins.
  { intros x. destruct Hcase as [[-> _]|(_ & _ & ->)]; cbn; rewrite ?insert_insert_eq, Hbal; reflexivity. }
  rewrite Hset, Hins. eapply (gr_granted _ _ _ _ _ _ _ _ j d1); [..|exact Hi|]; [done..|].
  rewrite <-Hown1. destruct Hcase as [[_ ->]|(-> & Hn & _)]; [done|]. by rewrite <-Hbal.
Qed.

(** Databases with the same balance rows of an owner show the same balance. *)
Lemma balance_of_same user org d d' :
  db_ok d → db_ok d' → exactly_one_owner user org = true →
  (∀ i b, b.(b_user) = user → b.(b_org) = org →
    d'.(d_balances) !! i = Some b ↔ d.(d_balances) !! i = Some b) →
  balance_of user org d' = balance_of user org d.
Proof.
  intros Hok Hok' Hone Hsame. unfold balance_of.
  assert (owner_balance user org d' = owner_balance user org d) as ->; [|done].
  apply option_eq. intros [i b]. rewrite !owner_balance_spec by done.
  split; intros (Hb & Hu & Ho); (split; [by apply Hsame|done]).
Qed.

Lemma balance_of_row user org d i b :
  db_ok d → exactly_one_owner user org = true →
  d.(d_balances) !! i = Some b → b.(b_user) = user → b.(b_org) = org →
  balance_of user org d = b.(b_balance).
Proof.
  intros Hok Hone Hb Hu Ho. unfold balance_of.
  by rewrite (proj2 (owner_balance_spec user org d i b Hok Hone)).
Qed.

Lemma grant_result_effect k amount reason user org d d' user' org' :
  db_ok d → db_ok d' → exactly_one_owner user org = true →
  grant_result k amount reason user org d true d' → exactly_one_owner user' org' = true →
  let delta := if decide (user' = user ∧ org' = org) then amount else 0%Z in
  balance_of user' org' d' = (balance_of user' org' d + delta)%Z ∧
  ledger_sum user' org' d' = (ledger_sum user' org' d + delta)%Z.
Proof.
  intros Hok Hok' Hone Hres Hone' delta. inversion Hres as [|i t j d1 Htu Hto Hta Htr Htk Hi Hj]; subst.
  apply insert_transaction_inv in Hi as (Hfree & -> & _). split.
  - unfold delta. case_decide as Heq.
    + destruct Heq as [-> ->]. erewrite balance_of_row; [| |done|apply lookup_insert_eq|done..]; done.
    + rewrite Z.add_0_r. apply balance_of_same; [done..|]. intros i' b Hu Ho. cbn.
      destruct (decide (i' = j)) as [->|Hne]; [|by rewrite lookup_insert_ne].
      rewrite lookup_insert_eq. split; [intros [= <-]; cbn in *; naive_solver|].
      intros Hb. exfalso. destruct (owner_balance _ _ d) as [[j' b']|] eqn:Hown; [|congruence].
      cbn in *. subst j. apply owner_balance_spec in Hown as (Hb' & ? & ?); [|done..].
      naive_solver congruence.
  - assert (ledger_sum user' org' (set_balances (<[j := mkBalanceRow (t_user t) (t_org t)
        (balance_of (t_user t) (t_org t) d + t_amount t)]> (d_balances d))
        (set_transactions (<[i := t]> (d_transactions d)) d)) =
      ledger_sum user' org' (set_transactions (<[i := t]> (d_transactions d)) d)) as -> by done.
    rewrite ledger_sum_insert by done. unfold owned_by, delta.
    case_decide as Heq.
    + destruct Heq as [-> ->]. rewrite !b_eq_refl. cbn. lia.
    + destruct (b_eq (t_user t) user') eqn:E1; [|cbn; lia].
      destruct (b_eq (t_org t) org') eqn:E2; [|cbn; lia]. rewrite b_eq_true in E1, E2. naive_solver.
Qed.

Lemma grant_false_or_granted k amount reason user org w w' :
  db_ok (s_db (w_db w)) → (grant_credits_for_session k amount reason user org w).1 = Ok true →
  w' = (grant_credits_for_session k amount reason user org w).2 → granted k (s_db (w_db w')).
Proof.
  intros Hok Hr ->. destruct (grant_credits_for_session _ _ _ _ _ w) as [r w'] eqn:Hrun. cbn in *. subst r.
  apply grant_run in Hrun as (_ & _ & Hres & _); [|done].
  inversion Hres as [|i t j d1 _ _ _ _ Hk Hi Hj Hd]. apply insert_transaction_inv in Hi as (_ & -> & _).
  exists i, t. cbn. split; [apply lookup_insert_eq|done].
Qed.

(** A session already in the ledger is refused by the unique constraint. *)
Lemma insert_granted_fails k i t d :
  granted k d → t.(t_stripe_session_id) = Some k →
  ∀ d', insert_transaction i t d ≠ Ok d'.
Proof.
  intros (j & t0 & Ht0 & Hk0) Hk d' (Hfree & _ & Hc)%insert_transaction_inv.
  rewrite Forall_forall in Hc. specialize (Hc _ (list_elem_of_here _ _)).
  rewrite conflicts_false in Hc. apply (Hc j t0); [done|congruence| |]; unfold key_opt_str;
    rewrite ?Hk, ?Hk0; [by eexists|done].
Qed.

(** The owner's row exists. *)
Definition owner_there (user org : option uuid) (d : db) : bool :=
  forallb (λ r, has d r.1 r.2) (ref_opt TUsers user ++ ref_opt TOrgs org).

(** An insertion under a new key, for an owner who is there, fails on a value out of
    range, or because the session is on the ledger. *)
Lemma insert_transaction_cases i t k d :
  d.(d_transactions) !! i = None → exactly_one_owner t.(t_user) t.(t_org) = true → (0 < t.(t_amount))%Z →
  owner_there t.(t_user) t.(t_org) d = true → t.(t_stripe_session_id) = Some k →
  if sc_fits transaction_schema t
  then (∃ d', insert_transaction i t d = Ok d') ∨ granted k d ∧ ∃ m, insert_transaction i t d = Raise (IntegrityError m)
  else ∃ m, insert_transaction i t d = Raise (DataError m).
Proof.
  intros Hfresh Hone Hpos Hthere Hk. unfold insert_transaction, fresh_pk. rewrite Hfresh. cbn [not_none is_none negb mbind outcome_bind].
  unfold save_transaction, tput. destruct (sc_fits transaction_schema t); cbn [negb mbind outcome_bind]; [|by eexists].
  assert (sc_checks transaction_schema t = true) as ->.
  { cbn. rewrite Hone, andb_true_l, negb_true_iff. lia. }
  cbn [negb]. destruct (existsb _ _) eqn:Hc; [right|left].
  - split; [|by eexists]. apply existsb_exists in Hc as (key & Hin & Hc). destruct Hin as [<-|[]]. unfold conflicts, key_opt_str in Hc.
    rewrite Hk in Hc. cbn in Hc. apply existsb_exists in Hc as ([j t0] & Hin & Hc). rewrite andb_true_iff, b_eq_true in Hc.
    destruct Hc as [_ Hc]. exists j, t0. split; [by rewrite <- list_elem_of_In, elem_of_map_to_list in Hin|].
    cbn in Hc. destruct (t_stripe_session_id t0); [by injection Hc as ->|done].
  - unfold owner_there in Hthere. cbn [sc_refs transaction_schema]. rewrite Hthere. by eexists.
Qed.

Lemma balances_ok d : db_ok d → table_ok balance_schema (has d) d.(d_balances).
Proof. unfold db_ok. tauto. Qed.

(** The owner's balance row is found or made. *)
Lemma get_or_create_balance_returns user org w :
  db_ok (s_db (w_db w)) → exactly_one_owner user org = true → owner_there user org (s_db (w_db w)) = true →
  d_balances (s_db (w_db w)) !! w_next w = None → ∃ r w', get_or_create_balance user org w = (Ok r, w').
Proof.
  intros Hok Hone Hthere Hfresh. unfold get_or_create_balance, dquery. munfold.
  destruct (owner_balance user org _) as [r|] eqn:Hown; [by eexists _, _|]. rewrite dexec_run. cbn [s_db w_db].
  unfold insert_balance, fresh_pk. rewrite Hfresh. cbn [not_none is_none negb mbind outcome_bind]. unfold save_balance.
  rewrite tput_Ok; [by eexists _, _| |].
  - unfold row_ok. cbn [sc_fits sc_checks sc_refs balance_schema b_user b_org b_balance].
    unfold owner_there in Hthere. by rewrite Hone, Hthere.
  - cbn. rewrite !Forall_cons, Forall_nil. split_and!; [| |done]; apply conflicts_false; intros j b Hb _ [x Hx] Hk;
      (assert (owner_balance user org (s_db (w_db w)) = Some (j, b)); [|congruence]); apply owner_balance_spec; [done|done| |done|done|];
      (split; [done|]); pose proof (table_ok_row _ _ _ _ _ (balances_ok _ Hok) Hb) as Hr; unfold row_ok in Hr; cbn in Hr;
      rewrite !andb_true_iff in Hr; destruct Hr as [[_ [Hr _]] _]; cbn in Hx, Hk;
      destruct user, org, (b_user b), (b_org b); simplify_eq/=; done.
Qed.

(** A grant to an owner who is there returns when what it writes fits the columns. *)
Lemma grant_returns k amount reason user org w :
  let d := s_db (w_db w) in
  db_ok d → exactly_one_owner user org = true → owner_there user org d = true → (0 < amount)%Z →
  int4 amount = true → varchar 64 reason = true → varchar 255 k = true → int4 (balance_of user org d + amount) = true →
  d_transactions d !! w_next w = None → d_balances d !! (w_next w + 1)%N = None →
  ∃ b w', grant_credits_for_session k amount reason user org w = (Ok b, w') ∧ (b = false → granted k d).
Proof.
  intros d Hok Hone Hthere Hpos Ha Hr Hk Hsum Hft Hfb. unfold grant_credits_for_session.
  assert (eqb (is_none user) (is_none org) = false) as -> by by destruct user, org. rewrite (proj2 (Z.leb_gt _ _)) by done.
  unfold atomic. rewrite bind_run. cbn [uuid4]. rewrite bind_run. cbn [utcnow]. rewrite bind_run. unfold catch. rewrite bind_run, dexec_run.
  set (w1 := World _ _ _ _ _). change (s_db (w_db w1)) with d. set (t := mkTransactionRow _ _ _ _ _ _).
  pose proof (insert_transaction_cases (w_next w) t k d Hft Hone Hpos Hthere eq_refl) as Hcases.
  assert (sc_fits transaction_schema t = true) as Hfits.
  { change (int4 amount && varchar 64 reason && varchar 255 k = true). by rewrite Ha, Hr, Hk. }
  rewrite Hfits in Hcases. destruct Hcases as [[d1 Hi]|[Hg [m Hi]]]; rewrite Hi; [|by eexists _, _].
  set (w2 := set_db _ w1). cbn [mret M_ret negb]. cbv beta iota zeta. rewrite bind_run. pose proof (insert_transaction_ok _ _ _ _ Hok Hi) as Hok1.
  apply insert_transaction_inv in Hi as (_ & Hd1 & _).
  assert (balance_of user org d1 = balance_of user org d) as Hbo by (unfold balance_of, owner_balance; by rewrite Hd1).
  assert (owner_there user org d1 = true) as Hthere1 by by rewrite Hd1.
  destruct (get_or_create_balance_returns user org w2) as ([j b] & w3 & Hb); [exact Hok1|done|exact Hthere1| |].
  { change (s_db (w_db w2)) with d1. rewrite Hd1. exact Hfb. }
  rewrite Hb. apply get_or_create_balance_run in Hb as (Hok3 & Hrow & Hcase); [|exact Hok1|done].
  cbn [fst snd] in *. subst b. change (s_db (w_db w2)) with d1 in *. rewrite Hbo in *. cbn [b_user b_org b_balance].
  rewrite bind_run, dexec_run. set (d3 := s_db (w_db w3)) in *.
  assert (d_balances d3 !! j = Some (mkBalanceRow user org (balance_of user org d)) ∧ owner_there user org d3 = true) as [Hj Hthere3].
  { destruct Hcase as [[-> Hown]|(_ & _ & ->)].
    - apply owner_balance_spec in Hown as (Hj & _); [|done..]. by split.
    - cbn. split; [by rewrite lookup_insert_eq|]. exact Hthere1. }
  destruct (balances_ok _ Hok3) as [Hrows Huniq]. pose proof (Hrows _ _ Hj) as Hrj. unfold row_ok in Hrj. cbn in Hrj.
  rewrite !andb_true_iff, Z.leb_le in Hrj. unfold save_balance. rewrite tput_Ok.
  - eexists _, _. split; [reflexivity|done].
  - unfold row_ok. cbn [sc_fits sc_checks sc_refs balance_schema b_user b_org b_balance].
    unfold owner_there in Hthere3. rewrite Hsum, Hone, Hthere3.
    cbn. rewrite !andb_true_r. apply Z.leb_le. lia.
  - rewrite !Forall_forall in *. intros key Hkey. apply (conflict_free_same key j (mkBalanceRow user org (balance_of user org d))); [by apply Huniq|done|].
    cbn in Hkey. rewrite !elem_of_cons in Hkey. by destruct Hkey as [->|[->|[]%elem_of_nil]].
Qed.

(** One that returns [False] was of a session on the ledger. *)
Lemma grant_false_granted k amount reason user org w w' :
  let d := s_db (w_db w) in
  owner_there user org d = true → d_transactions d !! w_next w = None →
  grant_credits_for_session k amount reason user org w = (Ok false, w') → granted k d.
Proof.
  intros d Hthere Hft. unfold grant_credits_for_session. destruct (eqb _ _) eqn:Hown; [done|].
  destruct (Z.leb_spec amount 0) as [|Hpos]; [done|]. intros Hrun%atomic_Ok.
  rewrite bind_run in Hrun. cbn [uuid4] in Hrun. rewrite bind_run in Hrun. cbn [utcnow] in Hrun. rewrite bind_run in Hrun.
  unfold catch in Hrun. rewrite bind_run, dexec_run in Hrun. set (w1 := World _ _ _ _ _) in Hrun. change (s_db (w_db w1)) with d in Hrun.
  set (t := mkTransactionRow _ _ _ _ _ _) in Hrun.
  assert (exactly_one_owner user org = true) as Hone by by destruct user, org.
  pose proof (insert_transaction_cases (w_next w) t k d Hft Hone Hpos Hthere eq_refl) as Hcases.
  destruct (sc_fits _ _); [destruct Hcases as [[d1 Hi]|[Hg _]]; [|done]|by destruct Hcases as [m Hi]; rewrite Hi in Hrun].
  rewrite Hi in Hrun. cbn [mret M_ret negb] in Hrun. cbv beta iota zeta in Hrun. rewrite !bind_run in Hrun. destruct (get_or_create_balance _ _ _) as [[[j b]|] w3]; [|done].
  rewrite bind_run in Hrun. by destruct (dexec _ _) as [[]].
Qed.

(** ** Properties *)

(** C4. A credit grant is exactly-once and keeps the books.  On any
    well-formed database where every stored balance is the sum of its owner's
    ledger, a grant that returns keeps that true for every owner; [True] means
    the owner's balance rose by the amount, every other balance is as it was
    and the session is on the ledger; [False] means the database is untouched.
    Once a session is on the ledger no later grant of it, for any amount or
    owner, returns [True]. *)
Theorem grant_keeps_books k amount reason user org w r w' :
  db_ok (s_db (w_db w)) → ledger_ok (s_db (w_db w)) →
  grant_credits_for_session k amount reason user org w = (Ok r, w') →
  let d := s_db (w_db w) in let d' := s_db (w_db w') in
  db_ok d' ∧ ledger_ok d' ∧
  (r = false → d' = d) ∧
  (r = true → granted k d' ∧ ∀ user' org', exactly_one_owner user' org' = true →
    balance_of user' org' d' = (balance_of user' org' d +
      if decide (user' = user ∧ org' = org) then amount else 0)%Z) ∧
  (granted k d → r = false).
Proof.
  intros Hok Hbooks Hrun d d'. pose proof Hrun as Hrun'.
  apply grant_run in Hrun' as (Hone & Hpos & Hres & Hok'); [|done]. split; [done|].
  destruct r.
  - split.
    { intros u o Ho. edestruct (grant_result_effect k amount reason user org d d' u o) as [-> ->]; [done..|].
      by rewrite Hbooks. }
    split; [done|]. split.
    + intros _. split; [eapply (grant_false_or_granted k amount reason user org w); by rewrite ?Hrun|].
      intros u o Ho. by eapply (grant_result_effect k amount reason user org d d' u o).
    + intros Hg. exfalso. inversion Hres as [|i t j d1 _ _ _ _ Hk Hi _].
      by apply (insert_granted_fails k i t d Hg Hk d1).
  - assert (d' = d) as Hdd by by inversion Hres. rewrite Hdd. done.
Qed.

(** Every paid product reaches its buyer only if its name is short: the
    ledger's [reason] column holds 64 characters while a product name may hold
    255.  For an existing product whose name is longer than 55 characters, a
    buyer who paid gets no credits: the callback fails with [DataError] and the
    database is as before, on every redelivery. *)
Theorem long_product_name_never_granted k product_id user_id product w :
  d_products (s_db (w_db w)) !! product_id = Some product →
  is_Some (d_users (s_db (w_db w)) !! user_id) →
  (0 < product.(prod_credits))%Z → 55 < String.length product.(prod_name) →
  w_next w ∉ dom (d_transactions (s_db (w_db w))) →
  ∃ msg w', on_product_checkout_completed k product_id user_id None w = (Raise (DataError msg), w') ∧
    s_db (w_db w') = s_db (w_db w).
Proof.
  intros Hp [u Hu] Hpos Hlen Hfresh. unfold on_product_checkout_completed, dquery. munfold.
  rewrite Hp. rewrite (proj2 (Z.leb_gt _ _)) by done. rewrite Hu.
  assert (varchar 64 ("purchase:" ++ prod_name product) = false) as Hv.
  { unfold varchar. apply Nat.leb_gt. change (64 < 9 + String.length (prod_name product)). lia. }
  set (reason := "purchase:" ++ prod_name product) in *. clearbody reason.
  unfold grant_credits_for_session. cbn [is_none eqb]. rewrite (proj2 (Z.leb_gt _ _)) by done.
  unfold atomic. rewrite bind_run. cbn. rewrite bind_run. cbn.
  set (w1 := World _ _ _ _ _). rewrite bind_run. unfold catch. rewrite bind_run, dexec_run.
  set (t := mkTransactionRow _ _ _ _ _ _).
  assert (∃ msg, insert_transaction (w_next w) t (s_db (w_db w1)) = Raise (DataError msg)) as [msg Hi].
  { unfold insert_transaction, fresh_pk, save_transaction, tput.
    change (d_transactions (s_db (w_db w1))) with (d_transactions (s_db (w_db w))).
    rewrite (not_elem_of_dom_1 _ _ Hfresh). cbn.
    unfold varchar in Hv at 1. rewrite Hv, andb_false_r. cbn. by eexists. }
  rewrite Hi. cbn. by eexists _, _.
Qed.
