(* ===== verification/Webhooks.v ===== *)
(** * Stripe webhook dispatch

    [core/saasmint_core/services/webhooks.py]: an already persisted event is
    routed to its handler and marked processed or failed.  The handlers work on
    the JSON payload, over any repositories implementing the protocols of
    [Repos.v]. *)

From S2P Require Import Prelude PyVal Effects Domain Repos.

#[local] Open Scope string_scope.

(** ** Definitions *)

Section Webhooks.
  Context {D : Type} `{SubscriptionRepository D} `{StripeCustomerRepository D}
    `{PlanRepository D} `{StripeEventRepository D}.

(** The callbacks of [WebhookRepos]; its repositories are the class instances. *)
Record WebhookRepos := mkWebhookRepos {
  on_team_checkout_completed :
    option (uuid → string → string → bool → option string → bool → M D unit);
  on_org_subscription_canceled : option (uuid → M D unit);
  on_product_checkout_completed : option (string → uuid → uuid → option uuid → M D unit)
}.

Definition _on_product_checkout_completed (session_data : json) (repos : WebhookRepos) : M D unit :=
  session_id ← lift (get session_data "id");
  if negb (truthy session_id) then mret tt else
  metadata ← lift (get session_data "metadata");
  let metadata := py_or metadata (JObj []) in
  product_ref ← lift (get metadata "product_id");
  if negb (truthy product_ref) then mret tt else
  client_ref ← lift (get session_data "client_reference_id");
  if negb (truthy client_ref) then mret tt else
  match (p ← py_uuid product_ref; u ← py_uuid client_ref; Ok (p, u)) with
  | Raise (ValueError _) => mret tt
  | Raise e => raise e
  | Ok (product_id, user_id) =>
      org_ref ← lift (get metadata "org_id");
      match (if truthy org_ref then o ← py_uuid org_ref; Ok (Some o) else Ok None) with
      | Raise (ValueError _) => mret tt
      | Raise e => raise e
      | Ok org_id =>
          match repos.(on_product_checkout_completed) with
          | Some callback => callback (py_str session_id) product_id user_id org_id
          | None => mret tt
          end
      end
  end.

Definition _on_checkout_completed (session_data : json) (repos : WebhookRepos) : M D unit :=
  mode ← lift (get session_data "mode");
  if match mode with JStr m => b_eq m "payment" | _ => false end
  then _on_product_checkout_completed session_data repos else
  metadata ← lift (get session_data "metadata");
  let metadata := py_or metadata (JObj []) in
  org_name ← lift (get metadata "org_name");
  if negb (truthy org_name) then mret tt else
  client_ref ← lift (get session_data "client_reference_id");
  if negb (truthy client_ref) then mret tt else
  user_id ← lift (py_uuid client_ref);
  stripe_customer_id ← lift (get session_data "customer");
  if negb (truthy stripe_customer_id) then mret tt else
  subscription_id ← lift (get session_data "subscription");
  livemode ← lift (get_default session_data "livemode" (JBool false));
  keep ← lift (get metadata "keep_personal_subscription");
  let keep_personal_subscription := match keep with JStr k => b_eq k "true" | _ => false end in
  match repos.(on_team_checkout_completed) with
  | Some callback =>
      org_name ← lift (expect_str org_name);
      livemode ← lift (expect_bool livemode);
      subscription_id ← lift (expect_opt_str subscription_id);
      callback user_id org_name (py_str stripe_customer_id) livemode subscription_id
        keep_personal_subscription
  | None => mret tt
  end.

Definition _extract_period_window (sub_data first_item : json) (stripe_sub_id : string) :
    outcome (Z * Z) :=
  top_start ← get sub_data "current_period_start";
  period_start ← get_default first_item "current_period_start" top_start;
  top_end ← get sub_data "current_period_end";
  period_end ← get_default first_item "current_period_end" top_end;
  if is_null period_start || is_null period_end
  then Raise (WebhookDataError
                ("Subscription " ++ stripe_sub_id ++ " missing current_period_start/end"))
  else if negb (is_int period_start) || negb (is_int period_end)
  then Raise (WebhookDataError
                ("Subscription " ++ stripe_sub_id ++ " has non-integer current_period_start/end"))
  else s ← py_int period_start; e ← py_int period_end; Ok (s, e).

(** The currency expression of [_build_subscription_row]. *)
Definition row_currency (sub_data first_item : json) : outcome string :=
  c ← get sub_data "currency";
  if truthy c then Ok (lower (py_str c)) else
  price ← getitem first_item "price";
  c ← get price "currency";
  Ok (lower (py_str (py_or c (JStr "usd")))).

Definition _build_subscription_row (sub_data first_item : json) (stripe_sub_id : string)
    (customer_id : uuid) (customer_user_id : option uuid) (plan_id : uuid)
    (period_start period_end : Z) (existing : option Subscription) : M D Subscription :=
  id ← match existing with Some ex => mret ex.(sub_id) | None => uuid4 end;
  status ← lift (v ← getitem sub_data "status"; status_of_value (py_str v));
  seat_limit ← lift (q ← get first_item "quantity"; py_int (py_or q (JNum 1)));
  trial_ends_at ← lift (v ← get sub_data "trial_end"; ts_to_dt v);
  current_period_start ← lift (fromtimestamp period_start);
  current_period_end ← lift (fromtimestamp period_end);
  canceled_at ← lift (v ← get sub_data "canceled_at"; ts_to_dt v);
  cancel_at ← lift (v ← get sub_data "cancel_at"; ts_to_dt v);
  currency ← lift (row_currency sub_data first_item);
  created_at ← match existing with Some ex => mret ex.(sub_created_at) | None => utcnow end;
  mret (mkSubscription id (Some stripe_sub_id) (Some customer_id) customer_user_id status plan_id
          seat_limit trial_ends_at current_period_start current_period_end canceled_at cancel_at
          (existing ≫= sub_scheduled_plan_id) (existing ≫= sub_scheduled_change_at)
          currency created_at).

Definition sync_subscription_from_data (sub_data : json) : M D unit :=
  stripe_customer ← lift (getitem sub_data "customer");
  let stripe_customer_str := py_str stripe_customer in
  items ← lift (o ← getitem sub_data "items"; getitem o "data");
  n ← lift (py_len items);
  (if (1 <? n)%nat then lift (getitem sub_data "id");; mret tt else mret tt);;
  first_item ← lift (index items 0);
  price_id ← lift (p ← getitem first_item "price"; i ← getitem p "id"; Ok (py_str i));
  stripe_sub_id ← lift (i ← getitem sub_data "id"; Ok (py_str i));
  window ← lift (_extract_period_window sub_data first_item stripe_sub_id);
  customer ← query (λ d, custs_get_by_stripe_id d stripe_customer_str);
  plan_price ← query (λ d, plans_get_price_by_stripe_id d price_id);
  existing ← query (λ d, subs_get_by_stripe_id d stripe_sub_id);
  match customer, plan_price with
  | None, _ => raise (WebhookDataError ("Unknown customer " ++ stripe_customer_str))
  | _, None => raise (WebhookDataError ("Unknown price " ++ price_id))
  | Some customer, Some plan_price =>
      subscription ← _build_subscription_row sub_data first_item stripe_sub_id
        customer.(cus_id) customer.(cus_user_id) plan_price.(pp_plan_id) window.1 window.2 existing;
      subs_save subscription;;
      mret tt
  end.

Definition _on_subscription_deleted (sub_data : json) (repos : WebhookRepos) : M D unit :=
  stripe_sub_id ← lift (i ← getitem sub_data "id"; Ok (py_str i));
  existing ← query (λ d, subs_get_by_stripe_id d stripe_sub_id);
  match existing with
  | None => mret tt
  | Some existing =>
      now ← utcnow;
      subs_save (sub_copy_canceled existing now);;
      match existing.(sub_user_id), existing.(sub_stripe_customer_id) with
      | None, Some cid =>
          customer ← query (λ d, custs_get_by_id d cid);
          match customer ≫= cus_org_id with
          | Some org_id =>
              match repos.(on_org_subscription_canceled) with
              | Some callback => callback org_id
              | None => mret tt
              end
          | None => mret tt
          end
      | _, _ => mret tt
      end
  end.

Definition _parse_schedule_pending_change (schedule_data : json) :
    outcome (option (string * datetime)) :=
  _ ← get schedule_data "id";
  phases ← get schedule_data "phases";
  let phases := py_or phases (JArr []) in
  n ← py_len phases;
  if (n <? 2)%nat then Ok None else
  current_phase ← index phases 0;
  next_phase ← index phases 1;
  next_items ← get next_phase "items";
  let next_items := py_or next_items (JArr []) in
  if negb (truthy next_items) then Ok None else
  first ← index next_items 0;
  next_price ← get first "price";
  next_price_id ← (if is_dict next_price then get next_price "id" else Ok next_price);
  if negb (truthy next_price_id) then Ok None else
  end_date ← get current_phase "end_date";
  change_at_ts ← (if truthy end_date then Ok end_date else get next_phase "start_date");
  change_at ← ts_to_dt change_at_ts;
  match change_at with
  | None => Ok None
  | Some change_at => Ok (Some (py_str next_price_id, change_at))
  end.

Definition _on_subscription_schedule_upserted (schedule_data : json) : M D unit :=
  stripe_sub_id ← lift (get schedule_data "subscription");
  if negb (truthy stripe_sub_id) then mret tt else
  pending ← lift (_parse_schedule_pending_change schedule_data);
  match pending with
  | None => mret tt
  | Some (next_price_id, change_at) =>
      plan_price ← query (λ d, plans_get_price_by_stripe_id d next_price_id);
      match plan_price with
      | None => mret tt
      | Some plan_price =>
          existing ← query (λ d, subs_get_by_stripe_id d (py_str stripe_sub_id));
          match existing with
          | None => mret tt
          | Some existing =>
              if b_eq existing.(sub_scheduled_plan_id) (Some plan_price.(pp_plan_id))
                 && b_eq existing.(sub_scheduled_change_at) (Some change_at)
              then mret tt
              else
                subs_save (sub_copy_scheduled existing (Some plan_price.(pp_plan_id)) (Some change_at));;
                mret tt
          end
      end
  end.

Definition _on_subscription_schedule_cleared (schedule_data : json) : M D unit :=
  stripe_sub_id ← lift (get schedule_data "subscription");
  if negb (truthy stripe_sub_id) then mret tt else
  existing ← query (λ d, subs_get_by_stripe_id d (py_str stripe_sub_id));
  match existing with
  | None => mret tt
  | Some existing =>
      if is_none existing.(sub_scheduled_plan_id) && is_none existing.(sub_scheduled_change_at)
      then mret tt
      else subs_save (sub_copy_scheduled existing None None);; mret tt
  end.

(** [_on_invoice_paid] and [_on_invoice_failed] only log. *)
Definition _on_invoice (invoice_data : json) : M D unit :=
  lift (get invoice_data "id");; mret tt.

Definition _dispatch (event : json) (repos : WebhookRepos) : M D unit :=
  ty ← lift (getitem event "type");
  let object := o ← getitem event "data"; getitem o "object" in
  match ty with
  | JStr t =>
      if b_eq t "checkout.session.completed"
      then o ← lift object; _on_checkout_completed o repos
      else if str_in t ["customer.subscription.created"; "customer.subscription.updated"]
      then o ← lift object; sync_subscription_from_data o
      else if b_eq t "customer.subscription.deleted"
      then o ← lift object; _on_subscription_deleted o repos
      else if str_in t ["subscription_schedule.created"; "subscription_schedule.updated"]
      then o ← lift object; _on_subscription_schedule_upserted o
      else if str_in t ["subscription_schedule.released"; "subscription_schedule.canceled";
                        "subscription_schedule.aborted"]
      then o ← lift object; _on_subscription_schedule_cleared o
      else if str_in t ["invoice.payment_succeeded"; "invoice.payment_failed"]
      then o ← lift object; _on_invoice o
      else mret tt
  | _ => mret tt
  end.

(** The message stored for a failed event. *)
Definition failure_message (exc : exn) : string :=
  match exc with
  | WebhookDataError _ | StripeError _ _ _ _ | ConnectionError _ => exn_str exc
  | _ => exn_class exc ++ ": " ++ exn_str exc
  end.

Definition process_stored_event (event : json) (stripe_id : string) (repos : WebhookRepos) :
    M D unit :=
  catch (_dispatch event repos;; events_mark_processed stripe_id)
    (λ exc, events_mark_failed stripe_id (failure_message exc);; raise exc).

End Webhooks.
Arguments WebhookRepos D : clear implicits.
Arguments mkWebhookRepos {D} _ _ _.
