(* ===== verification/WebhookFacts.v ===== *)
(** * Correctness of webhook dispatch

    Theorems about [Webhooks.v], against the repository laws of [Repos.v]. *)

From S2P Require Import Prelude PyVal Effects Domain StripeObjects Repos Webhooks.

#[local] Open Scope string_scope.

(** The local mirror of [o]: Stripe's fields, the identity and the pending plan
    change of the row it replaces. *)
Definition mirror_of (o : SubObj) (cus : StripeCustomer) (pp : PlanPrice)
    (existing : option Subscription) (fresh : uuid) (now : datetime) : Subscription :=
  mkSubscription (match existing with Some s => s.(sub_id) | None => fresh end)
    (Some o.(so_id)) (Some cus.(cus_id)) cus.(cus_user_id) o.(so_status) pp.(pp_plan_id)
    (if (o.(so_quantity) =? 0)%Z then 1%Z else o.(so_quantity))
    (usec <$> o.(so_trial_end)) (usec o.(so_period_start)) (usec o.(so_period_end))
    (usec <$> o.(so_canceled_at)) (usec <$> o.(so_cancel_at))
    (existing ≫= sub_scheduled_plan_id) (existing ≫= sub_scheduled_change_at)
    (lower o.(so_currency))
    (match existing with Some s => s.(sub_created_at) | None => now end).

(** ** The pure part of the sync *)

Record SubParse := mkSubParse {
  sp_customer : string;
  sp_item : json;
  sp_price : string;
  sp_id : string;
  sp_window : Z * Z
}.

Definition parse_sub (sub_data : json) : outcome SubParse :=
  c ← getitem sub_data "customer";
  items ← (o ← getitem sub_data "items"; getitem o "data");
  n ← py_len items;
  _ ← (if (1 <? n)%nat then getitem sub_data "id" else Ok JNull);
  first_item ← index items 0;
  p ← (p ← getitem first_item "price"; i ← getitem p "id"; Ok (py_str i));
  k ← (i ← getitem sub_data "id"; Ok (py_str i));
  w ← _extract_period_window sub_data first_item k;
  Ok (mkSubParse (py_str c) first_item p k w).

Definition build_row (sub_data first_item : json) (k : string) (cid : uuid) (cuid : option uuid)
    (pid : uuid) (window : Z * Z) (existing : option Subscription) (fresh : uuid) (now : datetime) :
    outcome Subscription :=
  status ← (v ← getitem sub_data "status"; status_of_value (py_str v));
  seats ← (q ← get first_item "quantity"; py_int (py_or q (JNum 1)));
  trial ← (v ← get sub_data "trial_end"; ts_to_dt v);
  a ← fromtimestamp window.1;
  b ← fromtimestamp window.2;
  canceled ← (v ← get sub_data "canceled_at"; ts_to_dt v);
  cancel ← (v ← get sub_data "cancel_at"; ts_to_dt v);
  currency ← row_currency sub_data first_item;
  Ok (mkSubscription (match existing with Some s => s.(sub_id) | None => fresh end) (Some k)
        (Some cid) cuid status pid seats trial a b canceled cancel
        (existing ≫= sub_scheduled_plan_id) (existing ≫= sub_scheduled_change_at) currency
        (match existing with Some s => s.(sub_created_at) | None => now end)).

(** The world after the row's primary key has been drawn, when one is needed. *)
Definition drew_id {D} (existing : option Subscription) (w : world D) : world D :=
  match existing with
  | Some _ => w
  | None => World w.(w_db) w.(w_stripe) w.(w_tasks) w.(w_now) (w.(w_next) + 1)%N
  end.

Section Facts.
  Context {D : Type} `{SubscriptionRepositoryLaws D} `{!StripeEventRepository D}.
  Implicit Types (w : world D) (d : D).

Definition sync_rest (sub_data : json) (p : SubParse) w : outcome unit * world D :=
  match custs_get_by_stripe_id (w_db w) p.(sp_customer),
        plans_get_price_by_stripe_id (w_db w) p.(sp_price) with
  | None, _ => (Raise (WebhookDataError ("Unknown customer " ++ p.(sp_customer))), w)
  | _, None => (Raise (WebhookDataError ("Unknown price " ++ p.(sp_price))), w)
  | Some cus, Some pp =>
      let existing := subs_get_by_stripe_id (w_db w) p.(sp_id) in
      let w1 := drew_id existing w in
      match build_row sub_data p.(sp_item) p.(sp_id) cus.(cus_id) cus.(cus_user_id)
              pp.(pp_plan_id) p.(sp_window) existing (w_next w) (w_now w) with
      | Raise e => (Raise e, w1)
      | Ok s => match subs_save_db (w_now w) s (w_db w) with
                | Ok d => (Ok tt, set_db d w1)
                | Raise e => (Raise e, w1)
                end
      end
  end.

(** Every row carries its pending plan and its date together. *)
Definition pending_changes_paired d : Prop :=
  subs_valid d ∧ ∀ k s, subs_get_by_stripe_id d k = Some s → scheduled_pair s.

(** The org whose team subscription [s] is, if any. *)
Definition canceled_org d (s : Subscription) : option uuid :=
  match s.(sub_user_id), s.(sub_stripe_customer_id) with
  | None, Some cid => custs_get_by_id d cid ≫= cus_org_id
  | _, _ => None
  end.

(** Every callback registered in [repos] keeps [I]. *)
Definition callbacks_preserve (I : world D → Prop) (repos : WebhookRepos D) : Prop :=
  (∀ f, repos.(on_team_checkout_completed) = Some f →
    ∀ u n c l s b, preserves I (f u n c l s b)) ∧
  (∀ f, repos.(on_org_subscription_canceled) = Some f → ∀ o, preserves I (f o)) ∧
  (∀ f, repos.(on_product_checkout_completed) = Some f → ∀ s p u o, preserves I (f s p u o)).

(** ** Helper lemmas *)

Lemma build_row_run sub_data item k cid cuid pid window existing w :
  _build_subscription_row sub_data item k cid cuid pid window.1 window.2 existing w =
  (build_row sub_data item k cid cuid pid window existing (w_next w) (w_now w), drew_id existing w).
Proof.
  unfold _build_subscription_row, build_row. destruct existing as [ex|]; munfold;
    mcases.
Qed.

Lemma sync_run sub_data w :
  sync_subscription_from_data sub_data w =
  match parse_sub sub_data with Ok p => sync_rest sub_data p w | Raise e => (Raise e, w) end.
Proof.
  unfold sync_subscription_from_data, parse_sub, subs_save. munfold. mcases.
  all: unfold sync_rest; cbn; rewrite ?build_row_run in *; mcases.
  all: unfold drew_id in *; mcases; congruence.
Qed.

Lemma parse_sub_so o :
  parse_sub (so_json o) =
  Ok (mkSubParse o.(so_customer) (so_item_json o) o.(so_price) o.(so_id)
        (o.(so_period_start), o.(so_period_end))).
Proof. destruct o as [???????[]]; reflexivity. Qed.

Lemma build_row_so o cus pp existing fresh now :
  so_wf o = true →
  build_row (so_json o) (so_item_json o) o.(so_id) cus.(cus_id) cus.(cus_user_id) pp.(pp_plan_id)
    (o.(so_period_start), o.(so_period_end)) existing fresh now =
  Ok (mirror_of o cus pp existing fresh now).
Proof.
  unfold so_wf. cbn [forallb]. intros Hwf. bsimp.
  destruct Hwf as [[[Hs He] (Ht & Hc & Hca & _)] Hcur].
  unfold build_row, mirror_of. cbn [fst snd].
  change (getitem (so_json o) "status") with (Ok (JStr (status_value o.(so_status)))).
  change (get (so_item_json o) "quantity") with (Ok (JNum o.(so_quantity))).
  change (get (so_json o) "trial_end") with (Ok (opt_num o.(so_trial_end))).
  change (get (so_json o) "canceled_at") with (Ok (opt_num o.(so_canceled_at))).
  change (get (so_json o) "cancel_at") with (Ok (opt_num o.(so_cancel_at))).
  assert (row_currency (so_json o) (so_item_json o) = Ok (lower o.(so_currency))) as ->.
  { unfold row_currency.
    change (get (so_json o) "currency") with (Ok (JStr o.(so_currency))). cbn.
    by rewrite (proj2 (b_eq_false _ _)). }
  cbn [mbind outcome_bind py_str]. rewrite status_of_value_value, !ts_to_dt_opt by done.
  rewrite !fromtimestamp_ok by done. cbn. unfold py_or. cbn.
  by destruct (so_quantity o =? 0)%Z.
Qed.

Lemma build_row_key data item k cid cuid pid win ex f n s :
  build_row data item k cid cuid pid win ex f n = Ok s →
  s.(sub_stripe_id) = Some k ∧ s.(sub_id) = match ex with Some s0 => s0.(sub_id) | None => f end ∧
  s.(sub_scheduled_plan_id) = ex ≫= sub_scheduled_plan_id ∧
  s.(sub_scheduled_change_at) = ex ≫= sub_scheduled_change_at.
Proof. unfold build_row. munfold. intros ?. mcases. Qed.

(** Rebuilding a row from the mirror it produced gives an equivalent row. *)
Lemma build_row_again data item k cid cuid pid win ex f n s s1 f' n' :
  build_row data item k cid cuid pid win ex f n = Ok s → s1 ≡ s →
  ∃ s2, build_row data item k cid cuid pid win (Some s1) f' n' = Ok s2 ∧ s2 ≡ s.
Proof.
  intros Hb Heq. pose proof (build_row_key _ _ _ _ _ _ _ _ _ _ _ Hb) as (_ & _ & Hp & Hc).
  revert Hb. unfold build_row. munfold. intros ?. mcases; (eexists; split; [done|]).
  all: unfold equiv, Subscription_equiv, sub_equiv, sub_with_created_at in *; cbn in *.
  all: destruct s1; cbn in *; inv Heq; f_equal; congruence.
Qed.

Lemma save_get t s d d' k :
  subs_valid d → subs_save_db t s d = Ok d' → s.(sub_stripe_id) = Some k →
  ∃ s', subs_get_by_stripe_id d' k = Some s' ∧ s' ≡ s.
Proof. intros ? ? ?. edestruct subs_save_get as (s' & ? & ? & _); eauto. Qed.

(** Apart from the saved row, a save changes nothing any key can see. *)
Lemma save_lookup t s d d' k k' s' :
  subs_valid d → subs_save_db t s d = Ok d' → s.(sub_stripe_id) = Some k →
  subs_get_by_stripe_id d' k' = Some s' →
  (k' = k ∧ s' ≡ s) ∨ (s'.(sub_id) ≠ s.(sub_id) ∧ subs_get_by_stripe_id d k' = Some s').
Proof.
  intros Hv Hs Hk Hg. destruct (save_get _ _ _ _ _ Hv Hs Hk) as (s0 & Hg0 & Heq).
  pose proof (subs_save_valid _ _ _ _ Hv Hs) as Hv'.
  destruct (decide (s'.(sub_id) = s.(sub_id))) as [Hid|Hid].
  - left. rewrite <-Heq in Hid. pose proof (subs_get_id_inj _ _ _ _ _ Hv' Hg Hg0 Hid) as ->.
    split; [|done]. pose proof (subs_get_key _ _ _ Hv' Hg). pose proof (subs_get_key _ _ _ Hv' Hg0).
    congruence.
  - right. split; [done|]. by apply (subs_save_frame _ _ _ _ k' s' Hv Hs Hid).
Qed.

(** Saving over an existing row leaves every other key as it was. *)
Lemma save_update_frame t s d d' k s0 k' :
  subs_valid d → subs_save_db t s d = Ok d' → s.(sub_stripe_id) = Some k →
  subs_get_by_stripe_id d k = Some s0 → k' ≠ k → s0.(sub_id) = s.(sub_id) →
  subs_get_by_stripe_id d' k' = subs_get_by_stripe_id d k'.
Proof.
  intros Hv Hs Hk Hg Hne Hid. apply option_eq. intros x. split; intros Hx.
  - by destruct (save_lookup _ _ _ _ _ _ _ Hv Hs Hk Hx) as [[??]|[??]].
  - apply (subs_save_frame _ _ _ _ k' x Hv Hs); [|done]. rewrite <-Hid. intros Hxid.
    pose proof (subs_get_id_inj _ _ _ _ _ Hv Hx Hg Hxid) as ->.
    pose proof (subs_get_key _ _ _ Hv Hx). pose proof (subs_get_key _ _ _ Hv Hg). congruence.
Qed.

Lemma save_paired t s d d' k :
  pending_changes_paired d → scheduled_pair s → s.(sub_stripe_id) = Some k →
  subs_save_db t s d = Ok d' → pending_changes_paired d'.
Proof.
  intros [Hv Hp] Hs Hk Hsave. split; [by eapply subs_save_valid|]. intros k' s' Hg.
  destruct (save_lookup _ _ _ _ _ _ _ Hv Hsave Hk Hg) as [[-> Heq]|[_ Hold]]; [by rewrite Heq|eauto].
Qed.

(** ** Properties *)

(** Every stored event ends in a definite state.  When dispatch succeeds the
    row gets [processed_at] and no error; when it raises, whatever the
    exception, the row gets a message (prefixed with the class name for an
    unexpected exception) and the same exception is re-raised.  Nothing else of
    what dispatch did is changed, and no other event row is touched. *)
Theorem process_stored_event_marks `{!StripeEventRepositoryLaws D} event k repos w r wd :
  _dispatch event repos w = (r, wd) →
  ∃ w', process_stored_event event k repos w = (r, w') ∧
    events_status (w_db w') k =
      match r with
      | Ok _ => const (Some (w_now wd), None)
      | Raise e => λ st, (st.1, Some (failure_message e))
      end <$> events_status (w_db wd) k ∧
    (∀ k', k' ≠ k → events_status (w_db w') k' = events_status (w_db wd) k') ∧
    w' = set_db (w_db w') wd.
Proof.
  intros Hd. unfold process_stored_event, events_mark_processed, events_mark_failed. munfold.
  rewrite Hd. destruct r as [[]|e]; (eexists; split; [done|]); cbn.
  - rewrite events_mark_processed_status. split_and!; [by rewrite decide_True| |done].
    intros k' Hk. by rewrite events_mark_processed_status, decide_False.
  - rewrite events_mark_failed_status. split_and!; [by rewrite decide_True| |done].
    intros k' Hk. by rewrite events_mark_failed_status, decide_False.
Qed.

(** C17. A well-formed subscription object whose customer and price are known is
    mirrored: the sync succeeds, the row under its Stripe id carries Stripe's
    status, plan, seats, period, cancellation and currency, the identity, the
    creation time and the pending plan change of the row it replaces, and no
    other row changes. *)
Theorem sync_mirrors_subscription o cus pp w :
  let existing := subs_get_by_stripe_id (w_db w) o.(so_id) in
  let s := mirror_of o cus pp existing (w_next w) (w_now w) in
  subs_valid (w_db w) →
  so_wf o = true →
  custs_get_by_stripe_id (w_db w) o.(so_customer) = Some cus →
  plans_get_price_by_stripe_id (w_db w) o.(so_price) = Some pp →
  subs_refs (w_db w) s →
  ∃ w', sync_subscription_from_data (so_json o) w = (Ok tt, w') ∧
    (∃ s', subs_get_by_stripe_id (w_db w') o.(so_id) = Some s' ∧ s' ≡ s) ∧
    (∀ k s0, s0.(sub_id) ≠ s.(sub_id) →
      subs_get_by_stripe_id (w_db w') k = Some s0 ↔ subs_get_by_stripe_id (w_db w) k = Some s0).
Proof.
  intros existing s Hv Hwf Hc Hp Hrefs. rewrite sync_run, parse_sub_so. unfold sync_rest.
  cbn [sp_customer sp_item sp_price sp_id sp_window]. rewrite Hc, Hp, build_row_so by done. fold existing. fold s.
  destruct (subs_save_ok (w_now w) s (w_db w)) as [d' Hsave]; [done|done| |].
  { intros k s0 [= <-] Hg. unfold s, mirror_of. cbn. unfold existing. by rewrite Hg. }
  rewrite Hsave. eexists; split; [done|]. cbn. split.
  - by eapply save_get.
  - intros k s0 Hid. by eapply subs_save_frame.
Qed.

(** Replaying a subscription event is harmless: after a sync has succeeded
    on any payload, the same payload succeeds again and every key shows an
    equivalent row. *)
Theorem sync_replay data w w1 :
  subs_valid (w_db w) →
  sync_subscription_from_data data w = (Ok tt, w1) →
  ∃ w2, sync_subscription_from_data data w1 = (Ok tt, w2) ∧
    ∀ k, subs_get_by_stripe_id (w_db w2) k ≡ subs_get_by_stripe_id (w_db w1) k.
Proof.
  intros Hv. rewrite !sync_run. destruct (parse_sub data) as [p|]; [|done]. unfold sync_rest.
  destruct (custs_get_by_stripe_id _ _) as [cus|] eqn:Hc; [|done].
  destruct (plans_get_price_by_stripe_id _ _) as [pp|] eqn:Hp; [|done].
  destruct (build_row _ _ _ _ _ _ _ _ _ _) as [s|] eqn:Hb; [|done].
  destruct (subs_save_db _ _ _) as [d1|] eqn:Hs1; [|done]. intros [= <-].
  pose proof (build_row_key _ _ _ _ _ _ _ _ _ _ _ Hb) as (Hk & _).
  destruct (subs_save_reads _ _ _ _ Hs1) as (Rc & _ & Rp).
  destruct (save_get _ _ _ _ _ Hv Hs1 Hk) as (s1 & Hg1 & Heq).
  pose proof (subs_save_valid _ _ _ _ Hv Hs1) as Hv1.
  assert (∀ (ex : option Subscription), w_db (set_db d1 (drew_id ex w)) = d1) as -> by done.
  rewrite Rc, Rp, Hc, Hp, Hg1. set (w1 := set_db d1 _).
  destruct (build_row_again _ _ _ _ _ _ _ _ _ _ _ _ (w_next w1) (w_now w1) Hb Heq)
    as (s2 & -> & Heq2).
  destruct (subs_save_refs _ _ _ _ Hs1) as [Hr Hr'].
  assert (sub_stripe_id s2 = Some (sp_id p)) as Hk2 by by rewrite Heq2.
  destruct (subs_save_ok (w_now w1) s2 d1) as [d2 Hs2]; [done| | |].
  { eapply subs_refs_equiv; [symmetry; exact Heq2|]. by apply Hr'. }
  { intros k s0 Hk' Hg0. rewrite Hk2 in Hk'. simplify_eq. by rewrite Heq2, Heq. }
  rewrite Hs2. eexists; split; [done|]. cbn. intros k.
  destruct (decide (k = sp_id p)) as [->|Hne].
  - destruct (save_get _ _ _ _ _ Hv1 Hs2 Hk2) as (s2' & Hg2 & Heq2').
    rewrite Hg1, Hg2. constructor. by rewrite Heq2', Heq2, Heq.
  - erewrite (save_update_frame (w_now w1) s2 d1 d2 (sp_id p) s1); [done..|].
    by rewrite Heq2, Heq.
Qed.

(** A refused sync changes nothing: whatever the payload and the exception,
    the store, the queue and the Stripe log are as before; an unknown customer
    or price is the permanent [WebhookDataError]. *)
Theorem sync_refused data w e w' :
  sync_subscription_from_data data w = (Raise e, w') →
  w_db w' = w_db w ∧ w_tasks w' = w_tasks w ∧ w_stripe w' = w_stripe w ∧
  ∀ p, parse_sub data = Ok p →
    (custs_get_by_stripe_id (w_db w) p.(sp_customer) = None →
      e = WebhookDataError ("Unknown customer " ++ p.(sp_customer))) ∧
    (is_Some (custs_get_by_stripe_id (w_db w) p.(sp_customer)) →
      plans_get_price_by_stripe_id (w_db w) p.(sp_price) = None →
      e = WebhookDataError ("Unknown price " ++ p.(sp_price))).
Proof.
  rewrite sync_run. unfold sync_rest. intros Hrun.
  destruct (parse_sub data) as [p|e0]; [|by simplify_eq].
  split_and!; [mcases; unfold drew_id; mcases..|].
  intros p' [= <-]. split; [by intros Hc; rewrite Hc in Hrun; simplify_eq|].
  intros [c Hc] Hp. rewrite Hc, Hp in Hrun. by simplify_eq.
Qed.

(** A save keeps the pairing when the saved row is paired. *)
Lemma preserves_subs_save_paired s k :
  scheduled_pair s → s.(sub_stripe_id) = Some k →
  preserves (db_inv pending_changes_paired) (subs_save s).
Proof.
  intros Hp Hk. unfold subs_save.
  apply preserves_bind; [apply preserves_utcnow|]. intros now.
  apply preserves_bind; [|intros _; apply preserves_ret].
  apply preserves_exec. intros d d' Hd. by apply (save_paired _ _ _ _ k).
Qed.

Lemma sync_paired data : preserves (db_inv pending_changes_paired) (sync_subscription_from_data data).
Proof.
  intros w Hw. rewrite sync_run. destruct (parse_sub data) as [p|]; [|done]. unfold sync_rest.
  destruct (custs_get_by_stripe_id _ _) as [cus|]; [|done].
  destruct (plans_get_price_by_stripe_id _ _) as [pp|]; [|done].
  destruct (build_row _ _ _ _ _ _ _ _ _ _) as [s|] eqn:Hb; [|by destruct (subs_get_by_stripe_id _ _)].
  destruct (subs_save_db _ _ _) as [d1|] eqn:Hs; [|by destruct (subs_get_by_stripe_id _ _)].
  apply build_row_key in Hb as (Hk & _ & Hp & Hc). cbn. destruct Hw as [Hv Hw].
  eapply save_paired; [done| |done|done]. unfold scheduled_pair. rewrite Hp, Hc.
  destruct (subs_get_by_stripe_id _ _) as [s0|] eqn:Hg; [by eapply Hw|].
  cbn. by split; intros [].
Qed.

Lemma schedule_cleared_paired data :
  preserves (db_inv pending_changes_paired) (_on_subscription_schedule_cleared data).
Proof.
  unfold _on_subscription_schedule_cleared. apply preserves_bind; [apply preserves_lift|].
  intros k. destruct (truthy k); [cbn|apply preserves_ret].
  apply preserves_bind_dep; [apply preserves_query|]. intros ex w w' Hw [= <- <-] _.
  destruct (subs_get_by_stripe_id _ _) as [s|] eqn:Hg; [|done].
  destruct (_ && _); [done|].
  eapply (preserves_bind _ (subs_save _)); [|intros; apply preserves_ret|done].
  eapply preserves_subs_save_paired; [by split; intros []|cbn].
  by eapply subs_get_key; [apply Hw|].
Qed.

Lemma schedule_upserted_paired data :
  preserves (db_inv pending_changes_paired) (_on_subscription_schedule_upserted data).
Proof.
  unfold _on_subscription_schedule_upserted. apply preserves_bind; [apply preserves_lift|].
  intros k. destruct (truthy k); [cbn|apply preserves_ret].
  apply preserves_bind; [apply preserves_lift|]. intros [[p at_]|]; [|apply preserves_ret].
  apply preserves_bind; [apply preserves_query|]. intros [pp|]; [|apply preserves_ret].
  apply preserves_bind_dep; [apply preserves_query|]. intros ex w w' Hw [= <- <-] _.
  destruct (subs_get_by_stripe_id _ _) as [s|] eqn:Hg; [|done].
  destruct (_ && _); [done|].
  eapply (preserves_bind _ (subs_save _)); [|intros; apply preserves_ret|done].
  eapply preserves_subs_save_paired; [by split; eauto|cbn].
  by eapply subs_get_key; [apply Hw|].
Qed.

Lemma deleted_paired data repos :
  callbacks_preserve (db_inv pending_changes_paired) repos →
  preserves (db_inv pending_changes_paired) (_on_subscription_deleted data repos).
Proof.
  intros (_ & Hcb & _). unfold _on_subscription_deleted. apply preserves_bind; [apply preserves_lift|].
  intros k. apply preserves_bind_dep; [apply preserves_query|]. intros ex w w' Hw [= <- <-] _.
  destruct (subs_get_by_stripe_id _ _) as [s|] eqn:Hg; [|done].
  apply (preserves_bind (db_inv pending_changes_paired) utcnow); [apply preserves_utcnow| |done].
  intros now. apply preserves_bind.
  - eapply preserves_subs_save_paired; [by apply (proj2 Hw _ _ Hg)|cbn]. by eapply subs_get_key; [apply Hw|].
  - intros _. destruct (sub_user_id s), (sub_stripe_customer_id s); try apply preserves_ret.
    apply preserves_bind; [apply preserves_query|]. intros c.
    destruct (c ≫= cus_org_id); [|apply preserves_ret].
    destruct (on_org_subscription_canceled repos) eqn:E; [by apply Hcb|apply preserves_ret].
Qed.

Lemma checkout_preserves I data repos :
  callbacks_preserve I repos → preserves I (_on_checkout_completed data repos).
Proof.
  intros (Ht & _ & Hp). unfold _on_checkout_completed, _on_product_checkout_completed.
  repeat first
    [ apply preserves_lift | apply preserves_ret | apply preserves_raise | by eapply Ht | by eapply Hp
    | apply preserves_bind; [|intros ?] | case_match ].
Qed.

Lemma dispatch_paired event repos :
  callbacks_preserve (db_inv pending_changes_paired) repos →
  preserves (db_inv pending_changes_paired) (_dispatch event repos).
Proof.
  intros Hcb. unfold _dispatch. apply preserves_bind; [apply preserves_lift|].
  intros [| | |t| |]; try apply preserves_ret.
  repeat (apply preserves_if; [apply preserves_bind; [apply preserves_lift|intros o]|];
    [solve [ by apply checkout_preserves | apply sync_paired | by apply deleted_paired
           | apply schedule_upserted_paired | apply schedule_cleared_paired
           | apply preserves_bind; [apply preserves_lift|intros; apply preserves_ret] ]|]).
  apply preserves_ret.
Qed.

(** The documented invariant of a subscription row, a pending plan and its
    date are both set or both absent, survives every webhook: whatever the
    event, its payload and its outcome, provided the registered callbacks keep
    it. *)
Theorem webhooks_keep_pending_pair `{!StripeEventFrame D} event k repos w r w' :
  callbacks_preserve (db_inv pending_changes_paired) repos →
  pending_changes_paired (w_db w) →
  process_stored_event event k repos w = (r, w') →
  pending_changes_paired (w_db w').
Proof.
  intros Hcb Hw Hrun.
  assert (preserves (db_inv pending_changes_paired) (process_stored_event event k repos)) as Hp.
  { unfold process_stored_event, events_mark_processed, events_mark_failed.
    apply preserves_catch.
    - apply preserves_bind; [by apply dispatch_paired|intros _].
      apply preserves_bind; [apply preserves_utcnow|intros now].
      apply preserves_exec. intros d _ [Hv Hd] [= <-].
      split; [by apply events_mark_processed_valid|by rewrite events_mark_processed_subs].
    - intros e. apply preserves_bind; [|intros _; apply preserves_raise].
      apply preserves_exec. intros d _ [Hv Hd] [= <-].
      split; [by apply events_mark_failed_valid|by rewrite events_mark_failed_subs]. }
  specialize (Hp w Hw). by rewrite Hrun in Hp.
Qed.

(** [customer.subscription.deleted] cancels the mirror before anything else:
    the row is saved with status canceled and [canceled_at] the current time,
    every other field kept, and the org callback runs exactly when the
    subscription belongs to an org's customer, on the state that already has
    the cancellation. *)
Theorem subscription_deleted_cancels fields k s repos w :
  assoc "id" fields = Some (JStr k) →
  subs_valid (w_db w) →
  subs_get_by_stripe_id (w_db w) k = Some s →
  subs_refs (w_db w) s →
  ∃ d' s', subs_get_by_stripe_id d' k = Some s' ∧ s' ≡ sub_copy_canceled s (w_now w) ∧
    (∀ k', k' ≠ k → subs_get_by_stripe_id d' k' = subs_get_by_stripe_id (w_db w) k') ∧
    _on_subscription_deleted (JObj fields) repos w =
      match canceled_org (w_db w) s, repos.(on_org_subscription_canceled) with
      | Some org_id, Some callback => callback org_id (set_db d' w)
      | _, _ => (Ok tt, set_db d' w)
      end.
Proof.
  intros Hid Hv Hg Hrefs. pose proof (subs_get_key _ _ _ Hv Hg) as Hk.
  destruct (subs_save_ok (w_now w) (sub_copy_canceled s (w_now w)) (w_db w)) as [d' Hs]; [done| | |].
  { eapply subs_refs_canceled; done. }
  { intros k0 s0 Hk0 Hg0. cbn in *. by simplify_eq. }
  destruct (save_get _ _ _ _ k Hv Hs) as (s' & Hg' & Heq); [done|].
  exists d', s'. split_and!; [done|done| |].
  { intros k' Hne. by eapply (save_update_frame _ _ _ _ k s). }
  destruct (subs_save_reads _ _ _ _ Hs) as (_ & Rc & _).
  unfold _on_subscription_deleted, subs_save, canceled_org, getitem. munfold. rewrite Hid. cbn.
  rewrite Hg. cbn. rewrite Hs. cbn.
  destruct (sub_user_id s), (sub_stripe_customer_id s); cbn; try done.
  rewrite Rc. destruct (custs_get_by_id (w_db w) _) as [c|]; cbn; [|done].
  by destruct (cus_org_id c), (on_org_subscription_canceled repos).
Qed.

(** A schedule handler that wrote a row writes nothing the second time. *)
Lemma schedule_upserted_twice data w w1 :
  subs_valid (w_db w) →
  _on_subscription_schedule_upserted data w = (Ok tt, w1) →
  _on_subscription_schedule_upserted data w1 = (Ok tt, w1).
Proof.
  intros Hv. unfold _on_subscription_schedule_upserted, subs_save.
  destruct (get data "subscription") as [k|]; [|done]. munfold. destruct (truthy k); cbn; [|by intros [= <-]].
  destruct (_parse_schedule_pending_change data) as [[[p at_]|]|]; [|by intros [= <-]|done].
  destruct (plans_get_price_by_stripe_id (w_db w) p) as [pp|] eqn:Hp; [|by intros [= <-]; rewrite Hp].
  destruct (subs_get_by_stripe_id (w_db w) (py_str k)) as [s|] eqn:Hg; [|by intros [= <-]; rewrite Hp, Hg].
  destruct (_ && _) eqn:Hsame; [by intros [= <-]; rewrite Hp, Hg, Hsame|].
  pose proof (subs_get_key _ _ _ Hv Hg) as Hk.
  destruct (subs_save_db _ _ _) as [d1|] eqn:Hs; [|done]. intros [= <-]. cbn.
  destruct (subs_save_reads _ _ _ _ Hs) as (_ & _ & ->). rewrite Hp. cbn.
  destruct (save_get _ _ _ _ (py_str k) Hv Hs) as (s' & -> & Heq); [done|].
  pose proof (sub_scheduled_plan_id_proper _ _ Heq) as ->.
  pose proof (sub_scheduled_change_at_proper _ _ Heq) as ->. cbn. by rewrite !b_eq_refl.
Qed.

Lemma schedule_cleared_twice data w w1 :
  subs_valid (w_db w) →
  _on_subscription_schedule_cleared data w = (Ok tt, w1) →
  _on_subscription_schedule_cleared data w1 = (Ok tt, w1).
Proof.
  intros Hv. unfold _on_subscription_schedule_cleared, subs_save.
  destruct (get data "subscription") as [k|]; [|done]. munfold. destruct (truthy k); cbn; [|by intros [= <-]].
  destruct (subs_get_by_stripe_id (w_db w) (py_str k)) as [s|] eqn:Hg; [|by intros [= <-]; rewrite Hg].
  destruct (_ && _) eqn:Hsame; [by intros [= <-]; rewrite Hg, Hsame|].
  pose proof (subs_get_key _ _ _ Hv Hg) as Hk.
  destruct (subs_save_db _ _ _) as [d1|] eqn:Hs; [|done]. intros [= <-]. cbn.
  destruct (save_get _ _ _ _ (py_str k) Hv Hs) as (s' & -> & Heq); [done|].
  pose proof (sub_scheduled_plan_id_proper _ _ Heq) as ->.
  by pose proof (sub_scheduled_change_at_proper _ _ Heq) as ->.
Qed.

(** Stripe redelivers events: a schedule event that was handled, whether it
    set or cleared a pending change, is a no-op the second time.  The second
    run succeeds and leaves the whole world (store, queue, Stripe log) equal. *)
Theorem schedule_events_idempotent data handler w w1 :
  handler ∈ [_on_subscription_schedule_upserted; _on_subscription_schedule_cleared] →
  subs_valid (w_db w) →
  handler data w = (Ok tt, w1) →
  handler data w1 = (Ok tt, w1).
Proof.
  intros [->|[->|[]%elem_of_nil]%elem_of_cons]%elem_of_cons.
  - apply schedule_upserted_twice.
  - apply schedule_cleared_twice.
Qed.
End Facts.
