(* ===== verification/Subscriptions.v ===== *)
(** * Subscription lifecycle

    [core/saasmint_core/services/subscriptions.py]: plan changes, immediate or
    deferred to the end of the period by a two-phase schedule, and seat counts. *)

From S2P Require Import Prelude PyVal Effects Domain Repos.

#[local] Open Scope string_scope.

(** ** Definitions *)

(** [_safe_get(obj, key)]: a missing key is [None], subscripting a scalar is
    still a [TypeError]. *)
Definition _safe_get (obj : json) (key : string) : outcome json :=
  if is_null obj then Ok JNull else
  match getitem obj key with
  | Raise (KeyError _) | Raise (AttributeError _) => Ok JNull
  | r => r
  end.

(** [sub["items"]["data"][0]]. *)
Definition first_item_of (sub : json) : outcome json :=
  items ← getitem sub "items"; data ← getitem items "data"; index data 0.

(** [str(sub["items"]["data"][0]["id"])]. *)
Definition item_id_of (first_item : json) : outcome string :=
  i ← getitem first_item "id"; Ok (py_str i).

Definition proration_behavior (b : bool) : string :=
  if b then "create_prorations" else "none".

(** An operand of [<] or [>] against an integer. *)
Definition int_operand (v : json) : outcome Z :=
  if is_int v then py_int v else Raise (TypeError "not supported between instances of int").

Definition _read_period_field (sub first_item : json) (field : string) : outcome json :=
  value ← _safe_get first_item field;
  value ← (if is_null value then _safe_get sub field else Ok value);
  if is_int value then Ok value else
  i ← getitem sub "id";
  Raise (ValueError ("Subscription " ++ py_str i ++ " missing integer " ++ field
                     ++ "; cannot schedule a deferred downgrade")).

Section Subscriptions.
  Context {D : Type} `{SubscriptionRepository D} `{StripeServer}.

(** The currency of the item's price, lower-cased. *)
Definition price_currency (v : json) : string := lower (py_str (py_or v (JStr ""))).

Definition downgrade_phases (current_price_id new_stripe_price_id : string) (quantity : Z)
    (period_start period_end : json) : list phase :=
  [Phase current_price_id quantity period_start (Some period_end) "none";
   Phase new_stripe_price_id quantity period_end None "none"].

Definition _schedule_downgrade_at_period_end (sub : json) (new_stripe_price_id : string)
    (quantity : Z) : M D unit :=
  first_item ← lift (first_item_of sub);
  period_end ← lift (_read_period_field sub first_item "current_period_end");
  period_start ← lift (_read_period_field sub first_item "current_period_start");
  price ← lift (getitem first_item "price");
  current_price_id ← lift (i ← getitem price "id"; Ok (py_str i));
  currency ← lift (get price "currency");
  let current_currency := price_currency currency in
  new_price ← stripe (PriceRetrieve new_stripe_price_id);
  currency ← lift (getattr new_price "currency");
  let new_currency := price_currency currency in
  if negb (b_eq current_currency "") && negb (b_eq new_currency "")
     && negb (b_eq current_currency new_currency)
  then raise (ValueError ("Cannot schedule downgrade: subscription is in " ++ upper current_currency
                          ++ " but new price is in " ++ upper new_currency
                          ++ ". Stripe pins subscription currency for life."))
  else
  existing_schedule_id ← lift (_safe_get sub "schedule");
  schedule_id ←
    (if truthy existing_schedule_id then mret (py_str existing_schedule_id)
     else
       i ← lift (getitem sub "id");
       schedule ← stripe (ScheduleCreate (py_str i));
       lift (i ← getitem schedule "id"; expect_str i));
  stripe (ScheduleModify schedule_id "release"
            (downgrade_phases current_price_id new_stripe_price_id quantity period_start period_end));;
  mret tt.

Definition _apply_immediate_plan_change (sub : json) (stripe_subscription_id item_id
    new_stripe_price_id : string) (prorate : bool) (quantity : Z) : M D unit :=
  existing_schedule_id ← lift (_safe_get sub "schedule");
  item_id ←
    (if truthy existing_schedule_id then
       stripe (ScheduleRelease (py_str existing_schedule_id));;
       sub ← stripe (SubscriptionRetrieve stripe_subscription_id);
       lift (first_item ← first_item_of sub; item_id_of first_item)
     else mret item_id);
  stripe (SubscriptionModifyItem stripe_subscription_id item_id (Some new_stripe_price_id) quantity
            (proration_behavior prorate));;
  mret tt.

(** [is_downgrade] of [change_plan]. *)
Definition is_downgrade_of (first_item : json) (new_price_amount : option Z) : outcome bool :=
  match new_price_amount with
  | None => Ok false
  | Some new_price_amount =>
      price_obj ← _safe_get first_item "price";
      current_amount ← _safe_get price_obj "unit_amount";
      if is_int current_amount then a ← py_int current_amount; Ok (new_price_amount <? a)%Z
      else Ok false
  end.

Definition change_plan (stripe_subscription_id new_stripe_price_id : string)
    (new_price_amount : option Z) (prorate : bool) (quantity : option Z) : M D unit :=
  sub ← stripe (SubscriptionRetrieve stripe_subscription_id);
  first_item ← lift (first_item_of sub);
  item_id ← lift (item_id_of first_item);
  raw_quantity ← lift (_safe_get first_item "quantity");
  current_quantity ← lift (if is_int raw_quantity then py_int raw_quantity else Ok 1%Z);
  is_downgrade ← lift (is_downgrade_of first_item new_price_amount);
  let quantity := or_else quantity current_quantity in
  if is_downgrade : bool
  then _schedule_downgrade_at_period_end sub new_stripe_price_id quantity
  else _apply_immediate_plan_change sub stripe_subscription_id item_id new_stripe_price_id prorate
         quantity.

Definition update_seat_count (active : Subscription) (quantity : Z) : M D unit :=
  if (quantity <? 1)%Z then raise (ValueError "Seat count must be at least 1") else
  match active.(sub_stripe_id) with
  | None => raise (ValueError "Subscription has no stripe_id; cannot update seat count")
  | Some stripe_subscription_id =>
      sub ← stripe (SubscriptionRetrieve stripe_subscription_id);
      first_item ← lift (first_item_of sub);
      item_id ← lift (item_id_of first_item);
      current_quantity ← lift (q ← getitem first_item "quantity"; int_operand q);
      stripe (SubscriptionModifyItem stripe_subscription_id item_id None quantity
                (proration_behavior (current_quantity <? quantity)%Z));;
      if b_eq active.(sub_seat_limit) quantity then mret tt
      else subs_save (sub_copy_seats active quantity);; mret tt
  end.

End Subscriptions.
