(* ===== verification/SubscriptionFacts.v ===== *)
(** * Correctness of the subscription lifecycle

    Theorems about [Subscriptions.v]: which calls reach Stripe, in which order
    and with which arguments, and how the local mirror follows. *)

From S2P Require Import Prelude PyVal Effects Domain StripeObjects Repos Webhooks WebhookFacts.
From S2P Require Import Subscriptions.

#[local] Open Scope string_scope.

(** ** Specification *)

(** The outcomes and calls of a deferral after the subscription was read: a run
    that fails stops early, a run that succeeds ends with the schedule write. *)
Inductive deferral_run (sub : json) (new : string) (q : Z) : outcome unit → list stripe_call → Prop :=
  | dr_parse e : deferral_run sub new q (Raise e) []
  | dr_price e : deferral_run sub new q (Raise e) [PriceRetrieve new]
  | dr_create e id : deferral_run sub new q (Raise e) [PriceRetrieve new; ScheduleCreate id]
  | dr_done r item pe ps create sid cur :
      first_item_of sub = Ok item →
      _read_period_field sub item "current_period_end" = Ok pe →
      _read_period_field sub item "current_period_start" = Ok ps →
      create = [] ∨ (∃ id, create = [ScheduleCreate id]) →
      deferral_run sub new q r
        ([PriceRetrieve new] ++ create ++
         [ScheduleModify sid "release" (downgrade_phases cur new q ps pe)]).

(** The outcomes and calls of an immediate change after the first read. *)
Inductive immediate_run (k new : string) (prorate : bool) (q : Z) :
    outcome unit → list stripe_call → Prop :=
  | ir_parse e : immediate_run k new prorate q (Raise e) []
  | ir_release e s : immediate_run k new prorate q (Raise e) [ScheduleRelease s]
  | ir_read e s :
      immediate_run k new prorate q (Raise e) [ScheduleRelease s; SubscriptionRetrieve k]
  | ir_done r release item :
      release = [] ∨ (∃ s, release = [ScheduleRelease s; SubscriptionRetrieve k]) →
      immediate_run k new prorate q r
        (release ++ [SubscriptionModifyItem k item (Some new) q (proration_behavior prorate)]).

(** The seat count a plan change carries: the requested one or the current one. *)
Definition carried_quantity (item : json) (quantity : option Z) : outcome Z :=
  raw ← _safe_get item "quantity";
  q ← (if is_int raw then py_int raw else Ok 1%Z);
  Ok (or_else quantity q).

Section Facts.
  Context {D : Type} `{SubscriptionRepositoryLaws D} `{StripeServer}.
  Implicit Types (w : world D) (d : D).

(** ** Helper lemmas *)

Lemma schedule_downgrade_runs sub new q w :
  runs_as (_schedule_downgrade_at_period_end sub new q) (deferral_run sub new q) w.
Proof.
  unfold _schedule_downgrade_at_period_end.
  apply runs_as_lift; [by constructor|intros item Hitem].
  apply runs_as_lift; [by constructor|intros pe Hpe].
  apply runs_as_lift; [by constructor|intros ps Hps].
  do 3 (apply runs_as_lift; [by constructor|intros ? _]).
  apply runs_as_stripe; [by constructor|intros np _].
  apply runs_as_lift; [by constructor|intros nc _].
  case_match; [apply runs_as_raise; by constructor|].
  apply runs_as_lift; [by constructor|intros s _]. destruct (truthy s).
  - apply runs_as_last. intros r. apply (dr_done sub new q r item pe ps []); auto.
  - apply runs_as_assoc, runs_as_lift; [by constructor|intros i _].
    apply runs_as_assoc, runs_as_stripe; [by constructor|intros sch _].
    apply runs_as_lift; [by constructor|intros sid _].
    apply runs_as_last. intros r. eapply (dr_done sub new q r item pe ps [_]); eauto.
Qed.

Lemma immediate_change_runs sub k item new prorate q w :
  runs_as (_apply_immediate_plan_change sub k item new prorate q) (immediate_run k new prorate q) w.
Proof.
  unfold _apply_immediate_plan_change.
  apply runs_as_lift; [by constructor|intros s _]. destruct (truthy s).
  - apply runs_as_assoc, runs_as_stripe; [by constructor|intros ? _].
    apply runs_as_assoc, runs_as_stripe; [by constructor|intros ? _].
    apply runs_as_lift; [by constructor|intros i _].
    apply runs_as_last. intros r. eapply (ir_done k new prorate q r [_; _]). by right; eexists.
  - apply runs_as_last. intros r. apply (ir_done k new prorate q r []). by left.
Qed.

(** The webhook's reading of a schedule a downgrade wrote. *)
Lemma parse_downgrade_schedule o sid k cur new q :
  so_wf o = true → new ≠ "" →
  _parse_schedule_pending_change
    (schedule_json sid k (downgrade_phases cur new q (JNum o.(so_period_start)) (JNum o.(so_period_end)))) =
  Ok (Some (new, usec o.(so_period_end))).
Proof.
  intros Hwf Hnew. unfold so_wf in Hwf. bsimp. destruct Hwf as [[[_ He] _] _].
  transitivity (if negb (truthy (JStr new)) then Ok None else
    ts ← (if truthy (JNum o.(so_period_end)) then Ok (JNum o.(so_period_end))
          else Ok (JNum o.(so_period_end)));
    at_ ← ts_to_dt ts;
    match at_ with Some at_ => Ok (Some (new, at_)) | None => Ok None end).
  { reflexivity. }
  cbn [truthy]. rewrite (proj2 (b_eq_false new "")) by done. cbn [negb].
  destruct (negb _); cbn; by rewrite fromtimestamp_ok.
Qed.

(** A schedule that parses is mirrored onto the row. *)
Lemma schedule_upserted_mirrors data k p at_ pp s w :
  get data "subscription" = Ok (JStr k) → k ≠ "" →
  _parse_schedule_pending_change data = Ok (Some (p, at_)) →
  subs_valid (w_db w) →
  plans_get_price_by_stripe_id (w_db w) p = Some pp →
  subs_get_by_stripe_id (w_db w) k = Some s →
  subs_refs (w_db w) (sub_copy_scheduled s (Some (pp_plan_id pp)) (Some at_)) →
  ∃ w', _on_subscription_schedule_upserted data w = (Ok tt, w') ∧
    ∃ s', subs_get_by_stripe_id (w_db w') k = Some s' ∧
      s' ≡ sub_copy_scheduled s (Some (pp_plan_id pp)) (Some at_).
Proof.
  intros Hk Hne Hparse Hv Hp Hg Hrefs. pose proof (subs_get_key _ _ _ Hv Hg) as Hkey.
  unfold _on_subscription_schedule_upserted, subs_save. rewrite Hk, Hparse. munfold.
  cbn. rewrite (proj2 (b_eq_false k "")) by done. cbn. rewrite Hp. cbn. rewrite Hg.
  destruct (_ && _) eqn:Hsame.
  - bsimp. destruct Hsame as [Ha Hb]. eexists; split; [done|]. exists s. split; [done|].
    destruct s; cbn in *; by subst.
  - destruct (subs_save_ok (w_now w) (sub_copy_scheduled s (Some (pp_plan_id pp)) (Some at_)) (w_db w))
      as [d' Hs]; [done|done| |].
    { intros k0 s0 Hk0 Hg0. cbn in *. congruence. }
    cbn. rewrite Hs. eexists; split; [done|]. by eapply save_get.
Qed.

Lemma period_fields o :
  ∃ item, first_item_of (so_json o) = Ok item ∧
    (∀ a, is_downgrade_of item (Some a) = Ok (a <? so_amount o)%Z) ∧
    _read_period_field (so_json o) item "current_period_end" = Ok (JNum o.(so_period_end)) ∧
    _read_period_field (so_json o) item "current_period_start" = Ok (JNum o.(so_period_start)).
Proof. exists (so_item_json o). destruct o as [???????[]]. all: split_and!; reflexivity. Qed.

(** ** Properties *)

(** What a plan change does to Stripe, whatever Stripe answers.  It reads
    the subscription first.  When the new price is cheaper than the current one
    (and the caller gave an amount) the subscription itself is never modified: a
    successful run ends by writing a two-phase schedule that keeps the current
    price to the end of the period.  Otherwise no schedule is created, a
    pinning schedule is released and the subscription re-read before the single
    modification.  Both paths carry the seat count, and the store, the queue
    and the clock are untouched. *)
Theorem change_plan_routes k new amount prorate quantity w :
  ∃ r l, change_plan k new amount prorate quantity w = (r, on_log w (SubscriptionRetrieve k :: l)) ∧
    ((∃ e, r = Raise e ∧ l = []) ∨
     ∃ sub item q, stripe_respond (w_stripe w) (SubscriptionRetrieve k) = Ok sub ∧
       first_item_of sub = Ok item ∧ carried_quantity item quantity = Ok q ∧
       ((is_downgrade_of item amount = Ok true ∧ deferral_run sub new q r l) ∨
        (is_downgrade_of item amount = Ok false ∧ immediate_run k new prorate q r l))).
Proof.
  unfold change_plan. rewrite stripe_bind.
  destruct (stripe_respond _ _) as [sub|e] eqn:Hsub; [|eauto 10]. set (w1 := on_log w _).
  assert (∀ r l, on_log w1 l = on_log w (SubscriptionRetrieve k :: l) ∧
    ((Raise r : outcome unit, w1) = (Raise r, on_log w [SubscriptionRetrieve k]))) as Hw1
    by (intros; unfold w1; by rewrite on_log_app).
  rewrite lift_bind. destruct (first_item_of sub) as [item|e] eqn:Hitem; [|eauto 10].
  rewrite lift_bind. destruct (item_id_of item) as [i|e]; [|eauto 10].
  rewrite lift_bind. destruct (_safe_get item "quantity") as [raw|e] eqn:Hraw; [|eauto 10].
  rewrite lift_bind. destruct (if is_int raw then _ else _) as [cq|e] eqn:Hcq; [|eauto 10].
  rewrite lift_bind. destruct (is_downgrade_of item amount) as [[]|e] eqn:Hd; [| |eauto 10].
  - destruct (schedule_downgrade_runs sub new (or_else quantity cq) w1) as (r & l & -> & HR).
    exists r, l. rewrite (proj1 (Hw1 (ValueError "") l)). split; [done|]. right.
    exists sub, item, (or_else quantity cq). split_and!; [done..| |by left].
    unfold carried_quantity. rewrite Hraw. cbn. by rewrite Hcq.
  - destruct (immediate_change_runs sub k i new prorate (or_else quantity cq) w1) as (r & l & -> & HR).
    exists r, l. rewrite (proj1 (Hw1 (ValueError "") l)). split; [done|]. right.
    exists sub, item, (or_else quantity cq). split_and!; [done..| |by right].
    unfold carried_quantity. rewrite Hraw. cbn. by rewrite Hcq.
Qed.

(** C23. A deferred downgrade survives the round trip through Stripe.  When a
    cheaper price was accepted for a documented subscription object, the last
    call wrote a schedule; when Stripe sends that schedule back, in whatever
    later state, the webhook records on the row exactly the requested plan and
    the end of the current period, and nothing else about the row changes. *)
Theorem deferred_downgrade_round_trip o new amount prorate quantity w w1 :
  so_wf o = true → new ≠ "" → o.(so_id) ≠ "" →
  stripe_respond (w_stripe w) (SubscriptionRetrieve o.(so_id)) = Ok (so_json o) →
  (amount < o.(so_amount))%Z →
  change_plan o.(so_id) new (Some amount) prorate quantity w = (Ok tt, w1) →
  ∃ sid phases, last (w_stripe w1) = Some (ScheduleModify sid "release" phases) ∧
    ∀ w2 pp s,
      let s1 := sub_copy_scheduled s (Some pp.(pp_plan_id)) (Some (usec o.(so_period_end))) in
      subs_valid (w_db w2) → plans_get_price_by_stripe_id (w_db w2) new = Some pp →
      subs_get_by_stripe_id (w_db w2) o.(so_id) = Some s → subs_refs (w_db w2) s1 →
      ∃ w3, _on_subscription_schedule_upserted (schedule_json sid o.(so_id) phases) w2 = (Ok tt, w3) ∧
        ∃ s', subs_get_by_stripe_id (w_db w3) o.(so_id) = Some s' ∧ s' ≡ s1.
Proof.
  intros Hwf Hnew Hid Hsub Hlt Hrun.
  destruct (change_plan_routes o.(so_id) new (Some amount) prorate quantity w)
    as (r & l & Hrun' & [(e & -> & ->)|(sub & item & q & Hsub' & Hitem & _ & Hcase)]); [congruence|].
  destruct (period_fields o) as (item' & Hitem' & Hdown & Hpe & Hps).
  rewrite Hrun in Hrun'. rewrite Hsub in Hsub'. simplify_eq.
  rewrite Hitem in Hitem'. injection Hitem' as <-. rewrite Hdown in Hcase.
  rewrite (proj2 (Z.ltb_lt _ _) Hlt) in Hcase. destruct Hcase as [[_ HR]|[? _]]; [|done].
  inversion HR as [| | |? item2 pe ps create sid cur Hi He Hs _]; subst.
  rewrite Hitem in Hi. injection Hi as <-. rewrite Hpe in He. rewrite Hps in Hs. simplify_eq.
  eexists sid, _. split.
  { cbn. by rewrite !app_comm_cons, !app_assoc, last_snoc. }
  intros w2 pp s s1 Hv Hp Hg Hrefs.
  eapply schedule_upserted_mirrors; try done. by apply parse_downgrade_schedule.
Qed.

(** A seat update.  Fewer than one seat, or a row without a Stripe id, is a
    [ValueError] that touches nothing.  Otherwise the subscription is read once
    and modified once, prorated exactly when seats are added; when Stripe
    accepts, the mirror carries the new seat limit, every other field and every
    other row unchanged; when Stripe refuses, the store is as it was and the
    error goes through. *)
Theorem update_seat_count_spec active quantity w :
  ((quantity < 1)%Z ∨ active.(sub_stripe_id) = None →
    ∃ msg, update_seat_count active quantity w = (Raise (ValueError msg), w)) ∧
  ∀ o k,
    let c := SubscriptionModifyItem k o.(so_item) None quantity
               (proration_behavior (o.(so_quantity) <? quantity)%Z) in
    let log := [SubscriptionRetrieve k; c] in
    (1 ≤ quantity)%Z → active.(sub_stripe_id) = Some k → subs_valid (w_db w) →
    subs_get_by_stripe_id (w_db w) k = Some active →
    subs_refs (w_db w) (sub_copy_seats active quantity) →
    stripe_respond (w_stripe w) (SubscriptionRetrieve k) = Ok (so_json o) →
    match stripe_respond (w_stripe w ++ [SubscriptionRetrieve k]) c with
    | Raise e => update_seat_count active quantity w = (Raise e, on_log w log)
    | Ok _ =>
        ∃ d' s', update_seat_count active quantity w = (Ok tt, set_db d' (on_log w log)) ∧
          subs_get_by_stripe_id d' k = Some s' ∧ s' ≡ sub_copy_seats active quantity ∧
          ∀ k', k' ≠ k → subs_get_by_stripe_id d' k' = subs_get_by_stripe_id (w_db w) k'
    end.
Proof.
  split.
  { intros Hbad. unfold update_seat_count. destruct (Z.ltb_spec quantity 1); [by eexists|].
    destruct (sub_stripe_id active); [destruct Hbad; [lia|done]|by eexists]. }
  intros o k c log Hq Hk Hv Hg Hrefs Hsub. unfold update_seat_count.
  rewrite (proj2 (Z.ltb_ge _ _)), Hk by lia.
  rewrite stripe_bind, Hsub.
  assert (first_item_of (so_json o) = Ok (so_item_json o)) as -> by (by destruct o as [????????[]]).
  rewrite !lift_bind. change (item_id_of (so_item_json o)) with (Ok (so_item o)). cbn [lift].
  rewrite lift_bind. change (q ← getitem (so_item_json o) "quantity"; int_operand q) with (Ok (so_quantity o)).
  cbv iota. rewrite stripe_bind. fold c. change (w_stripe (on_log w _)) with (w_stripe w ++ [SubscriptionRetrieve k])%list.
  destruct (stripe_respond _ c) as [v|e]; rewrite on_log_app; [|done].
  change ([SubscriptionRetrieve k] ++ [c])%list with log.
  destruct (b_eq (sub_seat_limit active) quantity) eqn:Hsame.
  - bsimp. exists (w_db w), active. split_and!; [by destruct w|done| |done].
    by destruct active; cbn in *; subst.
  - destruct (subs_save_ok (w_now w) (sub_copy_seats active quantity) (w_db w)) as [d' Hs]; [done|done| |].
    { intros k0 s0 Hk0 Hg0. cbn in *. congruence. }
    destruct (save_get _ _ _ _ k Hv Hs) as (s' & Hg' & Heq); [done|].
    exists d', s'. split_and!; [|done|done|].
    + unfold subs_save. munfold. cbn. by rewrite Hs.
    + intros k' Hne. by eapply (save_update_frame _ _ _ _ k active).
Qed.
End Facts.
