(* ===== verification/Billing.v ===== *)
(** * Customers, checkout and cancellation

    [core/saasmint_core/services/billing.py]. *)

From S2P Require Import Prelude PyVal Effects Domain Repos.

#[local] Open Scope string_scope.

(** ** Definitions *)

Definition jopt (o : option Z) : json := match o with Some z => JNum z | None => JNull end.

(** The parameters common to both kinds of checkout. *)
Definition checkout_base (stripe_customer_id client_reference_id mode price_id : string) (quantity : Z)
    (locale success_url cancel_url billing_currency : string) : list (string * json) :=
  [("customer", JStr stripe_customer_id);
   ("client_reference_id", JStr client_reference_id);
   ("mode", JStr mode);
   ("line_items", JArr [JObj [("price", JStr price_id); ("quantity", JNum quantity)]]);
   ("locale", JStr locale);
   ("success_url", JStr success_url);
   ("cancel_url", JStr cancel_url);
   ("allow_promotion_codes", JBool true);
   ("adaptive_pricing", JObj [("enabled", JBool (b_eq billing_currency "usd"))]);
   ("automatic_tax", JObj [("enabled", JBool true)]);
   ("customer_update", JObj [("address", JStr "auto")])].

Definition metadata_json (metadata : list (string * string)) : json :=
  JObj (map (λ p, (p.1, JStr p.2)) metadata).

Definition checkout_params (stripe_customer_id price_id client_reference_id billing_currency : string)
    (quantity : Z) (locale success_url cancel_url : string) (trial_period_days : option Z)
    (metadata : option (list (string * string))) : json :=
  JObj (checkout_base stripe_customer_id client_reference_id "subscription" price_id quantity locale
          success_url cancel_url billing_currency
        ++ match metadata with Some m => [("metadata", metadata_json m)] | None => [] end
        ++ match trial_period_days with
           | Some n => [("subscription_data", JObj [("trial_period_days", JNum n)])]
           | None => []
           end).

Definition product_checkout_params (stripe_customer_id price_id client_reference_id
    billing_currency locale success_url cancel_url : string)
    (metadata : option (list (string * string))) : json :=
  JObj (checkout_base stripe_customer_id client_reference_id "payment" price_id 1 locale
          success_url cancel_url billing_currency
        ++ match metadata with Some m => [("metadata", metadata_json m)] | None => [] end).

Section Billing.
  Context {D : Type} `{SubscriptionRepository D} `{StripeCustomerRepository D} `{StripeServer}.

Definition customer_metadata (user_id org_id : option uuid) : list (string * string) :=
  match user_id with Some u => [("user_id", uuid_str u)] | None => [] end
  ++ match org_id with Some o => [("org_id", uuid_str o)] | None => [] end.

Definition get_or_create_customer (user_id org_id : option uuid) (email : string)
    (name : option string) (locale : string) : M D StripeCustomer :=
  existing ←
    match user_id, org_id with
    | Some user_id, _ => query (λ d, custs_get_by_user_id d user_id)
    | None, Some org_id => query (λ d, custs_get_by_org_id d org_id)
    | None, None => raise (ValueError "Either user_id or org_id must be provided")
    end;
  match existing with
  | Some existing => mret existing
  | None =>
      stripe_customer ← stripe (CustomerCreate email name locale (customer_metadata user_id org_id));
      id ← uuid4;
      stripe_id ← lift (i ← getattr stripe_customer "id"; expect_str i);
      livemode ← lift (l ← getattr stripe_customer "livemode"; expect_bool l);
      now ← utcnow;
      customer ← lift (new_StripeCustomer id stripe_id user_id org_id livemode now);
      custs_save customer
  end.

Definition create_team_stripe_customer (user_id : uuid) (email : string) (name : option string)
    (locale : string) : M D json :=
  stripe_customer ← stripe (CustomerCreate email name locale
                              [("user_id", uuid_str user_id); ("scope", "team_checkout")]);
  lift (getattr stripe_customer "id").

Definition create_checkout_session (stripe_customer_id price_id client_reference_id
    billing_currency : string) (quantity : Z) (locale success_url cancel_url : string)
    (trial_period_days : option Z) (metadata : option (list (string * string))) : M D json :=
  session ← stripe (CheckoutSessionCreate
    (checkout_params stripe_customer_id price_id client_reference_id billing_currency quantity
       locale success_url cancel_url trial_period_days metadata));
  lift (getattr session "url").

Definition create_product_checkout_session (stripe_customer_id price_id client_reference_id
    billing_currency locale success_url cancel_url : string)
    (metadata : option (list (string * string))) : M D json :=
  session ← stripe (CheckoutSessionCreate
    (product_checkout_params stripe_customer_id price_id client_reference_id billing_currency
       locale success_url cancel_url metadata));
  lift (getattr session "url").

Definition create_billing_portal_session (stripe_customer_id locale return_url : string)
    (flow_data : option json) : M D json :=
  session ← stripe (PortalSessionCreate
    (JObj ([("customer", JStr stripe_customer_id); ("locale", JStr locale);
            ("return_url", JStr return_url)]
           ++ match flow_data with Some f => [("flow_data", f)] | None => [] end)));
  lift (getattr session "url").

(** The status update of [_mirror_cancel_state_from_stripe]: an unknown status
    leaves the row's. *)
Definition mirrored_status (active : Subscription) (status : json) : SubscriptionStatus :=
  match status with
  | JStr s => match status_of_value s with Ok st => st | Raise _ => active.(sub_status) end
  | _ => active.(sub_status)
  end.

Definition _mirror_cancel_state_from_stripe (active : Subscription) (stripe_sub : json) : M D unit :=
  cancel_at_ts ← lift (getattr stripe_sub "cancel_at");
  canceled_at_ts ← lift (getattr stripe_sub "canceled_at");
  status_str ← lift (getattr stripe_sub "status");
  cancel_at ← lift (ts_to_dt cancel_at_ts);
  canceled_at ← lift (ts_to_dt canceled_at_ts);
  subs_save (sub_copy_cancel_state active cancel_at canceled_at (mirrored_status active status_str));;
  mret tt.

Definition _release_pending_schedule (stripe_subscription_id : string) : M D unit :=
  sub ← stripe (SubscriptionRetrieve stripe_subscription_id);
  schedule_id ← lift (getattr sub "schedule");
  if negb (truthy schedule_id) then mret tt else
  schedule ← stripe (ScheduleRetrieve (py_str schedule_id));
  status ← lift (getattr schedule "status");
  if negb match status with JStr s => str_in s ["not_started"; "active"] | _ => false end
  then mret tt
  else
    id ← lift (getattr schedule "id");
    stripe (ScheduleRelease (py_str id));;
    mret tt.

(** The active subscription of a customer with its Stripe id, or the 404 the
    three mutations share. *)
Definition active_with_id (stripe_customer_id : uuid) (msg : string) : M D (Subscription * string) :=
  active ← query (λ d, subs_get_active_for_customer d stripe_customer_id);
  match active with
  | Some active =>
      match active.(sub_stripe_id) with
      | Some k => mret (active, k)
      | None => raise (SubscriptionNotFoundError msg)
      end
  | None => raise (SubscriptionNotFoundError msg)
  end.

Definition cancel_subscription (stripe_customer_id : uuid) (at_period_end : bool) : M D unit :=
  a ← active_with_id stripe_customer_id "No active subscription found to cancel.";
  let active := a.1 in
  (if not_none active.(sub_scheduled_plan_id) then _release_pending_schedule a.2 else mret tt);;
  stripe_sub ←
    (if at_period_end then stripe (SubscriptionModifyCancelAt a.2 "min_period_end")
     else stripe (SubscriptionCancel a.2 None));
  _mirror_cancel_state_from_stripe active stripe_sub.

Definition release_pending_schedule_for_customer (stripe_customer_id : uuid) : M D unit :=
  a ← active_with_id stripe_customer_id "No active subscription found.";
  _release_pending_schedule a.2;;
  if not_none a.1.(sub_scheduled_plan_id) || not_none a.1.(sub_scheduled_change_at)
  then subs_save (sub_copy_scheduled a.1 None None);; mret tt
  else mret tt.

Definition resume_subscription (stripe_customer_id : uuid) : M D unit :=
  a ← active_with_id stripe_customer_id "No active subscription found to resume.";
  stripe_sub ← stripe (SubscriptionModifyCancelAt a.2 "");
  _mirror_cancel_state_from_stripe a.1 stripe_sub.

End Billing.
