(* ===== verification/BillingFacts.v ===== *)
(** * Correctness of cancellation, resumption and customers

    Theorems about [Billing.v]. *)

From S2P Require Import Prelude PyVal Effects Domain StripeObjects Repos Webhooks WebhookFacts.
From S2P Require Import Billing.

#[local] Open Scope string_scope.

(** ** Specification *)

(** The calls that detach a schedule from [k]: it is looked at, and released
    only when it is still releasable. *)
Inductive release_run (k : string) : outcome unit → list stripe_call → Prop :=
  | rr_look r : release_run k r [SubscriptionRetrieve k]
  | rr_schedule r s : release_run k r [SubscriptionRetrieve k; ScheduleRetrieve s]
  | rr_release r s s' :
      release_run k r [SubscriptionRetrieve k; ScheduleRetrieve s; ScheduleRelease s'].

(** The cancel fields of a Stripe answer. *)
Definition cancel_fields (active : Subscription) (j : json) :
    outcome (option datetime * option datetime * SubscriptionStatus) :=
  ca ← getattr j "cancel_at";
  cd ← getattr j "canceled_at";
  st ← getattr j "status";
  ca ← ts_to_dt ca;
  cd ← ts_to_dt cd;
  Ok (ca, cd, mirrored_status active st).

Section Facts.
  Context {D : Type} `{SubscriptionRepositoryLaws D} `{StripeServer}.
  Implicit Types (w : world D) (d : D).

(** ** Helper lemmas *)

Lemma release_runs k w : runs_as (_release_pending_schedule k) (release_run k) w.
Proof.
  unfold _release_pending_schedule.
  apply runs_as_stripe; [by constructor|intros sub _].
  apply runs_as_lift; [by constructor|intros s _].
  destruct (negb (truthy s)); [by eexists (Ok tt), []; rewrite on_log_nil; split; [|constructor]|].
  apply runs_as_stripe; [by constructor|intros sch _].
  apply runs_as_lift; [by constructor|intros st _].
  destruct (negb _); [by eexists (Ok tt), []; rewrite on_log_nil; split; [|constructor]|].
  apply runs_as_lift; [by constructor|intros i _].
  apply runs_as_last. by constructor.
Qed.

Lemma active_with_id_run cid msg w :
  active_with_id cid msg w =
  match subs_get_active_for_customer (w_db w) cid with
  | Some s => match s.(sub_stripe_id) with
              | Some k => (Ok (s, k), w)
              | None => (Raise (SubscriptionNotFoundError msg), w)
              end
  | None => (Raise (SubscriptionNotFoundError msg), w)
  end.
Proof.
  unfold active_with_id. munfold. destruct (subs_get_active_for_customer _ _) as [s|]; [|done].
  by destruct (sub_stripe_id s).
Qed.

Lemma mirror_cancel_run active j w :
  _mirror_cancel_state_from_stripe active j w =
  match cancel_fields active j with
  | Raise e => (Raise e, w)
  | Ok (ca, cd, st) =>
      match subs_save_db (w_now w) (sub_copy_cancel_state active ca cd st) (w_db w) with
      | Ok d => (Ok tt, set_db d w)
      | Raise e => (Raise e, w)
      end
  end.
Proof. unfold _mirror_cancel_state_from_stripe, cancel_fields, subs_save. munfold. mcases. Qed.

(** A failed tail leaves the store alone when each part does. *)
Definition keeps_db_on_raise {A} (m : M D A) : Prop :=
  ∀ w e w', m w = (Raise e, w') → w_db w' = w_db w.

Lemma mirror_keeps active j : keeps_db_on_raise (_mirror_cancel_state_from_stripe active j).
Proof.
  intros w e w'. rewrite mirror_cancel_run. destruct (cancel_fields active j) as [[[]]|]; [|by intros [= _ <-]].
  destruct (subs_save_db _ _ _); [done|by intros [= _ <-]].
Qed.

(** ** Properties *)

(** A successful cancellation.  The active subscription of the customer
    receives exactly one cancelling call, the last one: scheduled for the end of
    the period or immediate, as asked.  Only a pending plan change makes other
    calls, all before it, which detach the schedule.  The row then carries the
    cancellation dates and the status of Stripe's answer (the old status when
    Stripe's is unknown), all its other fields, and no other row changes. *)
Theorem cancel_subscription_mirrors cid (at_end : bool) active k w w' :
  let c := if at_end then SubscriptionModifyCancelAt k "min_period_end"
           else SubscriptionCancel k None in
  subs_valid (w_db w) →
  subs_get_active_for_customer (w_db w) cid = Some active →
  active.(sub_stripe_id) = Some k →
  cancel_subscription cid at_end w = (Ok tt, w') →
  ∃ l j ca cd st s',
    (if not_none active.(sub_scheduled_plan_id) then release_run k (Ok tt) l else l = []) ∧
    w_stripe w' = (w_stripe w ++ l ++ [c])%list ∧
    stripe_respond (w_stripe w ++ l) c = Ok j ∧ cancel_fields active j = Ok (ca, cd, st) ∧
    subs_get_by_stripe_id (w_db w') k = Some s' ∧ s' ≡ sub_copy_cancel_state active ca cd st ∧
    ∀ k', k' ≠ k → subs_get_by_stripe_id (w_db w') k' = subs_get_by_stripe_id (w_db w) k'.
Proof.
  intros c Hv Ha Hk Hrun. unfold cancel_subscription in Hrun.
  rewrite bind_run, active_with_id_run, Ha, Hk in Hrun. cbn [fst snd] in Hrun.
  assert (∃ l, (if not_none active.(sub_scheduled_plan_id) then release_run k (Ok tt) l else l = []) ∧
    (if not_none active.(sub_scheduled_plan_id) then _release_pending_schedule k else mret tt) w =
    (Ok tt, on_log w l)) as (l & Hl & Hrel).
  { destruct (not_none _).
    - destruct (release_runs k w) as (r & l & Hr & HR). rewrite bind_run, Hr in Hrun.
      destruct r as [[]|]; [by eauto|done].
    - exists []. by rewrite on_log_nil. }
  rewrite bind_run, Hrel in Hrun.
  assert ((if at_end then stripe (SubscriptionModifyCancelAt k "min_period_end")
           else stripe (SubscriptionCancel k None)) = stripe (D:=D) c) as Hc by by destruct at_end.
  rewrite Hc, stripe_bind, on_log_app in Hrun. cbn [w_stripe on_log] in Hrun.
  destruct (stripe_respond _ c) as [j|] eqn:Hj; [|done]. rewrite mirror_cancel_run in Hrun.
  destruct (cancel_fields active j) as [[[ca cd] st]|] eqn:Hf; [|done].
  destruct (subs_save_db _ _ _) as [d'|] eqn:Hs; [|done]. injection Hrun as <-.
  destruct (save_get _ _ _ _ k Hv Hs) as (s' & Hg & Heq); [done|].
  exists l, j, ca, cd, st, s'. split_and!; try done.
  intros k' Hne. cbn. eapply (save_update_frame _ _ _ _ k active); [done..| |done|done].
  by apply (subs_active_for_customer (w_db w) cid active Hv Ha).
Qed.

(** The three mutations of a subscription are all or nothing on our side:
    when [cancel_subscription], [resume_subscription] or
    [release_pending_schedule_for_customer] raises, for whatever reason, no row
    has changed; and without an active Stripe subscription each raises
    [SubscriptionNotFoundError] before any call to Stripe. *)
Theorem billing_mutations_refused cid m w e w' :
  m ∈ [cancel_subscription cid true; cancel_subscription cid false; resume_subscription cid;
       release_pending_schedule_for_customer cid] →
  m w = (Raise e, w') →
  w_db w' = w_db w ∧
  (subs_get_active_for_customer (w_db w) cid ≫= sub_stripe_id = None →
    w' = w ∧ exn_class e = "SubscriptionNotFoundError").
Proof.
  intros Hm Hrun.
  assert (∀ msg (f : Subscription * string → M D unit),
    m = active_with_id cid msg ≫= f → (∀ a, keeps_db_on_raise (f a)) →
    w_db w' = w_db w ∧ (subs_get_active_for_customer (w_db w) cid ≫= sub_stripe_id = None →
      w' = w ∧ exn_class e = "SubscriptionNotFoundError")) as Hgen.
  { intros msg f -> Hf. rewrite bind_run, active_with_id_run in Hrun.
    destruct (subs_get_active_for_customer _ _) as [s|]; cbn; [|by simplify_eq].
    destruct (sub_stripe_id s); [|by simplify_eq]. split; [by eapply Hf|done]. }
  assert (∀ c active, keeps_db_on_raise (stripe c ≫= _mirror_cancel_state_from_stripe active)) as Hmir.
  { intros c active w1 e1 w2. rewrite stripe_bind.
    destruct (stripe_respond _ c); [|by intros [= _ <-]]. intros Hr. by apply mirror_keeps in Hr. }
  assert (∀ k (f : M D unit) w1 e1 w2, keeps_db_on_raise f → (_release_pending_schedule k;; f) w1 = (Raise e1, w2) →
    w_db w2 = w_db w1) as Hrel.
  { intros k f w1 e1 w2 Hf. destruct (release_runs k w1) as (r & l & Hr & _). rewrite bind_run, Hr.
    destruct r; [|by intros [= _ <-]]. intros Hr2. by apply Hf in Hr2. }
  repeat apply elem_of_cons in Hm as [Hm|Hm]; [..|by apply elem_of_nil in Hm].
  - eapply Hgen; [exact Hm|]. intros a w1 e1 w2. cbn. destruct (not_none _); [|apply Hmir].
    apply Hrel, Hmir.
  - eapply Hgen; [exact Hm|]. intros a w1 e1 w2. cbn. destruct (not_none _); [|apply Hmir].
    apply Hrel, Hmir.
  - eapply Hgen; [exact Hm|]. intros a w1 e1 w2. cbn. apply Hmir.
  - eapply Hgen; [exact Hm|]. intros a w1 e1 w2. apply Hrel. clear.
    intros w e w'. case_match; [|done]. unfold subs_save. munfold.
    destruct (subs_save_db _ _ _); [done|by intros [= _ <-]].
Qed.

(** A Stripe customer is created once per owner: whatever Stripe answered,
    after a call that returned a customer a second call for the same owner
    returns the same Stripe id without contacting Stripe or writing anything,
    even with other contact details; and the first call created at most one
    customer, tagged with its owner. *)
Theorem customer_created_once `{!StripeCustomerRepositoryLaws D} user_id org_id email name locale
    email' name' locale' c w w1 :
  custs_valid (w_db w) →
  get_or_create_customer user_id org_id email name locale w = (Ok c, w1) →
  (∃ c', get_or_create_customer user_id org_id email' name' locale' w1 = (Ok c', w1) ∧
    cus_stripe_id c' = cus_stripe_id c) ∧
  (w1 = w ∨ w_stripe w1 =
     (w_stripe w ++ [CustomerCreate email name locale (customer_metadata user_id org_id)])%list).
Proof.
  intros Hv. unfold get_or_create_customer.
  assert (∀ (get : D → option StripeCustomer) (mk : M D StripeCustomer),
    (∀ c w1, mk w = (Ok c, w1) → (∃ c', get (w_db w1) = Some c' ∧ cus_stripe_id c' = cus_stripe_id c) ∧
      w_stripe w1 = (w_stripe w ++ [CustomerCreate email name locale (customer_metadata user_id org_id)])%list) →
    ∀ mk', (e ← query get; match e with Some e => mret e | None => mk end) w = (Ok c, w1) →
    (∃ c', (e ← query get; match e with Some e => mret e | None => mk' end) w1 = (Ok c', w1) ∧
      cus_stripe_id c' = cus_stripe_id c) ∧ (w1 = w ∨
      w_stripe w1 = (w_stripe w ++ [CustomerCreate email name locale (customer_metadata user_id org_id)])%list))
    as Hgen.
  { intros get mk Hmk mk'. munfold. destruct (get (w_db w)) as [c0|] eqn:Hg.
    - intros [= <- <-]. rewrite Hg. eauto.
    - intros Hrun. apply Hmk in Hrun as [(c' & Hc' & Hid) Hlog]. rewrite Hc'. eauto. }
  destruct user_id as [u|]; [|destruct org_id as [o|]; [|done]].
  - apply Hgen. clear Hgen. intros c2 w2. unfold custs_save, new_StripeCustomer. munfold.
    unfold stripe. intros Hrun. mcases. split; [|done].
    edestruct (custs_save_get_user (D:=D)) as (c' & ? & ? & _); [done|done|done|by eexists].
  - apply Hgen. clear Hgen. intros c2 w2. unfold custs_save, new_StripeCustomer. munfold.
    unfold stripe. intros Hrun. mcases. split; [|done].
    edestruct (custs_save_get_org (D:=D)) as (c' & ? & ? & _); [done|done|done|done|by eexists].
Qed.

(** The cancel mirror is a stale write.  [cancel_subscription] reads the
    row before its Stripe calls and saves that copy after them.  When the
    [subscription_schedule.released] webhook its own release triggers is handled
    in between, the row ends with the pending plan the webhook had just cleared,
    although Stripe no longer has a schedule. *)
Theorem cancel_mirror_resurrects_schedule active k j w w1 w2 :
  subs_valid (w_db w) → active.(sub_stripe_id) = Some k → k ≠ "" →
  subs_get_by_stripe_id (w_db w) k = Some active → is_Some active.(sub_scheduled_plan_id) →
  _on_subscription_schedule_cleared (JObj [("subscription", JStr k)]) w = (Ok tt, w1) →
  _mirror_cancel_state_from_stripe active j w1 = (Ok tt, w2) →
  ∃ s1 s2, subs_get_by_stripe_id (w_db w1) k = Some s1 ∧ s1.(sub_scheduled_plan_id) = None ∧
    subs_get_by_stripe_id (w_db w2) k = Some s2 ∧
    s2.(sub_scheduled_plan_id) = active.(sub_scheduled_plan_id).
Proof.
  intros Hv Hk Hne Hg [p Hp] Hclear Hmirror.
  unfold _on_subscription_schedule_cleared, subs_save in Hclear.
  change (get (JObj [("subscription", JStr k)]) "subscription") with (Ok (JStr k)) in Hclear.
  rewrite lift_bind in Hclear. cbn [truthy] in Hclear.
  rewrite (proj2 (b_eq_false k "")) in Hclear by done. munfold in Hclear. cbn in Hclear.
  rewrite Hg, Hp in Hclear. cbn in Hclear.
  destruct (subs_save_db _ _ _) as [d1|] eqn:Hs1; [|done]. injection Hclear as <-.
  destruct (save_get _ _ _ _ k Hv Hs1) as (s1 & Hg1 & Heq1); [done|].
  rewrite mirror_cancel_run in Hmirror.
  destruct (cancel_fields active j) as [[[ca cd] st]|]; [|done].
  destruct (subs_save_db _ (sub_copy_cancel_state _ _ _ _) _) as [d2|] eqn:Hs2; [|done].
  injection Hmirror as <-.
  pose proof (subs_save_valid _ _ _ _ Hv Hs1) as Hv1.
  destruct (save_get _ _ _ _ k Hv1 Hs2) as (s2 & Hg2 & Heq2); [done|].
  exists s1, s2. split_and!; [done|by rewrite Heq1|done|by rewrite Heq2].
Qed.
End Facts.
