(* ===== verification/Gdpr.v ===== *)
(** * Erasure and access

    [core/saasmint_core/services/gdpr.py]: account deletion and data export. *)

From S2P Require Import Prelude PyVal Effects Domain Repos.

#[local] Open Scope string_scope.

(** ** Definitions *)

Section Gdpr.
  Context {D : Type} `{UserRepository D} `{StripeCustomerRepository D} `{SubscriptionRepository D}
    `{StripeServer}.

(** [except stripe.InvalidRequestError] with code [resource_missing]. *)
Definition is_resource_missing (e : exn) : bool :=
  match e with
  | StripeError cls code _ _ => b_eq cls "InvalidRequestError" && b_eq code (Some "resource_missing")
  | _ => false
  end.

Definition _stripe_request (c : stripe_call) : M D unit :=
  catch (stripe c;; mret tt) (λ e, if is_resource_missing e then mret tt else raise e).

(** [asyncio.gather] of two reads: both see the same store. *)
Definition _load_user_and_customer (user_id : uuid) : M D (User * option StripeCustomer) :=
  user ← query (λ d, users_get_by_id d user_id);
  customer ← query (λ d, custs_get_by_user_id d user_id);
  match user with
  | None => raise (UserNotFoundError ("User " ++ uuid_str user_id ++ " not found"))
  | Some user => mret (user, customer)
  end.

Definition delete_account (user_id : uuid) (pre_delete_hook : option (uuid → M D unit)) : M D unit :=
  uc ← _load_user_and_customer user_id;
  active_sub ← query (λ d, subs_get_active_for_user d user_id);
  match active_sub ≫= sub_stripe_id with
  | Some k => _stripe_request (SubscriptionCancel k (Some false))
  | None => mret tt
  end;;
  match uc.2 with
  | Some customer =>
      _stripe_request (CustomerDelete customer.(cus_stripe_id));;
      custs_delete customer.(cus_id)
  | None => mret tt
  end;;
  match pre_delete_hook with
  | Some hook => hook user_id
  | None => mret tt
  end;;
  users_hard_delete user_id.

(** The exported document: the models' dumps are the models themselves. *)
Record Export := mkExport {
  ex_user : User;
  ex_stripe_customer : option (string * bool * datetime);
  ex_subscription : option Subscription
}.

Definition export_user_data (user_id : uuid) : M D Export :=
  uc ← _load_user_and_customer user_id;
  match uc.2 with
  | None => mret (mkExport uc.1 None None)
  | Some customer =>
      active_sub ← query (λ d, subs_get_active_for_customer d customer.(cus_id));
      mret (mkExport uc.1
              (Some (customer.(cus_stripe_id), customer.(cus_livemode), customer.(cus_created_at)))
              active_sub)
  end.

End Gdpr.
