(* ===== verification/GdprFacts.v ===== *)
(** * Correctness of erasure and access

    Theorems about [Gdpr.v]. *)

From S2P Require Import Prelude PyVal Effects Domain Repos Gdpr.

#[local] Open Scope string_scope.

(** ** Specification *)

(** What an erasure asks of Stripe: no refund for the subscription, then the
    customer with its payment methods. *)
Definition erasure_calls (sub : option Subscription) (cus : option StripeCustomer) :
    list stripe_call :=
  match sub ≫= sub_stripe_id with Some k => [SubscriptionCancel k (Some false)] | None => [] end
  ++ match cus with Some c => [CustomerDelete c.(cus_stripe_id)] | None => [] end.

Section Facts.
  Context {D : Type} `{UserRepository D} `{StripeCustomerRepository D} `{SubscriptionRepository D}
    `{StripeServer}.
  Implicit Types (w : world D) (d : D).

(** Stripe accepted [c], or no longer knew its object. *)
Definition accepted (log : list stripe_call) (c : stripe_call) : Prop :=
  ∀ e, stripe_respond log c = Raise e → is_resource_missing e = true.

(** The calls [l], made in order after [log], were all accepted. *)
Fixpoint all_accepted (log l : list stripe_call) : Prop :=
  match l with
  | [] => True
  | c :: l => accepted log c ∧ all_accepted (log ++ [c]) l
  end.

(** The state in which the rest of the erasure runs. *)
Definition after_stripe w (sub : option Subscription) (cus : option StripeCustomer) : world D :=
  set_db (match cus with Some c => custs_delete_db c.(cus_id) (w_db w) | None => w_db w end)
    (on_log w (erasure_calls sub cus)).

(** ** Helper lemmas *)

Lemma stripe_request_run c w :
  (_stripe_request c w = (Ok tt, on_log w [c]) ∧ accepted (w_stripe w) c) ∨
  (∃ e, _stripe_request c w = (Raise e, on_log w [c]) ∧ stripe_respond (w_stripe w) c = Raise e ∧
    is_resource_missing e = false).
Proof.
  unfold _stripe_request, catch, accepted. rewrite stripe_bind.
  destruct (stripe_respond (w_stripe w) c) as [v|e]; [left; by split|].
  destruct (is_resource_missing e) eqn:He; [left|right; by exists e].
  split; [done|congruence].
Qed.

Definition cancel_part (sub : option Subscription) : M D unit :=
  match sub ≫= sub_stripe_id with
  | Some k => _stripe_request (SubscriptionCancel k (Some false))
  | None => mret tt
  end.

Definition customer_part (cus : option StripeCustomer) : M D unit :=
  match cus with
  | Some customer =>
      _stripe_request (CustomerDelete customer.(cus_stripe_id));;
      custs_delete customer.(cus_id)
  | None => mret tt
  end.

Lemma stripe_parts_run sub cus w :
  let r := (cancel_part sub;; customer_part cus) w in
  (r = (Ok tt, after_stripe w sub cus) ∧ all_accepted (w_stripe w) (erasure_calls sub cus)) ∨
  (∃ e pre c post, r = (Raise e, on_log w (pre ++ [c])) ∧ erasure_calls sub cus = (pre ++ c :: post)%list ∧
    stripe_respond (w_stripe w ++ pre) c = Raise e ∧ is_resource_missing e = false).
Proof.
  cbn zeta. unfold cancel_part, customer_part, after_stripe, erasure_calls.
  set (l1 := match sub ≫= sub_stripe_id with Some k => [SubscriptionCancel k (Some false)] | None => [] end).
  assert (∃ r, (match sub ≫= sub_stripe_id with Some k => _stripe_request (SubscriptionCancel k (Some false))
                | None => mret tt end) w = (r, on_log w l1) ∧
    ((r = Ok tt ∧ all_accepted (w_stripe w) l1) ∨
     ∃ e c, r = Raise e ∧ l1 = [c] ∧ stripe_respond (w_stripe w) c = Raise e ∧
       is_resource_missing e = false)) as (r & Hr & Hcase).
  { unfold l1. destruct (sub ≫= sub_stripe_id) as [k|].
    - destruct (stripe_request_run (SubscriptionCancel k (Some false)) w) as [[-> Ha]|(e & -> & ? & ?)];
        [exists (Ok tt); split; [done|]; left; by split_and!|eauto 10].
    - exists (Ok tt). rewrite on_log_nil. split; [done|]. by left. }
  rewrite bind_run, Hr. destruct Hcase as [[-> Hok]|(e & c & -> & -> & He & Hm)].
  2:{ right. exists e, [], c. cbn. rewrite app_nil_r. eauto. }
  destruct cus as [c|]; cbn.
  2:{ left. rewrite app_nil_r. by destruct w. }
  rewrite bind_run.
  destruct (stripe_request_run (CustomerDelete (cus_stripe_id c)) (on_log w l1))
    as [[-> Ha]|(e & -> & He & Hm)].
  - left. rewrite on_log_app. split; [done|].
    unfold l1 in *. destruct (sub ≫= sub_stripe_id); cbn in *; [tauto|].
    rewrite app_nil_r in Ha. tauto.
  - right. exists e, l1, (CustomerDelete (cus_stripe_id c)), []. rewrite on_log_app. by split_and!.
Qed.

Lemma delete_account_run u hook w :
  delete_account u hook w =
  match users_get_by_id (w_db w) u with
  | None => (Raise (UserNotFoundError ("User " ++ uuid_str u ++ " not found")), w)
  | Some _ =>
      ((cancel_part (subs_get_active_for_user (w_db w) u);;
        customer_part (custs_get_by_user_id (w_db w) u));;
       match hook with Some h => h u | None => mret tt end;;
       users_hard_delete u) w
  end.
Proof.
  unfold delete_account, _load_user_and_customer, cancel_part, customer_part. munfold.
  destruct (users_get_by_id (w_db w) u); [|done]. cbn.
  destruct (match subs_get_active_for_user (w_db w) u ≫= sub_stripe_id with _ => _ end w) as [[[]|] ?];
    [|done]. by destruct (match custs_get_by_user_id (w_db w) u with _ => _ end _) as [[]].
Qed.

(** ** Properties *)

(** A completed erasure.  Stripe was asked to cancel the active
    subscription without refund and then to delete the customer, and accepted
    each (an object it no longer had counts as accepted); the customer row was
    deleted, the hook ran on that state, and only then the user was deleted:
    the user is gone, and that last step changed no other user. *)
Theorem delete_account_erases `{!UserRepositoryLaws D} u hook w w' :
  delete_account u hook w = (Ok tt, w') →
  let sub := subs_get_active_for_user (w_db w) u in
  let cus := custs_get_by_user_id (w_db w) u in
  all_accepted (w_stripe w) (erasure_calls sub cus) ∧
  ∃ w1, match hook with
        | Some h => h u (after_stripe w sub cus) = (Ok tt, w1)
        | None => w1 = after_stripe w sub cus
        end ∧
    w' = set_db (users_hard_delete_db u (w_db w1)) w1 ∧
    users_get_by_id (w_db w') u = None ∧
    ∀ u', u' ≠ u → users_get_by_id (w_db w') u' = users_get_by_id (w_db w1) u'.
Proof.
  rewrite delete_account_run. intros Hrun sub cus. destruct (users_get_by_id (w_db w) u); [|done].
  rewrite bind_run in Hrun. fold sub cus in Hrun.
  destruct (stripe_parts_run sub cus w) as [[Hr Hok]|(e & pre & c & post & Hr & _)];
    rewrite Hr in Hrun; [|done].
  split; [done|]. rewrite bind_run in Hrun.
  assert (∃ w1, match hook with
                | Some h => h u (after_stripe w sub cus) = (Ok tt, w1)
                | None => w1 = after_stripe w sub cus
                end ∧ users_hard_delete u w1 = (Ok tt, w')) as (w1 & Hh & Hdel).
  { destruct hook as [h|]; [|by eauto]. destruct (h u _) as [[[]|] w1]; [by eauto|done]. }
  exists w1. split; [done|].
  unfold users_hard_delete, exec in Hdel. injection Hdel as <-. cbn.
  split; [done|]. split; [by rewrite users_hard_delete_get, decide_True|].
  intros u' Hu. by rewrite users_hard_delete_get, decide_False.
Qed.

(** Erasure never loses local data to a Stripe failure.  When Stripe
    refuses one of the two calls for another reason than a missing object, that
    error comes out, nothing is asked after it, and the store is exactly as it
    was; an unknown user is [UserNotFoundError] with no call at all. *)
Theorem delete_account_refused u hook w :
  (users_get_by_id (w_db w) u = None →
    ∃ msg, delete_account u hook w = (Raise (UserNotFoundError msg), w)) ∧
  let calls := erasure_calls (subs_get_active_for_user (w_db w) u) (custs_get_by_user_id (w_db w) u) in
  (is_Some (users_get_by_id (w_db w) u) → ¬ all_accepted (w_stripe w) calls →
    ∃ e pre c post, calls = (pre ++ c :: post)%list ∧
      stripe_respond (w_stripe w ++ pre) c = Raise e ∧ is_resource_missing e = false ∧
      delete_account u hook w = (Raise e, on_log w (pre ++ [c]))).
Proof.
  rewrite delete_account_run. split; [intros ->; by eexists|].
  intros calls [x ->] Hno. rewrite bind_run.
  destruct (stripe_parts_run (subs_get_active_for_user (w_db w) u)
              (custs_get_by_user_id (w_db w) u) w)
    as [[_ Hok]|(e & pre & c & post & -> & Hcalls & He & Hm)]; [done|].
  by exists e, pre, c, post.
Qed.
End Facts.
