(* ===== verification/Auth.v ===== *)
(** * Users and tokens

    [apps/users/managers.py] and [apps/users/authentication.py]: user creation,
    access tokens, rotating refresh tokens, one-time tokens and the request
    authenticator with its cache.  The messages of the errors are not modelled,
    only their codes. *)

From S2P Require Import Prelude PyVal Effects Domain Relational Store Django.

#[local] Open Scope string_scope.

(** ** Lifetimes *)

Definition _AUTH_CACHE_TTL : Z := seconds 60.
Definition ACCESS_TOKEN_LIFETIME : Z := minutes 15.
Definition REFRESH_TOKEN_LIFETIME : Z := days 7.
Definition EMAIL_VERIFICATION_LIFETIME : Z := hours 24.
Definition PASSWORD_RESET_LIFETIME : Z := minutes 10.
Definition SOCIAL_LINK_LIFETIME : Z := minutes 15.

(** ** Definitions *)

(** [int(t.timestamp())]. *)
Definition timestamp (t : datetime) : Z := Z.quot t 1000000.

(** [int(pwd_changed.timestamp()) if pwd_changed else 0]. *)
Definition pwd_stamp (u : UserRow) : Z :=
  match u.(u_password_changed_at) with Some t => timestamp t | None => 0 end.

Definition has_usable_password (u : UserRow) : bool := not_none u.(u_password).

(** [email__iexact]. *)
Definition user_by_email (email : string) (d : db) : option (N * UserRow) :=
  tfind (λ _ u, b_eq (lower u.(u_email)) (lower email)) d.(d_users).

Definition email_is_registered (email : string) (d : db) : bool := not_none (user_by_email email d).

(** *** One-time token models *)

(** What the three token models share: the abstract base's columns of a row. *)
Record OneTimeTokenModel (A : Type) := mkOneTimeTokenModel {
  ot_table : db → table A;
  ot_set_table : table A → db → db;
  ot_token : A → OneTimeRow;
  ot_with_token : OneTimeRow → A → A
}.
Arguments mkOneTimeTokenModel {A} _ _ _ _.
Arguments ot_table {A} _ _.
Arguments ot_set_table {A} _ _ _.
Arguments ot_token {A} _ _.
Arguments ot_with_token {A} _ _ _.

Definition EmailVerificationToken : OneTimeTokenModel OneTimeRow :=
  mkOneTimeTokenModel d_verify set_verify id const.
Definition PasswordResetToken : OneTimeTokenModel OneTimeRow :=
  mkOneTimeTokenModel d_reset set_reset id const.
Definition SocialLinkRequest : OneTimeTokenModel LinkRow :=
  mkOneTimeTokenModel d_links set_links lr_token
    (λ t l, mkLinkRow t l.(lr_provider) l.(lr_provider_user_id) l.(lr_full_name) l.(lr_avatar_url)).

Section Auth.
  Context `{DjangoLib} `{Secrets} `{JWT}.

(** *** [UserManager.create_user] *)

Definition hash_password (salt : N) (password : option string) : option string :=
  match password with
  | Some p => if b_eq p "" then None else Some (make_password salt p)
  | None => None
  end.

Definition create_user (email : string) (password : option string) (full_name : string)
    (avatar_url : option string) (is_verified : bool) (registration_method : string) :
    M store (uuid * UserRow) :=
  if b_eq email "" then raise (ValueError "Email is required") else
  let email := normalize_email email in
  pk ← uuid4;
  salt ← uuid4;
  now ← utcnow;
  let u := mkUserRow email full_name avatar_url "en" "usd" None None None None None None
             is_verified registration_method true
             (hash_password salt password) None now now in
  dexec (insert_user pk u);;
  invalidate_auth_user_cache pk;;
  mret (pk, u).

(** [user.save(update_fields=...)]: the listed fields of the row, then the
    [post_save] signal. *)
Definition save_user_fields (id : uuid) (f : UserRow → UserRow) : M store unit :=
  dexec (λ d,
    match d.(d_users) !! id with
    | Some row => save_user id (f row) d
    | None => Raise (DatabaseError "Save with update_fields did not affect any rows.")
    end);;
  invalidate_auth_user_cache id.

(** *** Access tokens *)

Definition access_claims (user : uuid) (u : UserRow) (now : datetime) : list (string * json) :=
  [("sub", JStr (uuid_str user)); ("email", JStr u.(u_email)); ("type", JStr "access");
   ("iat", JNum (timestamp now)); ("exp", JNum (timestamp (now + ACCESS_TOKEN_LIFETIME)));
   ("pwd_iat", JNum (pwd_stamp u))].

Definition create_access_token (user : uuid) (u : UserRow) : M store string :=
  now ← utcnow;
  mret (jwt_encode (JObj (access_claims user u now))).

(** *** Refresh tokens *)

Definition _hash_token (raw : string) : string := sha256_hex raw.

Definition create_refresh_token (user : uuid) : M store string :=
  raw ← fresh_token;
  pk ← uuid4;
  now ← utcnow;
  dexec (insert_refresh pk
    (mkRefreshRow user (_hash_token raw) now (now + REFRESH_TOKEN_LIFETIME) None));;
  mret raw.

Definition refresh_revoke (now : datetime) (r : RefreshRow) : RefreshRow :=
  mkRefreshRow r.(rt_user) r.(rt_token_hash) r.(rt_created_at) r.(rt_expires_at) (Some now).

(** [filter(..., revoked_at__isnull=True).update(revoked_at=now)]. *)
Definition revoke_where (p : RefreshRow → bool) (now : datetime) (d : db) : db :=
  set_refresh ((λ r, if p r && is_none r.(rt_revoked_at) then refresh_revoke now r else r)
                 <$> d.(d_refresh)) d.

Definition revoke_all_refresh_tokens (user : uuid) : M store unit :=
  now ← utcnow;
  dexec (λ d, Ok (revoke_where (λ r, b_eq r.(rt_user) user) now d)).

Definition revoke_refresh_token (raw_token : string) : M store unit :=
  now ← utcnow;
  dexec (λ d, Ok (revoke_where (λ r, b_eq r.(rt_token_hash) (_hash_token raw_token)) now d)).

Definition refresh_by_hash (h : string) (d : db) : option (N * RefreshRow) :=
  tfind (λ _ r, b_eq r.(rt_token_hash) h) d.(d_refresh).

(** The reads and checks of [rotate_refresh_token]: the row and its user. *)
Definition rotate_checks (raw_token : string) : M store (N * RefreshRow * UserRow) :=
  found ← dquery (λ d, r ← refresh_by_hash (_hash_token raw_token) d;
                       u ← d.(d_users) !! r.2.(rt_user); Some (r, u));
  match found with
  | None => raise (AuthenticationFailed "invalid_token")
  | Some (rt, user) =>
      now ← utcnow;
      if not_none rt.2.(rt_revoked_at) then
        revoke_all_refresh_tokens rt.2.(rt_user);;
        raise (AuthenticationFailed "token_revoked")
      else if (rt.2.(rt_expires_at) <=? now)%Z then raise (AuthenticationFailed "token_expired")
      else if negb user.(u_is_active) then raise (AuthenticationFailed "user_not_found")
      else mret (rt, user)
  end.

(** Its writes: [rt.save(update_fields=["revoked_at"])], then the new token. *)
Definition rotate_writes (rt : N * RefreshRow) : M store string :=
  now ← utcnow;
  dexec (λ d,
    match d.(d_refresh) !! rt.1 with
    | Some row => save_refresh rt.1 (refresh_revoke now row) d
    | None => Raise (DatabaseError "Save with update_fields did not affect any rows.")
    end);;
  create_refresh_token rt.2.(rt_user).

Definition rotate_refresh_token (raw_token : string) : M store (uuid * UserRow * string) :=
  c ← rotate_checks raw_token;
  new_raw ← rotate_writes c.1;
  mret (c.1.2.(rt_user), c.2, new_raw).

(** *** One-time tokens *)

Definition ot_mark_used (now : datetime) (t : OneTimeRow) : OneTimeRow :=
  mkOneTimeRow t.(ot_user) t.(ot_token_hash) t.(ot_created_at) t.(ot_expires_at) (Some now).

(** [filter(p).update(used_at=now)], and the number of rows updated. *)
Definition mark_where {A} (m : OneTimeTokenModel A) (p : OneTimeRow → bool) (now : datetime) (d : db) :
    db :=
  m.(ot_set_table)
    ((λ a, if p (m.(ot_token) a)
           then m.(ot_with_token) (ot_mark_used now (m.(ot_token) a)) a else a) <$> m.(ot_table) d) d.

Definition redeemable (h : string) (now : datetime) (t : OneTimeRow) : bool :=
  b_eq t.(ot_token_hash) h && is_none t.(ot_used_at) && (now <? t.(ot_expires_at))%Z.

(** The SELECT and the checks of [_consume_one_time_token]: the row and its user. *)
Definition consume_checks {A} (m : OneTimeTokenModel A) (raw_token : string) (now : datetime) :
    M store (A * UserRow) :=
  obj ← dquery (λ d,
    r ← tfind (λ _ a, b_eq (m.(ot_token) a).(ot_token_hash) (_hash_token raw_token)) (m.(ot_table) d);
    u ← d.(d_users) !! (m.(ot_token) r.2).(ot_user); Some (r.2, u));
  match obj with
  | None => raise (AuthenticationFailed "invalid_token")
  | Some (a, user) =>
      let t := m.(ot_token) a in
      if not_none t.(ot_used_at) then raise (AuthenticationFailed "token_used")
      else if (t.(ot_expires_at) <=? now)%Z then raise (AuthenticationFailed "token_expired")
      else mret (a, user)
  end.

(** The conditional UPDATE. *)
Definition consume_update {A} (m : OneTimeTokenModel A) (raw_token : string) (now : datetime) :
    M store unit :=
  let p := redeemable (_hash_token raw_token) now in
  updated ← dquery (λ d, tcount (λ _ a, p (m.(ot_token) a)) (m.(ot_table) d));
  dexec (λ d, Ok (mark_where m p now d));;
  if Nat.eqb updated 0 then raise (AuthenticationFailed "token_used") else mret tt.

Definition _consume_one_time_token {A} (m : OneTimeTokenModel A) (raw_token : string) :
    M store (A * UserRow) :=
  now ← utcnow;
  obj ← consume_checks m raw_token now;
  consume_update m raw_token now;;
  if negb obj.2.(u_is_active) then raise (AuthenticationFailed "user_not_found")
  else mret (m.(ot_with_token) (ot_mark_used now (m.(ot_token) obj.1)) obj.1, obj.2).

(** The bound user: its id and the joined row. *)
Definition _verify_one_time_token {A} (m : OneTimeTokenModel A) (raw_token : string) :
    M store (uuid * UserRow) :=
  obj ← _consume_one_time_token m raw_token;
  mret ((m.(ot_token) obj.1).(ot_user), obj.2).

Definition verify_email_token : string → M store (uuid * UserRow) :=
  _verify_one_time_token EmailVerificationToken.
Definition verify_password_reset_token : string → M store (uuid * UserRow) :=
  _verify_one_time_token PasswordResetToken.
Definition verify_social_link_token : string → M store (LinkRow * UserRow) :=
  _consume_one_time_token SocialLinkRequest.

(** [_create_one_time_token]; [insert] is the model's [objects.create]. *)
Definition _create_one_time_token (insert : N → OneTimeRow → db → outcome db) (user : uuid)
    (lifetime : Z) : M store string :=
  raw ← fresh_token;
  pk ← uuid4;
  now ← utcnow;
  dexec (insert pk (mkOneTimeRow user (_hash_token raw) now (now + lifetime) None));;
  mret raw.

Definition create_email_verification_token (user : uuid) : M store string :=
  _create_one_time_token insert_verify user EMAIL_VERIFICATION_LIFETIME.
Definition create_password_reset_token (user : uuid) : M store string :=
  _create_one_time_token insert_reset user PASSWORD_RESET_LIFETIME.
Definition create_social_link_token (user : uuid) (provider provider_user_id full_name : string)
    (avatar_url : option string) : M store string :=
  _create_one_time_token
    (λ pk t, insert_link pk (mkLinkRow t provider provider_user_id full_name avatar_url))
    user SOCIAL_LINK_LIFETIME.

(** *** [JWTAuthentication.authenticate] *)

(** [cache.get] and [cache.set] of the user snapshot. *)
Definition cached_user (sub : string) (now : datetime) (s : store) : option (uuid * UserRow) :=
  match s.(s_cache).(c_auth) !! sub with
  | Some (u, expiry) => if (now <? expiry)%Z then Some u else None
  | None => None
  end.

Definition cache_user (sub : string) (u : uuid * UserRow) (now : datetime) : M store unit :=
  exec (λ s, Ok (mkStore s.(s_db)
    (mkCache (<[sub := (u, (now + _AUTH_CACHE_TTL)%Z)]> s.(s_cache).(c_auth))
       s.(s_cache).(c_codes) s.(s_cache).(c_consumed)) s.(s_media))).

(** The user of a [sub] claim: the snapshot, or the active row, then cached. *)
Definition load_user (sub : string) : M store (uuid * UserRow) :=
  now ← utcnow;
  snapshot ← query (cached_user sub now);
  match snapshot with
  | Some u => mret u
  | None =>
      match uuid_parse sub with
      | None => raise (DjangoValidationError "is not a valid UUID.")
      | Some id =>
          row ← dquery (λ d, d.(d_users) !! id);
          match row with
          | Some u =>
              if u.(u_is_active)
              then cache_user sub (id, u) now;; mret (id, u)
              else raise (AuthenticationFailed "user_not_found")
          | None => raise (AuthenticationFailed "user_not_found")
          end
      end
  end.

Definition bearer : string := "Bearer ".

(** [auth_header.split(" ", 1)[1]] of a header that starts with [Bearer ]. *)
Definition bearer_token (header : string) : option string :=
  if is_prefix (list_ascii_of_string bearer) (list_ascii_of_string header)
  then Some (string_of_list_ascii (drop 7 (list_ascii_of_string header))) else None.

Definition authenticate (header : string) : M store (option (uuid * UserRow)) :=
  match bearer_token header with
  | None => mret None
  | Some token =>
      now ← utcnow;
      match jwt_decode now token with
      | JwtExpired => raise (AuthenticationFailed "token_expired")
      | JwtInvalid => raise (AuthenticationFailed "invalid_token")
      | JwtOk payload =>
          ty ← lift (get payload "type");
          if negb match ty with JStr t => b_eq t "access" | _ => false end
          then raise (AuthenticationFailed "invalid_token") else
          sub ← lift (get payload "sub");
          match sub with
          | JStr sub =>
              if b_eq sub "" then raise (AuthenticationFailed "invalid_token") else
              user ← load_user sub;
              raw ← lift (get_default payload "pwd_iat" (JNum 0));
              pwd_iat ← lift (if is_int raw then py_int raw else Ok 0%Z);
              if (pwd_iat <? pwd_stamp user.2)%Z
              then raise (AuthenticationFailed "token_revoked")
              else mret (Some user)
          | _ => raise (AuthenticationFailed "invalid_token")
          end
      end
  end.

End Auth.
