(* ===== verification/AuthViews.v ===== *)
(** * Authentication endpoints

    [apps/users/auth_views.py] with the account resolution of
    [apps/users/services.py]: the handlers from the validated request to the
    response.  The request bodies, the captcha and the session's state are in
    [AuthForms.v]; the exchange of an authorization code with the provider is an
    argument of the callback ([OAuthProviders.v]). *)

From S2P Require Import Prelude PyVal Effects Domain Relational Store Django Auth.

#[local] Open Scope string_scope.

(** ** Errors and responses *)

Definition EmailAlreadyExists : exn := APIException 409 "email_exists".
Definition InvalidCredentials : exn := APIException 401 "invalid_credentials".
Definition AccountDeactivated : exn := APIException 401 "account_deactivated".
Definition InvalidPassword : exn := APIException 400 "invalid_password".
Definition InvalidOAuthCode : exn := APIException 400 "invalid_code".
Definition NotAuthenticated : exn := APIException 401 "not_authenticated".

Inductive response :=
  | TokenPair (status : Z) (access_token refresh_token : string)
  | Message (status : Z) (code : string)
  | NoContent.

Inductive redirect :=
  | RedirectError (code : string)
  | RedirectLinkEmailSent
  | RedirectCallback (code : string).

Definition _OAUTH_EXCHANGE_TTL : Z := seconds 60.

Definition _FORWARDABLE_OAUTH_ERRORS : list string :=
  ["access_denied"; "server_error"; "temporarily_unavailable"; "invalid_request"].

Definition TRUSTED_FOR_AUTO_LINK : list string := ["google"; "github"; "microsoft"].

Definition PROVIDERS : list string := ["google"; "github"; "microsoft"].

Record OAuthUserInfo := mkOAuthUserInfo {
  oi_email : string;
  oi_full_name : string;
  oi_provider_user_id : string;
  oi_avatar_url : option string;
  oi_email_verified : bool
}.

Inductive OAuthResolution :=
  | ResolvedUser (user : uuid * UserRow)
  | Collision (existing_user : option (uuid * UserRow)).

(** ** Definitions *)

(** Field updates of a user instance. *)
Definition with_password (hash : option string) (u : UserRow) : UserRow :=
  mkUserRow u.(u_email) u.(u_full_name) u.(u_avatar_url) u.(u_preferred_locale)
    u.(u_preferred_currency) u.(u_phone_prefix) u.(u_phone) u.(u_timezone) u.(u_job_title)
    u.(u_pronouns) u.(u_bio) u.(u_is_verified) u.(u_registration_method)
    u.(u_is_active) hash u.(u_password_changed_at) u.(u_created_at) u.(u_updated_at).
Definition with_password_changed_at (t : datetime) (u : UserRow) : UserRow :=
  mkUserRow u.(u_email) u.(u_full_name) u.(u_avatar_url) u.(u_preferred_locale)
    u.(u_preferred_currency) u.(u_phone_prefix) u.(u_phone) u.(u_timezone) u.(u_job_title)
    u.(u_pronouns) u.(u_bio) u.(u_is_verified) u.(u_registration_method)
    u.(u_is_active) u.(u_password) (Some t) u.(u_created_at) u.(u_updated_at).
Definition with_verified (u : UserRow) : UserRow :=
  mkUserRow u.(u_email) u.(u_full_name) u.(u_avatar_url) u.(u_preferred_locale)
    u.(u_preferred_currency) u.(u_phone_prefix) u.(u_phone) u.(u_timezone) u.(u_job_title)
    u.(u_pronouns) u.(u_bio) true u.(u_registration_method)
    u.(u_is_active) u.(u_password) u.(u_password_changed_at) u.(u_created_at) u.(u_updated_at).
(** [updated_at] is [auto_now]. *)
Definition with_updated_at (t : datetime) (u : UserRow) : UserRow :=
  mkUserRow u.(u_email) u.(u_full_name) u.(u_avatar_url) u.(u_preferred_locale)
    u.(u_preferred_currency) u.(u_phone_prefix) u.(u_phone) u.(u_timezone) u.(u_job_title)
    u.(u_pronouns) u.(u_bio) u.(u_is_verified) u.(u_registration_method)
    u.(u_is_active) u.(u_password) u.(u_password_changed_at) u.(u_created_at) t.

Section AuthViews.
  Context `{DjangoLib} `{AuthBackend} `{Secrets} `{JWT}.

Definition _token_response (user : uuid) (u : UserRow) (refresh_token : string) (http_status : Z) :
    M store response :=
  access ← create_access_token user u;
  mret (TokenPair http_status access refresh_token).

(** A fresh pair for a signed-in user. *)
Definition sign_in (user : uuid) (u : UserRow) (http_status : Z) : M store response :=
  refresh ← create_refresh_token user;
  _token_response user u refresh http_status.

(** The permission [IsAuthenticated]. *)
Definition require_user (auth_header : string) : M store (uuid * UserRow) :=
  u ← authenticate auth_header;
  match u with Some u => mret u | None => raise NotAuthenticated end.

(** *** Registration and e-mail verification *)

Definition is_integrity (e : exn) : bool := match e with IntegrityError _ => true | _ => false end.

Definition _register_user (email password full_name : string) : M store response :=
  registered ← dquery (email_is_registered email);
  if registered : bool then raise EmailAlreadyExists else
  user ← catch (atomic (create_user email (Some password) full_name None false "email"))
           (λ e, raise (if is_integrity e then EmailAlreadyExists else e));
  token ← create_email_verification_token user.1;
  delay (send_verification_email_task_delay user.2.(u_email) token);;
  sign_in user.1 user.2 201.

Definition verify_email (token : string) (password : option string) : M store response :=
  user ← verify_email_token token;
  let usable := has_usable_password user.2 in
  match (if usable then None else Some (or_else password "")) with
  | Some "" => mret (Message 400 "password_required")
  | bind =>
      salt ← uuid4;
      now ← utcnow;
      let set_password u := match bind with
                            | Some p => with_password (Some (make_password salt p)) u
                            | None => u
                            end in
      (if negb usable || negb user.2.(u_is_verified)
       then save_user_fields user.1 (λ u,
              let u := if negb user.2.(u_is_verified) then with_verified u else u in
              with_updated_at now (set_password u))
       else mret tt);;
      sign_in user.1 user.2 200
  end.

Definition resend_verification (email : string) : M store response :=
  user ← dquery (λ d,
    tfind (λ _ u, b_eq (lower u.(u_email)) (lower email) && u.(u_is_active) && negb u.(u_is_verified))
      d.(d_users));
  match user with
  | Some (id, u) =>
      now ← utcnow;
      dexec (λ d, Ok (mark_where EmailVerificationToken
        (λ t, b_eq t.(ot_user) id && is_none t.(ot_used_at)) now d));;
      token ← create_email_verification_token id;
      delay (send_verification_email_task_delay u.(u_email) token)
  | None => mret tt
  end;;
  mret (Message 200 "verification_email_queued").

(** *** Login, refresh, logout *)

Definition login (email password : string) : M store response :=
  user ← dquery (backend_authenticate email password);
  match user with
  | None => raise InvalidCredentials
  | Some (id, u) =>
      if negb u.(u_is_active) then raise AccountDeactivated
      else if negb u.(u_is_verified) then raise InvalidCredentials
      else sign_in id u 200
  end.

Definition refresh_view (refresh_token : string) : M store response :=
  r ← rotate_refresh_token refresh_token;
  _token_response r.1.1 r.1.2 r.2 200.

Definition logout (auth_header refresh_token : string) : M store response :=
  require_user auth_header;;
  revoke_refresh_token refresh_token;;
  mret NoContent.

(** *** Passwords *)

Definition forgot_password (email : string) : M store response :=
  user ← dquery (λ d,
    tfind (λ _ u, b_eq (lower u.(u_email)) (lower email) && u.(u_is_active)) d.(d_users));
  match user with
  | Some (id, u) =>
      token ← create_password_reset_token id;
      delay (send_password_reset_email_task_delay u.(u_email) token)
  | None => mret tt
  end;;
  mret (Message 200 "reset_email_queued").

(** The instance after [set_password] and the stamp, as saved and as signed. *)
Definition reset_user (hash : string) (now : datetime) (u : UserRow) : UserRow :=
  with_updated_at now (with_password_changed_at now (with_password (Some hash) u)).

Definition reset_password (token password : string) : M store response :=
  user ← verify_password_reset_token token;
  salt ← uuid4;
  now ← utcnow;
  let change u :=
    let u := reset_user (make_password salt password) now u in
    if negb user.2.(u_is_verified) then with_verified u else u in
  save_user_fields user.1 change;;
  revoke_all_refresh_tokens user.1;;
  sign_in user.1 (change user.2) 200.

(** The handler, once the caller is authenticated. *)
Definition change_password_of (user : uuid * UserRow) (current_password new_password : string) :
    M store response :=
  if negb match user.2.(u_password) with
          | Some h => check_password_hash current_password h
          | None => false
          end
  then raise InvalidPassword
  else
    salt ← uuid4;
    now ← utcnow;
    let change := reset_user (make_password salt new_password) now in
    save_user_fields user.1 change;;
    revoke_all_refresh_tokens user.1;;
    sign_in user.1 (change user.2) 200.

Definition change_password (auth_header current_password new_password : string) : M store response :=
  user ← require_user auth_header;
  change_password_of user current_password new_password.

(** *** OAuth account resolution *)

Definition social_by_provider (provider provider_user_id : string) (d : db) : option (N * SocialRow) :=
  tfind (λ _ s, b_eq s.(sa_provider) provider && b_eq s.(sa_provider_user_id) provider_user_id)
    d.(d_socials).

(** [SocialAccount.objects.get_or_create(provider, provider_user_id,
    defaults={"user": user})]: after a failed INSERT the row is looked up once
    more. *)
Definition social_get_or_create (provider provider_user_id : string) (user : uuid) : M store unit :=
  existing ← dquery (social_by_provider provider provider_user_id);
  match existing with
  | Some _ => mret tt
  | None =>
      pk ← uuid4;
      catch (dexec (insert_social pk (mkSocialRow user provider provider_user_id)))
        (λ e, if is_integrity e then
                again ← dquery (social_by_provider provider provider_user_id);
                match again with Some _ => mret tt | None => raise e end
              else raise e)
  end.

Definition _link_or_request (provider : string) (user_info : OAuthUserInfo) (existing : uuid * UserRow) :
    M store OAuthResolution :=
  if user_info.(oi_email_verified) && str_in provider TRUSTED_FOR_AUTO_LINK then
    social_get_or_create provider user_info.(oi_provider_user_id) existing.1;;
    mret (ResolvedUser existing)
  else if negb existing.2.(u_is_active) then mret (Collision None)
  else mret (Collision (Some existing)).

Definition resolve_oauth_user (provider : string) (user_info : OAuthUserInfo) :
    M store OAuthResolution :=
  social ← dquery (λ d, s ← social_by_provider provider user_info.(oi_provider_user_id) d;
                        u ← d.(d_users) !! s.2.(sa_user); Some (s.2.(sa_user), u));
  match social with
  | Some user => mret (ResolvedUser user)
  | None =>
      existing ← dquery (user_by_email user_info.(oi_email));
      match existing with
      | Some existing => _link_or_request provider user_info existing
      | None =>
          if negb user_info.(oi_email_verified)
          then raise (OAuthEmailNotVerifiedError
                        ("Provider " ++ provider ++ " did not confirm email ownership."))
          else catch
            (atomic (
               user ← create_user user_info.(oi_email) None user_info.(oi_full_name)
                        user_info.(oi_avatar_url) true provider;
               social_get_or_create provider user_info.(oi_provider_user_id) user.1;;
               mret (ResolvedUser user)))
            (λ e, if is_integrity e then
                    existing ← objects_get (user_by_email user_info.(oi_email)) "User";
                    _link_or_request provider user_info existing
                  else raise e)
      end
  end.

(** *** The OAuth callback and the code exchange *)

Definition _store_oauth_exchange (access_token refresh_token : string) : M store string :=
  code ← fresh_token;
  now ← utcnow;
  exec (λ s, Ok (mkStore s.(s_db)
    (mkCache s.(s_cache).(c_auth)
       (<[code := (access_token, refresh_token, (now + _OAUTH_EXCHANGE_TTL)%Z)]> s.(s_cache).(c_codes))
       s.(s_cache).(c_consumed)) s.(s_media)));;
  mret code.

Definition live {A} (now : datetime) (e : option (A * datetime)) : option A :=
  match e with Some (a, expiry) => if (now <? expiry)%Z then Some a else None | None => None end.

(** [cache.add] of the sentinel, then [get] and [delete]. *)
Definition _consume_oauth_exchange (code : string) : M store (option (string * string)) :=
  now ← utcnow;
  taken ← query (λ s, live now ((λ e, (tt, e)) <$> s.(s_cache).(c_consumed) !! code));
  match taken with
  | Some _ => mret None
  | None =>
      data ← query (λ s, live now (s.(s_cache).(c_codes) !! code));
      exec (λ s, Ok (mkStore s.(s_db)
        (mkCache s.(s_cache).(c_auth) (delete code s.(s_cache).(c_codes))
           (<[code := (now + _OAUTH_EXCHANGE_TTL)%Z]> s.(s_cache).(c_consumed))) s.(s_media)));;
      mret data
  end.

(** The exception handlers around [exchange_code] and [resolve_oauth_user]: the
    error code of the redirect, or [None] for an exception they let through. *)
Definition exchange_error (e : exn) : option string :=
  match e with
  | HTTPError _ | OAuthError _ => Some "exchange_failed"
  | ValueError _ | KeyError _ => Some "provider_error"
  | _ => None
  end.

Definition resolve_error (e : exn) : option string :=
  match e with
  | OAuthEmailNotVerifiedError _ => Some "email_not_verified"
  | ValueError _ => Some "account_deactivated"
  | _ => None
  end.

(** The end of the callback, once the account is resolved. *)
Definition finish_callback (provider : string) (user_info : OAuthUserInfo)
    (resolution : OAuthResolution) : M store redirect :=
  match resolution with
  | Collision existing_user =>
      match existing_user with
      | Some (id, u) =>
          now ← utcnow;
          dexec (λ d, Ok (mark_where SocialLinkRequest
            (λ t, b_eq t.(ot_user) id && is_none t.(ot_used_at)) now d));;
          token ← create_social_link_token id provider user_info.(oi_provider_user_id)
                    user_info.(oi_full_name) user_info.(oi_avatar_url);
          delay (send_social_link_email_task_delay u.(u_email) token provider)
      | None => mret tt
      end;;
      mret RedirectLinkEmailSent
  | ResolvedUser (id, u) =>
      if negb u.(u_is_active) then mret (RedirectError "account_deactivated") else
      refresh ← create_refresh_token id;
      access ← create_access_token id u;
      code ← _store_oauth_exchange access refresh;
      mret (RedirectCallback code)
  end.

(** The query parameters of the callback, the session's [oauth_state] (popped
    whatever happens) and the outcome of [exchange_code]. *)
Definition oauth_callback (provider : string) (code state error expected_state : option string)
    (exchange : outcome OAuthUserInfo) : M store redirect :=
  if negb (str_in provider PROVIDERS) then mret (RedirectError "invalid_provider") else
  let error := or_else error "" in
  if negb (b_eq error "")
  then mret (RedirectError (if str_in error _FORWARDABLE_OAUTH_ERRORS then error else "exchange_failed"))
  else if b_eq (or_else state "") "" || negb (b_eq state expected_state)
  then mret (RedirectError "invalid_state")
  else if b_eq (or_else code "") "" then mret (RedirectError "missing_code")
  else
    match exchange with
    | Raise e =>
        match exchange_error e with Some c => mret (RedirectError c) | None => raise e end
    | Ok user_info =>
        resolution ← catch (r ← resolve_oauth_user provider user_info; mret (Ok r))
          (λ e, match resolve_error e with Some _ => mret (Raise e) | None => raise e end);
        match resolution with
        | Raise e => mret (RedirectError (or_else (resolve_error e) ""))
        | Ok r => finish_callback provider user_info r
        end
    end.

Definition oauth_exchange (code : string) : M store response :=
  data ← _consume_oauth_exchange code;
  match data with
  | Some (access, refresh) => mret (TokenPair 200 access refresh)
  | None => raise InvalidOAuthCode
  end.

Definition oauth_confirm_link (token : string) : M store response :=
  link_request ← verify_social_link_token token;
  let lr := link_request.1 in
  let user := lr.(lr_token).(ot_user) in
  existing ← dquery (social_by_provider lr.(lr_provider) lr.(lr_provider_user_id));
  if match existing with Some (_, s) => negb (b_eq s.(sa_user) user) | None => false end
  then mret (Message 409 "social_account_collision")
  else
    now ← utcnow;
    atomic (
      (if is_none existing
       then social_get_or_create lr.(lr_provider) lr.(lr_provider_user_id) user else mret tt);;
      (if negb link_request.2.(u_is_verified)
       then save_user_fields user (λ u, with_updated_at now (with_verified u)) else mret tt));;
    sign_in user link_request.2 200.

(** *** Clean-up: [_delete_expired_rows] of [apps/users/tasks.py] *)

Definition _EXPIRED_ROW_DELETE_BATCH : nat := 10000.

(** The ids of one batch: the first expired rows. *)
Definition expired_batch {A} (expires_at : A → datetime) (now : datetime) (t : table A) : list N :=
  take _EXPIRED_ROW_DELETE_BATCH (fst <$> rows (tfilter (λ _ a, (expires_at a <? now)%Z) t)).

(** The loop; [fuel] turns, one more than there are rows is enough. *)
Fixpoint delete_expired_rows {A} (fuel : nat) (expires_at : A → datetime) (now : datetime)
    (t : table A) : table A :=
  match fuel with
  | O => t
  | S fuel =>
      let ids := expired_batch expires_at now t in
      match ids with
      | [] => t
      | _ =>
          let t' := tfilter (λ i _, negb (bool_decide (i ∈ ids))) t in
          if (length ids <? _EXPIRED_ROW_DELETE_BATCH)%nat then t'
          else delete_expired_rows fuel expires_at now t'
      end
  end.

Definition _delete_expired_rows {A} (expires_at : A → datetime) (now : datetime) (t : table A) :
    table A :=
  delete_expired_rows (S (size t)) expires_at now t.

Definition cleanup_expired_refresh_tokens : M store unit :=
  now ← utcnow;
  dexec (λ d, Ok (set_refresh (_delete_expired_rows rt_expires_at now d.(d_refresh)) d)).
Definition cleanup_expired_email_verification_tokens : M store unit :=
  now ← utcnow;
  dexec (λ d, Ok (set_verify (_delete_expired_rows ot_expires_at now d.(d_verify)) d)).
Definition cleanup_expired_password_reset_tokens : M store unit :=
  now ← utcnow;
  dexec (λ d, Ok (set_reset (_delete_expired_rows ot_expires_at now d.(d_reset)) d)).
Definition cleanup_expired_social_link_requests : M store unit :=
  now ← utcnow;
  dexec (λ d, Ok (set_links (_delete_expired_rows (λ l, ot_expires_at (lr_token l)) now d.(d_links)) d)).

End AuthViews.
