(* ===== verification/Mail.v ===== *)
(** * Mail

    The mails of [apps/users/email.py], [apps/orgs/email.py], [apps/billing/email.py] and
    [apps/marketing/email.py], [send_email] of [apps/email_transport.py] and the tasks
    that run them.  The state is the list of mails handed to Resend, whose verdict on the
    n-th one is a parameter.  Then: the markup of a mail is that of its template, and a
    cancellation notice is tried for every recipient. *)

From S2P Require Import Prelude PyVal Text Effects Domain Relational Store Django Auth AuthViews.

#[local] Open Scope string_scope.

(** ** Django's [escape] *)

Class HtmlEscape := escape : string → string.

(** The replacements its documentation lists. *)
Definition escape_char (c : ascii) : string :=
  match c with
  | "&"%char => "&amp;"
  | "<"%char => "&lt;"
  | ">"%char => "&gt;"
  | "034"%char => "&quot;"
  | "'"%char => "&#x27;"
  | c => String c ""
  end.

Fixpoint replaced (s : string) : string :=
  match s with "" => "" | String c s => escape_char c ++ replaced s end.
Class HtmlEscapeLaws `{HtmlEscape} : Prop := { escape_replaces : ∀ s, escape s = replaced s }.

(** ** [datetime.isoformat] of an aware UTC time *)

(** [n], in [w] decimal digits. *)
Fixpoint padded (w : nat) (n : Z) : string :=
  match w with
  | O => ""
  | S w => padded w (n / 10) ++ String (ascii_of_N (Z.to_N (48 + n mod 10))) ""
  end.

(** Year, month and day of a day counted from 1970-01-01. *)
Definition civil (day : Z) : Z * Z * Z :=
  let z := (day + 719468)%Z in
  let era := (z / 146097)%Z in
  let doe := (z mod 146097)%Z in
  let yoe := ((doe - doe / 1460 + doe / 36524 - doe / 146096) / 365)%Z in
  let doy := (doe - (365 * yoe + yoe / 4 - yoe / 100))%Z in
  let mp := ((5 * doy + 2) / 153)%Z in
  let m := (if mp <? 10 then mp + 3 else mp - 9)%Z in
  ((yoe + era * 400 + (if m <=? 2 then 1 else 0))%Z, m, (doy - (153 * mp + 2) / 5 + 1)%Z).

Definition isoformat (t : datetime) : string :=
  let secs := (t / 1000000)%Z in
  let us := (t mod 1000000)%Z in
  let '(y, m, d) := civil (secs / 86400) in
  let s := (secs mod 86400)%Z in
  padded 4 y ++ "-" ++ padded 2 m ++ "-" ++ padded 2 d ++ "T" ++ padded 2 (s / 3600) ++ ":" ++
  padded 2 (s / 60 mod 60) ++ ":" ++ padded 2 (s mod 60) ++
  (if (us =? 0)%Z then "" else "." ++ padded 6 us) ++ "+00:00".

(** [str.capitalize]. *)
Definition capitalize (s : string) : string :=
  match s with "" => "" | String c s => String (ascii_upper c) (lower s) end.

(** ** The transport *)

Class MailSettings := {
  FRONTEND_URL : string;
  EMAIL_FROM_ADDRESS : string
}.

Inductive content := Html (html : string) | Plain (text : string).
Record mail := mkMail { ml_from : string; ml_to : list string; ml_subject : string; ml_content : content }.

(** [resend.Emails.send] of the n-th mail, and [ResendError]. *)
Class Resend := {
  resend_send : nat → mail → outcome unit;
  is_resend_error : exn → bool
}.

Abbreviation outbox := (list mail).

Section Mail.
  Context `{MailSettings} `{Resend} `{HtmlEscape}.

Definition emails_send (m : mail) : M outbox unit :=
  n ← query length;
  exec (λ sent, Ok (sent ++ [m])%list);;
  lift (resend_send n m).

Definition send_email (to subject : string) (html text : option string) : M outbox unit :=
  if Bool.eqb (is_none html) (is_none text)
  then raise (ValueError "send_email requires exactly one of `html` or `text`")
  else match html with
       | Some h => emails_send (mkMail EMAIL_FROM_ADDRESS [to] subject (Html h))
       | None => emails_send (mkMail EMAIL_FROM_ADDRESS [to] subject (Plain (or_else text "")))
       end.

(** ** The mails *)

(** A double quote, and a line break. *)
Definition dq : string := String "034"%char "".
Definition nl : string := String "010"%char "".

(** [<a href=...>text</a>] with the link in double quotes. *)
Definition anchor (link text : string) : string :=
  "<p><a href=" ++ dq ++ link ++ dq ++ ">" ++ text ++ "</a></p>".

Definition verification_html (token : string) : string :=
  "<p>Welcome to SaasMint! Click the link below to verify your email:</p>" ++
  anchor (FRONTEND_URL ++ "/verify-email?token=" ++ token) "Verify Email" ++
  "<p>This link expires in 24 hours.</p>".

Definition send_verification_email (email token : string) : M outbox unit :=
  send_email email "Verify your email address" (Some (verification_html token)) None.

(** [int(lifetime.total_seconds()) // 60]. *)
Definition lifetime_minutes (lifetime : Z) : Z := (lifetime / 1000000 / 60)%Z.

Definition password_reset_html (token : string) : string :=
  "<p>You requested a password reset. Click the link below:</p>" ++
  anchor (FRONTEND_URL ++ "/reset-password?token=" ++ token) "Reset Password" ++
  "<p>This link expires in " ++ pretty (lifetime_minutes PASSWORD_RESET_LIFETIME) ++
  " minutes. If you didn't request this, ignore this email.</p>".

Definition send_password_reset_email (email token : string) : M outbox unit :=
  send_email email "Reset your password" (Some (password_reset_html token)) None.

Definition social_link_html (token provider : string) : string :=
  let name := capitalize provider in
  "<p>Someone — most likely you — tried to sign in with " ++ name ++
  " using this email address. Click the link below to confirm and link your " ++ name ++
  " account to your SaasMint account:</p>" ++
  anchor (FRONTEND_URL ++ "/auth/confirm-link?token=" ++ token) "Confirm linking" ++
  "<p>This link expires in " ++ pretty (lifetime_minutes SOCIAL_LINK_LIFETIME) ++
  " minutes. If you didn't try to link a " ++ name ++
  " account, ignore this email — your account is unchanged.</p>".

Definition send_social_link_email (email token provider : string) : M outbox unit :=
  send_email email ("Confirm linking your " ++ capitalize provider ++ " account")
    (Some (social_link_html token provider)) None.

Definition invitation_html (token org_name inviter_name : string) : string :=
  "<p>" ++ escape inviter_name ++ " has invited you to join <strong>" ++ escape org_name ++
  "</strong> on SaasMint.</p>" ++
  anchor (FRONTEND_URL ++ "/invitations/" ++ token) "Accept Invitation" ++
  "<p>This invitation expires in 7 days.</p>".

Definition send_invitation_email (email token org_name inviter_name : string) : M outbox unit :=
  send_email email ("You've been invited to join " ++ org_name)
    (Some (invitation_html token org_name inviter_name)) None.

Definition cancel_scheduled_html (subscription_label : string) : string :=
  "<p>The subscription for <strong>" ++ escape subscription_label ++
  "</strong> has been scheduled to cancel at the end of the current billing period.</p>" ++
  "<p>You can resume it before the period ends from your billing settings.</p>".

Definition send_subscription_cancel_scheduled (email subscription_label : string) : M outbox unit :=
  send_email email "Your subscription is scheduled to cancel" (Some (cancel_scheduled_html subscription_label)) None.

Definition cancel_resumed_html (subscription_label : string) : string :=
  "<p>The scheduled cancellation for <strong>" ++ escape subscription_label ++
  "</strong> has been cleared. The subscription will continue to renew.</p>".

Definition send_subscription_cancel_resumed (email subscription_label : string) : M outbox unit :=
  send_email email "Your subscription cancellation was reverted" (Some (cancel_resumed_html subscription_label)) None.

Definition inquiry_text (source sender message : string) (now : datetime) : string :=
  "Source: " ++ source ++ nl ++ "From:   " ++ sender ++ nl ++ "At:     " ++ isoformat now ++ nl ++ nl ++
  (if b_eq message "" then "(no message)" else message) ++ nl.

Definition send_marketing_inquiry_email (to source sender message : string) : M outbox unit :=
  now ← utcnow;
  send_email to ("[SaaSmint] " ++ source ++ ": " ++ sender) None (Some (inquiry_text source sender message now)).

(** ** The tasks *)

(** [except (ResendError, httpx.HTTPError)]. *)
Definition is_mail_error (e : exn) : bool :=
  is_resend_error e || match e with HTTPError _ => true | _ => false end.

Definition send_subscription_cancel_notice_task (emails : list string) (subscription_label action : string) :
    M outbox unit :=
  let sender := if b_eq action "scheduled" then send_subscription_cancel_scheduled
                else send_subscription_cancel_resumed in
  for_each (λ email, catch (sender email subscription_label)
    (λ e, if is_mail_error e then mret tt else raise e)) emails.

(** The task of the queue, when it is a mail's. *)
Definition mail_task (t : task) : option (M outbox unit) :=
  match t with
  | send_verification_email_task_delay email token => Some (send_verification_email email token)
  | send_password_reset_email_task_delay email token => Some (send_password_reset_email email token)
  | send_social_link_email_task_delay email token provider => Some (send_social_link_email email token provider)
  | send_invitation_email_task_delay email token org inviter => Some (send_invitation_email email token org inviter)
  | send_subscription_cancel_notice_task_delay emails label action =>
      Some (send_subscription_cancel_notice_task emails label action)
  | send_marketing_inquiry_email_task_delay to source sender message =>
      Some (send_marketing_inquiry_email to source sender message)
  | process_stripe_webhook_delay _ | delete_org_on_subscription_cancel_task_delay _
  | cancel_stripe_subs_task_delay _ _ => None
  end.

End Mail.

Example isoformat_leap : isoformat 951782400000001 = "2000-02-29T00:00:00.000001+00:00".
Proof. vm_compute. reflexivity. Qed.
Example isoformat_late : isoformat 1700000000000000 = "2023-11-14T22:13:20+00:00".
Proof. vm_compute. reflexivity. Qed.

(** ** Markup *)

Definition is_markup (c : ascii) : bool :=
  match c with "<"%char | ">"%char | "034"%char | "'"%char => true | _ => false end.
(** The characters of a text that are markup to a mail reader, in their order. *)
Definition markup (s : string) : list ascii := base.filter (λ c, is_markup c = true) (list_ascii_of_string s).

(** What a reader shows of a text. *)
Definition entities : list (list ascii * ascii) :=
  map (λ e, (list_ascii_of_string e.1, e.2))
    [("&amp;", "&"%char); ("&lt;", "<"%char); ("&gt;", ">"%char); ("&quot;", "034"%char); ("&#x27;", "'"%char)].
Fixpoint shown_text (skip : nat) (l : list ascii) : list ascii :=
  match l with
  | [] => []
  | c :: l' =>
      match skip with
      | S skip => shown_text skip l'
      | O =>
          match find (λ e, is_prefix e.1 l) entities with
          | Some e => e.2 :: shown_text (pred (length e.1)) l'
          | None => c :: shown_text 0 l'
          end
      end
  end.

Lemma markup_app s t : markup (s ++ t) = (markup s ++ markup t)%list.
Proof. unfold markup. rewrite chars_app. apply filter_app. Qed.

Lemma markup_escape `{HtmlEscapeLaws} s : markup (escape s) = [].
Proof.
  rewrite escape_replaces. induction s as [|c s IH]; [done|]. cbn [replaced]. rewrite markup_app, IH, app_nil_r.
  by destruct c as [[] [] [] [] [] [] [] []].
Qed.

Ltac no_ampersand := apply (bool_decide_eq_true_1 (_ ∉ _)); vm_compute; reflexivity.

Abbreviation chars_of := list_ascii_of_string (only parsing).

(** A text without an ampersand is shown as it is, an escaped one as it was before. *)
Lemma shown_plain s rest :
  "&"%char ∉ chars_of s → shown_text 0 (chars_of s ++ rest) = (chars_of s ++ shown_text 0 rest)%list.
Proof.
  induction s as [|c s IH]; [done|]. cbn [list_ascii_of_string]. intros [Hc Hs]%not_elem_of_cons.
  rewrite <- app_comm_cons. transitivity (c :: shown_text 0 (chars_of s ++ rest)); [|by rewrite IH].
  cbn [shown_text]. assert (find (λ e, is_prefix e.1 (c :: chars_of s ++ rest)) entities = None) as ->; [|done].
  assert (b_eq "&"%char c = false) as Hb by by apply b_eq_false. by cbn; rewrite Hb.
Qed.

Lemma shown_escape `{HtmlEscapeLaws} s rest :
  shown_text 0 (chars_of (escape s) ++ rest) = (chars_of s ++ shown_text 0 rest)%list.
Proof.
  rewrite escape_replaces. induction s as [|c s IH]; [done|]. cbn [replaced list_ascii_of_string].
  rewrite chars_app, <- app_assoc.
  transitivity (c :: shown_text 0 (chars_of (replaced s) ++ rest)); [|by rewrite IH].
  by destruct c as [[] [] [] [] [] [] [] []].
Qed.

(** ** What a task sends *)

Section Facts.
  Context `{MailSettings} `{Resend} `{HtmlEscape}.
  Implicit Types w : world outbox.

Lemma emails_send_run m w :
  emails_send m w = (resend_send (length (w_db w)) m, set_db (w_db w ++ [m])%list w).
Proof. done. Qed.

Definition recipients (t : task) : list string :=
  match t with
  | send_verification_email_task_delay email _ | send_password_reset_email_task_delay email _
  | send_social_link_email_task_delay email _ _ | send_invitation_email_task_delay email _ _ _ => [email]
  | send_subscription_cancel_notice_task_delay emails _ _ => emails
  | send_marketing_inquiry_email_task_delay to _ _ _ => [to]
  | _ => []
  end.

(** The mail of a task without a token and without the texts users chose. *)
Definition template (t : task) : string :=
  match t with
  | send_verification_email_task_delay _ _ => verification_html ""
  | send_password_reset_email_task_delay _ _ => password_reset_html ""
  | send_social_link_email_task_delay _ _ _ => social_link_html "" ""
  | send_invitation_email_task_delay _ _ _ _ => invitation_html "" "" ""
  | send_subscription_cancel_notice_task_delay _ _ action =>
      if b_eq action "scheduled" then cancel_scheduled_html "" else cancel_resumed_html ""
  | _ => ""
  end.

(** The token and the provider of a task are what the app puts there. *)
Definition clean (t : task) : Prop :=
  match t with
  | send_verification_email_task_delay _ token | send_password_reset_email_task_delay _ token
  | send_invitation_email_task_delay _ token _ _ => markup token = []
  | send_social_link_email_task_delay _ token provider => markup token = [] ∧ str_in provider PROVIDERS = true
  | _ => True
  end.

(** [h] is shown to its reader as [text]. *)
Definition shown_as (h text : string) : Prop := shown_text 0 (chars_of h) = chars_of text.

(** The mail contains the link. *)
Definition links (path token h : string) : Prop := ∃ before after, h = before ++ FRONTEND_URL ++ path ++ token ++ after.

(** What the mail of a task says: the texts of users as they wrote them, and the link with
    the task's token. *)
Definition says (t : task) (m : mail) : Prop :=
  match t, ml_content m with
  | send_verification_email_task_delay _ token, Html h =>
      links "/verify-email?token=" token h
  | send_password_reset_email_task_delay _ token, Html h =>
      links "/reset-password?token=" token h
  | send_social_link_email_task_delay _ token _, Html h =>
      links "/auth/confirm-link?token=" token h
  | send_invitation_email_task_delay _ token org_name inviter_name, Html h =>
      ∃ greeting after,
        h = greeting ++ "<p><a href=" ++ dq ++ FRONTEND_URL ++ "/invitations/" ++ token ++ dq ++ after ∧
        shown_as greeting ("<p>" ++ inviter_name ++ " has invited you to join <strong>" ++ org_name ++
                           "</strong> on SaasMint.</p>")
  | send_subscription_cancel_notice_task_delay _ label action, Html h =>
      shown_as h
        (if b_eq action "scheduled"
         then "<p>The subscription for <strong>" ++ label ++
              "</strong> has been scheduled to cancel at the end of the current billing period.</p>" ++
              "<p>You can resume it before the period ends from your billing settings.</p>"
         else "<p>The scheduled cancellation for <strong>" ++ label ++
              "</strong> has been cleared. The subscription will continue to renew.</p>")
  | send_marketing_inquiry_email_task_delay _ source sender message, Plain text =>
      ∃ now, text = "Source: " ++ source ++ nl ++ "From:   " ++ sender ++ nl ++ "At:     " ++ isoformat now ++ nl ++
        nl ++ (if b_eq message "" then "(no message)" else message) ++ nl
  | _, _ => False
  end.

Definition proper_mail (t : task) (m : mail) : Prop :=
  says t m ∧
  ml_from m = EMAIL_FROM_ADDRESS ∧ (∃ r, ml_to m = [r] ∧ r ∈ recipients t) ∧
  match ml_content m with Html h => markup h = markup (template t) | Plain _ => template t = "" end.

Lemma sent_one t to subject html m w :
  m = mkMail EMAIL_FROM_ADDRESS [to] subject html → to ∈ recipients t → says t m →
  match html with Html h => markup h = markup (template t) | Plain _ => template t = "" end →
  ∃ new, w_db (emails_send m w).2 = (w_db w ++ new)%list ∧ Forall (proper_mail t) new.
Proof.
  intros -> Hto Hs Hh. rewrite emails_send_run. eexists. split; [done|]. constructor; [|constructor].
  split; [done|]. split; [done|]. split; [by exists to|done].
Qed.

(** The mails of a notice. *)
Definition notice (label action to : string) : mail :=
  if b_eq action "scheduled"
  then mkMail EMAIL_FROM_ADDRESS [to] "Your subscription is scheduled to cancel" (Html (cancel_scheduled_html label))
  else mkMail EMAIL_FROM_ADDRESS [to] "Your subscription cancellation was reverted" (Html (cancel_resumed_html label)).

Lemma notice_task_cons label action to emails w :
  send_subscription_cancel_notice_task (to :: emails) label action w =
  let m := notice label action to in
  let w1 := set_db (w_db w ++ [m])%list w in
  match resend_send (length (w_db w)) m with
  | Ok _ => send_subscription_cancel_notice_task emails label action w1
  | Raise e => if is_mail_error e then send_subscription_cancel_notice_task emails label action w1 else (Raise e, w1)
  end.
Proof.
  unfold send_subscription_cancel_notice_task, notice. cbn [for_each]. rewrite bind_run. unfold catch.
  destruct (b_eq action "scheduled"); cbn [send_subscription_cancel_scheduled send_subscription_cancel_resumed send_email is_none Bool.eqb];
    unfold send_subscription_cancel_scheduled, send_subscription_cancel_resumed, send_email; cbn [is_none Bool.eqb];
    rewrite emails_send_run; destruct (resend_send _ _) as [[]|e]; try done; by destruct (is_mail_error e).
Qed.

Lemma notice_run emails label action w :
  let mails := notice label action <$> emails in
  match send_subscription_cancel_notice_task emails label action w with
  | (Ok _, w') => w' = set_db (w_db w ++ mails)%list w
  | (Raise e, w') =>
      is_mail_error e = false ∧
      ∃ before m after, mails = (before ++ m :: after)%list ∧ w' = set_db (w_db w ++ before ++ [m])%list w ∧
        resend_send (length (w_db w) + length before) m = Raise e
  end.
Proof.
  revert w. induction emails as [|to emails IH]; intros w; [by destruct w; cbn; rewrite app_nil_r|].
  rewrite notice_task_cons. cbn [fmap list_fmap]. cbv zeta. set (m := notice label action to).
  set (w1 := set_db _ w). specialize (IH w1). cbv zeta in IH.
  assert (∀ r, (r = send_subscription_cancel_notice_task emails label action w1) →
    match r with
    | (Ok _, w') => w' = set_db (w_db w ++ m :: (notice label action <$> emails))%list w
    | (Raise e, w') => is_mail_error e = false ∧
        ∃ before m' after, (m :: (notice label action <$> emails) = before ++ m' :: after)%list ∧
          w' = set_db (w_db w ++ before ++ [m'])%list w ∧ resend_send (length (w_db w) + length before) m' = Raise e
    end) as Hrest.
  { intros r ->. destruct (send_subscription_cancel_notice_task emails label action w1) as [[u|e] w'].
    - rewrite IH. subst w1. cbn. by rewrite <- app_assoc.
    - destruct IH as (He & before & m' & after & Hm & Hw & Hs). split; [done|]. exists (m :: before), m', after.
      rewrite Hm, Hw. subst w1. cbn. rewrite <- app_assoc. split_and!; [done|done|]. rewrite <- Hs. cbn. rewrite length_app. cbn. f_equal. lia. }
  destruct (resend_send (length (w_db w)) m) as [u|e] eqn:Hs; [by apply Hrest|].
  destruct (is_mail_error e) eqn:He; [by apply Hrest|]. split; [done|]. exists [], m, (notice label action <$> emails).
  cbn. rewrite Nat.add_0_r. by split_and!.
Qed.

(** Resend's errors and the failures of its transport. *)
Definition refusal (e : exn) : Prop := is_resend_error e = true ∨ ∃ msg, e = HTTPError msg.

Lemma refusal_is_mail_error e : is_mail_error e = false ↔ ¬ refusal e.
Proof.
  unfold is_mail_error, refusal. rewrite orb_false_iff, <- not_true_iff_false. split.
  - intros [Hr Hh] [Hr2|[msg ->]]; [done|discriminate Hh].
  - intros Hn. split; [by intros Hr; apply Hn; left|]. destruct e; try done. destruct Hn. right. by eexists.
Qed.

(** C39. A cancellation notice is tried for every recipient, once and in order: what
    Resend or the network refuses holds no later recipient back. Only another exception
    ends the task, at the recipient it struck. *)
Theorem notice_reaches_everyone emails label action w :
  let mails := notice label action <$> emails in
  match send_subscription_cancel_notice_task emails label action w with
  | (Ok _, w') => w' = set_db (w_db w ++ mails)%list w
  | (Raise e, w') =>
      ¬ refusal e ∧
      ∃ before m after, mails = (before ++ m :: after)%list ∧ w' = set_db (w_db w ++ before ++ [m])%list w ∧
        resend_send (length (w_db w) + length before) m = Raise e
  end.
Proof.
  intros mails. pose proof (notice_run emails label action w) as Hn.
  destruct (send_subscription_cancel_notice_task emails label action w) as [[u|e] w']; [exact Hn|].
  by rewrite <- refusal_is_mail_error.
Qed.

Lemma markup_anchor link text : markup (anchor link text) =
  (markup ("<p><a href=" ++ dq) ++ markup link ++ markup (dq ++ ">") ++ markup text ++ markup "</a></p>")%list.
Proof. unfold anchor. by rewrite !markup_app, !app_assoc. Qed.

Lemma markup_provider provider : str_in provider PROVIDERS = true → markup (capitalize provider) = [].
Proof.
  intros Hp%str_in_true. assert (Forall (λ p, markup (capitalize p) = []) PROVIDERS) as Hall by (repeat constructor).
  rewrite Forall_forall in Hall. by apply Hall.
Qed.

Lemma text_eq (a b : string) : chars_of a = chars_of b → a = b.
Proof. intros H'. rewrite <- (string_of_list_ascii_of_string a), H'. apply string_of_list_ascii_of_string. Qed.

Lemma links_anchor path token text after : links path token (anchor (FRONTEND_URL ++ path ++ token) text ++ after).
Proof.
  exists ("<p><a href=" ++ dq), (dq ++ ">" ++ text ++ "</a></p>" ++ after). apply text_eq. unfold anchor.
  by rewrite !chars_app, <- !app_assoc.
Qed.

Lemma links_after path token a h : links path token h → links path token (a ++ h).
Proof.
  intros (before & after & ->). exists (a ++ before), after. apply text_eq. by rewrite !chars_app, <- !app_assoc.
Qed.

(** What the two kinds of user text look like to a reader. *)
Lemma invitation_shown `{!HtmlEscapeLaws} org_name inviter_name :
  shown_as ("<p>" ++ escape inviter_name ++ " has invited you to join <strong>" ++ escape org_name ++
            "</strong> on SaasMint.</p>")
    ("<p>" ++ inviter_name ++ " has invited you to join <strong>" ++ org_name ++ "</strong> on SaasMint.</p>").
Proof.
  unfold shown_as. rewrite !chars_app, shown_plain by no_ampersand. rewrite shown_escape.
  rewrite shown_plain by no_ampersand. rewrite shown_escape. done.
Qed.

Lemma append_assoc (a b c : string) : (a ++ b) ++ c = a ++ b ++ c.
Proof. apply text_eq. by rewrite !chars_app, app_assoc. Qed.

Lemma invitation_says `{!HtmlEscapeLaws} email token org_name inviter_name to subject :
  says (send_invitation_email_task_delay email token org_name inviter_name)
    (mkMail EMAIL_FROM_ADDRESS to subject (Html (invitation_html token org_name inviter_name))).
Proof.
  exists ("<p>" ++ escape inviter_name ++ " has invited you to join <strong>" ++ escape org_name ++
          "</strong> on SaasMint.</p>"), (">" ++ "Accept Invitation" ++ "</a></p>" ++ "<p>This invitation expires in 7 days.</p>").
  split; [|apply invitation_shown]. unfold invitation_html, anchor. by rewrite !append_assoc.
Qed.

Lemma notice_shown `{!HtmlEscapeLaws} before label after :
  "&"%char ∉ chars_of before → "&"%char ∉ chars_of after →
  shown_as (before ++ escape label ++ after) (before ++ label ++ after).
Proof.
  intros Hb Ha. unfold shown_as. rewrite !chars_app, shown_plain, shown_escape by done.
  rewrite <- (app_nil_r (chars_of after)) at 1. rewrite shown_plain by done. cbn. by rewrite app_nil_r.
Qed.

(** C38. Whatever names, labels and messages users chose, a mail task writes to its
    recipients only, one at a time, the markup of each mail is that of the template, so that
    no text of a user opens a tag, closes one or leaves an attribute, and the mail is shown
    with those texts as they were written, where the template has them. *)
Theorem mail_markup_is_the_templates `{!HtmlEscapeLaws} t run w :
  mail_task t = Some run → clean t →
  ∃ new, w_db (run w).2 = (w_db w ++ new)%list ∧ Forall (proper_mail t) new.
Proof.
  intros Ht Hc.
  destruct t as [| | |email token|email token|email token provider|email token org inviter|emails label action|to source sender message];
    try done; injection Ht as <-; cbn [clean] in Hc.
  - eapply sent_one; [reflexivity|by left| |].
    + apply links_after, links_anchor.
    + cbn [template]. unfold verification_html. by rewrite !markup_app, !markup_anchor, !markup_app, Hc.
  - eapply sent_one; [reflexivity|by left| |].
    + apply links_after, links_anchor.
    + cbn [template]. unfold password_reset_html. by rewrite !markup_app, !markup_anchor, !markup_app, Hc.
  - destruct Hc as [Htok Hp%markup_provider]. eapply sent_one; [reflexivity|by left| |].
    + cbn [says ml_content]. unfold social_link_html. cbv zeta. do 5 apply links_after. apply links_anchor.
    + cbn [template]. unfold social_link_html. by rewrite !markup_app, !markup_anchor, !markup_app, Htok, Hp.
  - eapply sent_one; [reflexivity|by left| |].
    + apply invitation_says.
    + cbn [template]. unfold invitation_html. by rewrite !markup_app, !markup_anchor, !markup_app, !markup_escape, Hc.
  - pose proof (notice_run emails label action w) as Hn. cbv zeta in Hn.
    assert (Forall (proper_mail (send_subscription_cancel_notice_task_delay emails label action)) (notice label action <$> emails)) as Hall.
    { apply Forall_fmap, Forall_forall. intros to Hto. unfold proper_mail, notice. cbn [template recipients says].
      destruct (b_eq action "scheduled"); (split; [|split; [done|split; [by exists to|]]]); cbn [ml_content];
        unfold cancel_scheduled_html, cancel_resumed_html;
        try (apply notice_shown; no_ampersand); by rewrite !markup_app, !markup_escape. }
    destruct (send_subscription_cancel_notice_task emails label action w) as [[u|e] w'].
    + exists (notice label action <$> emails). by rewrite Hn.
    + destruct Hn as (_ & before & m & after & Hm & -> & _). exists (before ++ [m])%list. split; [done|].
      rewrite Hm in Hall. apply Forall_app in Hall as [Hb Ha]. apply Forall_app. split; [done|].
      apply Forall_cons in Ha as [Hm' _]. by constructor.
  - cbn [send_marketing_inquiry_email]. unfold send_marketing_inquiry_email. rewrite bind_run. cbn [utcnow].
    eapply sent_one; [reflexivity|by left|by eexists|done].
Qed.
End Facts.
