(* ===== verification/Currency.v ===== *)
(** * Display currencies

    [core/saasmint_core/services/currency.py]: the currencies the catalogue is
    displayed in and the two conversions to display amounts.  Python's floats are
    IEEE 754 binary64 numbers rounded to nearest even: the executable
    [spec_float] of the standard library at precision 53. *)

From Stdlib Require Import SpecFloat.
From S2P Require Import Prelude PyVal.

#[local] Open Scope string_scope.

(** ** Floats *)

Definition float_of_Z (z : Z) : spec_float := binary_normalize 53 1024 z 0 false.
Definition fdiv : spec_float → spec_float → spec_float := SFdiv 53 1024.
Definition fsub : spec_float → spec_float → spec_float := SFsub 53 1024.
Definition fadd : spec_float → spec_float → spec_float := SFadd 53 1024.

(** The literal [n/100]. *)
Definition cents (n : Z) : spec_float := fdiv (float_of_Z n) (float_of_Z 100).

(** [int(x)], truncation towards zero. *)
Definition float_trunc (x : spec_float) : outcome Z :=
  match x with
  | S754_zero _ => Ok 0%Z
  | S754_finite s m e =>
      let v := if (0 <=? e)%Z then Z.shiftl (Zpos m) e else Z.shiftr (Zpos m) (- e) in
      Ok (if s then (- v)%Z else v)
  | S754_infinity _ => Raise (ArithmeticError "OverflowError" "cannot convert float infinity to integer")
  | S754_nan => Raise (ValueError "cannot convert float NaN to integer")
  end.

(** [round(x)], to the nearest integer and to even on a tie. *)
Definition float_round (x : spec_float) : outcome Z :=
  match x with
  | S754_finite s m e =>
      if (0 <=? e)%Z then float_trunc x else
      let q := Z.shiftr (Zpos m) (- e) in
      let r := (Zpos m - Z.shiftl q (- e))%Z in
      let half := Z.shiftl 1 (- e - 1) in
      let v := if (r <? half)%Z || ((r =? half)%Z && Z.even q) then q else (q + 1)%Z in
      Ok (if s then (- v)%Z else v)
  | _ => float_trunc x
  end.

(** ** Definitions *)

Definition SUPPORTED_CURRENCIES : list string :=
  ["usd"; "eur"; "gbp"; "jpy"; "brl"; "krw"; "sek"; "nok"; "dkk"; "pln"; "try"; "idr"; "rub"; "cny";
   "twd"; "sar"; "aed"; "chf"; "cad"; "aud"].

Definition ZERO_DECIMAL_CURRENCIES : list string := ["jpy"; "krw"; "idr"; "twd"].

Definition format_amount (amount : Z) (currency : string) : spec_float :=
  if str_in (lower currency) ZERO_DECIMAL_CURRENCIES then float_of_Z amount
  else fdiv (float_of_Z amount) (float_of_Z 100).

(** [min(options, key=lambda o: abs(o - amount))]: the first of the nearest. *)
Definition nearest (amount x : spec_float) (options : list spec_float) : spec_float :=
  foldl (λ best o, if SFltb (SFabs (fsub o amount)) (SFabs (fsub best amount)) then o else best) x options.

Definition round_friendly (amount : spec_float) (currency : string) : outcome spec_float :=
  if SFleb amount (float_of_Z 0) then Ok (float_of_Z 0) else
  if str_in (lower currency) ZERO_DECIMAL_CURRENCIES then
    let step := (if SFleb (float_of_Z 1000) amount then 100 else 10)%Z in
    n ← float_round (fdiv amount (float_of_Z step));
    Ok (float_of_Z (n * step))
  else
    n ← float_trunc amount;
    let whole := float_of_Z n in
    Ok (nearest amount (fsub whole (cents 1)) [fadd whole (cents 49); fadd whole (cents 99); fadd whole (cents 149)]).

(** ** Examples *)

Example round_friendly_band : round_friendly (cents 1723) "eur" = Ok (cents 1699).
Proof. reflexivity. Qed.
Example round_friendly_down : round_friendly (cents 455) "eur" = Ok (cents 449).
Proof. reflexivity. Qed.
Example round_friendly_up : round_friendly (cents 1977) "gbp" = Ok (cents 1999).
Proof. reflexivity. Qed.
Example round_friendly_yen : round_friendly (float_of_Z 1450) "jpy" = Ok (float_of_Z 1400).
Proof. reflexivity. Qed.

(** ** Behaviour *)

Definition sf_eqb (x y : spec_float) : bool :=
  match x, y with
  | S754_finite s m e, S754_finite s' m' e' => eqb s s' && Pos.eqb m m' && Z.eqb e e'
  | _, _ => false
  end.

Lemma sf_eqb_true x y : sf_eqb x y = true → x = y.
Proof.
  destruct x as [| | |s m e], y as [| | |s' m' e']; simpl; try discriminate.
  rewrite !andb_true_iff. intros [[Hs Hm] He].
  apply eqb_prop in Hs. apply Pos.eqb_eq in Hm. apply Z.eqb_eq in He. by subst.
Qed.

(** The charm prices nearest to [n] cents: the amounts ending in 49 or 99; two of
    them are equally near when [n] ends in 24 or 74. *)
Definition charm_prices (n : Z) : list Z :=
  let r := (n mod 50)%Z in
  if (r <? 24)%Z then [n - r - 1]%Z else if (r =? 24)%Z then [n - 25; n + 25]%Z else [n - r + 49]%Z.

Definition rounds_to_charm (n : Z) : bool :=
  match round_friendly (cents n) "usd" with
  | Ok x => existsb (λ k, sf_eqb x (cents k)) (charm_prices n)
  | Raise _ => false
  end.

Fixpoint from_to (n : Z) (k : nat) : list Z :=
  match k with O => [] | S k => n :: from_to (n + 1) k end.

Lemma from_to_spec k : ∀ n x, (n ≤ x < n + Z.of_nat k)%Z → In x (from_to n k).
Proof.
  induction k as [|k IH]; intros n x Hx; [lia|].
  destruct (decide (n = x)) as [->|]; [by left|right]. apply IH. lia.
Qed.

(** Up to one unit of a two-decimal currency the float computation finds a
    nearest charm price: it is off by at most 25 cents and no rounding error shows. *)
Lemma round_friendly_charm (n : Z) :
  (1 ≤ n ≤ 100)%Z → ∃ k, k ∈ charm_prices n ∧ round_friendly (cents n) "usd" = Ok (cents k).
Proof.
  intros Hn. assert (H : forallb rounds_to_charm (from_to 1 100) = true) by (vm_compute; reflexivity).
  rewrite forallb_forall in H. specialize (H n (from_to_spec 100 1 n ltac:(lia))).
  unfold rounds_to_charm in H. destruct (round_friendly _ _) as [x|]; [|done].
  apply existsb_exists in H as (k & Hk & Heq). exists k. split; [by apply list_elem_of_In|].
  by apply sf_eqb_true in Heq as ->.
Qed.

(** A positive amount below 24 cents is displayed as a negative price. *)
Lemma round_friendly_negative (n : Z) :
  (1 ≤ n < 24)%Z → round_friendly (cents n) "usd" = Ok (cents (-1)) ∧ SFltb (cents (-1)) (float_of_Z 0) = true.
Proof.
  intros Hn. split; [|reflexivity].
  destruct (round_friendly_charm n) as (k & Hk & ->); [lia|].
  revert Hk. unfold charm_prices. rewrite Z.mod_small by lia.
  destruct (Z.ltb_spec n 24); [|lia]. rewrite list_elem_of_singleton. intros ->. f_equal. f_equal. lia.
Qed.
