(* ===== verification/RedirectUrls.v ===== *)
(** * Redirect URLs

    [_validate_redirect_url] of [apps/billing/serializers.py]: the URLs Stripe may
    send the customer back to.  The parts of [urllib.parse] it uses are modelled
    on ASCII text. *)

From S2P Require Import Prelude PyVal Text Fields.

#[local] Open Scope string_scope.

(** ** [urllib.parse.urlparse] *)

Definition code_between (a b : N) (c : ascii) : bool := ((a <=? N_of_ascii c) && (N_of_ascii c <=? b))%N.
Definition is_alpha (c : ascii) : bool := code_between 65 90 c || code_between 97 122 c.
Definition is_scheme_char (c : ascii) : bool :=
  is_alpha c || code_between 48 57 c || bool_decide (c ∈ ["+"%char; "-"%char; "."%char]).

(** C0 control characters and space are stripped on the left; tabs and newlines
    are removed everywhere. *)
Fixpoint lstrip_controls (l : chars) : chars :=
  match l with
  | [] => []
  | c :: l' => if (N_of_ascii c <=? 32)%N then lstrip_controls l' else l
  end.
Definition unsafe_byte (c : ascii) : bool := bool_decide (N_of_ascii c ∈ [9; 10; 13]%N).
Definition clean (l : chars) : chars := base.filter (λ c, unsafe_byte c = false) (lstrip_controls l).

Record SplitResult := mkSplitResult {
  sr_scheme : string;
  sr_netloc : chars
}.

(** The validation of a bracketed host, by [ipaddress]. *)
Class IPLiterals := bracketed_netloc_ok : chars → bool.

Definition split_scheme (url : chars) : string * chars :=
  match partition ":"%char url with
  | (c :: s, true, rest) =>
      if is_alpha c && forallb is_scheme_char (c :: s) then (lower (string_of_list_ascii (c :: s)), rest)
      else ("", url)
  | _ => ("", url)
  end.

Definition has_char (c : ascii) (l : chars) : bool := bool_decide (c ∈ l).

Definition urlsplit `{IPLiterals} (url : string) : outcome SplitResult :=
  let '(scheme, rest) := split_scheme (clean (list_ascii_of_string url)) in
  let netloc := if is_prefix ["/"%char; "/"%char] rest
                then until ["/"%char; "?"%char; "#"%char] (drop 2 rest) else [] in
  if negb (eqb (has_char "["%char netloc) (has_char "]"%char netloc)) then Raise (ValueError "Invalid IPv6 URL")
  else if has_char "["%char netloc && negb (bracketed_netloc_ok netloc) then Raise (ValueError "Invalid IPv6 URL")
  else Ok (mkSplitResult scheme netloc).

(** [SplitResult.hostname or ""]: no user information, no port, lower-cased up to
    an IPv6 zone. *)
Definition hostname (r : SplitResult) : string :=
  let hostinfo := after_last "@"%char r.(sr_netloc) in
  let host := match partition "["%char hostinfo with
              | (_, true, bracketed) => (partition "]"%char bracketed).1.1
              | _ => (partition ":"%char hostinfo).1.1
              end in
  match partition "%"%char host with
  | (name, found, zone) =>
      lower (string_of_list_ascii name) ++ (if found then "%" else "") ++ string_of_list_ascii zone
  end.

(** The schemes whose last path segment may carry parameters, and the parameters
    left out. *)
Definition uses_params : list string :=
  [""; "ftp"; "hdl"; "prospero"; "http"; "https"; "shttp"; "rtsp"; "rtsps"; "rtspu"; "sip"; "sips"; "mms";
   "sftp"; "tel"].
Definition drop_params (l : chars) : chars :=
  let segment := after_last "/"%char l in
  (take (length l - length segment) l ++ until [";"%char] segment)%list.

(** [urlparse(url).path]. *)
Definition urlparse_path `{IPLiterals} (url : string) : outcome string :=
  parsed ← urlsplit url;
  let rest := (split_scheme (clean (list_ascii_of_string url))).2 in
  let after_netloc := if is_prefix ["/"%char; "/"%char] rest
                      then drop (2 + length parsed.(sr_netloc)) rest else rest in
  let path := until ["?"%char; "#"%char] after_netloc in
  Ok (string_of_list_ascii (if str_in parsed.(sr_scheme) uses_params then drop_params path else path)).

(** ** Definitions *)

(** The settings [CORS_ALLOWED_ORIGINS], [ALLOWED_HOSTS] and
    [CORS_ALLOW_ALL_ORIGINS]. *)
Class RedirectSettings := {
  CORS_ALLOWED_ORIGINS : list string;
  ALLOWED_HOSTS : list string;
  CORS_ALLOW_ALL_ORIGINS : bool
}.

Definition starts_with_dot (h : string) : bool :=
  match h with String c _ => b_eq c "."%char | EmptyString => false end.

Definition _host_matchers (allowed_hosts : list string) : list string * list string :=
  (base.filter (λ h, negb (b_eq h "*") && negb (starts_with_dot h) = true) allowed_hosts,
   base.filter (λ h, starts_with_dot h = true) allowed_hosts).

Section Redirect.
  Context `{IPLiterals} `{RedirectSettings}.

Definition _validate_redirect_url (url : string) : outcome string :=
  parsed ← urlsplit url;
  if negb (str_in parsed.(sr_scheme) ["http"; "https"]) then Raise ValidationError else
  if CORS_ALLOW_ALL_ORIGINS then Ok url else
  let origin := parsed.(sr_scheme) ++ "://" ++ string_of_list_ascii parsed.(sr_netloc) in
  let host := hostname parsed in
  let origin_no_port := if negb (b_eq host "") then parsed.(sr_scheme) ++ "://" ++ host else origin in
  if str_in origin CORS_ALLOWED_ORIGINS || str_in origin_no_port CORS_ALLOWED_ORIGINS then Ok url else
  let matchers := _host_matchers ALLOWED_HOSTS in
  if str_in host matchers.1 then Ok url else
  if existsb (endswith host) matchers.2 then Ok url else
  Raise ValidationError.

End Redirect.
