(* ===== verification/Profile.v ===== *)
(** * Profiles and reference data

    The account endpoint of [apps/users/views.py] ([AccountView.get] and [patch]) and
    the serializers of [apps/users/serializers.py]. *)

From S2P Require Import Prelude PyVal Effects Domain Relational Store Django Auth.
From S2P Require Import Fields AuthViews Currency.

#[local] Open Scope string_scope.

(** ** Reference data

    [services/locale.py], [services/phone.py] and the public lists of
    [apps/users/views_references.py]: the locales, currencies, phone prefixes and time
    zones a profile may name. *)

(** *** [sorted] *)

(** [sorted(l)] of strings: the order of their code points. *)
Definition str_le (a b : string) : Prop := String.leb a b = true.
#[export] Instance str_le_dec a b : Decision (str_le a b).
Proof. unfold str_le. apply _. Defined.

Definition sorted_strings (l : list string) : list string := merge_sort str_le l.

(** [sorted(l, key=key)] for an integer key. *)
Definition key_le {A} (p q : Z * A) : Prop := (p.1 <= q.1)%Z.
#[export] Instance key_le_dec {A} (p q : Z * A) : Decision (key_le p q).
Proof. unfold key_le. apply _. Defined.

Fixpoint with_keys {A} (key : A → outcome Z) (l : list A) : outcome (list (Z * A)) :=
  match l with
  | [] => Ok []
  | a :: l => k ← key a; r ← with_keys key l; Ok ((k, a) :: r)
  end.

Definition sorted_by {A} (key : A → outcome Z) (l : list A) : outcome (list A) :=
  r ← with_keys key l; Ok (merge_sort key_le r).*2.

(** *** The tables *)

Definition SUPPORTED_LOCALES : list string :=
  ["en"; "es"; "fr"; "de"; "pt-BR"; "it"; "ja"; "zh-CN"; "nl"; "ar"; "ko"; "ru"; "pl"; "tr"; "sv";
   "id"; "zh-TW"; "da"; "nb"; "pt-PT"].
(** Calling code to flag and country. *)
Definition SUPPORTED_PHONE_PREFIXES : list (string * string) :=
  [("+1", "🇺🇸 US/CA"); ("+7", "🇷🇺 RU/KZ"); ("+20", "🇪🇬 EG"); ("+27", "🇿🇦 ZA"); ("+30", "🇬🇷 GR");
   ("+31", "🇳🇱 NL"); ("+32", "🇧🇪 BE"); ("+33", "🇫🇷 FR"); ("+34", "🇪🇸 ES"); ("+36", "🇭🇺 HU");
   ("+39", "🇮🇹 IT"); ("+40", "🇷🇴 RO"); ("+41", "🇨🇭 CH"); ("+43", "🇦🇹 AT"); ("+44", "🇬🇧 GB");
   ("+45", "🇩🇰 DK"); ("+46", "🇸🇪 SE"); ("+47", "🇳🇴 NO"); ("+48", "🇵🇱 PL"); ("+49", "🇩🇪 DE");
   ("+51", "🇵🇪 PE"); ("+52", "🇲🇽 MX"); ("+53", "🇨🇺 CU"); ("+54", "🇦🇷 AR"); ("+55", "🇧🇷 BR");
   ("+56", "🇨🇱 CL"); ("+57", "🇨🇴 CO"); ("+58", "🇻🇪 VE"); ("+60", "🇲🇾 MY"); ("+61", "🇦🇺 AU");
   ("+62", "🇮🇩 ID"); ("+63", "🇵🇭 PH"); ("+64", "🇳🇿 NZ"); ("+65", "🇸🇬 SG"); ("+66", "🇹🇭 TH");
   ("+81", "🇯🇵 JP"); ("+82", "🇰🇷 KR"); ("+84", "🇻🇳 VN"); ("+86", "🇨🇳 CN"); ("+90", "🇹🇷 TR");
   ("+91", "🇮🇳 IN"); ("+92", "🇵🇰 PK"); ("+93", "🇦🇫 AF"); ("+94", "🇱🇰 LK"); ("+95", "🇲🇲 MM");
   ("+212", "🇲🇦 MA"); ("+213", "🇩🇿 DZ"); ("+216", "🇹🇳 TN"); ("+218", "🇱🇾 LY"); ("+220", "🇬🇲 GM");
   ("+221", "🇸🇳 SN"); ("+234", "🇳🇬 NG"); ("+249", "🇸🇩 SD"); ("+251", "🇪🇹 ET"); ("+254", "🇰🇪 KE");
   ("+255", "🇹🇿 TZ"); ("+256", "🇺🇬 UG"); ("+260", "🇿🇲 ZM"); ("+263", "🇿🇼 ZW"); ("+351", "🇵🇹 PT");
   ("+352", "🇱🇺 LU"); ("+353", "🇮🇪 IE"); ("+354", "🇮🇸 IS"); ("+355", "🇦🇱 AL"); ("+356", "🇲🇹 MT");
   ("+358", "🇫🇮 FI"); ("+359", "🇧🇬 BG"); ("+370", "🇱🇹 LT"); ("+371", "🇱🇻 LV"); ("+372", "🇪🇪 EE");
   ("+380", "🇺🇦 UA"); ("+381", "🇷🇸 RS"); ("+385", "🇭🇷 HR"); ("+386", "🇸🇮 SI"); ("+387", "🇧🇦 BA");
   ("+420", "🇨🇿 CZ"); ("+421", "🇸🇰 SK"); ("+852", "🇭🇰 HK"); ("+853", "🇲🇴 MO"); ("+855", "🇰🇭 KH");
   ("+856", "🇱🇦 LA"); ("+880", "🇧🇩 BD"); ("+886", "🇹🇼 TW"); ("+960", "🇲🇻 MV"); ("+961", "🇱🇧 LB");
   ("+962", "🇯🇴 JO"); ("+963", "🇸🇾 SY"); ("+964", "🇮🇶 IQ"); ("+965", "🇰🇼 KW"); ("+966", "🇸🇦 SA");
   ("+967", "🇾🇪 YE"); ("+968", "🇴🇲 OM"); ("+970", "🇵🇸 PS"); ("+971", "🇦🇪 AE"); ("+972", "🇮🇱 IL");
   ("+973", "🇧🇭 BH"); ("+974", "🇶🇦 QA"); ("+975", "🇧🇹 BT"); ("+976", "🇲🇳 MN"); ("+977", "🇳🇵 NP");
   ("+992", "🇹🇯 TJ"); ("+993", "🇹🇲 TM"); ("+994", "🇦🇿 AZ"); ("+995", "🇬🇪 GE"); ("+996", "🇰🇬 KG");
   ("+998", "🇺🇿 UZ")].
Definition sort_prefix_key (item : string * string) : outcome Z :=
  py_int (JStr (string_of_list_ascii (lstrip_chars ["+"%char] (list_ascii_of_string item.1)))).

(** [zoneinfo.available_timezones()]: the zones of the time-zone database. *)
Class TimeZones := available_timezones : list string.

(** *** The lists *)

Definition _LOCALES : list string := sorted_strings SUPPORTED_LOCALES.
Definition _CURRENCIES : list string := sorted_strings SUPPORTED_CURRENCIES.
Definition _PHONE_PREFIXES : outcome (list (string * string)) :=
  sorted_by sort_prefix_key SUPPORTED_PHONE_PREFIXES.
Definition _TIMEZONES `{TimeZones} : list string := sorted_strings available_timezones.

Definition FULL_NAME_MIN_LENGTH : nat := 3.

(** ** The answer *)

(** [UserSerializer(user).data]. *)
Record UserOut := mkUserOut {
  uo_id : uuid;
  uo_email : string;
  uo_full_name : string;
  uo_avatar_url : option string;
  uo_preferred_locale : string;
  uo_preferred_currency : string;
  uo_phone : option (option string * option string);
  uo_timezone : option string;
  uo_job_title : option string;
  uo_pronouns : option string;
  uo_bio : option string;
  uo_is_verified : bool;
  uo_registration_method : string;
  uo_linked_providers : list string;
  uo_created_at : datetime;
  uo_updated_at : datetime
}.

(** The prefix and the number, unless both are null. *)
Definition phone_out (u : UserRow) : option (option string * option string) :=
  match u.(u_phone_prefix), u.(u_phone) with
  | None, None => None
  | prefix, number => Some (prefix, number)
  end.

Definition get_linked_providers (user : uuid) (d : db) : list string :=
  (λ r, sa_provider r.2) <$> rows (tfilter (λ _ s, b_eq s.(sa_user) user) d.(d_socials)).

Definition UserSerializer (user : uuid) (u : UserRow) (linked_providers : list string) : UserOut :=
  mkUserOut user u.(u_email) u.(u_full_name) u.(u_avatar_url) u.(u_preferred_locale)
    u.(u_preferred_currency) (phone_out u) u.(u_timezone) u.(u_job_title) u.(u_pronouns) u.(u_bio)
    u.(u_is_verified) u.(u_registration_method) linked_providers u.(u_created_at) u.(u_updated_at).

(** ** The update *)

Record PhoneBody := mkPhoneBody { ph_prefix : field string; ph_number : field string }.

(** The body of a PATCH. *)
Record ProfileBody := mkProfileBody {
  pb_full_name : field string;
  pb_preferred_locale : field string;
  pb_preferred_currency : field string;
  pb_phone : field PhoneBody;
  pb_timezone : field string;
  pb_job_title : field string;
  pb_pronouns : field string;
  pb_bio : field string
}.

(** [validated_data]: the columns to set. *)
Record ProfileUpdate := mkProfileUpdate {
  up_full_name : option string;
  up_preferred_locale : option string;
  up_preferred_currency : option string;
  up_phone_prefix : option (option string);
  up_phone : option (option string);
  up_timezone : option (option string);
  up_job_title : option (option string);
  up_pronouns : option (option string);
  up_bio : option (option string)
}.

Definition _validate_in_set (allowed : list string) (value : string) : outcome string :=
  if str_in value allowed then Ok value else Raise ValidationError.

Definition validate_prefix (value : string) : outcome string :=
  _validate_in_set SUPPORTED_PHONE_PREFIXES.*1 value.

Definition _PhoneWriteSerializer (p : PhoneBody) : outcome (string * string) :=
  prefix ← required (λ s, s ← CharField 5 s; validate_prefix s) p.(ph_prefix);
  number ← required (CharField_between 4 15) p.(ph_number);
  Ok (prefix, number).

Section Profile.
  Context `{TimeZones}.

Definition validate_timezone (value : string) : outcome string :=
  _validate_in_set available_timezones value.

(** The columns [validate] puts in place of the phone. *)
Definition phone_columns (phone : option (option (string * string))) :
    option (option string) * option (option string) :=
  match phone with
  | Some (Some p) => (Some (Some p.1), Some (Some p.2))
  | Some None => (Some None, Some None)
  | None => (None, None)
  end.

Definition UpdateUserSerializer (b : ProfileBody) : outcome ProfileUpdate :=
  full_name ← optional (CharField_between FULL_NAME_MIN_LENGTH 255) b.(pb_full_name);
  locale ← optional (λ s, s ← CharField 10 s; _validate_in_set SUPPORTED_LOCALES s) b.(pb_preferred_locale);
  currency ← optional (λ s, s ← CharField 3 s; _validate_in_set SUPPORTED_CURRENCIES s) b.(pb_preferred_currency);
  phone ← optional_null _PhoneWriteSerializer b.(pb_phone);
  timezone ← optional_null (λ s, s ← CharField 50 s; validate_timezone s) b.(pb_timezone);
  job_title ← optional_null (CharField 100) b.(pb_job_title);
  pronouns ← optional_null (CharField 50) b.(pb_pronouns);
  bio ← optional_null (CharField 500) b.(pb_bio);
  let columns := phone_columns phone in
  Ok (mkProfileUpdate full_name locale currency columns.1 columns.2 timezone job_title pronouns bio).

Definition empty_update (p : ProfileUpdate) : bool :=
  is_none p.(up_full_name) && is_none p.(up_preferred_locale) && is_none p.(up_preferred_currency)
  && is_none p.(up_phone_prefix) && is_none p.(up_phone) && is_none p.(up_timezone)
  && is_none p.(up_job_title) && is_none p.(up_pronouns) && is_none p.(up_bio).

(** [setattr] of each item. *)
Definition set_columns (p : ProfileUpdate) (u : UserRow) : UserRow :=
  mkUserRow u.(u_email) (or_else p.(up_full_name) u.(u_full_name)) u.(u_avatar_url)
    (or_else p.(up_preferred_locale) u.(u_preferred_locale))
    (or_else p.(up_preferred_currency) u.(u_preferred_currency))
    (or_else p.(up_phone_prefix) u.(u_phone_prefix)) (or_else p.(up_phone) u.(u_phone))
    (or_else p.(up_timezone) u.(u_timezone)) (or_else p.(up_job_title) u.(u_job_title))
    (or_else p.(up_pronouns) u.(u_pronouns)) (or_else p.(up_bio) u.(u_bio))
    u.(u_is_verified) u.(u_registration_method) u.(u_is_active) u.(u_password)
    u.(u_password_changed_at) u.(u_created_at) u.(u_updated_at).

(** [User.objects.prefetch_related("social_accounts").get(id=user)]. *)
Definition user_with_providers (user : uuid) : M store (UserRow * list string) :=
  u ← objects_get (λ d, d.(d_users) !! user) "User";
  providers ← dquery (get_linked_providers user);
  mret (u, providers).

Definition account_get (user : uuid) : M store UserOut :=
  u ← user_with_providers user;
  mret (UserSerializer user u.1 u.2).

Definition account_patch (user : uuid) (body : ProfileBody) : M store UserOut :=
  data ← lift (UpdateUserSerializer body);
  u ← user_with_providers user;
  if empty_update data then mret (UserSerializer user u.1 u.2) else
  now ← utcnow;
  let change row := with_updated_at now (set_columns data row) in
  save_user_fields user change;;
  mret (UserSerializer user (change u.1) u.2).

End Profile.

(** ** Lemmas *)

Lemma sorted_strings_elem l s : s ∈ sorted_strings l ↔ s ∈ l.
Proof. unfold sorted_strings. by rewrite merge_sort_Permutation. Qed.

Lemma with_keys_snd {A} (key : A → outcome Z) l r : with_keys key l = Ok r → r.*2 = l.
Proof.
  revert r. induction l as [|a l IH]; intros r; [by intros [= <-]|].
  intros (k & _ & Hr)%outcome_bind_Ok. apply outcome_bind_Ok in Hr as (r' & Hr' & [= <-]). cbn. by rewrite (IH r').
Qed.

Lemma sorted_by_Permutation {A} (key : A → outcome Z) l r : sorted_by key l = Ok r → r ≡ₚ l.
Proof.
  unfold sorted_by. intros (ks & Hks & [= <-])%outcome_bind_Ok. rewrite merge_sort_Permutation.
  by rewrite (with_keys_snd _ _ _ Hks).
Qed.

Example key_france : sort_prefix_key ("+33", "FR") = Ok 33%Z.
Proof. reflexivity. Qed.
