(* ===== verification/Avatar.v ===== *)
(** * Avatars

    The upload and the deletion of an avatar: [AvatarView] of [apps/users/views.py] and
    the pipeline of [apps/users/services.py].  Pillow, the file storage and the host of
    the request are parameters. *)

From S2P Require Import Prelude PyVal Text Effects Domain Relational Store Django Auth.
From S2P Require Import Fields AuthViews RedirectUrls.

#[local] Open Scope string_scope.

(** ** Parameters *)

(** Pillow: opening, EXIF rotation, modes, in-place thumbnails and the WebP encoder,
    on the bytes of files. *)
Class Pillow := {
  image : Type;
  Image_open : string → outcome image;
  image_format : image → option string;
  exif_transpose : image → outcome (option image);
  image_mode : image → string;
  getbands : image → list string;
  convert : string → image → outcome image;
  thumbnail : Z * Z → image → outcome image;
  save_webp : Z → image → outcome string
}.

(** [default_storage]: the files by name; [storage_save] chooses the name. *)
Class Storage := {
  storage_exists : gmap string string → string → outcome bool;
  storage_delete : gmap string string → string → outcome (gmap string string);
  storage_save : gmap string string → string → string → outcome (string * gmap string string)
}.

(** Letters, digits, hyphens, underscores, points and slashes. *)
Definition path_char (c : ascii) : bool :=
  is_alpha c || code_between 48 57 c || bool_decide (c ∈ ["-"%char; "_"%char; "."%char; "/"%char]).
Definition path_chars (s : string) : bool := forallb path_char (list_ascii_of_string s).

(** A stored file is found; a deletion removes the named file only; a new file gets a
    name that no file has, below the directory asked for. *)
Class StorageLaws `{Storage} := {
  storage_exists_stored m p : is_Some (m !! p) → storage_exists m p = Ok true;
  storage_delete_Ok m p m' : storage_delete m p = Ok m' → m' = delete p m;
  storage_save_Ok m dir name c q m' :
    storage_save m (dir ++ "/" ++ name) c = Ok (q, m') →
    m !! q = None ∧ m' = <[q := c]> m ∧
    ∃ name', q = dir ++ "/" ++ name' ∧ (path_chars name = true → path_chars name' = true)
}.

(** [request.build_absolute_uri]. *)
Class RequestHost := build_absolute_uri : string → string.

(** It puts the scheme and the host in front of an absolute path. *)
Class RequestHostLaws `{RequestHost} `{IPLiterals} := {
  build_absolute_uri_path path :
    path_chars path = true → urlparse_path (build_absolute_uri ("/" ++ path)) = Ok ("/" ++ path)
}.

(** The verification of [ImageField]. *)
Record UploadedFile := mkUploadedFile {
  uf_content : string;
  uf_size : option Z
}.
Class ImageField := image_field_ok : UploadedFile → bool.

(** ** The pipeline *)

Definition MEDIA_URL : string := "/media/".
Definition _AVATAR_DIM : Z := 128.
Definition _AVATAR_WEBP_QUALITY : Z := 80.
Definition _ALLOWED_AVATAR_INPUT_FORMATS : list string := ["JPEG"; "PNG"; "WEBP"; "GIF"].
Definition _MAX_AVATAR_SIZE : Z := 5 * 1024 * 1024.

Definition with_avatar (url : option string) (u : UserRow) : UserRow :=
  mkUserRow u.(u_email) u.(u_full_name) url u.(u_preferred_locale)
    u.(u_preferred_currency) u.(u_phone_prefix) u.(u_phone) u.(u_timezone) u.(u_job_title)
    u.(u_pronouns) u.(u_bio) u.(u_is_verified) u.(u_registration_method)
    u.(u_is_active) u.(u_password) u.(u_password_changed_at) u.(u_created_at) u.(u_updated_at).

(** [except (UnidentifiedImageError, OSError)]. *)
Definition is_os_error (e : exn) : bool :=
  match e with OSError _ | ConnectionError _ => true | _ => false end.

Section Avatar.
  Context `{Pillow} `{Storage} `{RequestHost} `{IPLiterals} `{ImageField}.

Definition _AvatarUploadSerializer (avatar : field UploadedFile) : outcome UploadedFile :=
  required (λ value,
    if negb (image_field_ok value) then Raise ValidationError
    else if match value.(uf_size) with Some size => (_MAX_AVATAR_SIZE <? size)%Z | None => false end
    then Raise ValidationError else Ok value) avatar.

(** The body of the [try]: the new file's bytes. *)
Definition render_avatar (content : string) : outcome string :=
  opened ← Image_open content;
  let fmt := upper (or_else (image_format opened) "") in
  if negb (str_in fmt _ALLOWED_AVATAR_INPUT_FORMATS) then Raise ValidationError else
  transposed ← exif_transpose opened;
  let img := or_else transposed opened in
  img ← (if str_in (image_mode img) ["RGB"; "RGBA"] then Ok img
         else convert (if str_in "A" (getbands img) then "RGBA" else "RGB") img);
  img ← thumbnail (_AVATAR_DIM, _AVATAR_DIM) img;
  save_webp _AVATAR_WEBP_QUALITY img.

(** An operation of the storage on the files. *)
Definition on_media {A} (f : gmap string string → outcome (A * gmap string string)) : M store A := λ w,
  match f (s_media (w_db w)) with
  | Ok (a, m) => (Ok a, set_db (mkStore (s_db (w_db w)) (s_cache (w_db w)) m) w)
  | Raise e => (Raise e, w)
  end.

Definition _delete_local_avatar (avatar_url : option string) : M store unit :=
  if b_eq (or_else avatar_url "") "" then mret tt else
  path ← lift (urlparse_path (or_else avatar_url ""));
  if negb (startswith path MEDIA_URL) then mret tt else
  let old_path := removeprefix path MEDIA_URL in
  found ← on_media (λ m, found ← storage_exists m old_path; Ok (found, m));
  if found : bool then on_media (λ m, m ← storage_delete m old_path; Ok (tt, m)) else mret tt.

Definition avatar_dir (user : uuid) : string := "avatars/" ++ uuid_str user.

Definition process_and_save_avatar (file : UploadedFile) (user : uuid) (u : UserRow) : M store string :=
  data ← lift (match render_avatar file.(uf_content) with
               | Raise e => if is_os_error e then Raise ValidationError else Raise e
               | r => r
               end);
  _delete_local_avatar u.(u_avatar_url);;
  n ← uuid4;
  saved_path ← on_media (λ m, storage_save m (avatar_dir user ++ "/" ++ uuid_hex n ++ ".webp") data);
  let avatar_url := build_absolute_uri (MEDIA_URL ++ saved_path) in
  now ← utcnow;
  save_user_fields user (λ row, with_updated_at now (with_avatar (Some avatar_url) row));;
  mret avatar_url.

(** [AvatarView.post] and [delete]; [u] is the authenticated instance. *)
Definition avatar_post (user : uuid) (u : UserRow) (avatar : field UploadedFile) : M store string :=
  file ← lift (_AvatarUploadSerializer avatar);
  process_and_save_avatar file user u.

Definition avatar_delete (user : uuid) (u : UserRow) : M store unit :=
  _delete_local_avatar u.(u_avatar_url);;
  now ← utcnow;
  save_user_fields user (λ row, with_updated_at now (with_avatar None row)).

End Avatar.
