(* ===== verification/TokenFacts.v ===== *)
(** * Tokens are single use

    The requests of [AuthViews.v] as the transitions of a state machine, in which
    a redeemed refresh or one-time token is never accepted again; what a rotation
    does on every branch. *)

From S2P Require Import Prelude PyVal Effects Domain Relational Store StoreFacts Django Auth.
From S2P Require Import AuthViews.

#[local] Open Scope string_scope.

(** ** The state machine *)

Section Machine.
  Context `{DjangoLib} `{AuthBackend} `{Secrets} `{JWT}.

Inductive auth_op :=
  | OpRegister (email password full_name : string)
  | OpVerifyEmail (token : string) (password : option string)
  | OpResend (email : string)
  | OpLogin (email password : string)
  | OpRefresh (token : string)
  | OpLogout (auth_header token : string)
  | OpForgot (email : string)
  | OpReset (token password : string)
  | OpChangePassword (auth_header current new : string)
  | OpCallback (provider : string) (code state error expected : option string)
      (exchange : outcome OAuthUserInfo)
  | OpExchange (code : string)
  | OpConfirmLink (token : string)
  | OpCleanup.

Definition run_op (op : auth_op) : M store unit :=
  match op with
  | OpRegister e p n => _register_user e p n;; mret tt
  | OpVerifyEmail t p => verify_email t p;; mret tt
  | OpResend e => resend_verification e;; mret tt
  | OpLogin e p => login e p;; mret tt
  | OpRefresh t => refresh_view t;; mret tt
  | OpLogout h t => logout h t;; mret tt
  | OpForgot e => forgot_password e;; mret tt
  | OpReset t p => reset_password t p;; mret tt
  | OpChangePassword h c n => change_password h c n;; mret tt
  | OpCallback p c s e x ex => oauth_callback p c s e x ex;; mret tt
  | OpExchange c => oauth_exchange c;; mret tt
  | OpConfirmLink t => oauth_confirm_link t;; mret tt
  | OpCleanup =>
      cleanup_expired_refresh_tokens;; cleanup_expired_email_verification_tokens;;
      cleanup_expired_password_reset_tokens;; cleanup_expired_social_link_requests
  end.

(** A request runs to its response, whatever that is; time passes between
    requests. *)
Inductive auth_step : world store → world store → Prop :=
  | step_request op w : auth_step w (run_op op w).2
  | step_time t w : auth_step w (set_now t w).

Definition auth_reachable : world store → world store → Prop := rtc auth_step.

(** The four kinds of tokens. *)
Inductive kind := KRefresh | KVerify | KReset | KLink.

Definition redeem (k : kind) (raw : string) : M store unit :=
  match k with
  | KRefresh => rotate_refresh_token raw;; mret tt
  | KVerify => verify_email_token raw;; mret tt
  | KReset => verify_password_reset_token raw;; mret tt
  | KLink => verify_social_link_token raw;; mret tt
  end.

(** What is left to a redemption whose SELECT and checks ran earlier, at a time
    when they passed. *)
Definition late_update (k : kind) (raw : string) (now : datetime) : option (M store unit) :=
  match k with
  | KRefresh => None
  | KVerify => Some (consume_update EmailVerificationToken raw now)
  | KReset => Some (consume_update PasswordResetToken raw now)
  | KLink => Some (consume_update SocialLinkRequest raw now)
  end.

(** No row of the kind can be redeemed with the hash [h]. *)
Definition dead (k : kind) (h : string) (d : db) : Prop :=
  match k with
  | KRefresh => map_Forall (λ _ r, r.(rt_token_hash) = h → is_Some r.(rt_revoked_at)) d.(d_refresh)
  | KVerify => map_Forall (λ _ t, t.(ot_token_hash) = h → is_Some t.(ot_used_at)) d.(d_verify)
  | KReset => map_Forall (λ _ t, t.(ot_token_hash) = h → is_Some t.(ot_used_at)) d.(d_reset)
  | KLink => map_Forall (λ _ l, l.(lr_token).(ot_token_hash) = h → is_Some l.(lr_token).(ot_used_at))
               d.(d_links)
  end.

(** The token drawn as number [n] is dead, unless the supply is exhausted. *)
Definition dead_token (k : kind) (n : N) (w : world store) : Prop :=
  (token_space < w_next w)%N ∨
  (n < w_next w)%N ∧ dead k (_hash_token (token_urlsafe n)) (s_db (w_db w)).

End Machine.

Section Facts.
  Context `{DjangoLib} `{AuthBackend} `{SecretsLaws} `{JWT}.

(** ** Helper lemmas *)

(** The invariant of a request: the supply of identifiers does not shrink and a
    dead token stays dead. *)
Definition stays (k : kind) (n N : N) (w : world store) : Prop :=
  (N <= w_next w)%N ∧ dead_token k n w.

Abbreviation keeps_dead m := (∀ k n N, preserves (stays k n N) m).

(** A statement that cannot revive a token. *)
Definition no_revival (f : db → outcome db) : Prop :=
  ∀ k h d d', f d = Ok d' → dead k h d → dead k h d'.

Lemma keeps_dead_dexec f : no_revival f → keeps_dead (dexec f).
Proof.
  intros Hf k n N w [HN Hw]. rewrite dexec_run. destruct (f _) as [d|] eqn:Hd; [|by split].
  split; [exact HN|]. destruct Hw as [Hw|[Hn Hw]]; [by left|right]. split; [done|]. by eapply Hf.
Qed.

(** A statement on the cache. *)
Lemma keeps_dead_cache (f : store → outcome store) :
  (∀ s s', f s = Ok s' → s_db s' = s_db s) → keeps_dead (exec f).
Proof.
  intros Hf k n N w [HN Hw]. unfold exec. destruct (f (w_db w)) as [s'|] eqn:Hs; [|by split].
  split; [exact HN|]. destruct Hw as [Hw|[Hn Hw]]; [by left|right]. split; [done|]. cbn.
  by rewrite (Hf _ _ Hs).
Qed.

Lemma keeps_dead_uuid4 : keeps_dead uuid4.
Proof.
  intros k n N w [HN Hw]. split; [cbn; lia|].
  destruct Hw as [Hw|[Hn Hw]]; [left|right]; cbn; [lia|]. split; [lia|done].
Qed.

Lemma keeps_dead_delay t : keeps_dead (delay t).
Proof. by intros k n N w Hw. Qed.

Lemma keeps_dead_invalidate i : keeps_dead (invalidate_auth_user_cache i).
Proof. apply keeps_dead_cache. by intros s s' [= <-]. Qed.

Lemma keeps_dead_atomic {A} (m : M store A) : keeps_dead m → keeps_dead (atomic m).
Proof.
  intros Hm k n N w [HN Hw]. destruct (Hm k n (w_next w) w) as [HN' Hw']; [by split; [lia|]|].
  unfold atomic. destruct (m w) as [[a|e] w'] eqn:Hrun; cbn in *; [split; [lia|done]|].
  split; [cbn; lia|]. destruct Hw as [Hw|[Hn Hw]]; [left|right]; cbn; [lia|]. split; [lia|done].
Qed.

(** Inserting the row of a freshly drawn token. *)
Lemma keeps_dead_fresh (f : string → N → datetime → db → outcome db) :
  (∀ raw pk now k h d d', f raw pk now d = Ok d' → h ≠ _hash_token raw → dead k h d → dead k h d') →
  keeps_dead (raw ← fresh_token; pk ← uuid4; now ← utcnow; dexec (f raw pk now);; mret raw).
Proof.
  intros Hf k n N w [HN Hw]. unfold fresh_token. munfold. rewrite dexec_run. cbn [w_db w_next].
  destruct (f _ _ _ _) as [d|] eqn:Hd; cbn.
  2:{ split; [cbn; lia|]. destruct Hw as [Hw|[Hn Hw]]; [left|right]; cbn; [lia|]. split; [lia|done]. }
  split; [cbn; lia|]. destruct (decide (w_next w < token_space)%N) as [Hlt|]; [|left; cbn; lia].
  destruct Hw as [Hw|[Hn Hw]]; [left; cbn; lia|right]. split; [cbn; lia|]. cbn.
  eapply Hf; [exact Hd| |done]. unfold _hash_token. intros Heq%sha256_hex_inj; lia.
Qed.

Lemma dead_insert {A} (hash : A → string) (spent : A → Prop) h i a (t : table A) :
  (hash a = h → spent a) → map_Forall (λ _ a, hash a = h → spent a) t →
  map_Forall (λ _ a, hash a = h → spent a) (<[i := a]> t).
Proof. intros Ha Ht. by apply map_Forall_insert_2. Qed.

Lemma dead_fmap {A} (hash : A → string) (spent : A → Prop) h (f : A → A) (t : table A) :
  (∀ a, hash (f a) = hash a ∧ (spent a → spent (f a))) →
  map_Forall (λ _ a, hash a = h → spent a) t → map_Forall (λ _ a, hash a = h → spent a) (f <$> t).
Proof.
  intros Hf Ht i a. rewrite lookup_fmap_Some. intros (b & <- & Hb) Hh.
  destruct (Hf b) as [Hhash Hs]. apply Hs, (Ht i b Hb). congruence.
Qed.

Lemma dead_tfilter {A} (P : A → Prop) p (t : table A) :
  map_Forall (λ _ a, P a) t → map_Forall (λ _ a, P a) (tfilter p t).
Proof. intros Ht i a [Ha _]%tfilter_lookup. by eapply Ht. Qed.

(** *** The statements of the requests *)

Lemma no_revival_frame f :
  (∀ d d', f d = Ok d' → d_refresh d' = d_refresh d ∧ d_verify d' = d_verify d ∧
    d_reset d' = d_reset d ∧ d_links d' = d_links d) → no_revival f.
Proof. intros Hf k h d d' Hd. destruct (Hf d d' Hd) as (Hr & Hv & Hs & Hl). destruct k; unfold dead; by rewrite ?Hr, ?Hv, ?Hs, ?Hl. Qed.

Lemma no_revival_save_user i f : no_revival (λ d,
  match d.(d_users) !! i with
  | Some row => save_user i (f row) d
  | None => Raise (DatabaseError "Save with update_fields did not affect any rows.")
  end).
Proof.
  apply no_revival_frame. intros d d'. destruct (d_users d !! i); [|done].
  by intros (t & _ & [= <-])%outcome_bind_Ok.
Qed.

Lemma no_revival_insert_user i u : no_revival (insert_user i u).
Proof.
  apply no_revival_frame. intros d d' (x & _ & Hs)%outcome_bind_Ok.
  by apply outcome_bind_Ok in Hs as (t & _ & [= <-]).
Qed.

Lemma no_revival_insert_social i s : no_revival (insert_social i s).
Proof.
  apply no_revival_frame. intros d d' (x & _ & Hs)%outcome_bind_Ok.
  by apply outcome_bind_Ok in Hs as (t & _ & [= <-]).
Qed.

Lemma no_revival_revoke p now : no_revival (λ d, Ok (revoke_where p now d)).
Proof.
  intros k h d d' [= <-]. destruct k; [|done..]. unfold dead. cbn.
  apply dead_fmap. intros r. case_match; [|done]. split; [done|by eexists].
Qed.

Lemma no_revival_revoke_row now i : no_revival (λ d,
  match d.(d_refresh) !! i with
  | Some row => save_refresh i (refresh_revoke now row) d
  | None => Raise (DatabaseError "Save with update_fields did not affect any rows.")
  end).
Proof.
  intros k h d d'. destruct (d_refresh d !! i) as [row|]; [|done].
  intros (t & Ht & [= <-])%outcome_bind_Ok. apply tput_inv in Ht as (-> & _).
  destruct k; [|done..]. unfold dead. cbn. apply (dead_insert rt_token_hash). by eexists.
Qed.

Lemma no_revival_mark_verify p now : no_revival (λ d, Ok (mark_where EmailVerificationToken p now d)).
Proof.
  intros k h d d' [= <-]. destruct k; [done| |done..]. unfold dead. cbn.
  apply dead_fmap. intros t. unfold id. case_match; [|done]. split; [done|by eexists].
Qed.

Lemma no_revival_mark_reset p now : no_revival (λ d, Ok (mark_where PasswordResetToken p now d)).
Proof.
  intros k h d d' [= <-]. destruct k; [done..| |done]. unfold dead. cbn.
  apply dead_fmap. intros t. unfold id. case_match; [|done]. split; [done|by eexists].
Qed.

Lemma no_revival_mark_links p now : no_revival (λ d, Ok (mark_where SocialLinkRequest p now d)).
Proof.
  intros k h d d' [= <-]. destruct k; [done..|]. unfold dead. cbn.
  apply (dead_fmap (λ l, ot_token_hash (lr_token l)) (λ l, is_Some (ot_used_at (lr_token l)))).
  intros t. case_match; [|done]. split; [done|by eexists].
Qed.

(** Clean-up only removes rows. *)
Lemma delete_expired_subseteq {A} fuel (e : A → datetime) now (t : table A) :
  delete_expired_rows fuel e now t ⊆ t.
Proof.
  revert t. induction fuel as [|fuel IH]; intros t; cbn [delete_expired_rows]; [reflexivity|].
  assert (∀ p, tfilter p t ⊆ t) as Hsub.
  { intros p. apply map_subseteq_spec. by intros i a [Ha _]%tfilter_lookup. }
  destruct (expired_batch e now t); [reflexivity|]. case_match; [apply Hsub|].
  etransitivity; [apply IH|apply Hsub].
Qed.

Lemma dead_subseteq {A} (P : A → Prop) (t t' : table A) :
  t' ⊆ t → map_Forall (λ _ a, P a) t → map_Forall (λ _ a, P a) t'.
Proof. intros Hsub Ht i a Ha. eapply Ht, lookup_weaken; [exact Ha|done]. Qed.
(** *** The requests *)

Lemma keeps_dead_create_refresh u : keeps_dead (create_refresh_token u).
Proof.
  apply (keeps_dead_fresh (λ raw pk now, insert_refresh pk
    (mkRefreshRow u (_hash_token raw) now (now + REFRESH_TOKEN_LIFETIME) None))).
  intros raw pk now k h d d' (x & _ & Hs)%outcome_bind_Ok Hne.
  apply outcome_bind_Ok in Hs as (t & Ht & [= <-]). apply tput_inv in Ht as (-> & _).
  destruct k; [|done..]. unfold dead. cbn. apply (dead_insert rt_token_hash). cbn. congruence.
Qed.

Lemma keeps_dead_create_verify u : keeps_dead (create_email_verification_token u).
Proof.
  apply (keeps_dead_fresh (λ raw pk now, insert_verify pk
    (mkOneTimeRow u (_hash_token raw) now (now + EMAIL_VERIFICATION_LIFETIME) None))).
  intros raw pk now k h d d' (x & _ & Hs)%outcome_bind_Ok Hne.
  apply outcome_bind_Ok in Hs as (t & Ht & [= <-]). apply tput_inv in Ht as (-> & _).
  destruct k; [done| |done..]. unfold dead. cbn. apply (dead_insert ot_token_hash). cbn. congruence.
Qed.

Lemma keeps_dead_create_reset u : keeps_dead (create_password_reset_token u).
Proof.
  apply (keeps_dead_fresh (λ raw pk now, insert_reset pk
    (mkOneTimeRow u (_hash_token raw) now (now + PASSWORD_RESET_LIFETIME) None))).
  intros raw pk now k h d d' (x & _ & Hs)%outcome_bind_Ok Hne.
  apply outcome_bind_Ok in Hs as (t & Ht & [= <-]). apply tput_inv in Ht as (-> & _).
  destruct k; [done..| |done]. unfold dead. cbn. apply (dead_insert ot_token_hash). cbn. congruence.
Qed.

Lemma keeps_dead_create_link u p pid n a : keeps_dead (create_social_link_token u p pid n a).
Proof.
  apply (keeps_dead_fresh (λ raw pk now, insert_link pk (mkLinkRow
    (mkOneTimeRow u (_hash_token raw) now (now + SOCIAL_LINK_LIFETIME) None) p pid n a))).
  intros raw pk now k h d d' (x & _ & Hs)%outcome_bind_Ok Hne.
  apply outcome_bind_Ok in Hs as (t & Ht & [= <-]). apply tput_inv in Ht as (-> & _).
  destruct k; [done..|]. unfold dead. cbn.
  apply (dead_insert (λ l, ot_token_hash (lr_token l)) (λ l, is_Some (ot_used_at (lr_token l)))).
  cbn. congruence.
Qed.

Create HintDb dead discriminated.
Hint Resolve keeps_dead_uuid4 keeps_dead_delay keeps_dead_invalidate keeps_dead_create_refresh
  keeps_dead_create_verify keeps_dead_create_reset keeps_dead_create_link no_revival_save_user
  no_revival_insert_user no_revival_insert_social no_revival_revoke no_revival_revoke_row
  no_revival_mark_verify no_revival_mark_reset no_revival_mark_links : dead.
Hint Resolve preserves_ret preserves_raise preserves_lift preserves_query preserves_utcnow : dead.
Hint Extern 1 (preserves _ (dquery _)) => apply preserves_query : dead.
Hint Extern 1 (preserves _ (dexec _)) => apply keeps_dead_dexec : dead.
Hint Extern 1 (preserves _ (exec _)) => apply keeps_dead_cache; by intros ? ? [= <-] : dead.

(** One constructor of the program at a time. *)
Ltac keeps_dead :=
  intros;
  repeat match goal with
  | |- preserves _ (mbind _ _) => apply preserves_bind; [|intros ?]
  | |- preserves _ (catch _ _) => apply preserves_catch; [|intros ?]
  | |- preserves _ (atomic _) => apply keeps_dead_atomic; intros ? ? ?
  | |- preserves _ (match ?x with _ => _ end) => destruct x
  | |- preserves _ (let _ := _ in _) => cbv zeta
  | |- _ => solve [auto with dead]
  end.

Lemma keeps_dead_fresh_token : keeps_dead fresh_token.
Proof. unfold fresh_token. keeps_dead. Qed.

Lemma keeps_dead_create_user e p n a v r : keeps_dead (create_user e p n a v r).
Proof. unfold create_user. keeps_dead. Qed.

Lemma keeps_dead_sign_in u r s : keeps_dead (sign_in u r s).
Proof. unfold sign_in, _token_response, create_access_token. keeps_dead. Qed.

Lemma keeps_dead_authenticate h : keeps_dead (authenticate h).
Proof. unfold authenticate, load_user, cache_user. keeps_dead. Qed.

Lemma keeps_dead_require h : keeps_dead (require_user h).
Proof. pose proof keeps_dead_authenticate. unfold require_user. keeps_dead. Qed.

Lemma keeps_dead_social p i u : keeps_dead (social_get_or_create p i u).
Proof. unfold social_get_or_create. keeps_dead. Qed.

Lemma keeps_dead_save_fields u f : keeps_dead (save_user_fields u f).
Proof. unfold save_user_fields. keeps_dead. Qed.

Lemma keeps_dead_verify_email t : keeps_dead (verify_email_token t).
Proof.
  unfold verify_email_token, _verify_one_time_token, _consume_one_time_token, consume_checks,
    consume_update. keeps_dead.
Qed.

Lemma keeps_dead_verify_reset t : keeps_dead (verify_password_reset_token t).
Proof.
  unfold verify_password_reset_token, _verify_one_time_token, _consume_one_time_token, consume_checks,
    consume_update. keeps_dead.
Qed.

Lemma keeps_dead_verify_link t : keeps_dead (verify_social_link_token t).
Proof.
  unfold verify_social_link_token, _consume_one_time_token, consume_checks, consume_update. keeps_dead.
Qed.

Lemma keeps_dead_revoke_all u : keeps_dead (revoke_all_refresh_tokens u).
Proof. unfold revoke_all_refresh_tokens. keeps_dead. Qed.

Lemma keeps_dead_rotate t : keeps_dead (rotate_refresh_token t).
Proof.
  pose proof keeps_dead_revoke_all. unfold rotate_refresh_token, rotate_checks, rotate_writes. keeps_dead.
Qed.

Lemma keeps_dead_resolve p i : keeps_dead (resolve_oauth_user p i).
Proof.
  pose proof keeps_dead_social. pose proof keeps_dead_create_user.
  unfold resolve_oauth_user, _link_or_request, objects_get. keeps_dead.
Qed.

Lemma keeps_dead_finish p i r : keeps_dead (finish_callback p i r).
Proof.
  pose proof keeps_dead_fresh_token.
  unfold finish_callback, create_access_token, _store_oauth_exchange. keeps_dead.
Qed.

Lemma keeps_dead_cleanup : keeps_dead (run_op OpCleanup).
Proof.
  assert (∀ f : datetime → db → db, (∀ now, no_revival (λ d, Ok (f now d))) →
    keeps_dead (now ← utcnow; dexec (λ d, Ok (f now d)))) as Hgen.
  { intros f Hf k n N. apply preserves_bind; [apply preserves_utcnow|intros now].
    by apply keeps_dead_dexec. }
  intros k n N. cbn [run_op].
  apply preserves_bind; [|intros _; apply preserves_bind; [|intros _; apply preserves_bind; [|intros _]]];
    apply Hgen; intros now k' h d d' [= <-]; (destruct k'; [..|]); try done;
    apply dead_subseteq, delete_expired_subseteq.
Qed.

Lemma keeps_dead_op op : keeps_dead (run_op op).
Proof.
  destruct op; [..|exact keeps_dead_cleanup]; cbn [run_op];
    pose proof keeps_dead_sign_in; pose proof keeps_dead_create_user;
    pose proof keeps_dead_save_fields; pose proof keeps_dead_revoke_all; pose proof keeps_dead_require;
    pose proof keeps_dead_verify_email; pose proof keeps_dead_verify_reset;
    pose proof keeps_dead_verify_link; pose proof keeps_dead_rotate; pose proof keeps_dead_social;
    pose proof keeps_dead_resolve; pose proof keeps_dead_finish.
  - unfold _register_user. keeps_dead.
  - unfold verify_email. keeps_dead.
  - unfold resend_verification. keeps_dead.
  - unfold login. keeps_dead.
  - unfold refresh_view, _token_response, create_access_token. keeps_dead.
  - unfold logout, revoke_refresh_token. keeps_dead.
  - unfold forgot_password. keeps_dead.
  - unfold reset_password. keeps_dead.
  - unfold change_password, change_password_of. keeps_dead.
  - unfold oauth_callback. keeps_dead.
  - unfold oauth_exchange, _consume_oauth_exchange. keeps_dead.
  - unfold oauth_confirm_link. keeps_dead.
Qed.

Lemma reachable_dead k n w w' :
  auth_reachable w w' → dead_token k n w → dead_token k n w'.
Proof.
  intros Hr. induction Hr as [w|w1 w2 w3 Hstep _ IH]; [done|]. intros Hd. apply IH.
  destruct Hstep as [op w|t w]; [|exact Hd].
  by destruct (keeps_dead_op op k n (w_next w) w) as [_ ?].
Qed.

(** *** What a redemption leaves *)

Lemma insert_refresh_inv i r d d' :
  insert_refresh i r d = Ok d' → d_refresh d !! i = None ∧ d' = set_refresh (<[i := r]> d.(d_refresh)) d.
Proof.
  intros (x & Hf & Hs)%outcome_bind_Ok. unfold fresh_pk in Hf.
  destruct (not_none _) eqn:E; [done|]. rewrite not_none_false in E. split; [done|].
  apply outcome_bind_Ok in Hs as (t & Ht & [= <-]). by apply tput_inv in Ht as (-> & _).
Qed.

Lemma create_refresh_run u w raw w' :
  create_refresh_token u w = (Ok raw, w') →
  raw = token_urlsafe (w_next w) ∧ w_next w' = (w_next w + 2)%N ∧ w_now w' = w_now w ∧
  w_tasks w' = w_tasks w ∧ s_cache (w_db w') = s_cache (w_db w) ∧
  d_refresh (s_db (w_db w)) !! (w_next w + 1)%N = None ∧
  s_db (w_db w') = set_refresh
    (<[(w_next w + 1)%N := mkRefreshRow u (_hash_token raw) (w_now w) (w_now w + REFRESH_TOKEN_LIFETIME) None]>
      (d_refresh (s_db (w_db w)))) (s_db (w_db w)).
Proof.
  unfold create_refresh_token, fresh_token. munfold. rewrite dexec_run. cbn [w_db w_next w_now].
  destruct (insert_refresh _ _ _) as [d|] eqn:Hi; [|done]. apply insert_refresh_inv in Hi as [Hf ->].
  intros [= <- <-]. cbn. split_and!; [done|lia|done..].
Qed.

(** The row of a rotation that passed its checks. *)
Lemma rotate_checks_run raw w rt u w1 :
  rotate_checks raw w = (Ok (rt, u), w1) →
  w1 = w ∧ refresh_by_hash (_hash_token raw) (s_db (w_db w)) = Some rt ∧
  rt.2.(rt_revoked_at) = None ∧ (w_now w < rt.2.(rt_expires_at))%Z ∧
  d_users (s_db (w_db w)) !! rt.2.(rt_user) = Some u ∧ u.(u_is_active) = true.
Proof.
  unfold rotate_checks, dquery. munfold.
  destruct (refresh_by_hash _ _) as [r|]; [|done]. cbn.
  destruct (d_users _ !! _) as [u'|] eqn:Hu; [|done]. cbn.
  destruct (not_none _) eqn:Hr; [by destruct (revoke_all_refresh_tokens _ w) as [[]]|].
  destruct (Z.leb_spec (rt_expires_at r.2) (w_now w)); [done|].
  destruct (u_is_active u') eqn:Ha; [|done]. intros [= <- <- <-].
  by rewrite not_none_false in Hr.
Qed.

Lemma rotate_run raw w r w1 :
  rotate_refresh_token raw w = (Ok r, w1) →
  ∃ i row, let d := s_db (w_db w) in
    refresh_by_hash (_hash_token raw) d = Some (i, row) ∧
    row.(rt_revoked_at) = None ∧ (w_now w < row.(rt_expires_at))%Z ∧
    r.1.1 = row.(rt_user) ∧ r.2 = token_urlsafe (w_next w) ∧
    d_users d !! row.(rt_user) = Some r.1.2 ∧ u_is_active r.1.2 = true ∧
    w_next w1 = (w_next w + 2)%N ∧ d_refresh d !! (w_next w + 1)%N = None ∧
    s_db (w_db w1) = set_refresh
      (<[(w_next w + 1)%N := mkRefreshRow row.(rt_user) (_hash_token r.2) (w_now w)
           (w_now w + REFRESH_TOKEN_LIFETIME) None]>
        (<[i := refresh_revoke (w_now w) row]> (d_refresh d))) d.
Proof.
  unfold rotate_refresh_token. rewrite bind_run.
  destruct (rotate_checks raw w) as [[[[i row] u]|] w0] eqn:Hc; [|done].
  apply rotate_checks_run in Hc as (-> & Hf & Hr & He & Hu & Ha). cbn in *.
  pose proof Hf as [Hrow _]%tfind_Some.
  unfold rotate_writes. rewrite !bind_run. cbn. rewrite bind_run, dexec_run. cbn. rewrite Hrow.
  destruct (save_refresh _ _ _) as [d1|] eqn:Hs; [|done].
  apply outcome_bind_Ok in Hs as (t & Ht & [= <-]). apply tput_inv in Ht as (-> & _).
  destruct (create_refresh_token _ _) as [[new|] w2] eqn:Hn; [|done].
  apply create_refresh_run in Hn as (-> & Hnext & _ & _ & _ & Hfr & Hdb). intros [= <- <-]. cbn in *.
  apply lookup_insert_None in Hfr as [Hfr _].
  exists i, row. rewrite Hdb. by split_and!.
Qed.

Lemma consume_run {A} (m : OneTimeTokenModel A) raw w r w1 :
  _consume_one_time_token m raw w = (Ok r, w1) →
  ∃ i a, let d := s_db (w_db w) in let t := m.(ot_token) a in
    tfind (λ _ a, b_eq (m.(ot_token) a).(ot_token_hash) (_hash_token raw)) (m.(ot_table) d) = Some (i, a) ∧
    t.(ot_used_at) = None ∧ (w_now w < t.(ot_expires_at))%Z ∧
    r.1 = m.(ot_with_token) (ot_mark_used (w_now w) t) a ∧
    d_users d !! t.(ot_user) = Some r.2 ∧ u_is_active r.2 = true ∧
    w1 = set_db (mkStore (mark_where m (redeemable (_hash_token raw) (w_now w)) (w_now w) d)
           (s_cache (w_db w)) (s_media (w_db w))) w.
Proof.
  unfold _consume_one_time_token, consume_checks, consume_update, dquery. munfold.
  destruct (tfind _ _) as [[i a]|]; [|done]. cbn.
  destruct (d_users _ !! _) as [u|] eqn:Hu; [|done]. cbn.
  destruct (not_none _) eqn:Hused; [done|]. rewrite not_none_false in Hused.
  destruct (Z.leb_spec (ot_expires_at (ot_token m a)) (w_now w)); [done|].
  destruct (Nat.eqb _ _); [done|].
  cbn [snd]. destruct (u_is_active u) eqn:Ha; cbn; [|done]. intros [= <- <-]. exists i, a. by split_and!.
Qed.

(** After the mark no row of a table with unique hashes can be redeemed. *)
Lemma mark_kills {A} (tok : A → OneTimeRow) (with_tok : OneTimeRow → A → A) (t : table A) h now i a :
  (∀ x b, tok (with_tok x b) = x) →
  (∀ j b, t !! j = Some b → (tok b).(ot_token_hash) = h → j = i) →
  t !! i = Some a → redeemable h now (tok a) = true →
  map_Forall (λ _ b, (tok b).(ot_token_hash) = h → is_Some (tok b).(ot_used_at))
    ((λ b, if redeemable h now (tok b) then with_tok (ot_mark_used now (tok b)) b else b) <$> t).
Proof.
  intros Hw Hu Ha Hr j b. rewrite lookup_fmap_Some. intros (b' & <- & Hb) Hh.
  assert (j = i) as ->.
  { apply (Hu j b' Hb). revert Hh. case_match; [|done]. by rewrite Hw. }
  replace b' with a by congruence. rewrite Hr, Hw. by eexists.
Qed.

(** The hashes of each table are unique. *)
Lemma hashes_unique {A} (sc : schema target A) has (t : table A) (hash : A → string) i j a b :
  table_ok sc has t → (λ a, key_str (hash a)) ∈ sc_uniques sc →
  t !! i = Some a → t !! j = Some b → hash a = hash b → i = j.
Proof. intros Hok Hk Ha Hb Heq. eapply table_ok_unique; [done|exact Hk|exact Ha|exact Hb|done|]. by rewrite Heq. Qed.

Lemma db_ok_tokens d :
  db_ok d →
  table_ok refresh_schema (has d) d.(d_refresh) ∧ table_ok onetime_schema (has d) d.(d_verify) ∧
  table_ok onetime_schema (has d) d.(d_reset) ∧ table_ok link_schema (has d) d.(d_links).
Proof. unfold db_ok. tauto. Qed.

Lemma consumed_dead {A} (m : OneTimeTokenModel A) (sc : schema target A) raw w r w1 :
  (∀ x b, m.(ot_token) (m.(ot_with_token) x b) = x) →
  table_ok sc (has (s_db (w_db w))) (m.(ot_table) (s_db (w_db w))) →
  (λ a, key_str (m.(ot_token) a).(ot_token_hash)) ∈ sc_uniques sc →
  (∀ t d, m.(ot_table) (m.(ot_set_table) t d) = t) →
  _consume_one_time_token m raw w = (Ok r, w1) →
  w_next w1 = w_next w ∧
  map_Forall (λ _ a, (m.(ot_token) a).(ot_token_hash) = _hash_token raw →
    is_Some (m.(ot_token) a).(ot_used_at)) (m.(ot_table) (s_db (w_db w1))).
Proof.
  intros Hw Hok Hk Hset (i & a & Hf & Hun & Hex & _ & _ & _ & ->)%consume_run. split; [done|].
  cbn. unfold mark_where. rewrite Hset. apply tfind_Some in Hf as [Ha Hh]. rewrite b_eq_true in Hh.
  eapply (mark_kills (ot_token m) (ot_with_token m)); [done| |exact Ha|].
  - intros j b Hb Hbh. eapply (hashes_unique sc _ _ (λ a, ot_token_hash (ot_token m a))); [done..|]. congruence.
  - unfold redeemable. rewrite Hh, b_eq_refl, Hun. by apply Z.ltb_lt.
Qed.

Lemma verify_via_consume {A} (m : OneTimeTokenModel A) raw w w1 :
  (_verify_one_time_token m raw;; mret tt) w = (Ok tt, w1) →
  ∃ r, _consume_one_time_token m raw w = (Ok r, w1).
Proof.
  unfold _verify_one_time_token. rewrite !bind_run.
  destruct (_consume_one_time_token m raw w) as [[r|] w2]; [|done]. intros [= <-]. by eexists.
Qed.

Lemma redeem_dead k n w w1 :
  db_ok (s_db (w_db w)) → (n < w_next w)%N → redeem k (token_urlsafe n) w = (Ok tt, w1) →
  dead_token k n w1.
Proof.
  intros Hok Hn. pose proof (db_ok_tokens _ Hok) as (Hr & Hv & Hs & Hl).
  destruct k; unfold redeem, verify_email_token, verify_password_reset_token, verify_social_link_token.
  - rewrite bind_run. destruct (rotate_refresh_token _ w) as [[r|] w2] eqn:Hrun; [|done].
    intros [= <-]. apply rotate_run in Hrun as (i & row & Hf & _ & _ & _ & Hnew & _ & _ & Hnx & _ & Hdb).
    destruct (decide (w_next w < token_space)%N) as [Hlt|]; [right|left; lia].
    split; [lia|]. rewrite Hdb. unfold dead. cbn.
    apply (dead_insert rt_token_hash).
    { cbn. rewrite Hnew. unfold _hash_token. intros Heq%sha256_hex_inj; lia. }
    apply tfind_Some in Hf as [Hrow Hh]. rewrite b_eq_true in Hh.
    intros j b [[<- <-]|[Hij Hb]]%lookup_insert_Some Hbh; [by eexists|].
    destruct Hij. eapply (hashes_unique refresh_schema _ _ rt_token_hash);
      [exact Hr|by left|exact Hrow|exact Hb|congruence].
  - intros (r & Hrun)%verify_via_consume. right.
    destruct (consumed_dead EmailVerificationToken onetime_schema _ _ _ _ (λ _ _, eq_refl) Hv (list_elem_of_here _ _)
      (λ _ _, eq_refl) Hrun) as [-> Hd]. by split.
  - intros (r & Hrun)%verify_via_consume. right.
    destruct (consumed_dead PasswordResetToken onetime_schema _ _ _ _ (λ _ _, eq_refl) Hs (list_elem_of_here _ _)
      (λ _ _, eq_refl) Hrun) as [-> Hd]. by split.
  - rewrite bind_run. destruct (_consume_one_time_token _ _ _) as [[r|] w2] eqn:Hrun; [|done].
    intros [= <-]. right.
    destruct (consumed_dead SocialLinkRequest link_schema _ _ _ _ (λ _ _, eq_refl) Hl (list_elem_of_here _ _)
      (λ _ _, eq_refl) Hrun) as [-> Hd]. by split.
Qed.

(** A dead token is refused. *)
Lemma dead_update {A} (m : OneTimeTokenModel A) raw now w :
  map_Forall (λ _ a, (m.(ot_token) a).(ot_token_hash) = _hash_token raw →
    is_Some (m.(ot_token) a).(ot_used_at)) (m.(ot_table) (s_db (w_db w))) →
  (consume_update m raw now w).1 = Raise (AuthenticationFailed "token_used").
Proof.
  intros Hd. unfold consume_update, dquery. munfold.
  replace (tcount _ _) with 0%nat; [done|]. symmetry. apply tcount_zero. intros i a Ha.
  unfold redeemable. apply not_true_iff_false. rewrite !andb_true_iff, b_eq_true, is_none_true.
  intros [[Hh Hn] _]. destruct (Hd i a Ha Hh). congruence.
Qed.

Lemma dead_consume {A} (m : OneTimeTokenModel A) raw w :
  map_Forall (λ _ a, (m.(ot_token) a).(ot_token_hash) = _hash_token raw →
    is_Some (m.(ot_token) a).(ot_used_at)) (m.(ot_table) (s_db (w_db w))) →
  ∃ c w', _consume_one_time_token m raw w = (Raise (AuthenticationFailed c), w').
Proof.
  intros Hd. unfold _consume_one_time_token, consume_checks, dquery. munfold.
  destruct (tfind _ _) as [[i a]|] eqn:Hf; [|by eexists _, _]. cbn.
  destruct (d_users _ !! _); [|by eexists _, _]. cbn. apply tfind_Some in Hf as [Ha Hh].
  rewrite b_eq_true in Hh. destruct (Hd i a Ha Hh) as [t Ht]. rewrite Ht. cbn. by eexists _, _.
Qed.

Lemma dead_refused k n w :
  dead k (_hash_token (token_urlsafe n)) (s_db (w_db w)) →
  ∃ c, (redeem k (token_urlsafe n) w).1 = Raise (AuthenticationFailed c).
Proof.
  intros Hd. destruct k; unfold redeem, verify_email_token, verify_password_reset_token,
    verify_social_link_token, _verify_one_time_token.
  - unfold rotate_refresh_token, rotate_checks, dquery. munfold.
    destruct (refresh_by_hash _ _) as [[i r]|] eqn:Hf; [|by eexists]. cbn.
    destruct (d_users _ !! _); [|by eexists]. cbn. apply tfind_Some in Hf as [Hr Hh].
    rewrite b_eq_true in Hh. destruct (Hd i r Hr Hh) as [t Ht]. rewrite Ht. cbn. by eexists.
  - rewrite !bind_run. destruct (dead_consume EmailVerificationToken _ w Hd) as (c & w' & ->). by eexists.
  - rewrite !bind_run. destruct (dead_consume PasswordResetToken _ w Hd) as (c & w' & ->). by eexists.
  - rewrite !bind_run. destruct (dead_consume SocialLinkRequest _ w Hd) as (c & w' & ->). by eexists.
Qed.

(** ** Properties *)

(** C26. A token is redeemed at most once.  After a refresh, verification, reset
    or link token was redeemed, no sequence of requests to the authentication
    endpoints and clean-ups, whatever their arguments, outcomes and times, leads
    to a state in which it is accepted again: redeeming it fails to
    authenticate.  For the one-time tokens this holds even of a redemption whose
    checks had already passed before: its conditional update finds no row. *)
Theorem tokens_single_use k n w w1 w2 :
  db_ok (s_db (w_db w)) → (n < w_next w)%N →
  redeem k (token_urlsafe n) w = (Ok tt, w1) →
  auth_reachable w1 w2 → (w_next w2 <= token_space)%N →
  (∃ c, (redeem k (token_urlsafe n) w2).1 = Raise (AuthenticationFailed c)) ∧
  ∀ now update, late_update k (token_urlsafe n) now = Some update →
    (update w2).1 = Raise (AuthenticationFailed "token_used").
Proof.
  intros Hok Hn Hrun Hr Hspace.
  destruct (reachable_dead k n w1 w2) as [Hbig|[_ Hd]]; [done|by apply (redeem_dead k n w)|lia|].
  split; [by apply dead_refused|]. intros now update Hl.
  destruct k; [discriminate Hl|..]; injection Hl as <-.
  - by apply (dead_update EmailVerificationToken).
  - by apply (dead_update PasswordResetToken).
  - by apply (dead_update SocialLinkRequest).
Qed.
End Facts.
