(* ===== verification/SessionFacts.v ===== *)
(** * Correctness of sessions

    Rotation of refresh tokens, acceptance of access tokens, password changes,
    e-mail verification, OAuth account resolution and the clean-up. *)

From S2P Require Import Prelude PyVal Effects Domain Relational Store StoreFacts Django Auth.
From S2P Require Import AuthViews TokenFacts.

#[local] Open Scope string_scope.

Section Facts.
  Context `{DjangoLib} `{AuthBackend} `{SecretsLaws} `{JWT}.

(** ** Helper lemmas *)

Lemma revoke_where_lookup p now d i r' :
  d_refresh (revoke_where p now d) !! i = Some r' ↔
  ∃ r, d_refresh d !! i = Some r ∧
    r' = if p r && is_none r.(rt_revoked_at) then refresh_revoke now r else r.
Proof.
  unfold revoke_where. cbn. rewrite lookup_fmap_Some. split; intros (r & ? & ?); exists r; naive_solver.
Qed.

Lemma revoke_where_by_hash p now d h i row :
  refresh_by_hash h d = Some (i, row) →
  refresh_by_hash h (revoke_where p now d) =
    Some (i, if p row && is_none row.(rt_revoked_at) then refresh_revoke now row else row).
Proof.
  intros Hf. unfold refresh_by_hash, tfind, revoke_where. cbn.
  rewrite tbest_fmap; [|intros ??; by case_match|done].
  by change (tbest _ _ _) with (refresh_by_hash h d); rewrite Hf.
Qed.

(** Every token of the user is revoked. *)
Definition all_revoked (user : uuid) (d : db) : Prop :=
  map_Forall (λ _ r, r.(rt_user) = user → is_Some r.(rt_revoked_at)) d.(d_refresh).

Lemma revoke_all_run user w :
  ∃ w', revoke_all_refresh_tokens user w = (Ok tt, w') ∧ w_now w' = w_now w ∧ w_next w' = w_next w ∧
    s_cache (w_db w') = s_cache (w_db w) ∧
    s_db (w_db w') = revoke_where (λ r, b_eq r.(rt_user) user) (w_now w) (s_db (w_db w)).
Proof. unfold revoke_all_refresh_tokens. munfold. rewrite dexec_run. by eexists. Qed.

Lemma revoke_all_revoked user now d :
  all_revoked user (revoke_where (λ r, b_eq r.(rt_user) user) now d).
Proof.
  intros i r' (r & Hr & ->)%revoke_where_lookup. case_match eqn:E; [by eexists|].
  rewrite andb_false_iff, b_eq_false, is_none_false in E. tauto.
Qed.

Lemma revoke_where_other user now d j r :
  r.(rt_user) ≠ user →
  d_refresh (revoke_where (λ r, b_eq r.(rt_user) user) now d) !! j = Some r ↔ d_refresh d !! j = Some r.
Proof.
  intros Hr. rewrite revoke_where_lookup. split.
  - intros (b & Hb & ->). revert Hr. case_match eqn:E; [|done].
    rewrite andb_true_iff, b_eq_true in E. cbn. naive_solver.
  - intros Hj. exists r. split; [done|]. by rewrite (proj2 (b_eq_false _ _) Hr).
Qed.

Lemma refresh_user d i r : db_ok d → d_refresh d !! i = Some r → is_Some (d_users d !! r.(rt_user)).
Proof.
  intros Hok Hr. destruct (db_ok_tokens d Hok) as [Ht _].
  pose proof (table_ok_row _ _ _ _ _ Ht Hr) as Hrow. unfold row_ok in Hrow.
  rewrite !andb_true_iff in Hrow. destruct Hrow as [_ Hrow]. cbn in Hrow. rewrite andb_true_r in Hrow.
  by apply not_none_true.
Qed.

(** A presented token that is known and revoked. *)
Lemma rotate_revoked raw w i row u :
  refresh_by_hash (_hash_token raw) (s_db (w_db w)) = Some (i, row) →
  is_Some row.(rt_revoked_at) → d_users (s_db (w_db w)) !! row.(rt_user) = Some u →
  ∃ w', rotate_refresh_token raw w = (Raise (AuthenticationFailed "token_revoked"), w') ∧
    s_db (w_db w') = revoke_where (λ r, b_eq r.(rt_user) row.(rt_user)) (w_now w) (s_db (w_db w)).
Proof.
  intros Hf [t Ht] Hu. unfold rotate_refresh_token, rotate_checks. rewrite !bind_run.
  unfold dquery, query. rewrite Hf. cbn. rewrite Hu. cbn. rewrite bind_run. cbn. rewrite Ht. cbn.
  rewrite bind_run. destruct (revoke_all_run (rt_user row) w) as (w' & -> & _ & _ & _ & Hd). by eexists.
Qed.

Lemma refresh_by_hash_unique d i row :
  db_ok d → d_refresh d !! i = Some row → refresh_by_hash row.(rt_token_hash) d = Some (i, row).
Proof.
  intros Hok Hr. apply tfind_unique; [done|by apply b_eq_refl|]. intros j b Hb Hh. rewrite b_eq_true in Hh.
  destruct (db_ok_tokens d Hok) as [Ht _]. symmetry.
  eapply (hashes_unique refresh_schema _ _ rt_token_hash); [exact Ht|by left|exact Hr|exact Hb|done].
Qed.

(** Rows with fresh identifiers and hashes: what the supply still to be drawn
    does not meet in the table of refresh tokens. *)
Definition refresh_supply (w : world store) : Prop :=
  map_Forall (λ i r, (i < w_next w)%N ∧
    ∀ n, (w_next w <= n)%N → (n < token_space)%N → r.(rt_token_hash) ≠ _hash_token (token_urlsafe n))
    (d_refresh (s_db (w_db w))).

Lemma refresh_supply_insert i r w d :
  refresh_supply w → (i < w_next w)%N →
  (∀ n, (w_next w <= n)%N → (n < token_space)%N → r.(rt_token_hash) ≠ _hash_token (token_urlsafe n)) →
  d_refresh d = <[i := r]> (d_refresh (s_db (w_db w))) →
  refresh_supply (set_db (mkStore d (s_cache (w_db w)) (s_media (w_db w))) w).
Proof.
  intros Hs Hi Hr Hd j b. cbn. rewrite Hd. intros [[<- <-]|[_ Hb]]%lookup_insert_Some; [done|by apply Hs].
Qed.

(** A session is always opened: the INSERT of a fresh token succeeds. *)
Lemma create_refresh_total u w :
  db_ok (s_db (w_db w)) → refresh_supply w → (w_next w + 2 <= token_space)%N →
  is_Some (d_users (s_db (w_db w)) !! u) →
  ∃ w', create_refresh_token u w = (Ok (token_urlsafe (w_next w)), w') ∧ refresh_supply w' ∧
    db_ok (s_db (w_db w')).
Proof.
  intros Hok Hs Hn [x Hu]. unfold create_refresh_token, fresh_token. munfold. rewrite dexec_run. cbn.
  set (row := mkRefreshRow u _ _ _ _).
  assert (insert_refresh (w_next w + 1) row (s_db (w_db w)) =
    Ok (set_refresh (<[(w_next w + 1)%N := row]> (d_refresh (s_db (w_db w)))) (s_db (w_db w)))) as Hi.
  { unfold insert_refresh, fresh_pk. destruct (d_refresh _ !! _) as [r|] eqn:Hr.
    { destruct (Hs _ _ Hr). lia. }
    cbn. unfold save_refresh. rewrite tput_Ok; [done|..].
    - unfold row_ok. cbn -[varchar]. unfold _hash_token. by rewrite sha256_hex_length, Hu.
    - repeat constructor. apply conflicts_false. intros j b Hb _ _ [= Hk].
      destruct (Hs _ _ Hb) as [_ Hf]. destruct (Hf (w_next w)); [lia|lia|exact Hk]. }
  rewrite Hi. eexists. split; [reflexivity|]. split; [|by eapply insert_refresh_ok].
  intros j b. cbn. intros [[<- <-]|[_ Hb]]%lookup_insert_Some.
  - split; [lia|]. intros n Hn1 Hn2. cbn. unfold _hash_token. intros Heq%sha256_hex_inj; lia.
  - destruct (Hs _ _ Hb) as [Hj Hf]. split; [lia|]. intros n Hn1. apply Hf. lia.
Qed.

(** A presented token that is known and revoked ends every session of its user,
    and of its user only. *)
Lemma reuse_detected raw w i row u :
  refresh_by_hash (_hash_token raw) (s_db (w_db w)) = Some (i, row) →
  is_Some row.(rt_revoked_at) → d_users (s_db (w_db w)) !! row.(rt_user) = Some u →
  ∃ w', rotate_refresh_token raw w = (Raise (AuthenticationFailed "token_revoked"), w') ∧
    all_revoked row.(rt_user) (s_db (w_db w')) ∧
    s_db (w_db w') = revoke_where (λ r, b_eq r.(rt_user) row.(rt_user)) (w_now w) (s_db (w_db w)).
Proof.
  intros Hf Ht Hu. destruct (rotate_revoked _ _ _ _ _ Hf Ht Hu) as (w' & Hrun & Hd).
  exists w'. rewrite Hd. split; [done|]. split; [apply revoke_all_revoked|done].
Qed.

(** The writes of a rotation succeed. *)
Lemma rotate_writes_total i row cur u w :
  db_ok (s_db (w_db w)) → refresh_supply w → (w_next w + 2 <= token_space)%N →
  d_refresh (s_db (w_db w)) !! i = Some cur → d_users (s_db (w_db w)) !! row.(rt_user) = Some u →
  ∃ w', rotate_writes (i, row) w = (Ok (token_urlsafe (w_next w)), w') ∧ refresh_supply w' ∧
    db_ok (s_db (w_db w')) ∧ w_now w' = w_now w ∧ w_next w' = (w_next w + 2)%N ∧
    s_db (w_db w') = set_refresh
      (<[(w_next w + 1)%N := mkRefreshRow row.(rt_user) (_hash_token (token_urlsafe (w_next w))) (w_now w)
           (w_now w + REFRESH_TOKEN_LIFETIME) None]>
        (<[i := refresh_revoke (w_now w) cur]> (d_refresh (s_db (w_db w))))) (s_db (w_db w)).
Proof.
  intros Hok Hs Hn Hrow Hu. unfold rotate_writes. rewrite bind_run. cbn [utcnow].
  unfold utcnow. rewrite bind_run, dexec_run. cbn. rewrite Hrow.
  set (d := s_db (w_db w)) in *. set (row' := refresh_revoke (w_now w) cur).
  assert (save_refresh i row' d = Ok (set_refresh (<[i := row']> (d_refresh d)) d)) as Hsave.
  { destruct (db_ok_tokens d Hok) as [Ht _]. unfold save_refresh. rewrite tput_Ok; [done|..].
    - exact (table_ok_row _ _ _ _ _ Ht Hrow).
    - repeat constructor. apply conflicts_false. intros j b Hb Hne _ [= Hk]. apply Hne.
      by eapply (hashes_unique refresh_schema _ _ rt_token_hash); [exact Ht|by left|exact Hb|exact Hrow|]. }
  rewrite Hsave. set (w1 := set_db _ w).
  destruct (create_refresh_total row.(rt_user) w1) as (w' & Hrun & Hs' & Hok').
  - by eapply save_refresh_ok.
  - intros j b. cbn. intros [[<- <-]|[_ Hb]]%lookup_insert_Some; [exact (Hs _ _ Hrow)|exact (Hs _ _ Hb)].
  - done.
  - by exists u.
  - pose proof Hrun as (_ & Hnx & Hnow & _ & _ & _ & Hd)%create_refresh_run.
    exists w'. split; [exact Hrun|]. by split_and!.
Qed.

(** ** Properties *)

(** C27. Rotation of refresh tokens, on every branch.  A token that is unknown,
    expired or of an inactive user is refused and nothing changes.  A revoked one
    is refused and every token of its user is revoked, no other user's.  Any
    other is revoked and replaced by a fresh one of seven days, always; if the
    old one is presented again, at whatever time, it is refused and the
    replacement is refused from then on. *)
Theorem refresh_rotation raw w :
  db_ok (s_db (w_db w)) → refresh_supply w → (w_next w + 2 <= token_space)%N →
  match refresh_by_hash (_hash_token raw) (s_db (w_db w)) with
  | None => rotate_refresh_token raw w = (Raise (AuthenticationFailed "invalid_token"), w)
  | Some (i, row) =>
      ∃ u, d_users (s_db (w_db w)) !! row.(rt_user) = Some u ∧
      if not_none row.(rt_revoked_at) then
        ∃ w', rotate_refresh_token raw w = (Raise (AuthenticationFailed "token_revoked"), w') ∧
          all_revoked row.(rt_user) (s_db (w_db w')) ∧
          ∀ j r, r.(rt_user) ≠ row.(rt_user) →
            d_refresh (s_db (w_db w')) !! j = Some r ↔ d_refresh (s_db (w_db w)) !! j = Some r
      else if (row.(rt_expires_at) <=? w_now w)%Z
      then rotate_refresh_token raw w = (Raise (AuthenticationFailed "token_expired"), w)
      else if negb u.(u_is_active)
      then rotate_refresh_token raw w = (Raise (AuthenticationFailed "user_not_found"), w)
      else
        ∃ new w', rotate_refresh_token raw w = (Ok (row.(rt_user), u, new), w') ∧
          d_refresh (s_db (w_db w')) =
            <[(w_next w + 1)%N := mkRefreshRow row.(rt_user) (_hash_token new) (w_now w)
                (w_now w + days 7) None]>
              (<[i := refresh_revoke (w_now w) row]> (d_refresh (s_db (w_db w)))) ∧
          ∀ t, ∃ w1, rotate_refresh_token raw (set_now t w') =
              (Raise (AuthenticationFailed "token_revoked"), w1) ∧
            ∀ t', (rotate_refresh_token new (set_now t' w1)).1 =
              Raise (AuthenticationFailed "token_revoked")
  end.
Proof.
  intros Hok Hs Hn. destruct (refresh_by_hash _ _) as [[i row]|] eqn:Hf.
  2:{ unfold rotate_refresh_token, rotate_checks, dquery. munfold. by rewrite Hf. }
  pose proof Hf as [Hrow Hh]%tfind_Some. rewrite b_eq_true in Hh.
  destruct (refresh_user _ _ _ Hok Hrow) as [u Hu]. exists u. split; [done|].
  destruct (not_none _) eqn:Hrev.
  { rewrite not_none_true in Hrev. destruct (reuse_detected _ _ _ _ _ Hf Hrev Hu) as (w' & Hrun & Hall & Hd).
    exists w'. split; [done|]. split; [done|]. intros j r Hr. rewrite Hd. by apply revoke_where_other. }
  rewrite not_none_false in Hrev.
  unfold rotate_refresh_token at 1 2 3. rewrite !bind_run.
  assert (rotate_checks raw w = if (rt_expires_at row <=? w_now w)%Z
      then (Raise (AuthenticationFailed "token_expired"), w)
      else if negb (u_is_active u) then (Raise (AuthenticationFailed "user_not_found"), w)
      else (Ok (i, row, u), w)) as ->.
  { unfold rotate_checks, dquery. munfold. rewrite Hf. cbn. rewrite Hu. cbn. rewrite Hrev. cbn.
    by repeat case_match. }
  destruct (_ <=? _)%Z; [done|]. destruct (u_is_active u); [cbn [negb]|done].
  destruct (rotate_writes_total i row row u w) as (w' & Hrun & _ & Hok' & _ & _ & Hd); [done..|].
  eexists _, w'. rewrite bind_run. cbn [fst snd]. rewrite Hrun. split; [done|]. rewrite Hd.
  split; [done|]. intros t. 
  destruct (Hs _ _ Hrow) as [Hi _]. set (new := token_urlsafe (w_next w)) in *.
  set (old := refresh_revoke (w_now w) row). set (fresh := mkRefreshRow _ _ _ _ _) in *.
  assert (refresh_by_hash (_hash_token raw) (s_db (w_db (set_now t w'))) = Some (i, old)) as Hold.
  { rewrite <-Hh. apply (refresh_by_hash_unique _ i old Hok'). rewrite Hd. cbn.
    by rewrite lookup_insert_ne, lookup_insert_eq by lia. }
  assert (refresh_by_hash (_hash_token new) (s_db (w_db w')) = Some ((w_next w + 1)%N, fresh)) as Hnew.
  { apply (refresh_by_hash_unique _ _ fresh Hok'). rewrite Hd. apply lookup_insert_eq. }
  assert (d_users (s_db (w_db w')) = d_users (s_db (w_db w))) as Husers by (by rewrite Hd).
  destruct (reuse_detected raw (set_now t w') i old u Hold) as (w1 & Hrun1 & _ & Hd1);
    [by eexists|cbn; by rewrite Husers|].
  exists w1. split; [done|]. intros t'.
  assert (refresh_by_hash (_hash_token new) (s_db (w_db w1)) =
    Some ((w_next w + 1)%N, refresh_revoke t fresh)) as Hnew1.
  { rewrite Hd1. etrans; [exact (revoke_where_by_hash _ _ _ _ _ _ Hnew)|]. cbn. by rewrite b_eq_refl. }
  destruct (reuse_detected new (set_now t' w1) _ _ u Hnew1) as (w2 & -> & _); [by eexists| |done].
  cbn. rewrite Hd1. cbn. by rewrite Husers.
Qed.

(** Rotation is not atomic.  When two requests present the same token and
    both run their checks before either writes, both succeed: the token is
    rotated into two different ones that are both accepted afterwards, so the
    reuse goes undetected. *)
Theorem rotation_race raw w rt u :
  db_ok (s_db (w_db w)) → refresh_supply w → (w_next w + 4 <= token_space)%N →
  rotate_checks raw w = (Ok (rt, u), w) →
  ∃ a b w1 w2, rotate_writes rt w = (Ok a, w1) ∧ rotate_writes rt w1 = (Ok b, w2) ∧ a ≠ b ∧
    (∃ ra, rotate_checks a w2 = (Ok (ra, u), w2)) ∧ (∃ rb, rotate_checks b w2 = (Ok (rb, u), w2)).
Proof.
  intros Hok Hs Hn (_ & Hf & _ & _ & Hu & Ha)%rotate_checks_run. destruct rt as [i row]. cbn in *.
  apply tfind_Some in Hf as [Hrow _]. pose proof (Hs _ _ Hrow) as [Hi _].
  destruct (rotate_writes_total i row row u w) as (w1 & Hrun1 & Hs1 & Hok1 & Hnow1 & Hnx1 & Hd1);
    [done|done|lia|done..|].
  set (cur := refresh_revoke (w_now w) row) in *.
  destruct (rotate_writes_total i row cur u w1) as (w2 & Hrun2 & _ & Hok2 & Hnow2 & _ & Hd2);
    [done|done|lia| |by rewrite Hd1|].
  { rewrite Hd1. cbn. by rewrite lookup_insert_ne, lookup_insert_eq by lia. }
  rewrite Hnx1 in *. eexists _, _, w1, w2. split; [exact Hrun1|]. split; [exact Hrun2|].
  assert (∀ n, d_refresh (s_db (w_db w2)) !! (n + 1)%N = Some (mkRefreshRow row.(rt_user)
      (_hash_token (token_urlsafe n)) (w_now w) (w_now w + REFRESH_TOKEN_LIFETIME) None) →
    ∃ r, rotate_checks (token_urlsafe n) w2 = (Ok (r, u), w2)) as Hlive.
  { intros n Hrn. pose proof (refresh_by_hash_unique _ _ _ Hok2 Hrn) as Hfn. cbn in Hfn.
    unfold rotate_checks, dquery. munfold. rewrite Hfn. cbn. rewrite Hd2, Hd1. cbn. rewrite Hu. cbn.
    destruct (Z.leb_spec (w_now w + REFRESH_TOKEN_LIFETIME) (w_now w2)); [|rewrite Ha; by eexists].
    rewrite Hnow2, Hnow1 in *. by unfold REFRESH_TOKEN_LIFETIME, days, hours, minutes, seconds in *; lia. }
  split_and!.
  - intros Heq. pose proof (f_equal sha256_hex Heq) as Heq'%sha256_hex_inj; lia.
  - apply Hlive. rewrite Hd2. cbn. rewrite !lookup_insert_ne, Hd1 by lia. apply lookup_insert_eq.
  - apply Hlive. rewrite Hd2. cbn. by rewrite lookup_insert_eq, Hnow1.
Qed.
End Facts.

(** ** The periodic clean-up deletes exactly the expired rows *)

Module Cleanup.
Section Facts.
  Context {A : Type} (expires_at : A → datetime) (now : datetime).
  Implicit Types t : table A.

(** ** Helper lemmas *)

Definition expired t : table A := tfilter (λ _ a, (expires_at a <? now)%Z) t.
Definition unexpired t : table A := tfilter (λ _ a, negb (expires_at a <? now)%Z) t.

Lemma expired_ids t i :
  i ∈ (fst <$> rows (expired t)) ↔ ∃ a, t !! i = Some a ∧ (expires_at a <? now)%Z = true.
Proof.
  rewrite list_elem_of_fmap. split.
  - intros ([j a] & -> & [? ?]%rows_elem%tfilter_lookup). by exists a.
  - intros (a & Ha & He). exists (i, a). split; [done|]. by apply rows_elem, tfilter_lookup.
Qed.

(** Deleting expired rows leaves the unexpired ones. *)
Lemma unexpired_delete t (ids : list N) :
  (∀ i, i ∈ ids → i ∈ (fst <$> rows (expired t))) →
  unexpired (tfilter (λ i _, negb (bool_decide (i ∈ ids))) t) = unexpired t.
Proof.
  intros Hids. apply map_eq. intros i. apply option_eq. intros a. unfold unexpired. rewrite !tfilter_lookup.
  split; [tauto|]. intros [Ha He]. split_and!; [done| |done].
  rewrite negb_true_iff, bool_decide_eq_false. intros (b & Hb & Hx)%Hids%expired_ids.
  rewrite negb_true_iff in He. congruence.
Qed.

(** Deleting all of them is keeping the unexpired ones. *)
Lemma delete_all_expired t :
  tfilter (λ i _, negb (bool_decide (i ∈ (fst <$> rows (expired t))))) t = unexpired t.
Proof.
  apply map_eq. intros i. apply option_eq. intros a. unfold unexpired. rewrite !tfilter_lookup.
  split; intros [Ha He]; split; try done; rewrite negb_true_iff in *.
  - rewrite bool_decide_eq_false in He. apply not_true_iff_false. intros Hx. apply He, expired_ids. eauto.
  - apply bool_decide_eq_false. intros (b & Hb & Hx)%expired_ids. congruence.
Qed.

(** A turn that deletes a row makes progress. *)
Lemma expired_decreases t (ids : list N) i :
  i ∈ ids → i ∈ (fst <$> rows (expired t)) →
  (size (expired (tfilter (λ i _, negb (bool_decide (i ∈ ids))) t)) < size (expired t))%nat.
Proof.
  intros Hi (a & Ha & He)%expired_ids. apply map_subset_size. split.
  - apply map_subseteq_spec. intros j b. unfold expired. rewrite !tfilter_lookup. tauto.
  - rewrite map_subseteq_spec. intros Hsub.
    assert (expired t !! i = Some a) as Hx by by apply tfilter_lookup.
    apply Hsub, tfilter_lookup in Hx as [[_ Hx]%tfilter_lookup _].
    by rewrite bool_decide_eq_true_2 in Hx.
Qed.

Lemma delete_expired_enough fuel t :
  (size (expired t) < fuel)%nat → delete_expired_rows fuel expires_at now t = unexpired t.
Proof.
  assert (0 < _EXPIRED_ROW_DELETE_BATCH)%nat as HB by (apply Nat.ltb_lt; reflexivity).
  revert t. induction fuel as [|fuel IH]; intros t Hf; [lia|]. cbn [delete_expired_rows].
  unfold expired_batch. change (tfilter _ t) with (expired t) at 1 2.
  set (all := fst <$> rows (expired t)). set (B := _EXPIRED_ROW_DELETE_BATCH) in *. clearbody B.
  destruct (take B all) as [|i ids] eqn:Hids.
  { assert (all = []) as Hall by (clearbody all; destruct all; [done|destruct B; [lia|done]]).
    rewrite <-delete_all_expired. fold all. rewrite Hall. apply map_eq. intros i. apply option_eq. intros a.
    rewrite tfilter_lookup. rewrite bool_decide_eq_false_2 by apply not_elem_of_nil. naive_solver. }
  assert (∀ j, j ∈ i :: ids → j ∈ all) as Hsub.
  { intros j Hj. rewrite <-Hids in Hj. by apply (subseteq_take B all). }
  destruct (Nat.ltb_spec (length (i :: ids)) B) as [Hlen|_].
  - rewrite <-Hids, length_take in Hlen. change (rows _).*1 with all. rewrite take_ge by lia. apply delete_all_expired.
  - change (rows _).*1 with all. rewrite Hids. rewrite IH; [by apply unexpired_delete|].
    pose proof (expired_decreases t (i :: ids) i (list_elem_of_here _ _) (Hsub _ (list_elem_of_here _ _))). lia.
Qed.

(** ** Properties *)

(** The clean-up of a token table terminates, whatever its size and the
    size of the batches, and deletes exactly the rows that have expired: it is
    the one-statement deletion it replaces. *)
Theorem delete_expired_exact t : _delete_expired_rows expires_at now t = unexpired t.
Proof.
  apply delete_expired_enough. apply Nat.lt_succ_r, map_subseteq_size.
  apply map_subseteq_spec. intros i a [? _]%tfilter_lookup. done.
Qed.
End Facts.
End Cleanup.
