(* ===== verification/Orgs.v ===== *)
(** * Organisations

    [apps/orgs/services.py] and the deletion tasks of [apps/orgs/tasks.py]: slug
    generation, team checkout, invitation acceptance and the deletion cascades. *)

From S2P Require Import Prelude PyVal Effects Domain Relational Store Django Auth Repos.
From S2P Require Import Repositories Webhooks Billing.

#[local] Open Scope string_scope.

(** ** Slugs *)

(** [re.sub(r"[^a-z0-9-]", "", s)]. *)
Definition slug_char (c : ascii) : bool :=
  let n := N_of_ascii c in
  ((97 <=? n) && (n <=? 122) || (48 <=? n) && (n <=? 57) || (n =? 45))%N.

Definition slug_base `{DjangoLib} (name : string) : string :=
  let l := filter (λ c, slug_char c = true) (list_ascii_of_string (slugify name)) in
  let l := strip_chars ["-"%char] l in
  if (length l <? 2)%nat then "org" else string_of_list_ascii l.

Definition is_digit (c : ascii) : bool := not_none (dec_val c).

(** [^base(?:-\d+)?$]. *)
Definition suffix_match (base slug : string) : bool :=
  let b := list_ascii_of_string base in
  let s := list_ascii_of_string slug in
  is_prefix b s &&
  match drop (length b) s with
  | [] => true
  | c :: digits => b_eq c "-"%char && negb (is_none (head digits)) && forallb is_digit digits
  end.

Definition existing_slugs (base : string) (d : db) : list string :=
  filter (λ s, suffix_match base s = true)
    (map (λ r, r.2.(o_slug)) (rows (tfilter
      (λ _ o, is_prefix (list_ascii_of_string base) (list_ascii_of_string o.(o_slug))) d.(d_orgs)))).

Definition candidate (base : string) (n : N) : string := base ++ "-" ++ pretty n.

(** The loop [while f"{base}-{suffix}" in existing: suffix += 1]; one more turn
    than there are existing slugs is enough ([OrgFacts.slug_loop_enough]). *)
Fixpoint slug_loop (fuel : nat) (existing : list string) (base : string) (suffix : N) : N :=
  match fuel with
  | O => suffix
  | S fuel =>
      if str_in (candidate base suffix) existing then slug_loop fuel existing base (suffix + 1)
      else suffix
  end.

Definition unique_slug (base : string) (existing : list string) : string :=
  if negb (str_in base existing) then base
  else candidate base (slug_loop (S (length existing)) existing base 2).

Definition generate_unique_slug `{DjangoLib} (name : string) (d : db) : string :=
  let base := slug_base name in unique_slug base (existing_slugs base d).

(** ** Definitions *)

Section Orgs.
  Context `{DjangoLib} `{Secrets} `{StripeServer}.

(** [_create_org_with_owner]: the org's id. *)
Definition member_of (d : db) (org user : uuid) : option (N * MemberRow) :=
  tfind (λ _ m, b_eq m.(m_org) org && b_eq m.(m_user) user) d.(d_members).

Definition already_created (stripe_customer_id : string) (user : uuid) (d : db) : option uuid :=
  match customer_by_stripe_id d stripe_customer_id ≫= cus_org_id with
  | Some org =>
      match d.(d_orgs) !! org, member_of d org user with
      | Some _, Some _ => Some org
      | _, _ => None
      end
  | None => None
  end.

Definition _create_org_with_owner (user : uuid) (org_name : string)
    (stripe_customer_id : option string) (livemode : bool) : M store uuid :=
  atomic (
    existing ← dquery (λ d, k ← stripe_customer_id; already_created k user d);
    match existing with
    | Some org => mret org
    | None =>
        slug ← dquery (generate_unique_slug org_name);
        now ← utcnow;
        org ← uuid4;
        dexec (insert_org org (mkOrgRow org_name slug None (Some user) now));;
        member ← uuid4;
        dexec (insert_member member (mkMemberRow org user OWNER true now));;
        match stripe_customer_id with
        | Some k =>
            customer ← uuid4;
            dexec (insert_customer (mkStripeCustomer customer k None (Some org) livemode now))
        | None => mret tt
        end;;
        mret org
    end).

Definition _persist_team_subscription (stripe_subscription_id : string) : M store unit :=
  sub ← stripe (SubscriptionRetrieve stripe_subscription_id);
  sync_subscription_from_data sub.

Definition _schedule_personal_cancel_at_period_end (user_id : uuid) : M store unit :=
  personal_customer ← query (λ s, custs_get_by_user_id s user_id);
  match personal_customer with
  | None => mret tt
  | Some c =>
      catch (cancel_subscription c.(cus_id) true)
        (λ e, match e with SubscriptionNotFoundError _ => mret tt | e => raise e end)
  end.

Definition on_team_checkout_completed (user_id : uuid) (org_name stripe_customer_id : string)
    (livemode : bool) (stripe_subscription_id : option string) (keep_personal_subscription : bool) :
    M store unit :=
  objects_get (λ d, d.(d_users) !! user_id) "User";;
  _create_org_with_owner user_id org_name (Some stripe_customer_id) livemode;;
  match stripe_subscription_id with
  | Some k => _persist_team_subscription k
  | None => mret tt
  end;;
  if keep_personal_subscription then mret tt else _schedule_personal_cancel_at_period_end user_id.

Definition delete_org_on_subscription_cancel (org_id : uuid) : M store unit :=
  delay (delete_org_on_subscription_cancel_task_delay (uuid_str org_id)).

(** [stripe_customer__org=org, status__in=ACTIVE_SUBSCRIPTION_STATUSES]. *)
Definition sub_customer_org (d : db) (s : Subscription) : option uuid :=
  s.(sub_stripe_customer_id) ≫= λ c, d.(d_customers) !! c ≫= cus_org_id.

Definition org_active_sub (d : db) (org : uuid) (s : Subscription) : bool :=
  b_eq (sub_customer_org d s) (Some org) && sub_is_active s.

Definition lock_active_team_sub (org : uuid) (d : db) : option Subscription :=
  snd <$> tfind (λ _ s, org_active_sub d org s) d.(d_subs).

Definition member_count (org : uuid) (d : db) : nat :=
  tcount (λ _ m, b_eq m.(m_org) org) d.(d_members).

Definition invitation_set_status (st : InvitationStatus) (i : InvitationRow) : InvitationRow :=
  mkInvitationRow i.(i_org) i.(i_email) i.(i_role) i.(i_token) st i.(i_invited_by)
    i.(i_created_at) i.(i_expires_at).

(** [invitation.status = ...; invitation.save(update_fields=["status"])]. *)
Definition save_invitation_status (inv_id : uuid) (st : InvitationStatus) : M store unit :=
  dexec (λ d,
    match d.(d_invitations) !! inv_id with
    | Some row => save_invitation inv_id (invitation_set_status st row) d
    | None => Raise (DatabaseError "Save with update_fields did not affect any rows.")
    end).

(** The seat check of [accept_invitation], under the lock on the subscription. *)
Definition check_accept_seats (org : uuid) : M store unit :=
  sub ← dquery (lock_active_team_sub org);
  match sub with
  | Some sub =>
      count ← dquery (member_count org);
      if (sub.(sub_seat_limit) <? Z.of_nat count + 1)%Z
      then raise (SeatCapReachedAtAcceptError
                    "This invitation cannot be accepted: the org has filled every seat on its current subscription. Ask an admin to expand the plan.")
      else mret tt
  | None => mret tt
  end.

Definition accept_invitation (inv_id : uuid) (invitation : InvitationRow) (full_name : string) :
    M store (uuid * uuid) :=
  let org := invitation.(i_org) in
  atomic (
    check_accept_seats org;;
    user ← create_user invitation.(i_email) None full_name None false "email";
    member ← uuid4;
    now ← utcnow;
    dexec (insert_member member (mkMemberRow org user.1 invitation.(i_role) false now));;
    save_invitation_status inv_id ACCEPTED;;
    token ← create_email_verification_token user.1;
    on_commit (send_verification_email_task_delay user.2.(u_email) token);;
    mret (user.1, org)).

(** ** Deletion *)

(** An active personal subscription of the user ([_personal_subs_outer_ref_qs]). *)
Definition has_personal_sub (d : db) (user : uuid) : bool :=
  not_none (tfind (λ _ s, b_eq s.(sub_user_id) (Some user) && b_eq (sub_customer_user d s) (Some user)
                          && sub_is_active s) d.(d_subs)).

(** The users the cascade deletes with the orgs [p]: members of them, of no
    other org, without an active personal subscription. *)
Definition deletable (p : N → bool) (d : db) (user : uuid) : bool :=
  not_none (tfind (λ _ m, p m.(m_org) && b_eq m.(m_user) user) d.(d_members))
  && is_none (tfind (λ _ m, negb (p m.(m_org)) && b_eq m.(m_user) user) d.(d_members))
  && negb (has_personal_sub d user).

Definition cancel_pending (p : N → bool) (d : db) : db :=
  set_invitations ((λ i, if p i.(i_org) && is_pending i.(i_status)
                         then invitation_set_status CANCELLED i else i) <$> d.(d_invitations)) d.

Definition drop_members (p : N → bool) (d : db) : db :=
  set_members (tfilter (λ _ m, negb (p m.(m_org))) d.(d_members)) d.

(** The transaction [_delete_org_db_only] and [delete_orgs_created_by_user]
    share. *)
Definition delete_orgs_db (p : N → bool) : M store unit :=
  atomic (
    dexec (λ d, Ok (cancel_pending p d));;
    gone ← dquery (deletable p);
    delete_users_m gone;;
    dexec (λ d, Ok (drop_members p d));;
    dexec (λ d, Ok (delete_orgs p d))).

Definition _delete_org_db_only (org : uuid) : M store unit := delete_orgs_db (b_eq org).

Definition _get_active_stripe_sub (org : uuid) (d : db) : option Subscription :=
  snd <$> tlatest sub_created_at
    (λ _ s, org_active_sub d org s && not_none s.(sub_stripe_id)) d.(d_subs).

Definition delete_org (org : uuid) : M store unit :=
  active_sub ← dquery (_get_active_stripe_sub org);
  _delete_org_db_only org;;
  match active_sub ≫= sub_stripe_id with
  | Some k => on_commit (cancel_stripe_subs_task_delay [k] (uuid_str org))
  | None => mret tt
  end.

Definition created_orgs (user : uuid) (d : db) : list uuid :=
  fst <$> rows (tfilter (λ _ o, b_eq o.(o_created_by) (Some user)) d.(d_orgs)).

Definition delete_orgs_created_by_user (user_id : uuid) : M store unit :=
  org_ids ← dquery (created_orgs user_id);
  match org_ids with
  | [] => mret tt
  | _ =>
      pending ← dquery (λ d, omap (λ o, _get_active_stripe_sub o d ≫= sub_stripe_id) org_ids);
      delete_orgs_db (λ o, bool_decide (o ∈ org_ids));;
      match pending with
      | [] => mret tt
      | _ => on_commit (cancel_stripe_subs_task_delay pending ("user:" ++ uuid_str user_id))
      end
  end.

(** ** Tasks *)

Definition delete_org_on_subscription_cancel_task (org_id : string) : M store unit :=
  match uuid_parse org_id with
  | None => raise (ValueError "badly formed hexadecimal UUID string")
  | Some org =>
      row ← dquery (λ d, d.(d_orgs) !! org);
      match row with
      | None => mret tt
      | Some _ => _delete_org_db_only org
      end
  end.

(** The loop of [cancel_stripe_subs_task]: the failures, in order. *)
Fixpoint cancel_all (ids : list string) : M store (list exn) :=
  match ids with
  | [] => mret []
  | sub_id :: ids =>
      failed ← catch (stripe (SubscriptionCancel sub_id (Some false));; mret [])
        (λ e, match e with
              | StripeError cls code _ _ =>
                  if b_eq cls "InvalidRequestError" && b_eq code (Some "resource_missing")
                  then mret [] else mret [e]
              | e => raise e
              end);
      rest ← cancel_all ids;
      mret (failed ++ rest)%list
  end.

Definition cancel_stripe_subs_task (ids : list string) : M store unit :=
  failures ← cancel_all ids;
  match failures with
  | [] => mret tt
  | e :: _ => raise e
  end.

End Orgs.
