(* ===== verification/OrgViews.v ===== *)
(** * Organisation endpoints

    [apps/orgs/views.py]: what the handlers do to the state, from the caller's identity
    and the validated request.  The request bodies, the answers and the reads are in
    [OrgRequests.v]. *)

From S2P Require Import Prelude PyVal Effects Domain Relational Store Django Auth Repos Fields.
From S2P Require Import Repositories Webhooks Billing Orgs.

#[local] Open Scope string_scope.

(** ** Errors: the [APIException] subclasses of the module *)

Definition _InvitationExpired : exn := APIException 410 "invitation_expired".
Definition _InvitationEmailExists : exn := APIException 409 "email_exists".
Definition _InvitationPendingExists : exn := APIException 409 "invitation_pending".
Definition _SeatLimitReached : exn := APIException 409 "seat_limit_reached".
Definition _InvitationAddressedToOther : exn := APIException 403 "forbidden".

Definition _ADMIN_OR_ABOVE : list OrgRole := [OWNER; ADMIN].
Definition _OWNER_ONLY : list OrgRole := [OWNER].
Definition _ASSIGNABLE_ROLES : list OrgRole := [ADMIN; MEMBER].
Definition INVITATION_EXPIRY_DAYS : Z := 7.

(** ** Definitions *)

Definition role_in (r : OrgRole) (l : list OrgRole) : bool := bool_decide (r ∈ l).

Definition _get_org_and_member (user org : uuid) (allowed_roles : option (list OrgRole)) :
    M store (N * MemberRow) :=
  member ← dquery (λ d, member_of d org user);
  match member with
  | None =>
      exists_ ← dquery (λ d, not_none (d.(d_orgs) !! org));
      if exists_ : bool then raise (InsufficientPermissionError "Access denied.")
      else raise (OrgNotFoundError (uuid_str org))
  | Some member =>
      match allowed_roles with
      | Some roles =>
          if negb (role_in member.2.(m_role) roles)
          then raise (InsufficientPermissionError "Insufficient permissions for this action.")
          else mret member
      | None => mret member
      end
  end.

(** [OrgDetailView.patch]; the arguments are the serializer's validated data,
    [logo_url] may be set to null. *)
Definition org_set (name : option string) (logo_url : option (option string)) (o : OrgRow) : OrgRow :=
  mkOrgRow (or_else name o.(o_name)) o.(o_slug) (or_else logo_url o.(o_logo_url)) o.(o_created_by)
    o.(o_created_at).

Definition org_update (org : uuid) (name : option string) (logo_url : option (option string)) :
    M store unit :=
  if is_none name && is_none logo_url then mret tt else
  dexec (λ d,
    match d.(d_orgs) !! org with
    | Some row => save_org org (org_set name logo_url row) d
    | None => Raise (DatabaseError "Save with update_fields did not affect any rows.")
    end).

Definition org_patch (user org : uuid) (name : option string) (logo_url : option (option string)) :
    M store unit :=
  _get_org_and_member user org (Some _ADMIN_OR_ABOVE);;
  org_update org name logo_url.

Definition member_set (role : option OrgRole) (is_billing : option bool) (m : MemberRow) : MemberRow :=
  mkMemberRow m.(m_org) m.(m_user) (or_else role m.(m_role)) (or_else is_billing m.(m_is_billing))
    m.(m_joined_at).

(** [member.save(update_fields=[...])]. *)
Definition save_member_fields (id : uuid) (role : option OrgRole) (is_billing : option bool) :
    M store unit :=
  dexec (λ d,
    match d.(d_members) !! id with
    | Some row => save_member id (member_set role is_billing row) d
    | None => Raise (DatabaseError "Save with update_fields did not affect any rows.")
    end).

(** [OrgMemberDetailView.patch]; [role] and [is_billing] are the request's
    fields, the serializer refuses the owner role. *)
Definition member_update (caller target : N * MemberRow) (role : option OrgRole)
    (is_billing : option bool) : M store unit :=
  if is_none role && is_none is_billing then mret tt
  else
    match role with
    | Some r => lift (check_can_assign_role caller.2.(m_role) r)
    | None => mret tt
    end;;
    save_member_fields target.1 role is_billing.

Definition member_patch (user org member_user : uuid) (role : option OrgRole)
    (is_billing : option bool) : M store unit :=
  caller ← _get_org_and_member user org (Some _ADMIN_OR_ABOVE);
  target ← get_or_404 (λ d, member_of d org member_user);
  lift (check_can_manage_member caller.2.(m_role) target.2.(m_role));;
  if match role with Some r => negb (role_in r _ASSIGNABLE_ROLES) | None => false end
  then raise ValidationError
  else member_update caller target role is_billing.

(** [OrgMemberDetailView.delete]. *)
Definition member_delete (user org member_user : uuid) : M store unit :=
  caller ← _get_org_and_member user org (Some _ADMIN_OR_ABOVE);
  target ← get_or_404 (λ d, member_of d org member_user);
  if is_owner target.2.(m_role)
  then raise (InsufficientPermissionError "Owner cannot be removed. Transfer ownership first.")
  else
    lift (check_can_manage_member caller.2.(m_role) target.2.(m_role));;
    delete_users_m (b_eq target.2.(m_user)).

(** [OrgOwnerView.post]. *)
Definition transfer_to (caller target : N * MemberRow) : M store unit :=
  if negb (b_eq target.2.(m_role) ADMIN)
  then raise (InsufficientPermissionError "Ownership can only be transferred to an admin.")
  else atomic (
    save_member_fields target.1 (Some OWNER) (Some true);;
    save_member_fields caller.1 (Some ADMIN) (Some false)).

Definition transfer_ownership (user org target_user : uuid) : M store unit :=
  caller ← _get_org_and_member user org (Some _OWNER_ONLY);
  target ← get_or_404 (λ d, member_of d org target_user);
  transfer_to caller target.

Section OrgViews.
  Context `{DjangoLib} `{Secrets} `{StripeServer}.

(** [OrgDetailView.delete]. *)
Definition org_delete (user org : uuid) : M store unit :=
  _get_org_and_member user org (Some _OWNER_ONLY);;
  delete_org org.

Definition pending_count (org : uuid) (d : db) : nat :=
  tcount (λ _ i, b_eq i.(i_org) org && is_pending i.(i_status)) d.(d_invitations).

Definition _validate_seat_limit (org : uuid) : M store unit :=
  sub ← dquery (lock_active_team_sub org);
  match sub with
  | None => mret tt
  | Some sub =>
      members ← dquery (member_count org);
      pending ← dquery (pending_count org);
      if (sub.(sub_seat_limit) <=? Z.of_nat members + Z.of_nat pending)%Z
      then raise _SeatLimitReached
      else mret tt
  end.

(** [InvitationListCreateView.post]: the invitation, and for [invitation_create] its
    id. *)
Definition invite (user org : uuid) (email : string) (role : OrgRole) : M store (uuid * InvitationRow) :=
  registered ← dquery (email_is_registered email);
  if registered : bool then raise _InvitationEmailExists else
  pending ← dquery (λ d, not_none (tfind (λ _ i, b_eq i.(i_org) org && b_eq i.(i_email) email
                                              && is_pending i.(i_status)) d.(d_invitations)));
  if pending : bool then raise _InvitationPendingExists else
  token ← fresh_token;
  inviter ← dquery (λ d, d.(d_users) !! user);
  org_row ← dquery (λ d, d.(d_orgs) !! org);
  atomic (
    _validate_seat_limit org;;
    id ← uuid4;
    now ← utcnow;
    let invitation := mkInvitationRow org email role token PENDING (Some user) now
      (now + days INVITATION_EXPIRY_DAYS) in
    dexec (insert_invitation id invitation);;
    on_commit (send_invitation_email_task_delay email token
      (or_else (o_name <$> org_row) "") (or_else (u_full_name <$> inviter) ""));;
    mret (id, invitation)).

Definition invitation_create (user org : uuid) (email : string) (role : OrgRole) : M store uuid :=
  _get_org_and_member user org (Some _ADMIN_OR_ABOVE);;
  if negb (role_in role _ASSIGNABLE_ROLES) then raise ValidationError else
  invitation ← invite user org email role;
  mret invitation.1.

(** [InvitationCancelView.delete]. *)
Definition invitation_cancel (user org invitation_id : uuid) : M store unit :=
  _get_org_and_member user org (Some _ADMIN_OR_ABOVE);;
  get_or_404 (λ d, i ← d.(d_invitations) !! invitation_id;
                   if b_eq i.(i_org) org && is_pending i.(i_status) then Some i else None);;
  save_invitation_status invitation_id CANCELLED.

(** [get_object_or_404(Invitation, token=token, status=PENDING)]. *)
Definition pending_by_token (token : string) (d : db) : option (N * InvitationRow) :=
  tfind (λ _ i, b_eq i.(i_token) token && is_pending i.(i_status)) d.(d_invitations).

(** [InvitationAcceptView.post]: the invitation, when it can be accepted, and the new
    user and the org. *)
Definition acceptable_invitation (token : string) : M store (N * InvitationRow) :=
  inv ← get_or_404 (pending_by_token token);
  now ← utcnow;
  if (inv.2.(i_expires_at) <? now)%Z
  then save_invitation_status inv.1 EXPIRED;; raise _InvitationExpired
  else
    registered ← dquery (email_is_registered inv.2.(i_email));
    if registered : bool then raise _InvitationEmailExists else mret inv.

Definition accept_or_conflict (inv : N * InvitationRow) (full_name : string) : M store (uuid * uuid) :=
  catch (accept_invitation inv.1 inv.2 full_name)
    (λ e, match e with
          | SeatCapReachedAtAcceptError _ => raise _SeatLimitReached
          | e => raise e
          end).

Definition invitation_accept (token full_name : string) : M store (uuid * uuid) :=
  inv ← acceptable_invitation token;
  if (String.length full_name <? 3)%nat || (255 <? String.length full_name)%nat
  then raise ValidationError
  else accept_or_conflict inv full_name.

(** [InvitationDeclineView.post]. *)
Definition invitation_decline (user : uuid) (token : string) : M store unit :=
  inv ← get_or_404 (pending_by_token token);
  u ← objects_get (λ d, d.(d_users) !! user) "User";
  if negb (b_eq (lower u.(u_email)) (lower inv.2.(i_email)))
  then raise _InvitationAddressedToOther
  else save_invitation_status inv.1 DECLINED.

End OrgViews.
