(* ===== verification/OrgRequests.v ===== *)
(** * Organisation requests

    The requests of [apps/orgs/views.py] with their bodies, their answers and the reads:
    the serializers of [apps/orgs/serializers.py] around the handlers of [OrgViews.v].
    The paginator is Django REST framework's: a parameter that reads the page a query
    asks for and writes the query of another page.  The rows that compare equal in the
    order of a listing come in an order of the database's own, another one at every
    page: a second parameter. *)

From S2P Require Import Prelude PyVal Effects Domain Relational Store Django Auth Repos Fields.
From S2P Require Import Repositories Avatar Orgs OrgViews Profile.

#[local] Open Scope string_scope.

(** ** Bodies *)

Definition role_value (r : OrgRole) : string :=
  match r with OWNER => "owner" | ADMIN => "admin" | MEMBER => "member" end.

(** [ChoiceField(choices=_ASSIGNABLE_ROLES)]. *)
Definition assignable_role (s : string) : outcome OrgRole :=
  match base.filter (λ r, role_value r = s) _ASSIGNABLE_ROLES with
  | r :: _ => Ok r
  | [] => Raise ValidationError
  end.

(** The verdict of [URLField] and of [_HTTPS_ONLY] on a trimmed value. *)
Class HttpsURL := https_url : string → bool.
Definition HttpsURLField `{HttpsURL} (s : string) : outcome string :=
  s ← CharField_any s; if https_url s then Ok s else Raise ValidationError.

Record OrgBody := mkOrgBody { ob_name : field string; ob_logo_url : field string }.
Record MemberBody := mkMemberBody { mb_role : field string; mb_is_billing : field bool }.
Record InvitationBody := mkInvitationBody { ib_email : field string; ib_role : field string }.

Definition UpdateOrgSerializer `{HttpsURL} (b : OrgBody) : outcome (option string * option (option string)) :=
  name ← optional (CharField 255) b.(ob_name);
  logo_url ← optional_null HttpsURLField b.(ob_logo_url);
  Ok (name, logo_url).

Definition UpdateMemberSerializer (b : MemberBody) : outcome (option OrgRole * option bool) :=
  role ← optional assignable_role b.(mb_role);
  is_billing ← optional Ok b.(mb_is_billing);
  Ok (role, is_billing).

Definition CreateInvitationSerializer `{EmailValidator} (b : InvitationBody) : outcome (string * OrgRole) :=
  email ← required EmailField b.(ib_email);
  role ← defaulted MEMBER assignable_role b.(ib_role);
  Ok (email, role).

Definition InvitationAcceptSerializer (full_name : field string) : outcome string :=
  required (CharField_between 3 255) full_name.

Definition TransferOwnershipSerializer (user_id : field uuid) : outcome uuid := required Ok user_id.

(** ** Answers *)

Record OrgOut := mkOrgOut {
  oo_id : uuid;
  oo_name : string;
  oo_slug : string;
  oo_logo_url : option string;
  oo_created_at : datetime
}.
Record MemberUserOut := mkMemberUserOut {
  mu_id : uuid;
  mu_email : string;
  mu_full_name : string;
  mu_avatar_url : option string
}.
Record OrgMemberOut := mkOrgMemberOut {
  mo_id : uuid;
  mo_org : OrgOut;
  mo_user : MemberUserOut;
  mo_role : OrgRole;
  mo_is_billing : bool;
  mo_joined_at : datetime
}.
Record InviterOut := mkInviterOut { iv_id : uuid; iv_full_name : string }.
Record PublicInvitationOut := mkPublicInvitationOut {
  pi_id : uuid;
  pi_org : OrgOut;
  pi_role : OrgRole;
  pi_status : InvitationStatus;
  pi_invited_by : option InviterOut;
  pi_created_at : datetime;
  pi_expires_at : datetime
}.
(** The fields of the public view, and the invitee's address. *)
Record InvitationOut := mkInvitationOut { io_public : PublicInvitationOut; io_email : string }.

(** A foreign key followed. *)
Definition related {A} (t : table A) (i : uuid) (model : string) : outcome A :=
  match t !! i with
  | Some a => Ok a
  | None => Raise (DoesNotExist (model ++ " matching query does not exist."))
  end.

Definition OrgSerializer (i : uuid) (o : OrgRow) : OrgOut :=
  mkOrgOut i o.(o_name) o.(o_slug) o.(o_logo_url) o.(o_created_at).

Definition _MemberUserSerializer (i : uuid) (u : UserRow) : MemberUserOut :=
  mkMemberUserOut i u.(u_email) u.(u_full_name) u.(u_avatar_url).

Definition OrgMemberSerializer (d : db) (m : N * MemberRow) : outcome OrgMemberOut :=
  user ← related d.(d_users) m.2.(m_user) "User";
  org ← related d.(d_orgs) m.2.(m_org) "Org";
  Ok (mkOrgMemberOut m.1 (OrgSerializer m.2.(m_org) org) (_MemberUserSerializer m.2.(m_user) user)
        m.2.(m_role) m.2.(m_is_billing) m.2.(m_joined_at)).

Definition _InvitedBySerializer (d : db) (invited_by : option uuid) : outcome (option InviterOut) :=
  match invited_by with
  | None => Ok None
  | Some i => u ← related d.(d_users) i "User"; Ok (Some (mkInviterOut i u.(u_full_name)))
  end.

Definition PublicInvitationSerializer (d : db) (i : N * InvitationRow) : outcome PublicInvitationOut :=
  org ← related d.(d_orgs) i.2.(i_org) "Org";
  inviter ← _InvitedBySerializer d i.2.(i_invited_by);
  Ok (mkPublicInvitationOut i.1 (OrgSerializer i.2.(i_org) org) i.2.(i_role) i.2.(i_status) inviter
        i.2.(i_created_at) i.2.(i_expires_at)).

Definition InvitationSerializer (d : db) (i : N * InvitationRow) : outcome InvitationOut :=
  pub ← PublicInvitationSerializer d i; Ok (mkInvitationOut pub i.2.(i_email)).

(** A 201 with its [Location]. *)
Record created (A : Type) := mkCreated { cr_data : A; cr_location : string }.
Arguments mkCreated {A} _ _.
Arguments cr_data {A} _.
Arguments cr_location {A} _.

(** ** Pages *)

Definition _DEFAULT_PAGE_SIZE : nat := 50.
Definition _MAX_PAGE_SIZE : nat := 100.

(** [LimitOffsetPagination]: limit and offset of a query, given the default and the
    greatest limit, and the query of a link. *)
Class Pagination := {
  page_query : Type;
  page_window : nat → nat → page_query → nat * nat;
  page_link : nat → nat → page_query
}.

(** A limit is positive and capped; a link is read back as it was written. *)
Class PaginationLaws `{Pagination} := {
  page_limit default max q : (1 <= default <= max)%nat → (1 <= (page_window default max q).1 <= max)%nat;
  page_window_link default max limit offset :
    (1 <= limit <= max)%nat → page_window default max (page_link limit offset) = (limit, offset)
}.

Record Page `{Pagination} (A : Type) := mkPage {
  pg_count : nat;
  pg_next : option page_query;
  pg_previous : option page_query;
  pg_results : list A
}.
Arguments mkPage {_ A} _ _ _ _.
Arguments pg_count {_ A} _.
Arguments pg_next {_ A} _.
Arguments pg_previous {_ A} _.
Arguments pg_results {_ A} _.

Section Pages.
  Context `{Pagination}.

(** [_default_paginator()] over the rows of a query set, and its envelope. *)
Definition paginate {A B} (serialize : A → outcome B) (q : page_query) (l : list A) : outcome (Page B) :=
  let '(limit, offset) := page_window _DEFAULT_PAGE_SIZE _MAX_PAGE_SIZE q in
  data ← mapM serialize (take limit (drop offset l));
  Ok (mkPage (length l)
        (if (offset + limit <? length l)%nat then Some (page_link limit (offset + limit)) else None)
        (if (offset =? 0)%nat then None else Some (page_link limit (offset - limit)))
        data).

End Pages.

(** ** Listings *)

(** The order PostgreSQL leaves to itself: where each row of a query's result comes from,
    for the query of a page and the number of rows. *)
Class RowOrder `{Pagination} := row_order : page_query → nat → list nat.
Class RowOrderLaws `{RowOrder} := row_order_perm q n : row_order q n ≡ₚ seq 0 n.

Definition name_le (a b : N * OrgRow) : Prop := str_le a.2.(o_name) b.2.(o_name).
#[export] Instance name_le_dec : RelDecision name_le.
Proof. intros a b. unfold name_le. apply _. Defined.

Definition joined_le (a b : N * MemberRow) : Prop := (a.2.(m_joined_at) <= b.2.(m_joined_at))%Z.
#[export] Instance joined_le_dec : RelDecision joined_le.
Proof. intros a b. unfold joined_le. apply _. Defined.

(** Newest first. *)
Definition created_ge (a b : N * InvitationRow) : Prop := (b.2.(i_created_at) <= a.2.(i_created_at))%Z.
#[export] Instance created_ge_dec : RelDecision created_ge.
Proof. intros a b. unfold created_ge. apply _. Defined.

Section Listings.
  Context `{RowOrder}.

Definition shuffle {A} (q : page_query) (l : list A) : list A := omap (λ i, l !! i) (row_order q (length l)).

(** The rows a page is cut from. *)
Definition orgs_of (user : uuid) (q : page_query) (d : db) : list (N * OrgRow) :=
  merge_sort name_le (shuffle q (rows (tfilter (λ i _, not_none (member_of d i user)) d.(d_orgs)))).
Definition members_of (org : uuid) (q : page_query) (d : db) : list (N * MemberRow) :=
  merge_sort joined_le (shuffle q (rows (tfilter (λ _ m, b_eq m.(m_org) org) d.(d_members)))).
Definition pending_invitations (org : uuid) (q : page_query) (d : db) : list (N * InvitationRow) :=
  merge_sort created_ge
    (shuffle q (rows (tfilter (λ _ i, b_eq i.(i_org) org && is_pending i.(i_status)) d.(d_invitations)))).

End Listings.

(** ** Handlers *)

(** What a handler answers from the database, an error included. *)
Definition answer {A} (f : db → outcome A) : M store A := r ← dquery f; lift r.

Section Reads.
  Context `{RowOrder}.

Definition org_list_get (user : uuid) (q : page_query) : M store (Page OrgOut) :=
  answer (λ d, paginate (λ o, Ok (OrgSerializer o.1 o.2)) q (orgs_of user q d)).

Definition org_detail_get (user org : uuid) : M store OrgOut :=
  _get_org_and_member user org None;;
  answer (λ d, row ← related d.(d_orgs) org "Org"; Ok (OrgSerializer org row)).

Definition member_list_get (user org : uuid) (q : page_query) : M store (Page OrgMemberOut) :=
  _get_org_and_member user org None;;
  answer (λ d, paginate (OrgMemberSerializer d) q (members_of org q d)).

Definition invitation_list_get (user org : uuid) (q : page_query) : M store (Page InvitationOut) :=
  _get_org_and_member user org (Some _ADMIN_OR_ABOVE);;
  answer (λ d, paginate (InvitationSerializer d) q (pending_invitations org q d)).

Definition invitation_detail_get (token : string) : M store PublicInvitationOut :=
  invitation ← get_or_404 (pending_by_token token);
  answer (λ d, PublicInvitationSerializer d invitation).

End Reads.

Section Writes.
  Context `{DjangoLib} `{Secrets} `{EmailValidator} `{HttpsURL} `{RequestHost}.

(** [OrgDetailView.patch]: the answer shows the row it read with the fields it set. *)
Definition org_patch_request (user org : uuid) (b : OrgBody) : M store OrgOut :=
  _get_org_and_member user org (Some _ADMIN_OR_ABOVE);;
  row ← answer (λ d, related d.(d_orgs) org "Org");
  data ← lift (UpdateOrgSerializer b);
  org_update org data.1 data.2;;
  mret (OrgSerializer org (org_set data.1 data.2 row)).

(** [OrgMemberDetailView.patch]. *)
Definition member_patch_request (user org member_user : uuid) (b : MemberBody) : M store OrgMemberOut :=
  caller ← _get_org_and_member user org (Some _ADMIN_OR_ABOVE);
  target ← get_or_404 (λ d, member_of d org member_user);
  lift (check_can_manage_member caller.2.(m_role) target.2.(m_role));;
  data ← lift (UpdateMemberSerializer b);
  member_update caller target data.1 data.2;;
  answer (λ d, OrgMemberSerializer d (target.1, member_set data.1 data.2 target.2)).

(** [OrgOwnerView.post]. *)
Definition transfer_request (user org : uuid) (user_id : field uuid) : M store (created OrgMemberOut) :=
  caller ← _get_org_and_member user org (Some _OWNER_ONLY);
  target_user ← lift (TransferOwnershipSerializer user_id);
  target ← get_or_404 (λ d, member_of d org target_user);
  transfer_to caller target;;
  out ← answer (λ d, OrgMemberSerializer d (target.1, member_set (Some OWNER) (Some true) target.2));
  mret (mkCreated out (build_absolute_uri
    ("/api/v1/orgs/" ++ uuid_str org ++ "/members/" ++ uuid_str target.2.(m_user) ++ "/"))).

(** [InvitationListCreateView.post]. *)
Definition invitation_create_request (user org : uuid) (b : InvitationBody) : M store (created InvitationOut) :=
  _get_org_and_member user org (Some _ADMIN_OR_ABOVE);;
  data ← lift (CreateInvitationSerializer b);
  invitation ← invite user org data.1 data.2;
  out ← answer (λ d, InvitationSerializer d invitation);
  mret (mkCreated out (build_absolute_uri ("/api/v1/invitations/" ++ invitation.2.(i_token) ++ "/"))).

(** [InvitationAcceptView.post]: the org, with the code [verification_email_sent]. *)
Definition invitation_accept_request (token : string) (full_name : field string) : M store (created OrgOut) :=
  invitation ← acceptable_invitation token;
  full_name ← lift (InvitationAcceptSerializer full_name);
  r ← accept_or_conflict invitation full_name;
  org ← answer (λ d, related d.(d_orgs) r.2 "Org");
  mret (mkCreated (OrgSerializer r.2 org) ("/api/v1/orgs/" ++ uuid_str r.2 ++ "/")).

End Writes.
