(* ===== verification/OrgFacts.v ===== *)
(** * Correctness of organisations

    Theorems about [Orgs.v] and [OrgViews.v]: unique slugs, the deletion cascade, seat limits,
    the invariant that every organisation has exactly one owner, and that deletions in a
    row are one deletion of all. *)

From Stdlib Require Import FunctionalExtensionality.
From S2P Require Import Prelude PyVal Text Effects Domain Relational Store StoreFacts Django Auth Repos.
From S2P Require Import Repositories RepositoriesFacts Webhooks Billing Orgs Fields OrgViews.

#[local] Open Scope string_scope.

(** ** Slugs are unique *)

Lemma candidate_inj base n m : candidate base n = candidate base m → n = m.
Proof. unfold candidate. intros H. apply (inj (String.app base)) in H.
  apply (inj (String.app "-")) in H. by apply (inj pretty) in H. Qed.

Lemma slug_loop_spec fuel existing base s :
  candidate base (slug_loop fuel existing base s) ∉ existing ∨
  ∀ k, (k < N.of_nat fuel)%N → candidate base (s + k) ∈ existing.
Proof.
  revert s. induction fuel as [|fuel IH]; intros s; cbn [slug_loop]; [right; lia|].
  destruct (str_in _ _) eqn:E.
  - apply str_in_true in E. destruct (IH (s + 1)%N) as [?|H]; [by left|right]. intros k Hk.
    destruct (decide (k = 0%N)) as [->|]; [by rewrite N.add_0_r|].
    replace (s + k)%N with (s + 1 + (k - 1))%N by lia. apply H. lia.
  - left. intros Hin. apply str_in_true in Hin. congruence.
Qed.

(** The pigeonhole argument: [S (length existing)] candidates cannot all be taken. *)
Lemma slug_loop_enough existing base s :
  candidate base (slug_loop (S (length existing)) existing base s) ∉ existing.
Proof.
  destruct (slug_loop_spec (S (length existing)) existing base s) as [?|H]; [done|exfalso].
  set (cands := (λ k, candidate base (s + N.of_nat k)) <$> seq 0 (S (length existing))).
  assert (length cands ≤ length existing)%nat as Hle.
  { apply submseteq_length, NoDup_submseteq.
    - apply NoDup_fmap_2_strong; [|apply NoDup_seq]. intros x y _ _ Hxy%candidate_inj. lia.
    - intros c (k & -> & Hk)%list_elem_of_fmap. apply elem_of_seq in Hk. apply H. lia. }
  unfold cands in Hle. rewrite length_fmap, length_seq in Hle. lia.
Qed.

Lemma is_prefix_refl p : is_prefix p p = true.
Proof. rewrite <-(app_nil_r p) at 2. apply is_prefix_app. Qed.

Definition digits (s : string) : bool := forallb is_digit (list_ascii_of_string s).

Lemma pretty_N_char_digit x : is_digit (pretty_N_char x) = true.
Proof. unfold pretty_N_char. by repeat case_match. Qed.

Lemma pretty_N_go_digits x s :
  digits s = true → digits (pretty_N_go x s) = true ∧ (s ≠ "" → pretty_N_go x s ≠ "").
Proof.
  revert s. induction (N.lt_wf_0 x) as [x _ IH]; intros s Hs.
  destruct (decide (x = 0%N)) as [->|Hx]; [by rewrite pretty_N_go_0|].
  rewrite pretty_N_go_step by lia.
  destruct (IH (x `div` 10)%N) with (s := String (pretty_N_char (x `mod` 10)) s) as [H1 H2].
  - apply N.div_lt; lia.
  - unfold digits. cbn. by rewrite pretty_N_char_digit.
  - split; [done|]. intros _. by apply H2.
Qed.

Lemma pretty_digits (n : N) : digits (pretty n) = true ∧ pretty n ≠ "".
Proof.
  unfold pretty, pretty_N. case_decide as Hn; [done|]. rewrite pretty_N_go_step by lia.
  assert (digits (String (pretty_N_char (n `mod` 10)) "") = true) as Hd.
  { unfold digits. cbn. by rewrite pretty_N_char_digit. }
  destruct (pretty_N_go_digits (n `div` 10) _ Hd) as [H1 H2]. split; [done|by apply H2].
Qed.

(** Every candidate is a slug the scan looks at. *)
Lemma suffix_match_base base : suffix_match base base = true.
Proof. unfold suffix_match. by rewrite is_prefix_refl, drop_all. Qed.

Lemma suffix_match_candidate base n : suffix_match base (candidate base n) = true.
Proof.
  unfold suffix_match, candidate. rewrite chars_app, is_prefix_app, drop_app_length.
  destruct (pretty_digits n) as [Hd Hne]. unfold digits in Hd.
  destruct (pretty n) as [|c s]; [done|].
  change (forallb is_digit (list_ascii_of_string (String c s)) = true). exact Hd.
Qed.

Lemma is_prefix_candidate base n :
  is_prefix (list_ascii_of_string base) (list_ascii_of_string (candidate base n)) = true.
Proof. unfold candidate. rewrite chars_app. apply is_prefix_app. Qed.

Lemma existing_slugs_elem base s d :
  suffix_match base s = true → is_prefix (list_ascii_of_string base) (list_ascii_of_string s) = true →
  s ∈ existing_slugs base d ↔ ∃ i o, d.(d_orgs) !! i = Some o ∧ o.(o_slug) = s.
Proof.
  intros Hm Hp. unfold existing_slugs. rewrite list_elem_of_filter. split.
  - intros [_ Hin]. apply list_elem_of_fmap in Hin as ([i o] & -> & Hin).
    apply rows_elem, tfilter_lookup in Hin as [Ho _]. eauto.
  - intros (i & o & Ho & Hs). split; [done|]. apply list_elem_of_fmap. exists (i, o). split; [done|].
    apply rows_elem, tfilter_lookup. by rewrite Hs.
Qed.

Section Facts.
  Context `{DjangoLib}.

(** Slug generation terminates and its result is free: for every name and
    every database, no organisation has the generated slug; it is the base slug
    itself exactly when that is free, and otherwise the base followed by a
    hyphen and a number.  The loop needs no more turns than there are clashing
    slugs. *)
Theorem generate_unique_slug_free name d :
  let taken s := ∃ i o, d.(d_orgs) !! i = Some o ∧ o.(o_slug) = s in
  let slug := generate_unique_slug name d in
  ¬ taken slug ∧
  (slug = slug_base name ∨ taken (slug_base name) ∧ ∃ n, slug = candidate (slug_base name) n).
Proof.
  intros taken slug. unfold slug, generate_unique_slug, unique_slug. set (base := slug_base name).
  pose proof (existing_slugs_elem base base d (suffix_match_base base) (is_prefix_refl _)) as Hbase.
  destruct (str_in base _) eqn:E; cbn.
  - apply str_in_true in E. split; [|right; split; [by apply Hbase|by eexists]].
    intros Ht. eapply (slug_loop_enough (existing_slugs base d) base 2).
    by apply (existing_slugs_elem base _ d (suffix_match_candidate _ _) (is_prefix_candidate _ _)).
  - split; [|by left]. intros Ht. apply Hbase, str_in_true in Ht. congruence.
Qed.
End Facts.

(** ** Specification *)

(** Organisation [o] has exactly one owner row. *)
Definition has_one_owner (o : uuid) (d : db) : Prop :=
  ∃ i m, d.(d_members) !! i = Some m ∧ m.(m_org) = o ∧ m.(m_role) = OWNER ∧
    ∀ j m', d.(d_members) !! j = Some m' → m'.(m_org) = o → m'.(m_role) = OWNER → j = i.

(** The invariant of the organisation state: the declared constraints, one owner
    per organisation, no invitation to ownership. *)
Definition org_inv (d : db) : Prop :=
  db_ok d ∧ (∀ o, is_Some (d.(d_orgs) !! o) → has_one_owner o d) ∧
  map_Forall (λ _ i, i.(i_role) ≠ OWNER) d.(d_invitations).

(** The users a deletion of the orgs [p] takes along. *)
Definition only_member_of (p : N → bool) (d : db) (u : uuid) : Prop :=
  (∃ i m, d.(d_members) !! i = Some m ∧ p m.(m_org) = true ∧ m.(m_user) = u) ∧
  (∀ i m, d.(d_members) !! i = Some m → m.(m_user) = u → p m.(m_org) = true) ∧
  (∀ i s, d.(d_subs) !! i = Some s → s.(sub_user_id) = Some u → sub_customer_user d s = Some u →
    is_active_status s.(sub_status) = false).

(** ** Helper lemmas *)

Lemma db_ok_members d : db_ok d → table_ok member_schema (has d) d.(d_members).
Proof. unfold db_ok. tauto. Qed.

Lemma member_refs d i m :
  db_ok d → d.(d_members) !! i = Some m →
  is_Some (d.(d_orgs) !! m.(m_org)) ∧ is_Some (d.(d_users) !! m.(m_user)) ∧
  (m.(m_role) = OWNER → m.(m_is_billing) = true).
Proof.
  intros Hok Hm. pose proof (table_ok_row _ _ _ _ _ (db_ok_members _ Hok) Hm) as Hr.
  unfold row_ok in Hr. cbn in Hr. rewrite !andb_true_iff, !not_none_true in Hr.
  destruct Hr as (Hb & Ho & Hu & _). split_and!; [done|done|].
  intros Hrole. unfold is_owner in Hb. by rewrite Hrole, b_eq_refl in Hb.
Qed.

Lemma deletable_spec p d u : deletable p d u = true ↔ only_member_of p d u.
Proof.
  unfold deletable, only_member_of, has_personal_sub.
  rewrite !andb_true_iff, not_none_true, is_none_true, negb_true_iff, not_none_false, !tfind_None.
  split.
  - intros [[[r Hr] Ho] Hs]. destruct r as [i m]. apply tfind_Some in Hr as [Hm Hp].
    rewrite andb_true_iff, b_eq_true in Hp. split_and!.
    + exists i, m. tauto.
    + intros j m' Hm' Hu. specialize (Ho _ _ Hm'). rewrite andb_false_iff, negb_false_iff, b_eq_false in Ho. tauto.
    + intros j s Hs' Hsu Hsc. specialize (Hs _ _ Hs'). unfold sub_is_active in Hs.
      rewrite !andb_false_iff, !b_eq_false in Hs. tauto.
  - intros ((i & m & Hm & Hp & Hu) & Ho & Hs). split_and!.
    + destruct (tfind_is_Some (λ _ m, p m.(m_org) && b_eq m.(m_user) u) _ _ _ Hm) as (j & b & ->);
        [by rewrite Hp, Hu, b_eq_refl|eauto].
    + intros j m' Hm'. rewrite andb_false_iff, negb_false_iff, b_eq_false.
      destruct (decide (m_user m' = u)) as [Hu'|]; [left; by eapply Ho|by right].
    + intros j s Hs'. unfold sub_is_active. rewrite !andb_false_iff, !b_eq_false.
      destruct (decide (sub_user_id s = Some u)); [|by left; left].
      destruct (decide (sub_customer_user d s = Some u)); [|by left; right]. right. by eapply Hs.
Qed.

Lemma set_status_members p d : d_members (cancel_pending p d) = d_members d.
Proof. done. Qed.

Lemma deletable_cancel p d u : deletable p (cancel_pending p d) u = deletable p d u.
Proof. done. Qed.

Lemma row_ok_inv_status st h i : row_ok invitation_schema h i = true →
  row_ok invitation_schema h (invitation_set_status st i) = true.
Proof. done. Qed.

Lemma cancel_pending_ok p d : db_ok d → db_ok (cancel_pending p d).
Proof.
  unfold db_ok, ids_ok. cbn. intros Hok. destruct_and!. split_and!; try assumption;
    try (eapply table_ok_weaken; [|eassumption]; done).
  match goal with H : table_ok invitation_schema _ _ |- _ => destruct H as [Hr Hu] end. split.
  - intros i a. rewrite lookup_fmap_Some. intros (a' & <- & Ha).
    specialize (Hr _ _ Ha). by case_match.
  - apply Forall_forall. intros key Hk. rewrite Forall_forall in Hu. specialize (Hu _ Hk).
    apply unique_on_spec. intros i j a b k. rewrite !lookup_fmap_Some.
    intros (a' & <- & Ha) (b' & <- & Hb) Hka Hkb. rewrite unique_on_spec in Hu.
    apply (Hu i j a' b' k); [done|done| |].
    + clear -Hk Hka. cbn in Hk. rewrite !elem_of_cons in Hk. destruct Hk as [->|[->|[]%elem_of_nil]].
      * by destruct (p (i_org a') && is_pending (i_status a')).
      * destruct (p (i_org a') && is_pending (i_status a')); [discriminate Hka|exact Hka].
    + clear -Hk Hkb. cbn in Hk. rewrite !elem_of_cons in Hk. destruct Hk as [->|[->|[]%elem_of_nil]].
      * by destruct (p (i_org b') && is_pending (i_status b')).
      * destruct (p (i_org b') && is_pending (i_status b')); [discriminate Hkb|exact Hkb].
Qed.

Lemma drop_members_ok p d : db_ok d → db_ok (drop_members p d).
Proof.
  unfold db_ok, ids_ok. cbn. intros Hok. destruct_and!. split_and!; try assumption;
    try (eapply table_ok_weaken; [|eassumption]; done).
  eapply table_ok_filter; [|eassumption]. done.
Qed.

(** *** The deletion cascade *)

Definition after_deletion (p : N → bool) (d : db) : db :=
  delete_orgs p (drop_members p (delete_users (deletable p d) (cancel_pending p d))).

Lemma delete_orgs_db_run p w :
  ∃ w', delete_orgs_db p w = (Ok tt, w') ∧
    s_db (w_db w') = after_deletion p (s_db (w_db w)) ∧
    w_stripe w' = w_stripe w ∧ w_tasks w' = w_tasks w.
Proof.
  unfold delete_orgs_db, atomic, dquery, delete_users_m, dexec. munfold. cbn.
  eexists; split; [done|]. done.
Qed.

Lemma after_deletion_ok p d : db_ok d → db_ok (after_deletion p d).
Proof.
  intros Hok. by apply delete_orgs_ok, drop_members_ok, delete_users_ok, cancel_pending_ok.
Qed.

Lemma after_deletion_members p d i m :
  d_members (after_deletion p d) !! i = Some m ↔
  d_members d !! i = Some m ∧ p m.(m_org) = false.
Proof.
  unfold after_deletion. cbn. rewrite !tfilter_lookup, !negb_true_iff. split; [tauto|].
  intros [Hm Hp]. split_and!; try done.
  destruct (deletable p d (m_user m)) eqn:Hd; [|done].
  apply deletable_spec in Hd as (_ & Ho & _). by rewrite (Ho i m) in Hp.
Qed.

Lemma after_deletion_orgs p d o :
  is_Some (d_orgs (after_deletion p d) !! o) ↔ is_Some (d_orgs d !! o) ∧ p o = false.
Proof.
  unfold after_deletion. cbn. rewrite <-!not_none_true.
  by rewrite not_none_tfilter, not_none_fmap, andb_true_iff, negb_true_iff.
Qed.

Lemma after_deletion_users p d u :
  is_Some (d_users (after_deletion p d) !! u) ↔ is_Some (d_users d !! u) ∧ deletable p d u = false.
Proof.
  unfold after_deletion. cbn. rewrite <-!not_none_true.
  by rewrite not_none_tfilter, andb_true_iff, negb_true_iff.
Qed.

(** Nothing of a deleted organisation's billing is left. *)
Lemma after_deletion_customers p d i c :
  d_customers (after_deletion p d) !! i = Some c →
  d_customers d !! i = Some c ∧ opt_in p c.(cus_org_id) = false.
Proof.
  intros Hc. split; [|exact (delete_customers_owner cus_org_id p (drop_members p (delete_users (deletable p d)
    (cancel_pending p d))) i c Hc)].
  unfold after_deletion in Hc. cbn in Hc. rewrite !tfilter_lookup in Hc. tauto.
Qed.

(** ** Deleting organisations one after the other *)

Section Deletion.
  Context (p : N → bool).

(** Either of the two. *)
Definition either (p q : N → bool) : N → bool := λ i, p i || q i.

Lemma opt_in_either (r s : N → bool) o : opt_in (either r s) o = opt_in r o || opt_in s o.
Proof. by destruct o. Qed.

Lemma tfilter_get {A} (f : N → A → bool) (t : table A) i :
  tfilter f t !! i = a ← t !! i; if f i a then Some a else None.
Proof.
  destruct (tfilter f t !! i) as [a|] eqn:E.
  - apply tfilter_lookup in E as [Ha Hf]. by rewrite Ha; cbn; rewrite Hf.
  - destruct (t !! i) as [a|] eqn:Ha; [|done]. cbn. destruct (f i a) eqn:Hf; [|done].
    by rewrite (proj2 (tfilter_lookup f t i a)) in E.
Qed.

(** A subscription's customer is one of those a deletion takes. *)
Definition customer_gone (p : N → bool) (d : db) (c : N) : bool :=
  customer_of cus_user_id (deletable p d) d c || customer_of cus_org_id p d c.

Lemma after_deletion_customers_get d i :
  d_customers (after_deletion p d) !! i =
  c ← d.(d_customers) !! i;
  if opt_in (deletable p d) c.(cus_user_id) || opt_in p c.(cus_org_id) then None else Some c.
Proof.
  unfold after_deletion, delete_orgs, delete_users. cbn. rewrite !tfilter_get. unfold customer_of. cbn. rewrite !tfilter_get.
  destruct (d_customers d !! i) as [c|] eqn:Hc; [|done]. cbn. rewrite ?Hc.
  by destruct (opt_in (deletable p d) (cus_user_id c)), (opt_in p (cus_org_id c)) eqn:Ho; cbn; rewrite ?Ho.
Qed.

Lemma after_deletion_subs_get d i :
  d_subs (after_deletion p d) !! i =
  s ← d.(d_subs) !! i;
  if opt_in (deletable p d) s.(sub_user_id) || opt_in (customer_gone p d) s.(sub_stripe_customer_id) then None else Some s.
Proof.
  unfold after_deletion, delete_orgs, delete_users. cbn. rewrite !tfilter_get.
  destruct (d_subs d !! i) as [s|] eqn:Hs; [|done]. cbn.
  set (first := customer_of cus_user_id (deletable p d) (cancel_pending p d)).
  set (second := customer_of cus_org_id p _).
  assert (∀ c, customer_gone p d c = first c || second c) as Hgone.
  { intros c. unfold customer_gone, second, first, customer_of. cbn. rewrite !tfilter_get. unfold customer_of. cbn.
    destruct (d_customers d !! c) as [r|]; [|done]. cbn.
    by destruct (opt_in (deletable p d) (cus_user_id r)); cbn; [|destruct (opt_in p (cus_org_id r))]. }
  assert (opt_in (customer_gone p d) (sub_stripe_customer_id s) =
    opt_in first (sub_stripe_customer_id s) || opt_in second (sub_stripe_customer_id s)) as ->
    by (destruct (sub_stripe_customer_id s); cbn; [apply Hgone|done]).
  destruct (opt_in first (sub_stripe_customer_id s)) eqn:H1; cbn; [by rewrite orb_true_r|].
  destruct (opt_in (deletable p d) (sub_user_id s)) eqn:H2; cbn; [done|].
  by destruct (opt_in second (sub_stripe_customer_id s)).
Qed.

#[local] Arguments after_deletion : simpl never.

Lemma after_deletion_sub_user d i s :
  d_subs (after_deletion p d) !! i = Some s →
  d_subs d !! i = Some s ∧ ∀ u, sub_customer_user (after_deletion p d) s = Some u → sub_customer_user d s = Some u.
Proof.
  rewrite after_deletion_subs_get. intros (s' & Hs & Hk)%bind_Some. destruct (_ || _); [done|]. injection Hk as ->.
  split; [done|]. intros u. unfold sub_customer_user. intros (c & Hc & Hu)%bind_Some. rewrite Hc. cbn.
  rewrite after_deletion_customers_get in Hu. destruct (d_customers d !! c) as [r|]; [|done]. cbn in Hu.
  by destruct (_ || _).
Qed.

(** The personal subscription of a user who stays, stays. *)
Lemma after_deletion_keeps_sub d i s u :
  db_ok d → deletable p d u = false → d_subs d !! i = Some s → sub_user_id s = Some u →
  sub_customer_user d s = Some u →
  d_subs (after_deletion p d) !! i = Some s ∧ sub_customer_user (after_deletion p d) s = Some u.
Proof.
  intros Hok Hu Hs Hsu Hcu. unfold sub_customer_user in *. apply bind_Some in Hcu as (c & Hc & Hr).
  apply bind_Some in Hr as (r & Hr & Hru).
  assert (cus_org_id r = None) as Hro.
  { assert (table_ok customer_schema (has d) d.(d_customers)) as Ht by (unfold db_ok in Hok; tauto).
    pose proof (table_ok_row _ _ _ _ _ Ht Hr) as Hrow. unfold row_ok in Hrow. cbn in Hrow. rewrite Hru in Hrow.
    destruct (cus_org_id r); [|done]. cbn in Hrow. by rewrite !andb_false_r in Hrow. }
  rewrite after_deletion_subs_get, Hs. cbn. rewrite Hsu, Hc. cbn. rewrite Hu. cbn.
  unfold customer_gone, customer_of. rewrite Hr, Hru, Hro. cbn. rewrite Hu. cbn. split; [done|].
  rewrite after_deletion_customers_get, Hr. cbn. rewrite Hru, Hro. cbn. by rewrite Hu.
Qed.

(** *** Each table after a deletion *)

Ltac after_deletion_get :=
  unfold after_deletion, delete_orgs, delete_users; cbn; rewrite ?tfilter_get, ?lookup_fmap, ?tfilter_get, ?lookup_fmap;
  match goal with |- context [?t !! ?i] => destruct (t !! i) as [a|]; [cbn|done] end;
  repeat (match goal with |- context [opt_in ?r ?o] => destruct (opt_in r o) eqn:? end; cbn; try done);
  repeat (case_match; cbn in *; try done); try congruence.

Lemma after_deletion_users_get d i :
  d_users (after_deletion p d) !! i = a ← d.(d_users) !! i; if deletable p d i then None else Some a.
Proof. after_deletion_get. Qed.
Lemma after_deletion_orgs_get d i :
  d_orgs (after_deletion p d) !! i = a ← d.(d_orgs) !! i; if p i then None else Some (org_null_creator (deletable p d) a).
Proof. after_deletion_get. Qed.
Lemma after_deletion_invitations_get d i :
  d_invitations (after_deletion p d) !! i =
  a ← d.(d_invitations) !! i; if p a.(i_org) then None else Some (invitation_null_inviter (deletable p d) a).
Proof. after_deletion_get. Qed.
Lemma after_deletion_balances_get d i :
  d_balances (after_deletion p d) !! i =
  a ← d.(d_balances) !! i; if opt_in (deletable p d) a.(b_user) || opt_in p a.(b_org) then None else Some a.
Proof. after_deletion_get. Qed.
Lemma after_deletion_transactions_get d i :
  d_transactions (after_deletion p d) !! i =
  a ← d.(d_transactions) !! i; if opt_in (deletable p d) a.(t_user) || opt_in p a.(t_org) then None else Some a.
Proof. after_deletion_get. Qed.
Lemma after_deletion_members_get d i :
  d_members (after_deletion p d) !! i = a ← d.(d_members) !! i; if p a.(m_org) then None else Some a.
Proof.
  apply option_eq. intros m. rewrite after_deletion_members, bind_Some. split.
  - intros [Hm Hp]. exists m. by rewrite Hp.
  - intros (m' & Hm & Hk). destruct (p (m_org m')) eqn:Hp; [done|]. by injection Hk as ->.
Qed.
Lemma after_deletion_refresh d :
  d_refresh (after_deletion p d) = tfilter (λ _ r, negb (deletable p d r.(rt_user))) d.(d_refresh).
Proof. done. Qed.
Lemma after_deletion_verify d :
  d_verify (after_deletion p d) = tfilter (λ _ t, negb (deletable p d t.(ot_user))) d.(d_verify).
Proof. done. Qed.
Lemma after_deletion_reset d :
  d_reset (after_deletion p d) = tfilter (λ _ t, negb (deletable p d t.(ot_user))) d.(d_reset).
Proof. done. Qed.
Lemma after_deletion_links d :
  d_links (after_deletion p d) = tfilter (λ _ l, negb (deletable p d l.(lr_token).(ot_user))) d.(d_links).
Proof. done. Qed.
Lemma after_deletion_socials d :
  d_socials (after_deletion p d) = tfilter (λ _ a, negb (deletable p d a.(sa_user))) d.(d_socials).
Proof. done. Qed.
Lemma after_deletion_catalogue d :
  d_plans (after_deletion p d) = d_plans d ∧
  d_prices (after_deletion p d) = d_prices d ∧
  d_events (after_deletion p d) = d_events d ∧
  d_products (after_deletion p d) = d_products d ∧
  d_product_prices (after_deletion p d) = d_product_prices d ∧
  d_localized (after_deletion p d) = d_localized d.
Proof. done. Qed.
End Deletion.

(** *** Two deletions in a row *)

Lemma tfilter_tfilter {A} (f g h : N → A → bool) (t : table A) :
  (∀ i a, h i a = g i a && f i a) → tfilter f (tfilter g t) = tfilter h t.
Proof.
  intros Hh. apply map_eq. intros i. rewrite !tfilter_get. destruct (t !! i) as [a|]; [|done]. cbn. rewrite Hh.
  by destruct (g i a).
Qed.

Lemma db_ext (a b : db) :
  d_users a = d_users b → d_orgs a = d_orgs b → d_members a = d_members b → d_invitations a = d_invitations b →
  d_plans a = d_plans b → d_prices a = d_prices b → d_customers a = d_customers b → d_subs a = d_subs b →
  d_events a = d_events b → d_products a = d_products b → d_balances a = d_balances b →
  d_transactions a = d_transactions b → d_refresh a = d_refresh b → d_verify a = d_verify b → d_reset a = d_reset b →
  d_links a = d_links b → d_socials a = d_socials b → d_product_prices a = d_product_prices b →
  d_localized a = d_localized b → a = b.
Proof. destruct a, b. cbn. intros. by subst. Qed.

Section Additive.
  Context (p q : N → bool).
  #[local] Arguments after_deletion : simpl never.

Lemma deletable_either d u :
  db_ok d → deletable (either p q) d u = deletable p d u || deletable q (after_deletion p d) u.
Proof.
  intros Hok. apply eq_true_iff_eq. rewrite orb_true_iff, !deletable_spec. split.
  - intros (Hex & Hall & Hsub).
    destruct (tfind (λ _ m, b_eq m.(m_user) u && negb (p m.(m_org))) d.(d_members)) as [[i m]|] eqn:E.
    + right. apply tfind_Some in E as [Hm Hp]. rewrite andb_true_iff, b_eq_true, negb_true_iff in Hp. destruct Hp as [Hu Hp].
      assert (∀ o, either p q o = true → p o = false → q o = true) as Hq.
      { intros o Ho Hpo. unfold either in Ho. by rewrite Hpo in Ho. }
      split_and!.
      * exists i, m. rewrite after_deletion_members. split_and!; [done|done| |done]. by apply Hq; [apply (Hall i m)|].
      * intros j m' [Hm' Hp']%after_deletion_members Hu'. by apply Hq; [apply (Hall j m')|].
      * intros j s [Hs Hcu]%after_deletion_sub_user Hsu Hcu'. by apply (Hsub j s); [| |apply Hcu].
    + left. rewrite tfind_None in E.
      assert (∀ i m, d_members d !! i = Some m → m_user m = u → p (m_org m) = true) as Hp.
      { intros i m Hm Hu. specialize (E i m Hm). by rewrite Hu, b_eq_refl in E; cbn in E; apply negb_false_iff. }
      destruct Hex as (i & m & Hm & _ & Hu). split_and!; [|done|done]. exists i, m. split_and!; [done|by eapply Hp|done].
  - intros [(Hex & Hall & Hsub)|(Hex & Hall & Hsub)].
    + split_and!; [| |done].
      * destruct Hex as (i & m & Hm & Hp & Hu). exists i, m. unfold either. by rewrite Hp.
      * intros i m Hm Hu. unfold either. by rewrite (Hall i m Hm Hu).
    + destruct Hex as (i & m & [Hm Hp]%after_deletion_members & Hq & Hu). split_and!.
      * exists i, m. unfold either. by rewrite Hq, orb_true_r.
      * intros j m' Hm' Hu'. unfold either. destruct (p (m_org m')) eqn:Hp'; [done|].
        apply (Hall j m'); [by apply after_deletion_members|done].
      * intros j s Hs Hsu Hcu. destruct (deletable p d u) eqn:Hdel.
        { apply deletable_spec in Hdel as (_ & Hpall & _). by rewrite (Hpall i m Hm Hu) in Hp. }
        destruct (after_deletion_keeps_sub p d j s u) as [Hs' Hcu']; [done..|]. by apply (Hsub j s).
Qed.


Lemma customer_gone_either d c :
  db_ok d → customer_gone (either p q) d c = customer_gone p d c || customer_gone q (after_deletion p d) c.
Proof.
  intros Hok. unfold customer_gone, customer_of. rewrite after_deletion_customers_get.
  destruct (d_customers d !! c) as [r|]; [cbn|done]. rewrite opt_in_either.
  replace (opt_in (deletable (either p q) d) (cus_user_id r))
    with (opt_in (deletable p d) (cus_user_id r) || opt_in (deletable q (after_deletion p d)) (cus_user_id r))
    by (destruct (cus_user_id r); cbn; [by rewrite deletable_either|done]).
  destruct (opt_in (deletable p d) (cus_user_id r)), (opt_in p (cus_org_id r)); cbn; [done..|by rewrite orb_true_r|done].
Qed.

(** Two deletions in a row leave the database one deletion of both leaves. *)
Lemma after_deletion_either d :
  db_ok d → after_deletion q (after_deletion p d) = after_deletion (either p q) d.
Proof.
  intros Hok. pose proof (λ u, deletable_either d u Hok) as Hdel.
  assert (∀ o, opt_in (deletable (either p q) d) o =
    opt_in (deletable p d) o || opt_in (deletable q (after_deletion p d)) o) as Hopt by (intros [u|]; [apply Hdel|done]).
  destruct (after_deletion_catalogue p d) as (Hp1 & Hp2 & Hp3 & Hp4 & Hp5 & Hp6).
  destruct (after_deletion_catalogue q (after_deletion p d)) as (Hq1 & Hq2 & Hq3 & Hq4 & Hq5 & Hq6).
  destruct (after_deletion_catalogue (either p q) d) as (Hr1 & Hr2 & Hr3 & Hr4 & Hr5 & Hr6).
  apply db_ext; [| | | |congruence|congruence| | |congruence|congruence| | | | | | | |congruence|congruence].
  - apply map_eq. intros i. rewrite !after_deletion_users_get, Hdel. destruct (d_users d !! i); [cbn|done]. by destruct (deletable p d i).
  - apply map_eq. intros i. rewrite !after_deletion_orgs_get. destruct (d_orgs d !! i) as [o|]; [cbn|done]. unfold either at 1.
    destruct (p i); [done|]. cbn. destruct (q i); [done|]. unfold org_null_creator, null_if. cbn. f_equal. f_equal.
    rewrite Hopt. by destruct (opt_in (deletable p d) _).
  - apply map_eq. intros i. rewrite !after_deletion_members_get. destruct (d_members d !! i) as [m|]; [cbn|done].
    unfold either. by destruct (p (m_org m)).
  - apply map_eq. intros i. rewrite !after_deletion_invitations_get. destruct (d_invitations d !! i) as [v|]; [cbn|done].
    unfold either at 1. destruct (p (i_org v)); [done|]. cbn. destruct (q (i_org v)); [done|].
    unfold invitation_null_inviter, null_if. cbn. f_equal. f_equal. rewrite Hopt. by destruct (opt_in (deletable p d) _).
  - apply map_eq. intros i. rewrite !after_deletion_customers_get. destruct (d_customers d !! i) as [c|]; [cbn|done].
    rewrite Hopt, opt_in_either. destruct (opt_in (deletable p d) (cus_user_id c)), (opt_in p (cus_org_id c)); cbn; [done..| |].
    + by rewrite orb_true_r.
    + done.
  - apply map_eq. intros i. rewrite !after_deletion_subs_get. destruct (d_subs d !! i) as [s|]; [cbn|done]. rewrite Hopt.
    replace (opt_in (customer_gone (either p q) d) (sub_stripe_customer_id s))
      with (opt_in (customer_gone p d) (sub_stripe_customer_id s) ||
            opt_in (customer_gone q (after_deletion p d)) (sub_stripe_customer_id s))
      by (destruct (sub_stripe_customer_id s); cbn; [by rewrite customer_gone_either|done]).
    destruct (opt_in (deletable p d) _), (opt_in (customer_gone p d) _); cbn; [done..|by rewrite orb_true_r|done].
  - apply map_eq. intros i. rewrite !after_deletion_balances_get. destruct (d_balances d !! i) as [c|]; [cbn|done].
    rewrite Hopt, opt_in_either. destruct (opt_in (deletable p d) (b_user c)), (opt_in p (b_org c)); cbn; [done..| |]; by rewrite ?orb_true_r.
  - apply map_eq. intros i. rewrite !after_deletion_transactions_get. destruct (d_transactions d !! i) as [c|]; [cbn|done].
    rewrite Hopt, opt_in_either. destruct (opt_in (deletable p d) (t_user c)), (opt_in p (t_org c)); cbn; [done..| |]; by rewrite ?orb_true_r.
  - rewrite !after_deletion_refresh. apply tfilter_tfilter. intros i a. by rewrite Hdel, negb_orb.
  - rewrite !after_deletion_verify. apply tfilter_tfilter. intros i a. by rewrite Hdel, negb_orb.
  - rewrite !after_deletion_reset. apply tfilter_tfilter. intros i a. by rewrite Hdel, negb_orb.
  - rewrite !after_deletion_links. apply tfilter_tfilter. intros i a. by rewrite Hdel, negb_orb.
  - rewrite !after_deletion_socials. apply tfilter_tfilter. intros i a. by rewrite Hdel, negb_orb.
Qed.
End Additive.

(** *** A deletion for each of several organisations *)

Lemma delete_org_run org w :
  ∃ w', delete_org org w = (Ok tt, w') ∧ s_db (w_db w') = after_deletion (b_eq org) (s_db (w_db w)) ∧
    w_stripe w' = w_stripe w ∧
    w_tasks w' = (w_tasks w ++ from_option (λ k, [cancel_stripe_subs_task_delay [k] (uuid_str org)]) []
      (_get_active_stripe_sub org (s_db (w_db w)) ≫= sub_stripe_id))%list.
Proof.
  destruct (delete_orgs_db_run (b_eq org) w) as (w1 & Hrun & Hd & Hs & Ht).
  unfold delete_org, _delete_org_db_only. rewrite bind_run. unfold dquery, query. rewrite bind_run, Hrun.
  destruct (_ ≫= sub_stripe_id) as [k|]; eexists; (split; [reflexivity|]); cbn; rewrite ?Ht, ?app_nil_r; by split_and!.
Qed.

(** An active subscription of the organisation that Stripe knows as [k]. *)
Definition stripe_sub_of (d : db) (org : uuid) (k : string) (s : Subscription) : Prop :=
  s.(sub_stripe_id) = Some k ∧ is_active_status s.(sub_status) = true ∧
  ∃ c cus, s.(sub_stripe_customer_id) = Some c ∧ d.(d_customers) !! c = Some cus ∧ cus.(cus_org_id) = Some org.

(** The task cancels, at Stripe, an active subscription of one of the organisations. *)
Definition is_cancel_of (d : db) (orgs : list uuid) (t : task) : Prop :=
  ∃ org k i s, org ∈ orgs ∧ t = cancel_stripe_subs_task_delay [k] (uuid_str org) ∧
    d.(d_subs) !! i = Some s ∧ stripe_sub_of d org k s.

Lemma active_stripe_sub_spec org d s :
  _get_active_stripe_sub org d = Some s →
  ∃ i k, d.(d_subs) !! i = Some s ∧ stripe_sub_of d org k s.
Proof.
  unfold _get_active_stripe_sub, tlatest. destruct (tbest _ _ _) as [[i s']|] eqn:Hs; [|done]. cbn. intros [= ->].
  apply tbest_Some in Hs as (Hs & Hp & _). unfold org_active_sub, sub_customer_org, sub_is_active in Hp.
  rewrite !andb_true_iff, b_eq_true, not_none_true in Hp. destruct Hp as [[Ho Ha] [k Hk]].
  apply bind_Some in Ho as (c & Hc & Ho). apply bind_Some in Ho as (cus & Hcus & Ho). exists i, k.
  split; [done|]. split_and!; [done|done|by exists c, cus].
Qed.

Lemma active_stripe_sub_is_Some org d i s k :
  d.(d_subs) !! i = Some s → stripe_sub_of d org k s → ∃ s' k', _get_active_stripe_sub org d = Some s' ∧ sub_stripe_id s' = Some k'.
Proof.
  intros Hs (Hk & Ha & c & cus & Hc & Hcus & Ho).
  destruct (_get_active_stripe_sub org d) as [s'|] eqn:Hget.
  - apply active_stripe_sub_spec in Hget as Hspec. destruct Hspec as (_ & k' & _ & Hk' & _). by exists s', k'.
  - exfalso. unfold _get_active_stripe_sub, tlatest in Hget. destruct (tbest _ _ _) as [[j b]|] eqn:Hb; [done|].
    rewrite tbest_None in Hb. specialize (Hb i s Hs). unfold org_active_sub, sub_customer_org, sub_is_active in Hb.
    rewrite Hc in Hb. cbn in Hb. rewrite Hcus in Hb. cbn in Hb. by rewrite Ho, b_eq_refl, Ha, Hk in Hb.
Qed.

(** What a deletion leaves of an organisation's subscriptions was there before, and those
    of another organisation that belong to no user stay. *)
Lemma stripe_sub_before p d i org k s :
  d_subs (after_deletion p d) !! i = Some s → stripe_sub_of (after_deletion p d) org k s →
  d_subs d !! i = Some s ∧ stripe_sub_of d org k s.
Proof.
  rewrite after_deletion_subs_get. intros (s' & Hs & Hkeep)%bind_Some (Hk & Ha & c & cus & Hc & Hcus & Ho).
  destruct (_ || _); [done|]. injection Hkeep as ->. split; [done|]. split_and!; [done|done|]. exists c, cus.
  rewrite after_deletion_customers_get in Hcus. apply bind_Some in Hcus as (cus' & Hcus & Hkc).
  destruct (_ || _); [done|]. by injection Hkc as ->.
Qed.

Lemma stripe_sub_after p d i org k s :
  db_ok d → p org = false → s.(sub_user_id) = None → d_subs d !! i = Some s → stripe_sub_of d org k s →
  d_subs (after_deletion p d) !! i = Some s ∧ stripe_sub_of (after_deletion p d) org k s.
Proof.
  intros Hok Hp Hu Hs (Hk & Ha & c & cus & Hc & Hcus & Ho).
  assert (cus_user_id cus = None) as Hcu.
  { assert (table_ok customer_schema (has d) d.(d_customers)) as Ht by (unfold db_ok in Hok; tauto).
    pose proof (table_ok_row _ _ _ _ _ Ht Hcus) as Hrow. unfold row_ok in Hrow. cbn in Hrow. rewrite Ho in Hrow.
    destruct (cus_user_id cus); [|done]. cbn in Hrow. by rewrite !andb_false_r in Hrow. }
  split.
  - rewrite after_deletion_subs_get, Hs. cbn. rewrite Hu, Hc. cbn. unfold customer_gone, customer_of.
    rewrite Hcus, Hcu, Ho. cbn. by rewrite Hp.
  - split_and!; [done|done|]. exists c, cus. split_and!; [done| |done].
    rewrite after_deletion_customers_get, Hcus. cbn. rewrite Hcu, Ho. cbn. by rewrite Hp.
Qed.

Lemma after_deletion_ext p q d : (∀ i, p i = q i) → after_deletion p d = after_deletion q d.
Proof. intros H. by rewrite (functional_extensionality p q H). Qed.

Lemma delete_each_run (orgs : list (uuid * OrgRow)) w :
  db_ok (s_db (w_db w)) → NoDup orgs.*1 → orgs ≠ [] → let d := s_db (w_db w) in
  ∃ w' new, for_each (λ org, delete_org org.1) orgs w = (Ok tt, w') ∧
    s_db (w_db w') = after_deletion (λ o, bool_decide (o ∈ orgs.*1)) d ∧
    w_stripe w' = w_stripe w ∧ w_tasks w' = (w_tasks w ++ new)%list ∧ Forall (is_cancel_of d orgs.*1) new ∧
    ∀ org i s k, org ∈ orgs.*1 → d.(d_subs) !! i = Some s → stripe_sub_of d org k s → s.(sub_user_id) = None →
      ∃ k', cancel_stripe_subs_task_delay [k'] (uuid_str org) ∈ new.
Proof.
  revert w. induction orgs as [|[org row] orgs IH]; intros w Hok Hnd Hne d; [done|]. cbn [for_each]. rewrite bind_run.
  destruct (delete_org_run org w) as (w1 & Hrun & Hd & Hs & Ht). cbn [fst]. rewrite Hrun. cbn [fst fmap list_fmap].
  fold d in Hd, Ht. cbn [fmap list_fmap fst] in Hnd. apply NoDup_cons in Hnd as [Hnot Hnd].
  set (mine := from_option _ _ _) in Ht.
  assert (Forall (is_cancel_of d (org :: orgs.*1)) mine) as Hmine.
  { subst mine. destruct (_get_active_stripe_sub org d) as [s|] eqn:Hget; [|constructor].
    destruct (active_stripe_sub_spec _ _ _ Hget) as (i & k & Hi & Hk). cbn. rewrite (proj1 Hk). cbn.
    constructor; [|constructor]. exists org, k, i, s. split_and!; [left|done|done|done]. }
  assert (∀ i s k, d_subs d !! i = Some s → stripe_sub_of d org k s →
    ∃ k', cancel_stripe_subs_task_delay [k'] (uuid_str org) ∈ mine) as Hdone.
  { intros i s k Hi Hk. destruct (active_stripe_sub_is_Some _ _ _ _ _ Hi Hk) as (s' & k' & Hget & Hk').
    exists k'. subst mine. rewrite Hget. cbn. rewrite Hk'. cbn. left. }
  destruct (decide (orgs = [])) as [->|Hne'].
  - exists w1, mine. split_and!; [done| |done..|].
    + rewrite Hd. apply after_deletion_ext. intros i. unfold b_eq.
      apply bool_decide_ext. cbn. rewrite list_elem_of_singleton. split; congruence.
    + intros o i s k Ho Hi Hk _. cbn in Ho. apply list_elem_of_singleton in Ho as ->. by eapply Hdone.
  - destruct (IH w1) as (w2 & new & Hrun2 & Hd2 & Hs2 & Ht2 & Hnew & Hall); [by rewrite Hd; apply after_deletion_ok|done|done|].
    rewrite Hd in Hd2, Hnew, Hall.
    exists w2, (mine ++ new)%list. split_and!; [done| |congruence|by rewrite Ht2, Ht, app_assoc| |].
    + rewrite Hd2, after_deletion_either by done. apply after_deletion_ext. intros i. unfold either, b_eq.
      rewrite <- bool_decide_or. apply bool_decide_ext. rewrite elem_of_cons. split; intros [?|?]; auto.
    + apply Forall_app. split; [done|]. eapply Forall_impl; [exact Hnew|].
      intros t (o & k & i & s & Ho & -> & Hi & Hk). destruct (stripe_sub_before _ _ _ _ _ _ Hi Hk) as [Hi' Hk'].
      exists o, k, i, s. split_and!; [by right|done|done|done].
    + intros o i s k [->|Ho]%elem_of_cons Hi Hk Hsu.
      * destruct (Hdone i s k Hi Hk) as [k' Hin]. exists k'. apply elem_of_app. by left.
      * assert (b_eq org o = false) as Hb by (apply b_eq_false; intros ->; done).
        destruct (stripe_sub_after (b_eq org) d i o k s) as [Hi' Hk']; [done..|].
        destruct (Hall o i s k Ho Hi' Hk' Hsu) as [k' Hin]. exists k'. apply elem_of_app. by right.
Qed.

(** ** Properties *)

(** A subscription of a well-formed database survives exactly with its user and its
    customer. *)
Lemma after_deletion_subs p d i s :
  db_ok d →
  d_subs (after_deletion p d) !! i = Some s ↔
  d_subs d !! i = Some s ∧ (∀ u, s.(sub_user_id) = Some u → ¬ only_member_of p d u) ∧
  (∀ c, s.(sub_stripe_customer_id) = Some c → is_Some (d_customers (after_deletion p d) !! c)).
Proof.
  intros Hok. rewrite after_deletion_subs_get.
  assert (∀ c, is_Some (d_customers d !! c) →
    customer_gone p d c = false ↔ is_Some (d_customers (after_deletion p d) !! c)) as Hgone.
  { intros c [r Hr]. rewrite after_deletion_customers_get, Hr. unfold customer_gone, customer_of. rewrite Hr. cbn.
    destruct (_ || _); split; try done; by intros []. }
  assert (∀ c, d_subs d !! i = Some s → s.(sub_stripe_customer_id) = Some c → is_Some (d_customers d !! c)) as Href.
  { intros c Hs Hc. assert (table_ok sub_schema (has d) d.(d_subs)) as Hts by (unfold db_ok in Hok; tauto).
    pose proof (table_ok_row _ _ _ _ _ Hts Hs) as Hr. unfold row_ok in Hr. cbn in Hr.
    rewrite !forallb_app, !andb_true_iff, Hc in Hr. destruct Hr as (_ & Hrc & _). cbn in Hrc.
    rewrite andb_true_r in Hrc. by apply not_none_true in Hrc. }
  split.
  - intros (s' & Hs & Hk)%bind_Some. destruct (_ || _) eqn:E; [done|]. injection Hk as ->.
    apply orb_false_iff in E as [Hu Hc]. split; [done|]. split.
    + intros u Hsu. rewrite Hsu in Hu. cbn in Hu. by rewrite <- deletable_spec, Hu.
    + intros c Hsc. rewrite Hsc in Hc. by apply Hgone; [apply (Href c)|].
  - intros (Hs & Hu & Hc). rewrite Hs. cbn.
    assert (opt_in (deletable p d) (sub_user_id s) = false) as ->.
    { destruct (sub_user_id s) as [u|] eqn:Hsu; [|done]. cbn. apply not_true_iff_false. rewrite deletable_spec. by apply Hu. }
    assert (opt_in (customer_gone p d) (sub_stripe_customer_id s) = false) as ->; [|done].
    destruct (sub_stripe_customer_id s) as [c|] eqn:Hsc; [|done]. cbn. by apply Hgone; [apply (Href c)|apply Hc].
Qed.

(** C21. The deletion cascade takes exactly what it should.  The transaction
    shared by organisation deletion, subscription cancellation and account
    deletion always succeeds on a well-formed database and keeps it well formed.
    Exactly the given organisations go; the memberships left are exactly those
    of the other organisations; a user is deleted exactly when they were a
    member of a deleted organisation, of no other, and had no active personal
    subscription; the Stripe customers left are exactly those of the other
    organisations and of the users who stay, and the subscriptions left exactly those
    whose user and customer stay.  Nothing is asked of Stripe inside the transaction. *)
Theorem delete_orgs_cascade p w :
  db_ok (s_db (w_db w)) →
  let d := s_db (w_db w) in
  ∃ w', delete_orgs_db p w = (Ok tt, w') ∧ let d' := s_db (w_db w') in
    db_ok d' ∧ w_stripe w' = w_stripe w ∧
    (∀ o, is_Some (d_orgs d' !! o) ↔ is_Some (d_orgs d !! o) ∧ p o = false) ∧
    (∀ i m, d_members d' !! i = Some m ↔ d_members d !! i = Some m ∧ p m.(m_org) = false) ∧
    (∀ u, is_Some (d_users d' !! u) ↔ is_Some (d_users d !! u) ∧ ¬ only_member_of p d u) ∧
    (∀ i c, d_customers d' !! i = Some c ↔ d_customers d !! i = Some c ∧
      (∀ o, c.(cus_org_id) = Some o → p o = false) ∧ (∀ u, c.(cus_user_id) = Some u → ¬ only_member_of p d u)) ∧
    (∀ i s, d_subs d' !! i = Some s ↔ d_subs d !! i = Some s ∧
      (∀ u, s.(sub_user_id) = Some u → ¬ only_member_of p d u) ∧
      (∀ c, s.(sub_stripe_customer_id) = Some c → is_Some (d_customers d' !! c))).
Proof.
  intros Hok d. destruct (delete_orgs_db_run p w) as (w' & Hrun & Hd & Hs & _).
  exists w'. split; [done|]. rewrite Hd. split_and!; [by apply after_deletion_ok|done| | | | |].
  - intros o. apply after_deletion_orgs.
  - intros i m. apply after_deletion_members.
  - intros u. rewrite after_deletion_users, <-deletable_spec. by rewrite not_true_iff_false.
  - intros i c. rewrite after_deletion_customers_get. fold d. split.
    + intros (c' & Hc & Hk)%bind_Some. destruct (_ || _) eqn:E; [done|]. injection Hk as ->.
      apply orb_false_iff in E as [Hu Ho]. split; [done|]. split.
      * intros o Hco. by rewrite Hco in Ho.
      * intros u Hcu. rewrite Hcu in Hu. cbn in Hu. by rewrite <- deletable_spec, Hu.
    + intros (Hc & Ho & Hu). rewrite Hc. cbn.
      assert (opt_in (deletable p d) (cus_user_id c) = false) as ->.
      { destruct (cus_user_id c) as [u|] eqn:Hcu; [|done]. cbn. apply not_true_iff_false. rewrite deletable_spec. by apply Hu. }
      destruct (cus_org_id c) as [o|]; [|done]. cbn. by rewrite (Ho o eq_refl).
  - intros i s. by apply after_deletion_subs.
Qed.
