(* ===== verification/Account.v ===== *)
(** * Account deletion and the webhook entry points

    [AccountView.delete] of [apps/users/views.py], the registered callbacks of
    [get_webhook_repos], the endpoint [apps/billing/webhook.py] and the Celery
    task [process_stripe_webhook] of [apps/billing/tasks.py]. *)

From S2P Require Import Prelude PyVal Effects Domain Relational Store Django Auth Repos.
From S2P Require Import Repositories Webhooks Billing Gdpr Credits Orgs.

#[local] Open Scope string_scope.

(** ** Definitions *)

(** The endpoint's request: what [json.loads] makes of the body, its length, and
    what the SDK says of the signature ([construct_event]). *)
Record HttpRequest := mkHttpRequest {
  rq_content_length : string;
  rq_body_length : Z;
  rq_body : outcome json;
  rq_signature : outcome unit
}.

Section Account.
  Context `{DjangoLib} `{Secrets} `{StripeServer}.

(** [_pre_delete]. *)
Definition _pre_delete (user_id : uuid) : M store unit :=
  delete_orgs_created_by_user user_id;;
  dexec (λ d, Ok (set_members (tfilter (λ _ m, negb (b_eq m.(m_user) user_id)) d.(d_members)) d)).

Definition account_delete (user : uuid) : M store unit := delete_account user (Some _pre_delete).

Definition get_webhook_repos : WebhookRepos store :=
  mkWebhookRepos (Some on_team_checkout_completed) (Some delete_org_on_subscription_cancel)
    (Some (λ s p u o, Credits.on_product_checkout_completed s p u o)).

(** *** [stripe_webhook] *)

Definition _MAX_WEBHOOK_BODY : Z := 256 * 1024.

Definition content_length (r : HttpRequest) : Z :=
  if b_eq r.(rq_content_length) "" then 0%Z
  else or_else (int_of_string r.(rq_content_length)) 0%Z.

Definition event_fields (body : json) : outcome (string * string * bool) :=
  i ← getitem body "id";
  t ← getitem body "type";
  l ← getitem body "livemode";
  Ok (py_str i, py_str t, truthy l).

(** The exceptions of the two [try] blocks that are answered 400. *)
Definition is_bad_signature (e : exn) : bool :=
  match e with
  | StripeError cls _ _ _ => b_eq cls "SignatureVerificationError"
  | ValueError _ => true
  | _ => false
  end.

Definition is_bad_body (e : exn) : bool :=
  match e with ValueError _ | KeyError _ | TypeError _ => true | _ => false end.

Definition stripe_webhook (key_is_live : bool) (r : HttpRequest) : M store Z :=
  if (_MAX_WEBHOOK_BODY <? content_length r)%Z then mret 413%Z else
  if (_MAX_WEBHOOK_BODY <? r.(rq_body_length))%Z then mret 413%Z else
  match r.(rq_signature) with
  | Raise e => if is_bad_signature e then mret 400%Z else raise e
  | Ok _ =>
      match (body ← r.(rq_body); f ← event_fields body; Ok (body, f)) with
      | Raise e => if is_bad_body e then mret 400%Z else raise e
      | Ok (body, (stripe_id, event_type, livemode)) =>
          if negb (eqb livemode key_is_live) then mret 202%Z else
          atomic (
            existing ← dquery (λ d, tfind (λ _ e, b_eq e.(e_stripe_id) stripe_id) d.(d_events));
            match existing with
            | Some _ => mret 202%Z
            | None =>
                id ← uuid4;
                now ← utcnow;
                dexec (insert_event id
                  (mkEventRow stripe_id event_type livemode body None None now));;
                on_commit (process_stripe_webhook_delay id);;
                mret 202%Z
            end)
      end
  end.

(** *** [process_stripe_webhook] *)

(** How a task run ends: done, failed for good, or re-queued by [self.retry]
    with a countdown. *)
Inductive task_result :=
  | TaskDone
  | TaskFailed (e : exn)
  | TaskRetry (e : exn) (countdown : Z).

Definition max_retries : nat := 3.

(** The exceptions of the second [except] clause. *)
Definition is_transient (e : exn) : bool :=
  match e with
  | StripeError _ _ _ _ | ConnectionError _ | OperationalError _ => true
  | _ => false
  end.

Definition process_stripe_webhook (retries : nat) (stripe_event_id : uuid) (w : world store) :
    task_result * world store :=
  match objects_get (λ d, d.(d_events) !! stripe_event_id) "StripeEvent" w with
  | (Raise e, w) => (TaskFailed e, w)
  | (Ok event_row, w) =>
      match process_stored_event event_row.(e_payload) event_row.(e_stripe_id) get_webhook_repos w with
      | (Ok _, w) => (TaskDone, w)
      | (Raise e, w) =>
          if is_transient e
          then (if (retries <? max_retries)%nat
                then TaskRetry e (2 ^ Z.of_nat retries) else TaskFailed e, w)
          else (TaskFailed e, w)
      end
  end.

(** Celery re-runs a re-queued task with [retries] one higher, once its countdown
    (in seconds) has passed. *)
Fixpoint run_task (fuel retries : nat) (stripe_event_id : uuid) (w : world store) :
    option (task_result * world store) :=
  match fuel with
  | O => None
  | S fuel =>
      match process_stripe_webhook retries stripe_event_id w with
      | (TaskRetry _ countdown, w') =>
          run_task fuel (S retries) stripe_event_id (set_now (w_now w' + seconds countdown) w')
      | r => Some r
      end
  end.

End Account.
