(* ===== verification/OrgInvariant.v ===== *)
(** * One owner per organisation

    The endpoints of [OrgViews.v] and the team checkout as the transitions of a
    state machine, and the invariant every reachable state satisfies. *)

From S2P Require Import Prelude PyVal Effects Domain Relational Store StoreFacts Django Auth Repos.
From S2P Require Import Repositories RepositoriesFacts Webhooks Billing Gdpr GdprFacts Orgs.
From S2P Require Import Fields OrgViews OrgFacts Account.

#[local] Open Scope string_scope.

(** ** The state machine *)

Section Machine.
  Context `{DjangoLib} `{Secrets} `{StripeServer}.

(** The requests that change organisations. *)
Inductive org_op :=
  | OpTeamCheckout (user : uuid) (name customer : string) (livemode : bool)
  | OpPatch (user org : uuid) (name : option string) (logo_url : option (option string))
  | OpDelete (user org : uuid)
  | OpPatchMember (user org member : uuid) (role : option OrgRole) (is_billing : option bool)
  | OpTransfer (user org target : uuid)
  | OpInvite (user org : uuid) (email : string) (role : OrgRole)
  | OpCancelInvite (user org invitation : uuid)
  | OpAccept (token full_name : string)
  | OpDecline (user : uuid) (token : string)
  | OpSubscriptionCanceled (org : string).

Definition run_op (op : org_op) : M store unit :=
  match op with
  | OpTeamCheckout u n c l => _create_org_with_owner u n (Some c) l;; mret tt
  | OpPatch u o n l => org_patch u o n l
  | OpDelete u o => org_delete u o
  | OpPatchMember u o m r b => member_patch u o m r b
  | OpTransfer u o t => transfer_ownership u o t
  | OpInvite u o e r => invitation_create u o e r;; mret tt
  | OpCancelInvite u o i => invitation_cancel u o i
  | OpAccept t n => invitation_accept t n;; mret tt
  | OpDecline u t => invitation_decline u t
  | OpSubscriptionCanceled o => delete_org_on_subscription_cancel_task o
  end.

(** The user owns no organisation. *)
Definition owns_none (user : uuid) (d : db) : Prop :=
  ∀ i m, d.(d_members) !! i = Some m → m.(m_user) = user → m.(m_role) ≠ OWNER.

(** The user created every organisation they own. *)
Definition owns_only_created (user : uuid) (d : db) : Prop :=
  ∀ i m, d.(d_members) !! i = Some m → m.(m_user) = user → m.(m_role) = OWNER →
    m.(m_org) ∈ created_orgs user d.

(** A request runs to its response, whatever that is; time passes between
    requests.  The two requests that delete an account are steps when the
    account is not the owner of an organisation they would leave behind:
    without that restriction the invariant fails, see [OrgLifecycle.v]. *)
Inductive org_step : world store → world store → Prop :=
  | step_request op w : org_step w (run_op op w).2
  | step_remove_member user org target w :
      owns_none target (s_db (w_db w)) → org_step w (member_delete user org target w).2
  | step_delete_account user w :
      owns_only_created user (s_db (w_db w)) → org_step w (account_delete user w).2
  | step_time t w : org_step w (set_now t w).

Definition reachable : world store → world store → Prop := rtc org_step.

End Machine.

Definition inv (s : store) : Prop := org_inv s.(s_db).
Abbreviation keeps_inv := (preserves (db_inv inv)).

(** ** Helper lemmas *)

Lemma org_inv_frame d d' :
  org_inv d → db_ok d' → d_members d' = d_members d →
  (∀ o, is_Some (d_orgs d' !! o) → is_Some (d_orgs d !! o)) →
  map_Forall (λ _ i, i.(i_role) ≠ OWNER) (d_invitations d') → org_inv d'.
Proof.
  intros (_ & Hown & _) Hok Hm Ho Hi. split_and!; [done| |done].
  intros o Hor. unfold has_one_owner. rewrite Hm. by apply Hown, Ho.
Qed.

(** A save that leaves members and organisations alone. *)
Lemma keeps_inv_dexec f :
  (∀ d d', db_ok d → f d = Ok d' → db_ok d') →
  (∀ d d', org_inv d → f d = Ok d' →
    d_members d' = d_members d ∧ d_orgs d' = d_orgs d ∧
    map_Forall (λ _ i, i.(i_role) ≠ OWNER) (d_invitations d')) →
  keeps_inv (dexec f).
Proof.
  intros Hok Hf. apply preserves_exec. intros s s' Hs [Hd _]%on_db_inv.
  destruct (Hf _ _ Hs Hd) as (Hm & Ho & Hi).
  eapply org_inv_frame; [exact Hs|eapply Hok; [apply Hs|done]|done|by rewrite Ho|done].
Qed.

Lemma keeps_inv_atomic {A} (m : M store A) : keeps_inv m → keeps_inv (atomic m).
Proof.
  intros Hm w Hw. specialize (Hm w Hw). unfold atomic.
  destruct (m w) as [[a|e] w']; [exact Hm|exact Hw].
Qed.

Lemma keeps_inv_invalidate i : keeps_inv (invalidate_auth_user_cache i).
Proof. apply preserves_exec. intros s s' Hs [= <-]. exact Hs. Qed.

Lemma keeps_inv_get_or_404 {A} (q : db → option A) : keeps_inv (get_or_404 q).
Proof. apply preserves_bind; [apply preserves_query|]. intros []; [apply preserves_ret|apply preserves_raise]. Qed.

Lemma keeps_inv_get_org_and_member u o r : keeps_inv (_get_org_and_member u o r).
Proof.
  unfold _get_org_and_member. apply preserves_bind; [apply preserves_query|]. intros [m|].
  - destruct r; [case_match|]; try apply preserves_ret; apply preserves_raise.
  - apply preserves_bind; [apply preserves_query|]. intros []; apply preserves_raise.
Qed.

(** What the lookups return. *)
Lemma get_or_404_Ok {A} (q : db → option A) w a w' :
  get_or_404 q w = (Ok a, w') → w' = w ∧ q (s_db (w_db w)) = Some a.
Proof. unfold get_or_404, dquery. munfold. destruct (q _); [|done]. by intros [= <- <-]. Qed.

Lemma member_of_Some d org user i m :
  member_of d org user = Some (i, m) →
  d_members d !! i = Some m ∧ m.(m_org) = org ∧ m.(m_user) = user.
Proof. unfold member_of. intros [Hm Hp]%tfind_Some. rewrite andb_true_iff, !b_eq_true in Hp. tauto. Qed.

Lemma get_org_and_member_Ok u o r w m w' :
  _get_org_and_member u o r w = (Ok m, w') →
  w' = w ∧ member_of (s_db (w_db w)) o u = Some m ∧
  ∀ roles, r = Some roles → m.2.(m_role) ∈ roles.
Proof.
  unfold _get_org_and_member, dquery. munfold.
  destruct (member_of _ o u) as [m0|] eqn:Hm; [|by case_match].
  destruct r as [roles|]; [|by intros [= <- <-]].
  destruct (negb _) eqn:E; [done|]. intros [= <- <-]. split_and!; [done|done|].
  intros roles' [= <-]. unfold role_in in E. by rewrite negb_false_iff, bool_decide_eq_true in E.
Qed.

(** *** Members *)

Lemma save_member_inv i m d d' :
  save_member i m d = Ok d' → d' = set_members (<[i := m]> d.(d_members)) d.
Proof. intros (t & Ht & [= <-])%outcome_bind_Ok. by apply tput_inv in Ht as (-> & _). Qed.

(** Writing a row that is no owner, over nothing or over a row that is none. *)
Lemma org_inv_member i m d :
  org_inv d → db_ok (set_members (<[i := m]> d.(d_members)) d) → m.(m_role) ≠ OWNER →
  (∀ m0, d.(d_members) !! i = Some m0 → m0.(m_role) ≠ OWNER) →
  org_inv (set_members (<[i := m]> d.(d_members)) d).
Proof.
  intros (_ & Hown & Hi) Hok Hr Hr0. split_and!; [done| |done]. intros o Ho.
  destruct (Hown o Ho) as (j & mo & Hj & Horg & Hrole & Hu).
  assert (j ≠ i) as Hne by (intros ->; by eapply Hr0).
  exists j, mo. cbn. rewrite lookup_insert_ne by done. split_and!; [done..|].
  intros k mk. rewrite lookup_insert_Some. intros [[<- <-]|[_ Hk]]; [done|by apply Hu].
Qed.

Lemma only_owner d o i m j m' :
  org_inv d → d_members d !! i = Some m → m.(m_org) = o → m.(m_role) = OWNER →
  d_members d !! j = Some m' → m'.(m_org) = o → m'.(m_role) = OWNER → j = i.
Proof.
  intros (Hok & Hown & _) Hi Ho Hr Hj Ho' Hr'.
  destruct (member_refs _ _ _ Hok Hi) as (Horg & _). rewrite Ho in Horg.
  destruct (Hown o Horg) as (k & mk & _ & _ & _ & Hu).
  by rewrite (Hu i m), (Hu j m').
Qed.

(** *** The requests *)

Lemma rank_not_owner caller target u :
  check_can_manage_member caller target = Ok u → target ≠ OWNER.
Proof. unfold check_can_manage_member. destruct caller, target; cbn; congruence. Qed.

Lemma assignable_not_owner r : role_in r _ASSIGNABLE_ROLES = true → r ≠ OWNER.
Proof. destruct r; [intros H; by vm_compute in H|done..]. Qed.

Lemma keeps_inv_member_fields id role is_billing w :
  db_inv inv w →
  (∀ m, d_members (s_db (w_db w)) !! id = Some m → m.(m_role) ≠ OWNER) →
  (∀ r, role = Some r → r ≠ OWNER) →
  db_inv inv (save_member_fields id role is_billing w).2.
Proof.
  intros Hw Hold Hnew. unfold save_member_fields. rewrite dexec_run.
  destruct (d_members _ !! id) as [m|] eqn:Hm; [|done].
  destruct (save_member _ _ _) as [d'|] eqn:Hs; [|done]. cbn. unfold db_inv, inv. cbn.
  pose proof (save_member_ok _ _ _ _ (proj1 Hw) Hs) as Hok.
  apply save_member_inv in Hs as ->. apply org_inv_member; [done|done| |by rewrite Hm].
  unfold member_set. cbn. destruct role as [r|]; cbn; [by apply Hnew|by apply Hold].
Qed.

Lemma member_patch_keeps user org member role is_billing :
  keeps_inv (member_patch user org member role is_billing).
Proof.
  unfold member_patch, member_update.
  apply preserves_bind; [apply keeps_inv_get_org_and_member|]. intros caller.
  apply preserves_bind_dep; [apply keeps_inv_get_or_404|].
  intros [tid t] w w' _ [-> Ht]%get_or_404_Ok Hw. apply member_of_Some in Ht as [Ht _].
  rewrite bind_run. cbn [snd]. unfold lift. destruct (check_can_manage_member _ _) eqn:Hc; [|done].
  apply rank_not_owner in Hc.
  destruct (match role with Some r => _ | None => false end) eqn:Hrole; [done|].
  destruct (_ && _); [done|].
  assert (∀ w1, w1 = w → db_inv inv (save_member_fields tid role is_billing w1).2) as Hsave.
  { intros w1 ->. apply keeps_inv_member_fields; [done| |].
    - intros m Hm. cbn in Ht. rewrite Ht in Hm. by injection Hm as <-.
    - intros r ->. apply assignable_not_owner. by apply negb_false_iff in Hrole. }
  rewrite bind_run. destruct role as [r|]; cbn; [|by apply Hsave].
  destruct (check_can_assign_role _ _); [by apply Hsave|done].
Qed.

Lemma save_member_fields_run id role is_billing w m :
  d_members (s_db (w_db w)) !! id = Some m →
  save_member_fields id role is_billing w =
  match save_member id (member_set role is_billing m) (s_db (w_db w)) with
  | Ok d => (Ok tt, set_db (mkStore d (s_cache (w_db w)) (s_media (w_db w))) w)
  | Raise e => (Raise e, w)
  end.
Proof. intros Hm. unfold save_member_fields. by rewrite dexec_run, Hm. Qed.

Lemma get_or_404_run {A} (q : db → option A) w :
  get_or_404 q w =
  (match q (s_db (w_db w)) with Some a => Ok a | None => Raise (APIException 404 "not_found") end, w).
Proof. unfold get_or_404, dquery. munfold. by destruct (q _). Qed.

(** A read-only first step that succeeded. *)
Lemma get_org_and_member_cases u o r w :
  (∃ e, _get_org_and_member u o r w = (Raise e, w)) ∨
  (∃ m, _get_org_and_member u o r w = (Ok m, w) ∧ member_of (s_db (w_db w)) o u = Some m ∧
    ∀ roles, r = Some roles → m.2.(m_role) ∈ roles).
Proof.
  destruct (_get_org_and_member u o r w) as [[m|e] w'] eqn:E.
  - right. exists m. by apply get_org_and_member_Ok in E as (-> & ? & ?).
  - left. exists e. revert E. unfold _get_org_and_member, dquery. munfold. intros E.
    repeat case_match; by simplify_eq.
Qed.

Lemma transfer_members_inv d c cid t tid d1 d2 :
  org_inv d →
  d_members d !! cid = Some c → c.(m_role) = OWNER →
  d_members d !! tid = Some t → t.(m_role) = ADMIN → t.(m_org) = c.(m_org) →
  save_member tid (member_set (Some OWNER) (Some true) t) d = Ok d1 →
  save_member cid (member_set (Some ADMIN) (Some false) c) d1 = Ok d2 →
  org_inv d2.
Proof.
  intros Hinv Hc Hcr Ht Htr Horg H1 H2. pose proof Hinv as (Hok & Hown & Hroles).
  pose proof (save_member_ok _ _ _ _ (save_member_ok _ _ _ _ Hok H1) H2) as Hok2.
  assert (cid ≠ tid) as Hne by congruence.
  apply save_member_inv in H1 as ->. apply save_member_inv in H2 as ->.
  split_and!; [done| |done]. intros o Ho. cbn in Ho.
  destruct (decide (o = c.(m_org))) as [->|Ho'].
  - eexists tid, _. cbn. rewrite lookup_insert_ne, lookup_insert_eq by done.
    split_and!; [done|done|done|]. intros j m'. rewrite lookup_insert_Some.
    intros [[<- <-]|[Hj Hm']]; [done|]. revert Hm'. rewrite lookup_insert_Some.
    intros [[<- <-]|[Hj' Hm']] Hm'o Hm'r; [done|]. exfalso. apply Hj. symmetry.
    by apply (only_owner d (m_org c) cid c j m' Hinv).
  - destruct (Hown o Ho) as (k & mk & Hk & Hko & Hkr & Hu).
    assert (k ≠ cid) by congruence. assert (k ≠ tid) by congruence.
    exists k, mk. cbn. rewrite !lookup_insert_ne by done. split_and!; [done..|].
    intros j m'. rewrite lookup_insert_Some. intros [[<- <-]|[Hj Hm']]; [done|].
    revert Hm'. rewrite lookup_insert_Some. intros [[<- <-]|[Hj' Hm']]; [cbn; congruence|]. by apply Hu.
Qed.

Lemma transfer_keeps user org target : keeps_inv (transfer_ownership user org target).
Proof.
  intros w Hw. unfold transfer_ownership, transfer_to. rewrite bind_run.
  destruct (get_org_and_member_cases user org (Some _OWNER_ONLY) w)
    as [[e ->]|([cid c] & -> & Hc & Hrole)]; [done|].
  apply member_of_Some in Hc as (Hc & Hcorg & _).
  specialize (Hrole _ eq_refl). apply list_elem_of_singleton in Hrole. cbn in Hrole.
  rewrite bind_run, get_or_404_run. destruct (member_of _ org target) as [[tid t]|] eqn:Ht; [|done].
  apply member_of_Some in Ht as (Ht & Htorg & _). cbn [snd fst].
  destruct (b_eq (m_role t) ADMIN) eqn:Hadmin; [|done]. rewrite b_eq_true in Hadmin. cbn [negb].
  unfold atomic. rewrite bind_run, (save_member_fields_run tid _ _ w t Ht).
  destruct (save_member tid _ _) as [d1|] eqn:H1; [|done]. cbn.
  assert (d_members d1 !! cid = Some c) as Hc1.
  { pose proof H1 as ->%save_member_inv. cbn. rewrite lookup_insert_ne; [done|congruence]. }
  rewrite (save_member_fields_run cid _ _ (set_db (mkStore d1 (s_cache (w_db w)) (s_media (w_db w))) w) c Hc1).
  destruct (save_member cid _ _) as [d2|] eqn:H2; [cbn in H2|exact Hw].
  eapply (transfer_members_inv (s_db (w_db w)) c cid t tid d1 d2); [exact Hw|done..|congruence|done|done].
Qed.

(** *** Creation *)

Lemma insert_inv_org i o d d' :
  insert_org i o d = Ok d' → d_orgs d !! i = None ∧ d' = set_orgs (<[i := o]> d.(d_orgs)) d.
Proof.
  intros (u & Hf & Hs)%outcome_bind_Ok. unfold fresh_pk in Hf.
  destruct (not_none _) eqn:E; [done|]. rewrite not_none_false in E. split; [done|].
  apply outcome_bind_Ok in Hs as (t & Ht & [= <-]). by apply tput_inv in Ht as (-> & _).
Qed.

Lemma insert_inv_member i m d d' :
  insert_member i m d = Ok d' → d_members d !! i = None ∧ d' = set_members (<[i := m]> d.(d_members)) d.
Proof.
  intros (u & Hf & Hs)%outcome_bind_Ok. unfold fresh_pk in Hf.
  destruct (not_none _) eqn:E; [done|]. rewrite not_none_false in E. split; [done|].
  by apply save_member_inv in Hs.
Qed.

(** A new organisation with its owner. *)
Lemma org_inv_create org o mid m d d1 d2 :
  org_inv d → insert_org org o d = Ok d1 → insert_member mid m d1 = Ok d2 →
  m.(m_org) = org → m.(m_role) = OWNER → org_inv d2.
Proof.
  intros Hinv H1 H2 Horg Hrole. pose proof Hinv as (Hok & Hown & Hroles).
  pose proof (insert_member_ok _ _ _ _ (insert_org_ok _ _ _ _ Hok H1) H2) as Hok2.
  apply insert_inv_org in H1 as [Hfree ->]. apply insert_inv_member in H2 as [Hmfree ->]. cbn in *.
  split_and!; [done| |done]. intros o' Ho'. cbn in Ho'. destruct (decide (o' = org)) as [->|Hne].
  - exists mid, m. cbn. rewrite lookup_insert_eq. split_and!; [done..|].
    intros j m'. rewrite lookup_insert_Some. intros [[<- <-]|[_ Hj]] Hm' _; [done|].
    destruct (member_refs _ _ _ Hok Hj) as ([x Hx] & _). congruence.
  - rewrite lookup_insert_ne in Ho' by done.
    destruct (Hown o' Ho') as (k & mk & Hk & Hko & Hkr & Hu).
    assert (k ≠ mid) by congruence. exists k, mk. cbn. rewrite lookup_insert_ne by done.
    split_and!; [done..|]. intros j m'. rewrite lookup_insert_Some.
    intros [[<- <-]|[_ Hj]] Hm'; [congruence|]. by apply Hu.
Qed.

Section Requests.
  Context `{DjangoLib} `{Secrets} `{StripeServer}.

Lemma save_customer_frame c d d' :
  save_customer c d = Ok d' →
  d_members d' = d_members d ∧ d_orgs d' = d_orgs d ∧ d_invitations d' = d_invitations d.
Proof. intros (t & _ & [= <-])%outcome_bind_Ok. done. Qed.

Lemma team_checkout_keeps user name k livemode :
  keeps_inv (_create_org_with_owner user name (Some k) livemode).
Proof.
  intros w Hw. unfold _create_org_with_owner, atomic, dquery. munfold. cbn.
  destruct (already_created k user (s_db (w_db w))) as [o|]; [exact Hw|].
  rewrite dexec_run. cbn.
  destruct (insert_org _ _ _) as [d1|] eqn:E1; [|exact Hw]. rewrite dexec_run.
  change (w_db (World _ _ _ _ _)) with (mkStore d1 (s_cache (w_db w)) (s_media (w_db w))). cbn [s_db].
  destruct (insert_member _ _ d1) as [d2|] eqn:E2; [|exact Hw]. rewrite dexec_run.
  change (w_db (World _ _ _ _ _)) with (mkStore d2 (s_cache (w_db w)) (s_media (w_db w))). cbn [s_db].
  destruct (insert_customer _ d2) as [d3|] eqn:E3; [|exact Hw]. cbn. unfold db_inv, inv. cbn.
  assert (org_inv d2) as Hinv2 by (by eapply (org_inv_create _ _ _ _ (s_db (w_db w)) d1 d2)).
  pose proof (insert_customer_ok _ _ _ (proj1 Hinv2) E3) as Hok3.
  apply outcome_bind_Ok in E3 as (_ & _ & E3). apply save_customer_frame in E3 as (Hm & Ho & Hi).
  eapply org_inv_frame; [exact Hinv2|done|done|by rewrite Ho|rewrite Hi; apply Hinv2].
Qed.

Lemma set_status_keeps inv_id st : keeps_inv (save_invitation_status inv_id st).
Proof.
  apply keeps_inv_dexec.
  - intros d d' Hok. destruct (d_invitations d !! inv_id); [|done]. by apply save_invitation_ok.
  - intros d d' (_ & _ & Hi). destruct (d_invitations d !! inv_id) as [i|] eqn:Hd; [|done].
    intros (t & Ht & [= <-])%outcome_bind_Ok. apply tput_inv in Ht as (-> & _). cbn.
    split_and!; [done|done|]. apply map_Forall_insert_2; [exact (Hi _ _ Hd)|done].
Qed.

Lemma insert_invitation_keeps i inv_row :
  inv_row.(i_role) ≠ OWNER → keeps_inv (dexec (insert_invitation i inv_row)).
Proof.
  intros Hr. apply keeps_inv_dexec; [db_step|].
  intros d d' (_ & _ & Hi) (u & _ & Hs)%outcome_bind_Ok.
  apply outcome_bind_Ok in Hs as (t & Ht & [= <-]). apply tput_inv in Ht as (-> & _). cbn.
  split_and!; [done|done|]. by apply map_Forall_insert_2.
Qed.

Lemma validate_seats_keeps org : keeps_inv (_validate_seat_limit org).
Proof.
  unfold _validate_seat_limit. apply preserves_bind; [apply preserves_query|]. intros [s|]; [|apply preserves_ret].
  do 2 (apply preserves_bind; [apply preserves_query|]; intros ?). case_match; [apply preserves_raise|apply preserves_ret].
Qed.

Lemma invite_keeps user org email role : role ≠ OWNER → keeps_inv (invite user org email role).
Proof.
  intros Hr. unfold invite.
  apply preserves_bind; [apply preserves_query|]. intros []; [apply preserves_raise|].
  apply preserves_bind; [apply preserves_query|]. intros []; [apply preserves_raise|].
  apply preserves_bind; [apply preserves_bind; [apply preserves_uuid4|intros; apply preserves_ret]|]. intros token.
  do 2 (apply preserves_bind; [apply preserves_query|]; intros ?).
  apply keeps_inv_atomic. apply preserves_bind; [apply validate_seats_keeps|intros _].
  apply preserves_bind; [apply preserves_uuid4|intros id].
  apply preserves_bind; [apply preserves_utcnow|intros now].
  apply preserves_bind; [by apply insert_invitation_keeps|intros _].
  apply preserves_bind; [apply preserves_delay|intros _; apply preserves_ret].
Qed.

Lemma invitation_create_keeps user org email role :
  keeps_inv (invitation_create user org email role).
Proof.
  apply preserves_bind; [apply keeps_inv_get_org_and_member|]. intros _.
  destruct (role_in role _ASSIGNABLE_ROLES) eqn:Hr; [|apply preserves_raise].
  apply preserves_bind; [by apply invite_keeps, assignable_not_owner|intros i; apply preserves_ret].
Qed.

Lemma org_patch_keeps user org name logo : keeps_inv (org_patch user org name logo).
Proof.
  apply preserves_bind; [apply keeps_inv_get_org_and_member|intros _].
  unfold org_update. case_match; [apply preserves_ret|]. apply preserves_exec. intros s s' Hs [Hd _]%on_db_inv.
  destruct (d_orgs (s_db s) !! org) as [row|] eqn:Hrow; [|done].
  pose proof (save_org_ok _ _ _ _ (proj1 Hs) Hd) as Hok.
  apply outcome_bind_Ok in Hd as (t & Ht & [= Hd]). apply tput_inv in Ht as (-> & _).
  eapply org_inv_frame; [exact Hs|exact Hok|by rewrite <-Hd| |by rewrite <-Hd; apply Hs].
  intros o. rewrite <-Hd. cbn. rewrite <-!not_none_true, !not_none_true.
  intros [x [[<- _]|[_ Hx]]%lookup_insert_Some]; by eexists.
Qed.

Lemma invitation_cancel_keeps user org i : keeps_inv (invitation_cancel user org i).
Proof.
  apply preserves_bind; [apply keeps_inv_get_org_and_member|intros _].
  apply preserves_bind; [apply keeps_inv_get_or_404|intros _]. apply set_status_keeps.
Qed.

Lemma invitation_decline_keeps user token : keeps_inv (invitation_decline user token).
Proof.
  apply preserves_bind; [apply keeps_inv_get_or_404|intros i].
  apply preserves_bind.
  { apply preserves_bind; [apply preserves_query|]. intros []; [apply preserves_ret|apply preserves_raise]. }
  intros u. case_match; [apply preserves_raise|apply set_status_keeps].
Qed.

Lemma create_user_keeps e p n a v r : keeps_inv (create_user e p n a v r).
Proof.
  unfold create_user. case_match; [apply preserves_raise|].
  do 2 (apply preserves_bind; [apply preserves_uuid4|intros ?]).
  apply preserves_bind; [apply preserves_utcnow|intros now].
  apply preserves_bind.
  - apply keeps_inv_dexec; [db_step|]. intros d d' (_ & _ & Hi) (u & _ & Hs)%outcome_bind_Ok.
    by apply outcome_bind_Ok in Hs as (t & Ht & [= <-]).
  - intros _. apply preserves_bind; [apply keeps_inv_invalidate|intros _; apply preserves_ret].
Qed.

Lemma insert_member_keeps i m : m.(m_role) ≠ OWNER → keeps_inv (dexec (insert_member i m)).
Proof.
  intros Hr. apply preserves_exec. intros s s' Hs [Hd _]%on_db_inv. unfold inv in *.
  pose proof (insert_member_ok _ _ _ _ (proj1 Hs) Hd) as Hok.
  apply insert_inv_member in Hd as [Hfree Hd]. rewrite Hd in *. apply org_inv_member; [done..|].
  intros m0 Hm0. congruence.
Qed.

Lemma accept_keeps id i full_name :
  i.(i_role) ≠ OWNER → keeps_inv (accept_invitation id i full_name).
Proof.
  intros Hr. apply keeps_inv_atomic.
  apply preserves_bind.
  { apply preserves_bind; [apply preserves_query|]. intros [s|]; [|apply preserves_ret].
    apply preserves_bind; [apply preserves_query|]. intros n.
    case_match; [apply preserves_raise|apply preserves_ret]. }
  intros _.
  apply preserves_bind; [apply create_user_keeps|intros u].
  apply preserves_bind; [apply preserves_uuid4|intros mid].
  apply preserves_bind; [apply preserves_utcnow|intros now].
  apply preserves_bind; [by apply insert_member_keeps|intros _].
  apply preserves_bind; [apply set_status_keeps|intros _].
  apply preserves_bind.
  - unfold create_email_verification_token.
    apply preserves_bind; [apply preserves_bind; [apply preserves_uuid4|intros; apply preserves_ret]|intros tok].
    apply preserves_bind; [apply preserves_uuid4|intros vid].
    apply preserves_bind; [apply preserves_utcnow|intros now'].
    apply preserves_bind; [|intros _; apply preserves_ret].
    apply keeps_inv_dexec; [db_step|]. intros d d' (_ & _ & Hi) (x & _ & Hs)%outcome_bind_Ok.
    by apply outcome_bind_Ok in Hs as (t & Ht & [= <-]).
  - intros tok. apply preserves_bind; [apply preserves_delay|intros _; apply preserves_ret].
Qed.

Lemma acceptable_cases token w :
  keeps_inv (acceptable_invitation token) ∧
  ∀ inv w', acceptable_invitation token w = (Ok inv, w') →
    w' = w ∧ pending_by_token token (s_db (w_db w)) = Some inv ∧ (w_now w <= inv.2.(i_expires_at))%Z ∧
    email_is_registered inv.2.(i_email) (s_db (w_db w)) = false.
Proof.
  split.
  - apply preserves_bind; [apply keeps_inv_get_or_404|intros i].
    apply preserves_bind; [apply preserves_utcnow|intros now]. case_match.
    + apply preserves_bind; [apply set_status_keeps|intros _; apply preserves_raise].
    + apply preserves_bind; [apply preserves_query|]. intros []; [apply preserves_raise|apply preserves_ret].
  - intros inv w'. unfold acceptable_invitation. rewrite bind_run, get_or_404_run.
    destruct (pending_by_token token _) as [i|]; [|done]. rewrite bind_run. cbn [utcnow].
    destruct (_ <? _)%Z eqn:Hexp; [rewrite bind_run; by destruct (save_invitation_status _ _ _) as [[]]|].
    unfold dquery. rewrite query_bind. destruct (email_is_registered _ _) eqn:Hreg; [done|]. intros [= <- <-].
    apply Z.ltb_ge in Hexp. by split_and!.
Qed.

Lemma invitation_accept_keeps token full_name : keeps_inv (invitation_accept token full_name).
Proof.
  intros w Hw. unfold invitation_accept. rewrite bind_run. destruct (acceptable_cases token w) as [Hkeep Hok].
  specialize (Hkeep w Hw). destruct (acceptable_invitation token w) as [[[id i]|e] w'] eqn:Hrun; [|exact Hkeep].
  destruct (Hok _ _ eq_refl) as (-> & [Hi _]%tfind_Some & _). pose proof (proj2 (proj2 Hw) _ _ Hi) as Hrole.
  destruct (_ || _); [exact Hw|].
  apply (preserves_catch _ (accept_invitation id i full_name)); [by apply accept_keeps| |exact Hw].
  intros []; apply preserves_raise.
Qed.

Lemma org_inv_deletion p d : org_inv d → org_inv (after_deletion p d).
Proof.
  intros (Hok & Hown & Hroles). split_and!; [by apply after_deletion_ok| |].
  - intros o [Ho Hp]%after_deletion_orgs. destruct (Hown o Ho) as (i & m & Hm & Hmo & Hr & Hu).
    exists i, m. rewrite after_deletion_members. subst o. split_and!; [done..|].
    intros j m'. rewrite after_deletion_members. intros [Hj _]. by apply Hu.
  - intros i r Hi. unfold after_deletion in Hi. cbn in Hi.
    apply tfilter_lookup in Hi as [Hi _]. apply lookup_fmap_Some in Hi as (r1 & <- & Hi).
    apply lookup_fmap_Some in Hi as (r2 & <- & Hi). specialize (Hroles _ _ Hi). cbn. by case_match.
Qed.

Lemma delete_orgs_db_keeps p : keeps_inv (delete_orgs_db p).
Proof.
  intros w Hw. destruct (delete_orgs_db_run p w) as (w' & -> & Hd & _). cbn.
  unfold db_inv, inv. rewrite Hd. by apply org_inv_deletion.
Qed.

Lemma org_delete_keeps user org : keeps_inv (org_delete user org).
Proof.
  apply preserves_bind; [apply keeps_inv_get_org_and_member|intros _].
  apply preserves_bind; [apply preserves_query|intros s].
  apply preserves_bind; [apply delete_orgs_db_keeps|intros _].
  case_match; [apply preserves_delay|apply preserves_ret].
Qed.

Lemma subscription_canceled_keeps org : keeps_inv (delete_org_on_subscription_cancel_task org).
Proof.
  unfold delete_org_on_subscription_cancel_task. destruct (uuid_parse org) as [o|]; [|apply preserves_raise].
  apply preserves_bind; [apply preserves_query|]. intros []; [apply delete_orgs_db_keeps|apply preserves_ret].
Qed.

(** *** Account deletion *)

Lemma created_orgs_elem user d o :
  o ∈ created_orgs user d ↔ ∃ r, d_orgs d !! o = Some r ∧ r.(o_created_by) = Some user.
Proof.
  unfold created_orgs. rewrite list_elem_of_fmap. split.
  - intros ([o' r] & -> & Hr). apply rows_elem, tfilter_lookup in Hr as [Hr Hc].
    rewrite b_eq_true in Hc. by exists r.
  - intros (r & Hr & Hc). exists (o, r). split; [done|]. apply rows_elem, tfilter_lookup.
    by rewrite Hc, b_eq_refl.
Qed.

Lemma delete_created_run user w :
  ∃ w', delete_orgs_created_by_user user w = (Ok tt, w') ∧
    (s_db (w_db w') = s_db (w_db w) ∧ created_orgs user (s_db (w_db w)) = [] ∨
     s_db (w_db w') = after_deletion (λ o, bool_decide (o ∈ created_orgs user (s_db (w_db w))))
                        (s_db (w_db w))).
Proof.
  unfold delete_orgs_created_by_user, dquery. munfold.
  destruct (created_orgs user (s_db (w_db w))) as [|o l] eqn:Hl; [by eexists; eauto|].
  destruct (delete_orgs_db_run (λ x, bool_decide (x ∈ o :: l)) w) as (w' & Hrun & Hd & _).
  cbn [fst snd]. rewrite Hrun. destruct (omap _ _); (eexists; split; [reflexivity|]; by right).
Qed.

(** The hook of account deletion keeps the other organisations and the
    memberships of other users in them. *)
Lemma pre_delete_run user w :
  ∃ w', _pre_delete user w = (Ok tt, w') ∧
    (∀ o, is_Some (d_orgs (s_db (w_db w')) !! o) ↔
      is_Some (d_orgs (s_db (w_db w)) !! o) ∧ o ∉ created_orgs user (s_db (w_db w))) ∧
    (∀ i m, d_members (s_db (w_db w')) !! i = Some m ↔
      d_members (s_db (w_db w)) !! i = Some m ∧ m.(m_user) ≠ user ∧
      m.(m_org) ∉ created_orgs user (s_db (w_db w))).
Proof.
  destruct (delete_created_run user w) as (w1 & Hrun & Hd). unfold _pre_delete.
  rewrite bind_run, Hrun, dexec_run. eexists. split; [done|]. cbn. split.
  - intros o. destruct Hd as [[-> ->]| ->].
    + split; [intros ?; split; [done|apply not_elem_of_nil]|tauto].
    + by rewrite after_deletion_orgs, bool_decide_eq_false.
  - intros i m. rewrite tfilter_lookup, negb_true_iff, b_eq_false. destruct Hd as [[-> ->]| ->].
    + split; [intros [??]; split_and!; [done|done|apply not_elem_of_nil]|tauto].
    + rewrite after_deletion_members, bool_decide_eq_false. tauto.
Qed.

(** The state after the calls to Stripe has the same organisations and members. *)
Lemma after_stripe_orgs w sub cus :
  d_orgs (s_db (w_db (after_stripe w sub cus))) = d_orgs (s_db (w_db w)) ∧
  d_members (s_db (w_db (after_stripe w sub cus))) = d_members (s_db (w_db w)).
Proof. unfold after_stripe. by destruct cus. Qed.

(** Deleting users who own nothing. *)
Lemma org_inv_delete_users p d :
  org_inv d → (∀ i m, d_members d !! i = Some m → p m.(m_user) = true → m.(m_role) ≠ OWNER) →
  org_inv (delete_users p d).
Proof.
  intros (Hok & Hown & Hroles) Hp. split_and!; [by apply delete_users_ok| |].
  - intros o Ho. cbn in Ho. rewrite <-not_none_true, not_none_fmap, not_none_true in Ho.
    destruct (Hown o Ho) as (i & m & Hm & Hmo & Hr & Hu). exists i, m. cbn.
    rewrite tfilter_lookup, negb_true_iff, <-not_true_iff_false. split_and!; [done| |done..|].
    + intros Hpm. by eapply Hp.
    + intros j m'. rewrite tfilter_lookup. intros [Hj _]. by apply Hu.
  - intros i r Hi. cbn in Hi. apply lookup_fmap_Some in Hi as (r' & <- & Hi). exact (Hroles _ _ Hi).
Qed.

(** Dropping the memberships of a user who owns nothing. *)
Lemma org_inv_drop_user user d :
  org_inv d → owns_none user d →
  org_inv (set_members (tfilter (λ _ m, negb (b_eq m.(m_user) user)) d.(d_members)) d).
Proof.
  intros (Hok & Hown & Hroles) Hnone. split_and!; [|intros o Ho|done].
  - clear Hown Hroles Hnone. unfold db_ok, ids_ok in *. cbn. destruct_and!. split_and!; try assumption;
      try (eapply table_ok_weaken; [|eassumption]; done). eapply table_ok_filter; [|eassumption]. done.
  - destruct (Hown o Ho) as (i & m & Hm & Hmo & Hr & Hu). exists i, m. cbn.
    rewrite tfilter_lookup, negb_true_iff, b_eq_false. split_and!; [done| |done..|].
    + intros Hmu. by eapply Hnone.
    + intros j m'. rewrite tfilter_lookup. intros [Hj _]. by apply Hu.
Qed.

Lemma member_delete_keeps user org target w :
  inv (w_db w) → owns_none target (s_db (w_db w)) → inv (w_db (member_delete user org target w).2).
Proof.
  intros Hinv Hnone. unfold member_delete. rewrite bind_run.
  pose proof (keeps_inv_get_org_and_member user org (Some _ADMIN_OR_ABOVE) w Hinv) as Hc.
  destruct (_get_org_and_member _ _ _ w) as [[c|] w1] eqn:Hrun; [|exact Hc].
  apply get_org_and_member_Ok in Hrun as (-> & _). rewrite bind_run.
  destruct (get_or_404 _ w) as [[[i t]|e] w1] eqn:Ht.
  2:{ unfold get_or_404, dquery in Ht. munfold in Ht. by case_match; simplify_eq. }
  apply get_or_404_Ok in Ht as (-> & (_ & _ & Htu)%member_of_Some). cbn [snd].
  destruct (is_owner (m_role t)); [exact Hinv|]. rewrite lift_bind.
  destruct (check_can_manage_member _ _); [|exact Hinv]. rewrite Htu.
  apply org_inv_delete_users; [exact Hinv|]. intros j m Hj Hm.
  rewrite b_eq_true in Hm. by apply (Hnone j m Hj).
Qed.

(** A deleted account: the database is as before, or the whole sequence ran. *)
Lemma account_delete_cases user w :
  s_db (w_db (account_delete user w).2) = s_db (w_db w) ∨
  ∃ w0 w1, d_orgs (s_db (w_db w0)) = d_orgs (s_db (w_db w)) ∧
    d_members (s_db (w_db w0)) = d_members (s_db (w_db w)) ∧
    (inv (w_db w) → inv (w_db w0)) ∧
    _pre_delete user w0 = (Ok tt, w1) ∧
    s_db (w_db (account_delete user w).2) = delete_users (λ j, b_eq j user) (s_db (w_db w1)).
Proof.
  unfold account_delete. rewrite delete_account_run.
  destruct (users_get_by_id _ _); [|by left]. rewrite bind_run.
  match goal with |- context [(cancel_part ?s;; customer_part ?c) w] =>
    destruct (stripe_parts_run s c w) as [[-> _]|(e & pre & k & post & -> & _)];
      [set (w0 := after_stripe w s c)|by left] end.
  right. destruct (pre_delete_run user w0) as (w1 & Hrun & _). exists w0, w1.
  destruct (after_stripe_orgs w (subs_get_active_for_user (w_db w) user) (custs_get_by_user_id (w_db w) user))
    as [Ho Hm].
  rewrite bind_run, Hrun. split_and!; [exact Ho|exact Hm| |done|done].
  unfold w0, after_stripe. destruct (custs_get_by_user_id _ _) as [c|]; [|done]. intros Hinv.
  eapply org_inv_frame; [exact Hinv|by apply delete_customers_ok, Hinv|done|done|apply Hinv].
Qed.

Lemma pre_delete_keeps user w w' :
  inv (w_db w) → owns_only_created user (s_db (w_db w)) → _pre_delete user w = (Ok tt, w') →
  inv (w_db w') ∧ owns_none user (s_db (w_db w')).
Proof.
  intros Hinv Hown Hrun. destruct (pre_delete_run user w) as (w2 & Hrun' & Ho & Hm).
  rewrite Hrun' in Hrun. injection Hrun as ->. split.
  - unfold _pre_delete in Hrun'. rewrite bind_run in Hrun'.
    destruct (delete_created_run user w) as (w1 & Hc & Hd). rewrite Hc, dexec_run in Hrun'.
    injection Hrun' as <-. unfold inv. cbn. apply org_inv_drop_user.
    + destruct Hd as [[-> _]| ->]; [exact Hinv|by apply org_inv_deletion].
    + intros i m Hi Hu Hr. destruct Hd as [[Hd Hnil]|Hd]; rewrite Hd in Hi.
      * specialize (Hown _ _ Hi Hu Hr). rewrite Hnil in Hown. by apply elem_of_nil in Hown.
      * apply after_deletion_members in Hi as [Hi Hp]. rewrite bool_decide_eq_false in Hp.
        apply Hp. by eapply Hown.
  - intros i m (_ & Hne & _)%Hm Hu. done.
Qed.

Lemma account_delete_keeps user w :
  inv (w_db w) → owns_only_created user (s_db (w_db w)) → inv (w_db (account_delete user w).2).
Proof.
  intros Hinv Hown. unfold inv.
  destruct (account_delete_cases user w) as [-> |(w0 & w1 & Ho & Hm & Hi0 & Hrun & ->)]; [exact Hinv|].
  destruct (pre_delete_keeps user w0 w1) as [Hinv1 Hnone]; [by apply Hi0| |done|].
  - intros i m. unfold created_orgs. rewrite Ho, Hm. apply Hown.
  - apply org_inv_delete_users; [exact Hinv1|]. intros i m Hi Hu. rewrite b_eq_true in Hu.
    by eapply Hnone.
Qed.


Lemma run_op_keeps op : keeps_inv (run_op op).
Proof.
  destruct op; cbn [run_op].
  - apply preserves_bind; [apply team_checkout_keeps|intros _; apply preserves_ret].
  - apply org_patch_keeps.
  - apply org_delete_keeps.
  - apply member_patch_keeps.
  - apply transfer_keeps.
  - apply preserves_bind; [apply invitation_create_keeps|intros _; apply preserves_ret].
  - apply invitation_cancel_keeps.
  - apply preserves_bind; [apply invitation_accept_keeps|intros _; apply preserves_ret].
  - apply invitation_decline_keeps.
  - apply subscription_canceled_keeps.
Qed.

Lemma org_step_keeps w w' : org_inv (s_db (w_db w)) → org_step w w' → org_inv (s_db (w_db w')).
Proof.
  intros Hw Hstep. destruct Hstep as [op w|user org target w Hn|user w Hn|t w];
    [exact (run_op_keeps op _ Hw)|by apply member_delete_keeps|by apply account_delete_keeps|done].
Qed.

(** C1. One owner per organisation.  From any state in which every
    organisation has exactly one owner (the empty database is one), no sequence
    of requests to the organisation endpoints, of team checkouts and of
    subscription cancellations, whoever sends them, in any order, with any
    arguments and whatever their outcome, reaches a state in which an
    organisation has no owner or two, or in which a declared constraint is
    broken.  The same holds of member removals and account deletions in between,
    as long as the removed member owns no organisation and the deleted account
    created the ones it owns. *)
Theorem reachable_one_owner w w' :
  org_inv (s_db (w_db w)) → reachable w w' → org_inv (s_db (w_db w')).
Proof. intros Hw Hr. induction Hr as [w|w1 w2 w3 Hstep _ IH]; [done|]. by apply IH, (org_step_keeps w1). Qed.
End Requests.
