(* ===== verification/OrgLifecycle.v ===== *)
(** * Team checkout, invitation acceptance, account deletion

    What the operations of [Orgs.v], [OrgViews.v] and [Account.v] leave behind. *)

From S2P Require Import Prelude PyVal Effects Domain Relational Store StoreFacts Django Auth Repos.
From S2P Require Import Repositories RepositoriesFacts Webhooks Billing Gdpr GdprFacts Credits.
From S2P Require Import Orgs Fields OrgViews OrgFacts OrgInvariant Account.

#[local] Open Scope string_scope.

Section Lifecycle.
  Context `{DjangoLib} `{Secrets} `{StripeServer}.

(** ** Helper lemmas *)

Lemma tcount_insert {A} (p : N → A → bool) i a (t : table A) :
  t !! i = None → tcount p (<[i := a]> t) = ((if p i a then 1 else 0) + tcount p t)%nat.
Proof.
  intros Hi. unfold tcount, rows.
  assert (map_to_list (<[i := a]> t) ≡ₚ (i, a) :: map_to_list t) as Hp by by apply map_to_list_insert.
  rewrite (filter_Permutation _ _ _ Hp). rewrite filter_cons. cbn.
  destruct (p i a) eqn:E; by case_decide.
Qed.

Lemma insert_user_inv i u d d' :
  insert_user i u d = Ok d' → d_users d !! i = None ∧ d' = set_users (<[i := u]> d.(d_users)) d.
Proof.
  intros (x & Hf & Hs)%outcome_bind_Ok. unfold fresh_pk in Hf.
  destruct (not_none _) eqn:E; [done|]. rewrite not_none_false in E. split; [done|].
  apply outcome_bind_Ok in Hs as (t & Ht & [= <-]). by apply tput_inv in Ht as (-> & _).
Qed.

Lemma insert_verify_inv i u d d' :
  insert_verify i u d = Ok d' → d' = set_verify (<[i := u]> d.(d_verify)) d.
Proof.
  intros (x & Hf & Hs)%outcome_bind_Ok.
  apply outcome_bind_Ok in Hs as (t & Ht & [= <-]). by apply tput_inv in Ht as (-> & _).
Qed.

Lemma save_invitation_inv i u d d' :
  save_invitation i u d = Ok d' → d' = set_invitations (<[i := u]> d.(d_invitations)) d.
Proof. intros (t & Ht & [= <-])%outcome_bind_Ok. by apply tput_inv in Ht as (-> & _). Qed.

Lemma insert_customer_inv c d d' :
  insert_customer c d = Ok d' → d' = set_customers (<[cus_id c := c]> d.(d_customers)) d.
Proof. intros (x & _ & Hs)%outcome_bind_Ok. by apply save_customer_inv in Hs. Qed.

Lemma create_user_run e p n a v r w u w' :
  create_user e p n a v r w = (Ok u, w') →
  d_users (s_db (w_db w)) !! u.1 = None ∧
  s_db (w_db w') = set_users (<[u.1 := u.2]> (d_users (s_db (w_db w)))) (s_db (w_db w)) ∧
  w_tasks w' = w_tasks w ∧ w_stripe w' = w_stripe w ∧
  u_email u.2 = normalize_email e ∧ u_is_verified u.2 = v ∧ u_full_name u.2 = n ∧
  u_is_active u.2 = true ∧ (p = None → u_password u.2 = None).
Proof.
  unfold create_user. destruct (b_eq e ""); [done|]. rewrite bind_run. cbn. rewrite bind_run. cbn.
  rewrite bind_run. cbn. rewrite bind_run, dexec_run.
  destruct (insert_user _ _ _) as [d1|] eqn:Hi; [|done]. cbn. intros [= <- <-]. cbn.
  apply insert_user_inv in Hi as [Hf ->]. split_and!; try done. by intros ->.
Qed.

Lemma check_accept_seats_Ok org w u w' :
  check_accept_seats org w = (Ok u, w') →
  w' = w ∧ ∀ s, lock_active_team_sub org (s_db (w_db w)) = Some s →
    (Z.of_nat (member_count org (s_db (w_db w))) + 1 <= s.(sub_seat_limit))%Z.
Proof.
  unfold check_accept_seats, dquery. munfold.
  destruct (lock_active_team_sub org _) as [s|]; [|by intros [= <- <-]].
  destruct (Z.ltb_spec (sub_seat_limit s) (Z.of_nat (member_count org (s_db (w_db w))) + 1)); [done|].
  intros [= <- <-]. split; [done|]. by intros s' [= <-].
Qed.

(** ** Properties *)

(** Accepting an invitation.  When it succeeds, the new user has the
    invited address (normalised), an unusable password and no verified e-mail;
    there is one new membership, in the invitation's organisation, with the
    invitation's role and no billing authority; the invitation is accepted; one
    verification e-mail is queued, to that address; and the organisation has no
    more members than its active subscription has seats.  When it fails, the
    database and the queue are as before. *)
Theorem accept_invitation_spec id i full_name w r w' :
  accept_invitation id i full_name w = (r, w') →
  let d := s_db (w_db w) in let d' := s_db (w_db w') in let org := i.(i_org) in
  match r with
  | Raise _ => d' = d ∧ w_tasks w' = w_tasks w
  | Ok (u, o) =>
      o = org ∧
      (∃ row, d_users d !! u = None ∧ d_users d' = <[u := row]> (d_users d) ∧
        u_email row = normalize_email i.(i_email) ∧ u_password row = None ∧
        u_is_verified row = false ∧
        ∃ token, w_tasks w' = (w_tasks w ++ [send_verification_email_task_delay (u_email row) token])%list) ∧
      (∃ mid m, d_members d !! mid = None ∧ d_members d' = <[mid := m]> (d_members d) ∧
        m.(m_org) = org ∧ m.(m_user) = u ∧ m.(m_role) = i.(i_role) ∧ m.(m_is_billing) = false) ∧
      i_status <$> d_invitations d' !! id = Some ACCEPTED ∧
      (∀ s, lock_active_team_sub org d = Some s →
        (Z.of_nat (member_count org d') <= s.(sub_seat_limit))%Z)
  end.
Proof.
  intros Hrun d d' org. destruct r as [[u o]|e]; [|by apply atomic_raise in Hrun].
  apply atomic_Ok in Hrun. rewrite bind_run in Hrun. fold org in Hrun.
  destruct (check_accept_seats org w) as [[[]|] w0] eqn:Hseats; [|done].
  apply check_accept_seats_Ok in Hseats as [-> Hseats]. fold d in Hseats.
  rewrite bind_run in Hrun. destruct (create_user _ _ _ _ _ _ w) as [[u1|] w1] eqn:Hu; [|done].
  apply create_user_run in Hu as (Huf & Hd1 & Ht1 & _ & He & Hv & _ & _ & Hp).
  rewrite bind_run in Hrun. cbn in Hrun. rewrite bind_run in Hrun. cbn in Hrun.
  rewrite bind_run, dexec_run in Hrun. cbn in Hrun.
  destruct (insert_member _ _ _) as [d2|] eqn:Hm; [|done]. apply insert_inv_member in Hm as [Hmf ->].
  rewrite bind_run in Hrun. unfold save_invitation_status in Hrun. rewrite dexec_run in Hrun.
  cbn in Hrun. destruct (d_invitations (s_db (w_db w1)) !! id) as [i2|] eqn:Hi2; [|done].
  destruct (save_invitation _ _ _) as [d3|] eqn:Hs3; [|done]. apply save_invitation_inv in Hs3 as ->.
  rewrite bind_run in Hrun. unfold create_email_verification_token, _create_one_time_token, fresh_token in Hrun.
  repeat (rewrite bind_run in Hrun; cbn in Hrun). rewrite dexec_run in Hrun. cbn in Hrun.
  destruct (insert_verify _ _ _) as [d4|] eqn:Hs4; [|done]. apply insert_verify_inv in Hs4 as ->.
  cbn in Hrun. injection Hrun as <- <- <-. unfold d'. cbn. rewrite Hd1, Ht1. cbn.
  rewrite Hd1 in Hmf. cbn in Hmf. split_and!; [done| | | |].
  - exists u1.2. split_and!; [done|done|done|by apply Hp|done|by eexists].
  - eexists _, _. split_and!; [exact Hmf|done..].
  - by rewrite lookup_insert_eq.
  - intros s Hs. unfold member_count. cbn. rewrite tcount_insert by done. cbn. rewrite b_eq_refl.
    specialize (Hseats s Hs). unfold member_count in Hseats. fold d. lia.
Qed.

(** What a team checkout that created an organisation left. *)
Lemma create_org_run user name k livemode w o w' :
  _create_org_with_owner user name (Some k) livemode w = (Ok o, w') →
  (already_created k user (s_db (w_db w)) = Some o ∧ w' = w) ∨
  ∃ slug mid c d1 d2, already_created k user (s_db (w_db w)) = None ∧
    slug = generate_unique_slug name (s_db (w_db w)) ∧
    insert_org o (mkOrgRow name slug None (Some user) (w_now w)) (s_db (w_db w)) = Ok d1 ∧
    insert_member mid (mkMemberRow o user OWNER true (w_now w)) d1 = Ok d2 ∧
    insert_customer c d2 = Ok (s_db (w_db w')) ∧
    cus_stripe_id c = k ∧ cus_org_id c = Some o ∧ cus_user_id c = None.
Proof.
  intros Hrun%atomic_Ok. unfold dquery in Hrun. munfold in Hrun. cbn in Hrun.
  destruct (already_created k user _) as [o'|] eqn:Ha; [injection Hrun as <- <-; by left|right].
  rewrite dexec_run in Hrun. cbn in Hrun.
  destruct (insert_org _ _ _) as [d1|] eqn:E1; [|done]. rewrite dexec_run in Hrun. cbn in Hrun.
  destruct (insert_member _ _ d1) as [d2|] eqn:E2; [|done]. rewrite dexec_run in Hrun. cbn in Hrun.
  destruct (insert_customer _ d2) as [d3|] eqn:E3; [|done]. injection Hrun as <- <-.
  eexists _, _, _, d1, d2. split_and!; [done|done|exact E1|exact E2|exact E3|done..].
Qed.

(** A team checkout creates one organisation, however often Stripe delivers
    it.  When [_create_org_with_owner] returns an organisation, it exists, the
    buyer is a member of it and the Stripe customer is the organisation's; a
    second delivery for the same buyer and customer, under any name, returns
    the same organisation and changes nothing at all.  When it fails, nothing
    was created. *)
Theorem team_checkout_once user name name' k livemode livemode' w r w' :
  db_ok (s_db (w_db w)) →
  _create_org_with_owner user name (Some k) livemode w = (r, w') →
  match r with
  | Raise _ => s_db (w_db w') = s_db (w_db w)
  | Ok o =>
      let d' := s_db (w_db w') in
      is_Some (d_orgs d' !! o) ∧ is_Some (member_of d' o user) ∧
      (∃ c, customer_by_stripe_id d' k = Some c ∧ c.(cus_org_id) = Some o) ∧
      _create_org_with_owner user name' (Some k) livemode' w' = (Ok o, w')
  end.
Proof.
  intros Hok Hrun. destruct r as [o|e]; [|by apply atomic_raise in Hrun as [? _]]. cbn zeta.
  assert (already_created k user (s_db (w_db w')) = Some o) as Ha.
  { apply create_org_run in Hrun as [[Ha ->]|(slug & mid & c & d1 & d2 & _ & _ & E1 & E2 & E3 & Hk & Ho & Hu)];
      [done|].
    pose proof (insert_org_ok _ _ _ _ Hok E1) as Hok1.
    pose proof (insert_member_ok _ _ _ _ Hok1 E2) as Hok2.
    pose proof (insert_customer_ok _ _ _ Hok2 E3) as Hok3.
    apply insert_inv_org in E1 as [_ ->]. apply insert_inv_member in E2 as [_ ->].
    apply insert_customer_inv in E3. unfold already_created, customer_by_stripe_id.
    rewrite (customer_by_key _ (λ c, key_str c.(cus_stripe_id)) [KS k] _ (cus_id c) c);
      [|done|by left| | |by rewrite <-Hk].
    2:{ intros j b. rewrite b_eq_true. unfold key_str. split; congruence. }
    2:{ rewrite E3. cbn. apply lookup_insert_eq. }
    cbn. rewrite Ho, E3. cbn. rewrite lookup_insert_eq.
    unfold member_of. cbn.
    edestruct (tfind_is_Some (λ _ m, b_eq (m_org m) o && b_eq (m_user m) user)
      (<[mid:=mkMemberRow o user OWNER true (w_now w)]> (d_members (s_db (w_db w))))) as (j & b & ->);
      [apply lookup_insert_eq|cbn; by rewrite !b_eq_refl|done]. }
  unfold already_created in Ha.
  destruct (customer_by_stripe_id _ k) as [c|] eqn:Hc; [|done]. cbn in Ha.
  destruct (cus_org_id c) as [o'|] eqn:Ho; [|done].
  destruct (d_orgs _ !! o') as [x|] eqn:Hx; [|done].
  destruct (member_of _ o' user) as [m|] eqn:Hm; [|done]. injection Ha as ->.
  split_and!; [by eexists|by eexists|by eexists|].
  unfold _create_org_with_owner, atomic, dquery. munfold. cbn.
  unfold already_created. rewrite Hc. cbn. rewrite Ho, Hx, Hm. done.
Qed.

(** *** Account deletion and ownership *)

(** What a completed account deletion leaves of organisations and members. *)
Lemma account_delete_orgs user w w' :
  account_delete user w = (Ok tt, w') →
  (∀ o, is_Some (d_orgs (s_db (w_db w')) !! o) ↔
    is_Some (d_orgs (s_db (w_db w)) !! o) ∧ o ∉ created_orgs user (s_db (w_db w))) ∧
  (∀ i m, d_members (s_db (w_db w')) !! i = Some m ↔
    d_members (s_db (w_db w)) !! i = Some m ∧ m.(m_user) ≠ user ∧
    m.(m_org) ∉ created_orgs user (s_db (w_db w))).
Proof.
  intros (_ & w1 & Hhook & -> & _)%delete_account_erases. cbv zeta in Hhook.
  match type of Hhook with _pre_delete _ ?w0 = _ => destruct (pre_delete_run user w0) as (w2 & Hrun & Ho & Hm) end.
  rewrite Hrun in Hhook. injection Hhook as ->.
  unfold created_orgs in Ho, Hm. rewrite !(proj1 (after_stripe_orgs _ _ _)) in Ho.
  rewrite !(proj1 (after_stripe_orgs _ _ _)), (proj2 (after_stripe_orgs _ _ _)) in Hm. cbn. split.
  - intros o. rewrite <-(Ho o), <-!not_none_true. by rewrite not_none_fmap.
  - intros i m. rewrite tfilter_lookup, negb_true_iff, b_eq_false. rewrite Hm. unfold created_orgs. tauto.
Qed.

(** Account deletion follows [created_by], which an ownership transfer
    never changes.  So deleting an account destroys every organisation the user
    once created, whoever owns it now; and an organisation the user owns but
    did not create survives without any owner. *)
Theorem account_deletion_misses_ownership user w w' :
  org_inv (s_db (w_db w)) →
  account_delete user w = (Ok tt, w') →
  let d := s_db (w_db w) in let d' := s_db (w_db w') in
  (∀ o r, d_orgs d !! o = Some r → r.(o_created_by) = Some user → d_orgs d' !! o = None) ∧
  (∀ o r i m, d_orgs d !! o = Some r → r.(o_created_by) ≠ Some user →
    d_members d !! i = Some m → m.(m_org) = o → m.(m_role) = OWNER → m.(m_user) = user →
    is_Some (d_orgs d' !! o) ∧
    ∀ j m', d_members d' !! j = Some m' → m'.(m_org) = o → m'.(m_role) ≠ OWNER).
Proof.
  intros Hinv Hrun d d'. apply account_delete_orgs in Hrun as [Ho Hm]. fold d d' in Ho, Hm. split.
  - intros o r Hr Hc. rewrite eq_None_not_Some, Ho. intros [_ []]. apply created_orgs_elem. eauto.
  - intros o r i m Hr Hc Hi Horg Hrole Hu. split.
    + apply Ho. split; [by eexists|]. rewrite created_orgs_elem. intros (r' & Hr' & Hc'). congruence.
    + intros j m' (Hj & Hne & _)%Hm Horg' Hrole'.
      assert (j = i) as -> by (eapply only_owner; eauto). congruence.
Qed.

(** A member removal deletes the user, with every membership of theirs. *)
Lemma member_delete_members user org target w w' :
  member_delete user org target w = (Ok tt, w') →
  d_orgs (s_db (w_db w')) = org_null_creator (b_eq target) <$> d_orgs (s_db (w_db w)) ∧
  d_members (s_db (w_db w')) = tfilter (λ _ m, negb (b_eq target m.(m_user))) (d_members (s_db (w_db w))) ∧
  w_stripe w' = w_stripe w ∧ w_tasks w' = w_tasks w.
Proof.
  unfold member_delete. rewrite bind_run.
  destruct (_get_org_and_member _ _ _ w) as [[c|] w1] eqn:Hc; [|done].
  apply get_org_and_member_Ok in Hc as (-> & _). rewrite bind_run.
  destruct (get_or_404 _ w) as [[[i t]|] w1] eqn:Ht; [|done].
  apply get_or_404_Ok in Ht as (-> & (_ & _ & Htu)%member_of_Some). cbn [snd].
  destruct (is_owner (m_role t)); [done|]. rewrite bind_run.
  destruct (lift _ w) as [[[]|] w1] eqn:Hl; [|done].
  assert (w1 = w) as -> by (unfold lift in Hl; by destruct (check_can_manage_member _ _); simplify_eq).
  rewrite Htu. intros [= <-]. by split_and!.
Qed.

(** Removing a member deletes their account, and with it whatever else
    they own.  An administrator of one organisation who removes a member who
    owns another leaves that other organisation in place without an owner, and
    nothing is asked of Stripe. *)
Theorem member_delete_orphans_other_org user org target w w' o i m :
  org_inv (s_db (w_db w)) →
  member_delete user org target w = (Ok tt, w') →
  d_members (s_db (w_db w)) !! i = Some m →
  m.(m_org) = o → m.(m_role) = OWNER → m.(m_user) = target →
  is_Some (d_orgs (s_db (w_db w')) !! o) ∧
  (∀ j m', d_members (s_db (w_db w')) !! j = Some m' → m'.(m_org) = o → m'.(m_role) ≠ OWNER) ∧
  w_stripe w' = w_stripe w ∧ w_tasks w' = w_tasks w.
Proof.
  intros Hinv Hrun Hi Ho Hr Hu. apply member_delete_members in Hrun as (Hos & Hms & Hst & Hta).
  rewrite Hos, Hms. split_and!; [| |done..].
  - destruct (member_refs _ _ _ (proj1 Hinv) Hi) as (Hex & _). rewrite Ho in Hex.
    by rewrite <-not_none_true, not_none_fmap, not_none_true.
  - intros j m'. rewrite tfilter_lookup, negb_true_iff, b_eq_false. intros [Hj Hne] Ho' Hr'.
    assert (j = i) as -> by (eapply only_owner; eauto). congruence.
Qed.
End Lifecycle.
