(* ===== verification/EntryFacts.v ===== *)
(** * The webhook entry points

    The endpoint persists an event once and enqueues one task for it; the task
    runs at most four times and leaves the event's outcome in its row. *)

From S2P Require Import Prelude PyVal Effects Domain Relational Store StoreFacts Django Auth Repos.
From S2P Require Import Repositories RepositoriesFacts Webhooks WebhookFacts Billing Gdpr Credits.
From S2P Require Import Orgs Account.

#[local] Open Scope string_scope.

Section Entry.
  Context `{DjangoLib} `{Secrets} `{StripeServer}.

(** ** Helper lemmas *)

Lemma insert_event_inv i e d d' :
  insert_event i e d = Ok d' → d' = set_events (<[i := e]> d.(d_events)) d.
Proof.
  intros (x & _ & Hs)%outcome_bind_Ok.
  apply outcome_bind_Ok in Hs as (t & Ht & [= <-]). by apply tput_inv in Ht as (-> & _).
Qed.

(** *** Frames: the webhook handlers touch neither the events nor the clock *)

Definition frame (E : table EventRow) (t : datetime) (w : world store) : Prop :=
  d_events (s_db (w_db w)) = E ∧ w_now w = t.

Abbreviation frames m := (∀ E t, preserves (frame E t) m).

Lemma frames_dexec f : (∀ d d', f d = Ok d' → d_events d' = d_events d) → frames (dexec f).
Proof.
  intros Hf E t w [HE Ht]. rewrite dexec_run. destruct (f _) as [d|] eqn:Hd; [|done].
  split; [|done]. cbn. by rewrite (Hf _ _ Hd).
Qed.

Lemma frames_stripe c : frames (stripe c).
Proof. by intros E t w HI. Qed.
Lemma frames_uuid4 : frames uuid4.
Proof. by intros E t w HI. Qed.
Lemma frames_delay x : frames (delay x).
Proof. by intros E t w HI. Qed.
Lemma frames_atomic {A} (m : M store A) : frames m → frames (atomic m).
Proof.
  intros Hm E t w Hw. specialize (Hm E t w Hw). unfold atomic.
  destruct (m w) as [[a|e] w']; [exact Hm|]. destruct Hw, Hm. by split.
Qed.

(** A database statement that is a sequence of saves of other tables. *)
Ltac save_frame :=
  let d := fresh in let d' := fresh in let Hd := fresh in
  intros d d' Hd;
  repeat (first [apply outcome_bind_Ok in Hd as (? & ? & Hd) | case_match; try discriminate Hd]);
  injection Hd as <-; done.

Lemma frames_save_customer c d d' : save_customer c d = Ok d' → d_events d' = d_events d.
Proof. revert d d'. unfold save_customer. save_frame. Qed.
Lemma frames_save_sub c d d' : save_sub c d = Ok d' → d_events d' = d_events d.
Proof. revert d d'. unfold save_sub. save_frame. Qed.

Lemma frames_subs_save s : frames (subs_save s).
Proof.
  intros E t w [HE Ht]. unfold subs_save. munfold. cbn.
  destruct (on_db _ _) as [d|] eqn:Hd; [|done]. split; [|done]. cbn. cbn in HE. rewrite <-HE.
  apply on_db_inv in Hd as [Hd _]. unfold subscription_save in Hd.
  case_match; by apply frames_save_sub in Hd.
Qed.

Create HintDb frames discriminated.
Hint Resolve frames_stripe frames_uuid4 frames_delay frames_atomic frames_subs_save : frames.
Hint Resolve preserves_ret preserves_raise preserves_lift preserves_query preserves_utcnow : frames.
Hint Extern 1 (preserves _ (dquery _)) => apply preserves_query : frames.
Hint Extern 1 (preserves _ (dexec _)) => apply frames_dexec; save_frame : frames.

(** One constructor of the program at a time. *)
Ltac frames :=
  intros;
  repeat match goal with
  | |- preserves _ (mbind _ _) => apply preserves_bind; [|intros ?]
  | |- preserves _ (catch _ _) => apply preserves_catch; [|intros ?]
  | |- preserves _ (atomic _) => apply frames_atomic; intros ? ?
  | |- preserves _ (match ?x with _ => _ end) => destruct x
  | |- preserves _ (let _ := _ in _) => cbv zeta
  | |- _ => solve [auto with frames]
  end.

Lemma frames_sync sub_data : frames (sync_subscription_from_data sub_data).
Proof. unfold sync_subscription_from_data, _build_subscription_row. frames. Qed.

Lemma frames_team_checkout u n c l k b : frames (on_team_checkout_completed u n c l k b).
Proof.
  unfold on_team_checkout_completed, objects_get, _create_org_with_owner, _persist_team_subscription,
    _schedule_personal_cancel_at_period_end, cancel_subscription, active_with_id,
    _release_pending_schedule, _mirror_cancel_state_from_stripe.
  pose proof frames_sync. frames.
Qed.

Lemma frames_product_checkout s p u o : frames (Credits.on_product_checkout_completed s p u o).
Proof.
  unfold Credits.on_product_checkout_completed, grant_credits_for_session, get_or_create_balance.
  frames.
Qed.

Lemma frames_dispatch event : frames (_dispatch event get_webhook_repos).
Proof.
  unfold _dispatch, _on_checkout_completed, _on_product_checkout_completed, _on_subscription_deleted,
    _on_subscription_schedule_upserted, _on_subscription_schedule_cleared, _on_invoice. cbn.
  pose proof frames_sync. pose proof frames_team_checkout. pose proof frames_product_checkout.
  unfold delete_org_on_subscription_cancel. frames.
Qed.

(** *** One task run *)

(** The stored outcome of an event. *)
Definition event_outcome (k : string) (w : world store) : option (option datetime * option string) :=
  events_status (w_db w) k.

Lemma event_known i ev w :
  d_events (s_db (w_db w)) !! i = Some ev → is_Some (event_outcome (e_stripe_id ev) w).
Proof.
  intros Hev. unfold event_outcome. cbn.
  destruct (tfind_is_Some (λ _ e, b_eq (e_stripe_id e) (e_stripe_id ev)) _ _ _ Hev) as (j & b & ->);
    [by apply b_eq_refl|by eexists].
Qed.

(** Marking keeps every event's row and its id. *)
Lemma marks_keep_event f (s : store) i ev :
  (∀ e, e_stripe_id (f e) = e_stripe_id e) →
  d_events (s_db s) !! i = Some ev →
  ∃ ev', d_events (s_db (map_events f s)) !! i = Some ev' ∧ e_stripe_id ev' = e_stripe_id ev.
Proof. intros Hf Hev. exists (f ev). cbn. by rewrite lookup_fmap, Hev. Qed.

Lemma stored_event_run event i ev w :
  d_events (s_db (w_db w)) !! i = Some ev →
  let k := e_stripe_id ev in
  ∃ r w', process_stored_event event k get_webhook_repos w = (r, w') ∧ w_now w' = w_now w ∧
    (∃ ev', d_events (s_db (w_db w')) !! i = Some ev' ∧ e_stripe_id ev' = k) ∧
    match r with
    | Ok _ => event_outcome k w' = Some (Some (w_now w'), None)
    | Raise e => snd <$> event_outcome k w' = Some (Some (failure_message e))
    end.
Proof.
  intros Hev k. destruct (frames_dispatch event (d_events (s_db (w_db w))) (w_now w) w) as [HE Ht]; [done|].
  destruct (_dispatch event get_webhook_repos w) as [r wd] eqn:Hd. cbn in HE, Ht.
  assert (d_events (s_db (w_db wd)) !! i = Some ev) as Hev' by by rewrite HE.
  destruct (event_known _ _ _ Hev') as [st Hst].
  unfold process_stored_event, events_mark_processed, events_mark_failed. munfold. rewrite Hd.
  destruct r as [[]|e]; (eexists _, _; split; [reflexivity|]); (split; [exact Ht|split]).
  - apply marks_keep_event; [|done]. intros x. unfold event_set_processed. by case_match.
  - unfold event_outcome in *. cbn [w_db set_db]. rewrite events_mark_processed_status, decide_True by done.
    unfold k. by rewrite Hst.
  - apply marks_keep_event; [|done]. intros x. unfold event_set_failed. by case_match.
  - unfold event_outcome in *. cbn [w_db set_db]. rewrite events_mark_failed_status, decide_True by done.
    unfold k. by rewrite Hst.
Qed.

(** ** Properties *)

(** A signed body within the size limit, with the id, the type and the mode of its event. *)
Definition signed_event (r : HttpRequest) (body : json) (k ty : string) (livemode : bool) : Prop :=
  (∀ n, int_of_string r.(rq_content_length) = Some n → (n <= 262144)%Z) ∧ (r.(rq_body_length) <= 262144)%Z ∧
  r.(rq_signature) = Ok tt ∧ r.(rq_body) = Ok body ∧
  (∃ i, getitem body "id" = Ok i ∧ k = py_str i) ∧ (∃ t, getitem body "type" = Ok t ∧ ty = py_str t) ∧
  ∃ l, getitem body "livemode" = Ok l ∧ livemode = truthy l.

Definition stored (k : string) (d : db) : Prop := ∃ i e, d.(d_events) !! i = Some e ∧ e.(e_stripe_id) = k.

Lemma content_length_held r : content_length r = 0%Z ∨ int_of_string (rq_content_length r) = Some (content_length r).
Proof.
  unfold content_length. destruct (b_eq (rq_content_length r) ""); [by left|].
  destruct (int_of_string (rq_content_length r)); [by right|by left].
Qed.

Lemma content_length_bound r :
  (∀ n, int_of_string r.(rq_content_length) = Some n → (n <= 262144)%Z) → (content_length r <= 262144)%Z.
Proof. intros Hn. destruct (content_length_held r) as [->|Hc]; [lia|by apply Hn]. Qed.

Lemma event_fields_Ok body k ty l :
  event_fields body = Ok (k, ty, l) ↔
  (∃ i, getitem body "id" = Ok i ∧ k = py_str i) ∧ (∃ t, getitem body "type" = Ok t ∧ ty = py_str t) ∧
  ∃ v, getitem body "livemode" = Ok v ∧ l = truthy v.
Proof.
  unfold event_fields. split.
  - intros (i & Hi & Hx)%outcome_bind_Ok. apply outcome_bind_Ok in Hx as (t & Ht & Hy).
    apply outcome_bind_Ok in Hy as (v & Hv & [= <- <- <-]). eauto 10.
  - intros ((i & -> & ->) & (t & -> & ->) & v & -> & ->). done.
Qed.

Lemma tfind_stored k (d : db) :
  tfind (λ _ e, b_eq e.(e_stripe_id) k) d.(d_events) = None ↔ ¬ stored k d.
Proof.
  rewrite tfind_None. split.
  - intros Hn (i & e & He & <-). specialize (Hn i e He). by rewrite b_eq_refl in Hn.
  - intros Hs i e He. apply b_eq_false. intros Hk. destruct Hs. by exists i, e.
Qed.

(** What the endpoint does with a signed event. *)
Lemma signed_event_run live r body k ty l w :
  signed_event r body k ty l →
  stripe_webhook live r w =
  if negb (eqb l live) then (Ok 202%Z, w) else
  match tfind (λ _ e, b_eq e.(e_stripe_id) k) (d_events (s_db (w_db w))) with
  | Some _ => (Ok 202%Z, w)
  | None => (atomic (
      id ← uuid4; now ← utcnow;
      dexec (insert_event id (mkEventRow k ty l body None None now));;
      on_commit (process_stripe_webhook_delay id);; mret 202%Z)) w
  end.
Proof.
  intros (Hc & Hl & Hs & Hb & Hf). apply event_fields_Ok in Hf. unfold stripe_webhook, _MAX_WEBHOOK_BODY.
  rewrite (proj2 (Z.ltb_ge _ _)) by (apply content_length_bound in Hc; lia).
  rewrite (proj2 (Z.ltb_ge _ _)) by lia. rewrite Hs, Hb. cbn [mbind outcome_bind]. rewrite Hf. cbn.
  destruct (negb (eqb l live)); [done|]. unfold atomic. rewrite bind_run. unfold dquery, query.
  by destruct (tfind _ _).
Qed.

(** A 202 is only answered to a signed event. *)
Lemma accepted_signed live r w w' :
  stripe_webhook live r w = (Ok 202%Z, w') → ∃ body k ty l, signed_event r body k ty l.
Proof.
  unfold stripe_webhook. destruct (Z.ltb_spec _MAX_WEBHOOK_BODY (content_length r)) as [|Hc]; [by intros [= ]|].
  destruct (Z.ltb_spec _MAX_WEBHOOK_BODY (rq_body_length r)) as [|Hl]; [by intros [= ]|].
  destruct (rq_signature r) as [[]|e] eqn:Hs; [|by destruct (is_bad_signature e)].
  destruct (rq_body r) as [body|e] eqn:Hb; [|by cbn; repeat case_match]. cbn.
  destruct (event_fields body) as [[[k ty] l]|e] eqn:Hf; [|by cbn; repeat case_match]. intros _.
  apply event_fields_Ok in Hf as (Hi & Ht & Hv). unfold _MAX_WEBHOOK_BODY in *. exists body, k, ty, l.
  unfold signed_event. split_and!; [|done..].
  intros n Hn. unfold content_length in Hc. destruct (b_eq (rq_content_length r) "") eqn:He.
  - rewrite b_eq_true in He. rewrite He in Hn. discriminate Hn.
  - rewrite Hn in Hc. cbn in Hc. lia.
Qed.

(** The store of an unknown event of this mode. *)
Definition stores (live : bool) (r : HttpRequest) (body : json) (k ty : string) (w : world store)
    (res : outcome Z) (w' : world store) : Prop :=
  let d := s_db (w_db w) in
  (varchar 255 k = true → varchar 255 ty = true → d.(d_events) !! w_next w = None → res = Ok 202%Z) ∧
  (res = Ok 202%Z → ∃ id, d.(d_events) !! id = None ∧
    s_db (w_db w') = set_events (<[id := mkEventRow k ty live body None None (w_now w)]> d.(d_events)) d ∧
    w_tasks w' = (w_tasks w ++ [process_stripe_webhook_delay id])%list).

Lemma stores_run live r body k ty w res w' :
  ¬ stored k (s_db (w_db w)) →
  atomic (
      id ← uuid4; now ← utcnow;
      dexec (insert_event id (mkEventRow k ty live body None None now));;
      on_commit (process_stripe_webhook_delay id);; mret 202%Z) w = (res, w') →
  stores live r body k ty w res w'.
Proof.
  intros Hst Hrun. unfold stores. set (d := s_db (w_db w)). split.
  - intros Hk Hty Hfree. set (row := mkEventRow k ty live body None None (w_now w)).
    assert (insert_event (w_next w) row d = Ok (set_events (<[w_next w := row]> d.(d_events)) d)) as Hins.
    { unfold insert_event, fresh_pk, save_event. rewrite Hfree. cbn [not_none is_none negb mbind outcome_bind].
      rewrite tput_Ok; [done| |].
      - unfold row_ok. change (varchar 255 k && varchar 255 ty && true && true = true). by rewrite Hk, Hty.
      - constructor; [|constructor]. apply conflicts_false. intros j b Hj _ _ Hb. destruct Hst. exists j, b.
        split; [done|]. cbn in Hb. by injection Hb. }
    unfold atomic in Hrun. rewrite !bind_run in Hrun. cbn in Hrun. rewrite !bind_run in Hrun. cbn in Hrun.
    rewrite bind_run, dexec_run in Hrun. cbn in Hrun. fold d in Hrun. fold row in Hrun. rewrite Hins in Hrun.
    by injection Hrun as <-.
  - intros ->. apply atomic_Ok in Hrun. rewrite !bind_run in Hrun. cbn in Hrun. rewrite !bind_run in Hrun. cbn in Hrun.
    rewrite bind_run, dexec_run in Hrun. cbn in Hrun. fold d in Hrun.
    destruct (insert_event _ _ _) as [d1|] eqn:Hi; [|done]. cbn in Hrun.
    assert (d_events d !! w_next w = None) as Hfree.
    { unfold insert_event, fresh_pk in Hi. by destruct (d_events d !! w_next w). }
    apply insert_event_inv in Hi as ->. injection Hrun as <-. by exists (w_next w).
Qed.

Lemma refused_same live r w res w' :
  stripe_webhook live r w = (res, w') → res ≠ Ok 202%Z → s_db (w_db w') = s_db (w_db w) ∧ w_tasks w' = w_tasks w.
Proof.
  intros Hrun Hne. unfold stripe_webhook in Hrun.
  destruct (_MAX_WEBHOOK_BODY <? content_length r)%Z; [by injection Hrun as <- <-|].
  destruct (_MAX_WEBHOOK_BODY <? rq_body_length r)%Z; [by injection Hrun as <- <-|].
  destruct (rq_signature r) as [[]|e]; [|by destruct (is_bad_signature e); injection Hrun as <- <-].
  destruct (x ← rq_body r; f ← event_fields x; Ok (x, f)) as [[body [[k ty] lm]]|e];
    [|by destruct (is_bad_body e); injection Hrun as <- <-].
  destruct (negb (eqb lm live)); [by injection Hrun as <- <-|].
  destruct res as [code|e]; [|exact (atomic_raise _ _ _ _ Hrun)]. exfalso. apply atomic_Ok in Hrun.
  rewrite bind_run in Hrun. cbn in Hrun. destruct (tfind _ _); [by injection Hrun as <- _|].
  rewrite !bind_run in Hrun. cbn in Hrun. rewrite !bind_run in Hrun. cbn in Hrun.
  rewrite bind_run, dexec_run in Hrun. cbn in Hrun. destruct (insert_event _ _ _); [|done]. by injection Hrun as <- _.
Qed.

(** C18. An event is persisted and enqueued once.  Any answer but 202 leaves the
    database and the queue as they were.  A 202 is given only to a correctly signed
    body within the limit.  An event of the other mode, or one that is stored, changes
    nothing; one of this mode that is not stored is: a row with the whole body is added
    and one task enqueued, for that row.  Delivering the same request again is answered
    202 and changes nothing.  And each signed event whose id and type fit their columns
    is answered 202. *)
Theorem webhook_persisted_once live r w res w' :
  stripe_webhook live r w = (res, w') →
  let d := s_db (w_db w) in
  (res ≠ Ok 202%Z → s_db (w_db w') = d ∧ w_tasks w' = w_tasks w) ∧
  (res = Ok 202%Z → ∃ body k ty l, signed_event r body k ty l ∧ stripe_webhook live r w' = (Ok 202%Z, w') ∧
    (l ≠ live ∨ stored k d → w' = w) ∧
    (l = live → ¬ stored k d → ∃ id, d.(d_events) !! id = None ∧
      s_db (w_db w') = set_events (<[id := mkEventRow k ty live body None None (w_now w)]> d.(d_events)) d ∧
      w_tasks w' = (w_tasks w ++ [process_stripe_webhook_delay id])%list)) ∧
  (∀ body k ty l, signed_event r body k ty l → varchar 255 k = true → varchar 255 ty = true →
    d.(d_events) !! w_next w = None → res = Ok 202%Z).
Proof.
  intros Hrun d.
  assert (∀ body k ty l, signed_event r body k ty l → (l ≠ live ∨ stored k d → res = Ok 202%Z ∧ w' = w) ∧
    (l = live → ¬ stored k d → stores live r body k ty w res w')) as Hsigned.
  { intros body k ty l Hsig. rewrite (signed_event_run live r body k ty l w Hsig) in Hrun. fold d in Hrun. split.
    - intros Hdrop. destruct (eqb l live) eqn:Hm; cbn [negb] in Hrun; [|by injection Hrun as <- <-].
      apply eqb_prop in Hm. destruct Hdrop as [|Hst]; [done|].
      destruct (tfind _ (d_events d)) eqn:Hf; [by injection Hrun as <- <-|]. by apply tfind_stored in Hf.
    - intros -> Hst. rewrite eqb_reflx in Hrun. cbn [negb] in Hrun. rewrite (proj2 (tfind_stored k d) Hst) in Hrun.
      by eapply stores_run. }
  assert (∀ body k ty l, signed_event r body k ty l → (l ≠ live ∨ stored k d) ∨ (l = live ∧ ¬ stored k d)) as Hcase.
  { intros body k ty l _. destruct (decide (l = live)); [|by left; left].
    destruct (tfind (λ _ e, b_eq e.(e_stripe_id) k) d.(d_events)) as [[i ev]|] eqn:Hf.
    - left. right. apply tfind_Some in Hf as [Hev Hk]. rewrite b_eq_true in Hk. by exists i, ev.
    - right. by rewrite tfind_stored in Hf. }
  split_and!.
  - intros Hres. by eapply refused_same.
  - intros ->. destruct (accepted_signed _ _ _ _ Hrun) as (body & k & ty & l & Hsig). exists body, k, ty, l.
    destruct (Hsigned _ _ _ _ Hsig) as [Hdrop Hstore]. split; [done|]. split; [|split].
    + destruct (Hcase _ _ _ _ Hsig) as [Hd|[-> Hst]]; [by destruct (Hdrop Hd) as [_ ->]|].
      rewrite (signed_event_run live r body k ty live w' Hsig). rewrite eqb_reflx. cbn [negb].
      destruct (Hstore eq_refl Hst) as [_ (id & _ & -> & _)]; [done|]. cbn.
      edestruct (tfind_is_Some (λ _ e, b_eq e.(e_stripe_id) k)) as (j & b & ->);
        [apply lookup_insert_eq|cbn; by apply b_eq_refl|done].
    + intros Hd. by destruct (Hdrop Hd).
    + intros Hl Hst. destruct (Hstore Hl Hst) as [_ Hs]. by apply Hs.
  - intros body k ty l Hsig Hk Hty Hfree. destruct (Hsigned _ _ _ _ Hsig) as [Hdrop Hstore].
    destruct (Hcase _ _ _ _ Hsig) as [Hd|[Hl Hst]]; [by destruct (Hdrop Hd)|]. by apply (Hstore Hl Hst).
Qed.

(** C19. An enqueued event reaches a recorded outcome.  The task of a stored
    event always ends, within four runs; it waits only between a transient
    failure and the next run, one, two then four seconds.  When it ends well the
    event is marked processed, at that time and with no error; when it fails,
    the event carries the failure's message, and a transient failure is given up
    only after the three retries. *)
Theorem task_reaches_outcome i ev w :
  d_events (s_db (w_db w)) !! i = Some ev →
  ∃ n r w', (n <= 3)%nat ∧ run_task 4 0 i w = Some (r, w') ∧
    w_now w' = (w_now w + seconds (2 ^ Z.of_nat n - 1))%Z ∧
    match r with
    | TaskDone => event_outcome (e_stripe_id ev) w' = Some (Some (w_now w'), None)
    | TaskFailed e =>
        snd <$> event_outcome (e_stripe_id ev) w' = Some (Some (failure_message e)) ∧
        (is_transient e = true → n = 3%nat)
    | TaskRetry _ _ => False
    end.
Proof.
  intros Hev.
  assert (∀ fuel k ev w, d_events (s_db (w_db w)) !! i = Some ev → (fuel + k = 4)%nat → (k <= 3)%nat →
    ∃ n r w', (k <= n <= 3)%nat ∧ run_task fuel k i w = Some (r, w') ∧
      w_now w' = (w_now w + seconds (2 ^ Z.of_nat n - 2 ^ Z.of_nat k))%Z ∧
      match r with
      | TaskDone => event_outcome (e_stripe_id ev) w' = Some (Some (w_now w'), None)
      | TaskFailed e =>
          snd <$> event_outcome (e_stripe_id ev) w' = Some (Some (failure_message e)) ∧
          (is_transient e = true → n = 3%nat)
      | TaskRetry _ _ => False
      end) as Hgen.
  { clear. induction fuel as [|fuel IH]; intros k ev w Hev Hk Hle; [lia|]. cbn [run_task].
    unfold process_stripe_webhook, objects_get, dquery. rewrite bind_run. cbn [query fst snd].
    rewrite Hev. cbn [mret M_ret].
    destruct (stored_event_run (e_payload ev) i ev w Hev) as (r & w1 & -> & Ht & (ev' & Hev' & Hk') & Hr).
    assert (∀ n, seconds (n - n) = 0%Z) as Hz by (intros; unfold seconds; lia).
    destruct r as [[]|e].
    { exists k, TaskDone, w1. split_and!; [lia..|done|rewrite Hz; lia|done]. }
    destruct (is_transient e) eqn:Htr.
    2:{ exists k, (TaskFailed e), w1. split_and!; [lia..|done|rewrite Hz; lia|done|by rewrite Htr]. }
    destruct (Nat.ltb_spec k max_retries) as [Hlt|Hge]; unfold max_retries in *.
    - destruct (IH (S k) ev' (set_now (w_now w1 + seconds (2 ^ Z.of_nat k)) w1))
        as (n & r & w2 & Hn & Hrun & Hnow & Hres); [done|lia|lia|].
      exists n, r, w2. rewrite Hk' in Hres. split_and!; [lia..|done| |done].
      rewrite Hnow. cbn. rewrite Ht. unfold seconds. rewrite Nat2Z.inj_succ, Z.pow_succ_r by lia. lia.
    - exists k, (TaskFailed e), w1. split_and!; [lia..|done|rewrite Hz; lia|done|lia]. }
  destruct (Hgen 4%nat 0%nat ev w Hev) as (n & r & w' & Hn & Hrun & Hnow & Hr); [lia..|].
  exists n, r, w'. split_and!; [lia|done|exact Hnow|done].
Qed.
End Entry.
