(* ===== verification/Requests.v ===== *)
(** * Programs built from the primitives of the store

    What a request does, it does through a few primitives: statements on tables other
    than the users', writes and deletions of users with their signals, reads, Stripe
    calls and tasks.  A property of programs that holds of the primitives and of their
    compositions ([Closed]) holds of every authentication, organisation and account
    request. *)

From S2P Require Import Prelude PyVal Effects Domain Relational Store StoreFacts Django Auth Repos.
From S2P Require Import AuthViews Repositories Gdpr Orgs Fields OrgViews Account.
From S2P Require TokenFacts OrgInvariant.

#[local] Open Scope string_scope.

(** The update writes the password, its stamp, the verification or [updated_at]. *)
Definition credentials_only (f : UserRow → UserRow) : Prop :=
  ∀ u, let v := f u in
    mkUserRow v.(u_email) v.(u_full_name) v.(u_avatar_url) v.(u_preferred_locale) v.(u_preferred_currency)
      v.(u_phone_prefix) v.(u_phone) v.(u_timezone) v.(u_job_title) v.(u_pronouns) v.(u_bio)
      u.(u_is_verified) v.(u_registration_method) v.(u_is_active) u.(u_password)
      u.(u_password_changed_at) v.(u_created_at) u.(u_updated_at) = u.

(** The users, their snapshots and the files are as they were. *)
Definition spares_users (s s' : store) : Prop :=
  d_users (s_db s') = d_users (s_db s) ∧ c_auth (s_cache s') = c_auth (s_cache s) ∧ s_media s' = s_media s.

Class Closed `{DjangoLib} (K : ∀ A, M store A → Prop) : Prop := {
  closed_ret A (a : A) : K A (mret a);
  closed_raise A e : K A (raise e);
  closed_lift A o : K A (lift o);
  closed_query A (q : store → A) : K A (query q);
  closed_utcnow : K _ utcnow;
  closed_uuid4 : K _ uuid4;
  closed_delay t : K _ (delay t);
  closed_stripe (server : StripeServer) c : K _ (stripe c);
  closed_bind A B (m : M store A) (f : A → M store B) : K A m → (∀ a, K B (f a)) → K B (m ≫= f);
  closed_catch A (m : M store A) h : K A m → (∀ e, K A (h e)) → K A (catch m h);
  closed_atomic A (m : M store A) : K A m → K A (atomic m);
  closed_exec f : (∀ s s', f s = Ok s' → spares_users s s') → K _ (exec f);
  closed_save_fields i f : credentials_only f → K _ (save_user_fields i f);
  closed_create_user e p n a v r : K _ (create_user e p n a v r);
  closed_delete_users p : K _ (delete_users_m p);
  closed_invalidate i : K _ (invalidate_auth_user_cache i)
}.

Section Requests.
  Context `{DjangoLib} `{AuthBackend} `{Secrets} `{JWT} `{StripeServer}.
  Context (K : ∀ A, M store A → Prop) `{!Closed K}.
  Arguments K {A} _.

Lemma k_ret {A} (a : A) : K (mret a).
Proof. apply closed_ret. Qed.
Lemma k_raise {A} e : K (raise (A:=A) e).
Proof. apply closed_raise. Qed.
Lemma k_lift {A} (o : outcome A) : K (lift o).
Proof. apply closed_lift. Qed.
Lemma k_query {A} (q : store → A) : K (query q).
Proof. apply closed_query. Qed.
Lemma k_utcnow : K utcnow.
Proof. apply closed_utcnow. Qed.
Lemma k_uuid4 : K uuid4.
Proof. apply closed_uuid4. Qed.
Lemma k_delay t : K (delay t).
Proof. apply closed_delay. Qed.
Lemma k_stripe c : K (stripe c).
Proof. apply closed_stripe. Qed.
Lemma k_create_user e p n a v r : K (create_user e p n a v r).
Proof. apply closed_create_user. Qed.
Lemma k_delete_users p : K (delete_users_m p).
Proof. apply closed_delete_users. Qed.
Lemma k_hard_delete u : K (users_hard_delete u).
Proof. apply (closed_delete_users (K:=@K)). Qed.
Lemma k_invalidate i : K (invalidate_auth_user_cache i).
Proof. apply closed_invalidate. Qed.

Lemma k_dquery {A} (q : db → A) : K (dquery q).
Proof. apply closed_query. Qed.

Lemma k_dexec f : (∀ d d', f d = Ok d' → d_users d' = d_users d) → K (dexec f).
Proof.
  intros Hf. apply closed_exec. intros s s' Hs. unfold on_db in Hs.
  apply outcome_bind_Ok in Hs as (d & Hd & [= <-]). by split_and!; [apply Hf| |].
Qed.

(** A statement that only writes another table. *)
Ltac other_table :=
  let d := fresh "d" in let d' := fresh "d'" in let Hs := fresh "Hs" in
  intros d d' Hs; cbv beta in Hs; repeat case_match; try done;
  unfold insert_org, insert_member, insert_invitation, insert_customer, insert_refresh, insert_verify,
    insert_reset, insert_link, insert_social, save_org, save_member, save_invitation, save_customer,
    save_refresh, save_verify, save_reset, save_link, save_social in Hs;
  repeat apply outcome_bind_Ok in Hs as (? & ? & Hs);
  injection Hs as <-; reflexivity.

Create HintDb requests discriminated.
Hint Resolve k_ret k_raise k_lift k_query k_utcnow k_uuid4 k_delay k_stripe k_create_user k_delete_users
  k_hard_delete k_invalidate k_dquery : requests.
Hint Extern 1 (K (on_commit _)) => apply closed_delay : requests.
Hint Extern 1 (K (save_user_fields _ _)) =>
  apply closed_save_fields; intros []; cbn; repeat case_match; reflexivity : requests.
Hint Extern 1 (K (dexec _)) => apply k_dexec; other_table : requests.
Hint Extern 1 (K (exec _)) => apply closed_exec; intros ? ? [= <-]; split_and!; reflexivity : requests.

(** One constructor of the program at a time. *)
Ltac closed :=
  intros;
  repeat match goal with
  | |- K (mbind _ _) => apply closed_bind; [|intros ?]
  | |- K (catch _ _) => apply closed_catch; [|intros ?]
  | |- K (atomic _) => apply closed_atomic
  | |- K (match ?x with _ => _ end) => destruct x
  | |- K (let _ := _ in _) => cbv zeta
  | |- _ => solve [auto with requests]
  end.

Lemma k_fresh_token : K fresh_token.
Proof. unfold fresh_token. closed. Qed.
Hint Resolve k_fresh_token : requests.

Lemma k_create_refresh u : K (create_refresh_token u).
Proof. unfold create_refresh_token. closed. Qed.
Hint Resolve k_create_refresh : requests.

Lemma k_sign_in u r s : K (sign_in u r s).
Proof. unfold sign_in, _token_response, create_access_token. closed. Qed.
Hint Resolve k_sign_in : requests.

Lemma k_social p i u : K (social_get_or_create p i u).
Proof. unfold social_get_or_create. closed. Qed.
Hint Resolve k_social : requests.

Lemma k_revoke_all u : K (revoke_all_refresh_tokens u).
Proof. unfold revoke_all_refresh_tokens. closed. Qed.
Hint Resolve k_revoke_all : requests.

Lemma k_rotate t : K (rotate_refresh_token t).
Proof. unfold rotate_refresh_token, rotate_checks, rotate_writes. closed. Qed.
Hint Resolve k_rotate : requests.

Lemma k_create_verify u : K (create_email_verification_token u).
Proof. unfold create_email_verification_token, _create_one_time_token. closed. Qed.
Lemma k_create_reset u : K (create_password_reset_token u).
Proof. unfold create_password_reset_token, _create_one_time_token. closed. Qed.
Lemma k_create_link u p pid n a : K (create_social_link_token u p pid n a).
Proof. unfold create_social_link_token, _create_one_time_token. closed. Qed.
Hint Resolve k_create_verify k_create_reset k_create_link : requests.

Lemma k_consume {A} (m : OneTimeTokenModel A) t :
  (∀ x d, d_users (m.(ot_set_table) x d) = d_users d) → K (_consume_one_time_token m t).
Proof.
  intros Hm. unfold _consume_one_time_token, consume_checks, consume_update.
  assert (∀ p now, K (dexec (λ d, Ok (mark_where m p now d)))) as Hmark.
  { intros p now. apply k_dexec. intros d d' [= <-]. apply Hm. }
  closed.
Qed.

Lemma k_verify_email t : K (verify_email_token t).
Proof.
  pose proof (k_consume EmailVerificationToken t (λ _ _, eq_refl)).
  unfold verify_email_token, _verify_one_time_token. closed.
Qed.
Lemma k_verify_reset t : K (verify_password_reset_token t).
Proof.
  pose proof (k_consume PasswordResetToken t (λ _ _, eq_refl)).
  unfold verify_password_reset_token, _verify_one_time_token. closed.
Qed.
Lemma k_verify_link t : K (verify_social_link_token t).
Proof. exact (k_consume SocialLinkRequest t (λ _ _, eq_refl)). Qed.
Hint Resolve k_verify_email k_verify_reset k_verify_link : requests.

(** *** The authentication endpoints *)

Lemma k_resolve p i : K (resolve_oauth_user p i).
Proof. unfold resolve_oauth_user, _link_or_request, objects_get. closed. Qed.
Hint Resolve k_resolve : requests.

Lemma k_finish p i r : K (finish_callback p i r).
Proof. unfold finish_callback, create_access_token, _store_oauth_exchange. closed. Qed.
Hint Resolve k_finish : requests.

(** The user a request authenticates as is read, and cached, outside any transaction:
    [L] is the property of whole requests. *)
Section Whole.
  Context (L : ∀ A, M store A → Prop).
  Context (whole : ∀ A (m : M store A), K m → L A m).
  Context (whole_bind : ∀ A B (m : M store A) (f : A → M store B), L A m → (∀ a, K (f a)) → L B (m ≫= f)).

Definition op_authenticates (op : TokenFacts.auth_op) : Prop :=
  match op with
  | TokenFacts.OpLogout h _ | TokenFacts.OpChangePassword h _ _ => L _ (require_user h)
  | _ => True
  end.

Lemma k_auth op : op_authenticates op → L _ (TokenFacts.run_op op).
Proof.
  destruct op; intros Hop; cbn [TokenFacts.run_op op_authenticates] in *.
  - apply whole. unfold _register_user. closed.
  - apply whole. unfold verify_email. closed.
  - apply whole. unfold resend_verification. closed.
  - apply whole. unfold login. closed.
  - apply whole. unfold refresh_view, _token_response, create_access_token. closed.
  - unfold logout, revoke_refresh_token. apply whole_bind; [apply whole_bind; [exact Hop|closed]|closed].
  - apply whole. unfold forgot_password. closed.
  - apply whole. unfold reset_password. closed.
  - unfold change_password, change_password_of. apply whole_bind; [apply whole_bind; [exact Hop|closed]|closed].
  - apply whole. unfold oauth_callback. closed.
  - apply whole. unfold oauth_exchange, _consume_oauth_exchange. closed.
  - apply whole. unfold oauth_confirm_link. closed.
  - apply whole. unfold cleanup_expired_refresh_tokens, cleanup_expired_email_verification_tokens,
      cleanup_expired_password_reset_tokens, cleanup_expired_social_link_requests. closed.
Qed.
End Whole.

(** *** The organisation and account endpoints *)

Lemma k_get_or_404 {A} (q : db → option A) : K (get_or_404 q).
Proof. unfold get_or_404. closed. Qed.
Lemma k_objects_get {A} (q : db → option A) m : K (objects_get q m).
Proof. unfold objects_get. closed. Qed.
Lemma k_member u o r : K (_get_org_and_member u o r).
Proof. unfold _get_org_and_member. closed. Qed.
Lemma k_delete_orgs p : K (delete_orgs_db p).
Proof. unfold delete_orgs_db. closed. Qed.
Lemma k_save_member i r b : K (save_member_fields i r b).
Proof. unfold save_member_fields. closed. Qed.
Lemma k_save_invitation i st : K (save_invitation_status i st).
Proof. unfold save_invitation_status. closed. Qed.
Lemma k_seats o : K (check_accept_seats o).
Proof. unfold check_accept_seats. closed. Qed.
Hint Resolve k_get_or_404 k_objects_get k_member
  k_delete_orgs k_save_member k_save_invitation k_seats : requests.

Lemma k_org op : K (OrgInvariant.run_op op).
Proof.
  destruct op; cbn [OrgInvariant.run_op].
  - unfold _create_org_with_owner. closed.
  - unfold org_patch, org_update. closed.
  - unfold org_delete, delete_org, _delete_org_db_only. closed.
  - unfold member_patch, member_update. closed.
  - unfold transfer_ownership, transfer_to. closed.
  - unfold invitation_create, invite, _validate_seat_limit. closed.
  - unfold invitation_cancel. closed.
  - unfold invitation_accept, acceptable_invitation, accept_or_conflict, accept_invitation. closed.
  - unfold invitation_decline. closed.
  - unfold delete_org_on_subscription_cancel_task, _delete_org_db_only. closed.
Qed.

Lemma k_member_delete u o t : K (member_delete u o t).
Proof. unfold member_delete. closed. Qed.

Lemma k_account_delete u : K (account_delete u).
Proof.
  unfold account_delete, delete_account, _load_user_and_customer, _stripe_request, _pre_delete,
    delete_orgs_created_by_user.
  assert (∀ i, K (custs_delete i)) as Hc by (intros i; apply closed_exec; intros s s' [= <-]; by split_and!).
  closed.
Qed.
End Requests.

(** ** Invariants of the users' table *)

(** A property of the users that credentials, new accounts and deletions keep. *)
Class UsersInvariant (P : table UserRow → Prop) : Prop := {
  ui_credentials i u f t : credentials_only f → t !! i = Some u → P t → P (<[i := f u]> t);
  ui_create i email name avatar verified method hash now t :
    P t → P (<[i := mkUserRow email name avatar "en" "usd" None None None None None None verified method true
                      hash None now now]> t);
  ui_delete p t : P t → P (tfilter p t)
}.

#[export] Instance users_invariant_True : UsersInvariant (λ _, True).
Proof. by split. Qed.

(** [m] keeps it and the files. *)
Definition keeps_users (P : table UserRow → Prop) A (m : M store A) : Prop :=
  ∀ files, preserves (λ w, s_media (w_db w) = files ∧ P (d_users (s_db (w_db w)))) m.

Section Users.
  Context `{DjangoLib} `{JWT} (P : table UserRow → Prop) `{!UsersInvariant P}.

Lemma keeps_users_exec f :
  (∀ s s', f s = Ok s' → s_media s' = s_media s ∧ (P (d_users (s_db s)) → P (d_users (s_db s')))) →
  keeps_users P unit (exec f).
Proof.
  intros Hf files w [Hm Hp]. unfold exec. destruct (f (w_db w)) as [s'|e] eqn:Hs; [|done].
  destruct (Hf _ _ Hs) as [Hm' Hp']. cbn. split; [by rewrite Hm'|auto].
Qed.

Lemma keeps_users_invalidate i : keeps_users P _ (invalidate_auth_user_cache i).
Proof. apply keeps_users_exec. by intros s s' [= <-]. Qed.

Lemma keeps_users_write i (f : db → outcome db) :
  (∀ d d', f d = Ok d' → P (d_users d) → P (d_users d')) →
  keeps_users P _ (dexec f;; invalidate_auth_user_cache i).
Proof.
  intros Hf files. apply preserves_bind; [|intros ?; apply keeps_users_invalidate].
  apply keeps_users_exec. intros s s' Hs. unfold on_db in Hs. apply outcome_bind_Ok in Hs as (d & Hd & [= <-]).
  split; [done|]. by apply Hf.
Qed.

Lemma keeps_users_delete p : keeps_users P _ (delete_users_m p).
Proof.
  apply keeps_users_exec. intros s s' [= <-]. split; [done|]. cbn. intros Hp. by apply ui_delete.
Qed.

#[export] Instance keeps_users_closed : Closed (keeps_users P).
Proof.
  split.
  - intros A a files. apply preserves_ret.
  - intros A e files. apply preserves_raise.
  - intros A o files. apply preserves_lift.
  - intros A q files. apply preserves_query.
  - intros files. apply preserves_utcnow.
  - intros files w Hw. exact Hw.
  - intros t files w Hw. exact Hw.
  - intros server c files w Hw. exact Hw.
  - intros A B m f Hm Hf files. apply preserves_bind; [apply Hm|]. intros a. apply Hf.
  - intros A m h Hm Hh files. apply preserves_catch; [apply Hm|]. intros e. apply Hh.
  - intros A m Hm files w Hw. specialize (Hm files w Hw). unfold atomic. destruct (m w) as [[a|e] w1]; [done|].
    cbn in *. split; [apply Hm|apply Hw].
  - intros f Hf. apply keeps_users_exec. intros s s' (Hu & _ & Hm)%Hf. by rewrite Hu.
  - intros i f Hf. apply keeps_users_write. intros d d' Hd. destruct (d_users d !! i) as [u|] eqn:Hu; [|done].
    apply outcome_bind_Ok in Hd as (t & (-> & _)%tput_inv & [= <-]). by apply ui_credentials.
  - intros e p n a v r. unfold create_user. destruct (b_eq e ""); [intros files; apply preserves_raise|].
    intros files. apply preserves_bind; [intros w Hw; exact Hw|intros pk].
    apply preserves_bind; [intros w Hw; exact Hw|intros salt].
    apply preserves_bind; [apply preserves_utcnow|intros now].
    apply preserves_bind; [|intros ?; apply preserves_bind; [apply keeps_users_invalidate|intros ?; apply preserves_ret]].
    apply keeps_users_exec. intros s s' Hs. unfold on_db in Hs. apply outcome_bind_Ok in Hs as (d & Hd & [= <-]).
    split; [done|]. apply outcome_bind_Ok in Hd as (x & _ & Hd).
    apply outcome_bind_Ok in Hd as (t & (-> & _)%tput_inv & [= <-]). apply ui_create.
  - apply keeps_users_delete.
  - apply keeps_users_invalidate.
Qed.

(** The authenticator writes to the cache only. *)
Lemma keeps_users_authenticate header : keeps_users P _ (authenticate header).
Proof.
  intros files. unfold authenticate, load_user, cache_user.
  repeat first [apply preserves_bind; [|intros ?] | apply preserves_lift | apply preserves_query
    | apply preserves_utcnow | apply preserves_ret | apply preserves_raise
    | apply keeps_users_exec; by intros s s' [= <-] | case_match].
Qed.

Lemma keeps_users_require header : keeps_users P _ (require_user header).
Proof.
  intros files. apply preserves_bind; [apply keeps_users_authenticate|].
  intros []; [apply preserves_ret|apply preserves_raise].
Qed.
End Users.
