(* ===== verification/OrgRequestFacts.v ===== *)
(** * What organisation requests show

    The reads of [OrgRequests.v] depend on what the caller may see only, the pages of a
    listing show each row once, and a write answers what the next read shows. *)

From S2P Require Import Prelude PyVal Effects Domain Relational Store StoreFacts Django Auth Repos Fields.
From S2P Require Import Repositories RepositoriesFacts Avatar Orgs OrgViews OrgRequests OrgFacts OrgInvariant Profile.

#[local] Open Scope string_scope.
#[local] Open Scope list_scope.

(** ** Lemmas *)

Lemma answer_run {A} (f : db → outcome A) w : answer f w = (f (s_db (w_db w)), w).
Proof. done. Qed.

(** *** Sorting *)

Section Sorting.
  Context {A B} (R : relation A) (S : relation B) `{!RelDecision R} `{!RelDecision S} (f : A → B).
  Hypothesis f_order : ∀ a b, S (f a) (f b) ↔ R a b.

Lemma list_merge_fmap l1 l2 : list_merge S (f <$> l1) (f <$> l2) = f <$> list_merge R l1 l2.
Proof.
  revert l2. induction l1 as [|a l1 IH1]; intros l2; [by rewrite fmap_nil, !list_merge_nil_l|].
  induction l2 as [|b l2 IH2]; [by rewrite fmap_nil, !list_merge_nil_r|]. rewrite !fmap_cons, !list_merge_cons.
  destruct (decide (R a b)) as [Hr|Hr].
  - rewrite decide_True by by apply f_order. by rewrite fmap_cons, <- IH1, fmap_cons.
  - rewrite decide_False by by rewrite f_order. by rewrite fmap_cons, <- IH2, fmap_cons.
Qed.

Lemma merge_sort_fmap l : merge_sort S (f <$> l) = f <$> merge_sort R l.
Proof.
  pose (g := map (option_map (map f)) : list (option (list A)) → list (option (list B))).
  assert (∀ st k, merge_list_to_stack S (g st) (f <$> k) = g (merge_list_to_stack R st k)) as Hst.
  { induction st as [|[l1|] st IH]; intros k; [done| |done]. cbn. change (map f l1) with (f <$> l1).
    by rewrite list_merge_fmap, <- IH. }
  assert (∀ st, merge_stack S (g st) = f <$> merge_stack R st) as Hms.
  { induction st as [|[l1|] st IH]; [done| |done]. cbn. change (map f l1) with (f <$> l1).
    by rewrite <- list_merge_fmap, <- IH. }
  unfold merge_sort. change (@nil (option (list B))) with (g []). generalize (@nil (option (list A))).
  induction l as [|a l IH]; intros st; cbn; [apply Hms|]. rewrite <- (IH (merge_list_to_stack R st [a])).
  f_equal. apply (Hst st [a]).
Qed.
End Sorting.

(** *** Serialized rows *)

Lemma mapM_Ok {A B} (f : A → outcome B) l k : mapM f l = Ok k ↔ Forall2 (λ a b, f a = Ok b) l k.
Proof.
  revert k. induction l as [|a l IH]; intros k; cbn.
  - split; [by intros [= <-]|by intros ->%Forall2_nil_inv_l].
  - split.
    + intros (b & Hb & Hr)%outcome_bind_Ok. apply outcome_bind_Ok in Hr as (k' & Hk & [= <-]). constructor; [done|by apply IH].
    + intros (b & k' & Hb & Hk & ->)%Forall2_cons_inv_l. rewrite Hb. cbn. by rewrite (proj2 (IH k') Hk).
Qed.

Lemma mapM_ext_in {A B C} (f : A → outcome C) (g : B → outcome C) l k :
  Forall2 (λ a b, f a = g b) l k → mapM f l = mapM g k.
Proof. induction 1 as [|a b l k Hab _ IH]; [done|]. cbn. rewrite Hab. destruct (g b); cbn; [by rewrite IH|done]. Qed.

Lemma faces_Forall2 {A B C D} (f : A → D) (g : B → D) (s : A → outcome C) (t : B → outcome C) l k :
  f <$> l = g <$> k → (∀ a b, a ∈ l → b ∈ k → f a = g b → s a = t b) → Forall2 (λ a b, s a = t b) l k.
Proof.
  revert k. induction l as [|a l IH]; intros [|b k]; [by constructor|done..|]. intros [= Hab Hlk] Hs. constructor.
  - apply Hs; [by left|by left|done].
  - apply IH; [done|]. intros a' b' Ha Hb. apply Hs; by right.
Qed.

Lemma paginate_ext `{Pagination} {A B C} (s : A → outcome C) (t : B → outcome C) q l k :
  Forall2 (λ a b, s a = t b) l k → paginate s q l = paginate t q k.
Proof.
  intros Hlk. unfold paginate. destruct (page_window _ _ q) as [limit offset].
  rewrite (mapM_ext_in s t _ (take limit (drop offset k))) by by apply Forall2_take, Forall2_drop.
  by rewrite (Forall2_length _ _ _ Hlk).
Qed.

Lemma rows_fmap {A B} (f : A → B) (t : table A) : rows (f <$> t) = prod_map id f <$> rows t.
Proof. apply map_to_list_fmap. Qed.

(** ** What the caller may see *)

(** The columns of a row that are never shown blanked out. *)
Definition org_face (o : OrgRow) : OrgRow := mkOrgRow o.(o_name) o.(o_slug) o.(o_logo_url) None o.(o_created_at).
Definition user_face (u : UserRow) : string * string * option string := (u.(u_email), u.(u_full_name), u.(u_avatar_url)).
Definition invitation_face (i : InvitationRow) : InvitationRow :=
  mkInvitationRow i.(i_org) i.(i_email) i.(i_role) "" i.(i_status) i.(i_invited_by) i.(i_created_at) i.(i_expires_at).

Definition role_in_org (user org : uuid) (d : db) : option OrgRole :=
  match member_of d org user with Some m => Some m.2.(m_role) | None => None end.
Definition member_table (org : uuid) (d : db) : table MemberRow := tfilter (λ _ m, b_eq m.(m_org) org) d.(d_members).
Definition pending_table (org : uuid) (d : db) : table InvitationRow :=
  tfilter (λ _ i, b_eq i.(i_org) org && is_pending i.(i_status)) d.(d_invitations).

(** Two databases look the same to the user: which organisations exist and which roles
    he has there; of his organisations the profile and who the members are; of those he
    manages the pending invitations, their tokens excepted, and who sent them. *)
Record same_view (user : uuid) (d1 d2 : db) : Prop := {
  view_exists o : is_Some (d_orgs d1 !! o) ↔ is_Some (d_orgs d2 !! o);
  view_role o : role_in_org user o d1 = role_in_org user o d2;
  view_org o : is_Some (role_in_org user o d1) → org_face <$> d_orgs d1 !! o = org_face <$> d_orgs d2 !! o;
  view_members o : is_Some (role_in_org user o d1) → member_table o d1 = member_table o d2;
  view_member_users o i m : is_Some (role_in_org user o d1) → member_table o d1 !! i = Some m →
    user_face <$> d_users d1 !! m.(m_user) = user_face <$> d_users d2 !! m.(m_user);
  view_invitations o r : role_in_org user o d1 = Some r → r ∈ _ADMIN_OR_ABOVE →
    invitation_face <$> pending_table o d1 = invitation_face <$> pending_table o d2;
  view_inviters o r i inv u : role_in_org user o d1 = Some r → r ∈ _ADMIN_OR_ABOVE →
    pending_table o d1 !! i = Some inv → inv.(i_invited_by) = Some u →
    u_full_name <$> d_users d1 !! u = u_full_name <$> d_users d2 !! u
}.

(** To whoever holds the token: the invitation but for the invitee's address, the
    organisation's profile and the inviter's name. *)
Definition public_face (i : N * InvitationRow) : N * InvitationRow :=
  (i.1, mkInvitationRow i.2.(i_org) "" i.2.(i_role) "" i.2.(i_status) i.2.(i_invited_by) i.2.(i_created_at) i.2.(i_expires_at)).

Definition same_invitation (token : string) (d1 d2 : db) : Prop :=
  public_face <$> pending_by_token token d1 = public_face <$> pending_by_token token d2 ∧
  ∀ i, pending_by_token token d1 = Some i →
    org_face <$> d_orgs d1 !! i.2.(i_org) = org_face <$> d_orgs d2 !! i.2.(i_org) ∧
    ∀ u, i.2.(i_invited_by) = Some u → u_full_name <$> d_users d1 !! u = u_full_name <$> d_users d2 !! u.

Section Views.
  Context `{RowOrder}.

(** The database's order is blind to the columns. *)
Lemma shuffle_fmap {A B} (f : A → B) q l : shuffle q (f <$> l) = f <$> shuffle q l.
Proof.
  unfold shuffle. rewrite length_fmap. induction (row_order q (length l)) as [|i k IH]; [done|]. cbn.
  rewrite list_lookup_fmap. destruct (l !! i); cbn; [by rewrite <- IH|exact IH].
Qed.

Lemma shuffle_elem {A} q (l : list A) a : a ∈ shuffle q l → a ∈ l.
Proof. intros (i & _ & Hi)%list_elem_of_omap. by apply list_elem_of_lookup_2 in Hi. Qed.

(** The reads of an organisation's member. *)
Inductive org_read :=
  | ListOrgs (q : page_query)
  | ShowOrg (org : uuid)
  | ListMembers (org : uuid) (q : page_query)
  | ListInvitations (org : uuid) (q : page_query).

Inductive org_answer :=
  | AnOrg (o : OrgOut)
  | Orgs_ (p : Page OrgOut)
  | Members (p : Page OrgMemberOut)
  | Invitations (p : Page InvitationOut).

Definition run_read (user : uuid) (r : org_read) : M store org_answer :=
  match r with
  | ListOrgs q => p ← org_list_get user q; mret (Orgs_ p)
  | ShowOrg o => p ← org_detail_get user o; mret (AnOrg p)
  | ListMembers o q => p ← member_list_get user o q; mret (Members p)
  | ListInvitations o q => p ← invitation_list_get user o q; mret (Invitations p)
  end.

(** The gate of every read. *)
Definition gate (user org : uuid) (roles : option (list OrgRole)) (d : db) : outcome unit :=
  match role_in_org user org d with
  | None =>
      if not_none (d.(d_orgs) !! org) then Raise (InsufficientPermissionError "Access denied.")
      else Raise (OrgNotFoundError (uuid_str org))
  | Some r =>
      match roles with
      | Some roles =>
          if role_in r roles then Ok tt
          else Raise (InsufficientPermissionError "Insufficient permissions for this action.")
      | None => Ok tt
      end
  end.

Lemma get_org_and_member_run {A} user org roles (m : M store A) w :
  (_get_org_and_member user org roles;; m) w =
  match gate user org roles (s_db (w_db w)) with Ok _ => m w | Raise e => (Raise e, w) end.
Proof.
  rewrite bind_run. unfold _get_org_and_member, gate, role_in_org, dquery. rewrite query_bind.
  destruct (member_of _ org user) as [mem|]; [|rewrite query_bind; by destruct (not_none _)].
  destruct roles as [roles|]; [|done]. by destruct (role_in _ roles).
Qed.

Lemma gate_same user org roles d1 d2 : same_view user d1 d2 → gate user org roles d1 = gate user org roles d2.
Proof.
  intros Hv. unfold gate. rewrite (view_role _ _ _ Hv org). destruct (role_in_org user org d2); [done|].
  assert (not_none (d_orgs d1 !! org) = not_none (d_orgs d2 !! org)) as ->; [|done].
  pose proof (view_exists _ _ _ Hv org) as Hex. rewrite <- !not_none_true in Hex.
  apply eq_true_iff_eq. exact Hex.
Qed.

Lemma gate_Ok user org roles d : gate user org roles d = Ok tt → 
  ∃ r, role_in_org user org d = Some r ∧ ∀ l, roles = Some l → r ∈ l.
Proof.
  unfold gate. destruct (role_in_org user org d) as [r|]; [|by case_match]. intros Hr. exists r. split; [done|].
  intros l ->. unfold role_in in Hr. case_bool_decide; done.
Qed.

Lemma related_face {A B C} (face : A → B) (f : A → C) (t1 t2 : table A) i model :
  (∀ a b, face a = face b → f a = f b) → face <$> t1 !! i = face <$> t2 !! i →
  (a ← related t1 i model; Ok (f a)) = (a ← related t2 i model; Ok (f a)).
Proof.
  intros Hf Hi. unfold related. destruct (t1 !! i) as [a|], (t2 !! i) as [b|]; try done. injection Hi as Hab. cbn. f_equal. by apply Hf.
Qed.

Lemma not_none_member_of user o d : not_none (member_of d o user) = not_none (role_in_org user o d).
Proof. unfold role_in_org. by destruct (member_of d o user). Qed.

Lemma list_orgs_same user d1 d2 q :
  same_view user d1 d2 →
  paginate (λ o, Ok (OrgSerializer o.1 o.2)) q (orgs_of user q d1) = paginate (λ o, Ok (OrgSerializer o.1 o.2)) q (orgs_of user q d2).
Proof.
  intros Hv. apply paginate_ext.
  apply (faces_Forall2 (prod_map id org_face) (prod_map id org_face)); [|intros [i a] [j b] _ _; cbn; unfold OrgSerializer; by intros [= -> -> -> -> ->]].
  unfold orgs_of. rewrite <- !(merge_sort_fmap name_le name_le) by done. rewrite <- !shuffle_fmap, <- !rows_fmap. do 3 f_equal.
  apply map_eq. intros o. rewrite !lookup_fmap. unfold tfilter. rewrite !map_lookup_filter.
  pose proof (view_role _ _ _ Hv o) as Hr. pose proof (view_org _ _ _ Hv o) as Ho. pose proof (view_exists _ _ _ Hv o) as He.
  assert (not_none (member_of d1 o user) = not_none (member_of d2 o user)) as Hm by by rewrite !not_none_member_of, Hr.
  pose proof (not_none_member_of user o d1) as Hm1.
  destruct (d_orgs d1 !! o) as [a|], (d_orgs d2 !! o) as [b|]; cbn; [|destruct He as [He _], (He ltac:(by eexists)); done
    |destruct He as [_ He], (He ltac:(by eexists)); done|done].
  rewrite <- Hm, Hm1. destruct (role_in_org user o d1) as [r|]; cbn; [|done]. by apply Ho; eexists.
Qed.

Lemma list_members_same user org d1 d2 q :
  same_view user d1 d2 → is_Some (role_in_org user org d1) →
  paginate (OrgMemberSerializer d1) q (members_of org q d1) = paginate (OrgMemberSerializer d2) q (members_of org q d2).
Proof.
  intros Hv Hr. apply paginate_ext. apply (faces_Forall2 id id).
  - rewrite !list_fmap_id. unfold members_of. do 3 f_equal. exact (view_members _ _ _ Hv org Hr).
  - intros [i m] b Hin _ Hb. unfold id in Hb. subst b. unfold members_of in Hin. rewrite merge_sort_Permutation in Hin. apply shuffle_elem in Hin. rewrite rows_elem in Hin.
    pose proof (view_member_users _ _ _ Hv org i m Hr Hin) as Hu. apply tfilter_lookup in Hin as [_ Ho]. rewrite b_eq_true in Ho.
    unfold OrgMemberSerializer. cbn [fst snd]. unfold related. rewrite Ho. pose proof (view_org _ _ _ Hv org Hr) as Hf.
    destruct (d_users d1 !! m_user m) as [u1|], (d_users d2 !! m_user m) as [u2|]; try done. cbn.
    destruct (d_orgs d1 !! org) as [o1|], (d_orgs d2 !! org) as [o2|]; try done. cbn.
    injection Hu as He Hn Ha. injection Hf as Hf1 Hf2 Hf3 Hf4. unfold OrgSerializer, _MemberUserSerializer.
    by rewrite Hf1, Hf2, Hf3, Hf4, He, Hn, Ha.
Qed.

Lemma public_same org o d1 d2 (a b : N * InvitationRow) :
  org_face <$> d_orgs d1 !! org = org_face <$> d_orgs d2 !! org →
  (∀ u, a.2.(i_invited_by) = Some u → u_full_name <$> d_users d1 !! u = u_full_name <$> d_users d2 !! u) →
  public_face a = public_face b → a.2.(i_org) = o → o = org →
  PublicInvitationSerializer d1 a = PublicInvitationSerializer d2 b.
Proof.
  intros Hf Hu Hab Ho ->. destruct a as [i a], b as [j b]. unfold public_face in Hab. cbn in *.
  injection Hab as <- Horg Hrole Hst Hby Hc He. unfold PublicInvitationSerializer. cbn [fst snd].
  rewrite <- Horg, <- Hrole, <- Hst, <- Hby, <- Hc, <- He, Ho. unfold related.
  destruct (d_orgs d1 !! org) as [o1|], (d_orgs d2 !! org) as [o2|]; try done. cbn. injection Hf as Hf1 Hf2 Hf3 Hf4.
  assert (_InvitedBySerializer d1 (i_invited_by a) = _InvitedBySerializer d2 (i_invited_by a)) as ->.
  { unfold _InvitedBySerializer, related. destruct (i_invited_by a) as [u|]; [|done]. specialize (Hu u eq_refl).
    destruct (d_users d1 !! u), (d_users d2 !! u); try done. injection Hu as Hu. cbn. by rewrite Hu. }
  unfold OrgSerializer. by rewrite Hf1, Hf2, Hf3, Hf4.
Qed.

Lemma list_invitations_same user org r d1 d2 q :
  same_view user d1 d2 → role_in_org user org d1 = Some r → r ∈ _ADMIN_OR_ABOVE →
  paginate (InvitationSerializer d1) q (pending_invitations org q d1) =
  paginate (InvitationSerializer d2) q (pending_invitations org q d2).
Proof.
  intros Hv Hr Hadm. apply paginate_ext. apply (faces_Forall2 (prod_map id invitation_face) (prod_map id invitation_face)).
  - unfold pending_invitations. rewrite <- !(merge_sort_fmap created_ge created_ge) by done. rewrite <- !shuffle_fmap, <- !rows_fmap.
    do 3 f_equal. exact (view_invitations _ _ _ Hv org r Hr Hadm).
  - intros [i a] [j b] Ha _ Hab. unfold pending_invitations in Ha. rewrite merge_sort_Permutation in Ha. apply shuffle_elem in Ha. rewrite rows_elem in Ha.
    pose proof (view_inviters _ _ _ Hv org r i a) as Hu. apply tfilter_lookup in Ha as Ha'. destruct Ha' as [_ Ho].
    rewrite andb_true_iff, b_eq_true in Ho. destruct Ho as [Ho _]. injection Hab as <- He1 He2 He3 He4 He5 He6 He7.
    unfold InvitationSerializer. rewrite (public_same org org d1 d2 (i, a) (i, b)).
    + destruct (PublicInvitationSerializer d2 _); [|done]. cbn. by rewrite He2.
    + apply (view_org _ _ _ Hv). by exists r.
    + intros u Hby. by apply (Hu u).
    + unfold public_face. cbn. congruence.
    + done.
    + done.
Qed.

(** C2. A read of an organisation endpoint reveals what its caller may see and nothing
    else: on two databases that look the same to him the answers, errors and pages
    included, are the same; and whoever holds an invitation's token learns nothing
    about the invitee's address. A read changes nothing. *)
Theorem org_reads_noninterference w1 w2 :
  (∀ user r, same_view user (s_db (w_db w1)) (s_db (w_db w2)) →
    (run_read user r w1).1 = (run_read user r w2).1 ∧ (run_read user r w1).2 = w1) ∧
  (∀ token, same_invitation token (s_db (w_db w1)) (s_db (w_db w2)) →
    (invitation_detail_get token w1).1 = (invitation_detail_get token w2).1 ∧ (invitation_detail_get token w1).2 = w1).
Proof.
  split.
  - intros user r Hv. destruct r as [q|org|org q|org q]; cbn [run_read]; rewrite !bind_run.
    + unfold org_list_get. rewrite !answer_run, (list_orgs_same _ _ _ _ Hv). by destruct (paginate _ _ _).
    + unfold org_detail_get. rewrite !get_org_and_member_run, <- (gate_same _ _ _ _ _ Hv).
      destruct (gate _ _ _ _) as [[]|] eqn:Hg; [|done]. apply gate_Ok in Hg as (r & Hr & _). rewrite !answer_run.
      rewrite (related_face org_face (OrgSerializer org) (d_orgs (s_db (w_db w1))) (d_orgs (s_db (w_db w2)))).
      * by destruct (_ ≫= _).
      * intros a b. unfold OrgSerializer. by intros [= -> -> -> ->].
      * apply (view_org _ _ _ Hv). by exists r.
    + unfold member_list_get. rewrite !get_org_and_member_run, <- (gate_same _ _ _ _ _ Hv).
      destruct (gate _ _ _ _) as [[]|] eqn:Hg; [|done]. apply gate_Ok in Hg as (r & Hr & _). rewrite !answer_run.
      rewrite (list_members_same user org _ _ q Hv) by by exists r. by destruct (paginate _ _ _).
    + unfold invitation_list_get. rewrite !get_org_and_member_run, <- (gate_same _ _ _ _ _ Hv).
      destruct (gate _ _ _ _) as [[]|] eqn:Hg; [|done]. apply gate_Ok in Hg as (r & Hr & Hl). rewrite !answer_run.
      rewrite (list_invitations_same user org r _ _ q Hv Hr) by by apply Hl. by destruct (paginate _ _ _).
  - intros token [Hp Hrest]. unfold invitation_detail_get. rewrite !bind_run, !get_or_404_run.
    destruct (pending_by_token token (s_db (w_db w1))) as [a|], (pending_by_token token (s_db (w_db w2))) as [b|]; try done.
    rewrite !answer_run. split; [|done]. destruct (Hrest a eq_refl) as [Ho Hu].
    assert (public_face a = public_face b) as Hab by (cbn in Hp; congruence).
    cbn [lift fst]. apply (public_same a.2.(i_org) a.2.(i_org)); [exact Ho|exact Hu|exact Hab|done|done].
Qed.
End Views.

(** ** The pages of a listing *)

Section Paging.
  Context `{RowOrderLaws} `{!PaginationLaws}.

Lemma shuffle_perm {A} q (l : list A) : shuffle q l ≡ₚ l.
Proof.
  unfold shuffle. rewrite row_order_perm. clear. induction l as [|a l IH]; [done|]. cbn. constructor. rewrite <- fmap_S_seq.
  assert (∀ k, omap (λ i, (a :: l) !! i) (S <$> k) = omap (λ i, l !! i) k) as ->; [|exact IH].
  clear IH. induction k as [|i k IH]; [done|]. cbn. destruct (l !! i); [by rewrite <- IH|exact IH].
Qed.

(** A client that follows the [next] links. *)
Fixpoint collect {A} (fuel : nat) (get : page_query → M store (Page A)) (q : page_query) : M store (list A) :=
  match fuel with
  | O => mret []
  | S fuel =>
      p ← get q;
      match p.(pg_next) with
      | Some q => rest ← collect fuel get q; mret (p.(pg_results) ++ rest)
      | None => mret p.(pg_results)
      end
  end.

Lemma page_window_sound q : (1 <= (page_window _DEFAULT_PAGE_SIZE _MAX_PAGE_SIZE q).1 <= _MAX_PAGE_SIZE)%nat.
Proof. apply page_limit. unfold _DEFAULT_PAGE_SIZE, _MAX_PAGE_SIZE. lia. Qed.

Lemma paginate_Ok {A B} (s : A → outcome B) q l outs limit offset :
  mapM s l = Ok outs → page_window _DEFAULT_PAGE_SIZE _MAX_PAGE_SIZE q = (limit, offset) →
  paginate s q l =
    Ok (mkPage (length l) (if (offset + limit <? length l)%nat then Some (page_link limit (offset + limit)) else None)
          (if (offset =? 0)%nat then None else Some (page_link limit (offset - limit))) (take limit (drop offset outs))).
Proof.
  intros Hl%mapM_Ok Hq. unfold paginate. rewrite Hq.
  assert (mapM s (take limit (drop offset l)) = Ok (take limit (drop offset outs))) as ->
    by by apply mapM_Ok, Forall2_take, Forall2_drop.
  done.
Qed.

Lemma collect_all {A B} (s : A → outcome B) l outs (get : page_query → M store (Page B)) fuel q w limit offset :
  (∀ q, get q w = (paginate s q l, w)) → mapM s l = Ok outs →
  page_window _DEFAULT_PAGE_SIZE _MAX_PAGE_SIZE q = (limit, offset) → (length l - offset < fuel)%nat →
  collect fuel get q w = (Ok (drop offset outs), w).
Proof.
  intros Hget Hl. assert (length outs = length l) as Hlen by by apply mapM_Ok, Forall2_length in Hl.
  revert q offset. induction fuel as [|fuel IH]; intros q offset Hq Hfuel; [lia|]. cbn [collect].
  pose proof (page_window_sound q) as Hlim. rewrite Hq in Hlim. cbn [fst] in Hlim.
  rewrite bind_run, Hget, (paginate_Ok s q l outs limit offset Hl Hq). cbn [pg_next pg_results].
  destruct (Nat.ltb_spec (offset + limit) (length l)) as [Hlt|Hge].
  - rewrite bind_run, (IH (page_link limit (offset + limit)) (offset + limit)); [|by apply page_window_link|lia].
    cbn. do 2 f_equal. by rewrite <- drop_drop, take_drop.
  - rewrite take_ge; [done|]. rewrite length_drop. lia.
Qed.

(** *** The three listings *)

Lemma rows_serialize {A B} (s : N * A → outcome B) (l : list (N * A)) :
  (∀ r, r ∈ l → ∃ b, s r = Ok b) → ∃ outs, mapM s l = Ok outs.
Proof.
  induction l as [|r l IH]; intros Hs; [by exists []|]. destruct (Hs r) as [b Hb]; [by left|].
  destruct IH as [outs Ho]; [by intros r' Hr; apply Hs; right|]. exists (b :: outs). cbn. by rewrite Hb, Ho.
Qed.

Lemma related_has {A} (t : table A) i model : not_none (t !! i) = true → ∃ a, related t i model = Ok a.
Proof. unfold related. destruct (t !! i) as [a|]; [by exists a|done]. Qed.

Lemma member_serializes d i m : db_ok d → d_members d !! i = Some m → ∃ out, OrgMemberSerializer d (i, m) = Ok out.
Proof.
  intros Hok Hm. pose proof (db_ok_members d Hok) as [Hrows _]. pose proof (Hrows i m Hm) as Hr. unfold row_ok in Hr.
  rewrite !andb_true_iff in Hr. destruct Hr as [_ Hrefs]. cbn in Hrefs. rewrite !andb_true_iff in Hrefs.
  destruct Hrefs as (Ho & Hu & _). unfold OrgMemberSerializer. cbn [fst snd].
  destruct (related_has _ _ "User" Hu) as [u ->]. cbn. destruct (related_has _ _ "Org" Ho) as [o ->]. by eexists.
Qed.

Lemma invitation_serializes d i inv :
  db_ok d → d_invitations d !! i = Some inv → ∃ out, InvitationSerializer d (i, inv) = Ok out.
Proof.
  intros Hok Hi. assert (table_ok invitation_schema (has d) d.(d_invitations)) as [Hrows _] by (unfold db_ok in Hok; tauto).
  pose proof (Hrows i inv Hi) as Hr. unfold row_ok in Hr. rewrite !andb_true_iff in Hr. destruct Hr as [_ Hrefs].
  cbn in Hrefs. rewrite andb_true_iff in Hrefs. destruct Hrefs as [Ho Hu]. unfold InvitationSerializer, PublicInvitationSerializer.
  cbn [fst snd]. destruct (related_has _ _ "Org" Ho) as [o ->]. cbn. unfold _InvitedBySerializer.
  destruct (i_invited_by inv) as [u|]; [|by eexists]. cbn in Hu. rewrite andb_true_iff in Hu. destruct Hu as [Hu _].
  destruct (related_has _ _ "User" Hu) as [x ->]. by eexists.
Qed.

(** The listing as it would be without pages: the rows in order, serialized. *)
Definition lists {A B} (le : N * A → N * A → Prop) (s : N * A → outcome B) (t : table A) (outs : list B) : Prop :=
  ∃ l, l ≡ₚ rows t ∧ Sorted le l ∧ mapM s l = Ok outs.

Lemma listed {A B} (le : relation (N * A)) `{!RelDecision le} `{!Total le} (s : N * A → outcome B) (t : table A) :
  (∀ i a, t !! i = Some a → ∃ b, s (i, a) = Ok b) →
  ∃ outs, mapM s (merge_sort le (rows t)) = Ok outs ∧ lists le s t outs.
Proof.
  intros Hs. destruct (rows_serialize s (merge_sort le (rows t))) as [outs Ho].
  - intros [i a] Hin. rewrite merge_sort_Permutation, rows_elem in Hin. by apply Hs.
  - exists outs. split; [done|]. exists (merge_sort le (rows t)). split_and!; [apply merge_sort_Permutation| |done].
    by apply Sorted_merge_sort.
Qed.

#[local] Instance name_le_total : Total name_le.
Proof. intros a b. unfold name_le, str_le. destruct (String.leb_total a.2.(o_name) b.2.(o_name)); [by left|by right]. Qed.
#[local] Instance joined_le_total : Total joined_le.
Proof. intros a b. unfold joined_le. lia. Qed.
#[local] Instance created_ge_total : Total created_ge.
Proof. intros a b. unfold created_ge. lia. Qed.

#[local] Instance name_le_trans : Transitive name_le.
Proof.
  intros a b c. unfold name_le, str_le. intros Hab%Is_true_eq_left Hbc%Is_true_eq_left. apply Is_true_true.
  by apply (transitivity (R := String.le) (y := b.2.(o_name))).
Qed.
#[local] Instance joined_le_trans : Transitive joined_le.
Proof. intros a b c. unfold joined_le. lia. Qed.
#[local] Instance created_ge_trans : Transitive created_ge.
Proof. intros a b c. unfold created_ge. lia. Qed.

(** No two rows compare equal. *)
Definition untied {A} (le : relation (N * A)) (t : table A) : Prop :=
  ∀ r r', t !! r.1 = Some r.2 → t !! r'.1 = Some r'.2 → le r r' → le r' r → r = r'.

Lemma untied_order {A} (le : relation (N * A)) `{!RelDecision le} `{!Total le} `{!Transitive le} (t : table A) q :
  untied le t → merge_sort le (shuffle q (rows t)) = merge_sort le (rows t).
Proof.
  intros Hu. apply (Sorted_unique_strong le).
  - intros [i a] [j b]. rewrite !merge_sort_Permutation, shuffle_perm, !rows_elem. apply (Hu (i, a) (j, b)).
  - by apply Sorted_merge_sort.
  - by apply Sorted_merge_sort.
  - by rewrite !merge_sort_Permutation, shuffle_perm.
Qed.

(** What one page shows: rows of the listing in its order, none twice, as many as its
    window has room for, and the true count. *)
Definition page_of {A B} le (s : N * A → outcome B) (t : table A) (q : page_query) (p : Page B) : Prop :=
  pg_count p = size t ∧
  length (pg_results p) = ((page_window _DEFAULT_PAGE_SIZE _MAX_PAGE_SIZE q).1 `min`
    (size t - (page_window _DEFAULT_PAGE_SIZE _MAX_PAGE_SIZE q).2))%nat ∧
  (length (pg_results p) <= _MAX_PAGE_SIZE)%nat ∧
  ∃ l, NoDup l ∧ (∀ r, r ∈ l → t !! r.1 = Some r.2) ∧ Sorted le l ∧ mapM s l = Ok (pg_results p).

(** Every page is answered; and following the links from a first page gives the whole
    listing when no two rows tie. *)
Definition paged {A B} (get : page_query → M store (Page B)) le (s : N * A → outcome B) (t : table A) w : Prop :=
  (∀ q, ∃ p, get q w = (Ok p, w) ∧ page_of le s t q p) ∧
  (untied le t → ∃ outs, lists le s t outs ∧
    ∀ q fuel, (page_window _DEFAULT_PAGE_SIZE _MAX_PAGE_SIZE q).2 = 0%nat → (size t < fuel)%nat →
      collect fuel get q w = (Ok outs, w)).

Lemma Sorted_take_drop {A} (le : relation A) `{!Transitive le} n k l : Sorted le l → Sorted le (take n (drop k l)).
Proof.
  intros Hl. apply StronglySorted_Sorted. apply (Sorted_StronglySorted _) in Hl.
  rewrite <- (take_drop k l) in Hl. apply StronglySorted_app_1_r in Hl.
  rewrite <- (take_drop n (drop k l)) in Hl. by apply StronglySorted_app_1_l in Hl.
Qed.

Lemma page_sound {A B} (le : relation (N * A)) `{!RelDecision le} `{!Total le} `{!Transitive le} (s : N * A → outcome B) (t : table A) q :
  (∀ i a, t !! i = Some a → ∃ b, s (i, a) = Ok b) →
  ∃ p, paginate s q (merge_sort le (shuffle q (rows t))) = Ok p ∧ page_of le s t q p.
Proof.
  intros Hs. set (l := merge_sort le (shuffle q (rows t))). assert (l ≡ₚ rows t) as Hl by (unfold l; by rewrite merge_sort_Permutation, shuffle_perm).
  assert (length l = size t) as Hlen by (rewrite Hl; apply length_map_to_list).
  destruct (rows_serialize s l) as [outs Ho]; [intros [i a]; rewrite Hl, rows_elem; apply Hs|].
  destruct (page_window _DEFAULT_PAGE_SIZE _MAX_PAGE_SIZE q) as [limit offset] eqn:Hw.
  rewrite (paginate_Ok s q l outs limit offset Ho Hw). eexists. split; [done|]. unfold page_of. rewrite Hw. cbn [pg_count pg_results fst snd].
  apply mapM_Ok in Ho. pose proof (Forall2_length _ _ _ Ho) as Hlo. pose proof (page_window_sound q) as Hlim. rewrite Hw in Hlim. cbn in Hlim.
  split; [done|]. split; [rewrite length_take, length_drop; lia|]. split; [rewrite length_take; lia|].
  exists (take limit (drop offset l)). split_and!.
  - apply (sublist_NoDup _ l); [rewrite Hl; apply NoDup_map_to_list|].
    transitivity (drop offset l); [apply sublist_take|apply sublist_drop].
  - intros [i a] Hin. apply (elem_of_sublist _ l) in Hin.
    + by rewrite Hl, rows_elem in Hin.
    + transitivity (drop offset l); [apply sublist_take|apply sublist_drop].
  - by apply Sorted_take_drop, Sorted_merge_sort.
  - by apply mapM_Ok, Forall2_take, Forall2_drop.
Qed.

Lemma paged_listing {A B} (get : page_query → M store (Page B)) (le : relation (N * A)) `{!RelDecision le} `{!Total le}
    `{!Transitive le} (s : N * A → outcome B) (t : table A) w :
  (∀ q, get q w = (paginate s q (merge_sort le (shuffle q (rows t))), w)) →
  (∀ i a, t !! i = Some a → ∃ b, s (i, a) = Ok b) → paged get le s t w.
Proof.
  intros Hget Hs. split.
  - intros q. rewrite Hget. destruct (page_sound le s t q Hs) as (p & -> & Hp). by exists p.
  - intros Hu. destruct (listed le s t Hs) as (outs & Hm & Hl). exists outs. split; [done|]. intros q fuel Hq Hf.
    assert (length (merge_sort le (rows t)) = size t) as Hlen by (rewrite merge_sort_Permutation; apply length_map_to_list).
    destruct (page_window _ _ q) as [limit offset] eqn:Hw. cbn in Hq. subst offset.
    rewrite (collect_all s (merge_sort le (rows t)) outs get fuel q w limit 0); [done| |done|done|lia].
    intros q'. by rewrite Hget, (untied_order le t q' Hu).
Qed.

(** C25. The pages of a listing.  Every page is answered, with the true count, at most
    100 rows and as many as its window has room for: rows of the caller's organisations
    in the order of their names, of the members of an organisation he belongs to in the
    order they joined, of the pending invitations of one he manages newest first, none
    twice.  A client that starts at the first page and follows the [next] links collects
    every row, once and in order, whatever the page size, when no two rows compare
    equal; rows that do are in an order of the database's own at every page, and the
    client may see one twice and another not at all. *)
Theorem listings_paged user org w :
  db_ok (s_db (w_db w)) →
  paged (org_list_get user) name_le (λ o, Ok (OrgSerializer o.1 o.2))
    (tfilter (λ i _, not_none (member_of (s_db (w_db w)) i user)) (d_orgs (s_db (w_db w)))) w ∧
  (is_Some (role_in_org user org (s_db (w_db w))) →
    paged (member_list_get user org) joined_le (OrgMemberSerializer (s_db (w_db w))) (member_table org (s_db (w_db w))) w) ∧
  ∀ r, role_in_org user org (s_db (w_db w)) = Some r → r ∈ _ADMIN_OR_ABOVE →
    paged (invitation_list_get user org) created_ge (InvitationSerializer (s_db (w_db w))) (pending_table org (s_db (w_db w))) w.
Proof.
  intros Hok. split_and!.
  - apply (paged_listing (org_list_get user) name_le); [done|by intros i a _; eexists].
  - intros [r Hr]. apply (paged_listing (member_list_get user org) joined_le).
    + intros q. unfold member_list_get. rewrite get_org_and_member_run. unfold gate. by rewrite Hr.
    + intros i m [Hm _]%tfilter_lookup. by apply member_serializes.
  - intros r Hr Hadm. apply (paged_listing (invitation_list_get user org) created_ge).
    + intros q. unfold invitation_list_get. rewrite get_org_and_member_run. unfold gate, role_in.
      rewrite Hr, bool_decide_eq_true_2 by done. done.
    + intros i inv [Hi _]%tfilter_lookup. by apply invitation_serializes.
Qed.
End Paging.

(** ** Writes *)

Section Writes.
  Context `{DjangoLib} `{Secrets} `{StripeServer} `{EmailValidator} `{HttpsURL} `{RequestHost} `{Pagination}.

Lemma gated_Ok {A} user org roles (k : N * MemberRow → M store A) w a w' :
  (c ← _get_org_and_member user org roles; k c) w = (Ok a, w') →
  ∃ c, member_of (s_db (w_db w)) org user = Some c ∧ (∀ l, roles = Some l → c.2.(m_role) ∈ l) ∧ k c w = (Ok a, w').
Proof.
  rewrite bind_run. destruct (get_org_and_member_cases user org roles w) as [[e ->]|(c & -> & Hc & Hl)]; [done|].
  intros Hk. by exists c.
Qed.

Lemma found_Ok {A B} (q : db → option A) (k : A → M store B) w b w' :
  (a ← get_or_404 q; k a) w = (Ok b, w') → ∃ a, q (s_db (w_db w)) = Some a ∧ k a w = (Ok b, w').
Proof. rewrite bind_run, get_or_404_run. destruct (q _) as [a|]; [|done]. intros Hk. by exists a. Qed.

Lemma lifted_Ok {A B} (o : outcome A) (k : A → M store B) w b w' :
  (a ← lift o; k a) w = (Ok b, w') → ∃ a, o = Ok a ∧ k a w = (Ok b, w').
Proof. rewrite lift_bind. destruct o as [a|]; [|done]. intros Hk. by exists a. Qed.

Lemma answered_Ok {A B} (f : db → outcome A) (k : A → M store B) w b w' :
  (a ← answer f; k a) w = (Ok b, w') → ∃ a, f (s_db (w_db w)) = Ok a ∧ k a w = (Ok b, w').
Proof. rewrite bind_run, answer_run. destruct (f _) as [a|]; [|done]. intros Hk. by exists a. Qed.

Lemma role_of_member user org c d : member_of d org user = Some c → role_in_org user org d = Some c.2.(m_role).
Proof. unfold role_in_org. by intros ->. Qed.

(** A save of a membership, and what it leaves. *)
Lemma save_member_fields_Ok i role is_billing m w w' :
  d_members (s_db (w_db w)) !! i = Some m → save_member_fields i role is_billing w = (Ok tt, w') →
  s_db (w_db w') = set_members (<[i := member_set role is_billing m]> (d_members (s_db (w_db w)))) (s_db (w_db w)) ∧
  w_tasks w' = w_tasks w.
Proof.
  intros Hm. rewrite (save_member_fields_run _ _ _ _ m Hm). destruct (save_member _ _ _) as [d|] eqn:Hs; [|done].
  apply save_member_inv in Hs as ->. by intros [= <-].
Qed.

(** The row of a listing behind an answer. *)
Definition shown {A B} (s : N * A → outcome B) (t : table A) (out : B) : Prop :=
  ∃ i a, t !! i = Some a ∧ s (i, a) = Ok out.

Lemma member_shown org i m d out :
  d_members d !! i = Some m → m.(m_org) = org → OrgMemberSerializer d (i, m) = Ok out →
  shown (OrgMemberSerializer d) (member_table org d) out ∧ mu_id (mo_user out) = m.(m_user) ∧
  mo_role out = m.(m_role) ∧ mo_is_billing out = m.(m_is_billing).
Proof.
  intros Hm Ho Hs. split.
  - exists i, m. split; [|done]. apply tfilter_lookup. split; [done|]. by apply b_eq_true.
  - revert Hs. unfold OrgMemberSerializer. cbn [fst snd]. intros (u & _ & Hs)%outcome_bind_Ok.
    by apply outcome_bind_Ok in Hs as (o & _ & [= <-]).
Qed.

Lemma org_patch_reads_back user org b out w w' :
  org_patch_request user org b w = (Ok out, w') →
  (org_detail_get user org w').1 = Ok out ∧
  ∃ name logo row, UpdateOrgSerializer b = Ok (name, logo) ∧ d_orgs (s_db (w_db w)) !! org = Some row ∧
    out = mkOrgOut org (or_else name row.(o_name)) row.(o_slug) (or_else logo row.(o_logo_url)) row.(o_created_at).
Proof.
  intros (c & Hc & _ & Hk)%gated_Ok. apply answered_Ok in Hk as (row & Hrow & Hk). apply lifted_Ok in Hk as ([name logo] & Hser & Hk).
  cbn [fst snd] in Hk. apply bind_Ok_inv in Hk as (u & w1 & Hup & [= <- <-]).
  assert (d_orgs (s_db (w_db w)) !! org = Some row) as Hr by (unfold related in Hrow; by case_match; simplify_eq).
  split; [|by exists name, logo, row].
  assert (d_members (s_db (w_db w1)) = d_members (s_db (w_db w)) ∧ d_orgs (s_db (w_db w1)) !! org = Some (org_set name logo row)) as [Hm Ho].
  { unfold org_update in Hup. destruct (_ && _) eqn:Hno.
    - injection Hup as _ <-. split; [done|]. rewrite Hr. destruct name, logo; try done. by destruct row.
    - rewrite dexec_run, Hr in Hup. destruct (save_org _ _ _) as [d|] eqn:Hs; [|done]. injection Hup as _ <-.
      apply outcome_bind_Ok in Hs as (t & Ht & [= <-]). apply tput_inv in Ht as (-> & _). cbn. split; [done|]. apply lookup_insert_eq. }
  unfold org_detail_get. rewrite get_org_and_member_run. unfold gate, role_in_org, member_of. rewrite Hm.
  unfold member_of in Hc. rewrite Hc, answer_run. cbn [fst]. unfold related. by rewrite Ho.
Qed.

Lemma member_patch_reads_back user org member b out w w' :
  member_patch_request user org member b w = (Ok out, w') →
  shown (OrgMemberSerializer (s_db (w_db w'))) (member_table org (s_db (w_db w'))) out ∧ mu_id (mo_user out) = member ∧
  ∃ role billing, UpdateMemberSerializer b = Ok (role, billing) ∧
    (∀ r, role = Some r → mo_role out = r) ∧ (∀ x, billing = Some x → mo_is_billing out = x).
Proof.
  intros (c & Hc & _ & Hk)%gated_Ok. apply found_Ok in Hk as ([i m] & Ht & Hk). apply lifted_Ok in Hk as (_ & _ & Hk).
  apply lifted_Ok in Hk as ([role billing] & Hser & Hk). cbn [fst snd] in Hk. apply bind_Ok_inv in Hk as (u & w1 & Hup & Hk).
  rewrite answer_run in Hk. injection Hk as Hout <-. apply member_of_Some in Ht as (Hm & Ho & Hu).
  assert (d_members (s_db (w_db w1)) !! i = Some (member_set role billing m)) as Hrow.
  { unfold member_update in Hup. destruct (_ && _) eqn:Hno.
    - injection Hup as _ <-. rewrite Hm. destruct role, billing; try done. by destruct m.
    - apply bind_Ok_inv in Hup as (x & w2 & Hl & Hs). assert (w2 = w) as ->.
      { destruct role; [|by injection Hl]. unfold lift in Hl. by injection Hl. }
      destruct u. apply (save_member_fields_Ok _ _ _ m) in Hs as [-> _]; [|done]. cbn. apply lookup_insert_eq. }
  destruct (member_shown org i _ _ _ Hrow Ho Hout) as (Hsh & Hid & Hr & Hb).
  split; [done|]. split; [by rewrite Hid|]. exists role, billing. split; [done|].
  split; [intros r ->; by rewrite Hr|intros x ->; by rewrite Hb].
Qed.

Lemma transfer_reads_back user org target out w w' :
  transfer_request user org target w = (Ok out, w') →
  shown (OrgMemberSerializer (s_db (w_db w'))) (member_table org (s_db (w_db w'))) (cr_data out) ∧
  target = Given (mu_id (mo_user (cr_data out))) ∧ mo_role (cr_data out) = OWNER ∧ mo_is_billing (cr_data out) = true.
Proof.
  intros ([ci c] & Hc & Hrole & Hk)%gated_Ok. apply lifted_Ok in Hk as (t & Hser & Hk). apply found_Ok in Hk as ([i m] & Ht & Hk).
  apply bind_Ok_inv in Hk as (u & w1 & Hup & Hk). apply answered_Ok in Hk as (o & Hout & [= <- <-]). cbn [cr_data].
  assert (target = Given t) as -> by (destruct target; by simplify_eq/=).
  specialize (Hrole _ eq_refl). apply list_elem_of_singleton in Hrole. apply member_of_Some in Hc as (Hc & _).
  apply member_of_Some in Ht as (Hm & Ho & Hu). cbn [fst snd] in *.
  unfold transfer_to in Hup. cbn [fst snd] in Hup. destruct (b_eq (m_role m) ADMIN) eqn:Ha; [|done]. rewrite b_eq_true in Ha.
  cbn [negb] in Hup. apply atomic_Ok, bind_Ok_inv in Hup as ([] & w2 & Hs1 & Hs2). apply (save_member_fields_Ok _ _ _ m) in Hs1 as [Hs1 _]; [|done].
  assert (ci ≠ i) as Hne by (intros ->; congruence).
  destruct u. apply (save_member_fields_Ok _ _ _ c) in Hs2 as [Hs2 _]; [|rewrite Hs1; cbn; by rewrite lookup_insert_ne].
  assert (d_members (s_db (w_db w1)) !! i = Some (member_set (Some OWNER) (Some true) m)) as Hrow.
  { rewrite Hs2. cbn. rewrite lookup_insert_ne, Hs1 by done. cbn. apply lookup_insert_eq. }
  destruct (member_shown org i _ _ _ Hrow Ho Hout) as (Hsh & Hid & Hr & Hb).
  split; [done|]. split; [by rewrite Hid, <- Hu|]. by split.
Qed.

Lemma invite_Ok user org email role i inv w w' :
  invite user org email role w = (Ok (i, inv), w') →
  insert_invitation i inv (s_db (w_db w)) = Ok (s_db (w_db w')) ∧
  inv.(i_org) = org ∧ inv.(i_email) = email ∧ inv.(i_role) = role ∧ inv.(i_status) = PENDING ∧ inv.(i_invited_by) = Some user ∧
  inv.(i_expires_at) = (inv.(i_created_at) + days INVITATION_EXPIRY_DAYS)%Z ∧
  w_tasks w' = w_tasks w ++ [send_invitation_email_task_delay email inv.(i_token)
    (or_else (o_name <$> d_orgs (s_db (w_db w)) !! org) "") (or_else (u_full_name <$> d_users (s_db (w_db w)) !! user) "")].
Proof.
  unfold invite, dquery. rewrite query_bind. destruct (email_is_registered _ _); [done|]. rewrite query_bind.
  destruct (not_none _); [done|]. unfold fresh_token. rewrite !bind_run. cbn [uuid4 mret M_ret]. rewrite !bind_run. cbn [query].
  rewrite bind_run. cbn [query]. intros Hk%atomic_Ok.
  apply bind_Ok_inv in Hk as (u & w1 & Hseat & Hk).
  assert (w_db w1 = w_db w ∧ w_tasks w1 = w_tasks w) as [Hdb Htasks].
  { revert Hseat. unfold _validate_seat_limit, dquery. rewrite query_bind. destruct (lock_active_team_sub _ _); [|by intros [= _ <-]].
    rewrite !query_bind. by destruct (_ <=? _)%Z; intros [= _ <-]. }
  rewrite bind_run in Hk. cbn [uuid4] in Hk. rewrite bind_run in Hk. cbn [utcnow] in Hk. cbv zeta in Hk. rewrite bind_run, dexec_run in Hk.
  cbn [w_db] in Hk. rewrite Hdb in Hk. destruct (insert_invitation _ _ _) as [d|] eqn:Hi; [|done]. rewrite bind_run in Hk. cbn in Hk.
  injection Hk as <- <- <-. cbn. rewrite Htasks. split_and!; done.
Qed.

Lemma invitation_create_reads_back user org b out w w' :
  db_ok (s_db (w_db w)) → invitation_create_request user org b w = (Ok out, w') →
  shown (InvitationSerializer (s_db (w_db w'))) (pending_table org (s_db (w_db w'))) (cr_data out) ∧
  ∃ role token, CreateInvitationSerializer b = Ok (io_email (cr_data out), role) ∧ pi_role (io_public (cr_data out)) = role ∧
    (invitation_detail_get token w').1 = Ok (io_public (cr_data out)) ∧
    ∃ name inviter, w_tasks w' = w_tasks w ++ [send_invitation_email_task_delay (io_email (cr_data out)) token name inviter].
Proof.
  intros Hok (c & Hc & _ & Hk)%gated_Ok. apply lifted_Ok in Hk as ([email role] & Hser & Hk).
  apply bind_Ok_inv in Hk as ([i inv] & w1 & Hinv & Hk). apply answered_Ok in Hk as (o & Hout & [= <- <-]). cbn [cr_data].
  apply invite_Ok in Hinv as (Hins & Ho & He & Hr & Hst & Hby & _ & Htasks). cbn [fst snd] in *.
  pose proof (insert_invitation_ok _ _ _ _ Hok Hins) as Hok1.
  assert (d_invitations (s_db (w_db w1)) !! i = Some inv) as Hrow.
  { apply outcome_bind_Ok in Hins as (x & _ & Hs). apply outcome_bind_Ok in Hs as (t & Ht & [= <-]).
    apply tput_inv in Ht as (-> & _). apply lookup_insert_eq. }
  assert (shown (InvitationSerializer (s_db (w_db w1))) (pending_table org (s_db (w_db w1))) o) as Hsh.
  { exists i, inv. split; [|done]. apply tfilter_lookup. split; [done|]. by rewrite Ho, Hst, !b_eq_refl. }
  split; [done|]. apply outcome_bind_Ok in Hout as (pub & Hpub & [= <-]). cbn [io_email io_public snd]. exists role, inv.(i_token).
  rewrite He. split; [done|]. split.
  { revert Hpub. intros (org_ & _ & Hp)%outcome_bind_Ok. apply outcome_bind_Ok in Hp as (iv & _ & [= <-]). exact Hr. }
  split; [|by eexists _, _; rewrite Htasks].
  assert (pending_by_token inv.(i_token) (s_db (w_db w1)) = Some (i, inv)) as Hfind.
  { apply tfind_unique; [done|by rewrite Hst, !b_eq_refl|]. intros j x Hx. rewrite andb_true_iff, b_eq_true. intros [Hj _].
    assert (table_ok invitation_schema (has (s_db (w_db w1))) (d_invitations (s_db (w_db w1)))) as Ht by (unfold db_ok in Hok1; tauto).
    eapply (table_ok_unique invitation_schema _ _ (λ i, key_str i.(i_token))); [exact Ht|by left|exact Hx|exact Hrow|..]; cbn; by rewrite ?Hj. }
  unfold invitation_detail_get. rewrite bind_run, get_or_404_run, Hfind, answer_run. exact Hpub.
Qed.

(** C24. A write of an organisation answers what the next read shows: the profile after a
    PATCH is the one GET answers, with the columns its body named; the membership a PATCH
    or a transfer answers is in the member list, with the new role, the owner's billing
    authority included; the invitation a POST answers is in the list of pending ones, and
    the token mailed to the invitee opens its public view. *)
Theorem org_writes_read_back user org w w' :
  db_ok (s_db (w_db w)) →
  let d' := s_db (w_db w') in
  (∀ b out, org_patch_request user org b w = (Ok out, w') →
    (org_detail_get user org w').1 = Ok out ∧
    ∃ name logo row, UpdateOrgSerializer b = Ok (name, logo) ∧ d_orgs (s_db (w_db w)) !! org = Some row ∧
      out = mkOrgOut org (or_else name row.(o_name)) row.(o_slug) (or_else logo row.(o_logo_url)) row.(o_created_at)) ∧
  (∀ member b out, member_patch_request user org member b w = (Ok out, w') →
    shown (OrgMemberSerializer d') (member_table org d') out ∧ mu_id (mo_user out) = member ∧
    ∃ role billing, UpdateMemberSerializer b = Ok (role, billing) ∧
      (∀ r, role = Some r → mo_role out = r) ∧ (∀ x, billing = Some x → mo_is_billing out = x)) ∧
  (∀ target out, transfer_request user org target w = (Ok out, w') →
    shown (OrgMemberSerializer d') (member_table org d') (cr_data out) ∧
    target = Given (mu_id (mo_user (cr_data out))) ∧ mo_role (cr_data out) = OWNER ∧ mo_is_billing (cr_data out) = true) ∧
  (∀ b out, invitation_create_request user org b w = (Ok out, w') →
    shown (InvitationSerializer d') (pending_table org d') (cr_data out) ∧
    ∃ role token, CreateInvitationSerializer b = Ok (io_email (cr_data out), role) ∧ pi_role (io_public (cr_data out)) = role ∧
      (invitation_detail_get token w').1 = Ok (io_public (cr_data out)) ∧
      ∃ name inviter, w_tasks w' = w_tasks w ++ [send_invitation_email_task_delay (io_email (cr_data out)) token name inviter]).
Proof.
  intros Hok d'. split_and!.
  - intros b out. apply org_patch_reads_back.
  - intros member b out. apply member_patch_reads_back.
  - intros target out. apply transfer_reads_back.
  - intros b out. by apply invitation_create_reads_back.
Qed.

(** ** The requests run the operations of the state machine *)

Inductive org_request :=
  | PatchOrg (user org : uuid) (b : OrgBody)
  | PatchMember (user org member : uuid) (b : MemberBody)
  | Transfer (user org : uuid) (target : field uuid)
  | InviteTo (user org : uuid) (b : InvitationBody)
  | Accept (token : string) (full_name : field string)
  | DeleteOrg (user org : uuid)
  | RemoveMember (user org member : uuid)
  | CancelInvitation (user org invitation : uuid)
  | Decline (user : uuid) (token : string).

Definition run_request (q : org_request) : M store unit :=
  match q with
  | PatchOrg u o b => org_patch_request u o b;; mret tt
  | PatchMember u o m b => member_patch_request u o m b;; mret tt
  | Transfer u o t => transfer_request u o t;; mret tt
  | InviteTo u o b => invitation_create_request u o b;; mret tt
  | Accept t n => invitation_accept_request t n;; mret tt
  | DeleteOrg u o => org_delete u o
  | RemoveMember u o m => member_delete u o m
  | CancelInvitation u o i => invitation_cancel u o i
  | Decline u t => invitation_decline u t
  end.

(** The condition under which a request is a step of the state machine: a removed
    member owns no organisation. *)
Definition permitted (q : org_request) (d : db) : Prop :=
  match q with RemoveMember _ _ m => owns_none m d | _ => True end.

(** The request is refused before it does anything, or it is the operation. *)
Definition refines (q : org_request) (w : world store) : Prop :=
  (∃ e, run_request q w = (Raise e, w)) ∨
  match q with
  | RemoveMember u o m => run_request q w = member_delete u o m w
  | _ => ∃ op, run_request q w = OrgInvariant.run_op op w
  end.

(** Users and organisations are as they were. *)
Definition same_people A (m : M store A) (w : world store) : Prop :=
  d_users (s_db (w_db (m w).2)) = d_users (s_db (w_db w)) ∧ d_orgs (s_db (w_db (m w).2)) = d_orgs (s_db (w_db w)).

Lemma save_member_fields_people i r b w : same_people unit (save_member_fields i r b) w.
Proof.
  unfold same_people, save_member_fields. rewrite dexec_run. destruct (d_members _ !! i); [|done].
  destruct (save_member _ _ _) as [d|] eqn:Hs; [|done]. by apply save_member_inv in Hs as ->.
Qed.

Lemma member_update_people c t r b w : same_people unit (member_update c t r b) w.
Proof.
  unfold member_update. destruct (_ && _); [done|]. unfold same_people. rewrite bind_run.
  destruct r as [r|]; [|apply save_member_fields_people]. cbn [lift]. destruct (check_can_assign_role _ _); [|done].
  apply save_member_fields_people.
Qed.

Lemma transfer_people c t w : same_people unit (transfer_to c t) w.
Proof.
  unfold transfer_to. destruct (negb _); [done|]. unfold same_people, atomic. rewrite bind_run.
  pose proof (save_member_fields_people t.1 (Some OWNER) (Some true) w) as Hs1. unfold same_people in Hs1.
  destruct (save_member_fields t.1 _ _ w) as [[|] w1]; [|done]. cbn in Hs1. destruct Hs1 as [Hu Ho].
  pose proof (save_member_fields_people c.1 (Some ADMIN) (Some false) w1) as Hs2. unfold same_people in Hs2.
  destruct (save_member_fields c.1 _ _ w1) as [[|] w2]; cbn in *; [|done]. destruct Hs2 as [-> ->]. done.
Qed.

(** The answer about a membership, whatever was written to it. *)
Lemma membership_answered A (m : M store A) i r role billing w :
  db_ok (s_db (w_db w)) → d_members (s_db (w_db w)) !! i = Some r → same_people A m w →
  ∃ out, OrgMemberSerializer (s_db (w_db (m w).2)) (i, member_set role billing r) = Ok out.
Proof.
  intros Hok Hr [Hu Ho]. destruct (member_serializes _ i r Hok Hr) as [out Hout]. revert Hout.
  unfold OrgMemberSerializer. cbn [fst snd member_set m_user m_org]. rewrite Hu, Ho.
  destruct (related _ _ "User"); cbn; [|done]. destruct (related _ _ "Org"); cbn; [|done]. by eexists.
Qed.

Lemma org_of_member d org user c : db_ok d → member_of d org user = Some c → ∃ row, related d.(d_orgs) org "Org" = Ok row.
Proof.
  intros Hok Hc. destruct c as [i m]. apply member_of_Some in Hc as (Hm & Ho & _).
  destruct (member_serializes d i m Hok Hm) as [out Hout]. revert Hout. unfold OrgMemberSerializer. cbn [fst snd].
  intros (u & _ & Hout)%outcome_bind_Ok. apply outcome_bind_Ok in Hout as (row & Hrow & _). exists row. by rewrite <- Ho.
Qed.

Lemma patch_org_refines user org b w : db_ok (s_db (w_db w)) → refines (PatchOrg user org b) w.
Proof.
  intros Hok. unfold refines. cbn [run_request]. unfold org_patch_request. rewrite bind_run, bind_run.
  destruct (get_org_and_member_cases user org (Some _ADMIN_OR_ABOVE) w) as [[e Hg]|(c & Hg & Hc & _)]; rewrite Hg; [by left; exists e|].
  destruct (org_of_member _ _ _ _ Hok Hc) as [row Hrow]. rewrite bind_run, answer_run, Hrow, lift_bind.
  destruct (UpdateOrgSerializer b) as [[name logo]|e]; [|by left; exists e]. right. exists (OpPatch user org name logo).
  cbn [OrgInvariant.run_op]. unfold org_patch. rewrite !bind_run, Hg. cbn [fst snd].
  by destruct (org_update org name logo w) as [[[]|] w1].
Qed.

Lemma assignable_role_in s r : assignable_role s = Ok r → role_in r _ASSIGNABLE_ROLES = true.
Proof.
  unfold assignable_role, role_in. intros Hr. apply bool_decide_eq_true.
  destruct (base.filter _ _ASSIGNABLE_ROLES) as [|x l] eqn:Hl; [done|]. injection Hr as ->.
  assert (r ∈ base.filter (λ r, role_value r = s) _ASSIGNABLE_ROLES) as Hin by (rewrite Hl; by left).
  by apply list_elem_of_filter in Hin as [_ Hin].
Qed.

Lemma patch_member_refines user org member b w : db_ok (s_db (w_db w)) → refines (PatchMember user org member b) w.
Proof.
  intros Hok. unfold refines. cbn [run_request]. unfold member_patch_request. rewrite bind_run, bind_run.
  destruct (get_org_and_member_cases user org (Some _ADMIN_OR_ABOVE) w) as [[e Hg]|(c & Hg & Hc & _)]; rewrite Hg; [by left; exists e|].
  rewrite bind_run, get_or_404_run. destruct (member_of _ org member) as [[i m]|] eqn:Ht; [|by left; eexists].
  rewrite lift_bind. cbn [snd]. destruct (check_can_manage_member _ _) as [[]|e] eqn:Hman; [|by left; exists e].
  rewrite lift_bind. destruct (UpdateMemberSerializer b) as [[role billing]|e] eqn:Hser; [|by left; exists e].
  right. exists (OpPatchMember user org member role billing). cbn [OrgInvariant.run_op]. unfold member_patch.
  rewrite !bind_run, Hg, bind_run, get_or_404_run, Ht, lift_bind. cbn [snd fst]. rewrite Hman.
  assert (match role with Some r => negb (role_in r _ASSIGNABLE_ROLES) | None => false end = false) as ->.
  { apply outcome_bind_Ok in Hser as (ro & Hro & Hser). apply outcome_bind_Ok in Hser as (x & _ & [= -> _]).
    destruct role as [r|]; [|done]. destruct (mb_role b) as [| |s]; [done..|]. apply outcome_bind_Ok in Hro as (r' & Hr' & [= <-]).
    by rewrite (assignable_role_in _ _ Hr'). }
  apply member_of_Some in Ht as (Hm & _).
  destruct (membership_answered unit (member_update c (i, m) role billing) i m role billing w Hok Hm (member_update_people _ _ _ _ _)) as [out Hout].
  destruct (member_update c (i, m) role billing w) as [[[]|e] w1]; [|done]. cbn [snd] in Hout. by rewrite answer_run, Hout.
Qed.

Lemma transfer_refines user org target w : db_ok (s_db (w_db w)) → refines (Transfer user org target) w.
Proof.
  intros Hok. unfold refines. cbn [run_request]. unfold transfer_request. rewrite bind_run, bind_run.
  destruct (get_org_and_member_cases user org (Some _OWNER_ONLY) w) as [[e Hg]|(c & Hg & Hc & _)]; rewrite Hg; [by left; exists e|].
  rewrite lift_bind. destruct (TransferOwnershipSerializer target) as [t|e]; [|by left; exists e].
  rewrite bind_run, get_or_404_run. destruct (member_of _ org t) as [[i m]|] eqn:Ht; [|by left; eexists].
  right. exists (OpTransfer user org t). cbn [OrgInvariant.run_op]. unfold transfer_ownership.
  rewrite !bind_run, Hg, bind_run, get_or_404_run, Ht. apply member_of_Some in Ht as (Hm & _).
  destruct (membership_answered unit (transfer_to c (i, m)) i m (Some OWNER) (Some true) w Hok Hm (transfer_people _ _ _)) as [out Hout].
  destruct (transfer_to c (i, m) w) as [[[]|e] w1]; [|done]. cbn [snd fst] in *. by rewrite bind_run, answer_run, Hout.
Qed.

Lemma invite_refines user org b w : db_ok (s_db (w_db w)) → refines (InviteTo user org b) w.
Proof.
  intros Hok. unfold refines. cbn [run_request]. unfold invitation_create_request. rewrite bind_run, bind_run.
  destruct (get_org_and_member_cases user org (Some _ADMIN_OR_ABOVE) w) as [[e Hg]|(c & Hg & Hc & _)]; rewrite Hg; [by left; exists e|].
  rewrite lift_bind. destruct (CreateInvitationSerializer b) as [[email role]|e] eqn:Hser; [|by left; exists e].
  right. exists (OpInvite user org email role). cbn [OrgInvariant.run_op fst snd]. unfold invitation_create. rewrite !bind_run, Hg.
  assert (role_in role _ASSIGNABLE_ROLES = true) as ->.
  { apply outcome_bind_Ok in Hser as (em & _ & Hser). apply outcome_bind_Ok in Hser as (ro & Hro & [= _ ->]).
    destruct (ib_role b) as [| |s]; [by injection Hro as <-|done|by apply assignable_role_in in Hro]. }
  cbn [negb]. rewrite bind_run. destruct (invite user org email role w) as [[[i inv]|e] w1] eqn:Hinv; [|done].
  apply invite_Ok in Hinv as (Hins & _). cbn [mret M_ret fst].
  assert (∃ out, InvitationSerializer (s_db (w_db w1)) (i, inv) = Ok out) as [out Hout].
  { apply invitation_serializes; [by eapply insert_invitation_ok|]. apply outcome_bind_Ok in Hins as (x & _ & Hs).
    apply outcome_bind_Ok in Hs as (t & Ht & [= <-]). apply tput_inv in Ht as (-> & _). apply lookup_insert_eq. }
  by rewrite bind_run, answer_run, Hout.
Qed.

(** An organisation outlives an acceptance. *)
Abbreviation keeps_org o := (preserves (λ w, is_Some (d_orgs (s_db (w_db w)) !! o))).

Lemma keeps_org_dexec o f :
  (∀ d d', f d = Ok d' → d_orgs d' = d_orgs d) → keeps_org o (dexec f).
Proof.
  intros Hf w Hw. rewrite dexec_run. destruct (f _) as [d|] eqn:Hd; [|exact Hw]. cbn. by rewrite (Hf _ _ Hd).
Qed.

Lemma accept_keeps_org o i inv name : keeps_org o (accept_invitation i inv name).
Proof.
  assert (∀ A (m : M store A), keeps_org o m → keeps_org o (atomic m)) as Hat.
  { intros A m Hm w Hw. specialize (Hm w Hw). unfold atomic. by destruct (m w) as [[|] w1]. }
  assert (∀ u, keeps_org o (invalidate_auth_user_cache u)) as Hcache by by intros u w Hw.
  apply Hat. apply preserves_bind.
  { apply preserves_bind; [apply preserves_query|]. intros [s|]; [|apply preserves_ret].
    apply preserves_bind; [apply preserves_query|]. intros n. case_match; [apply preserves_raise|apply preserves_ret]. }
  intros _. apply preserves_bind.
  { unfold create_user. case_match; [apply preserves_raise|].
    do 2 (apply preserves_bind; [by intros w Hw|intros ?]). apply preserves_bind; [by intros w Hw|intros ?].
    apply preserves_bind; [|intros _; apply preserves_bind; [apply Hcache|intros _; apply preserves_ret]].
    apply keeps_org_dexec. intros d d' (x & _ & Hs)%outcome_bind_Ok. by apply outcome_bind_Ok in Hs as (t & _ & [= <-]). }
  intros u. do 2 (apply preserves_bind; [by intros w Hw|intros ?]). apply preserves_bind.
  { apply keeps_org_dexec. intros d d' (x & _ & Hs)%outcome_bind_Ok. by apply outcome_bind_Ok in Hs as (t & _ & [= <-]). }
  intros _. apply preserves_bind.
  { apply keeps_org_dexec. intros d d'. case_match; [|done]. by intros (t & _ & [= <-])%outcome_bind_Ok. }
  intros _. apply preserves_bind; [|intros t; apply preserves_bind; [by intros w Hw|intros _; apply preserves_ret]].
  unfold create_email_verification_token, _create_one_time_token, fresh_token.
  apply preserves_bind; [apply preserves_bind; [by intros w Hw|intros ?; apply preserves_ret]|intros ?].
  do 2 (apply preserves_bind; [by intros w Hw|intros ?]). apply preserves_bind; [|intros _; apply preserves_ret].
  apply keeps_org_dexec. intros d d' (x & _ & Hs)%outcome_bind_Ok. by apply outcome_bind_Ok in Hs as (t' & _ & [= <-]).
Qed.

Lemma accept_invitation_org i inv name w u o w' : accept_invitation i inv name w = (Ok (u, o), w') → o = inv.(i_org).
Proof.
  intros Ha%atomic_Ok. apply bind_Ok_inv in Ha as (x & w1 & _ & Ha). do 5 (apply bind_Ok_inv in Ha as (? & ? & _ & Ha)).
  apply bind_Ok_inv in Ha as (? & ? & _ & Ha). apply bind_Ok_inv in Ha as (? & ? & _ & Ha). by injection Ha.
Qed.

Lemma accept_refines token full_name w : db_ok (s_db (w_db w)) → refines (Accept token full_name) w.
Proof.
  intros Hok. unfold refines. cbn [run_request]. unfold invitation_accept_request. rewrite bind_run, bind_run.
  destruct (acceptable_cases token w) as [_ Hacc]. destruct (acceptable_invitation token w) as [[[i inv]|e] w1] eqn:Hrun.
  2:{ right. exists (OpAccept token ""). cbn [OrgInvariant.run_op]. unfold invitation_accept. by rewrite bind_run, bind_run, Hrun. }
  destruct (Hacc _ _ eq_refl) as (-> & [Hi _]%tfind_Some & _). rewrite lift_bind.
  destruct (InvitationAcceptSerializer full_name) as [name|e] eqn:Hser; [|by left; exists e].
  right. exists (OpAccept token name). cbn [OrgInvariant.run_op]. unfold invitation_accept. rewrite !bind_run, Hrun.
  assert ((String.length name <? 3)%nat || (255 <? String.length name)%nat = false) as ->.
  { destruct full_name as [| |s]; [done..|]. apply CharField_between_Ok in Hser as (_ & _ & Hlen & _).
    rewrite orb_false_iff, !Nat.ltb_ge. lia. }
  unfold accept_or_conflict. cbn [fst snd] in *.
  pose proof (accept_keeps_org inv.(i_org) i inv name w) as Horg. unfold catch.
  destruct (accept_invitation i inv name w) as [[[u o]|e] w1] eqn:Ha; [|by destruct e].
  apply accept_invitation_org in Ha as ->. cbn [snd] in *.
  assert (is_Some (d_orgs (s_db (w_db w)) !! i_org inv)) as Ho.
  { destruct (invitation_serializes _ i inv Hok Hi) as [out Hout]. revert Hout. unfold InvitationSerializer, PublicInvitationSerializer, related.
    cbn [snd]. destruct (d_orgs _ !! i_org inv); [by eexists|done]. }
  destruct (Horg Ho) as [row Hrow]. cbn in Hrow. rewrite bind_run, answer_run. unfold related. by rewrite Hrow.
Qed.

(** C3. Every request of the organisation endpoints that writes, with its body and its
    answer, is refused and does nothing, or does what an operation of the state machine
    does, with the same outcome.  Its state is then reachable too, a removal's when the
    member owns no organisation: what is proved of the reachable states, one owner per
    organisation first of all, holds however the requests come. *)
Theorem org_requests_refine q w w' :
  org_inv (s_db (w_db w)) → OrgInvariant.reachable w w' →
  refines q w' ∧ (permitted q (s_db (w_db w')) → OrgInvariant.reachable w (run_request q w').2).
Proof.
  intros Hinv Hreach.
  assert (db_ok (s_db (w_db w'))) as Hok.
  { assert (org_inv (s_db (w_db w'))) as Hinv'; [|apply Hinv'].
    clear q. induction Hreach as [w|w1 w2 w3 Hstep _ IH]; [done|]. by apply IH, (org_step_keeps w1). }
  assert (refines q w') as Href.
  { destruct q; [by apply patch_org_refines|by apply patch_member_refines|by apply transfer_refines
      |by apply invite_refines|by apply accept_refines|right|right|right|right].
    - by exists (OpDelete user org).
    - done.
    - by exists (OpCancelInvite user org invitation).
    - by exists (OpDecline user token). }
  split; [done|]. intros Hper. destruct Href as [[e Hr]|Hr]; [by rewrite Hr|]. eapply rtc_r; [exact Hreach|].
  destruct q; try (destruct Hr as [op ->]; apply step_request). by apply step_remove_member.
Qed.
End Writes.
