(* ===== verification/CacheFacts.v ===== *)
(** * The cache of signed-in users

    [JWTAuthentication] serves users from a cache for up to a minute.  The
    signals keep the cache coherent with the database through every request of
    the model, each run to its response. *)

From S2P Require Import Prelude PyVal Effects Domain Relational Store StoreFacts Django Auth Repos.
From S2P Require Import AuthViews Repositories Gdpr Orgs Fields OrgViews Account.
From S2P Require Import RedirectUrls Profile Avatar Requests.
From S2P Require TokenFacts OrgInvariant.

#[local] Open Scope string_scope.

(** ** Coherence *)

(** Every cached snapshot, stale or not, is the active row of its user. *)
Definition coherent (s : store) : Prop :=
  map_Forall (λ k e, k = uuid_str e.1.1 ∧ (e.1.1 < 2 ^ 128)%N ∧
    s.(s_db).(d_users) !! e.1.1 = Some e.1.2 ∧ e.1.2.(u_is_active) = true) s.(s_cache).(c_auth).

(** With a bound on the entries, which a rollback needs: inside a transaction
    nothing is added to the cache. *)
Definition coherent_in (bound : option (gmap string (uuid * UserRow * datetime))) (s : store) : Prop :=
  coherent s ∧ ∀ c, bound = Some c → s.(s_cache).(c_auth) ⊆ c.

Abbreviation keeps_cache m := (∀ b, preserves (db_inv (coherent_in b)) m).
Abbreviation keeps_coherent := (preserves (db_inv coherent)).

Lemma keeps_coherent_of {A} (m : M store A) : keeps_cache m → keeps_coherent m.
Proof. intros Hm w Hw. by destruct (Hm None w) as [? _]. Qed.

(** The new state keeps the users of the entries it keeps. *)
Lemma coherent_in_sub b s s' :
  coherent_in b s → s'.(s_cache).(c_auth) ⊆ s.(s_cache).(c_auth) →
  (∀ k e, s'.(s_cache).(c_auth) !! k = Some e → k = uuid_str e.1.1 →
     s.(s_db).(d_users) !! e.1.1 = Some e.1.2 → s'.(s_db).(d_users) !! e.1.1 = Some e.1.2) →
  coherent_in b s'.
Proof.
  intros [Hc Hb] Hsub Hu. split; [|intros c Hbc; etrans; [exact Hsub|by apply Hb]].
  intros k e He. destruct (Hc k e) as (Hk & Hlt & Hrow & Ha); [by eapply lookup_weaken|]. eauto.
Qed.

Lemma keeps_cache_exec (f : store → outcome store) :
  (∀ s s', f s = Ok s' → s'.(s_cache).(c_auth) ⊆ s.(s_cache).(c_auth) ∧
     ∀ k e, s'.(s_cache).(c_auth) !! k = Some e → k = uuid_str e.1.1 →
       s.(s_db).(d_users) !! e.1.1 = Some e.1.2 → s'.(s_db).(d_users) !! e.1.1 = Some e.1.2) →
  keeps_cache (exec f).
Proof.
  intros Hf b. apply preserves_exec. intros s s' Hs [Hsub Hu]%Hf. by eapply coherent_in_sub.
Qed.

(** A write of one user's row, followed by the signal. *)
Lemma keeps_cache_write id (f : db → outcome db) :
  (∀ d d', f d = Ok d' → ∀ j, j ≠ id → d_users d' !! j = d_users d !! j) →
  keeps_cache (dexec f;; invalidate_auth_user_cache id).
Proof.
  intros Hf b w Hw. rewrite bind_run, dexec_run. destruct (f _) as [d'|] eqn:Hd; [|exact Hw].
  eapply coherent_in_sub; [exact Hw|apply delete_subseteq|].
  cbn. intros k e [Hne _]%lookup_delete_Some Hk Hu.
  rewrite (Hf _ _ Hd); [done|]. intros Heq. apply Hne. by rewrite Hk, Heq.
Qed.

Lemma keeps_cache_write_then {A} id (f : db → outcome db) (m : M store A) :
  (∀ d d', f d = Ok d' → ∀ j, j ≠ id → d_users d' !! j = d_users d !! j) → keeps_cache m →
  keeps_cache (dexec f;; invalidate_auth_user_cache id;; m).
Proof.
  intros Hf Hm b w Hw. pose proof (keeps_cache_write id f Hf b w Hw) as Hk. revert Hk.
  cbv beta. rewrite !bind_run, dexec_run. destruct (f _); [|done].
  intros Hk. rewrite bind_run. by apply Hm.
Qed.

Lemma keeps_cache_atomic {A} (m : M store A) : keeps_cache m → keeps_cache (atomic m).
Proof.
  intros Hm b w Hw. unfold atomic.
  destruct (Hm (Some (w_db w).(s_cache).(c_auth)) w) as [Hc Hsub]; [split; [apply Hw|by intros ? [= <-]]|].
  specialize (Hsub _ eq_refl).
  destruct (m w) as [[a|e] w']; cbn in *.
  - split; [exact Hc|]. intros c Hb. etrans; [exact Hsub|by apply Hw].
  - eapply coherent_in_sub; [exact Hw|exact Hsub|done].
Qed.

Lemma save_user_other i u d d' j : save_user i u d = Ok d' → j ≠ i → d_users d' !! j = d_users d !! j.
Proof.
  intros (t & Ht & [= <-])%outcome_bind_Ok Hj. apply tput_inv in Ht as (-> & _). cbn.
  by rewrite lookup_insert_ne.
Qed.

Section Facts.
  Context `{DjangoLib} `{AuthBackend} `{Secrets} `{JWT} `{StripeServer}.

Lemma keeps_cache_save_fields i f : keeps_cache (save_user_fields i f).
Proof.
  apply keeps_cache_write. intros d d' Hd j Hj. destruct (d_users d !! i); [|done].
  by eapply save_user_other.
Qed.

Lemma keeps_cache_create_user e p n a v r : keeps_cache (create_user e p n a v r).
Proof.
  intros b. unfold create_user. destruct (b_eq e ""); [apply preserves_raise|].
  apply preserves_bind; [apply preserves_uuid4|intros pk].
  apply preserves_bind; [apply preserves_uuid4|intros salt].
  apply preserves_bind; [apply preserves_utcnow|intros now].
  apply keeps_cache_write_then; [|intros ?; apply preserves_ret].
  intros d d' (x & _ & Hs)%outcome_bind_Ok j Hj. by eapply save_user_other.
Qed.

Lemma delete_users_rows p d : d_users (delete_users p d) = tfilter (λ i _, negb (p i)) (d_users d).
Proof. reflexivity. Qed.

Lemma foldr_delete_subseteq {A} (l : list (N * A)) (m : gmap string (uuid * UserRow * datetime)) :
  foldr (λ r m, delete (uuid_str r.1) m) m l ⊆ m.
Proof. induction l as [|x l IH]; [done|]. cbn. etrans; [apply delete_subseteq|exact IH]. Qed.

Lemma foldr_delete_gone {A} (l : list (N * A)) (m : gmap string (uuid * UserRow * datetime)) i a :
  (i, a) ∈ l → foldr (λ r m, delete (uuid_str r.1) m) m l !! uuid_str i = None.
Proof.
  induction l as [|x l IH]; [by intros ?%not_elem_of_nil|]. rewrite elem_of_cons. cbn.
  intros [<-|Hin]; [apply lookup_delete_eq|]. apply lookup_delete_None. right. by apply IH.
Qed.

Lemma delete_users_signals_sub p s :
  (delete_users_signals p s).(s_cache).(c_auth) ⊆ s.(s_cache).(c_auth) ∧
  ∀ k e, (delete_users_signals p s).(s_cache).(c_auth) !! k = Some e → k = uuid_str e.1.1 →
    s.(s_db).(d_users) !! e.1.1 = Some e.1.2 →
    (delete_users_signals p s).(s_db).(d_users) !! e.1.1 = Some e.1.2.
Proof.
  split; [apply foldr_delete_subseteq|]. intros k e He -> Hu. cbn. apply tfilter_lookup. split; [done|].
  destruct (p e.1.1) eqn:Hp; [|done]. exfalso.
  enough (c_auth (s_cache (delete_users_signals p s)) !! uuid_str e.1.1 = None) by congruence.
  apply (foldr_delete_gone _ _ _ e.1.2), elem_of_map_to_list, tfilter_lookup. done.
Qed.

Lemma keeps_cache_delete_users p : keeps_cache (delete_users_m p).
Proof. apply keeps_cache_exec. intros s s' [= <-]. apply delete_users_signals_sub. Qed.

Lemma keeps_cache_hard_delete u : keeps_cache (users_hard_delete u).
Proof. apply keeps_cache_exec. intros s s' [= <-]. apply delete_users_signals_sub. Qed.

(** ** Every request keeps the cache coherent *)

Lemma keeps_cache_invalidate i : keeps_cache (invalidate_auth_user_cache i).
Proof. apply keeps_cache_exec. intros s s' [= <-]. split; [apply delete_subseteq|done]. Qed.

#[export] Instance keeps_cache_closed : Closed (λ A m, keeps_cache m).
Proof.
  split.
  - intros A a b. apply preserves_ret.
  - intros A e b. apply preserves_raise.
  - intros A o b. apply preserves_lift.
  - intros A q b. apply preserves_query.
  - intros b. apply preserves_utcnow.
  - intros b. apply preserves_uuid4.
  - intros t b. apply preserves_delay.
  - intros server c b. apply preserves_stripe.
  - intros A B m f Hm Hf b. apply preserves_bind; [apply Hm|]. intros a. apply Hf.
  - intros A m h Hm Hh b. apply preserves_catch; [apply Hm|]. intros e. apply Hh.
  - intros A m. apply keeps_cache_atomic.
  - intros f Hf. apply keeps_cache_exec. intros s s' (Hu & Hc & _)%Hf. rewrite Hu, Hc. by split.
  - intros i f _. apply keeps_cache_save_fields.
  - apply keeps_cache_create_user.
  - apply keeps_cache_delete_users.
  - apply keeps_cache_invalidate.
Qed.

(** *** The authenticator *)

(** The tokens signed with the key are the access tokens of users. *)
Definition honest (header : string) : Prop :=
  ∀ token now payload, bearer_token header = Some token → jwt_decode now token = JwtOk payload →
    ∃ user u t, (user < 2 ^ 128)%N ∧ payload = JObj (access_claims user u t).

Lemma keeps_coherent_load user : (user < 2 ^ 128)%N → keeps_coherent (load_user (uuid_str user)).
Proof.
  intros Hu w Hw. unfold load_user, cache_user, dquery. munfold.
  destruct (cached_user _ _ _); [exact Hw|]. rewrite uuid_parse_str by done.
  destruct (d_users _ !! _) as [u|] eqn:Hrow; [|exact Hw].
  destruct (u_is_active u) eqn:Ha; [|exact Hw].
  intros k e. cbn. intros [[<- <-]|[_ He]]%lookup_insert_Some; [by split_and!|by apply Hw].
Qed.

(** The claims of an access token pass the checks of the authenticator. *)
Lemma accept_claims (user : uuid) (u : UserRow) (t : datetime) (w : world store) :
  (ty ← lift (get (JObj (access_claims user u t)) "type");
   if negb match ty with JStr t => b_eq t "access" | _ => false end
   then raise (AuthenticationFailed "invalid_token") else
   sub ← lift (get (JObj (access_claims user u t)) "sub");
   match sub with
   | JStr sub =>
       if b_eq sub "" then raise (AuthenticationFailed "invalid_token") else
       v ← load_user sub;
       raw ← lift (get_default (JObj (access_claims user u t)) "pwd_iat" (JNum 0));
       pwd_iat ← lift (if is_int raw then py_int raw else Ok 0%Z);
       if (pwd_iat <? pwd_stamp v.2)%Z
       then raise (AuthenticationFailed "token_revoked")
       else mret (Some v)
   | _ => raise (AuthenticationFailed "invalid_token")
   end) w =
  (v ← load_user (uuid_str user);
   if (pwd_stamp u <? pwd_stamp v.2)%Z
   then raise (AuthenticationFailed "token_revoked") else mret (Some v)) w.
Proof.
  rewrite lift_bind.
  change (get (JObj (access_claims user u t)) "type") with (Ok (JStr "access")).
  cbv beta iota. rewrite b_eq_refl. cbn [negb]. rewrite lift_bind.
  change (get (JObj (access_claims user u t)) "sub") with (Ok (JStr (uuid_str user))).
  cbv beta iota. rewrite (proj2 (b_eq_false _ _) (uuid_str_nonempty user)).
  rewrite !bind_run. destruct (load_user _ w) as [[v|] w1]; reflexivity.
Qed.

Lemma keeps_coherent_authenticate header : honest header → keeps_coherent (authenticate header).
Proof.
  intros Hh. unfold authenticate. destruct (bearer_token header) as [token|] eqn:Hb; [|apply preserves_ret].
  apply preserves_bind; [apply preserves_utcnow|intros now].
  destruct (jwt_decode now token) as [payload| |] eqn:Hp; [|apply preserves_raise..].
  destruct (Hh _ _ _ Hb Hp) as (user & u & t & Hu & ->).
  pose proof (keeps_coherent_load user Hu) as Hl. intros w Hw. rewrite accept_claims.
  revert w Hw. apply preserves_bind; [exact Hl|]. intros v. case_match; [apply preserves_raise|apply preserves_ret].
Qed.

Lemma keeps_coherent_require header : honest header → keeps_coherent (require_user header).
Proof.
  intros Hh. apply preserves_bind; [by apply keeps_coherent_authenticate|].
  intros []; [apply preserves_ret|apply preserves_raise].
Qed.

(** The user it returns is the one of the database. *)
Definition row_or_error (w : world store) (r : outcome (option (uuid * UserRow)) * world store) : Prop :=
  match r with
  | (Ok (Some (user, u)), w1) =>
      s_db (w_db w1) = s_db (w_db w) ∧ d_users (s_db (w_db w)) !! user = Some u ∧ u.(u_is_active) = true
  | _ => True
  end.

Lemma load_user_row user w :
  coherent (w_db w) → (user < 2 ^ 128)%N →
  match load_user (uuid_str user) w with
  | (Ok (i, u), w1) =>
      s_db (w_db w1) = s_db (w_db w) ∧ d_users (s_db (w_db w)) !! i = Some u ∧ u.(u_is_active) = true
  | _ => True
  end.
Proof.
  intros Hw Hu. unfold load_user, cache_user, cached_user, dquery. munfold.
  destruct (c_auth _ !! _) as [[[i u] x]|] eqn:Hc.
  - destruct (Hw _ _ Hc) as (_ & _ & Hrow & Ha). destruct (_ <? _)%Z; [done|].
    rewrite uuid_parse_str by done. destruct (d_users _ !! user) as [u'|] eqn:Hr; [|done].
    by destruct (u_is_active u') eqn:Ha'.
  - rewrite uuid_parse_str by done. destruct (d_users _ !! user) as [u'|] eqn:Hr; [|done].
    by destruct (u_is_active u') eqn:Ha'.
Qed.

Lemma authenticated_row header w :
  coherent (w_db w) → honest header → row_or_error w (authenticate header w).
Proof.
  intros Hw Hh. unfold authenticate. destruct (bearer_token header) as [token|] eqn:Hb; [|done].
  rewrite bind_run. cbn [utcnow]. unfold utcnow.
  destruct (jwt_decode _ token) as [payload| |] eqn:Hp; [|done..].
  destruct (Hh _ _ _ Hb Hp) as (user & u & t & Hu & ->). rewrite accept_claims, bind_run.
  pose proof (load_user_row user w Hw Hu) as Hl. destruct (load_user _ w) as [[[i v]|] w1]; [|done].
  cbn [snd]. by destruct (_ <? _)%Z.
Qed.

(** *** The endpoints *)

(** The header an operation authenticates with. *)
Definition honest_op (op : TokenFacts.auth_op) : Prop :=
  match op with
  | TokenFacts.OpLogout h _ | TokenFacts.OpChangePassword h _ _ => honest h
  | _ => True
  end.

Lemma keeps_coherent_auth op : honest_op op → keeps_coherent (TokenFacts.run_op op).
Proof.
  intros Hop. apply (k_auth (λ A m, keeps_cache m) (λ A m, keeps_coherent m)).
  - intros A m. apply keeps_coherent_of.
  - intros A B m f Hm Hf. apply preserves_bind; [exact Hm|]. intros a. by apply keeps_coherent_of.
  - destruct op; try done; by apply keeps_coherent_require.
Qed.

Lemma keeps_coherent_org op : keeps_coherent (OrgInvariant.run_op op).
Proof. apply keeps_coherent_of, (k_org (λ A m, keeps_cache m)). Qed.

Lemma keeps_coherent_member_delete u o t : keeps_coherent (member_delete u o t).
Proof. apply keeps_coherent_of, (k_member_delete (λ A m, keeps_cache m)). Qed.

Lemma keeps_coherent_account_delete u : keeps_coherent (account_delete u).
Proof. apply keeps_coherent_of, (k_account_delete (λ A m, keeps_cache m)). Qed.

(** *** Profiles and avatars *)

Section Account.
  Context `{TimeZones} `{Pillow} `{Storage} `{RequestHost} `{IPLiterals} `{ImageField}.

Lemma keeps_coherent_patch u body : keeps_coherent (account_patch u body).
Proof.
  apply keeps_coherent_of. intros b. unfold account_patch, user_with_providers, objects_get.
  repeat first [apply keeps_cache_save_fields | apply preserves_bind; [|intros ?] | apply preserves_lift
    | apply preserves_query | apply preserves_utcnow | apply preserves_ret | apply preserves_raise | case_match].
Qed.

Lemma keeps_cache_media {A} (f : gmap string string → outcome (A * gmap string string)) : keeps_cache (on_media f).
Proof. intros b w Hw. unfold on_media. destruct (f _) as [[a m]|e]; exact Hw. Qed.

Lemma keeps_cache_delete_avatar url : keeps_cache (_delete_local_avatar url).
Proof.
  intros b. unfold _delete_local_avatar.
  repeat first [apply preserves_bind; [|intros ?] | apply preserves_lift | apply preserves_ret
    | apply keeps_cache_media | case_match].
Qed.

Lemma keeps_coherent_avatar_post u row f : keeps_coherent (avatar_post u row f).
Proof.
  apply keeps_coherent_of. intros b. unfold avatar_post, process_and_save_avatar.
  repeat first [apply keeps_cache_save_fields | apply keeps_cache_delete_avatar | apply keeps_cache_media
    | apply preserves_bind; [|intros ?] | apply preserves_lift | apply preserves_uuid4
    | apply preserves_utcnow | apply preserves_ret].
Qed.

Lemma keeps_coherent_avatar_delete u row : keeps_coherent (avatar_delete u row).
Proof.
  apply keeps_coherent_of. intros b. unfold avatar_delete.
  apply preserves_bind; [apply keeps_cache_delete_avatar|intros _].
  apply preserves_bind; [apply preserves_utcnow|intros now]. apply keeps_cache_save_fields.
Qed.

(** ** The machine *)

(** A request runs to its response; time passes in between.  The steps are the requests of
    the API that write users, tokens, organisations or files (those of billing write none
    of a user's columns); what an administrator edits through Django's admin is no step. *)
Inductive step : world store → world store → Prop :=
  | step_auth op w : honest_op op → step w (TokenFacts.run_op op w).2
  | step_org op w : step w (OrgInvariant.run_op op w).2
  | step_member_delete user org target w : step w (member_delete user org target w).2
  | step_account_delete user w : step w (account_delete user w).2
  | step_account_patch user body w : step w (account_patch user body w).2
  | step_avatar_post user u file w : step w (avatar_post user u file w).2
  | step_avatar_delete user u w : step w (avatar_delete user u w).2
  | step_authenticate header w : honest header → step w (authenticate header w).2
  | step_time t w : step w (set_now t w).

Definition reachable : world store → world store → Prop := rtc step.

(** ** Properties *)

(** C28. The cache never serves a stale user: whatever requests are made to the
    authentication, organisation, account, profile and avatar endpoints, in whatever order and
    with whatever outcome, each cached snapshot is the current row of an active
    user; so a request that authenticates gets the user the database has. *)
Theorem auth_cache_coherent w w' :
  coherent (w_db w) → reachable w w' →
  coherent (w_db w') ∧
  ∀ header, honest header →
    match authenticate header w' with
    | (Ok (Some (user, u)), w1) =>
        s_db (w_db w1) = s_db (w_db w') ∧ d_users (s_db (w_db w')) !! user = Some u ∧
        u.(u_is_active) = true
    | _ => True
    end.
Proof.
  intros Hw Hr. assert (coherent (w_db w')) as Hw'.
  { induction Hr as [w|w1 w2 w3 Hstep _ IH]; [done|]. apply IH. destruct Hstep; [..|exact Hw].
    - by apply keeps_coherent_auth.
    - by apply keeps_coherent_org.
    - by apply keeps_coherent_member_delete.
    - by apply keeps_coherent_account_delete.
    - by apply keeps_coherent_patch.
    - by apply keeps_coherent_avatar_post.
    - by apply keeps_coherent_avatar_delete.
    - by apply keeps_coherent_authenticate. }
  split; [done|]. intros header Hh. apply (authenticated_row header w' Hw' Hh).
Qed.
End Account.
End Facts.
