(* ===== verification/ProfileFacts.v ===== *)
(** * Profiles keep to the reference data

    What a PATCH of the account does, which values it accepts, and the invariant it and
    every other request keep: the stored profiles name supported values only. *)

From S2P Require Import Prelude PyVal Effects Domain Relational Store StoreFacts Django Auth.
From S2P Require Import Fields AuthViews Currency RedirectUrls Profile Avatar Requests CacheFacts.
From S2P Require TokenFacts OrgInvariant.

#[local] Open Scope string_scope.
#[local] Open Scope list_scope.

(** ** Specification *)

(** The row of [user] is [u], the rest of the database is that of [d]. *)
Definition with_row (user : uuid) (u : UserRow) (d : db) : db := set_users (<[user := u]> d.(d_users)) d.

(** A stored phone is a supported prefix with a number, or nothing. *)
Definition phone_supported (prefix number : option string) : Prop :=
  match prefix, number with
  | Some p, Some n => p ∈ SUPPORTED_PHONE_PREFIXES.*1 ∧ (4 <= String.length n <= 15)%nat
  | None, None => True
  | _, _ => False
  end.

Section Facts.
  Context `{TimeZones}.

Definition profile_supported (u : UserRow) : Prop :=
  u.(u_preferred_locale) ∈ SUPPORTED_LOCALES ∧ u.(u_preferred_currency) ∈ SUPPORTED_CURRENCIES ∧
  phone_supported u.(u_phone_prefix) u.(u_phone) ∧
  match u.(u_timezone) with Some z => z ∈ available_timezones | None => True end.

Definition profiles_supported (s : store) : Prop := map_Forall (λ _ u, profile_supported u) s.(s_db).(d_users).

(** ** Lemmas on the serializer *)

Lemma validate_in_set_Ok allowed s t : _validate_in_set allowed s = Ok t → t = s ∧ s ∈ allowed.
Proof. unfold _validate_in_set. destruct (str_in s allowed) eqn:Hs; [|done]. intros [= <-]. by apply str_in_true in Hs. Qed.

Lemma optional_Ok {A B} (v : A → outcome B) a b : optional v a = Ok (Some b) → ∃ x, a = Given x ∧ v x = Ok b.
Proof. destruct a as [| |x]; [done..|]. intros (b' & Hb & [= ->])%outcome_bind_Ok. by exists x. Qed.

Lemma optional_null_Ok {A B} (v : A → outcome B) a b :
  optional_null v a = Ok (Some (Some b)) → ∃ x, a = Given x ∧ v x = Ok b.
Proof. destruct a as [| |x]; [done..|]. intros (b' & Hb & [= ->])%outcome_bind_Ok. by exists x. Qed.

Lemma in_set_field n allowed x b :
  (s ← CharField n x; _validate_in_set allowed s) = Ok b → b ∈ allowed.
Proof. intros (s & _ & [-> Hs]%validate_in_set_Ok)%outcome_bind_Ok. done. Qed.

Lemma PhoneWriteSerializer_Ok p r :
  _PhoneWriteSerializer p = Ok r → phone_supported (Some r.1) (Some r.2).
Proof.
  intros (prefix & Hp & Hr)%outcome_bind_Ok. apply outcome_bind_Ok in Hr as (number & Hn & [= <-]). cbn.
  split.
  - destruct (ph_prefix p); [done..|]. by apply in_set_field in Hp.
  - destruct (ph_number p); [done..|]. apply CharField_between_Ok in Hn. tauto.
Qed.

(** The update leaves a supported profile supported. *)
Lemma set_columns_supported b data u :
  UpdateUserSerializer b = Ok data → profile_supported u → profile_supported (set_columns data u).
Proof.
  unfold UpdateUserSerializer. intros Hs (Hl & Hc & Hp & Hz).
  repeat (apply outcome_bind_Ok in Hs as (? & ? & Hs)). injection Hs as <-.
  unfold profile_supported. cbn. split_and!.
  - destruct x0 as [l|]; [|done]. apply optional_Ok in H1 as (s & _ & Hs). by apply in_set_field in Hs.
  - destruct x1 as [l|]; [|done]. apply optional_Ok in H2 as (s & _ & Hs). by apply in_set_field in Hs.
  - destruct x2 as [[p|]|]; [|done|exact Hp]. apply optional_null_Ok in H3 as (s & _ & Hs).
    by apply PhoneWriteSerializer_Ok in Hs.
  - destruct x3 as [[z|]|]; [|done|exact Hz]. apply optional_null_Ok in H4 as (s & _ & Hs). by apply in_set_field in Hs.
Qed.

Lemma serializer_refuses b e : UpdateUserSerializer b = Raise e → e = ValidationError.
Proof.
  assert (∀ lo hi s e, CharField_between lo hi s = Raise e → e = ValidationError) as Hc
    by (intros lo hi s e' Hs; unfold CharField_between in Hs; case_match; congruence).
  assert (∀ l s e, _validate_in_set l s = Raise e → e = ValidationError) as Hv
    by (intros l s e' Hs; unfold _validate_in_set in Hs; case_match; congruence).
  assert (∀ n l s e, (s ← CharField n s; _validate_in_set l s) = Raise e → e = ValidationError) as Hcv
    by (intros n l s e' [Hs|(s' & _ & Hs)]%outcome_bind_Raise; eauto).
  assert (∀ A B (v : A → outcome B) a e, (∀ x e, v x = Raise e → e = ValidationError) →
    (optional v a = Raise e → e = ValidationError) ∧ (optional_null v a = Raise e → e = ValidationError) ∧
    (required v a = Raise e → e = ValidationError)) as Ho.
  { intros A B v a e' Hx. destruct a as [| |x]; cbn; split_and!; try congruence.
    1,2: intros [?|(? & _ & ?)]%outcome_bind_Raise; [by eapply Hx|done]. apply Hx. }
  assert (∀ p e, _PhoneWriteSerializer p = Raise e → e = ValidationError) as Hp.
  { intros p e' [Hs|(x & _ & [Hs|(y & _ & Hs)]%outcome_bind_Raise)]%outcome_bind_Raise; [| |done].
    - eapply (Ho _ _ (λ s, s ← CharField 5 s; validate_prefix s)); [|exact Hs]. intros y e2. apply Hcv.
    - eapply (Ho _ _ (CharField_between 4 15)); [|exact Hs]. apply Hc. }
  unfold UpdateUserSerializer.
  repeat (intros [Hs|(? & _ & Hs)]%outcome_bind_Raise; [eapply Ho in Hs; [exact Hs|by eauto]|revert Hs]).
  done.
Qed.

(** What the serializer lets through fits the columns. *)
Lemma CharField_fits n s t : CharField n s = Ok t → varchar n t = true.
Proof. intros (_ & _ & Hlen & _)%CharField_between_Ok. unfold varchar. apply Nat.leb_le. lia. Qed.

Lemma in_set_fits n l s t : (s ← CharField n s; _validate_in_set l s) = Ok t → varchar n t = true.
Proof. intros (x & Hx & [-> _]%validate_in_set_Ok)%outcome_bind_Ok. by eapply CharField_fits. Qed.

Lemma optional_fits {A} n (v : A → outcome string) a o d :
  (∀ x t, v x = Ok t → varchar n t = true) → optional v a = Ok o → varchar n d = true → varchar n (or_else o d) = true.
Proof. intros Hv Ha Hd. destruct o as [t|]; [|done]. apply optional_Ok in Ha as (x & _ & Hx). by eapply Hv. Qed.

Lemma optional_null_fits {A} n (v : A → outcome string) a o d :
  (∀ x t, v x = Ok t → varchar n t = true) → optional_null v a = Ok o → varchar_opt n d = true →
  varchar_opt n (or_else o d) = true.
Proof.
  intros Hv Ha Hd. destruct o as [[t|]|]; [|done|done]. apply optional_null_Ok in Ha as (x & _ & Hx). by eapply Hv.
Qed.

Lemma set_columns_fits b data u now :
  UpdateUserSerializer b = Ok data → sc_fits user_schema u = true →
  sc_fits user_schema (with_updated_at now (set_columns data u)) = true.
Proof.
  unfold UpdateUserSerializer. intros Hs Hu.
  apply outcome_bind_Ok in Hs as (name & Hname & Hs). apply outcome_bind_Ok in Hs as (locale & Hlocale & Hs).
  apply outcome_bind_Ok in Hs as (cur & Hcur & Hs). apply outcome_bind_Ok in Hs as (phone & Hphone & Hs).
  apply outcome_bind_Ok in Hs as (tz & Htz & Hs). apply outcome_bind_Ok in Hs as (job & Hjob & Hs).
  apply outcome_bind_Ok in Hs as (pro & Hpro & Hs). apply outcome_bind_Ok in Hs as (bio & Hbio & Hs).
  injection Hs as <-. cbn -[varchar varchar_opt] in *. rewrite !andb_true_iff in *.
  destruct Hu as [[[[[[[[He Hn] Hl] Hc] Hpp] Hp] Ht] Hj] Hpr]. split_and!; [done|..].
  - eapply optional_fits; [|exact Hname|done]. intros x t (_ & _ & Hlen & _)%CharField_between_Ok.
    apply Nat.leb_le. lia.
  - eapply optional_fits; [|exact Hlocale|done]. intros x t. apply in_set_fits.
  - eapply optional_fits; [|exact Hcur|done]. intros x t. apply in_set_fits.
  - destruct phone as [[[p n]|]|]; [|done|done]. apply optional_null_Ok in Hphone as (x & _ & Hx).
    apply outcome_bind_Ok in Hx as (p' & Hp' & Hx). apply outcome_bind_Ok in Hx as (n' & Hn' & [= <- <-]).
    destruct (ph_prefix x); [done..|]. by apply in_set_fits in Hp'.
  - destruct phone as [[[p n]|]|]; [|done|done]. apply optional_null_Ok in Hphone as (x & _ & Hx).
    apply PhoneWriteSerializer_Ok in Hx as [_ Hlen]. apply Nat.leb_le. cbn in *. lia.
  - eapply optional_null_fits; [|exact Htz|done]. intros x t. apply in_set_fits.
  - eapply optional_null_fits; [|exact Hjob|done]. intros x t. apply CharField_fits.
  - eapply optional_null_fits; [|exact Hpro|done]. intros x t. apply CharField_fits.
Qed.

(** Saving the updated row succeeds. *)
Lemma save_updated user u v d :
  db_ok d → d.(d_users) !! user = Some u → u_email v = u_email u → sc_fits user_schema v = true →
  save_user user v d = Ok (with_row user v d).
Proof.
  intros Hok Hu Hemail Hfits. assert (table_ok user_schema (has d) d.(d_users)) as [_ Huniq] by (unfold db_ok in Hok; tauto).
  apply Forall_cons in Huniq as [Hu1 [Hu2 _]%Forall_cons].
  unfold save_user. rewrite tput_Ok; [done| |].
  - unfold row_ok. by rewrite Hfits.
  - repeat constructor; eapply conflict_free_same; try done; cbn; by rewrite Hemail.
Qed.

(** A PATCH of the account sets the columns its body names on the caller's row, and
    its [updated_at], and nothing else in the database; an empty body writes nothing;
    the answer is what a GET answers from then on. It fails, changing nothing, only on a
    body that is not valid or for a user that is gone: a valid body is always stored. *)
Theorem account_patch_spec user body w :
  store_ok (w_db w) →
  match account_patch user body w with
  | (Ok out, w1) =>
      ∃ data u, UpdateUserSerializer body = Ok data ∧ d_users (s_db (w_db w)) !! user = Some u ∧
        let u1 := if empty_update data then u else with_updated_at (w_now w) (set_columns data u) in
        s_db (w_db w1) = with_row user u1 (s_db (w_db w)) ∧ store_ok (w_db w1) ∧
        out = UserSerializer user u1 (get_linked_providers user (s_db (w_db w))) ∧
        account_get user w1 = (Ok out, w1)
  | (Raise e, w1) =>
      w1 = w ∧ (UpdateUserSerializer body = Raise ValidationError ∧ e = ValidationError ∨
                d_users (s_db (w_db w)) !! user = None)
  end.
Proof.
  intros Hok. unfold account_patch. rewrite lift_bind.
  destruct (UpdateUserSerializer body) as [data|e] eqn:Hser;
    [|apply serializer_refuses in Hser as He; subst e; split; [done|by left]].
  unfold user_with_providers, objects_get, dquery. rewrite !bind_run. cbn [query].
  destruct (d_users (s_db (w_db w)) !! user) as [u|] eqn:Hu; [|by split; [|right]].
  cbn [mret M_ret fst snd]. rewrite bind_run. cbn [query mret M_ret].
  destruct (empty_update data) eqn:Hempty.
  - cbn. exists data, u. rewrite Hempty. split_and!; [done|done| |done|done|].
    + unfold with_row. rewrite insert_id by done. by destruct (s_db (w_db w)).
    + unfold account_get, user_with_providers, objects_get, dquery. rewrite !bind_run. cbn [query]. by rewrite Hu.
  - cbn [fst snd]. rewrite bind_run. cbn [utcnow]. rewrite bind_run. unfold save_user_fields.
    rewrite bind_run, dexec_run, Hu.
    assert (sc_fits user_schema u = true) as Hfits.
    { assert (table_ok user_schema (has (s_db (w_db w))) (d_users (s_db (w_db w)))) as [Hrows _]
        by (unfold store_ok, db_ok in Hok; tauto).
      pose proof (Hrows user u Hu) as Hrow. unfold row_ok in Hrow. rewrite !andb_true_iff in Hrow. tauto. }
    pose proof (set_columns_fits _ _ _ (w_now w) Hser Hfits) as Hfits1.
    assert (save_user user (with_updated_at (w_now w) (set_columns data u)) (s_db (w_db w)) =
      Ok (with_row user (with_updated_at (w_now w) (set_columns data u)) (s_db (w_db w)))) as Hsave
      by (by eapply save_updated).
    rewrite Hsave. pose proof (save_user_ok _ _ _ _ Hok Hsave) as Hok1. cbn.
    exists data, u. rewrite Hempty. split_and!; [done..|].
    unfold account_get, user_with_providers, objects_get, dquery. rewrite !bind_run. cbn.
    rewrite lookup_insert_eq. cbn. done.
Qed.

(** ** The reference lists *)

Definition only_locale (s : string) : ProfileBody :=
  mkProfileBody Absent (Given s) Absent Absent Absent Absent Absent Absent.
Definition only_currency (s : string) : ProfileBody :=
  mkProfileBody Absent Absent (Given s) Absent Absent Absent Absent Absent.
Definition only_phone (number prefix : string) : ProfileBody :=
  mkProfileBody Absent Absent Absent (Given (mkPhoneBody (Given prefix) (Given number))) Absent Absent Absent Absent.
Definition only_timezone (s : string) : ProfileBody :=
  mkProfileBody Absent Absent Absent Absent (Given s) Absent Absent Absent.

(** A PATCH with this value stores it. *)
Definition stores (body : string → ProfileBody) (column : ProfileUpdate → option string) (s : string) : Prop :=
  ∃ data, UpdateUserSerializer (body s) = Ok data ∧ column data = Some s.

Definition clean_field (n : nat) (s : string) : bool :=
  match CharField n s with Ok t => b_eq t s | Raise _ => false end.

Lemma clean_field_Ok n s : clean_field n s = true → CharField n s = Ok s.
Proof. unfold clean_field. destruct (CharField n s) as [t|]; [|done]. intros Ht. rewrite b_eq_true in Ht. by subst. Qed.

Lemma in_set_clean n allowed s :
  Forall (λ t, clean_field n t = true) allowed → s ∈ allowed →
  (t ← CharField n s; _validate_in_set allowed t) = Ok s.
Proof.
  rewrite Forall_forall. intros Hc Hs. rewrite (clean_field_Ok n s) by auto. cbn. unfold _validate_in_set.
  by rewrite (proj2 (str_in_true _ _) Hs).
Qed.

Lemma locales_clean : Forall (λ t, clean_field 10 t = true) SUPPORTED_LOCALES.
Proof. apply (bool_decide_unpack _). vm_compute. exact I. Qed.
Lemma currencies_clean : Forall (λ t, clean_field 3 t = true) SUPPORTED_CURRENCIES.
Proof. apply (bool_decide_unpack _). vm_compute. exact I. Qed.
Lemma prefixes_clean : Forall (λ t, clean_field 5 t = true) SUPPORTED_PHONE_PREFIXES.*1.
Proof. apply (bool_decide_unpack _). vm_compute. exact I. Qed.

(** The prefixes in order, with their codes. *)
Definition listed_prefixes : list (string * string) :=
  match _PHONE_PREFIXES with Ok l => l | Raise _ => [] end.
Definition listed_codes : list Z :=
  match with_keys sort_prefix_key listed_prefixes with Ok r => r.*1 | Raise _ => [] end.

Lemma prefixes_listed : _PHONE_PREFIXES = Ok listed_prefixes ∧ StronglySorted Z.lt listed_codes ∧
  length listed_codes = length SUPPORTED_PHONE_PREFIXES.
Proof. split_and!; [vm_compute; reflexivity| |vm_compute; reflexivity]. apply (bool_decide_unpack _). vm_compute. exact I. Qed.

(** The public lists and the profile agree: a PATCH stores a locale, a currency, a
    time zone or, with a valid number, a phone prefix exactly when the endpoint that
    lists them names it; and the phone prefixes are listed each once, in the order of
    their calling codes. *)
Theorem reference_lists_accepted number :
  CharField_between 4 15 number = Ok number →
  Forall (λ z, clean_field 50 z = true) available_timezones →
  (∀ s, s ∈ _LOCALES ↔ stores only_locale up_preferred_locale s) ∧
  (∀ s, s ∈ _CURRENCIES ↔ stores only_currency up_preferred_currency s) ∧
  (∀ s, s ∈ _TIMEZONES ↔ stores only_timezone (λ d, mjoin d.(up_timezone)) s) ∧
  _PHONE_PREFIXES = Ok listed_prefixes ∧ StronglySorted Z.lt listed_codes ∧
  length listed_codes = length SUPPORTED_PHONE_PREFIXES ∧
  (∀ s, s ∈ listed_prefixes.*1 ↔ stores (only_phone number) (λ d, mjoin d.(up_phone_prefix)) s).
Proof.
  intros Hnumber Hzones. destruct prefixes_listed as (Hl & Hsorted & Hlen).
  split_and!; [| | |done|done|done|]; intros s.
  - unfold _LOCALES. rewrite sorted_strings_elem. split.
    + intros Hs. eexists. unfold UpdateUserSerializer. cbn [optional only_locale pb_preferred_locale].
      rewrite (in_set_clean 10 _ _ locales_clean Hs). by split.
    + intros (data & (x & _ & Hr)%outcome_bind_Ok & Hcol). apply outcome_bind_Ok in Hr as (l & Hlo & Hr).
      cbn in Hr. injection Hr as <-. cbn in Hcol. subst l. apply optional_Ok in Hlo as (y & _ & Hy).
      by apply in_set_field in Hy.
  - unfold _CURRENCIES. rewrite sorted_strings_elem. split.
    + intros Hs. eexists. unfold UpdateUserSerializer. cbn [optional only_currency pb_preferred_currency].
      rewrite (in_set_clean 3 _ _ currencies_clean Hs). by split.
    + intros (data & Hr & Hcol). unfold UpdateUserSerializer in Hr.
      apply outcome_bind_Ok in Hr as (n & _ & Hr). apply outcome_bind_Ok in Hr as (l & _ & Hr).
      apply outcome_bind_Ok in Hr as (c & Hc & Hr). cbn in Hr. injection Hr as <-. cbn in Hcol. subst c.
      apply optional_Ok in Hc as (y & _ & Hy). by apply in_set_field in Hy.
  - unfold _TIMEZONES. rewrite sorted_strings_elem. split.
    + intros Hs. eexists. unfold UpdateUserSerializer, validate_timezone. cbn [optional optional_null only_timezone pb_timezone].
      rewrite (in_set_clean 50) by done. by split.
    + intros (data & Hr & Hcol). unfold UpdateUserSerializer in Hr.
      apply outcome_bind_Ok in Hr as (n & _ & Hr). apply outcome_bind_Ok in Hr as (l & _ & Hr).
      apply outcome_bind_Ok in Hr as (c & _ & Hr). apply outcome_bind_Ok in Hr as (p & _ & Hr).
      apply outcome_bind_Ok in Hr as (z & Hz & Hr). cbn in Hr. injection Hr as <-. cbn in Hcol.
      destruct z as [[z|]|]; [|done..]. injection Hcol as ->. apply optional_null_Ok in Hz as (y & _ & Hy).
      by apply in_set_field in Hy.
  - assert (s ∈ listed_prefixes.*1 ↔ s ∈ SUPPORTED_PHONE_PREFIXES.*1) as ->
      by (by rewrite (sorted_by_Permutation _ _ _ Hl)).
    split.
    + intros Hs. eexists. unfold UpdateUserSerializer, _PhoneWriteSerializer, validate_prefix.
      cbn [optional optional_null required only_phone pb_phone ph_prefix ph_number].
      rewrite (in_set_clean 5 _ _ prefixes_clean Hs). rewrite Hnumber. by split.
    + intros (data & Hr & Hcol). unfold UpdateUserSerializer in Hr.
      apply outcome_bind_Ok in Hr as (n & _ & Hr). apply outcome_bind_Ok in Hr as (l & _ & Hr).
      apply outcome_bind_Ok in Hr as (c & _ & Hr). apply outcome_bind_Ok in Hr as (p & Hp & Hr).
      cbn in Hr. injection Hr as <-. cbn in Hcol.
      destruct p as [[p|]|]; [|done..]. injection Hcol as <-. apply optional_null_Ok in Hp as (y & _ & Hy).
      by apply PhoneWriteSerializer_Ok in Hy as [? _].
Qed.

(** ** The invariant *)

Definition supported_users (t : table UserRow) : Prop := map_Forall (λ _ u, profile_supported u) t.

Lemma credentials_supported f u : credentials_only f → profile_supported u → profile_supported (f u).
Proof.
  intros Hf. specialize (Hf u). destruct (f u), u. injection Hf. intros. by subst.
Qed.

#[export] Instance supported_users_invariant : UsersInvariant supported_users.
Proof.
  split.
  - intros i u f t Hf Hu Ht. apply map_Forall_insert_2; [|done]. apply credentials_supported; [done|]. by apply (Ht i).
  - intros i email name avatar verified method hash now t Ht. apply map_Forall_insert_2; [|done].
    split_and!; cbn; [by left|by left|done|done].
  - intros p t Ht i u [Hi _]%tfilter_lookup. by apply (Ht i).
Qed.

Lemma patch_keeps_supported user body : preserves (db_inv profiles_supported) (account_patch user body).
Proof.
  intros w Hw. unfold account_patch. rewrite lift_bind. destruct (UpdateUserSerializer body) as [data|] eqn:Hser; [|done].
  unfold user_with_providers, objects_get, dquery. rewrite !bind_run. cbn [query].
  destruct (d_users (s_db (w_db w)) !! user) as [u|] eqn:Hu; [|done].
  cbn [mret M_ret fst snd]. rewrite bind_run. cbn [query mret M_ret]. destruct (empty_update data); [done|].
  cbn [fst snd]. rewrite bind_run. cbn [utcnow]. rewrite bind_run. unfold save_user_fields.
  rewrite bind_run, dexec_run, Hu. destruct (save_user _ _ _) as [d|e] eqn:Hs; [|done].
  apply outcome_bind_Ok in Hs as (t & (-> & _)%tput_inv & [= <-]). cbn. apply map_Forall_insert_2; [|done].
  apply (set_columns_supported body data u Hser). by apply (Hw user).
Qed.

Section Machine.
  Context `{DjangoLib} `{AuthBackend} `{Secrets} `{JWT} `{StripeServer}.
  Context `{Pillow} `{Storage} `{RequestHost} `{IPLiterals} `{ImageField}.

Lemma keeps_supported_of {A} (m : M store A) :
  keeps_users supported_users A m → preserves (db_inv profiles_supported) m.
Proof. intros Hm w Hw. apply (Hm _ w (conj eq_refl Hw)). Qed.

Lemma avatar_keeps_supported user change :
  (∀ u, profile_supported u → profile_supported (change u)) →
  preserves (db_inv profiles_supported) (save_user_fields user change).
Proof.
  intros Hc w Hw. unfold save_user_fields. rewrite bind_run, dexec_run.
  destruct (d_users _ !! user) as [u|] eqn:Hu; [|done]. destruct (save_user _ _ _) as [d|e] eqn:Hs; [|done].
  apply outcome_bind_Ok in Hs as (t & (-> & _)%tput_inv & [= <-]). cbn. apply map_Forall_insert_2; [|done].
  apply Hc. by apply (Hw user).
Qed.

Lemma media_keeps_supported {A} (f : gmap string string → outcome (A * gmap string string)) :
  preserves (db_inv profiles_supported) (on_media f).
Proof. intros w Hw. unfold on_media. by destruct (f _) as [[a m]|e]. Qed.

Lemma delete_avatar_keeps_supported url : preserves (db_inv profiles_supported) (_delete_local_avatar url).
Proof.
  unfold _delete_local_avatar. repeat first [apply media_keeps_supported | apply preserves_bind; [|intros ?]
    | apply preserves_lift | apply preserves_ret | case_match].
Qed.

Lemma avatar_post_keeps_supported user u file : preserves (db_inv profiles_supported) (avatar_post user u file).
Proof.
  unfold avatar_post, process_and_save_avatar.
  repeat first [apply avatar_keeps_supported; by intros [] | apply delete_avatar_keeps_supported
    | apply media_keeps_supported | apply preserves_bind; [|intros ?] | apply preserves_lift
    | apply preserves_uuid4 | apply preserves_utcnow | apply preserves_ret].
Qed.

Lemma avatar_delete_keeps_supported user u : preserves (db_inv profiles_supported) (avatar_delete user u).
Proof.
  unfold avatar_delete. apply preserves_bind; [apply delete_avatar_keeps_supported|intros ?].
  apply preserves_bind; [apply preserves_utcnow|intros ?]. apply avatar_keeps_supported. by intros [].
Qed.

(** C36. Whatever requests of the API are made, in whatever order and with whatever
    outcome (the user form of Django's admin, which checks none of this, is not among
    them), every stored profile names a supported locale and currency and a known time zone or none,
    and its phone is a supported prefix with a number of 4 to 15 characters, or absent
    as a whole. *)
Theorem profiles_stay_supported w w' :
  profiles_supported (w_db w) → reachable w w' → profiles_supported (w_db w').
Proof.
  intros Hw Hr. revert Hw. induction Hr as [w|w1 w2 w3 Hstep _ IH]; [done|]. intros Hw. apply IH.
  destruct Hstep; [..|exact Hw].
  - apply (keeps_supported_of (TokenFacts.run_op op)); [|exact Hw].
    apply (k_auth (keeps_users supported_users) (keeps_users supported_users)); [done| |].
    + intros A B m f Hm Hf files. apply preserves_bind; [apply Hm|]. intros a. apply Hf.
    + destruct op; try done; apply keeps_users_require.
  - apply (keeps_supported_of (OrgInvariant.run_op op)); [|exact Hw]. apply (k_org (keeps_users supported_users)).
  - apply keeps_supported_of; [|exact Hw]. apply (k_member_delete (keeps_users supported_users)).
  - apply keeps_supported_of; [|exact Hw]. apply (k_account_delete (keeps_users supported_users)).
  - apply (patch_keeps_supported user body w Hw).
  - by apply avatar_post_keeps_supported.
  - by apply avatar_delete_keeps_supported.
  - apply keeps_supported_of; [|exact Hw]. apply keeps_users_authenticate.
Qed.
End Machine.
End Facts.
