(* ===== verification/AvatarFacts.v ===== *)
(** * What becomes of avatars

    The upload and the deletion on every branch, the round trip, and the invariant that
    every stored file came out of the encoder. *)

From S2P Require Import Prelude PyVal Text Effects Domain Relational Store StoreFacts Django Auth Account.
From S2P Require Import Fields AuthViews RedirectUrls Profile Avatar Requests CacheFacts ProfileFacts.
From S2P Require TokenFacts OrgInvariant.

#[local] Open Scope string_scope.
#[local] Arguments uuid_str : simpl never.

Definition with_media (m : gmap string string) (w : world store) : world store :=
  set_db (mkStore (s_db (w_db w)) (s_cache (w_db w)) m) w.

Section Facts.
  Context `{Pillow} `{StorageLaws} `{RequestHostLaws} `{ImageField}.
  Implicit Types w : world store.

(** ** Specification *)

(** The file of our storage that an avatar URL names. *)
Definition local_file (avatar_url : option string) : option string :=
  match avatar_url with
  | Some url =>
      if b_eq url "" then None else
      match urlparse_path url with
      | Ok path => if startswith path MEDIA_URL
                   then Some (removeprefix path MEDIA_URL) else None
      | Raise _ => None
      end
  | None => None
  end.

Definition without_file (avatar_url : option string) (m : gmap string string) : gmap string string :=
  match local_file avatar_url with Some p => delete p m | None => m end.

(** ** Lemmas *)

Lemma delete_local_avatar_run url w :
  match _delete_local_avatar url w with
  | (Ok _, w1) => w1 = with_media (without_file url (s_media (w_db w))) w
  | (Raise _, w1) => w1 = w
  end.
Proof.
  assert (with_media (s_media (w_db w)) w = w) as Hid by (by destruct w as [[] ? ? ? ?]).
  unfold _delete_local_avatar, without_file, local_file. destruct url as [url|]; cbn [or_else]; [|by rewrite b_eq_refl].
  destruct (b_eq url ""); [by rewrite Hid|]. rewrite lift_bind.
  destruct (urlparse_path url) as [path|e]; [|done]. destruct (startswith path MEDIA_URL); cbn [negb]; [|by rewrite Hid].
  set (p := removeprefix path MEDIA_URL). rewrite bind_run. unfold on_media at 1.
  destruct (storage_exists (s_media (w_db w)) p) as [found|e] eqn:Hf; [|done]. cbn [mbind outcome_bind].
  change (set_db _ w) with (with_media (s_media (w_db w)) w). rewrite Hid.
  destruct found.
  - unfold on_media. destruct (storage_delete _ p) as [m|e] eqn:Hd; [|done]. cbn [mbind outcome_bind].
    by apply storage_delete_Ok in Hd as ->.
  - cbn. rewrite delete_id; [by rewrite Hid|]. apply eq_None_not_Some. intros Hs.
    rewrite (storage_exists_stored _ _ Hs) in Hf. discriminate.
Qed.

Lemma save_avatar_run user u url w :
  store_ok (w_db w) → d_users (s_db (w_db w)) !! user = Some u →
  ∃ w1, save_user_fields user (λ row, with_updated_at (w_now w) (with_avatar url row)) w = (Ok tt, w1) ∧
    s_db (w_db w1) = with_row user (with_updated_at (w_now w) (with_avatar url u)) (s_db (w_db w)) ∧
    s_media (w_db w1) = s_media (w_db w) ∧ store_ok (w_db w1) ∧ w_now w1 = w_now w.
Proof.
  intros Hok Hu. unfold save_user_fields. rewrite bind_run, dexec_run, Hu.
  assert (sc_fits user_schema u = true) as Hfits.
  { assert (table_ok user_schema (has (s_db (w_db w))) (d_users (s_db (w_db w)))) as [Hrows _]
      by (unfold store_ok, db_ok in Hok; tauto).
    pose proof (Hrows user u Hu) as Hrow. unfold row_ok in Hrow. rewrite !andb_true_iff in Hrow. tauto. }
  assert (save_user user (with_updated_at (w_now w) (with_avatar url u)) (s_db (w_db w)) =
    Ok (with_row user (with_updated_at (w_now w) (with_avatar url u)) (s_db (w_db w)))) as Hsave
    by (by apply (save_updated _ u)).
  rewrite Hsave. eexists. split; [done|]. split_and!; [done|done| |done].
  by apply (save_user_ok _ _ _ _ Hok Hsave).
Qed.

Lemma path_chars_app a b : path_chars (a ++ b) = path_chars a && path_chars b.
Proof. unfold path_chars. by rewrite chars_app, forallb_app. Qed.

Lemma hex_chars n u : forallb path_char (hex_digits n u) = true.
Proof.
  revert u. induction n as [|n IH]; intros u; [done|]. cbn [hex_digits]. rewrite forallb_app, IH. cbn [forallb andb].
  rewrite andb_true_r. assert (u mod 16 < 16)%N as Hlt by (apply N.mod_lt; done). revert Hlt. generalize (u mod 16)%N.
  intros d Hd. assert (d ∈ N.of_nat <$> seq 0 16) as Hin by (apply list_elem_of_fmap; exists (N.to_nat d); rewrite elem_of_seq; lia). revert d Hd Hin.
  assert (Forall (λ d, path_char (hex_char d) = true) (N.of_nat <$> seq 0 16)) as Hall by (apply (bool_decide_unpack _); vm_compute; exact I).
  rewrite Forall_forall in Hall. auto.
Qed.

Lemma uuid_hex_chars u : path_chars (uuid_hex u) = true.
Proof. unfold path_chars, uuid_hex. rewrite list_ascii_of_string_of_list_ascii. apply hex_chars. Qed.

Lemma forallb_take {A} (f : A → bool) n l : forallb f l = true → forallb f (take n l) = true.
Proof. revert n. induction l as [|x l IH]; intros [|n]; cbn; rewrite ?andb_true_iff; naive_solver. Qed.
Lemma forallb_drop {A} (f : A → bool) n l : forallb f l = true → forallb f (drop n l) = true.
Proof. revert n. induction l as [|x l IH]; intros [|n]; cbn; rewrite ?andb_true_iff; naive_solver. Qed.

Lemma uuid_str_chars u : path_chars (uuid_str u) = true.
Proof.
  unfold path_chars, uuid_str. rewrite list_ascii_of_string_of_list_ascii. pose proof (hex_chars 32 u) as Hh.
  rewrite !forallb_app. cbn [forallb]. rewrite !forallb_take by auto using forallb_drop.
  by rewrite forallb_drop by done.
Qed.

Lemma avatar_dir_chars user : path_chars (avatar_dir user) = true.
Proof. unfold avatar_dir. by rewrite path_chars_app, uuid_str_chars. Qed.

(** ** Properties *)

(** The name the upload gives a file. *)
Definition avatar_file (user : uuid) (name : string) : string := avatar_dir user ++ "/" ++ name.

(** An upload that succeeds stored one new file below the user's directory, whose
    content is the re-encoded image and no byte of the upload, removed the local file of
    the previous avatar, and set the user's avatar to the new file's URL; nothing else
    in the database changed. A file that is missing, too large or no image changes
    nothing; no failure changes the database. *)
Theorem avatar_post_spec user u file w :
  store_ok (w_db w) → d_users (s_db (w_db w)) !! user = Some u →
  let rest := without_file u.(u_avatar_url) (s_media (w_db w)) in
  match avatar_post user u file w with
  | (Ok url, w1) =>
      ∃ f data name, file = Given f ∧ (∀ n, f.(uf_size) = Some n → (n <= 5242880)%Z) ∧
        render_avatar f.(uf_content) = Ok data ∧ path_chars name = true ∧
        url = build_absolute_uri (MEDIA_URL ++ avatar_file user name) ∧
        rest !! avatar_file user name = None ∧ s_media (w_db w1) = <[avatar_file user name := data]> rest ∧
        s_db (w_db w1) = with_row user (with_updated_at (w_now w) (with_avatar (Some url) u)) (s_db (w_db w)) ∧
        store_ok (w_db w1) ∧ w_now w1 = w_now w
  | (Raise _, w1) =>
      s_db (w_db w1) = s_db (w_db w) ∧ (s_media (w_db w1) = s_media (w_db w) ∨ s_media (w_db w1) = rest) ∧
      match file with
      | Given f => match render_avatar f.(uf_content) with Ok _ => True | Raise _ => w1 = w end
      | _ => w1 = w
      end
  end.
Proof.
  intros Hok Hu rest. unfold avatar_post. rewrite lift_bind.
  destruct file as [| |f]; [split_and!; try done; by left..|]. cbn [_AvatarUploadSerializer required].
  destruct (image_field_ok f); cbn [negb]; [|split_and!; [done|by left|by destruct (render_avatar _)]].
  destruct (match uf_size f with Some size => (_MAX_AVATAR_SIZE <? size)%Z | None => false end) eqn:Hsize;
    [split_and!; [done|by left|by destruct (render_avatar _)]|].
  unfold process_and_save_avatar. rewrite lift_bind. destruct (render_avatar (uf_content f)) as [data|e] eqn:Hrender;
    [|destruct (is_os_error e); (split_and!; [done|by left|done])].
  rewrite bind_run. pose proof (delete_local_avatar_run (u_avatar_url u) w) as Hdel.
  destruct (_delete_local_avatar _ w) as [[[]|e] w1]; [|subst w1; split_and!; [done|by left|done]]. subst w1. fold rest.
  rewrite bind_run. cbn [uuid4 with_media set_db w_db w_stripe w_tasks w_now w_next]. rewrite bind_run.
  unfold on_media. cbn [w_db s_media].
  destruct (storage_save rest _ data) as [[path m]|e] eqn:Hsave; [|split_and!; [done|by right|done]].
  apply storage_save_Ok in Hsave as (Hfresh & -> & name & -> & Hname).
  set (w2 := set_db _ _). set (url := build_absolute_uri _).
  rewrite bind_run. cbn [utcnow]. rewrite bind_run.
  destruct (save_avatar_run user u (Some url) w2 Hok Hu) as (w3 & Hrun & Hdb & Hmedia & Hok3 & Hnow).
  rewrite Hrun. cbn [mret M_ret]. exists f, data, name. split_and!; try done.
  - intros n Hn. rewrite Hn in Hsize. apply Z.ltb_ge in Hsize. exact Hsize.
  - apply Hname. rewrite path_chars_app. by rewrite uuid_hex_chars.
Qed.

Lemma local_file_own user name :
  path_chars name = true →
  local_file (Some (build_absolute_uri (MEDIA_URL ++ avatar_file user name))) = Some (avatar_file user name).
Proof.
  intros Hname. unfold local_file. change (MEDIA_URL ++ avatar_file user name) with ("/" ++ ("media/" ++ avatar_file user name)).
  assert (urlparse_path (build_absolute_uri ("/" ++ ("media/" ++ avatar_file user name))) =
    Ok ("/" ++ ("media/" ++ avatar_file user name))) as Hpath.
  { apply build_absolute_uri_path. unfold avatar_file. by rewrite !path_chars_app, avatar_dir_chars, Hname. }
  rewrite (proj2 (b_eq_false _ _)) by (intros Heq; by rewrite Heq in Hpath). rewrite Hpath.
  change ("/" ++ ("media/" ++ avatar_file user name)) with (MEDIA_URL ++ avatar_file user name).
  rewrite startswith_app. f_equal. apply removeprefix_app.
Qed.

(** The URL an upload answers names the file it stored, so that the next upload or
    a deletion removes that file: after a second upload the first file is gone, after a
    deletion there is none and the user's avatar is null; the user's files do not pile
    up. *)
Theorem avatar_replaced user u file w url w1 :
  store_ok (w_db w) → d_users (s_db (w_db w)) !! user = Some u → avatar_post user u file w = (Ok url, w1) →
  let rest := without_file u.(u_avatar_url) (s_media (w_db w)) in
  ∃ name u1, local_file (Some url) = Some (avatar_file user name) ∧
    is_Some (s_media (w_db w1) !! avatar_file user name) ∧
    d_users (s_db (w_db w1)) !! user = Some u1 ∧ u1.(u_avatar_url) = Some url ∧
    match avatar_delete user u1 w1 with
    | (Ok _, w2) =>
        s_media (w_db w2) = rest ∧ u_avatar_url <$> d_users (s_db (w_db w2)) !! user = Some None
    | (Raise _, w2) => w2 = w1
    end ∧
    ∀ file' url' w2, avatar_post user u1 file' w1 = (Ok url', w2) →
      ∃ name' data, s_media (w_db w2) = <[avatar_file user name' := data]> rest.
Proof.
  intros Hok Hu Hpost rest. pose proof (avatar_post_spec user u file w Hok Hu) as Hspec. rewrite Hpost in Hspec.
  destruct Hspec as (f & data & name & _ & _ & _ & Hname & -> & Hfresh & Hmedia & Hdb & Hok1 & Hnow). fold rest in Hfresh, Hmedia.
  set (url := build_absolute_uri _) in *. set (u1 := with_updated_at (w_now w) (with_avatar (Some url) u)) in *.
  assert (d_users (s_db (w_db w1)) !! user = Some u1) as Hu1 by (rewrite Hdb; cbn; by rewrite lookup_insert_eq).
  assert (without_file (Some url) (s_media (w_db w1)) = rest) as Hwithout.
  { unfold without_file, url. rewrite local_file_own by done. rewrite Hmedia. by apply delete_insert_id. }
  exists name, u1. split_and!; [by apply local_file_own|rewrite Hmedia, lookup_insert_eq; eauto|done|done| |].
  - unfold avatar_delete. rewrite bind_run. pose proof (delete_local_avatar_run (u_avatar_url u1) w1) as Hdel.
    destruct (_delete_local_avatar _ w1) as [[[]|e] w2]; [|done]. subst w2.
    rewrite bind_run. cbn [utcnow]. set (w2 := with_media _ w1).
    destruct (save_avatar_run user u1 None w2 Hok1 Hu1) as (w3 & Hrun & Hdb3 & Hmedia3 & _). rewrite Hrun.
    split; [rewrite Hmedia3; exact Hwithout|]. rewrite Hdb3. cbn. by rewrite lookup_insert_eq.
  - intros file' url' w2 Hpost2. pose proof (avatar_post_spec user u1 file' w1 Hok1 Hu1) as Hspec2. rewrite Hpost2 in Hspec2.
    destruct Hspec2 as (_ & data' & name' & _ & _ & _ & _ & _ & _ & Hmedia2 & _). exists name', data'.
    rewrite Hmedia2. f_equal. exact Hwithout.
Qed.

(** ** What is stored *)

Definition reencoded (content : string) : Prop := ∃ img, save_webp _AVATAR_WEBP_QUALITY img = Ok content.
Definition files_reencoded (s : store) : Prop := map_Forall (λ _ c, reencoded c) (s_media s).

Lemma render_avatar_reencoded content data : render_avatar content = Ok data → reencoded data.
Proof.
  unfold render_avatar. intros (img & _ & Hr)%outcome_bind_Ok. destruct (negb _); [done|].
  apply outcome_bind_Ok in Hr as (t & _ & Hr). apply outcome_bind_Ok in Hr as (c & _ & Hr).
  apply outcome_bind_Ok in Hr as (r & _ & Hr). by exists r.
Qed.

Lemma save_fields_keeps_files user change : preserves (db_inv files_reencoded) (save_user_fields user change).
Proof.
  intros w Hw. unfold save_user_fields. rewrite bind_run, dexec_run.
  destruct (d_users _ !! user) as [u|]; [|done]. by destruct (save_user _ _ _).
Qed.

Lemma patch_keeps_files `{TimeZones} user body w : s_media (w_db (account_patch user body w).2) = s_media (w_db w).
Proof.
  unfold account_patch. rewrite lift_bind. destruct (UpdateUserSerializer body) as [data|]; [|done].
  unfold user_with_providers, objects_get, dquery. rewrite !bind_run. cbn [query].
  destruct (d_users (s_db (w_db w)) !! user) as [u|] eqn:Hu; [|done].
  cbn [mret M_ret fst snd]. rewrite bind_run. cbn [query mret M_ret]. destruct (empty_update data); [done|].
  cbn [fst snd]. rewrite bind_run. cbn [utcnow]. rewrite bind_run. unfold save_user_fields.
  rewrite bind_run, dexec_run, Hu. by destruct (save_user _ _ _).
Qed.

Lemma media_keeps_files {A} (f : gmap string string → outcome (A * gmap string string)) :
  (∀ m a m', map_Forall (λ _ c, reencoded c) m → f m = Ok (a, m') → map_Forall (λ _ c, reencoded c) m') →
  preserves (db_inv files_reencoded) (on_media f).
Proof.
  intros Hf w Hw. unfold on_media. destruct (f _) as [[a m]|e] eqn:Hm; [|done]. by apply (Hf _ _ _ Hw Hm).
Qed.

Lemma delete_avatar_keeps_files url : preserves (db_inv files_reencoded) (_delete_local_avatar url).
Proof.
  intros w Hw. pose proof (delete_local_avatar_run url w) as Hrun. destruct (_delete_local_avatar url w) as [[[]|e] w1];
    subst w1; [|done]. unfold db_inv, files_reencoded, without_file. cbn. destruct (local_file url); [|done].
  by apply map_Forall_delete.
Qed.

Lemma avatar_post_keeps_files user u file : preserves (db_inv files_reencoded) (avatar_post user u file).
Proof.
  unfold avatar_post. apply preserves_bind; [apply preserves_lift|]. intros f. unfold process_and_save_avatar.
  intros w Hw. rewrite lift_bind. destruct (render_avatar (uf_content f)) as [data|e] eqn:Hr; [|by destruct (is_os_error e)].
  revert w Hw. apply preserves_bind; [apply delete_avatar_keeps_files|intros _].
  apply preserves_bind; [apply preserves_uuid4|intros n].
  apply preserves_bind; [|intros path; apply preserves_bind; [apply preserves_utcnow|intros now];
    apply preserves_bind; [apply save_fields_keeps_files|intros _; apply preserves_ret]].
  apply media_keeps_files. intros m a m' Hm (_ & -> & _)%storage_save_Ok.
  apply map_Forall_insert_2; [by eapply render_avatar_reencoded|done].
Qed.

Lemma avatar_delete_keeps_files user u : preserves (db_inv files_reencoded) (avatar_delete user u).
Proof.
  apply preserves_bind; [apply delete_avatar_keeps_files|intros _].
  apply preserves_bind; [apply preserves_utcnow|intros now]. apply save_fields_keeps_files.
Qed.

Section Machine.
  Context `{TimeZones} `{DjangoLib} `{AuthBackend} `{Secrets} `{JWT} `{StripeServer}.

Lemma keeps_files_of {A} (m : M store A) : keeps_users (λ _, True) A m → ∀ w, s_media (w_db (m w).2) = s_media (w_db w).
Proof. intros Hm w. apply (Hm _ w (conj eq_refl I)). Qed.

(** C37. Whatever requests are made, every file the service has stored came out of the
    WebP encoder: the bytes of an upload never reach the storage. *)
Theorem stored_files_reencoded w w' :
  files_reencoded (w_db w) → reachable w w' → files_reencoded (w_db w').
Proof.
  intros Hw Hr. revert Hw. induction Hr as [w|w1 w2 w3 Hstep _ IH]; [done|]. intros Hw. apply IH. unfold files_reencoded in *.
  destruct Hstep as [op w Hop|op w|user org target w|user w|user body w|user u file w|user u w|header w Hh|t w].
  - rewrite (keeps_files_of (TokenFacts.run_op op)); [done|].
    apply (k_auth (keeps_users (λ _, True)) (keeps_users (λ _, True))); [done| |].
    + intros A B m f Hm Hf files. apply preserves_bind; [apply Hm|]. intros a. apply Hf.
    + destruct op; try done; apply (keeps_users_require (λ _, True)).
  - by rewrite (keeps_files_of (OrgInvariant.run_op op)) by apply (k_org (keeps_users (λ _, True))).
  - by rewrite keeps_files_of by apply (k_member_delete (keeps_users (λ _, True))).
  - by rewrite keeps_files_of by apply (k_account_delete (keeps_users (λ _, True))).
  - by rewrite patch_keeps_files.
  - by apply avatar_post_keeps_files.
  - by apply avatar_delete_keeps_files.
  - by rewrite keeps_files_of by apply (keeps_users_authenticate (λ _, True)).
  - done.
Qed.

(** The deletion of an account leaves every stored file, the account's avatar included. *)
Lemma account_delete_leaves_files user w : s_media (w_db (account_delete user w).2) = s_media (w_db w).
Proof. apply keeps_files_of, (k_account_delete (keeps_users (λ _, True))). Qed.
End Machine.
End Facts.
