(* ===== verification/AccessFacts.v ===== *)
(** * Access tokens and password changes

    What the authenticator answers to an access token, and what a password change
    or reset does to the sessions opened before it. *)

From S2P Require Import Prelude PyVal Text Effects Domain Relational Store StoreFacts Django Auth.
From S2P Require Import AuthViews TokenFacts SessionFacts Requests CacheFacts.

#[local] Open Scope string_scope.
#[local] Arguments uuid_str : simpl never.

Section Facts.
  Context `{DjangoLib} `{!DjangoLibLaws} `{AuthBackend} `{SecretsLaws} `{JWTLaws}.

(** ** Helper lemmas *)

Lemma bearer_token_app t : bearer_token (bearer ++ t) = Some t.
Proof.
  unfold bearer_token. rewrite chars_app, is_prefix_app.
  change 7%nat with (length (list_ascii_of_string bearer)). rewrite drop_app_length.
  by rewrite string_of_list_ascii_of_string.
Qed.

(** What the database says of the holder of an access token issued for [u]. *)
Definition verdict (user : uuid) (u : UserRow) (d : db) : outcome (option (uuid * UserRow)) :=
  match d.(d_users) !! user with
  | Some v =>
      if negb v.(u_is_active) then Raise (AuthenticationFailed "user_not_found")
      else if (pwd_stamp u <? pwd_stamp v)%Z then Raise (AuthenticationFailed "token_revoked")
      else Ok (Some (user, v))
  | None => Raise (AuthenticationFailed "user_not_found")
  end.

Lemma load_user_verdict user w :
  coherent (w_db w) → (user < 2 ^ 128)%N →
  (load_user (uuid_str user) w).1 =
  match d_users (s_db (w_db w)) !! user with
  | Some v => if u_is_active v then Ok (user, v) else Raise (AuthenticationFailed "user_not_found")
  | None => Raise (AuthenticationFailed "user_not_found")
  end.
Proof.
  intros Hw Hu. unfold load_user, cache_user, cached_user, dquery. munfold. rewrite uuid_parse_str by done.
  destruct (c_auth _ !! _) as [[[i v] x]|] eqn:Hc.
  - destruct (Hw _ _ Hc) as (Hk & Hi & Hrow & Ha). cbn in *.
    apply uuid_str_inj in Hk as ->; [|done..].
    destruct (_ <? _)%Z; [by rewrite Hrow, Ha|]. cbn. by rewrite Hrow, Ha.
  - destruct (d_users _ !! user) as [v|]; [|done]. by destruct (u_is_active v).
Qed.

Lemma create_access_token_run user u w :
  create_access_token user u w = (Ok (jwt_encode (JObj (access_claims user u (w_now w)))), w).
Proof. done. Qed.

(** What a token issued at [t0] is answered. *)
Lemma authenticate_issued user u t0 w :
  coherent (w_db w) → (user < 2 ^ 128)%N → (timestamp t0 * 1000000 <= w_now w)%Z →
  (authenticate (bearer ++ jwt_encode (JObj (access_claims user u t0))) w).1 =
  if (timestamp (t0 + ACCESS_TOKEN_LIFETIME) * 1000000 <=? w_now w)%Z
  then Raise (AuthenticationFailed "token_expired") else verdict user u (s_db (w_db w)).
Proof.
  intros Hw Hu Ht. unfold authenticate. rewrite bearer_token_app, bind_run. cbn [utcnow]. unfold utcnow.
  rewrite (jwt_decode_encode _ _ (timestamp t0) (timestamp (t0 + ACCESS_TOKEN_LIFETIME)));
    [|done|done|exact Ht].
  destruct (_ <=? _)%Z; [done|]. rewrite accept_claims, bind_run. unfold verdict.
  pose proof (load_user_verdict user w Hw Hu) as Hl. destruct (load_user _ w) as [r w1]. cbn in Hl. subst r.
  destruct (d_users _ !! user) as [v|]; [|done]. destruct (u_is_active v); [|done]. cbn [negb snd].
  by destruct (_ <? _)%Z.
Qed.

Lemma keeps_ok_save_fields i f : keeps_ok (save_user_fields i f).
Proof.
  apply preserves_bind; [|intros _; apply keeps_invalidate]. apply keeps_dexec. intros d d' Hd.
  destruct (d_users d !! i); [|done]. by apply save_user_ok.
Qed.

Lemma revoke_where_ok p now d : db_ok d → db_ok (revoke_where p now d).
Proof.
  unfold db_ok. intros Hd. destruct_and!. split_and!; try assumption.
  cbn. eapply table_ok_fmap; [| |eassumption].
  - intros key a [->|[]%elem_of_nil]%elem_of_cons. by case_match.
  - intros i a _ Hr. by case_match.
Qed.

Lemma mark_reset_ok p now d : db_ok d → db_ok (mark_where PasswordResetToken p now d).
Proof.
  unfold db_ok. intros Hd. destruct_and!. split_and!; try assumption.
  cbn. eapply table_ok_fmap; [| |eassumption].
  - intros key a [->|[]%elem_of_nil]%elem_of_cons. by case_match.
  - intros i a _ Hr. by case_match.
Qed.

Lemma mark_verify_ok p now d : db_ok d → db_ok (mark_where EmailVerificationToken p now d).
Proof.
  unfold db_ok. intros Hd. destruct_and!. split_and!; try assumption.
  cbn. eapply table_ok_fmap; [| |eassumption].
  - intros key a [->|[]%elem_of_nil]%elem_of_cons. by case_match.
  - intros i a _ Hr. by case_match.
Qed.

Lemma keeps_ok_revoke_all u : keeps_ok (revoke_all_refresh_tokens u).
Proof.
  apply preserves_bind; [apply preserves_utcnow|intros now]. apply keeps_dexec.
  intros d d' Hd [= <-]. by apply revoke_where_ok.
Qed.

Lemma keeps_ok_create_refresh u : keeps_ok (create_refresh_token u).
Proof.
  intros w Hw. unfold create_refresh_token, fresh_token. munfold. rewrite dexec_run. cbn [w_db].
  destruct (insert_refresh _ _ _) eqn:Hi; [|exact Hw]. by eapply insert_refresh_ok.
Qed.

(** *** Restarting the sessions of a user *)

(** What the two password endpoints do once the user is known. *)
Definition restart (user : uuid) (u : UserRow) (change : N → datetime → UserRow → UserRow) :
    M store response :=
  salt ← uuid4;
  now ← utcnow;
  save_user_fields user (change salt now);;
  revoke_all_refresh_tokens user;;
  sign_in user (change salt now u) 200.

(** Only sessions opened from now on are left, and the one of the response is. *)
Definition sessions_restarted (user : uuid) (password : string) (w w' : world store) (r : response) : Prop :=
  let d := s_db (w_db w) in let d' := s_db (w_db w') in
  ∃ u access refresh, r = TokenPair 200 access refresh ∧
    d_users d' !! user = Some u ∧ u.(u_password_changed_at) = Some (w_now w) ∧
    (∃ h, u.(u_password) = Some h ∧ check_password_hash password h = true) ∧
    (∀ i r0, d_refresh d !! i = Some r0 → ∃ r1, d_refresh d' !! i = Some r1 ∧
       if decide (r0.(rt_user) = user) then is_Some r1.(rt_revoked_at) else r1 = r0) ∧
    (∃ j, refresh_by_hash (_hash_token refresh) d' = Some (j, mkRefreshRow user (_hash_token refresh)
       (w_now w) (w_now w + days 7) None)) ∧
    (authenticate (bearer ++ access) w').1 = Ok (Some (user, u)) ∧
    ∀ v t0, (t0 <= w_now w)%Z → (pwd_stamp v < timestamp (w_now w))%Z →
      ∃ c, (authenticate (bearer ++ jwt_encode (JObj (access_claims user v t0))) w').1 =
        Raise (AuthenticationFailed c).

Lemma save_user_fields_run id f w w' :
  save_user_fields id f w = (Ok tt, w') →
  ∃ row, d_users (s_db (w_db w)) !! id = Some row ∧ w_now w' = w_now w ∧ w_next w' = w_next w ∧
    s_db (w_db w') = set_users (<[id := f row]> (d_users (s_db (w_db w)))) (s_db (w_db w)).
Proof.
  unfold save_user_fields. rewrite bind_run, dexec_run.
  destruct (d_users _ !! id) as [row|] eqn:Hrow; [|done].
  destruct (save_user _ _ _) as [d|] eqn:Hs; [|done]. intros [= <-].
  apply outcome_bind_Ok in Hs as (t & Ht & [= <-]). apply tput_inv in Ht as (-> & _).
  by exists row.
Qed.

Lemma restart_run user u change w r w' :
  db_ok (s_db (w_db w)) → restart user u change w = (Ok r, w') →
  ∃ row access refresh, r = TokenPair 200 access refresh ∧
    d_users (s_db (w_db w)) !! user = Some row ∧ w_now w' = w_now w ∧ db_ok (s_db (w_db w')) ∧
    access = jwt_encode (JObj (access_claims user (change (w_next w) (w_now w) u) (w_now w))) ∧
    d_users (s_db (w_db w')) = <[user := change (w_next w) (w_now w) row]> (d_users (s_db (w_db w))) ∧
    ∃ pk, let d1 := revoke_where (λ r, b_eq r.(rt_user) user) (w_now w) (s_db (w_db w)) in
      d_refresh d1 !! pk = None ∧
      d_refresh (s_db (w_db w')) = <[pk := mkRefreshRow user (_hash_token refresh) (w_now w)
        (w_now w + REFRESH_TOKEN_LIFETIME) None]> (d_refresh d1).
Proof.
  intros Hok. unfold restart.
  set (w0 := World (w_db w) (w_stripe w) (w_tasks w) (w_now w) (w_next w + 1)).
  rewrite (bind_Ok uuid4 _ w (w_next w) w0), (bind_Ok utcnow _ w0 (w_now w) w0) by done.
  rewrite bind_run. destruct (save_user_fields _ _ w0) as [[[]|] w1] eqn:Hs; [|done].
  assert (db_ok (s_db (w_db w1))) as Hok1.
  { pose proof (keeps_ok_save_fields user (change (w_next w) (w_now w)) w0 Hok) as Hk. by rewrite Hs in Hk. }
  apply save_user_fields_run in Hs as (row & Hrow & Hnow1 & _ & Hd1).
  rewrite bind_run. destruct (revoke_all_run user w1) as (w2 & Hrun & Hnow2 & _ & _ & Hd2).
  assert (db_ok (s_db (w_db w2))) as Hok2.
  { pose proof (keeps_ok_revoke_all user w1 Hok1) as Hk. by rewrite Hrun in Hk. }
  rewrite Hrun. unfold sign_in. rewrite bind_run.
  destruct (create_refresh_token user w2) as [[raw|] w3] eqn:Hc; [|done].
  assert (db_ok (s_db (w_db w3))) as Hok3.
  { pose proof (keeps_ok_create_refresh user w2 Hok2) as Hk. by rewrite Hc in Hk. }
  apply create_refresh_run in Hc as (-> & _ & Hnow3 & _ & _ & Hfr & Hd3). intros [= <- <-].
  assert (w_now w2 = w_now w) as Hnow by (by rewrite Hnow2, Hnow1).
  eexists row, _, _. split; [reflexivity|]. split; [exact Hrow|].
  split; [by rewrite Hnow3|]. split; [exact Hok3|]. rewrite Hnow3, Hnow in *. split; [done|].
  split; [by rewrite Hd3, Hd2, Hd1|]. exists (w_next w2 + 1)%N.
  rewrite Hd2, Hd1, Hnow1 in Hfr. rewrite Hd3, Hd2, Hd1, Hnow1. by split.
Qed.

Lemma keeps_coherent_restart user u change : keeps_coherent (restart user u change).
Proof.
  apply keeps_coherent_of. intros b. unfold restart.
  apply preserves_bind; [apply preserves_uuid4|intros salt].
  apply preserves_bind; [apply preserves_utcnow|intros now].
  apply preserves_bind; [apply keeps_cache_save_fields|intros _].
  apply preserves_bind; [apply (k_revoke_all (λ A m, keeps_cache m))|intros _].
  apply (k_sign_in (λ A m, keeps_cache m)).
Qed.

Lemma timestamp_le a b : (a <= b)%Z → (timestamp a <= timestamp b)%Z.
Proof. intros Hab. by apply Z.quot_le_mono. Qed.

(** [change] sets the password and stamps the row with the time. *)
Definition resets (password : string) (change : N → datetime → UserRow → UserRow) : Prop :=
  ∀ salt now u,
    (change salt now u).(u_password) = Some (make_password salt password) ∧
    (change salt now u).(u_password_changed_at) = Some now ∧
    (change salt now u).(u_is_active) = u.(u_is_active).

Lemma restart_spec password user u change w r w' :
  resets password change → db_ok (s_db (w_db w)) → coherent (w_db w) → (0 <= w_now w)%Z →
  (user < 2 ^ 128)%N → d_users (s_db (w_db w)) !! user = Some u → u.(u_is_active) = true →
  restart user u change w = (Ok r, w') → sessions_restarted user password w w' r.
Proof.
  intros Hch Hok Hc Hnow Huser Hrow Ha Hrun.
  assert (coherent (w_db w')) as Hc'.
  { pose proof (keeps_coherent_restart user u change w Hc) as Hk. by rewrite Hrun in Hk. }
  destruct (restart_run _ _ _ _ _ _ Hok Hrun)
    as (row & access & refresh & -> & Hrow' & Hnow' & Hok' & -> & Hus & pk & Hfr & Hre).
  replace row with u in * by congruence. set (u' := change _ _ u) in *.
  destruct (Hch (w_next w) (w_now w) u) as (Hpw & Hat & Hact). fold u' in Hpw, Hat, Hact.
  assert (d_users (s_db (w_db w')) !! user = Some u') as Hu' by (rewrite Hus; apply lookup_insert_eq).
  assert (pwd_stamp u' = timestamp (w_now w)) as Hstamp by (unfold pwd_stamp; by rewrite Hat).
  assert (∀ t0, (t0 <= w_now w)%Z → (timestamp t0 * 1000000 <= w_now w')%Z) as Htime.
  { intros t0 Ht. rewrite Hnow'. pose proof (timestamp_le t0 (w_now w) Ht).
    pose proof (Z.mul_quot_le (w_now w) 1000000). unfold timestamp in *. lia. }
  eexists u', _, refresh. split; [reflexivity|]. split_and!; [done|done| | | | |].
  - eexists. split; [exact Hpw|]. apply check_make_password.
  - intros i r0 Hr0. rewrite Hre.
    pose proof (proj2 (revoke_where_lookup (λ r, b_eq r.(rt_user) user) (w_now w) (s_db (w_db w)) i _)
      (ex_intro _ r0 (conj Hr0 eq_refl))) as Hl. cbv beta in Hl.
    eexists. split.
    { rewrite lookup_insert_ne; [exact Hl|]. intros ->. rewrite Hfr in Hl. discriminate Hl. }
    destruct (decide (rt_user r0 = user)) as [Heq|Hne].
    + rewrite Heq, b_eq_refl. cbn. destruct (rt_revoked_at r0) eqn:E; cbn; [by rewrite E|]; by eexists.
    + by rewrite (proj2 (b_eq_false _ _) Hne).
  - exists pk. apply (refresh_by_hash_unique _ pk (mkRefreshRow user (_hash_token refresh) (w_now w)
      (w_now w + days 7) None) Hok'). rewrite Hre. apply lookup_insert_eq.
  - rewrite authenticate_issued; [|done|done|by apply Htime]. unfold verdict. rewrite Hu', Hact, Ha, Z.ltb_irrefl. cbn [negb].
    destruct (Z.leb_spec (timestamp (w_now w + ACCESS_TOKEN_LIFETIME) * 1000000) (w_now w')) as [Hle|]; [|done].
    rewrite Hnow' in Hle. exfalso. revert Hle. unfold timestamp, ACCESS_TOKEN_LIFETIME, minutes, seconds.
    rewrite Z.quot_div_nonneg by lia. pose proof (Z.mul_succ_div_gt (w_now w + 15 * 60 * 1000000) 1000000). lia.
  - intros v t0 Ht0 Hv. rewrite authenticate_issued; [|done|done|by apply Htime].
    destruct (_ <=? _)%Z; [by eexists|]. unfold verdict. rewrite Hu', Hact, Ha, Hstamp. cbn [negb].
    rewrite (proj2 (Z.ltb_lt _ _) Hv). by eexists.
Qed.

(** The relation only looks at the refresh tokens and the time it started. *)
Lemma sessions_restarted_from user password w w1 w' r :
  d_refresh (s_db (w_db w1)) = d_refresh (s_db (w_db w)) → w_now w1 = w_now w →
  sessions_restarted user password w1 w' r → sessions_restarted user password w w' r.
Proof. unfold sessions_restarted. by intros -> ->. Qed.

Lemma load_user_now sub w : w_now (load_user sub w).2 = w_now w.
Proof. unfold load_user, cache_user, dquery. munfold. by repeat case_match; simplify_eq/=. Qed.

Lemma authenticate_now header w : w_now (authenticate header w).2 = w_now w.
Proof.
  assert (preserves (λ w', w_now w' = w_now w) (authenticate header)) as Hp; [|exact (Hp w eq_refl)].
  unfold authenticate. case_match; [|apply preserves_ret].
  apply preserves_bind; [apply preserves_utcnow|intros now]. case_match; [|apply preserves_raise..].
  apply preserves_bind; [apply preserves_lift|intros ty]. destruct (negb _); [apply preserves_raise|].
  apply preserves_bind; [apply preserves_lift|intros v]. destruct v; try apply preserves_raise.
  destruct (b_eq _ ""); [apply preserves_raise|].
  apply preserves_bind; [intros w1 <-; apply load_user_now|intros [i u]].
  apply preserves_bind; [apply preserves_lift|intros raw].
  apply preserves_bind; [apply preserves_lift|intros n]. case_match; [apply preserves_raise|apply preserves_ret].
Qed.

(** ** Properties *)

(** C30. An access token is accepted for fifteen minutes, counted in whole
    seconds, by and only by its user: the answer is the user's current row, or
    that the token has expired, the user is gone or inactive, or the password
    was changed since. *)
Theorem access_token_verdict user u w0 w t :
  coherent (w_db w) → (user < 2 ^ 128)%N → (0 <= w_now w0 <= w_now w)%Z →
  create_access_token user u w0 = (Ok t, w0) →
  (authenticate (bearer ++ t) w).1 =
  if (timestamp (w_now w0) + 900 <=? timestamp (w_now w))%Z
  then Raise (AuthenticationFailed "token_expired") else verdict user u (s_db (w_db w)).
Proof.
  intros Hw Hu [Hpos Hle] [= <-]. rewrite authenticate_issued; [|done|done|].
  2:{ unfold timestamp. pose proof (Z.mul_quot_le (w_now w0) 1000000). lia. }
  unfold timestamp, ACCESS_TOKEN_LIFETIME, minutes, seconds.
  rewrite !Z.quot_div_nonneg by lia. replace (15 * 60 * 1000000)%Z with (900 * 1000000)%Z by done.
  rewrite Z.div_add by lia.
  assert (((w_now w0 / 1000000 + 900) * 1000000 <=? w_now w)%Z =
          (w_now w0 / 1000000 + 900 <=? w_now w / 1000000)%Z) as ->; [|done].
  apply eq_true_iff_eq. rewrite !Z.leb_le. split; intros.
  - apply Z.div_le_lower_bound; lia.
  - pose proof (Z.mul_div_le (w_now w) 1000000). lia.
Qed.

(** C29. A password change or reset ends the sessions opened before it.  When
    either endpoint succeeds, the user's row verifies the new password and bears
    the time of the change; every earlier refresh token of the user is revoked
    and no other user's is touched; the new refresh token is live and the new
    access token is accepted; and every access token issued in an earlier second
    is refused.  The change succeeds only with the current password. *)
Theorem password_change_ends_sessions password w r w' :
  db_ok (s_db (w_db w)) → coherent (w_db w) → (0 <= w_now w)%Z →
  map_Forall (λ i _, (i < 2 ^ 128)%N) (d_users (s_db (w_db w))) →
  (∀ header current, honest header → change_password header current password w = (Ok r, w') →
     ∃ user u h, d_users (s_db (w_db w)) !! user = Some u ∧ u.(u_password) = Some h ∧
       check_password_hash current h = true ∧ sessions_restarted user password w w' r) ∧
  (∀ token, reset_password token password w = (Ok r, w') →
     ∃ user, sessions_restarted user password w w' r).
Proof.
  intros Hok Hc Hnow Hids. split.
  - intros header current Hh. unfold change_password, change_password_of, require_user. rewrite !bind_run.
    pose proof (authenticated_row header w Hc Hh) as Hrow. pose proof (authenticate_now header w) as Hn.
    pose proof (keeps_coherent_authenticate header Hh w Hc) as Hc1. unfold row_or_error in Hrow.
    destruct (authenticate header w) as [[[[user u]|]|] w1]; [|done..]. cbn in Hn, Hc1.
    destruct Hrow as (Hd & Hu & Ha). cbn [mret M_ret snd]. unfold M_ret.
    destruct (u_password u) as [h|] eqn:Hp; [|done].
    destruct (check_password_hash current h) eqn:Hcheck; [|done]. cbn [negb].
    intros Hrun. exists user, u, h. split_and!; [done..|].
    eapply (sessions_restarted_from user password w w1); [by rewrite Hd|done|].
    apply (restart_spec password user u (λ salt now, reset_user (make_password salt password) now) w1);
      rewrite ?Hd, ?Hn; try done. by apply (Hids _ _ Hu).
  - intros token. unfold reset_password, verify_password_reset_token, _verify_one_time_token.
    rewrite !bind_run.
    destruct (_consume_one_time_token PasswordResetToken token w) as [[obj|] w1] eqn:Hcon; [|done].
    pose proof (k_consume (λ A m, keeps_cache m) PasswordResetToken token (λ _ _, eq_refl) None w) as Hk.
    rewrite Hcon in Hk. destruct Hk as [Hc1 _]; [by split|].
    assert (db_ok (s_db (w_db w1))) as Hok1.
    { apply consume_run in Hcon as (i & a & _ & _ & _ & _ & _ & _ & ->). by apply mark_reset_ok. }
    apply consume_run in Hcon as (i & a & _ & _ & _ & Hobj & Hu & Ha & Hw1). cbn in Hw1.
    cbn [mret M_ret]. unfold M_ret. cbn [fst snd]. intros Hrun. exists (ot_user (ot_token PasswordResetToken obj.1)).
    assert (ot_user (ot_token PasswordResetToken obj.1) = ot_user a) as Huser by (by rewrite Hobj).
    eapply (sessions_restarted_from _ password w w1); [by rewrite Hw1|by rewrite Hw1|].
    apply (restart_spec password _ obj.2 (λ salt now u,
      let u := reset_user (make_password salt password) now u in
      if negb obj.2.(u_is_verified) then with_verified u else u) w1); [|done|done| | | |done|exact Hrun].
    + intros salt now u. cbv zeta. by case_match.
    + by rewrite Hw1.
    + rewrite Huser. by apply (Hids _ _ Hu).
    + rewrite Huser, Hw1. exact Hu.
Qed.
End Facts.
