(* ===== verification/OAuthFacts.v ===== *)
(** * OAuth accounts, e-mail verification and the clean-up

    Which account a provider's answer signs in, what a verification link does
    without a password, and what the periodic clean-up deletes. *)

From S2P Require Import Prelude PyVal Effects Domain Relational Store StoreFacts Django Auth.
From S2P Require Import AuthViews TokenFacts SessionFacts.
From S2P Require OrgLifecycle.

#[local] Open Scope string_scope.

Section Facts.
  Context `{DjangoLib} `{AuthBackend} `{Secrets} `{JWT}.

(** ** Helper lemmas *)

Lemma insert_social_inv i s d d' :
  insert_social i s d = Ok d' → d' = set_socials (<[i := s]> d.(d_socials)) d.
Proof.
  intros (x & _ & Hs)%outcome_bind_Ok. apply outcome_bind_Ok in Hs as (t & Ht & [= <-]).
  by apply tput_inv in Ht as (-> & _).
Qed.

(** Linking an unlinked provider account either inserts the link or raises. *)
Lemma social_create_run p pid user w w' :
  social_by_provider p pid (s_db (w_db w)) = None →
  social_get_or_create p pid user w = (Ok tt, w') →
  ∃ pk, s_db (w_db w') = set_socials (<[pk := mkSocialRow user p pid]> (d_socials (s_db (w_db w))))
          (s_db (w_db w)).
Proof.
  intros Hn. unfold social_get_or_create, dquery. rewrite bind_run. cbn [query]. unfold query at 1.
  rewrite Hn. rewrite (bind_Ok uuid4 _ w (w_next w)
    (World (w_db w) (w_stripe w) (w_tasks w) (w_now w) (w_next w + 1))) by done.
  unfold catch. rewrite dexec_run. cbn [w_db].
  destruct (insert_social _ _ _) as [d|e] eqn:Hi.
  - intros [= <-]. apply insert_social_inv in Hi as ->. by eexists.
  - destruct (is_integrity e); [|done]. rewrite bind_run. unfold query. cbn [w_db]. by rewrite Hn.
Qed.

Lemma social_linked p pid user pk d :
  social_by_provider p pid d = None →
  ∃ j, social_by_provider p pid
    (set_socials (<[pk := mkSocialRow user p pid]> d.(d_socials)) d) = Some (j, mkSocialRow user p pid).
Proof.
  unfold social_by_provider. rewrite tfind_None. intros Hn. exists pk. cbn.
  apply tfind_unique; [apply lookup_insert_eq|cbn; by rewrite !b_eq_refl|].
  intros j b [[<- <-]|[_ Hb]]%lookup_insert_Some Hp; [done|]. by rewrite (Hn _ _ Hb) in Hp.
Qed.

Lemma user_by_email_Some e d i u :
  user_by_email e d = Some (i, u) → d.(d_users) !! i = Some u ∧ lower u.(u_email) = lower e.
Proof. unfold user_by_email. intros [Hu Hp]%tfind_Some. by rewrite b_eq_true in Hp. Qed.

(** The provider vouches for the address and is trusted with linking. *)
Definition may_link (provider : string) (i : OAuthUserInfo) : bool :=
  i.(oi_email_verified) && str_in provider TRUSTED_FOR_AUTO_LINK.

Definition linked (provider : string) (i : OAuthUserInfo) (user : uuid) (d : db) : Prop :=
  ∃ j, social_by_provider provider i.(oi_provider_user_id) d =
    Some (j, mkSocialRow user provider i.(oi_provider_user_id)).

(** How an account came to be signed in. *)
Definition resolved (provider : string) (i : OAuthUserInfo) (user : uuid) (u : UserRow) (d d' : db) : Prop :=
  d' = d ∧ linked provider i user d ∧ d.(d_users) !! user = Some u ∨
  may_link provider i = true ∧ social_by_provider provider i.(oi_provider_user_id) d = None ∧
    d.(d_users) !! user = Some u ∧ lower u.(u_email) = lower i.(oi_email) ∧
    (∃ t, d' = set_socials t d) ∨
  i.(oi_email_verified) = true ∧ user_by_email i.(oi_email) d = None ∧
    d.(d_users) !! user = None ∧ d'.(d_users) = <[user := u]> d.(d_users) ∧
    u.(u_email) = normalize_email i.(oi_email) ∧ u.(u_is_verified) = true ∧ u.(u_password) = None.

Lemma link_or_request_run p i id u w res w' :
  social_by_provider p i.(oi_provider_user_id) (s_db (w_db w)) = None →
  _link_or_request p i (id, u) w = (Ok res, w') →
  if may_link p i
  then res = ResolvedUser (id, u) ∧ linked p i id (s_db (w_db w')) ∧
       ∃ t, s_db (w_db w') = set_socials t (s_db (w_db w))
  else w' = w ∧ res = Collision (if u.(u_is_active) then Some (id, u) else None).
Proof.
  intros Hn. unfold _link_or_request, may_link. destruct (_ && _).
  - rewrite bind_run. destruct (social_get_or_create _ _ _ w) as [[[]|] w1] eqn:Hs; [|done].
    intros [= <- <-]. apply social_create_run in Hs as [pk Hd]; [|done]. split; [done|].
    rewrite Hd. split; [by apply social_linked|by eexists].
  - cbn [snd]. destruct (u_is_active u); by intros [= <- <-].
Qed.

Lemma social_row p pid d s :
  social_by_provider p pid d = Some s → s.2 = mkSocialRow s.2.(sa_user) p pid.
Proof.
  destruct s as [j [u p' pid']]. intros [_ Hp]%tfind_Some. cbn in *.
  rewrite andb_true_iff, !b_eq_true in Hp. by destruct Hp as [-> ->].
Qed.

(** The transaction that creates an account and its link. *)
Lemma create_linked_run p i w res w' :
  social_by_provider p i.(oi_provider_user_id) (s_db (w_db w)) = None →
  atomic (user ← create_user i.(oi_email) None i.(oi_full_name) i.(oi_avatar_url) true p;
          social_get_or_create p i.(oi_provider_user_id) user.1;;
          mret (ResolvedUser user)) w = (Ok res, w') →
  ∃ user u, res = ResolvedUser (user, u) ∧ linked p i user (s_db (w_db w')) ∧
    d_users (s_db (w_db w)) !! user = None ∧
    d_users (s_db (w_db w')) = <[user := u]> (d_users (s_db (w_db w))) ∧
    u.(u_email) = normalize_email i.(oi_email) ∧ u.(u_is_verified) = true ∧ u.(u_password) = None.
Proof.
  intros Hn Hrun%atomic_Ok. rewrite bind_run in Hrun.
  destruct (create_user _ _ _ _ _ _ w) as [[[user u]|] w1] eqn:Hc; [|done].
  apply OrgLifecycle.create_user_run in Hc as (Hf & Hd & _ & _ & He & Hv & _ & _ & Hp).
  rewrite bind_run in Hrun. cbn [fst snd] in *.
  destruct (social_get_or_create _ _ _ w1) as [[[]|] w2] eqn:Hs; [|done].
  apply social_create_run in Hs as [pk Hd2]; [|by rewrite Hd]. injection Hrun as <- <-.
  exists user, u. rewrite Hd2. split_and!; [done|by apply social_linked; rewrite Hd|done|by rewrite Hd|done..|].
  by apply Hp.
Qed.

(** After a rolled back creation there is still no account. *)
Lemma create_linked_raise {A} p i w (m : M store A) e w1 :
  user_by_email i.(oi_email) (s_db (w_db w)) = None → atomic m w = (Raise e, w1) →
  ∃ e', (existing ← objects_get (user_by_email i.(oi_email)) "User"; _link_or_request p i existing) w1 =
    (Raise e', w1).
Proof.
  intros Hn [Hd _]%atomic_raise. unfold objects_get, dquery. munfold. rewrite Hd, Hn. by eexists.
Qed.

Lemma catch_run {A} (m : M store A) h w :
  catch m h w = match m w with (Raise e, w') => h e w' | r => r end.
Proof. done. Qed.

(** A linked account is found again. *)
Lemma linked_sticks p i user u w i' :
  linked p i user (s_db (w_db w)) → d_users (s_db (w_db w)) !! user = Some u →
  i'.(oi_provider_user_id) = i.(oi_provider_user_id) →
  resolve_oauth_user p i' w = (Ok (ResolvedUser (user, u)), w).
Proof.
  intros [j Hj] Hu Hi. unfold resolve_oauth_user, dquery. rewrite bind_run. unfold query at 1.
  rewrite Hi, Hj. cbn. by rewrite Hu.
Qed.

(** The result of the resolution, without its permanence. *)
Definition resolution_ok (p : string) (i : OAuthUserInfo) (w : world store)
    (r : outcome OAuthResolution * world store) : Prop :=
  match r with
  | (Ok (ResolvedUser (user, u)), w') =>
      resolved p i user u (s_db (w_db w)) (s_db (w_db w')) ∧ linked p i user (s_db (w_db w')) ∧
      d_users (s_db (w_db w')) !! user = Some u
  | (Ok (Collision existing), w') =>
      w' = w ∧ may_link p i = false ∧ ∃ user u, d_users (s_db (w_db w)) !! user = Some u ∧
        lower u.(u_email) = lower i.(oi_email) ∧
        existing = if u.(u_is_active) then Some (user, u) else None
  | (Raise e, w') =>
      i.(oi_email_verified) = false → w' = w ∧ ∃ msg, e = OAuthEmailNotVerifiedError msg
  end.

Lemma link_or_request_ok p i id u w :
  social_by_provider p i.(oi_provider_user_id) (s_db (w_db w)) = None →
  d_users (s_db (w_db w)) !! id = Some u → lower u.(u_email) = lower i.(oi_email) →
  resolution_ok p i w (_link_or_request p i (id, u) w).
Proof.
  intros Hn Hu He. destruct (_link_or_request p i (id, u) w) as [[res|e] w'] eqn:Hrun.
  - apply link_or_request_run in Hrun; [|done]. destruct (may_link p i) eqn:Hm; cbn.
    + destruct Hrun as (-> & Hl & t & Hd). split_and!; [|done|by rewrite Hd].
      right; left. split_and!; try done. by exists t.
    + destruct Hrun as [-> ->]. split_and!; [done..|]. by exists id, u.
  - cbn. intros Hv. revert Hrun. unfold _link_or_request. rewrite Hv. cbn. by destruct (u_is_active u).
Qed.

Lemma social_user_exists d s : db_ok d → ∀ p pid, social_by_provider p pid d = Some s →
  is_Some (d.(d_users) !! s.2.(sa_user)).
Proof.
  destruct s as [j s]. intros Hok p pid [Hs _]%tfind_Some.
  assert (table_ok social_schema (has d) (d_socials d)) as Ht by (unfold db_ok in Hok; tauto).
  pose proof (table_ok_row _ _ _ _ _ Ht Hs) as Hr. unfold row_ok in Hr. rewrite !andb_true_iff in Hr.
  destruct Hr as [_ Hr]. cbn in Hr. rewrite andb_true_r in Hr. by apply not_none_true.
Qed.

Lemma resolve_cases p i w :
  db_ok (s_db (w_db w)) → resolution_ok p i w (resolve_oauth_user p i w).
Proof.
  intros Hok. unfold resolve_oauth_user, dquery. rewrite bind_run. unfold query at 1.
  destruct (social_by_provider _ _ _) as [s|] eqn:Hsoc.
  { destruct (social_user_exists _ _ Hok _ _ Hsoc) as [u Hu]. cbn. rewrite Hu. cbn.
    assert (linked p i (sa_user s.2) (s_db (w_db w))) as Hl.
    { exists s.1. rewrite Hsoc, <-(social_row _ _ _ _ Hsoc). by destruct s. }
    split_and!; [|done|done]. by left. }
  change (None ≫= _) with (@None (uuid * UserRow)). cbv beta iota. rewrite query_bind.
  destruct (user_by_email _ _) as [[id u]|] eqn:Hem.
  { apply user_by_email_Some in Hem as [Hu He]. by apply link_or_request_ok. }
  destruct (oi_email_verified i) eqn:Hv; cbn [negb].
  2:{ intros _. split; [done|]. by eexists. }
  rewrite catch_run. destruct (atomic _ w) as [[res|e] w'] eqn:Hrun.
  - apply create_linked_run in Hrun as (user & u & -> & Hl & Hn & Hus & He & Hver & Hp); [|done].
    split_and!; [|done|rewrite Hus; apply lookup_insert_eq]. right; right. by split_and!.
  - destruct (is_integrity e); [|cbn; congruence].
    destruct (create_linked_raise p i w _ e w' Hem Hrun) as [e' ->]. cbn. congruence.
Qed.

(** ** Properties *)

(** Which account an OAuth answer signs in.  It is the one linked to the
    provider's user id before; or the one with the same address, when a trusted
    provider vouches for the address; or a new, verified account without a
    password, when the provider vouches for an address nobody has.  From then on
    the provider's user id resolves to that account whatever else the answer
    says.  A match the provider does not vouch for, or that is not trusted,
    changes nothing and names the account only when it is active; an address
    nobody has and nobody vouches for is refused. *)
Theorem oauth_resolution p i w :
  db_ok (s_db (w_db w)) →
  match resolve_oauth_user p i w with
  | (Ok (ResolvedUser (user, u)), w') =>
      resolved p i user u (s_db (w_db w)) (s_db (w_db w')) ∧
      (∀ i' r w'', i'.(oi_provider_user_id) = i.(oi_provider_user_id) →
         resolve_oauth_user p i' w' = (Ok r, w'') → w'' = w' ∧ r = ResolvedUser (user, u))
  | (Ok (Collision existing), w') =>
      w' = w ∧ may_link p i = false ∧ ∃ user u, d_users (s_db (w_db w)) !! user = Some u ∧
        lower u.(u_email) = lower i.(oi_email) ∧
        existing = if u.(u_is_active) then Some (user, u) else None
  | (Raise e, w') =>
      i.(oi_email_verified) = false → w' = w ∧ ∃ msg, e = OAuthEmailNotVerifiedError msg
  end.
Proof.
  intros Hok. pose proof (resolve_cases p i w Hok) as Hc. unfold resolution_ok in Hc.
  destruct (resolve_oauth_user p i w) as [[[[user u]|existing]|e] w'] eqn:Hrun; [|exact Hc|exact Hc].
  destruct Hc as (Hres & Hl & Hu). split; [exact Hres|]. intros i' r w'' Hi Hrun'.
  assert (resolve_oauth_user p i' w' = (Ok (ResolvedUser (user, u)), w')) as Heq
    by (by apply (linked_sticks p i)).
  rewrite Heq in Hrun'. by injection Hrun' as <- <-.
Qed.

(** The verification link of an account without a password is spent even
    when it is refused.  A request without a password is answered
    [password_required], but the token is already marked used: the same link
    with a password is refused, whenever it is tried. *)
Theorem password_required_spends_link token w user u w1 :
  db_ok (s_db (w_db w)) → verify_email_token token w = (Ok (user, u), w1) → u.(u_password) = None →
  verify_email token None w = (Ok (Message 400 "password_required"), w1) ∧
  ∀ t password, ∃ c, (verify_email token password (set_now t w1)).1 = Raise (AuthenticationFailed c).
Proof.
  intros Hok Hrun Hp. split.
  { unfold verify_email. rewrite bind_run, Hrun. cbn. unfold has_usable_password. by rewrite Hp. }
  intros t password. unfold verify_email_token, _verify_one_time_token in Hrun. rewrite bind_run in Hrun.
  destruct (_consume_one_time_token _ token w) as [[obj|] w2] eqn:Hcon; [|done].
  injection Hrun as _ _ <-.
  pose proof (db_ok_tokens _ Hok) as (_ & Hv & _).
  destruct (consumed_dead EmailVerificationToken onetime_schema _ _ _ _ (λ _ _, eq_refl) Hv
    (list_elem_of_here _ _) (λ _ _, eq_refl) Hcon) as [_ Hd].
  destruct (dead_consume EmailVerificationToken token (set_now t w2) Hd) as (c & w3 & Hc).
  exists c. unfold verify_email, verify_email_token, _verify_one_time_token. rewrite !bind_run.
  by rewrite Hc.
Qed.
End Facts.
