(* ===== verification/OAuthProviders.v ===== *)
(** * OAuth providers

    [apps/users/oauth.py]: the authorization URL the browser is sent to and the
    exchange of an authorization code for the provider's account of the user,
    with what counts as evidence that an e-mail address is his.  The providers'
    HTTP servers and the verification of Microsoft's signed tokens are not in the
    repository: the classes [OAuthHTTP] and [MicrosoftJWT]. *)

From S2P Require Import Prelude PyVal Text.

#[local] Open Scope string_scope.

(** ** The world outside *)

(** A request of the shared client: a form or an authorized read. *)
Inductive http_request :=
  | HttpPost (url : string) (data : list (string * string))
  | HttpGet (url : string) (authorization : string).

(** The JSON of an answer, or the exception of the transport, of
    [raise_for_status()] or of [json()]. *)
Class OAuthHTTP := http_json : http_request → outcome json.

(** [get_signing_key_from_jwt] and [jwt.decode] for an audience: the claims, or
    [None] for the exceptions of the two libraries and of the transport. *)
Class MicrosoftJWT := ms_jwt_decode : json → string → outcome (option (list (string * json))).

(** The [OAUTH_*] settings. *)
Class OAuthSettings := {
  OAUTH_GOOGLE_CLIENT_ID : string;
  OAUTH_GOOGLE_CLIENT_SECRET : string;
  OAUTH_GITHUB_CLIENT_ID : string;
  OAUTH_GITHUB_CLIENT_SECRET : string;
  OAUTH_MICROSOFT_CLIENT_ID : string;
  OAUTH_MICROSOFT_CLIENT_SECRET : string
}.

(** ** Definitions *)

Inductive Provider := GOOGLE | GITHUB | MICROSOFT.

#[export] Instance Provider_eq_dec : EqDecision Provider.
Proof. solve_decision. Defined.

Definition provider_value (p : Provider) : string :=
  match p with GOOGLE => "google" | GITHUB => "github" | MICROSOFT => "microsoft" end.

(** [Provider(provider)]. *)
Definition provider_of (s : string) : outcome Provider :=
  match List.find (λ p, b_eq (provider_value p) s) [GOOGLE; GITHUB; MICROSOFT] with
  | Some p => Ok p
  | None => Raise (ValueError (s ++ " is not a valid Provider"))
  end.

Record _ProviderConfig := mkProviderConfig {
  pc_client_id : string;
  pc_client_secret : string;
  pc_authorize_url : string;
  pc_token_url : string;
  pc_userinfo_url : string;
  pc_scopes : string
}.

(** The account as the provider describes it: JSON values the code passes on
    unchecked, [ui_email_verified] its own conclusion. *)
Record UserInfo := mkUserInfo {
  ui_email : json;
  ui_full_name : json;
  ui_provider_user_id : string;
  ui_avatar_url : json;
  ui_email_verified : bool
}.

Definition _MS_OIDC_ISSUER_PREFIX : string := "https://login.microsoftonline.com/".
Definition _MS_OIDC_ISSUER_SUFFIX : string := "/v2.0".

(** [v is True]. *)
Definition is_True (v : json) : bool := match v with JBool true => true | _ => false end.

(** [v.split("@")[0]]. *)
Fixpoint before_at (l : list ascii) : list ascii :=
  match l with
  | [] => []
  | c :: l => if b_eq c "@"%char then [] else c :: before_at l
  end.
Definition local_part (v : json) : outcome json :=
  match v with
  | JStr s => Ok (JStr (string_of_list_ascii (before_at (list_ascii_of_string s))))
  | _ => Raise (AttributeError "object has no attribute 'split'")
  end.

(** [a or b] where [b] is only computed when it is needed. *)
Definition or_lazy (a : json) (b : outcome json) : outcome json := if truthy a then Ok a else b.

(** The fields of a dict that is known to be one. *)
Definition field (fields : list (string * json)) (k : string) : json := or_else (assoc k fields) JNull.

Section Providers.
  Context `{OAuthHTTP} `{MicrosoftJWT} `{OAuthSettings}.

Definition _get_config (provider : Provider) : _ProviderConfig :=
  match provider with
  | GOOGLE => mkProviderConfig OAUTH_GOOGLE_CLIENT_ID OAUTH_GOOGLE_CLIENT_SECRET
      "https://accounts.google.com/o/oauth2/v2/auth" "https://oauth2.googleapis.com/token"
      "https://www.googleapis.com/oauth2/v2/userinfo" "openid email profile"
  | GITHUB => mkProviderConfig OAUTH_GITHUB_CLIENT_ID OAUTH_GITHUB_CLIENT_SECRET
      "https://github.com/login/oauth/authorize" "https://github.com/login/oauth/access_token"
      "https://api.github.com/user" "read:user user:email"
  | MICROSOFT => mkProviderConfig OAUTH_MICROSOFT_CLIENT_ID OAUTH_MICROSOFT_CLIENT_SECRET
      "https://login.microsoftonline.com/common/oauth2/v2.0/authorize"
      "https://login.microsoftonline.com/common/oauth2/v2.0/token"
      "https://graph.microsoft.com/v1.0/me" "openid email profile User.Read"
  end.

Definition _verify_microsoft_id_token (id_token : json) : outcome (option (list (string * json))) :=
  claims ← ms_jwt_decode id_token OAUTH_MICROSOFT_CLIENT_ID;
  match claims with
  | None => Ok None
  | Some claims =>
      match or_else (assoc "iss" claims) (JStr "") with
      | JStr iss =>
          if negb (startswith iss _MS_OIDC_ISSUER_PREFIX && endswith iss _MS_OIDC_ISSUER_SUFFIX)
          then Ok None else Ok (Some claims)
      | _ => Raise (AttributeError "object has no attribute 'startswith'")
      end
  end.

(** *** GitHub's addresses *)

Fixpoint primary_email (entries : list json) : outcome string :=
  match entries with
  | [] => Raise (OAuthError "No verified primary email found on GitHub account")
  | entry :: entries =>
      primary ← get entry "primary";
      verified ← get entry "verified";
      if truthy primary && truthy verified
      then email ← getitem entry "email"; Ok (py_str email)
      else primary_email entries
  end.

Definition bearer (access_token : json) : string := "Bearer " ++ py_str access_token.

Definition _fetch_github_primary_email (access_token : json) : outcome string :=
  resp ← http_json (HttpGet "https://api.github.com/user/emails" (bearer access_token));
  entries ← py_iter resp;
  primary_email entries.

(** *** [exchange_code], a branch for each provider *)

Definition google_info (google : list (string * json)) : outcome UserInfo :=
  let email := field google "email" in
  if negb (truthy email) then Raise (OAuthError "Google OAuth response missing email") else
  let verified := is_True (field google "verified_email") || is_True (field google "email_verified") in
  full_name ← or_lazy (field google "name") (local_part email);
  id ← getitem (JObj google) "id";
  Ok (mkUserInfo email full_name (py_str id) (field google "picture") verified).

Definition github_info (access_token : json) (github : list (string * json)) : outcome UserInfo :=
  email ← _fetch_github_primary_email access_token;
  full_name ← or_lazy (field github "name") (or_lazy (field github "login") (local_part (JStr email)));
  id ← getitem (JObj github) "id";
  Ok (mkUserInfo (JStr email) full_name (py_str id) (field github "avatar_url") true).

(** The claims that vouch for an address: not empty, from a verified domain, and
    with an address. *)
Definition vouching (claims : option (list (string * json))) : option (list (string * json)) :=
  match claims with
  | Some (c :: cs) =>
      if is_True (field (c :: cs) "xms_edov") && truthy (field (c :: cs) "email")
      then Some (c :: cs) else None
  | _ => None
  end.

Definition microsoft_info (id_token : json) (ms : list (string * json)) : outcome UserInfo :=
  claims ← (if truthy id_token then _verify_microsoft_id_token id_token else Ok None);
  let display_name := or_else (assoc "displayName" ms) (JStr "") in
  match vouching claims with
  | Some claims =>
      oid ← or_lazy (field claims "oid") (getitem (JObj ms) "id");
      Ok (mkUserInfo (field claims "email") (py_or (field claims "name") display_name) (py_str oid) JNull true)
  | None =>
      let email := py_or (field ms "mail") (field ms "userPrincipalName") in
      if negb (truthy email) then Raise (OAuthError "Microsoft OAuth response missing email") else
      id ← getitem (JObj ms) "id";
      Ok (mkUserInfo email display_name (py_str id) JNull false)
  end.

(** The two requests every exchange starts with. *)
Definition token_request (cfg : _ProviderConfig) (code redirect_uri : string) : http_request :=
  HttpPost cfg.(pc_token_url)
    [("client_id", cfg.(pc_client_id)); ("client_secret", cfg.(pc_client_secret)); ("code", code);
     ("redirect_uri", redirect_uri); ("grant_type", "authorization_code")].
Definition userinfo_request (cfg : _ProviderConfig) (access_token : json) : http_request :=
  HttpGet cfg.(pc_userinfo_url) (bearer access_token).

Definition exchange_code (provider code redirect_uri : string) : outcome UserInfo :=
  prov ← provider_of provider;
  let cfg := _get_config prov in
  token_data ← http_json (token_request cfg code redirect_uri);
  access_token ← get token_data "access_token";
  if negb (truthy access_token)
  then Raise (OAuthError "OAuth token response missing access_token") else
  info ← http_json (userinfo_request cfg access_token);
  match info with
  | JObj info =>
      match prov with
      | GOOGLE => google_info info
      | GITHUB => github_info access_token info
      | MICROSOFT => id_token ← get token_data "id_token"; microsoft_info id_token info
      end
  | _ => Raise (OAuthError "Provider returned non-dict userinfo response")
  end.

(** *** The authorization URL *)

(** [quote_plus]: the octets of the text; the unreserved ones stay. *)
Definition unreserved (c : ascii) : bool :=
  let n := N_of_ascii c in
  ((48 <=? n) && (n <=? 57) || (65 <=? n) && (n <=? 90) || (97 <=? n) && (n <=? 122))%N
  || bool_decide (c ∈ ["_"%char; "."%char; "-"%char; "~"%char]).

Definition hex_upper (d : N) : ascii := ascii_of_N (if (d <? 10)%N then d + 48 else d + 55)%N.

Definition quote_char (c : ascii) : list ascii :=
  if unreserved c then [c]
  else if b_eq c " "%char then ["+"%char]
  else ["%"%char; hex_upper (N_of_ascii c / 16); hex_upper (N_of_ascii c mod 16)].

Definition quote_plus (s : string) : string :=
  string_of_list_ascii (flat_map quote_char (list_ascii_of_string s)).

(** [urlencode]. *)
Definition urlencode (params : list (string * string)) : string :=
  String.concat "&" (map (λ p, quote_plus p.1 ++ "=" ++ quote_plus p.2) params).

Definition authorization_params (cfg : _ProviderConfig) (redirect_uri state : string) :
    list (string * string) :=
  [("client_id", cfg.(pc_client_id)); ("redirect_uri", redirect_uri); ("response_type", "code");
   ("scope", cfg.(pc_scopes)); ("state", state)].

Definition get_authorization_url (provider redirect_uri state : string) : outcome string :=
  prov ← provider_of provider;
  let cfg := _get_config prov in
  Ok (cfg.(pc_authorize_url) ++ "?" ++ urlencode (authorization_params cfg redirect_uri state)).

End Providers.
