(* ===== verification/AuthForms.v ===== *)
(** * The front door

    The request bodies of [apps/users/auth_serializers.py], the reCAPTCHA check of
    [apps/users/captcha.py], and the [post] methods of [apps/users/auth_views.py] that
    validate a body and run a handler of [AuthViews.v]; the OAuth requests of a browser
    with its session.  Google's [siteverify] endpoint, Django's validators and its
    sessions are not in the repository: the first two are parameters, a session is the
    value of its [oauth_state]. *)

From Stdlib Require Import SpecFloat.
From S2P Require Import Prelude PyVal Effects Domain Relational Store Django Auth.
From S2P Require Import AuthViews OAuthProviders Currency Fields Profile Avatar.

#[local] Open Scope string_scope.

(** ** The captcha *)

Class CaptchaSettings := {
  RECAPTCHA_SECRET_KEY : string;
  RECAPTCHA_MIN_SCORE : spec_float
}.

(** The JSON answer to the form posted to [_SITEVERIFY_URL], or the exception of the
    transport, of [raise_for_status()] or of [json()]. *)
Class SiteVerify := siteverify : list (string * string) → outcome fx_json.

(** [validate_password] of [AUTH_PASSWORD_VALIDATORS]. *)
Class PasswordPolicy := password_acceptable : string → bool.

Definition CaptchaFailedError : exn := APIException 400 "captcha_failed".

(** [data.get(k, d)]. *)
Definition fx_get_default (data : fx_json) (k : string) (d : fx_json) : outcome fx_json :=
  match data with
  | FxObj fields => Ok (or_else (fx_assoc k fields) d)
  | _ => Raise (AttributeError "object has no attribute 'get'")
  end.

Definition fx_truthy (v : fx_json) : bool :=
  match v with
  | FxNum x => negb (SFeqb x (S754_zero false))
  | FxStr s => negb (b_eq s "")
  | FxBool b => b
  | FxNull => false
  | FxArr l => match l with [] => false | _ => true end
  | FxObj l => match l with [] => false | _ => true end
  end.

Section Captcha.
  Context `{CaptchaSettings} `{SiteVerify}.

(** [score < settings.RECAPTCHA_MIN_SCORE]. *)
Definition below_min_score (score : fx_json) : outcome bool :=
  match score with
  | FxNum x => Ok (SFltb x RECAPTCHA_MIN_SCORE)
  | FxBool b => Ok (SFltb (float_of_Z (if b then 1 else 0)) RECAPTCHA_MIN_SCORE)
  | _ => Raise (TypeError "'<' not supported between instances")
  end.

Definition captcha_payload (token : string) (remote_ip : option string) : list (string * string) :=
  ([("secret", RECAPTCHA_SECRET_KEY); ("response", token)] ++
   match remote_ip with
   | Some ip => if b_eq ip "" then [] else [("remoteip", ip)]
   | None => []
   end)%list.

(** [except (httpx.HTTPError, ValueError)]. *)
Definition is_unreachable (e : exn) : bool :=
  match e with HTTPError _ | ValueError _ => true | _ => false end.

Definition verify_recaptcha (token action : string) (remote_ip : option string) : outcome unit :=
  if b_eq RECAPTCHA_SECRET_KEY "" then Ok tt else
  if b_eq token "" then Raise CaptchaFailedError else
  match siteverify (captcha_payload token remote_ip) with
  | Raise e => if is_unreachable e then Ok tt else Raise e
  | Ok data =>
      success ← fx_get_default data "success" (FxBool false);
      if negb (fx_truthy success) then Raise CaptchaFailedError else
      a ← fx_get data "action";
      if negb (fx_is_str a action) then Raise CaptchaFailedError else
      score ← fx_get_default data "score" (FxNum (S754_zero false));
      low ← below_min_score score;
      if low : bool then Raise CaptchaFailedError else Ok tt
  end.

(** [CaptchaProtectedSerializer]: the fields, then [validate]. *)
Definition captcha_protected {A} (captcha_action : string) (captcha_token : field string)
    (fields : outcome A) : outcome A :=
  token ← defaulted "" CharField_blank captcha_token;
  attrs ← fields;
  _ ← verify_recaptcha token captcha_action None;
  Ok attrs.

End Captcha.

(** ** The bodies *)

Record RegisterBody := mkRegisterBody {
  rb_captcha_token : field string;
  rb_email : field string;
  rb_password : field string;
  rb_full_name : field string
}.
(** The bodies of the password-reset and resend requests. *)
Record EmailBody := mkEmailBody { eb_captcha_token : field string; eb_email : field string }.
Record LoginBody := mkLoginBody { lb_email : field string; lb_password : field string }.
Record TokenPasswordBody := mkTokenPasswordBody { tb_token : field string; tb_password : field string }.
Record ChangePasswordBody := mkChangePasswordBody {
  cb_current_password : field string;
  cb_new_password : field string
}.

Section Serializers.
  Context `{CaptchaSettings} `{SiteVerify} `{PasswordPolicy} `{EmailValidator}.

Definition _run_password_validators (password : string) : outcome string :=
  if password_acceptable password then Ok password else Raise ValidationError.

(** [CharField(min_length=10, max_length=128)] with [validate_password]. *)
Definition new_password (s : string) : outcome string :=
  s ← CharField_between 10 128 s; _run_password_validators s.

Definition RegisterSerializer (b : RegisterBody) : outcome (string * string * string) :=
  captcha_protected "register" b.(rb_captcha_token)
    (email ← required EmailField b.(rb_email);
     password ← required new_password b.(rb_password);
     full_name ← required (CharField_between FULL_NAME_MIN_LENGTH 255) b.(rb_full_name);
     Ok (email, password, full_name)).

Definition LoginSerializer (b : LoginBody) : outcome (string * string) :=
  email ← required EmailField b.(lb_email);
  password ← required CharField_any b.(lb_password);
  Ok (email, password).

(** [RefreshSerializer], [LogoutSerializer] and [OAuthConfirmLinkSerializer]. *)
Definition RefreshSerializer (token : field string) : outcome string := required CharField_any token.

Definition VerifyEmailSerializer (b : TokenPasswordBody) : outcome (string * option string) :=
  token ← required CharField_any b.(tb_token);
  password ← optional new_password b.(tb_password);
  Ok (token, password).

Definition ForgotPasswordSerializer (b : EmailBody) : outcome string :=
  captcha_protected "forgot_password" b.(eb_captcha_token) (required EmailField b.(eb_email)).

Definition ResendVerificationSerializer (b : EmailBody) : outcome string :=
  captcha_protected "resend_verification" b.(eb_captcha_token) (required EmailField b.(eb_email)).

Definition ResetPasswordSerializer (b : TokenPasswordBody) : outcome (string * string) :=
  token ← required CharField_any b.(tb_token);
  password ← required new_password b.(tb_password);
  Ok (token, password).

Definition ChangePasswordSerializer (b : ChangePasswordBody) : outcome (string * string) :=
  current ← required CharField_any b.(cb_current_password);
  new ← required new_password b.(cb_new_password);
  Ok (current, new).

Definition OAuthExchangeRequestSerializer (code : field string) : outcome string :=
  required (CharField 128) code.

End Serializers.

(** ** The endpoints *)

Section Posts.
  Context `{CaptchaSettings} `{SiteVerify} `{PasswordPolicy} `{EmailValidator}.
  Context `{DjangoLib} `{AuthBackend} `{Secrets} `{JWT}.

Definition register_post (b : RegisterBody) : M store response :=
  data ← lift (RegisterSerializer b);
  _register_user data.1.1 data.1.2 data.2.

Definition verify_email_post (b : TokenPasswordBody) : M store response :=
  data ← lift (VerifyEmailSerializer b);
  verify_email data.1 data.2.

Definition resend_verification_post (b : EmailBody) : M store response :=
  email ← lift (ResendVerificationSerializer b);
  resend_verification email.

Definition login_post (b : LoginBody) : M store response :=
  data ← lift (LoginSerializer b);
  login data.1 data.2.

Definition refresh_post (refresh_token : field string) : M store response :=
  token ← lift (RefreshSerializer refresh_token);
  refresh_view token.

Definition logout_post (auth_header : string) (refresh_token : field string) : M store response :=
  require_user auth_header;;
  token ← lift (RefreshSerializer refresh_token);
  revoke_refresh_token token;;
  mret NoContent.

Definition forgot_password_post (b : EmailBody) : M store response :=
  email ← lift (ForgotPasswordSerializer b);
  forgot_password email.

Definition reset_password_post (b : TokenPasswordBody) : M store response :=
  data ← lift (ResetPasswordSerializer b);
  reset_password data.1 data.2.

Definition change_password_post (auth_header : string) (b : ChangePasswordBody) : M store response :=
  user ← require_user auth_header;
  data ← lift (ChangePasswordSerializer b);
  change_password_of user data.1 data.2.

Definition oauth_exchange_post (code : field string) : M store response :=
  code ← lift (OAuthExchangeRequestSerializer code);
  oauth_exchange code.

Definition oauth_confirm_link_post (token : field string) : M store response :=
  token ← lift (RefreshSerializer token);
  oauth_confirm_link token.

End Posts.

(** ** The OAuth requests of a browser *)

(** [request.session["oauth_state"]]. *)
Definition session : Type := option string.

(** Where the browser is sent. *)
Inductive location :=
  | ToFrontend (r : redirect)
  | ToProvider (url : string).

Section OAuth.
  Context `{DjangoLib} `{AuthBackend} `{Secrets} `{JWT} `{OAuthSettings} `{RequestHost}.

Definition callback_uri (provider : string) : string :=
  build_absolute_uri ("/api/v1/auth/oauth/" ++ provider ++ "/callback/").

(** [OAuthAuthorizeView.get]. *)
Definition oauth_authorize (provider : string) (s : session) : M store (location * session) :=
  if negb (str_in provider PROVIDERS) then mret (ToFrontend (RedirectError "invalid_provider"), s) else
  state ← fresh_token;
  url ← lift (get_authorization_url provider (callback_uri provider) state);
  mret (ToProvider url, Some state).

(** [OAuthCallbackView.get]: [oauth_state] is popped once the provider is known.  When
    the request ends in an exception the session is not saved.  [exchange] is the outcome
    of [exchange_code], as in [oauth_callback]. *)
Definition oauth_callback_get (provider : string) (code state error : option string)
    (exchange : outcome OAuthUserInfo) (s : session) : M store (location * session) :=
  r ← oauth_callback provider code state error s exchange;
  mret (ToFrontend r, if str_in provider PROVIDERS then None else s).

End OAuth.
