(* ===== verification/OAuthProviderFacts.v ===== *)
(** * What an OAuth provider vouches for

    When the code exchange concludes that an e-mail address is verified, whom the
    callback may sign in because of it, and that the authorization URL carries its
    parameters. *)

From S2P Require Import Prelude PyVal Text Effects Domain Relational Store StoreFacts Django Auth.
From S2P Require Import AuthViews TokenFacts OAuthFacts OAuthProviders.

#[local] Open Scope string_scope.

(** ** Specification *)

(** The parameters of a query string: the decoder of the receiving end. *)
Fixpoint unquote_plus (l : chars) : chars :=
  match l with
  | [] => []
  | c :: l' =>
      if b_eq c "+"%char then " "%char :: unquote_plus l'
      else if b_eq c "%"%char then
        match l' with
        | a :: b :: r =>
            match hex_val a, hex_val b with
            | Some x, Some y => ascii_of_N (16 * x + y) :: unquote_plus r
            | _, _ => c :: unquote_plus l'
            end
        | _ => c :: unquote_plus l'
        end
      else c :: unquote_plus l'
  end.

Definition unquoted (l : chars) : string := string_of_list_ascii (unquote_plus l).

Definition parse_pair (l : chars) : string * string :=
  let '(k, _, v) := partition "="%char l in (unquoted k, unquoted v).

Definition parse_query (url : string) : list (string * string) :=
  parse_pair <$> split_on "&"%char (partition "?"%char (list_ascii_of_string url)).2.

Section Facts.
  Context `{OAuthHTTP} `{MicrosoftJWT} `{OAuthSettings}.
  Context `{DjangoLib} `{AuthBackend} `{Secrets} `{JWT}.

(** The provider's answers to the first two requests: the token's and the user's. *)
Definition answered (p : Provider) (code redirect_uri : string) (token : json)
    (user : list (string * json)) : Prop :=
  ∃ access_token,
    http_json (token_request (_get_config p) code redirect_uri) = Ok token ∧
    get token "access_token" = Ok access_token ∧ truthy access_token = true ∧
    http_json (userinfo_request (_get_config p) access_token) = Ok (JObj user).

(** What shows that the address of [i] belongs to the user it describes. *)
Definition evidence (p : Provider) (code redirect_uri : string) (i : UserInfo) : Prop :=
  ∃ token user, answered p code redirect_uri token user ∧
  match p with
  | GOOGLE =>
      (assoc "verified_email" user = Some (JBool true) ∨ assoc "email_verified" user = Some (JBool true)) ∧
      assoc "email" user = Some i.(ui_email) ∧ py_str <$> assoc "id" user = Some i.(ui_provider_user_id)
  | GITHUB =>
      ∃ access_token emails entry email,
        get token "access_token" = Ok access_token ∧
        http_json (HttpGet "https://api.github.com/user/emails" (bearer access_token)) = Ok (JArr emails) ∧
        JObj entry ∈ emails ∧ truthy (field entry "primary") = true ∧
        truthy (field entry "verified") = true ∧ assoc "email" entry = Some email ∧
        i.(ui_email) = JStr (py_str email) ∧ py_str <$> assoc "id" user = Some i.(ui_provider_user_id)
  | MICROSOFT =>
      ∃ id_token claims iss,
        get token "id_token" = Ok id_token ∧ truthy id_token = true ∧
        ms_jwt_decode id_token OAUTH_MICROSOFT_CLIENT_ID = Ok (Some claims) ∧
        assoc "iss" claims = Some (JStr iss) ∧ startswith iss _MS_OIDC_ISSUER_PREFIX = true ∧
        endswith iss _MS_OIDC_ISSUER_SUFFIX = true ∧ assoc "xms_edov" claims = Some (JBool true) ∧
        assoc "email" claims = Some i.(ui_email) ∧
        ∃ oid, py_str oid = i.(ui_provider_user_id) ∧
          if truthy (field claims "oid") then assoc "oid" claims = Some oid else assoc "id" user = Some oid
  end.

(** ** Helper lemmas *)

Lemma is_True_spec l k : is_True (field l k) = true ↔ assoc k l = Some (JBool true).
Proof.
  unfold field. destruct (assoc k l) as [[|[]| | | |]|]; cbn; split; congruence.
Qed.

Lemma truthy_field l k : truthy (field l k) = true → assoc k l = Some (field l k).
Proof. unfold field. by destruct (assoc k l). Qed.

Lemma getitem_Ok l k v : getitem (JObj l) k = Ok v ↔ assoc k l = Some v.
Proof. cbn. destruct (assoc k l); naive_solver. Qed.

Lemma get_field l k : get (JObj l) k = Ok (field l k).
Proof. done. Qed.

Lemma provider_of_value p : provider_of (provider_value p) = Ok p.
Proof. by destruct p. Qed.

Lemma known_provider s : str_in s PROVIDERS = true → ∃ p, s = provider_value p.
Proof.
  rewrite str_in_true. unfold PROVIDERS. rewrite !elem_of_cons.
  intros [->|[->|[->|Hn%elem_of_nil]]]; [by exists GOOGLE|by exists GITHUB|by exists MICROSOFT|done].
Qed.

Lemma provider_of_Ok s p : provider_of s = Ok p → s = provider_value p.
Proof.
  unfold provider_of. destruct (List.find _ _) as [q|] eqn:Hf; [|done]. intros [= <-].
  apply List.find_some in Hf as [_ Hb]. by rewrite b_eq_true in Hb.
Qed.

Lemma exchange_Ok provider code uri i :
  exchange_code provider code uri = Ok i →
  ∃ p token user access_token, provider = provider_value p ∧ answered p code uri token user ∧
    get token "access_token" = Ok access_token ∧
    match p with
    | GOOGLE => google_info user = Ok i
    | GITHUB => github_info access_token user = Ok i
    | MICROSOFT => ∃ id_token, get token "id_token" = Ok id_token ∧ microsoft_info id_token user = Ok i
    end.
Proof.
  unfold exchange_code. intros (p & Hp%provider_of_Ok & (token & Ht & (at_ & Ha & Hi)%outcome_bind_Ok)%outcome_bind_Ok)%outcome_bind_Ok.
  destruct (truthy at_) eqn:Htr; cbn [negb] in Hi; [|done].
  apply outcome_bind_Ok in Hi as (info & Hu & Hi).
  destruct info as [| | | | |user]; try done. exists p, token, user, at_.
  split_and!; [done| |done|]; [by exists at_|].
  destruct p; [done|done|]. by apply outcome_bind_Ok in Hi.
Qed.

Lemma primary_email_Ok l e :
  primary_email l = Ok e →
  ∃ entry email, JObj entry ∈ l ∧ truthy (field entry "primary") = true ∧
    truthy (field entry "verified") = true ∧ assoc "email" entry = Some email ∧ e = py_str email.
Proof.
  induction l as [|x l IH]; [done|]. cbn [primary_email].
  intros (pr & Hpr & (ve & Hve & He)%outcome_bind_Ok)%outcome_bind_Ok.
  destruct x as [| | | | |entry]; try done. rewrite get_field in Hpr, Hve.
  injection Hpr as <-. injection Hve as <-. destruct (_ && _) eqn:Hb.
  - apply andb_true_iff in Hb as [Hp Hv].
    apply outcome_bind_Ok in He as (email & Hem%getitem_Ok & [= <-]).
    exists entry, email. split_and!; [left|done..].
  - destruct (IH He) as (y & em & Hy & ?). exists y, em. split; [by right|done].
Qed.

Lemma primary_email_not_scalar (A : Type) (f : A → json) l e :
  (∀ a s, f a ≠ JObj s) → primary_email (map f l) = Ok e → False.
Proof.
  intros Hf (y & em & (a & Ha & _)%list_elem_of_fmap & _)%primary_email_Ok. by eapply Hf.
Qed.

Lemma github_email at_ e :
  _fetch_github_primary_email at_ = Ok e →
  ∃ emails entry email,
    http_json (HttpGet "https://api.github.com/user/emails" (bearer at_)) = Ok (JArr emails) ∧
    JObj entry ∈ emails ∧ truthy (field entry "primary") = true ∧
    truthy (field entry "verified") = true ∧ assoc "email" entry = Some email ∧ e = py_str email.
Proof.
  unfold _fetch_github_primary_email.
  intros (r & Hr & (l & Hl & He)%outcome_bind_Ok)%outcome_bind_Ok.
  destruct r as [| | |s|emails|fs]; try done; injection Hl as <-.
  - by apply primary_email_not_scalar in He.
  - apply primary_email_Ok in He as (x & em & ?). by exists emails, x, em.
  - by apply primary_email_not_scalar in He.
Qed.

Lemma verify_ms_Ok id_token claims :
  _verify_microsoft_id_token id_token = Ok (Some claims) ↔
  ms_jwt_decode id_token OAUTH_MICROSOFT_CLIENT_ID = Ok (Some claims) ∧
  ∃ iss, or_else (assoc "iss" claims) (JStr "") = JStr iss ∧
    startswith iss _MS_OIDC_ISSUER_PREFIX = true ∧ endswith iss _MS_OIDC_ISSUER_SUFFIX = true.
Proof.
  unfold _verify_microsoft_id_token. rewrite outcome_bind_Ok. split.
  - intros (c & Hd & Hc). destruct c as [c|]; [|done].
    destruct (or_else _ _) as [| | |iss| |] eqn:Hi; try done.
    destruct (_ && _) eqn:Hb; [|done]. injection Hc as <-. apply andb_true_iff in Hb as [].
    split; [done|]. by exists iss.
  - intros (Hd & iss & Hi & Hp & Hs). exists (Some claims). split; [done|]. by rewrite Hi, Hp, Hs.
Qed.

Lemma vouching_Some o claims :
  vouching o = Some claims ↔
  o = Some claims ∧ is_True (field claims "xms_edov") = true ∧ truthy (field claims "email") = true.
Proof.
  unfold vouching. split.
  - destruct o as [[|c cs]|]; [done| |done]. destruct (_ && _) eqn:Hb; [|done]. intros [= <-].
    apply andb_true_iff in Hb. tauto.
  - intros (-> & Hx & He). destruct claims as [|c cs]; [done|]. by rewrite Hx, He.
Qed.

Lemma answered_det p code uri t u t' u' :
  answered p code uri t u → answered p code uri t' u' → t' = t ∧ u' = u.
Proof. intros (a & Ht & Ha & _ & Hu) (a' & Ht' & Ha' & _ & Hu'). naive_solver congruence. Qed.

Lemma or_lazy_Ok a o v : or_lazy a o = Ok v → if truthy a then v = a else o = Ok v.
Proof. unfold or_lazy. destruct (truthy a); congruence. Qed.

Lemma issuer_claim claims iss :
  or_else (assoc "iss" claims) (JStr "") = JStr iss → startswith iss _MS_OIDC_ISSUER_PREFIX = true →
  assoc "iss" claims = Some (JStr iss).
Proof. destruct (assoc "iss" claims) as [v|]; cbn; [congruence|]. intros [= <-]. done. Qed.

(** The three branches: [ui_email_verified] is the evidence. *)
Lemma google_verified code uri token user i :
  answered GOOGLE code uri token user → google_info user = Ok i →
  i.(ui_email_verified) = true ↔ evidence GOOGLE code uri i.
Proof.
  intros Ha. unfold google_info. destruct (truthy (field user "email")) eqn:Ht; [|done]. cbn [negb].
  intros (fn & _ & (id & Hid%getitem_Ok & [= <-])%outcome_bind_Ok)%outcome_bind_Ok. cbn.
  rewrite orb_true_iff, !is_True_spec. split.
  - intros Hv. exists token, user. split_and!; [done..|by apply truthy_field|by rewrite Hid].
  - intros (t & u & Ha' & Hv & _). destruct (answered_det _ _ _ _ _ _ _ Ha Ha') as [-> ->]. done.
Qed.

Lemma github_verified code uri token user at_ i :
  answered GITHUB code uri token user → get token "access_token" = Ok at_ → github_info at_ user = Ok i →
  i.(ui_email_verified) = true ∧ evidence GITHUB code uri i.
Proof.
  intros Ha Hat.
  intros (e & (emails & entry & email & Hr & Hin & Hp & Hv & Hem & ->)%github_email
          & (fn & _ & (id & Hid%getitem_Ok & [= <-])%outcome_bind_Ok)%outcome_bind_Ok)%outcome_bind_Ok.
  split; [done|]. exists token, user. split; [done|]. exists at_, emails, entry, email. cbn.
  split_and!; [done..|by rewrite Hid].
Qed.

Lemma microsoft_verified code uri token user id_token i :
  answered MICROSOFT code uri token user → get token "id_token" = Ok id_token →
  microsoft_info id_token user = Ok i →
  i.(ui_email_verified) = true ↔ evidence MICROSOFT code uri i.
Proof.
  intros Ha Hit. unfold microsoft_info. intros (claims & Hc & Hi)%outcome_bind_Ok. split.
  - intros Hver. destruct (vouching claims) as [cs|] eqn:Hvo.
    2:{ destruct (truthy (py_or _ _)); [|done]. cbn [negb] in Hi.
        apply outcome_bind_Ok in Hi as (id & _ & [= <-]). done. }
    apply vouching_Some in Hvo as (-> & Hx & He). destruct (truthy id_token) eqn:Htr; [|done].
    apply verify_ms_Ok in Hc as (Hd & iss & Hiss & Hp & Hs).
    apply outcome_bind_Ok in Hi as (oid & Hoid%or_lazy_Ok & [= <-]).
    exists token, user. split; [done|]. exists id_token, cs, iss. cbn.
    split_and!; [done..|by apply issuer_claim|done|done|by apply is_True_spec|by apply truthy_field|].
    exists oid. split; [done|]. destruct (truthy (field cs "oid")) eqn:Ho; [|by apply getitem_Ok].
    subst. by apply truthy_field.
  - intros (t & u & Ha' & it & cs & iss & Hit' & Htr & Hd & Hiss & Hp & Hs & Hx & He & _).
    destruct (answered_det _ _ _ _ _ _ _ Ha Ha') as [-> ->].
    rewrite Hit in Hit'. injection Hit' as <-. rewrite Htr in Hc.
    assert (claims = Some cs) as ->.
    { assert (_verify_microsoft_id_token id_token = Ok (Some cs)) as Hv; [|congruence].
      apply verify_ms_Ok. split; [done|]. exists iss. by rewrite Hiss. }
    destruct (truthy (ui_email i)) eqn:Hte.
    + rewrite (proj2 (vouching_Some (Some cs) cs)) in Hi.
      2:{ split_and!; [done|by apply is_True_spec|]. unfold field. by rewrite He. }
      apply outcome_bind_Ok in Hi as (oid & _ & [= <-]). done.
    + exfalso. destruct (vouching (Some cs)) as [cs'|] eqn:Hvo.
      * apply vouching_Some in Hvo as ([= <-] & _ & Ht). unfold field in Ht. rewrite He in Ht. cbn in Ht. congruence.
      * destruct (truthy (py_or (field user "mail") _)) eqn:Hm; [|done]. cbn [negb] in Hi.
        apply outcome_bind_Ok in Hi as (id & _ & [= <-]). cbn in Hte. congruence.
Qed.

(** *** The authorization URL *)

Lemma unquote_char c l : unquote_plus (quote_char c ++ l) = c :: unquote_plus l.
Proof. by destruct c as [[] [] [] [] [] [] [] []]. Qed.

Lemma unquote_quote s : unquoted (list_ascii_of_string (quote_plus s)) = s.
Proof.
  unfold unquoted, quote_plus. rewrite list_ascii_of_string_of_list_ascii.
  rewrite <-(string_of_list_ascii_of_string s) at 2. f_equal.
  induction (list_ascii_of_string s) as [|c l IH]; [done|]. cbn [flat_map]. by rewrite unquote_char, IH.
Qed.

Definition delimiter (c : ascii) : bool := bool_decide (c ∈ ["&"%char; "="%char; "?"%char]).

Lemma quote_char_free c : Forall (λ c, delimiter c = false) (quote_char c).
Proof. destruct c as [[] [] [] [] [] [] [] []]; repeat constructor. Qed.

Lemma quoted_free s d :
  delimiter d = true → Forall (λ c, c ≠ d) (list_ascii_of_string (quote_plus s)).
Proof.
  intros Hd. unfold quote_plus. rewrite list_ascii_of_string_of_list_ascii.
  induction (list_ascii_of_string s) as [|c l IH]; [constructor|]. cbn [flat_map].
  apply Forall_app. split; [|done]. eapply Forall_impl; [apply quote_char_free|]. cbn. congruence.
Qed.

Lemma quoted_pair_free (p : string * string) :
  Forall (λ c, c ≠ "&"%char) (list_ascii_of_string (quote_plus p.1 ++ "=" ++ quote_plus p.2)).
Proof.
  rewrite !chars_app, !Forall_app. split_and!; [by apply quoted_free| |by apply quoted_free].
  by repeat constructor.
Qed.

Lemma parse_pair_quoted (p : string * string) :
  parse_pair (list_ascii_of_string (quote_plus p.1 ++ "=" ++ quote_plus p.2)) = p.
Proof.
  unfold parse_pair. rewrite !chars_app. cbn [list_ascii_of_string app].
  rewrite partition_at by by apply quoted_free. rewrite !unquote_quote. by destruct p.
Qed.

Lemma parse_query_urlencode base params :
  params ≠ [] → Forall (λ c, c ≠ "?"%char) (list_ascii_of_string base) →
  parse_query (base ++ "?" ++ urlencode params) = params.
Proof.
  intros Hne Hb. unfold parse_query, urlencode. rewrite chars_app.
  change (list_ascii_of_string ("?" ++ ?s)) with ("?"%char :: list_ascii_of_string s).
  rewrite partition_at by done. cbn [snd]. rewrite split_on_concat.
  - rewrite <-!list_fmap_compose. rewrite <-(list_fmap_id params) at 2. apply list_fmap_ext.
    intros _ p _. apply parse_pair_quoted.
  - by destruct params.
  - apply Forall_fmap, Forall_true. apply quoted_pair_free.
Qed.

(** *** The callback *)

Lemma finish_collision p i existing w c w' :
  finish_callback p i (Collision existing) w ≠ (Ok (RedirectCallback c), w').
Proof. unfold finish_callback. rewrite bind_run. match goal with |- context [match ?m w with _ => _ end] => destruct (m w) as [[]] end; done. Qed.

(** No handler moves the clock. *)
Definition at_time (t : datetime) (w : world store) : Prop := w.(w_now) = t.

Lemma at_time_exec t f : preserves (at_time t) (exec f).
Proof. intros w Hw. unfold exec. by destruct (f (w_db w)). Qed.
Lemma at_time_uuid4 t : preserves (at_time t) uuid4.
Proof. by intros w Hw. Qed.
Lemma at_time_atomic {A} t (m : M store A) : preserves (at_time t) m → preserves (at_time t) (atomic m).
Proof. intros Hm w Hw. specialize (Hm w Hw). unfold atomic. by destruct (m w) as [[]]. Qed.

#[local] Hint Resolve at_time_exec at_time_uuid4 at_time_atomic : preserve.

Lemma at_time_social t p pid user : preserves (at_time t) (social_get_or_create p pid user).
Proof. unfold social_get_or_create, dquery, dexec. auto 10 with preserve. Qed.
Lemma at_time_create_user t e pw n a v m : preserves (at_time t) (create_user e pw n a v m).
Proof. unfold create_user, dexec, invalidate_auth_user_cache. auto 10 with preserve. Qed.

#[local] Hint Resolve at_time_social at_time_create_user : preserve.

Lemma at_time_resolve t p i : preserves (at_time t) (resolve_oauth_user p i).
Proof. unfold resolve_oauth_user, _link_or_request, objects_get, dquery. auto 12 with preserve. Qed.

Definition user_info_of (i : OAuthUserInfo) : UserInfo :=
  mkUserInfo (JStr i.(oi_email)) (JStr i.(oi_full_name)) i.(oi_provider_user_id)
    (match i.(oi_avatar_url) with Some a => JStr a | None => JNull end) i.(oi_email_verified).

(** The session a callback's one-time code stands for. *)
Definition session_of (c : string) (user : uuid) (u : UserRow) (w w' : world store) : Prop :=
  ∃ raw pk row, c_codes (s_cache (w_db w')) !! c =
      Some (jwt_encode (JObj (access_claims user u (w_now w))), raw, (w_now w + _OAUTH_EXCHANGE_TTL)%Z) ∧
    d_refresh (s_db (w_db w')) !! pk = Some row ∧ row.(rt_user) = user ∧
    row.(rt_token_hash) = _hash_token raw ∧ row.(rt_revoked_at) = None.

Lemma finish_callback_code p i user u w c w' :
  finish_callback p i (ResolvedUser (user, u)) w = (Ok (RedirectCallback c), w') →
  u.(u_is_active) = true ∧ session_of c user u w w'.
Proof.
  unfold finish_callback. destruct (u_is_active u); cbn [negb]; [|done]. rewrite bind_run.
  destruct (create_refresh_token user w) as [[raw|] w1] eqn:Hc; [|done].
  apply create_refresh_run in Hc as (-> & _ & Hnow & _ & _ & _ & Hd). rewrite bind_run. cbn.
  intros [= <- <-]. split; [done|]. eexists _, (w_next w + 1)%N, _. cbn. rewrite Hd, Hnow.
  split; [apply lookup_insert_eq|]. cbn. by rewrite lookup_insert_eq.
Qed.

Lemma exchange_verified provider code uri i :
  exchange_code provider code uri = Ok i →
  ∃ p, provider = provider_value p ∧ (i.(ui_email_verified) = true ↔ evidence p code uri i).
Proof.
  intros (p & token & user & at_ & -> & Ha & Hat & Hi)%exchange_Ok. exists p. split; [done|].
  destruct p.
  - by eapply google_verified.
  - destruct (github_verified _ _ _ _ _ _ Ha Hat Hi). tauto.
  - destruct Hi as (it & Hit & Hi). by eapply microsoft_verified.
Qed.

(** ** Properties *)

(** C34. An address counts as verified exactly when the provider vouches for it:
    whatever the provider's servers answer, an exchange that returns an account
    marks its address verified if and only if Google's user info carries a JSON
    [true] under one of its two flags, GitHub's address list has an entry that is
    primary and verified, or Microsoft's signed token, decoded for this client and
    issued under Microsoft's authority, carries the domain-ownership claim; and the
    address and the account id are those of that answer. *)
Theorem email_verified_iff_evidence provider code uri i :
  exchange_code provider code uri = Ok i →
  ∃ p, provider = provider_value p ∧ (i.(ui_email_verified) = true ↔ evidence p code uri i).
Proof. apply exchange_verified. Qed.

(** The authorization URL of a provider is its endpoint with a query that
    decodes to exactly the client's parameters, whatever characters the redirect
    URI and the state hold; an unknown provider is a [ValueError]. *)
Theorem authorization_url_round_trip provider redirect_uri state :
  match get_authorization_url provider redirect_uri state with
  | Ok url => ∃ p rest, provider = provider_value p ∧
      url = (_get_config p).(pc_authorize_url) ++ "?" ++ rest ∧
      parse_query url = authorization_params (_get_config p) redirect_uri state
  | Raise e => str_in provider PROVIDERS = false ∧ ∃ msg, e = ValueError msg
  end.
Proof.
  unfold get_authorization_url. destruct (provider_of provider) as [p|e] eqn:Hp; cbn [mbind outcome_bind].
  - apply provider_of_Ok in Hp. exists p, (urlencode (authorization_params (_get_config p) redirect_uri state)).
    split_and!; [done..|]. apply parse_query_urlencode; [done|].
    apply (forallb_Forall (λ c, negb (b_eq c "?"%char))); [|by destruct p].
    intros x. by rewrite negb_true_iff, b_eq_false.
  - split.
    + destruct (str_in provider PROVIDERS) eqn:Hs; [|done]. apply known_provider in Hs as [p ->].
      by rewrite provider_of_value in Hp.
    + revert Hp. unfold provider_of. destruct (List.find _ _); [done|]. intros [= <-]. by eexists.
Qed.

(** C35. Whom the OAuth callback signs in: when it hands out a code, the state it
    was called with is the one of the browser's session, the code stands for a
    fresh live session of an active user, and that user is the one linked to the
    provider's account before, or else the provider has vouched for the address
    and it is the user's: he had it already, or he was created with it because
    nobody did. *)
Theorem oauth_callback_vouched provider code state error expected uri i w c w' :
  let d := s_db (w_db w) in
  db_ok d → exchange_code provider (or_else code "") uri = Ok (user_info_of i) →
  oauth_callback provider code state error expected (Ok i) w = (Ok (RedirectCallback c), w') →
  (∃ s, state = Some s ∧ s ≠ "" ∧ expected = Some s) ∧
  ∃ p user u, provider = provider_value p ∧ u.(u_is_active) = true ∧ session_of c user u w w' ∧
    (linked provider i user d ∧ d.(d_users) !! user = Some u ∨
     evidence p (or_else code "") uri (user_info_of i) ∧
     (d.(d_users) !! user = Some u ∧ lower u.(u_email) = lower i.(oi_email) ∨
      user_by_email i.(oi_email) d = None ∧ d.(d_users) !! user = None ∧
      u.(u_email) = normalize_email i.(oi_email) ∧ u.(u_password) = None)).
Proof.
  intros d Hok Hex. unfold oauth_callback.
  destruct (str_in provider PROVIDERS) eqn:Hpr; cbn [negb]; [|done].
  destruct (b_eq (or_else error "") ""); cbn [negb]; [|by case_match].
  destruct (b_eq (or_else state "") "" || negb (b_eq state expected)) eqn:Hst; [done|].
  destruct (b_eq (or_else code "") ""); [done|]. apply orb_false_iff in Hst as [Hs He].
  apply negb_false_iff in He. rewrite b_eq_true in He. rewrite b_eq_false in Hs. intros Hrun.
  split. { destruct state as [s|]; [by exists s|done]. }
  pose proof (resolve_cases provider i w Hok) as Hres.
  pose proof (at_time_resolve (w_now w) provider i w eq_refl) as Hnow.
  rewrite bind_run, catch_run, bind_run in Hrun.
  destruct (resolve_oauth_user provider i w) as [[res|e] w1]; cbn in Hrun.
  2:{ by destruct (resolve_error e). }
  destruct res as [[user u]|[[user u]|]]; [|by apply finish_collision in Hrun..].
  destruct Hres as (Hr & _ & _). apply finish_callback_code in Hrun as [Ha Hse].
  unfold session_of in Hse. cbn in Hnow. rewrite Hnow in Hse.
  apply exchange_verified in Hex as (p & -> & Hv). exists p, user, u. split_and!; [done..|].
  destruct Hr as [(_ & Hl & Hu)|[(Hm & _ & Hu & Hem & _)|(Hver & Hn & Hnu & _ & Hem & _ & Hp)]].
  - by left.
  - right. apply andb_true_iff in Hm as [Hm _]. split; [by apply Hv|by left].
  - right. split; [by apply Hv|by right].
Qed.

End Facts.
