(* ===== verification/AuthFormsFacts.v ===== *)
(** * Who gets through the front door

    What the captcha stops, what becomes of a registration up to the first sign-in, and
    the single use of the state of an OAuth round trip. *)

From Stdlib Require Import SpecFloat.
From S2P Require Import Prelude PyVal Effects Domain Relational Store StoreFacts Django Auth.
From S2P Require Import AuthViews OAuthProviders Currency Fields Profile Avatar.
From S2P Require Import AuthForms TokenFacts SessionFacts AccessFacts ProfileFacts Requests.

#[local] Open Scope string_scope.
#[local] Open Scope list_scope.

(** ** The captcha *)

Section Captcha.
  Context `{CaptchaSettings} `{SiteVerify} `{PasswordPolicy} `{EmailValidator}.
  Context `{DjangoLib} `{AuthBackend} `{Secrets} `{JWT}.

(** A JSON value Python takes for true. *)
Inductive true_value : fx_json → Prop :=
  | true_bool : true_value (FxBool true)
  | true_number x : SFeqb x (S754_zero false) = false → true_value (FxNum x)
  | true_string s : s ≠ "" → true_value (FxStr s)
  | true_array v l : true_value (FxArr (v :: l))
  | true_object f l : true_value (FxObj (f :: l)).

(** The score of an answer, a missing one being zero and a boolean a number. *)
Inductive scored (fields : list (string * fx_json)) : spec_float → Prop :=
  | scored_number x : fx_assoc "score" fields = Some (FxNum x) → scored fields x
  | scored_true : fx_assoc "score" fields = Some (FxBool true) → scored fields (float_of_Z 1)
  | scored_false : fx_assoc "score" fields = Some (FxBool false) → scored fields (float_of_Z 0)
  | scored_missing : fx_assoc "score" fields = None → scored fields (S754_zero false).

(** Google vouches for the token: a success for this action with a score that is not
    below the minimum. *)
Definition vouched (action : string) (data : fx_json) : Prop :=
  ∃ fields v x, data = FxObj fields ∧
    fx_assoc "success" fields = Some v ∧ true_value v ∧
    fx_assoc "action" fields = Some (FxStr action) ∧
    scored fields x ∧ SFltb x RECAPTCHA_MIN_SCORE = false.

(** Google could not be asked or did not answer in JSON. *)
Definition no_verdict (e : exn) : Prop := ∃ msg, e = HTTPError msg ∨ e = ValueError msg.

(** What Google is asked: the site's secret and the token. *)
Definition question (token : string) : list (string * string) :=
  [("secret", RECAPTCHA_SECRET_KEY); ("response", token)].

(** The check is off, or there is a token that Google vouches for or gives no verdict
    on. *)
Definition captcha_passed (action token : string) : Prop :=
  RECAPTCHA_SECRET_KEY = "" ∨
  token ≠ "" ∧
  match siteverify (question token) with
  | Ok data => vouched action data
  | Raise e => no_verdict e
  end.

(** An answer of Google the code cannot read, or an exception it does not expect. *)
Definition unreadable (action token : string) (e : exn) : Prop :=
  token ≠ "" ∧
  match siteverify (question token) with
  | Raise e' => e' = e ∧ ¬ no_verdict e
  | Ok (FxObj fields) =>
      e = TypeError "'<' not supported between instances" ∧
      fx_assoc "action" fields = Some (FxStr action) ∧ ∀ x, ¬ scored fields x
  | Ok _ => e = AttributeError "object has no attribute 'get'"
  end.

Lemma true_value_truthy v : fx_truthy v = true ↔ true_value v.
Proof.
  split.
  - destruct v as [x|s|b| |l|l]; cbn; try done.
    + rewrite negb_true_iff. apply true_number.
    + rewrite negb_true_iff, b_eq_false. apply true_string.
    + destruct b; [constructor|done].
    + destruct l; [done|constructor].
    + destruct l; [done|constructor].
  - intros [|x Hx|s Hs|v' l|f l]; cbn; try done; [by rewrite Hx|by rewrite (proj2 (b_eq_false _ _) Hs)].
Qed.

Lemma success_spec fields :
  fx_truthy (or_else (fx_assoc "success" fields) (FxBool false)) = true ↔
  ∃ v, fx_assoc "success" fields = Some v ∧ true_value v.
Proof.
  rewrite true_value_truthy. destruct (fx_assoc "success" fields) as [v|]; cbn.
  - split; [by exists v|by intros (v' & [= ->] & Hv)].
  - split; [intros Hv; inversion Hv|by intros (v' & Hv & _)].
Qed.

Lemma score_spec fields :
  match below_min_score (or_else (fx_assoc "score" fields) (FxNum (S754_zero false))) with
  | Ok low => ∃ x, scored fields x ∧ SFltb x RECAPTCHA_MIN_SCORE = low ∧ ∀ y, scored fields y → y = x
  | Raise e => e = TypeError "'<' not supported between instances" ∧ ∀ x, ¬ scored fields x
  end.
Proof.
  destruct (fx_assoc "score" fields) as [v|] eqn:Hs; cbn.
  - destruct v as [x|s|b| |l|l]; cbn; try (split; [done|]; intros y Hy; inversion Hy; congruence).
    + exists x. split_and!; [by apply scored_number|done|]. intros y Hy. inversion Hy; congruence.
    + destruct b; eexists; (split_and!; [first [by apply scored_true|by apply scored_false]|done|]);
        intros y Hy; inversion Hy; congruence.
  - exists (S754_zero false). split_and!; [by apply scored_missing|done|]. intros y Hy. inversion Hy; congruence.
Qed.

Lemma unreachable_spec e : is_unreachable e = true ↔ no_verdict e.
Proof.
  unfold no_verdict. split.
  - destruct e; try done; intros _; eexists; [by right|by left].
  - by intros (msg & [->| ->]).
Qed.

Lemma fx_is_str_action action fields :
  fx_is_str (or_else (fx_assoc "action" fields) FxNull) action = true ↔ fx_assoc "action" fields = Some (FxStr action).
Proof.
  unfold fx_is_str. destruct (fx_assoc "action" fields) as [[]|]; cbn; rewrite ?b_eq_true; naive_solver.
Qed.

Lemma verify_recaptcha_spec action token :
  match verify_recaptcha token action None with
  | Ok _ => captcha_passed action token
  | Raise e => ¬ captcha_passed action token ∧ (e = CaptchaFailedError ∨ unreadable action token e)
  end.
Proof.
  unfold verify_recaptcha, captcha_passed, unreadable. change (captcha_payload token None) with (question token).
  destruct (b_eq RECAPTCHA_SECRET_KEY "") eqn:Hk; [left; by apply b_eq_true|]. rewrite b_eq_false in Hk.
  destruct (b_eq token "") eqn:Ht; [rewrite b_eq_true in Ht; split; [tauto|by left]|]. rewrite b_eq_false in Ht.
  destruct (siteverify _) as [data|e].
  2:{ destruct (is_unreachable e) eqn:He; [right; split; [done|by apply unreachable_spec]|].
      assert (¬ no_verdict e) as Hn by (rewrite <- unreachable_spec; congruence).
      split; [|by right]. intros [|[_ ?]]; done. }
  destruct data as [| | | | |fields]; cbn [fx_get_default fx_get mbind outcome_bind];
    try (split; [intros [|(_ & f & ? & ? & ? & _)]; congruence|by right]).
  assert (∀ P : Prop, (vouched action (FxObj fields) → P) → (RECAPTCHA_SECRET_KEY = "" ∨ token ≠ "" ∧ vouched action (FxObj fields)) → P)
    as Hno by (intros P HP [|[_ ?]]; [done|by apply HP]).
  destruct (fx_truthy _) eqn:Hs; cbn [negb].
  2:{ split; [|by left]. refine (Hno False _). intros (f & v & x & [= <-] & Hf & Hv & _).
      assert (fx_truthy (or_else (fx_assoc "success" fields) (FxBool false)) = true) by (apply success_spec; by exists v).
      congruence. }
  apply success_spec in Hs as (v & Hsv & Hv).
  destruct (fx_is_str _ action) eqn:Ha; cbn [negb].
  2:{ split; [|by left]. refine (Hno False _). intros (f & v' & x & [= <-] & _ & _ & Hf%fx_is_str_action & _). congruence. }
  apply fx_is_str_action in Ha. pose proof (score_spec fields) as Hscore.
  destruct (below_min_score _) as [low|e]; cbn [mbind outcome_bind].
  - destruct Hscore as (x & Hx & Hlow & Huniq). destruct low.
    + split; [|by left]. refine (Hno False _). intros (f & v' & y & [= <-] & _ & _ & _ & Hy & Hf).
      rewrite (Huniq y Hy) in Hf. congruence.
    + right. split; [done|]. by exists fields, v, x.
  - destruct Hscore as [-> Hnone]. split; [|by right].
    refine (Hno False _). intros (f & v' & y & [= <-] & _ & _ & _ & Hy & _). by apply (Hnone y).
Qed.

(** The requests that ask for a captcha. *)
Inductive protected :=
  | Register (b : RegisterBody)
  | ForgotPassword (b : EmailBody)
  | ResendVerification (b : EmailBody).

Definition run_protected (q : protected) : M store response :=
  match q with
  | Register b => register_post b
  | ForgotPassword b => forgot_password_post b
  | ResendVerification b => resend_verification_post b
  end.

Definition captcha_action (q : protected) : string :=
  match q with
  | Register _ => "register"
  | ForgotPassword _ => "forgot_password"
  | ResendVerification _ => "resend_verification"
  end.

Definition captcha_token (q : protected) : outcome string :=
  defaulted "" CharField_blank
    match q with Register b => b.(rb_captcha_token) | ForgotPassword b | ResendVerification b => b.(eb_captcha_token) end.

(** What is done for the other fields, when they are valid. *)
Definition handler (q : protected) : outcome (M store response) :=
  match q with
  | Register b =>
      email ← required EmailField b.(rb_email);
      password ← required new_password b.(rb_password);
      full_name ← required (CharField_between FULL_NAME_MIN_LENGTH 255) b.(rb_full_name);
      Ok (_register_user email password full_name)
  | ForgotPassword b => email ← required EmailField b.(eb_email); Ok (forgot_password email)
  | ResendVerification b => email ← required EmailField b.(eb_email); Ok (resend_verification email)
  end.

(** C32. A registration, a password-reset or a verification mail is only ever attempted
    after the captcha passed: the check is off, or Google vouched for the token of this
    very action, or gave no verdict. Any other request changes nothing, sends nothing
    and is an error. *)
Theorem captcha_gate q w :
  match captcha_token q, handler q with
  | Ok token, Ok m =>
      captcha_passed (captcha_action q) token ∧ run_protected q w = m w ∨
      ¬ captcha_passed (captcha_action q) token ∧
      ∃ e, run_protected q w = (Raise e, w) ∧
           (e = CaptchaFailedError ∨ unreadable (captcha_action q) token e)
  | _, _ => ∃ e, run_protected q w = (Raise e, w)
  end.
Proof.
  assert (∀ A (action : string) (t : field string) (fields : outcome A) (f : A → M store response),
    (a ← lift (captcha_protected action t fields); f a) w =
    match defaulted "" CharField_blank t, fields with
    | Ok token, Ok a => match verify_recaptcha token action None with Ok _ => f a w | Raise e => (Raise e, w) end
    | Raise e, _ | Ok _, Raise e => (Raise e, w)
    end) as Hrun.
  { intros A action t fields f. rewrite lift_bind. unfold captcha_protected. cbn.
    destruct (defaulted _ _ _); [|done]. destruct fields; [|done]. cbn. by destruct (verify_recaptcha _ _ _). }
  assert (∀ (action : string) token (m : M store response),
    let r := match verify_recaptcha token action None with Ok _ => m w | Raise e => (Raise e, w) end in
    captcha_passed action token ∧ r = m w ∨
    ¬ captcha_passed action token ∧ ∃ e, r = (Raise e, w) ∧ (e = CaptchaFailedError ∨ unreadable action token e)) as Hgate.
  { intros action token m r. subst r. pose proof (verify_recaptcha_spec action token) as Hv.
    destruct (verify_recaptcha token action None) as [u|e]; [by left|right]. split; [tauto|]. exists e. tauto. }
  destruct q as [b|b|b]; unfold captcha_token, run_protected, register_post, forgot_password_post, resend_verification_post,
    RegisterSerializer, ForgotPasswordSerializer, ResendVerificationSerializer; rewrite Hrun; cbn [captcha_action handler].
  - destruct (defaulted _ _ _) as [token|e]; [|by exists e].
    destruct (required EmailField _) as [email|e]; cbn; [|by exists e].
    destruct (required new_password _) as [password|e]; cbn; [|by exists e].
    destruct (required _ (rb_full_name b)) as [name|e]; cbn; [|by exists e].
    apply Hgate.
  - destruct (defaulted _ _ _) as [token|e]; [|by exists e].
    destruct (required EmailField _) as [email|e]; cbn; [|by exists e].
    apply Hgate.
  - destruct (defaulted _ _ _) as [token|e]; [|by exists e].
    destruct (required EmailField _) as [email|e]; cbn; [|by exists e].
    apply Hgate.
Qed.
End Captcha.

(** ** From a registration to the first sign-in *)

(** Identifiers and tokens still to be drawn do not meet the tables. *)
Definition verify_supply `{Secrets} (w : world store) : Prop :=
  map_Forall (λ i t, (i < w_next w)%N ∧
    ∀ n, (w_next w <= n)%N → (n < token_space)%N → t.(ot_token_hash) ≠ _hash_token (token_urlsafe n))
    (d_verify (s_db (w_db w))).
Definition users_below (w : world store) : Prop := map_Forall (λ i _, (i < w_next w)%N) (d_users (s_db (w_db w))).

Section SignUp.
  Context `{DjangoLibLaws} `{AuthBackend} `{SecretsLaws} `{JWT}.
  Implicit Types w : world store.

Definition supplied w : Prop := refresh_supply w ∧ verify_supply w ∧ users_below w.

(** The draws of a step keep the supply, as long as the tables do not change. *)
Lemma supplied_later w w' :
  supplied w → (w_next w <= w_next w')%N →
  d_refresh (s_db (w_db w')) = d_refresh (s_db (w_db w)) →
  d_verify (s_db (w_db w')) = d_verify (s_db (w_db w)) →
  (∀ i u, d_users (s_db (w_db w')) !! i = Some u →
    (i < w_next w')%N ∨ is_Some (d_users (s_db (w_db w)) !! i)) → supplied w'.
Proof.
  intros (Hr & Hv & Hu) Hn Er Ev Eu. split_and!.
  - intros i r. rewrite Er. intros Hi. destruct (Hr i r Hi) as [Hb Hf]. split; [lia|]. intros n Hw. apply Hf. lia.
  - intros i r. rewrite Ev. intros Hi. destruct (Hv i r Hi) as [Hb Hf]. split; [lia|]. intros n Hw. apply Hf. lia.
  - intros i u Hi. destruct (Eu i u Hi) as [|[u' Hi']]; [done|]. specialize (Hu i u' Hi'). cbn in Hu. lia.
Qed.

(** The row a registration inserts. *)
Definition registered_row w (email password full_name : string) : UserRow :=
  mkUserRow (normalize_email email) full_name None "en" "usd" None None None None None None
    false "email" true (Some (make_password (w_next w + 1) password)) None (w_now w) (w_now w).

Lemma create_user_total email password name w :
  db_ok (s_db (w_db w)) → users_below w → email ≠ "" → password ≠ "" →
  email_is_registered email (s_db (w_db w)) = false →
  varchar 254 (normalize_email email) = true → varchar 255 name = true →
  ∃ w1, create_user email (Some password) name None false "email" w =
      (Ok (w_next w, registered_row w email password name), w1) ∧
    s_db (w_db w1) = with_row (w_next w) (registered_row w email password name) (s_db (w_db w)) ∧
    db_ok (s_db (w_db w1)) ∧ w_tasks w1 = w_tasks w ∧ w_now w1 = w_now w ∧ w_next w1 = (w_next w + 2)%N.
Proof.
  intros Hok Hb Hemail Hpw Hreg Hfe Hfn. unfold create_user. rewrite (proj2 (b_eq_false _ _) Hemail).
  rewrite !bind_run. cbn [uuid4]. rewrite bind_run. cbn [uuid4 w_next]. rewrite bind_run. cbn [utcnow]. rewrite bind_run, dexec_run.
  cbn [w_db w_now w_next]. unfold hash_password. rewrite (proj2 (b_eq_false _ _) Hpw).
  fold (registered_row w email password name). set (u := registered_row w email password name).
  unfold email_is_registered, user_by_email in Hreg. rewrite not_none_false, tfind_None in Hreg.
  assert (insert_user (w_next w) u (s_db (w_db w)) = Ok (with_row (w_next w) u (s_db (w_db w)))) as Hi.
  { unfold insert_user, fresh_pk. destruct (d_users _ !! w_next w) as [v|] eqn:Hv; [apply Hb in Hv; cbn in Hv; lia|].
    cbn [not_none is_none negb mbind outcome_bind]. unfold save_user. rewrite tput_Ok; [done|..].
    - unfold row_ok. cbn -[varchar]. by rewrite Hfe, Hfn.
    - assert (∀ j v, d_users (s_db (w_db w)) !! j = Some v → lower (u_email v) ≠ lower (normalize_email email)) as Hne.
      { intros j v Hj. rewrite lower_normalize_email. specialize (Hreg j v Hj). by apply b_eq_false in Hreg. }
      repeat constructor; apply conflicts_false; intros j v Hj _ _ [= Hk]; by eapply Hne; [|rewrite Hk]. }
  rewrite Hi. cbn [mret M_ret]. rewrite bind_run. eexists. split; [reflexivity|]. cbn. split_and!; [done| |done..|lia].
  by eapply insert_user_ok.
Qed.

Lemma create_verification_total user w :
  db_ok (s_db (w_db w)) → verify_supply w → (w_next w + 2 <= token_space)%N →
  is_Some (d_users (s_db (w_db w)) !! user) →
  let token := token_urlsafe (w_next w) in
  let row := mkOneTimeRow user (_hash_token token) (w_now w) (w_now w + EMAIL_VERIFICATION_LIFETIME) None in
  ∃ w1, create_email_verification_token user w = (Ok token, w1) ∧
    s_db (w_db w1) = set_verify (<[(w_next w + 1)%N := row]> (d_verify (s_db (w_db w)))) (s_db (w_db w)) ∧
    db_ok (s_db (w_db w1)) ∧ w_tasks w1 = w_tasks w ∧ w_now w1 = w_now w ∧ w_next w1 = (w_next w + 2)%N.
Proof.
  intros Hok Hs Hn [u Hu] token row. unfold create_email_verification_token, _create_one_time_token, fresh_token. munfold.
  rewrite dexec_run. cbn [w_db w_now w_next]. fold token. fold row.
  assert (insert_verify (w_next w + 1) row (s_db (w_db w)) =
    Ok (set_verify (<[(w_next w + 1)%N := row]> (d_verify (s_db (w_db w)))) (s_db (w_db w)))) as Hi.
  { unfold insert_verify, fresh_pk. destruct (d_verify _ !! _) as [r|] eqn:Hr; [destruct (Hs _ _ Hr); lia|].
    cbn [not_none is_none negb]. unfold save_verify. rewrite tput_Ok; [done|..].
    - unfold row_ok. cbn -[varchar]. unfold _hash_token. by rewrite sha256_hex_length, Hu.
    - repeat constructor. apply conflicts_false. intros j b Hb _ _ [= Hk].
      destruct (Hs _ _ Hb) as [_ Hf]. destruct (Hf (w_next w)); [lia|lia|exact Hk]. }
  rewrite Hi. eexists. split; [reflexivity|]. cbn. split_and!; [done| |done..|lia]. by eapply insert_verify_ok.
Qed.

(** A live session of the user, for which the token stands. *)
Definition opens_session (user : uuid) (refresh : string) (d : db) : Prop :=
  ∃ i row, d_refresh d !! i = Some row ∧ row.(rt_user) = user ∧ row.(rt_token_hash) = _hash_token refresh ∧
    row.(rt_revoked_at) = None.

Lemma sign_in_total user u status w :
  db_ok (s_db (w_db w)) → refresh_supply w → (w_next w + 2 <= token_space)%N →
  is_Some (d_users (s_db (w_db w)) !! user) →
  ∃ refresh w1, sign_in user u status w =
      (Ok (TokenPair status (jwt_encode (JObj (access_claims user u (w_now w)))) refresh), w1) ∧
    opens_session user refresh (s_db (w_db w1)) ∧ refresh_supply w1 ∧ db_ok (s_db (w_db w1)) ∧
    d_users (s_db (w_db w1)) = d_users (s_db (w_db w)) ∧ d_verify (s_db (w_db w1)) = d_verify (s_db (w_db w)) ∧
    w_tasks w1 = w_tasks w ∧ w_next w1 = (w_next w + 2)%N.
Proof.
  intros Hok Hs Hn Hu. destruct (create_refresh_total user w Hok Hs Hn Hu) as (w1 & Hrun & Hs1 & Hok1).
  pose proof (create_refresh_run _ _ _ _ Hrun) as (_ & Hnext & Hnow & Htasks & _ & _ & Hdb).
  exists (token_urlsafe (w_next w)), w1. unfold sign_in. rewrite (bind_Ok _ _ _ _ _ Hrun).
  unfold _token_response, create_access_token. rewrite !bind_run. cbn [utcnow mret M_ret]. rewrite Hnow.
  split; [done|]. rewrite Hdb. split_and!; try done.
  - eexists _, _. split; [apply lookup_insert_eq|done].
  - by rewrite <- Hdb.
Qed.

Lemma register_total email password name w :
  db_ok (s_db (w_db w)) → supplied w → (w_next w + 6 <= token_space)%N → email ≠ "" → password ≠ "" →
  email_is_registered email (s_db (w_db w)) = false →
  varchar 254 (normalize_email email) = true → varchar 255 name = true →
  let user := w_next w in
  let u := registered_row w email password name in
  let token := token_urlsafe (w_next w + 2) in
  ∃ r w1, _register_user email password name w = (Ok r, w1) ∧
    d_users (s_db (w_db w1)) = <[user := u]> (d_users (s_db (w_db w))) ∧
    d_verify (s_db (w_db w1)) !! (w_next w + 3)%N =
      Some (mkOneTimeRow user (_hash_token token) (w_now w) (w_now w + EMAIL_VERIFICATION_LIFETIME) None) ∧
    w_tasks w1 = w_tasks w ++ [send_verification_email_task_delay u.(u_email) token] ∧
    db_ok (s_db (w_db w1)) ∧ supplied w1 ∧ w_next w1 = (w_next w + 6)%N.
Proof.
  intros Hok (Hr & Hv & Hb) Hn Hemail Hpw Hreg Hfe Hfn user u token.
  destruct (create_user_total email password name w Hok Hb Hemail Hpw Hreg Hfe Hfn)
    as (w1 & Hrun1 & Hdb1 & Hok1 & Ht1 & Hnow1 & Hn1). fold user u in Hrun1, Hdb1.
  unfold _register_user. rewrite bind_run. unfold dquery at 1, query at 1. rewrite Hreg.
  rewrite bind_run. unfold catch, atomic. rewrite Hrun1.
  assert (supplied w1) as (Hr1 & Hv1 & Hb1).
  { apply (supplied_later w); [done|lia|by rewrite Hdb1..|]. intros i v. rewrite Hdb1. cbn.
    intros [[<- <-]|[_ Hi]]%lookup_insert_Some; [left; lia|right; by eexists]. }
  assert (is_Some (d_users (s_db (w_db w1)) !! user)) as Hu1 by (rewrite Hdb1; cbn; rewrite lookup_insert_eq; by eexists).
  destruct (create_verification_total user w1) as (w2 & Hrun2 & Hdb2 & Hok2 & Ht2 & Hnow2 & Hn2); [done|done|lia|done|].
  rewrite Hn1 in Hrun2. rewrite Hn1, Hnow1 in Hdb2. fold token in Hrun2, Hdb2. rewrite (bind_Ok _ _ _ _ _ Hrun2).
  rewrite bind_run. cbn [delay]. set (w3 := set_tasks _ w2).
  assert (supplied w3) as (Hr3 & Hv3 & Hb3).
  { split_and!.
    - intros i r. cbn. rewrite Hdb2. cbn. intros Hi. destruct (Hr1 i r Hi) as [? Hf]. split; [lia|]. intros n Hw. apply Hf. lia.
    - intros i r. cbn. rewrite Hdb2. cbn. intros [[<- <-]|[_ Hi]]%lookup_insert_Some.
      + split; [lia|]. intros n Hw1 Hw2. cbn. unfold token, _hash_token. intros Heq%sha256_hex_inj; lia.
      + destruct (Hv1 i r Hi) as [? Hf]. split; [lia|]. intros n Hw. apply Hf. lia.
    - intros i v. cbn. rewrite Hdb2. cbn. intros Hi. specialize (Hb1 i v Hi). cbn in Hb1. lia. }
  destruct (sign_in_total user u 201 w3) as (refresh & w4 & Hrun4 & _ & Hr4 & Hok4 & Hus4 & Hvs4 & Ht4 & Hn4);
    [done|done|cbn; lia|cbn; by rewrite Hdb2|]. cbn [fst snd]. rewrite Hrun4. eexists _, _. split; [done|].
  cbn in Hn4. split_and!; [| | |done| |lia].
  - rewrite Hus4. cbn. rewrite Hdb2. cbn. by rewrite Hdb1.
  - rewrite Hvs4. cbn. rewrite Hdb2. cbn. replace (w_next w + 2 + 1)%N with (w_next w + 3)%N by lia. apply lookup_insert_eq.
  - rewrite Ht4. cbn. by rewrite Ht2, Ht1.
  - split; [done|]. unfold verify_supply, users_below. rewrite Hus4, Hvs4. split.
    + intros i r Hi. destruct (Hv3 i r Hi) as [? Hf]. cbn in *. split; [lia|]. intros n Hw. apply Hf. cbn. lia.
    + intros i v Hi. specialize (Hb3 i v Hi). cbn in *. lia.
Qed.

Lemma tcount_pos {A} (p : N → A → bool) t i a : t !! i = Some a → p i a = true → tcount p t ≠ 0%nat.
Proof.
  intros Ha Hp Hz. unfold tcount in Hz. apply nil_length_inv in Hz.
  assert ((i, a) ∈ filter (λ r, p r.1 r.2 = true) (rows t)) as Hin by (apply list_elem_of_filter; by rewrite rows_elem).
  rewrite Hz in Hin. by apply elem_of_nil in Hin.
Qed.

(** A live token is consumed. *)
Lemma consume_total user u token i row w :
  db_ok (s_db (w_db w)) →
  d_verify (s_db (w_db w)) !! i = Some row → row.(ot_token_hash) = _hash_token token → row.(ot_user) = user →
  row.(ot_used_at) = None → (w_now w < row.(ot_expires_at))%Z →
  d_users (s_db (w_db w)) !! user = Some u → u.(u_is_active) = true →
  verify_email_token token w =
    (Ok (user, u), set_db (mkStore (mark_where EmailVerificationToken (redeemable (_hash_token token) (w_now w))
       (w_now w) (s_db (w_db w))) (s_cache (w_db w)) (s_media (w_db w))) w).
Proof.
  intros Hok Hrow Hhash Huser Hused Hexp Hu Hact.
  assert (tfind (λ _ a, b_eq a.(ot_token_hash) (_hash_token token)) (d_verify (s_db (w_db w))) = Some (i, row)) as Hfind.
  { apply tfind_unique; [done|by apply b_eq_true|]. intros j b Hb Hj. rewrite b_eq_true in Hj.
    eapply (hashes_unique onetime_schema _ _ ot_token_hash); [|by left|exact Hb|exact Hrow|congruence].
    by apply db_ok_tokens in Hok as (_ & ? & _). }
  assert (redeemable (_hash_token token) (w_now w) row = true) as Hred.
  { unfold redeemable. rewrite (proj2 (b_eq_true _ _) Hhash), Hused. by apply Z.ltb_lt. }
  assert (Nat.eqb (tcount (λ _ a, redeemable (_hash_token token) (w_now w) a) (d_verify (s_db (w_db w)))) 0 = false) as Hcount.
  { apply Nat.eqb_neq. by eapply tcount_pos. }
  unfold verify_email_token, _verify_one_time_token, _consume_one_time_token, consume_checks, consume_update, dquery. munfold.
  cbn [ot_table ot_token EmailVerificationToken id] in *. rewrite Hfind. cbn [option_bind snd]. rewrite Huser, Hu.
  cbn [option_bind snd]. rewrite Hused, (proj2 (Z.leb_gt _ _) Hexp). cbn [not_none is_none negb].
  rewrite Hcount, dexec_run. cbn. rewrite Hact. cbn. by rewrite Huser.
Qed.

(** The link of the mail, before it expires, verifies the address. *)
Lemma verify_total user u token i row w :
  db_ok (s_db (w_db w)) → supplied w → (w_next w + 3 <= token_space)%N →
  d_verify (s_db (w_db w)) !! i = Some row → row.(ot_token_hash) = _hash_token token → row.(ot_user) = user →
  row.(ot_used_at) = None → (w_now w < row.(ot_expires_at))%Z →
  d_users (s_db (w_db w)) !! user = Some u → u.(u_is_active) = true → u.(u_is_verified) = false →
  is_Some u.(u_password) →
  ∃ r w1, verify_email token None w = (Ok r, w1) ∧
    d_users (s_db (w_db w1)) = <[user := with_updated_at (w_now w) (with_verified u)]> (d_users (s_db (w_db w))) ∧
    db_ok (s_db (w_db w1)) ∧ supplied w1 ∧ w_next w1 = (w_next w + 3)%N.
Proof.
  intros Hok Hs Hn Hrow Hhash Huser Hused Hexp Hu Hact Hver [h Hh].
  unfold verify_email. rewrite bind_run.
  rewrite (consume_total user u token i row) by done. set (w1 := set_db _ w). cbn [snd fst].
  unfold has_usable_password. rewrite Hh, Hver. cbn [not_none is_none negb orb]. rewrite bind_run. cbn [uuid4].
  rewrite bind_run. cbn [utcnow]. rewrite bind_run. unfold save_user_fields. rewrite bind_run, dexec_run.
  set (now := w_now w). set (v := with_updated_at now (with_verified u)).
  set (d := mark_where EmailVerificationToken (redeemable (_hash_token token) now) now (s_db (w_db w))).
  subst w1. cbn [w_db w_now w_next w_stripe w_tasks set_db s_db]. fold now. fold d.
  assert (db_ok d) as Hokd by by apply mark_verify_ok. assert (d_users d !! user = Some u) as Hud by exact Hu. rewrite Hud.
  assert (sc_fits user_schema u = true) as Hfits.
  { assert (table_ok user_schema (has d) (d_users d)) as [Hrows _] by (unfold db_ok in Hokd; tauto).
    pose proof (Hrows user u Hu) as Hr. unfold row_ok in Hr. rewrite !andb_true_iff in Hr. tauto. }
  assert (save_user user v d = Ok (with_row user v d)) as Hsave by (by apply (save_updated _ u)).
  fold v. rewrite Hsave. unfold invalidate_auth_user_cache, exec. cbn [w_db set_db]. set (w2 := set_db _ _).
  assert (supplied w2) as (Hr2 & Hv2 & Hb2).
  { destruct Hs as (Hr & Hv & Hb). split_and!.
    - intros j r Hj. destruct (Hr j r Hj) as [? Hf]. cbn. split; [lia|]. intros n Hw. apply Hf. cbn in Hw. lia.
    - intros j r. cbn. unfold d. cbn. rewrite lookup_fmap_Some. intros (r' & <- & Hj). destruct (Hv j r' Hj) as [? Hf].
      split; [lia|]. intros n Hw. case_match; cbn; apply Hf; cbn in Hw; lia.
    - intros j x. cbn. intros [[<- <-]|[_ Hj]]%lookup_insert_Some; [specialize (Hb _ _ Hu)|specialize (Hb _ _ Hj)]; cbn in Hb; lia. }
  destruct (sign_in_total user u 200 w2) as (refresh & w3 & Hrun & _ & Hr3 & Hok3 & Hus3 & Hvs3 & _ & Hn3);
    [by eapply save_user_ok; [exact Hokd|exact Hsave]|done|cbn; lia|cbn; by rewrite lookup_insert_eq|].
  rewrite Hrun. eexists _, _. split; [done|]. cbn in Hn3. split_and!; [by rewrite Hus3|done| |lia].
  split; [done|]. unfold verify_supply, users_below. rewrite Hus3, Hvs3. split.
  - intros j r Hj. destruct (Hv2 j r Hj) as [? Hf]. cbn in *. split; [lia|]. intros n Hw. apply Hf. cbn. lia.
  - intros j x Hj. specialize (Hb2 j x Hj). cbn in *. lia.
Qed.

Context `{!AuthBackendLaws} `{CaptchaSettings} `{SiteVerify} `{PasswordPolicy} `{EmailValidator}.

Lemma CharField_any_between lo hi s t : CharField_between lo hi s = Ok t → CharField_any s = Ok t.
Proof.
  intros (-> & Hne & _ & Hnull)%CharField_between_Ok. unfold CharField_any.
  by rewrite (proj2 (b_eq_false _ _) Hne), Hnull.
Qed.

(** The address and the password a registration was accepted with are read by the login
    as the registration read them. *)
Lemma RegisterSerializer_Ok b email password name :
  RegisterSerializer b = Ok (email, password, name) →
  LoginSerializer (mkLoginBody b.(rb_email) b.(rb_password)) = Ok (email, password) ∧
  email ≠ "" ∧ password ≠ "" ∧ varchar 255 name = true.
Proof.
  intros (token & _ & Hr)%outcome_bind_Ok. apply outcome_bind_Ok in Hr as (attrs & Hr & Hv).
  apply outcome_bind_Ok in Hv as (_ & _ & [= ->]).
  apply outcome_bind_Ok in Hr as (e & He & Hr). apply outcome_bind_Ok in Hr as (p & Hp & Hr).
  apply outcome_bind_Ok in Hr as (n & Hn & [= -> -> ->]).
  unfold LoginSerializer. cbn [lb_email lb_password]. rewrite He. cbn [mbind outcome_bind].
  destruct (rb_email b) as [| |se]; [done..|]. destruct (rb_password b) as [| |sp]; [done..|].
  destruct (rb_full_name b) as [| |sn]; [done..|]. cbn [required] in *.
  apply outcome_bind_Ok in Hp as (s & Hs & Hp). unfold _run_password_validators in Hp. destruct (password_acceptable s); [|done].
  injection Hp as ->. rewrite (CharField_any_between _ _ _ _ Hs). split; [done|].
  apply CharField_between_Ok in Hs as (_ & Hpw & _), Hn as (_ & _ & Hlen & _).
  apply outcome_bind_Ok in He as (e' & He' & He). destruct (email_valid e'); [|done]. injection He as ->.
  unfold CharField_any in He'. destruct (b_eq (strip se) "") eqn:Hse; [done|]. destruct (negb _); [done|]. injection He' as <-.
  rewrite b_eq_false in Hse. split_and!; [done..|]. apply Nat.leb_le. lia.
Qed.

(** Who logs in with the address and the password of the only user that has them. *)
Lemma backend_registered email password salt user v d d' :
  db_ok d' → d_users d' = <[user := v]> (d_users d) → email_is_registered email d = false →
  u_email v = normalize_email email → u_is_active v = true → u_password v = Some (make_password salt password) →
  backend_authenticate email password d' = if b_eq (normalize_email email) email then Some (user, v) else None.
Proof.
  intros Hok Hus Hreg Hem Hact Hpw. unfold email_is_registered, user_by_email in Hreg. rewrite not_none_false, tfind_None in Hreg.
  destruct (b_eq (normalize_email email) email) eqn:Heq.
  - rewrite b_eq_true in Heq. apply backend_authenticate_spec; [done|]. rewrite Hus, lookup_insert_eq.
    split_and!; [done|congruence|done|]. eexists. split; [exact Hpw|apply check_make_password].
  - rewrite b_eq_false in Heq. destruct (backend_authenticate email password d') as [[i x]|] eqn:Hb; [|done].
    apply backend_authenticate_spec in Hb as (Hx & Hxe & _); [|done]. rewrite Hus in Hx.
    apply lookup_insert_Some in Hx as [[<- <-]|[_ Hx]]; [congruence|].
    specialize (Hreg i x Hx). apply b_eq_false in Hreg. by rewrite Hxe in Hreg.
Qed.

(** C31. A sign-up goes through: a valid registration for a new address succeeds and mails a
    link; until the link is used the login is refused; used within 24 hours the link
    verifies the address; from then on the login with the same address and password
    opens a session of that user. Unless the address was typed with capitals in its
    domain: then it is stored otherwise than typed, and that login is refused forever. *)
Theorem sign_up_round_trip b email password name w :
  db_ok (s_db (w_db w)) → supplied w → (w_next w + 11 <= token_space)%N →
  (∀ n, CharField_any (token_urlsafe n) = Ok (token_urlsafe n)) →
  RegisterSerializer b = Ok (email, password, name) →
  email_is_registered email (s_db (w_db w)) = false → varchar 254 (normalize_email email) = true →
  let user := w_next w in
  let credentials := mkLoginBody b.(rb_email) b.(rb_password) in
  ∃ r w1 token, register_post b w = (Ok r, w1) ∧
    w_tasks w1 = w_tasks w ++ [send_verification_email_task_delay (normalize_email email) token] ∧
    (∀ t, (login_post credentials (set_now t w1)).1 = Raise InvalidCredentials) ∧
    ∀ t, (t < w_now w + EMAIL_VERIFICATION_LIFETIME)%Z →
      ∃ r' w2, verify_email_post (mkTokenPasswordBody (Given token) Absent) (set_now t w1) = (Ok r', w2) ∧
        ∀ t', match login_post credentials (set_now t' w2) with
              | (Ok (TokenPair status access refresh), w3) =>
                  normalize_email email = email ∧ status = 200%Z ∧ opens_session user refresh (s_db (w_db w3)) ∧
                  ∃ u, d_users (s_db (w_db w3)) !! user = Some u ∧ u.(u_email) = email ∧
                    access = jwt_encode (JObj (access_claims user u t'))
              | (Raise e, w3) =>
                  normalize_email email ≠ email ∧ e = InvalidCredentials ∧ w3 = set_now t' w2
              | _ => False
              end.
Proof.
  intros Hok Hs Hn Htok Hser Hreg Hfit user credentials.
  destruct (RegisterSerializer_Ok _ _ _ _ Hser) as (Hlogin & Hemail & Hpw & Hname). fold credentials in Hlogin.
  destruct (register_total email password name w) as (r & w1 & Hrun & Hus & Hvs & Htasks & Hok1 & Hs1 & Hn1); [done..|lia|done|done|done|done|done|].
  set (u := registered_row w email password name) in *. fold user in Hus, Hvs. set (token := token_urlsafe (w_next w + 2)) in *.
  exists r, w1, token. split; [unfold register_post; by rewrite Hser|]. split; [exact Htasks|]. split.
  - intros t. unfold login_post. rewrite Hlogin. cbn [lift fst snd]. unfold login, dquery. rewrite lift_bind, query_bind. cbn [w_db set_now fst snd].
    rewrite (backend_registered email password (user + 1) user u (s_db (w_db w))) by done.
    by destruct (b_eq _ _).
  - intros t Ht. set (row := mkOneTimeRow user (_hash_token token) (w_now w) (w_now w + EMAIL_VERIFICATION_LIFETIME) None) in *.
    destruct (verify_total user u token (w_next w + 3) row (set_now t w1)) as (r' & w2 & Hrun2 & Hus2 & Hok2 & Hs2 & Hn2);
      [exact Hok1|exact Hs1|cbn; lia|exact Hvs|done|done|done|exact Ht|cbn; rewrite Hus; apply lookup_insert_eq|done|done|by eexists|].
    exists r', w2. split.
    { unfold verify_email_post, VerifyEmailSerializer. cbn [tb_token tb_password required optional]. unfold token at 1. by rewrite Htok. }
    intros t'. set (v := with_updated_at (w_now (set_now t w1)) (with_verified u)) in *.
    assert (d_users (s_db (w_db w2)) = <[user := v]> (d_users (s_db (w_db w)))) as Husv.
    { rewrite Hus2. cbn. by rewrite Hus, insert_insert_eq. }
    unfold login_post. rewrite Hlogin, lift_bind. unfold login, dquery. rewrite query_bind. cbn [w_db set_now fst snd].
    rewrite (backend_registered email password (user + 1) user v (s_db (w_db w))) by done.
    destruct (b_eq _ _) eqn:Heq; [|by rewrite b_eq_false in Heq]. rewrite b_eq_true in Heq. cbn [u_is_active u_is_verified v with_updated_at with_verified u registered_row negb].
    destruct Hs2 as (Hr2 & _).
    destruct (sign_in_total user v 200 (set_now t' w2)) as (refresh & w3 & Hrun3 & Hopen & _ & _ & Hus3 & _);
      [exact Hok2|exact Hr2|cbn in *; lia|cbn; rewrite Husv, lookup_insert_eq; by eexists|].
    rewrite Hrun3. split_and!; [done|done|done|]. exists v. rewrite Hus3. cbn [w_db set_now].
    rewrite Husv, lookup_insert_eq. split_and!; [done|exact Heq|done].
Qed.
End SignUp.

(** ** The state of an OAuth round trip *)

Section OAuth.
  Context `{DjangoLib} `{AuthBackend} `{SecretsLaws} `{JWT} `{OAuthSettings} `{RequestHost}.
  Implicit Types w : world store.

(** *** Draws *)

Definition grows A (m : M store A) : Prop := ∀ n, preserves (λ w, (n <= w_next w)%N) m.

Lemma grows_exec f : grows unit (exec f).
Proof. intros n w Hw. unfold exec. by destruct (f (w_db w)). Qed.

Lemma grows_uuid4 : grows uuid uuid4.
Proof. intros n w Hw. cbn in *. lia. Qed.

#[local] Hint Extern 1 (preserves _ (exec _)) => apply grows_exec : preserve.
#[local] Hint Extern 1 (preserves _ (dexec _)) => apply grows_exec : preserve.
#[local] Hint Extern 1 (preserves _ uuid4) => apply grows_uuid4 : preserve.

#[local] Instance grows_closed : Closed grows.
Proof.
  split; unfold grows.
  - intros A a n. apply preserves_ret.
  - intros A e n. apply preserves_raise.
  - intros A o n. apply preserves_lift.
  - intros A q n. apply preserves_query.
  - intros n. apply preserves_utcnow.
  - apply grows_uuid4.
  - intros t n w Hw. exact Hw.
  - intros server c n w Hw. exact Hw.
  - intros A B m f Hm Hf n. apply preserves_bind; auto.
  - intros A m h Hm Hh n. apply preserves_catch; auto.
  - intros A m Hm n w Hw. specialize (Hm n w Hw). unfold atomic. by destruct (m w) as [[a|e] w1].
  - intros f _. apply grows_exec.
  - intros i f _ n. apply preserves_bind; [apply grows_exec|intros ?; apply grows_exec].
  - intros e p n a v r k. unfold create_user. destruct (b_eq e ""); [apply preserves_raise|]. eauto 20 with preserve.
  - intros p. apply grows_exec.
  - intros i. apply grows_exec.
Qed.

Lemma grows_require header : grows _ (require_user header).
Proof.
  intros n. unfold require_user, authenticate, load_user, cache_user.
  repeat first [apply grows_exec | apply preserves_bind; [|intros ?] | apply preserves_lift | apply preserves_ret
    | apply preserves_raise | apply preserves_utcnow | apply preserves_query | case_match].
Qed.

Lemma grows_op op : grows unit (TokenFacts.run_op op).
Proof.
  apply (k_auth grows grows); [done| |].
  - intros A B m f Hm Hf n. apply preserves_bind; [apply Hm|]. intros a. apply Hf.
  - destruct op; try done; apply grows_require.
Qed.

Lemma callback_grows provider code state error s exchange w r w' :
  oauth_callback provider code state error s exchange w = (r, w') → (w_next w <= w_next w')%N.
Proof.
  intros Hrun. pose proof (grows_op (OpCallback provider code state error s exchange) (w_next w) w (N.le_refl _)) as Hg.
  cbn [TokenFacts.run_op] in Hg. rewrite bind_run, Hrun in Hg. by destruct r.
Qed.

(** *** What a browser does *)

(** The requests of one browser; in between, anybody's requests and time. *)
Inductive browsing :=
  | Authorize (provider : string)
  | Callback (provider : string) (code state error : option string) (exchange : outcome OAuthUserInfo)
  | Elsewhere (op : auth_op)
  | Later (t : datetime).

Inductive oauth_event := Issued (state : string) | Redeemed (state : string).

(** The callback goes past the check of the state. *)
Definition state_accepted (provider : string) (state error : option string) (s : session) : bool :=
  str_in provider PROVIDERS && b_eq (or_else error "") "" && negb (b_eq (or_else state "") "") && b_eq state s.

Definition browse (q : browsing) (s : session) (w : world store) : list oauth_event * session * world store :=
  match q with
  | Authorize provider =>
      match oauth_authorize provider s w with
      | (Ok (ToProvider _, Some state), w') => ([Issued state], Some state, w')
      | (Ok (_, s'), w') => ([], s', w')
      | (Raise _, w') => ([], s, w')
      end
  | Callback provider code state error exchange =>
      match oauth_callback_get provider code state error exchange s w with
      | (Ok (_, s'), w') =>
          (if state_accepted provider state error s then [Redeemed (or_else state "")] else [], s', w')
      | (Raise _, w') => ([], s, w')
      end
  | Elsewhere op => ([], s, (TokenFacts.run_op op w).2)
  | Later t => ([], s, set_now t w)
  end.

Fixpoint browse_all (l : list browsing) (s : session) (w : world store) : list oauth_event * session * world store :=
  match l with
  | [] => ([], s, w)
  | q :: l => let '(ev, s, w) := browse q s w in let '(evs, s, w) := browse_all l s w in (ev ++ evs, s, w)
  end.

Definition issued (evs : list oauth_event) : list string := omap (λ e, match e with Issued s => Some s | _ => None end) evs.
Definition redeemed (evs : list oauth_event) : list string := omap (λ e, match e with Redeemed s => Some s | _ => None end) evs.

(** The draws behind what was issued; what the session holds is not redeemed yet. *)
Definition fresh_session (w0 : world store) (evs : list oauth_event) (s : session) (w : world store) : Prop :=
  (∀ st, st ∈ issued evs → ∃ n, (w_next w0 <= n)%N ∧ (n < w_next w)%N ∧ st = token_urlsafe n) ∧
  NoDup (issued evs) ∧ NoDup (redeemed evs) ∧ (∀ st, st ∈ redeemed evs → st ∈ issued evs) ∧
  match s with Some st => st ∈ issued evs ∧ st ∉ redeemed evs | None => True end.

Lemma token_urlsafe_inj a b : (a < token_space)%N → (b < token_space)%N → token_urlsafe a = token_urlsafe b → a = b.
Proof. intros Ha Hb Heq. apply sha256_hex_inj; [done..|]. by rewrite Heq. Qed.

Lemma fresh_session_same w0 evs s w w' :
  fresh_session w0 evs s w → (w_next w <= w_next w')%N → fresh_session w0 evs s w'.
Proof.
  intros (Hi & H') Hn. split; [|exact H']. intros st Hst. destruct (Hi st Hst) as (n & ? & ? & ?). exists n. by split_and!; [|lia|].
Qed.

Lemma authorize_run provider s w r w' :
  oauth_authorize provider s w = (r, w') →
  (w_next w <= w_next w')%N ∧
  match r with
  | Ok (ToProvider _, Some state) => state = token_urlsafe (w_next w) ∧ w_next w' = (w_next w + 1)%N
  | Ok (_, s') => s' = s
  | Raise _ => True
  end.
Proof.
  unfold oauth_authorize. destruct (negb _); [by intros [= <- <-]|]. unfold fresh_token. rewrite !bind_run. cbn [uuid4 mret M_ret].
  rewrite lift_bind. destruct (get_authorization_url _ _ _); intros [= <- <-]; cbn; split; try done; lia.
Qed.

Lemma browse_fresh w0 evs q s w ev s' w' :
  fresh_session w0 evs s w → (w_next w0 <= w_next w)%N → browse q s w = (ev, s', w') → (w_next w' <= token_space)%N →
  fresh_session w0 (evs ++ ev) s' w' ∧ (w_next w <= w_next w')%N ∧
  (ev = [] ∨ (∃ st, ev = [Issued st]) ∨ ∃ st, ev = [Redeemed st] ∧ s = Some st).
Proof.
  intros Hf Hw0. destruct q as [provider|provider code state error exchange|op|t]; cbn [browse].
  - destruct (oauth_authorize provider s w) as [r w1] eqn:Hrun. apply authorize_run in Hrun as [Hn Hr].
    assert (fresh_session w0 (evs ++ []) s w1) as Hsame by (rewrite app_nil_r; by eapply fresh_session_same).
    destruct r as [[[r|url] s1]|e]; [subst s1; intros [= <- <- <-] _; auto| |intros [= <- <- <-] _; auto].
    destruct s1 as [st|]; [|subst s; intros [= <- <- <-] _; auto]. destruct Hr as [-> Hn1]. intros [= <- <- <-] Hspace.
    split; [|split; [done|right; left; by eexists]]. destruct Hf as (Hi & Hnd & Hrd & Hsub & _).
    assert (token_urlsafe (w_next w) ∉ issued evs) as Hnew.
    { intros Hst. destruct (Hi _ Hst) as (n & _ & Hlt & Heq%token_urlsafe_inj); lia. }
    unfold fresh_session, issued, redeemed in *. rewrite !omap_app. cbn. rewrite app_nil_r. split_and!.
    + intros st. rewrite elem_of_app, list_elem_of_singleton. intros [Hst| ->].
      * destruct (Hi st Hst) as (n & ? & ? & ?). exists n. by split_and!; [|lia|].
      * exists (w_next w). split_and!; [done|lia|done].
    + apply NoDup_app. split; [done|]. split; [|apply NoDup_singleton]. intros st Hst. rewrite list_elem_of_singleton. by intros ->.
    + done.
    + intros st Hst. apply elem_of_app. left. by apply Hsub.
    + apply elem_of_app. right. by apply list_elem_of_singleton.
    + intros Hst. by apply Hnew, Hsub.
  - unfold oauth_callback_get. rewrite bind_run.
    destruct (oauth_callback provider code state error s exchange w) as [r w1] eqn:Hrun.
    apply callback_grows in Hrun as Hn. assert (fresh_session w0 evs s w1) as Hsame by by eapply fresh_session_same.
    destruct r as [r|e]; cbn [mret M_ret]; [|intros [= <- <- <-] _; rewrite app_nil_r; auto].
    destruct (state_accepted provider state error s) eqn:Hacc; intros [= <- <- <-] _.
    2:{ rewrite app_nil_r. split; [|auto]. destruct (str_in provider PROVIDERS); [|done].
        destruct Hsame as (? & ? & ? & ? & _). by split_and!. }
    unfold state_accepted in Hacc. rewrite !andb_true_iff in Hacc. destruct Hacc as [[[-> _] Hne] Heq].
    rewrite b_eq_true in Heq. subst s. destruct state as [st|]; [|by rewrite b_eq_refl in Hne]. cbn [or_else].
    split; [|split; [done|right; right; by exists st]].
    destruct Hsame as (Hi & Hnd & Hrd & Hsub & Hin & Hnew).
    unfold fresh_session, issued, redeemed in *. rewrite !omap_app. cbn. rewrite app_nil_r. split_and!; [done|done| | |done].
    + apply NoDup_app. split; [done|]. split; [|apply NoDup_singleton]. intros x Hx. rewrite list_elem_of_singleton. by intros ->.
    + intros x. rewrite elem_of_app, list_elem_of_singleton. intros [Hx| ->]; [by apply Hsub|done].
  - intros [= <- <- <-] _. pose proof (grows_op op (w_next w) w (N.le_refl _)) as Hg. rewrite app_nil_r.
    split; [by eapply fresh_session_same|auto].
  - intros [= <- <- <-] _. rewrite app_nil_r. split; [by eapply fresh_session_same|auto].
Qed.

Lemma browse_grows q s w ev s' w' : browse q s w = (ev, s', w') → (w_next w <= w_next w')%N.
Proof.
  destruct q as [provider|provider code state error exchange|op|t]; cbn [browse].
  - destruct (oauth_authorize provider s w) as [r w1] eqn:Hrun. apply authorize_run in Hrun as [Hn _].
    repeat case_match; intros [= <- <- <-]; done.
  - unfold oauth_callback_get. rewrite bind_run.
    destruct (oauth_callback provider code state error s exchange w) as [r w1] eqn:Hrun. apply callback_grows in Hrun.
    by destruct r; intros [= <- <- <-].
  - intros [= <- <- <-]. exact (grows_op op (w_next w) w (N.le_refl _)).
  - by intros [= <- <- <-].
Qed.

Lemma browse_all_grows l s w evs s' w' : browse_all l s w = (evs, s', w') → (w_next w <= w_next w')%N.
Proof.
  revert s w evs s' w'. induction l as [|q l IH]; intros s w evs s' w'; [by intros [= _ _ <-]|]. cbn [browse_all].
  destruct (browse q s w) as [[ev s1] w1] eqn:Hq. destruct (browse_all l s1 w1) as [[evs' s2] w2] eqn:Hl.
  intros [= _ _ <-]. apply browse_grows in Hq. apply IH in Hl. lia.
Qed.

Lemma elem_of_redeemed st evs : st ∈ redeemed evs ↔ Redeemed st ∈ evs.
Proof.
  unfold redeemed. rewrite list_elem_of_omap. split; [intros ([]& Hin & [= <-]); done|]. intros Hin. by exists (Redeemed st).
Qed.
Lemma elem_of_issued st evs : st ∈ issued evs ↔ Issued st ∈ evs.
Proof.
  unfold issued. rewrite list_elem_of_omap. split; [intros ([]& Hin & [= <-]); done|]. intros Hin. by exists (Issued st).
Qed.

Lemma browse_all_fresh w0 evs0 l s w evs s' w' :
  fresh_session w0 evs0 s w → (w_next w0 <= w_next w)%N → browse_all l s w = (evs, s', w') → (w_next w' <= token_space)%N →
  ∀ before st after, evs = before ++ Redeemed st :: after →
    Issued st ∈ evs0 ++ before ∧ Redeemed st ∉ evs0 ++ before.
Proof.
  revert evs0 s w evs. induction l as [|q l IH]; intros evs0 s w evs Hf Hw0.
  - intros [= <- _ _] _ before st after Hevs. by destruct before.
  - cbn [browse_all]. destruct (browse q s w) as [[ev s1] w1] eqn:Hq.
    destruct (browse_all l s1 w1) as [[evs1 s2] w2] eqn:Hl. intros [= <- <- <-] Hspace before st after Hevs.
    pose proof (browse_all_grows _ _ _ _ _ _ Hl) as Hn.
    destruct (browse_fresh w0 evs0 q s w ev s1 w1 Hf Hw0 Hq) as (Hf1 & Hn1 & Hev); [lia|].
    destruct Hev as [->|[[st' ->]|(st' & -> & ->)]].
    + rewrite app_nil_r in Hf1. eapply IH; [exact Hf1|lia|exact Hl|done|exact Hevs].
    + destruct before as [|e before]; [discriminate|]. injection Hevs as <- Hevs.
      rewrite (app_assoc evs0 [Issued st'] before : evs0 ++ Issued st' :: before = _).
      eapply IH; [exact Hf1|lia|exact Hl|done|exact Hevs].
    + destruct before as [|e before].
      * injection Hevs as <- _. destruct Hf as (_ & _ & _ & _ & Hin & Hnew).
        rewrite app_nil_r, <- elem_of_issued, <- elem_of_redeemed. done.
      * injection Hevs as <- Hevs. rewrite (app_assoc evs0 [Redeemed st'] before : evs0 ++ Redeemed st' :: before = _).
        eapply IH; [exact Hf1|lia|exact Hl|done|exact Hevs].
Qed.

(** C33. An OAuth callback is only honoured for a state that this browser's session was
    given by an authorization request, and once: however the browser's requests are
    interleaved with anybody's, a state that is redeemed was issued to the session
    before and not redeemed before. A callback with any other state never looks at the
    provider's answer and hands out nothing. *)
Theorem oauth_state_single_use l w evs s w' :
  browse_all l None w = (evs, s, w') → (w_next w' <= token_space)%N →
  (∀ before st after, evs = before ++ Redeemed st :: after → Issued st ∈ before ∧ Redeemed st ∉ before) ∧
  ∀ provider code state error exchange,
    state_accepted provider state error s = false →
    ∃ error' s', oauth_callback_get provider code state error exchange s w' = (Ok (ToFrontend (RedirectError error'), s'), w').
Proof.
  intros Hrun Hspace. split.
  - intros before st after Hevs.
    apply (browse_all_fresh w [] l None w evs s w') with (after := after); [|done|done|done|done].
    split_and!; [|constructor|constructor| |done]; intros st'; by intros ?%elem_of_nil.
  - intros provider code state error exchange Hacc. unfold oauth_callback_get, oauth_callback. unfold state_accepted in Hacc.
    destruct (str_in provider PROVIDERS); cbn [negb andb] in *; [|by eexists _, _].
    destruct (b_eq (or_else error "") ""); cbn [negb andb] in *; [|by eexists _, _].
    destruct (b_eq (or_else state "") ""); cbn [negb andb orb] in *; [by eexists _, _|]. rewrite Hacc. by eexists _, _.
Qed.
End OAuth.
