(* ===== verification/Middleware.v ===== *)
(** * Middleware

    [middleware/exceptions.py]: the HTTP answer of an exception a handler lets
    through, and [middleware/security.py]: the headers of every answer.  The
    framework's own [exception_handler] is not in the repository: the class
    [ExceptionHandler]. *)

From S2P Require Import Prelude PyVal Text.

#[local] Open Scope string_scope.

(** ** Exceptions *)

(** [isinstance(exc, DomainError)]. *)
Definition is_domain_error (e : exn) : bool :=
  match e with
  | WebhookDataError _ | UserNotFoundError _ | OrgNotFoundError _ | SubscriptionNotFoundError _
  | SeatsBelowMemberCountError _ | InsufficientPermissionError _ | SeatCapReachedAtAcceptError _ => true
  | _ => false
  end.

(** The exact classes of the map. *)
Definition _STATUS_MAP (e : exn) : option Z :=
  match e with
  | UserNotFoundError _ => Some 404%Z
  | OrgNotFoundError _ => Some 404%Z
  | SubscriptionNotFoundError _ => Some 404%Z
  | SeatsBelowMemberCountError _ => Some 400%Z
  | InsufficientPermissionError _ => Some 403%Z
  | _ => None
  end.

Definition is_upper (c : ascii) : bool := let n := N_of_ascii c in ((65 <=? n) && (n <=? 90))%N.

(** [re.sub(r"(?<!^)(?=[A-Z])", "_", name)]. *)
Definition underscores (l : chars) : chars :=
  match l with
  | [] => []
  | c :: l => c :: flat_map (λ x, if is_upper x then ["_"%char; x] else [x]) l
  end.

(** [s.removesuffix(p)]. *)
Definition removesuffix (s p : string) : string :=
  if endswith s p && negb (b_eq p "")
  then string_of_list_ascii (take (String.length s - String.length p) (list_ascii_of_string s)) else s.

Definition _code_for (class_name : string) : string :=
  let name := removesuffix class_name "Error" in
  lower (string_of_list_ascii (underscores (list_ascii_of_string name))).

(** [isinstance(exc, APIException)], with the class attribute [default_code].  The
    framework's [ValidationError] is [Fields.ValidationError], an [APIException] with the
    default code [invalid]; Django's own is no [APIException]. *)
Definition default_code (e : exn) : option string :=
  match e with
  | APIException _ code => Some code
  | AuthenticationFailed _ => Some "authentication_failed"
  | _ => None
  end.

(** [isinstance(data, dict) and set(data.keys()) == {"detail"}]. *)
Definition bare_detail (data : json) : option json :=
  match data with
  | JObj [(k, detail)] => if b_eq k "detail" then Some detail else None
  | _ => None
  end.

(** Status and data of the framework's answer, if it has one. *)
Class ExceptionHandler := exception_handler : exn → option (Z * json).

Section Handler.
  Context `{ExceptionHandler}.

Definition domain_exception_handler (exc : exn) : option (Z * json) :=
  if is_domain_error exc then
    Some (or_else (_STATUS_MAP exc) 400%Z,
          JObj [("detail", JStr (exn_str exc)); ("code", JStr (_code_for (exn_class exc)))])
  else
    match exc with
    | StripeError _ _ http_status _ =>
        let status := match http_status with Some s => if b_eq s 0%Z then 502%Z else s | None => 502%Z end in
        Some (status, JObj [("detail", JStr "Payment provider error. Please try again.");
                            ("code", JStr "payment_provider_error")])
    | _ =>
        match exception_handler exc with
        | None => None
        | Some (status, data) =>
            match default_code exc, bare_detail data with
            | Some code, Some detail =>
                Some (status, JObj [("detail", detail); ("code", JStr code)])
            | _, _ => Some (status, data)
            end
        end
    end.

End Handler.

(** ** Security headers *)

(** The headers of an answer, by lower-case name. *)
Abbreviation headers := (gmap string string) (only parsing).

(** [p in s]. *)
Fixpoint contains (p l : chars) : bool :=
  is_prefix p l || match l with [] => false | _ :: l => contains p l end.

Definition docs_csp : string :=
  let cdn := "https://cdn.jsdelivr.net" in
  let fonts := "https://fonts.googleapis.com https://fonts.gstatic.com" in
  let redoc := "https://cdn.redoc.ly" in
  "default-src 'self'; "
  ++ "script-src 'self' 'unsafe-inline' " ++ cdn ++ "; "
  ++ "style-src 'self' 'unsafe-inline' " ++ cdn ++ " " ++ fonts ++ "; "
  ++ "font-src 'self' " ++ fonts ++ "; "
  ++ "img-src 'self' data: " ++ cdn ++ " " ++ redoc ++ "; "
  ++ "worker-src blob:; "
  ++ "connect-src 'self' " ++ cdn.

Definition html_csp : string :=
  "default-src 'self'; script-src 'self'; "
  ++ "style-src 'self' 'unsafe-inline'; frame-ancestors 'self'".

Definition is_html (response : headers) : bool :=
  contains (list_ascii_of_string "text/html")
    (list_ascii_of_string (or_else (response !! "content-type") "")).

(** [SecurityHeadersMiddleware.__call__] on the answer of the inner handler. *)
Definition security_headers (path : string) (response : headers) : headers :=
  let response :=
    <["permissions-policy" := "camera=(), microphone=(), geolocation=()"]>
      (<["referrer-policy" := "strict-origin-when-cross-origin"]>
        (<["x-content-type-options" := "nosniff"]> response)) in
  if is_html response then
    if startswith path "/api/docs/" || startswith path "/api/redoc/"
    then <["content-security-policy" := docs_csp]> response
    else <["content-security-policy" := html_csp]> response
  else response.

(** ** Facts *)

(** The name of a class: capitalised words. *)
Definition is_word (w : string) : bool :=
  match list_ascii_of_string w with
  | c :: l => is_upper c && forallb (λ x, negb (is_upper x)) l
  | [] => false
  end.

Definition camel_case (ws : list string) : string := String.concat "" ws.
Definition snake_case (ws : list string) : string := String.concat "_" (lower <$> ws).

Lemma lower_app a b : lower (a ++ b) = lower a ++ lower b.
Proof.
  unfold lower. rewrite chars_app, map_app.
  induction (map ascii_lower (list_ascii_of_string a)) as [|c l IH]; [done|]. cbn. by rewrite IH.
Qed.

Lemma underscores_tail l r :
  forallb (λ x, negb (is_upper x)) l = true →
  flat_map (λ x, if is_upper x then ["_"%char; x] else [x]) (l ++ r) =
  (l ++ flat_map (λ x, if is_upper x then ["_"%char; x] else [x]) r)%list.
Proof.
  induction l as [|c l IH]; [done|]. cbn. rewrite andb_true_iff, negb_true_iff. intros [Hc Hl].
  rewrite Hc. cbn. by rewrite IH.
Qed.

Lemma underscores_word w r :
  is_word w = true →
  flat_map (λ x, if is_upper x then ["_"%char; x] else [x]) (list_ascii_of_string w ++ r) =
  ("_"%char :: list_ascii_of_string w ++ flat_map (λ x, if is_upper x then ["_"%char; x] else [x]) r)%list.
Proof.
  unfold is_word. destruct (list_ascii_of_string w) as [|c l]; [done|]. rewrite andb_true_iff.
  intros [Hc Hl]. cbn. rewrite Hc. cbn. by rewrite underscores_tail.
Qed.

Lemma underscores_words ws :
  forallb is_word ws = true →
  flat_map (λ x, if is_upper x then ["_"%char; x] else [x]) (list_ascii_of_string (camel_case ws)) =
  flat_map (λ w, "_"%char :: list_ascii_of_string w) ws.
Proof.
  unfold camel_case. induction ws as [|w ws IH]; [done|]. cbn [forallb]. rewrite andb_true_iff.
  intros [Hw Hws]. rewrite concat_cons, chars_app, underscores_word by done. cbn [flat_map].
  rewrite IH by done. by rewrite <-app_comm_cons.
Qed.

Lemma underscores_camel w ws :
  is_word w = true → forallb is_word ws = true →
  underscores (list_ascii_of_string (camel_case (w :: ws))) =
  (list_ascii_of_string w ++ flat_map (λ w, "_"%char :: list_ascii_of_string w) ws)%list.
Proof.
  intros Hw Hws. unfold camel_case. rewrite concat_cons, chars_app. unfold is_word in Hw.
  destruct (list_ascii_of_string w) as [|c l]; [done|]. apply andb_true_iff in Hw as [_ Hl].
  cbn. rewrite underscores_tail by done. f_equal. f_equal. by apply underscores_words.
Qed.

Lemma snake_chars w ws :
  list_ascii_of_string (snake_case (w :: ws)) =
  map ascii_lower (list_ascii_of_string w ++ flat_map (λ w, "_"%char :: list_ascii_of_string w) ws).
Proof.
  unfold snake_case. revert w. induction ws as [|v ws IH]; intros w.
  - cbn. rewrite app_nil_r. unfold lower. apply list_ascii_of_string_of_list_ascii.
  - change (String.concat "_" (lower <$> w :: v :: ws))
      with (lower w ++ "_" ++ String.concat "_" (lower <$> v :: ws)).
    rewrite !chars_app, IH. unfold lower at 1. rewrite list_ascii_of_string_of_list_ascii.
    rewrite !map_app. cbn. by rewrite map_app.
Qed.

Lemma removesuffix_app s p : p ≠ "" → removesuffix (s ++ p) p = s.
Proof.
  intros Hp. unfold removesuffix. rewrite endswith_app, (proj2 (b_eq_false p "")) by done. cbn [negb andb].
  rewrite string_length_app, chars_app. replace (String.length s + String.length p - String.length p)%nat
    with (length (list_ascii_of_string s)) by (rewrite chars_length; lia).
  by rewrite take_app_length, string_of_list_ascii_of_string.
Qed.

(** The code of a class [FooBarError] is [foo_bar]. *)
Lemma code_for_camel w ws :
  is_word w = true → forallb is_word ws = true →
  _code_for (camel_case (w :: ws) ++ "Error") = snake_case (w :: ws).
Proof.
  intros Hw Hws. unfold _code_for. rewrite removesuffix_app, underscores_camel by done. unfold lower.
  rewrite list_ascii_of_string_of_list_ascii, <-snake_chars. apply string_of_list_ascii_of_string.
Qed.

Section Facts.
  Context `{ExceptionHandler}.

Lemma bare_detail_Some data detail : bare_detail data = Some detail → data = JObj [("detail", detail)].
Proof.
  destruct data as [| | | | |[|[k v] [|]]]; try done. cbn. destruct (b_eq k "detail") eqn:Hk; [|done].
  rewrite b_eq_true in Hk. by intros [= ->]; subst.
Qed.

(** What the API documents for each domain error: the status and the code. *)
Definition documented (e : exn) : option (Z * string) :=
  match e with
  | UserNotFoundError _ => Some (404%Z, "user_not_found")
  | OrgNotFoundError _ => Some (404%Z, "org_not_found")
  | SubscriptionNotFoundError _ => Some (404%Z, "subscription_not_found")
  | InsufficientPermissionError _ => Some (403%Z, "insufficient_permission")
  | SeatsBelowMemberCountError _ => Some (400%Z, "seats_below_member_count")
  | SeatCapReachedAtAcceptError _ => Some (400%Z, "seat_cap_reached_at_accept")
  | WebhookDataError _ => Some (400%Z, "webhook_data")
  | _ => None
  end.

(** What is left to the framework. *)
Definition framework_part (e : exn) : option (Z * json) :=
  match exception_handler e with
  | None => None
  | Some (status, data) =>
      match default_code e, bare_detail data with
      | Some code, Some detail => Some (status, JObj [("detail", detail); ("code", JStr code)])
      | _, _ => Some (status, data)
      end
  end.

Lemma framework_none e : exception_handler e = None → framework_part e = None.
Proof. unfold framework_part. by intros ->. Qed.

Lemma framework_other e status data :
  exception_handler e = Some (status, data) → (∀ detail, data ≠ JObj [("detail", detail)]) →
  framework_part e = Some (status, data).
Proof.
  unfold framework_part. intros -> Hd. destruct (bare_detail data) as [detail|] eqn:Hb; [|by destruct (default_code e)].
  by apply bare_detail_Some, Hd in Hb.
Qed.

Lemma framework_bare e status detail :
  exception_handler e = Some (status, JObj [("detail", detail)]) →
  framework_part e = Some (status, JObj (("detail", detail) ::
    match default_code e with Some code => [("code", JStr code)] | None => [] end)).
Proof. unfold framework_part. intros ->. cbn. by destruct (default_code e). Qed.

(** C20. The answer of an exception a handler lets through.  Each domain error has the
    status and the code documented for it, and its message.  A failure of Stripe never
    shows its message, keeps Stripe's status when it has one and is a 502 otherwise.  Any
    other exception the framework does not handle is not handled; one it does is answered
    with the framework's status and payload, but for an [APIException] whose payload is
    nothing but a [detail], which gains the default code of its class. *)
Theorem exception_answered e :
  match documented e with
  | Some (status, code) =>
      domain_exception_handler e = Some (status, JObj [("detail", JStr (exn_str e)); ("code", JStr code)])
  | None =>
      match e with
      | StripeError _ _ http_status _ =>
          ∃ status, domain_exception_handler e = Some (status, JObj
              [("detail", JStr "Payment provider error. Please try again.");
               ("code", JStr "payment_provider_error")]) ∧
            (∀ s, http_status = Some s → s ≠ 0%Z → status = s) ∧
            (http_status = None ∨ http_status = Some 0%Z → status = 502%Z)
      | _ =>
          (exception_handler e = None → domain_exception_handler e = None) ∧
          (∀ status data, exception_handler e = Some (status, data) →
            (∀ detail, data ≠ JObj [("detail", detail)]) → domain_exception_handler e = Some (status, data)) ∧
          ∀ status detail, exception_handler e = Some (status, JObj [("detail", detail)]) →
            (∀ n code, e = APIException n code →
              domain_exception_handler e = Some (status, JObj [("detail", detail); ("code", JStr code)])) ∧
            (∀ code, e = AuthenticationFailed code →
              domain_exception_handler e =
              Some (status, JObj [("detail", detail); ("code", JStr "authentication_failed")])) ∧
            ((∀ n code, e ≠ APIException n code) → (∀ code, e ≠ AuthenticationFailed code) →
              domain_exception_handler e = Some (status, JObj [("detail", detail)]))
      end
  end.
Proof.
  assert (is_domain_error e = false → (∀ c k h m, e ≠ StripeError c k h m) →
    domain_exception_handler e = framework_part e) as Hpart.
  { intros He Hs. unfold domain_exception_handler. rewrite He. by destruct e; try destruct (Hs _ _ _ _ eq_refl). }
  destruct e; cbn [documented]; try reflexivity.
  all: try (rewrite (Hpart eq_refl) by done; split_and!; [apply framework_none|apply framework_other|];
    intros st detail Hh; rewrite (framework_bare _ st detail Hh); split_and!; [intros ? ? [= _ <-]|intros ? [= <-]|intros Hna Haf;
      try destruct (Hna _ _ eq_refl); try destruct (Haf _ eq_refl)]; done).
  unfold domain_exception_handler. cbn [is_domain_error]. eexists. split; [reflexivity|]. split.
  - intros s -> Hs. by rewrite (proj2 (b_eq_false s 0%Z) Hs).
  - intros [->| ->]; [done|]. by rewrite b_eq_refl.
Qed.
End Facts.

(** Every answer carries the fixed headers, and HTML ones a policy; nothing else
    of the answer changes. *)
Lemma security_headers_spec path response :
  let r := security_headers path response in
  r !! "x-content-type-options" = Some "nosniff" ∧
  r !! "referrer-policy" = Some "strict-origin-when-cross-origin" ∧
  r !! "permissions-policy" = Some "camera=(), microphone=(), geolocation=()" ∧
  r !! "content-security-policy" =
    (if is_html response
     then Some (if startswith path "/api/docs/" || startswith path "/api/redoc/" then docs_csp else html_csp)
     else response !! "content-security-policy") ∧
  ∀ k, k ∉ ["x-content-type-options"; "referrer-policy"; "permissions-policy"; "content-security-policy"] →
    r !! k = response !! k.
Proof.
  assert (∀ r : headers, is_html (<["permissions-policy" := "camera=(), microphone=(), geolocation=()"]>
      (<["referrer-policy" := "strict-origin-when-cross-origin"]>
        (<["x-content-type-options" := "nosniff"]> r))) = is_html r) as Hhtml
    by (intros r; unfold is_html; by rewrite !lookup_insert_ne).
  unfold security_headers. rewrite Hhtml.
  split_and!; [..|intros k Hk; rewrite !not_elem_of_cons in Hk; destruct Hk as (? & ? & ? & ? & _)].
  all: destruct (is_html response); [destruct (_ || _)|]; by simplify_map_eq.
Qed.
