(* ===== verification/RedirectFacts.v ===== *)
(** * Which redirect URLs are accepted

    The verdict of [RedirectUrls.v] on every URL of the shape
    [scheme://userinfo@host:port/...]. *)

From S2P Require Import Prelude PyVal Text Fields OrgViews RedirectUrls.

#[local] Open Scope string_scope.

(** ** Specification *)

Abbreviation of_chars := string_of_list_ascii (only parsing).

(** Characters an authority is made of. *)
Definition auth_char (c : ascii) : bool :=
  negb (unsafe_byte c) && negb (bool_decide (c ∈ ["/"%char; "?"%char; "#"%char; "["%char; "]"%char])).
Definition host_char (c : ascii) : bool :=
  auth_char c && negb (bool_decide (c ∈ ["@"%char; ":"%char; "%"%char])).

Record Authority := mkAuthority {
  au_user : option chars;
  au_host : chars;
  au_port : option chars
}.

Definition au_chars (a : Authority) : chars :=
  (match a.(au_user) with Some u => u ++ ["@"%char] | None => [] end
   ++ a.(au_host) ++ match a.(au_port) with Some p => ":"%char :: p | None => [] end)%list.

Definition au_wf (a : Authority) : bool :=
  match a.(au_user) with Some u => forallb auth_char u | None => true end
  && forallb host_char a.(au_host) && negb (b_eq a.(au_host) [])
  && match a.(au_port) with Some p => forallb (λ c, auth_char c && negb (b_eq c "@"%char)) p | None => true end.

(** What follows the authority. *)
Definition tail_wf (t : chars) : bool :=
  match t with [] => true | c :: _ => bool_decide (c ∈ ["/"%char; "?"%char; "#"%char]) end.

(** A letter, then letters, digits, plus, minus and dots. *)
Definition scheme_wf (scheme : string) : bool :=
  match list_ascii_of_string scheme with
  | [] => false
  | c :: s => is_alpha c && forallb is_scheme_char s
  end.

Definition url_of (scheme : string) (a : Authority) (t : chars) : string :=
  of_chars (list_ascii_of_string scheme ++ list_ascii_of_string "://" ++ au_chars a ++ t)%list.

Section Facts.
  Context `{IPLiterals} `{RedirectSettings}.

(** The policy: the scheme, in any case, is that of the web; and the origin as written,
    the origin without user and port, or the host alone is listed. *)
Definition redirect_allowed (scheme : string) (a : Authority) : Prop :=
  let scheme := lower scheme in
  let host := lower (of_chars a.(au_host)) in
  (scheme = "http" ∨ scheme = "https") ∧
  (CORS_ALLOW_ALL_ORIGINS = true ∨
  scheme ++ "://" ++ of_chars (au_chars a) ∈ CORS_ALLOWED_ORIGINS ∨
  scheme ++ "://" ++ host ∈ CORS_ALLOWED_ORIGINS ∨
  (host ∈ ALLOWED_HOSTS ∧ host ≠ "*" ∧ starts_with_dot host = false) ∨
  (∃ s, s ∈ ALLOWED_HOSTS ∧ starts_with_dot s = true ∧ endswith host s = true)).

(** ** Helper lemmas *)

Lemma auth_char_spec c :
  auth_char c = true → unsafe_byte c = false ∧
  c ∉ ["/"%char; "?"%char; "#"%char] ∧ c ≠ "["%char ∧ c ≠ "]"%char.
Proof.
  unfold auth_char. rewrite andb_true_iff, !negb_true_iff, bool_decide_eq_false. set_solver.
Qed.

Lemma host_char_spec c :
  host_char c = true → auth_char c = true ∧ c ≠ "@"%char ∧ c ≠ ":"%char ∧ c ≠ "%"%char.
Proof. unfold host_char. rewrite andb_true_iff, !negb_true_iff, bool_decide_eq_false. set_solver. Qed.

Lemma au_chars_auth a : au_wf a = true → Forall (λ c, auth_char c = true ∨ c = "@"%char ∨ c = ":"%char) (au_chars a).
Proof.
  unfold au_wf, au_chars. rewrite !andb_true_iff. intros [[[Hu Hh] _] Hp].
  rewrite !Forall_app. split_and!.
  - destruct (au_user a); [|done]. rewrite Forall_app. split; [|by repeat constructor; right; left].
    by eapply forallb_Forall; [|exact Hu]; left.
  - eapply forallb_Forall; [|exact Hh]. intros c Hc%host_char_spec. tauto.
  - destruct (au_port a); [|done]. constructor; [tauto|]. eapply forallb_Forall; [|exact Hp].
    intros c. rewrite andb_true_iff. tauto.
Qed.

Lemma au_chars_plain a :
  au_wf a = true →
  Forall (λ c, unsafe_byte c = false) (au_chars a) ∧
  Forall (λ c, c ∉ ["/"%char; "?"%char; "#"%char]) (au_chars a) ∧
  "["%char ∉ au_chars a ∧ "]"%char ∉ au_chars a.
Proof.
  intros Hwf%au_chars_auth. rewrite Forall_forall in Hwf. split_and!.
  - apply Forall_forall. intros c Hc. destruct (Hwf c Hc) as [Ha%auth_char_spec|[->| ->]]; [tauto|done|done].
  - apply Forall_forall. intros c Hc. destruct (Hwf c Hc) as [Ha%auth_char_spec|[->| ->]]; [tauto|set_solver|set_solver].
  - intros Hc. destruct (Hwf _ Hc) as [Ha%auth_char_spec|[|]]; [tauto|done|done].
  - intros Hc. destruct (Hwf _ Hc) as [Ha%auth_char_spec|[|]]; [tauto|done|done].
Qed.

Lemma filter_id {A} (f : A → bool) (l : list A) :
  Forall (λ x, f x = false) l → base.filter (λ x, f x = false) l = l.
Proof. induction 1 as [|x l Hx _ IH]; [done|]. rewrite filter_cons_True by done. by rewrite IH. Qed.

Lemma netloc_after_slashes stop l :
  (if is_prefix ["/"%char; "/"%char] (["/"%char; "/"%char] ++ l)
   then until stop (drop 2 (["/"%char; "/"%char] ++ l)) else []) = until stop l.
Proof. done. Qed.

Lemma is_alpha_spec c : is_alpha c = true → (32 < N_of_ascii c)%N ∧ is_scheme_char c = true.
Proof. intros Hc. split; [|unfold is_scheme_char; by rewrite Hc]. unfold is_alpha, code_between in Hc.
  rewrite orb_true_iff, !andb_true_iff, !N.leb_le in Hc. lia. Qed.

Lemma scheme_char_spec c : is_scheme_char c = true → unsafe_byte c = false ∧ c ≠ ":"%char.
Proof. by destruct c as [[] [] [] [] [] [] [] []]. Qed.

(** The parts of a well-formed URL. *)
Lemma urlsplit_url scheme a t :
  scheme_wf scheme = true → au_wf a = true → tail_wf t = true →
  urlsplit (url_of scheme a t) = Ok (mkSplitResult (lower scheme) (au_chars a)).
Proof.
  intros Hs Hwf Ht. destruct (au_chars_plain a Hwf) as (Hu & Hstop & Hl & Hr).
  unfold urlsplit, url_of. rewrite list_ascii_of_string_of_list_ascii.
  assert (split_scheme (clean (list_ascii_of_string scheme ++ list_ascii_of_string "://" ++ au_chars a ++ t))
    = (lower scheme, (["/"%char; "/"%char] ++ au_chars a ++ base.filter (λ c, unsafe_byte c = false) t)%list)) as ->.
  { unfold scheme_wf in Hs. unfold clean.
    rewrite <- (string_of_list_ascii_of_string scheme). destruct (list_ascii_of_string scheme) as [|c s]; [done|].
    rewrite list_ascii_of_string_of_list_ascii. apply andb_true_iff in Hs as [Hc Hsc].
    destruct (is_alpha_spec c Hc) as [Hlt Hcs]. cbn [app lstrip_controls]. rewrite (proj2 (N.leb_gt _ _) Hlt).
    assert (Forall (λ x, unsafe_byte x = false ∧ x ≠ ":"%char) (c :: s)) as Hall.
    { constructor; [by apply scheme_char_spec|]. eapply forallb_Forall; [|exact Hsc]. apply scheme_char_spec. }
    change (c :: s ++ list_ascii_of_string "://" ++ au_chars a ++ t)%list
      with ((c :: s) ++ list_ascii_of_string "://" ++ au_chars a ++ t)%list.
    rewrite !filter_app, (filter_id _ (au_chars a)) by done.
    rewrite (filter_id _ (c :: s)) by (eapply Forall_impl; [exact Hall|]; by intros ? []).
    change (base.filter (λ x, unsafe_byte x = false) (list_ascii_of_string "://")) with (":"%char :: ["/"%char; "/"%char]).
    unfold split_scheme. rewrite <- app_comm_cons. cbn [app].
    change (c :: s ++ ":"%char :: ?r)%list with ((c :: s) ++ ":"%char :: r)%list.
    rewrite partition_at by (eapply Forall_impl; [exact Hall|]; by intros ? []).
    cbn [forallb]. by rewrite Hc, Hcs, Hsc. }
  cbv beta iota zeta. rewrite netloc_after_slashes, until_app; [|done|].
  2:{ destruct t as [|c t]; [done|]. cbn in Ht. apply bool_decide_eq_true in Ht. rewrite filter_cons_True; [done|].
      rewrite !elem_of_cons in Ht. by destruct Ht as [->|[->|[->|[]%elem_of_nil]]]. }
  unfold has_char. by rewrite !bool_decide_eq_false_2.
Qed.

Lemma hostname_url scheme a :
  au_wf a = true → hostname (mkSplitResult scheme (au_chars a)) = lower (of_chars a.(au_host)).
Proof.
  unfold au_wf, hostname, au_chars. rewrite !andb_true_iff. intros [[[Hu Hh] _] Hp]. cbn [sr_netloc].
  assert (Forall (λ c, host_char c = true) a.(au_host)) as Hhost by by eapply forallb_Forall; [|exact Hh].
  set (port := match au_port a with Some p => ":"%char :: p | None => [] end).
  assert (Forall (λ c, c ≠ "@"%char) (au_host a ++ port)) as Hat.
  { apply Forall_app. split; [eapply Forall_impl; [done|]; intros c Hc%host_char_spec; tauto|].
    subst port. destruct (au_port a); [|done]. constructor; [done|]. eapply forallb_Forall; [|exact Hp].
    intros c. rewrite andb_true_iff, negb_true_iff, b_eq_false. tauto. }
  assert (after_last "@"%char
    (match au_user a with Some u => u ++ ["@"%char] | None => [] end ++ au_host a ++ port)%list
    = (au_host a ++ port)%list) as ->.
  { destruct (au_user a) as [u|]; [|by apply after_last_free]. rewrite <-app_assoc. by apply after_last_at. }
  rewrite (partition_none "["%char).
  2:{ apply Forall_app. split; [eapply Forall_impl; [done|]; intros c [[]%auth_char_spec]%host_char_spec; tauto|].
      subst port. destruct (au_port a); [|done]. constructor; [done|]. eapply forallb_Forall; [|exact Hp].
      intros c. rewrite andb_true_iff. intros [[]%auth_char_spec _]. tauto. }
  assert ((partition ":"%char (au_host a ++ port)).1.1 = au_host a) as ->.
  { assert (Forall (λ c, c ≠ ":"%char) (au_host a))
      by (eapply Forall_impl; [done|]; intros c Hc%host_char_spec; tauto).
    subst port. destruct (au_port a); [by rewrite partition_at|]. by rewrite app_nil_r, partition_none. }
  rewrite partition_none; [|eapply Forall_impl; [done|]; intros c Hc%host_char_spec; tauto].
  cbv iota zeta. change ("" ++ of_chars []) with "". apply string_app_nil.
Qed.

Lemma lower_nonempty (l : chars) : l ≠ [] → lower (of_chars l) ≠ "".
Proof. destruct l; [done|]. by unfold lower; cbn. Qed.

(** ** Properties *)

(** C12. The verdict on a redirect URL [scheme://userinfo@host:port...] is the
    policy's: it is accepted, unchanged, exactly when its scheme is http or https and the
    origin as written, the origin with the user information and the port removed and the
    host in lower case, the host itself or a dotted suffix of it is configured (or every
    origin is); every other URL is a validation error. *)
Theorem redirect_url_verdict scheme a t :
  scheme_wf scheme = true → au_wf a = true → tail_wf t = true →
  let url := url_of scheme a t in
  (redirect_allowed scheme a → _validate_redirect_url url = Ok url) ∧
  (¬ redirect_allowed scheme a → _validate_redirect_url url = Raise ValidationError).
Proof.
  intros Hs Hwf Ht url. unfold _validate_redirect_url. subst url. rewrite urlsplit_url by done.
  cbn [mbind outcome_bind]. rewrite (hostname_url (lower scheme) a Hwf). cbn [sr_scheme sr_netloc].
  unfold redirect_allowed. cbv zeta.
  destruct (str_in (lower scheme) ["http"; "https"]) eqn:Hweb; cbn [negb].
  2:{ split; [|done]. intros [Hw _]. apply bool_decide_eq_false in Hweb. destruct Hweb. set_solver. }
  assert (lower scheme = "http" ∨ lower scheme = "https") as Hw by (rewrite str_in_true in Hweb; set_solver).
  rewrite (proj2 (b_eq_false (lower (of_chars (au_host a))) ""))
    by (apply lower_nonempty; unfold au_wf in Hwf; rewrite !andb_true_iff, negb_true_iff, b_eq_false in Hwf; tauto).
  cbn [negb]. unfold _host_matchers. cbn [fst snd].
  destruct CORS_ALLOW_ALL_ORIGINS; [split; [done|tauto]|].
  destruct (str_in (_ ++ "://" ++ of_chars (au_chars a)) _) eqn:E1; cbn [orb];
    [rewrite str_in_true in E1; split; [done|tauto]|].
  destruct (str_in (_ ++ "://" ++ lower _) _) eqn:E2; [rewrite str_in_true in E2; split; [done|tauto]|].
  apply bool_decide_eq_false in E1, E2.
  destruct (str_in (lower _) (base.filter _ _)) eqn:E3.
  { rewrite str_in_true, list_elem_of_filter, andb_true_iff, !negb_true_iff, b_eq_false in E3.
    split; [done|tauto]. }
  apply bool_decide_eq_false in E3. rewrite list_elem_of_filter, andb_true_iff, !negb_true_iff, b_eq_false in E3.
  destruct (existsb _ _) eqn:E4.
  { apply existsb_exists in E4 as (s & Hin%list_elem_of_In & He). apply list_elem_of_filter in Hin as [Hd Hin].
    split; [done|]. intros Hn. exfalso. apply Hn. split; [done|]. do 4 right. by exists s. }
  split; [|done]. intros [_ [?|[?|[?|[?|(s & Hin & Hd & He)]]]]]; [done|done|done|tauto|].
  assert (existsb (endswith (lower (of_chars (au_host a))))
    (base.filter (λ h, starts_with_dot h = true) ALLOWED_HOSTS) = true) as Ht'; [|congruence].
  apply existsb_exists. exists s. split; [|done]. by apply list_elem_of_In, list_elem_of_filter.
Qed.

End Facts.
