(* ===== verification/BillingContext.v ===== *)
(** * Billing requests: currency, price, context and authority

    The helpers of [apps/billing/views.py] every endpoint starts with: the
    currency to charge in, the Stripe price of a catalogue price in that currency,
    the subscription context and the caller's authority over it. *)

From S2P Require Import Prelude PyVal Effects Domain Relational Store Django Repos.
From S2P Require Import Repositories Currency Fields OrgViews.

#[local] Open Scope string_scope.

(** ** Settings and errors *)

(** [settings.BILLING_CURRENCIES]; [config/settings/base.py] refuses to start on a
    value that breaks the laws. *)
Class BillingSettings := BILLING_CURRENCIES : list string.

Definition billing_settings_error `{BillingSettings} : bool :=
  negb (forallb (λ c, str_in c SUPPORTED_CURRENCIES) BILLING_CURRENCIES)
  || negb (str_in "usd" BILLING_CURRENCIES).

Definition _OrgAlreadyOwned : exn := APIException 409 "org_already_owned".
Definition NotFound : exn := APIException 404 "not_found".
Definition PermissionDenied : exn := APIException 403 "permission_denied".

Definition MIN_TEAM_SEATS : Z := 1.

(** ** Currency *)

(** [s or None] for an optional string. *)
Definition non_empty (s : option string) : option string :=
  match s with Some s => if b_eq s "" then None else Some s | None => None end.

Definition _resolve_billing_currency `{BillingSettings} (query_currency : option string)
    (user : option UserRow) : outcome (string * option string) :=
  let requested := lower <$> non_empty query_currency in
  if match requested with Some c => negb (str_in c SUPPORTED_CURRENCIES) | None => false end
  then Raise ValidationError else
  let user_pref := match non_empty (u_preferred_currency <$> user) with
                   | Some p => if str_in (lower p) SUPPORTED_CURRENCIES then Some (lower p) else None
                   | None => None
                   end in
  let target := or_else requested (or_else user_pref "usd") in
  let billing := if str_in target BILLING_CURRENCIES then target else "usd" in
  Ok (billing, match user_pref with
               | Some p => if b_eq p billing then None else Some p
               | None => None
               end).

Record _CurrencyContext := mkCurrencyContext {
  cc_currency : string;
  cc_preferred_currency : option string
}.

Definition _currency_context `{BillingSettings} (query_currency : option string)
    (user : option UserRow) : outcome _CurrencyContext :=
  r ← _resolve_billing_currency query_currency user; Ok (mkCurrencyContext r.1 r.2).

(** ** Prices *)

(** The owner of a localized price. *)
Inductive price_owner := OfPlanPrice (id : uuid) | OfProductPrice (id : uuid).

#[export] Instance price_owner_eq_dec : EqDecision price_owner.
Proof. solve_decision. Defined.

(** A [PlanPrice] or [ProductPrice] instance, with the list prefetched under
    [_resolved_localized], if any. *)
Record price_obj := mkPriceObj {
  po_owner : price_owner;
  po_stripe_price_id : string;
  po_amount : Z;
  po_resolved : option (list LocalizedRow)
}.

Definition localizes (o : price_owner) (l : LocalizedRow) : bool :=
  match o with
  | OfPlanPrice i => b_eq l.(lp_plan_price) (Some i)
  | OfProductPrice i => b_eq l.(lp_product_price) (Some i)
  end.

(** [_localized_prices_queryset]: no row for an empty set of currencies. *)
Definition wanted_currencies (currency : string) (preferred : option string) : list string :=
  base.filter (λ c, negb (b_eq c "") && negb (b_eq c "usd") = true) (currency :: option_list preferred).

Definition _localized_prices_queryset (currency : string) (preferred : option string)
    (o : price_owner) (d : db) : list LocalizedRow :=
  snd <$> map_to_list (tfilter (λ _ l, localizes o l && str_in l.(lp_currency) (wanted_currencies currency preferred))
                         d.(d_localized)).

(** [localized_prices.filter(currency=..., stripe_price_id__isnull=False)]. *)
Definition stripe_ready (o : price_owner) (currency : string) (_ : N) (l : LocalizedRow) : bool :=
  localizes o l && b_eq l.(lp_currency) currency && not_none l.(lp_stripe_price_id).

Definition _resolved_localized_prefetch (o : price_owner) (currency : string) (d : db) : list LocalizedRow :=
  snd <$> map_to_list (tfilter (stripe_ready o currency) d.(d_localized)).

Definition _localized_for_currency (price : price_obj) (currency : string) : M store (option LocalizedRow) :=
  match price.(po_resolved) with
  | Some cached =>
      mret (snd <$> list_find (λ row, b_eq row.(lp_currency) currency
                                      && not_none (non_empty row.(lp_stripe_price_id)) = true) cached)
  | None => dquery (λ d, snd <$> tfind (stripe_ready price.(po_owner) currency) d.(d_localized))
  end.

Definition _resolve_stripe_price_id (price : price_obj) (currency : string) : M store string :=
  if b_eq currency "usd" then mret price.(po_stripe_price_id) else
  row ← _localized_for_currency price currency;
  mret (or_else (row ≫= λ r, non_empty r.(lp_stripe_price_id)) price.(po_stripe_price_id)).

Definition _resolve_plan_change_price (plan_price : price_obj) (currency : string) : M store (string * Z) :=
  if b_eq currency "usd" then mret (plan_price.(po_stripe_price_id), plan_price.(po_amount)) else
  row ← _localized_for_currency plan_price currency;
  match row with
  | Some r =>
      match non_empty r.(lp_stripe_price_id) with
      | Some k => mret (k, r.(lp_amount_minor))
      | None => raise ValidationError
      end
  | None => raise ValidationError
  end.

(** [if currency and currency != "usd"]. *)
Definition prefetch_for (o : price_owner) (currency : option string) (d : db) : option (list LocalizedRow) :=
  match non_empty currency with
  | Some c => if b_eq c "usd" then None else Some (_resolved_localized_prefetch o c d)
  | None => None
  end.

(** [_get_active_plan_price]: the price with its plan. *)
Definition active_plan_price (plan_price_id : uuid) (currency : option string) (d : db) :
    option (Plan * price_obj) :=
  p ← d.(d_prices) !! plan_price_id;
  plan ← d.(d_plans) !! p.(pp_plan_id);
  if plan.(plan_is_active)
  then Some (plan, mkPriceObj (OfPlanPrice plan_price_id) p.(pp_stripe_price_id) p.(pp_amount)
                     (prefetch_for (OfPlanPrice plan_price_id) currency d))
  else None.

Definition _get_active_plan_price (plan_price_id : uuid) (currency : option string) :
    M store (Plan * price_obj) :=
  get_or_404 (active_plan_price plan_price_id currency).

(** [_get_active_product_price]: the price with its [product_id]. *)
Definition active_product_price (product_price_id : uuid) (currency : option string) (d : db) :
    option (uuid * price_obj) :=
  p ← d.(d_product_prices) !! product_price_id;
  product ← d.(d_products) !! p.(pr_product);
  if product.(prod_is_active)
  then Some (p.(pr_product),
             mkPriceObj (OfProductPrice product_price_id) p.(pr_stripe_price_id) p.(pr_amount)
               (prefetch_for (OfProductPrice product_price_id) currency d))
  else None.

Definition _get_active_product_price (product_price_id : uuid) (currency : option string) :
    M store (uuid * price_obj) :=
  get_or_404 (active_product_price product_price_id currency).

(** ** Seats *)

Definition _validate_quantity_for_context (context : PlanContext) (quantity : Z) : outcome Z :=
  match context with
  | PERSONAL => if negb (b_eq quantity 1%Z) then Raise ValidationError else Ok 1%Z
  | TEAM => if (quantity <? MIN_TEAM_SEATS)%Z then Raise ValidationError else Ok quantity
  end.

Definition _validate_quantity_for_plan (plan : Plan) (quantity : Z) : outcome Z :=
  _validate_quantity_for_context plan.(plan_context) quantity.

Definition count_members (org : uuid) (d : db) : nat := tcount (λ _ m, b_eq m.(m_org) org) d.(d_members).

Definition _reject_seat_limit_below_member_count (org_id : uuid) (seat_limit : Z) : M store unit :=
  member_count ← dquery (count_members org_id);
  if (seat_limit <? Z.of_nat member_count)%Z
  then raise (SeatsBelowMemberCountError
    ("Cannot reduce seats to " ++ pretty seat_limit ++ ": org has " ++ pretty member_count ++ " members."
     ++ " Remove " ++ pretty (Z.of_nat member_count - seat_limit)%Z ++ " member(s) first."))
  else mret tt.

(** ** Context *)

Definition _validate_subscription_context (value : option string) : outcome (option PlanContext) :=
  match non_empty value with
  | None => Ok None
  | Some v => if b_eq v "team" then Ok (Some TEAM)
              else if b_eq v "personal" then Ok (Some PERSONAL)
              else Raise ValidationError
  end.

(** [OrgMember.objects.filter(user_id=...).first()]. *)
Definition first_membership (user : uuid) (d : db) : option MemberRow :=
  snd <$> tfind (λ _ m, b_eq m.(m_user) user) d.(d_members).
Definition first_billing_membership (user : uuid) (d : db) : option MemberRow :=
  snd <$> tfind (λ _ m, b_eq m.(m_user) user && m.(m_is_billing)) d.(d_members).

Definition _default_subscription_context (user : uuid) : M store PlanContext :=
  is_member ← dquery (λ d, not_none (first_membership user d));
  mret (if is_member : bool then TEAM else PERSONAL).

Definition _resolve_billing_customer (user : uuid) (context : option PlanContext) (org_id : option uuid) :
    M store (option StripeCustomer) :=
  effective ← match context with Some c => mret c | None => _default_subscription_context user end;
  match effective with
  | TEAM =>
      org ← match org_id with
            | Some o => mret (Some o)
            | None => dquery (λ d, m_org <$> first_membership user d)
            end;
      match org with
      | Some o => query (λ s, custs_get_by_org_id s o)
      | None => mret None
      end
  | PERSONAL => query (λ s, custs_get_by_user_id s user)
  end.

Definition _get_customer_and_paid_subscription (user : uuid) (context : option PlanContext)
    (org_id : option uuid) : M store (StripeCustomer * Subscription * string) :=
  customer ← _resolve_billing_customer user context org_id;
  match customer with
  | None => raise NotFound
  | Some customer =>
      sub ← query (λ s, subs_get_active_for_customer s customer.(cus_id));
      match sub with
      | None => raise NotFound
      | Some sub =>
          match sub.(sub_stripe_id) with
          | None => raise NotFound
          | Some k => mret (customer, sub, k)
          end
      end
  end.

(** ** Authority *)

(** [_require_billing_authority] and its async variant. *)
Definition _require_billing_authority (user : uuid) (context : PlanContext) : M store (option uuid) :=
  match context with
  | PERSONAL => mret None
  | TEAM =>
      billing_member ← dquery (first_billing_membership user);
      match billing_member with
      | None => raise PermissionDenied
      | Some m => mret (Some m.(m_org))
      end
  end.

Definition _resolve_mutation_context (query_context : option string) (user : uuid) :
    M store (PlanContext * option uuid) :=
  explicit ← lift (_validate_subscription_context query_context);
  match explicit with
  | Some c => o ← _require_billing_authority user c; mret (c, o)
  | None =>
      membership ← dquery (first_membership user);
      match membership with
      | None => mret (PERSONAL, None)
      | Some m => if negb m.(m_is_billing) then raise PermissionDenied else mret (TEAM, Some m.(m_org))
      end
  end.

Definition _resolve_product_purchase_context (user : uuid) (context : option PlanContext) :
    M store (option uuid) :=
  membership ← dquery (first_membership user);
  match or_else context (if not_none membership then TEAM else PERSONAL) with
  | PERSONAL => mret None
  | TEAM =>
      match membership with
      | None => raise ValidationError
      | Some m => if negb (is_owner m.(m_role)) then raise PermissionDenied else mret (Some m.(m_org))
      end
  end.

(** [_billing_notice_recipients]. *)
Definition _billing_notice_recipients (user : UserRow) (org_id : option uuid) : M store (list string) :=
  match org_id with
  | None => mret [user.(u_email)]
  | Some o =>
      dquery (λ d, omap (λ m, u_email <$> d.(d_users) !! m.2.(m_user))
                     (map_to_list (tfilter (λ _ m, b_eq m.(m_org) o && m.(m_is_billing)) d.(d_members))))
  end.
