(* ===== verification/LocalizedSync.v ===== *)
(** * The daily recomputation of the localized prices

    [sync_localized_prices] of [apps/billing/tasks.py]: from the exchange rates of
    the FX feed to the [LocalizedPrice] rows of every price of the catalogue.  The
    feed is not in the repository: the class [FxFeed]. *)

From Stdlib Require Import SpecFloat.
From S2P Require Import Prelude PyVal Effects Domain Relational Store Django.
From S2P Require Import Currency Fields OrgViews BillingContext.

#[local] Open Scope string_scope.

(** ** Decimals: [_to_minor_units]

    The parts of Python's [decimal] and [repr] it goes through: the shortest decimal
    that reads back as a float, and its rounding half up to an integer. *)

Section Decimals.
#[local] Open Scope Z_scope.

(** A finite decimal: [dec_coeff * 10 ^ dec_exp]. *)
Record decimal := mkDecimal {
  dec_coeff : Z;
  dec_exp : Z
}.

(** The float nearest to [n / d]. *)
Definition float_of_ratio (n d : positive) : spec_float :=
  SFdiv 53 1024 (S754_finite false n 0) (S754_finite false d 0).

Definition float_of_decimal (c : positive) (e : Z) : spec_float :=
  if 0 <=? e then float_of_ratio (c * Z.to_pos (10 ^ e)) 1
  else float_of_ratio c (Z.to_pos (10 ^ (- e))).

(** The number of decimal digits of a positive integer. *)
Definition digits10 (n : Z) : Z :=
  (fix go (fuel : nat) (k p : Z) : Z :=
     match fuel with
     | O => k
     | S fuel => if n <? p then k else go fuel (k + 1) (p * 10)
     end) 400%nat 0 1.

(** The decimal exponent of [n / d]: the greatest [k] with [10 ^ k <= n / d]. *)
Definition exponent10 (n d : Z) : Z :=
  if d <=? n then digits10 (n / d) - 1
  else (* n / d < 1 *)
    let k := digits10 (d / n) in
    if n * 10 ^ (k - 1) =? d then - (k - 1) else - k.

(** The decimals of [k] digits next to [n / d] that read back as [x], the nearest
    first. *)
Definition readings (x : spec_float) (n d : Z) (k : Z) : option decimal :=
  let e := exponent10 n d - (k - 1) in
  let num := if 0 <=? e then n else n * 10 ^ (- e) in
  let den := if 0 <=? e then d * 10 ^ e else d in
  let low := num / den in
  let reads c := match c with Zpos c => sf_eqb (float_of_decimal c e) x | _ => false end in
  let up_first := den <? 2 * (num - low * den) in
  let first := if up_first then low + 1 else low in
  let second := if up_first then low else low + 1 in
  if reads first then Some (mkDecimal first e)
  else if reads second then Some (mkDecimal second e) else None.

Fixpoint shortest (x : spec_float) (n d : Z) (k : Z) (fuel : nat) : option decimal :=
  match fuel with
  | O => None
  | S fuel => match readings x n d k with
              | Some r => Some r
              | None => shortest x n d (k + 1) fuel
              end
  end.

(** [Decimal(str(x))] of a finite float: at most 17 digits are needed. *)
Definition decimal_of_float (x : spec_float) : option decimal :=
  match x with
  | S754_zero _ => Some (mkDecimal 0 0)
  | S754_finite s m e =>
      let n := if 0 <=? e then Z.shiftl (Zpos m) e else Zpos m in
      let d := if 0 <=? e then 1 else Z.shiftl 1 (- e) in
      (λ r, if s then mkDecimal (- r.(dec_coeff)) r.(dec_exp) else r)
        <$> shortest (S754_finite false m e) n d 1 17
  | _ => None
  end.

(** [int(x.quantize(Decimal("1"), rounding=ROUND_HALF_UP))]: the context holds 28
    digits. *)
Definition quantize (x : decimal) : outcome Z :=
  let c := Z.abs x.(dec_coeff) in
  let v :=
    if 0 <=? x.(dec_exp) then c * 10 ^ x.(dec_exp) else
    let p := 10 ^ (- x.(dec_exp)) in
    let q := c / p in
    if p <=? 2 * (c - q * p) then q + 1 else q in
  if 10 ^ 28 <=? v
  then Raise (ArithmeticError "InvalidOperation" "quantize result has too many digits for current context")
  else Ok (if x.(dec_coeff) <? 0 then - v else v).

(** A non-finite amount is an [InvalidOperation] too. *)
Definition _to_minor_units (display_amount : spec_float) (currency : string) : outcome Z :=
  match decimal_of_float display_amount with
  | None => Raise (ArithmeticError "InvalidOperation" "quantize with one INF")
  | Some amount =>
      quantize (if str_in (lower currency) ZERO_DECIMAL_CURRENCIES then amount
                else mkDecimal amount.(dec_coeff) (amount.(dec_exp) + 2))
  end.

Example minor_999 : _to_minor_units (cents 999) "eur" = Ok 999.
Proof. reflexivity. Qed.
Example minor_yen : _to_minor_units (float_of_Z 1500) "jpy" = Ok 1500.
Proof. reflexivity. Qed.
Example minor_yen_up : _to_minor_units (fdiv (float_of_Z 14987) (float_of_Z 10)) "jpy" = Ok 1499.
Proof. reflexivity. Qed.
Example minor_negative : _to_minor_units (cents (-1)) "eur" = Ok (-1).
Proof. reflexivity. Qed.
Example repr_tenth : decimal_of_float (fdiv (float_of_Z 1) (float_of_Z 10)) = Some (mkDecimal 1 (-1)).
Proof. reflexivity. Qed.
Example repr_sum : decimal_of_float (fadd (cents 10) (cents 20)) = Some (mkDecimal 30000000000000004 (-17)).
Proof. reflexivity. Qed.

(** [_to_minor_units] undoes [format_amount], here up to two units. *)
Lemma minor_units_inverse n :
  0 <= n <= 200 → _to_minor_units (format_amount n "usd") "usd" = Ok n.
Proof.
  intros Hn.
  assert (forallb (λ n, match _to_minor_units (format_amount n "usd") "usd" with
                        | Ok m => m =? n | Raise _ => false end) (from_to 0 201) = true) as H
    by (vm_compute; reflexivity).
  rewrite forallb_forall in H. specialize (H n (from_to_spec 201 0 n ltac:(lia))).
  destruct (_to_minor_units _ _) as [m|]; [|done]. apply Z.eqb_eq in H. by subst.
Qed.
End Decimals.

(** ** The feed *)

(** The JSON answer at a given time, or the exception of the transport, of
    [raise_for_status()] or of [json()]. *)
Class FxFeed := fx_fetch : datetime → outcome fx_json.

(** [float(s)] of a string. *)
Class FloatOfString := float_of_string : string → option spec_float.

(** ** Definitions *)

Section Sync.
  Context `{FxFeed} `{FloatOfString}.

(** [float(v)]. *)
Definition py_float (v : fx_json) : outcome spec_float :=
  match v with
  | FxNum x => Ok x
  | FxBool b => Ok (float_of_Z (if b then 1 else 0))
  | FxStr s => match float_of_string s with
               | Some x => Ok x
               | None => Raise (ValueError "could not convert string to float")
               end
  | _ => Raise (TypeError "float() argument must be a string or a real number")
  end.

(** [{k.lower(): float(v) for k, v in rates_raw.items()}]. *)
Fixpoint api_rates_of (items : list (string * fx_json)) (rates : gmap string spec_float) :
    outcome (gmap string spec_float) :=
  match items with
  | [] => Ok rates
  | (k, v) :: items => x ← py_float v; api_rates_of items (<[lower k := x]> rates)
  end.

Definition fmul : spec_float → spec_float → spec_float := SFmul 53 1024.

Definition new_amount (amount : Z) (currency : string) (rate : spec_float) : outcome Z :=
  display ← round_friendly (fmul (format_amount amount "usd") rate) currency;
  _to_minor_units display currency.

(** [_compute_new_amounts]: [SUPPORTED_CURRENCIES] is a set, iterated in any order. *)
Fixpoint _compute_new_amounts (api_rates : gmap string spec_float) (amount : Z)
    (currencies : list string) : outcome (list (string * Z)) :=
  match currencies with
  | [] => Ok []
  | currency :: currencies =>
      if b_eq currency "usd" then _compute_new_amounts api_rates amount currencies else
      match api_rates !! currency with
      | None => _compute_new_amounts api_rates amount currencies
      | Some rate =>
          n ← new_amount amount currency rate;
          l ← _compute_new_amounts api_rates amount currencies;
          Ok ((currency, n) :: l)
      end
  end.

(** The rows of a price by currency: a bucket of [plan_buckets] or
    [product_buckets].  A later row replaces an earlier one. *)
Definition bucket (o : price_owner) (d : db) : gmap string (N * LocalizedRow) :=
  foldl (λ b r, <[r.2.(lp_currency) := r]> b) ∅
    (map_to_list (tfilter (λ _ l, localizes o l) d.(d_localized))).

(** The rows to write: created, changed, and refreshed only. *)
Record upserts := mkUpserts {
  up_create : list (N * LocalizedRow);
  up_changed : list (N * LocalizedRow);
  up_heartbeat : list (N * LocalizedRow)
}.

Definition owner_plan_price (o : price_owner) : option uuid :=
  match o with OfPlanPrice i => Some i | OfProductPrice _ => None end.
Definition owner_product_price (o : price_owner) : option uuid :=
  match o with OfPlanPrice _ => None | OfProductPrice i => Some i end.

Definition with_amount (a : Z) (now : datetime) (l : LocalizedRow) : LocalizedRow :=
  mkLocalizedRow l.(lp_plan_price) l.(lp_product_price) l.(lp_currency) a l.(lp_stripe_price_id) now.
Definition with_synced (now : datetime) (l : LocalizedRow) : LocalizedRow :=
  with_amount l.(lp_amount_minor) now l.

(** The loop of [_upsert_for_price] over the new amounts; an instance draws its id
    when it is made. *)
Fixpoint upsert_rows (now : datetime) (o : price_owner) (existing : gmap string (N * LocalizedRow))
    (new_amounts : list (string * Z)) (u : upserts) : M store upserts :=
  match new_amounts with
  | [] => mret u
  | (currency, a) :: new_amounts =>
      u ← match existing !! currency with
          | None =>
              pk ← uuid4;
              let row := mkLocalizedRow (owner_plan_price o) (owner_product_price o) currency a None now in
              mret (mkUpserts (u.(up_create) ++ [(pk, row)]) u.(up_changed) u.(up_heartbeat))
          | Some (i, l) =>
              if negb (b_eq l.(lp_amount_minor) a)
              then mret (mkUpserts u.(up_create) (u.(up_changed) ++ [(i, with_amount a now l)]) u.(up_heartbeat))
              else mret (mkUpserts u.(up_create) u.(up_changed) (u.(up_heartbeat) ++ [(i, with_synced now l)]))
          end;
      upsert_rows now o existing new_amounts u
  end.

(** [_upsert_for_price] for each price of both querysets, accumulated. *)
Fixpoint upsert_prices (now : datetime) (api_rates : gmap string spec_float) (d : db)
    (prices : list (price_owner * Z)) (u : upserts) : M store upserts :=
  match prices with
  | [] => mret u
  | (o, amount) :: prices =>
      new_amounts ← lift (_compute_new_amounts api_rates amount SUPPORTED_CURRENCIES);
      u ← upsert_rows now o (bucket o d) new_amounts u;
      upsert_prices now api_rates d prices u
  end.

Definition catalog_prices (d : db) : list (price_owner * Z) :=
  map (λ p, (OfPlanPrice p.1, p.2.(pp_amount))) (map_to_list d.(d_prices))
  ++ map (λ p, (OfProductPrice p.1, p.2.(pr_amount))) (map_to_list d.(d_product_prices)).

Definition insert_localized (i : N) (a : LocalizedRow) (d : db) : outcome db :=
  _ ← fresh_pk d.(d_localized) i; save_localized i a d.

(** UPDATE of some columns of the row of an instance, if it is still there. *)
Definition update_localized (f : LocalizedRow → LocalizedRow → LocalizedRow) (i : N) (a : LocalizedRow)
    (d : db) : outcome db :=
  match d.(d_localized) !! i with Some row => save_localized i (f a row) d | None => Ok d end.

Fixpoint bulk (write : N → LocalizedRow → db → outcome db) (rows : list (N * LocalizedRow)) :
    M store unit :=
  match rows with
  | [] => mret tt
  | (i, a) :: rows => dexec (write i a);; bulk write rows
  end.

(** The columns [amount_minor] and [synced_at], and [synced_at] alone. *)
Definition write_amount (a row : LocalizedRow) : LocalizedRow := with_amount a.(lp_amount_minor) a.(lp_synced_at) row.
Definition write_synced (a row : LocalizedRow) : LocalizedRow := with_synced a.(lp_synced_at) row.

Definition sync_rates (api_rates : gmap string spec_float) : M store Z :=
  now ← utcnow;
  atomic (
    d ← dquery id;
    u ← upsert_prices now api_rates d (catalog_prices d) (mkUpserts [] [] []);
    bulk insert_localized u.(up_create);;
    bulk (update_localized write_amount) u.(up_changed);;
    bulk (update_localized write_synced) u.(up_heartbeat);;
    mret (Z.of_nat (length u.(up_create) + length u.(up_changed)))).

(** [except (httpx.HTTPError, ValueError)] and [except (TypeError, ValueError)]. *)
Definition fetch_error (e : exn) : bool :=
  match e with HTTPError _ | ValueError _ => true | _ => false end.
Definition rate_error (e : exn) : bool :=
  match e with TypeError _ | ValueError _ => true | _ => false end.

Definition sync_localized_prices : M store Z :=
  at_ ← utcnow;
  match fx_fetch at_ with
  | Raise e => if fetch_error e then mret 0%Z else raise e
  | Ok data =>
      result ← lift (fx_get data "result");
      if negb (fx_is_str result "success") then mret 0%Z else
      rates_raw ← lift (fx_get data "rates");
      match rates_raw with
      | FxObj items =>
          match api_rates_of items ∅ with
          | Raise e => if rate_error e then mret 0%Z else raise e
          | Ok api_rates => sync_rates api_rates
          end
      | _ => mret 0%Z
      end
  end.

End Sync.
