(* ===== verification/BillingCatalog.v ===== *)
(** * The catalogue as the API shows it

    The response serializers of [apps/billing/serializers.py] and the public list
    endpoints of [apps/billing/views.py]: which amount, in which currency, a price
    is displayed with, and the serialized form of plans, products and
    subscriptions. *)

From Stdlib Require Import SpecFloat.
From S2P Require Import Prelude PyVal Effects Domain Relational Store Django Repos.
From S2P Require Import Repositories Currency Orgs Fields OrgViews BillingContext.

#[local] Open Scope string_scope.

(** ** Prices *)

(** The amount and the rows of [price.localized_prices.all()]. *)
Definition _localized_display (amount : Z) (rows : list LocalizedRow) (currency : string) :
    spec_float * string :=
  if b_eq currency "usd" then (format_amount amount "usd", "usd") else
  match list_find (λ lp, lp.(lp_currency) = currency) rows with
  | Some (_, lp) => (format_amount lp.(lp_amount_minor) currency, currency)
  | None => (format_amount amount "usd", "usd")
  end.

Definition _local_display (rows : list LocalizedRow) (preferred_currency : option string) :
    option spec_float * option string :=
  match preferred_currency with
  | None => (None, None)
  | Some c =>
      match list_find (λ lp, lp.(lp_currency) = c) rows with
      | Some (_, lp) => (Some (format_amount lp.(lp_amount_minor) c), Some c)
      | None => (None, None)
      end
  end.

Record PriceOut := mkPriceOut {
  out_price_id : uuid;
  out_amount : Z;
  out_display_amount : spec_float;
  out_currency : string;
  out_local_display_amount : option spec_float;
  out_local_currency : option string
}.

Definition price_to_representation (id : uuid) (amount : Z) (rows : list LocalizedRow)
    (ctx : _CurrencyContext) : PriceOut :=
  let '(display_amount, currency) := _localized_display amount rows ctx.(cc_currency) in
  let '(local_amount, local_currency) := _local_display rows ctx.(cc_preferred_currency) in
  mkPriceOut id amount display_amount currency local_amount local_currency.

(** ** Plans and products *)

Definition get_tier (t : PlanTier) : string :=
  match t with FREE => "free" | BASIC => "basic" | PRO => "pro" end.

(** The other fields are the row's; a plan without a price has no [price] key. *)
Record PlanOut := mkPlanOut {
  out_plan : Plan;
  out_tier : string;
  out_plan_price : option PriceOut
}.

Definition localized_of (o : price_owner) (ctx : _CurrencyContext) (d : db) : list LocalizedRow :=
  _localized_prices_queryset ctx.(cc_currency) ctx.(cc_preferred_currency) o d.

Definition PlanSerializer (ctx : _CurrencyContext) (d : db) (p : Plan) : PlanOut :=
  mkPlanOut p (get_tier p.(plan_tier))
    ((λ r, price_to_representation r.1 r.2.(pp_amount) (localized_of (OfPlanPrice r.1) ctx d) ctx)
       <$> tfind (λ _ pp, b_eq pp.(pp_plan_id) p.(plan_id)) d.(d_prices)).

Record ProductOut := mkProductOut {
  out_product : Product;
  out_product_price : option PriceOut
}.

Definition ProductSerializer (ctx : _CurrencyContext) (d : db) (p : Product) : ProductOut :=
  mkProductOut p
    ((λ r, price_to_representation r.1 r.2.(pr_amount) (localized_of (OfProductPrice r.1) ctx d) ctx)
       <$> tfind (λ _ pp, b_eq pp.(pr_product) p.(prod_id)) d.(d_product_prices)).

(** ** The list endpoints *)

Record Envelope (A : Type) := mkEnvelope {
  env_count : nat;
  env_next : option string;
  env_previous : option string;
  env_results : list A
}.
Arguments mkEnvelope {A} _ _ _ _.
Arguments env_count {A} _.
Arguments env_next {A} _.
Arguments env_previous {A} _.
Arguments env_results {A} _.

Definition _catalog_envelope {A} (results : list A) : Envelope A :=
  mkEnvelope (length results) None None results.

(** The order of [Plan.Meta.ordering]: context, tier, interval. *)
Definition plan_rank (p : Plan) : N :=
  ((match p.(plan_context) with PERSONAL => 0 | TEAM => 1 end) * 6
   + (match p.(plan_tier) with FREE => 0 | BASIC => 1 | PRO => 2 end) * 2
   + (match p.(plan_interval) with MONTH => 0 | YEAR => 1 end))%N.

Definition plan_le (p q : Plan) : Prop := (plan_rank p <= plan_rank q)%N.
#[export] Instance plan_le_dec : RelDecision plan_le.
Proof. intros p q. unfold plan_le. apply _. Defined.

Definition active_plans (d : db) : list Plan :=
  merge_sort plan_le
    (snd <$> map_to_list (tfilter (λ _ p, p.(plan_is_active)) d.(d_plans))).

Section Views.
  Context `{BillingSettings}.

(** [PlanListView.get]; [user] is [None] for an anonymous caller. *)
Definition plan_list (query_currency : option string) (user : option UserRow) :
    M store (Envelope PlanOut) :=
  ctx ← lift (_currency_context query_currency user);
  dquery (λ d, _catalog_envelope (PlanSerializer ctx d <$> active_plans d)).

(** [ProductListView.get]. *)
Definition product_list (query_currency : option string) (user : option UserRow) :
    M store (Envelope ProductOut) :=
  ctx ← lift (_currency_context query_currency user);
  dquery (λ d, _catalog_envelope (ProductSerializer ctx d <$> products_list_active d)).

(** [sorted] of strings. *)
Definition string_le (a b : string) : Prop := String.leb a b = true.
#[export] Instance string_le_dec : RelDecision string_le.
Proof. intros a b. unfold string_le. apply _. Defined.

(** [BillingCurrenciesView.get]: [billable] and [display_only]. *)
Definition billing_currencies : list string * list string :=
  (merge_sort string_le BILLING_CURRENCIES,
   merge_sort string_le
     (base.filter (λ c, negb (str_in c BILLING_CURRENCIES) = true) SUPPORTED_CURRENCIES)).

End Views.

(** ** Subscriptions *)

(** The annotation [org_member_count]: NULL when the grouped count has no row. *)
Definition org_member_count (d : db) (s : Subscription) : option nat :=
  o ← sub_customer_org d s;
  match count_members o d with O => None | n => Some n end.

Definition get_seats_used (d : db) (s : Subscription) : outcome nat :=
  match sub_customer_org d s with
  | None => Ok 1
  | Some _ =>
      match org_member_count d s with
      | Some n => Ok n
      | None => Raise (RuntimeError "SubscriptionSerializer requires the org_member_count annotation")
      end
  end.

Record SubscriptionOut := mkSubscriptionOut {
  out_sub : Subscription;
  out_sub_plan : option PlanOut;
  out_seats_used : nat;
  out_scheduled_plan : option PlanOut
}.

Definition SubscriptionSerializer (ctx : _CurrencyContext) (s : Subscription) (d : db) :
    outcome SubscriptionOut :=
  n ← get_seats_used d s;
  Ok (mkSubscriptionOut s (PlanSerializer ctx d <$> d.(d_plans) !! s.(sub_plan_id)) n
        (PlanSerializer ctx d <$> (s.(sub_scheduled_plan_id) ≫= λ p, d.(d_plans) !! p))).

(** [_get_active_subscriptions_for_user]: the team subscription first. *)
Definition team_sub_of (org : uuid) (d : db) : option Subscription :=
  snd <$> tlatest sub_created_at
    (λ _ s, sub_is_active s && b_eq (sub_customer_org d s) (Some org)) d.(d_subs).

Definition personal_sub_of (user : uuid) (d : db) : option Subscription :=
  snd <$> tlatest sub_created_at
    (λ _ s, sub_is_active s && (b_eq s.(sub_user_id) (Some user) || b_eq (sub_customer_user d s) (Some user)))
    d.(d_subs).

Definition _get_active_subscriptions_for_user (user : uuid) (d : db) : list Subscription :=
  let team := m ← first_membership user d; team_sub_of m.(m_org) d in
  let personal := personal_sub_of user d in
  option_list team
  ++ match personal with
     | Some p => if b_eq (sub_id <$> team) (Some p.(sub_id)) then [] else [p]
     | None => []
     end.

(** [_refetch_subscription_after_mutation]. *)
Definition _refetch_subscription_after_mutation (user : uuid) (context : PlanContext) (d : db) :
    outcome Subscription :=
  let subs := _get_active_subscriptions_for_user user d in
  let wanted := match context with
                | TEAM => λ s, not_none (sub_customer_org d s)
                | PERSONAL => λ s, is_none (sub_customer_org d s)
                end in
  match List.find wanted subs with Some s => Ok s | None => Raise NotFound end.
