(* ===== verification/Pages.v ===== *)
(** * Pages

    The inquiry form of [apps/marketing] with its throttle rate, the dashboard of
    [apps/dashboard/views.py], the subscription column of the admin's user list
    ([apps/admin_panel/admin.py]) and the admin's deletion of organisations
    ([apps/orgs/admin.py]); what becomes of an inquiry, which plan a dashboard shows, and
    that a bulk deletion is one cascade. *)

From S2P Require Import Prelude PyVal Text Effects Domain Relational Store StoreFacts Django Auth AuthViews Fields.
From S2P Require Import Repositories Orgs OrgFacts Mail BillingCatalog.

#[local] Open Scope string_scope.

(** ** Inquiries *)

Definition INQUIRY_SOURCES : list string := ["landing-cta"; "contact-page"].
Definition INQUIRY_MESSAGE_MAX : nat := 5000.
Definition INQUIRY_EMAIL_MAX : nat := 254.

Record InquiryBody := mkInquiryBody {
  iq_email : field string;
  iq_message : field string;
  iq_source : field string;
  iq_honeypot : field string
}.

Record Inquiry := mkInquiry { in_email : string; in_message : string; in_source : string; in_honeypot : string }.

Definition at_most (n : nat) (s : string) : outcome string :=
  if (n <? String.length s)%nat then Raise ValidationError else Ok s.

Definition MarketingInquirySerializer `{EmailValidator} (b : InquiryBody) : outcome Inquiry :=
  email ← required (λ s, s ← EmailField s; at_most INQUIRY_EMAIL_MAX s) b.(iq_email);
  message ← defaulted "" (λ s, s ← CharField_blank s; at_most INQUIRY_MESSAGE_MAX s) b.(iq_message);
  source ← required (λ s, if str_in s INQUIRY_SOURCES then Ok s else Raise ValidationError) b.(iq_source);
  honeypot ← defaulted "" CharField_blank b.(iq_honeypot);
  if b_eq source "contact-page" && b_eq message "" then Raise ValidationError
  else Ok (mkInquiry email message source honeypot).

Class MarketingSettings := MARKETING_INQUIRIES_TO : string.

(** [MarketingInquiryView.post]. *)
Definition inquiry_post `{EmailValidator} `{MarketingSettings} {D} (b : InquiryBody) : M D response :=
  data ← lift (MarketingInquirySerializer b);
  if negb (b_eq data.(in_honeypot) "") then mret NoContent else
  let to_address := strip MARKETING_INQUIRIES_TO in
  if b_eq to_address "" then mret (Message 500 "marketing_inbox_unconfigured") else
  delay (send_marketing_inquiry_email_task_delay to_address data.(in_source) data.(in_email) data.(in_message));;
  mret NoContent.

(** [redact_email], for the logs. *)
Definition redact_email (email : string) : string :=
  let '(local, _, domain) := partition "@"%char (list_ascii_of_string email) in
  match domain with
  | [] => "***"
  | _ => string_of_list_ascii (take 1 local) ++ "***@" ++ string_of_list_ascii domain
  end.

(** [MarketingInquiryThrottle.parse_rate]: requests and seconds. *)
Fixpoint digit_prefix (l : list ascii) : list ascii :=
  match l with
  | c :: l => match dec_val c with Some _ => c :: digit_prefix l | None => [] end
  | [] => []
  end.

Definition unit_seconds (c : ascii) : outcome Z :=
  match c with
  | "s"%char => Ok 1%Z
  | "m"%char => Ok 60%Z
  | "h"%char => Ok 3600%Z
  | "d"%char => Ok 86400%Z
  | c => Raise (KeyError (String c ""))
  end.

Definition parse_rate (rate : option string) : outcome (option (Z * Z)) :=
  match rate with
  | None => Ok None
  | Some rate =>
      match split_on "/"%char (list_ascii_of_string rate) with
      | [num_str; period] =>
          num_requests ← py_int (JStr (string_of_list_ascii num_str));
          let i := digit_prefix period in
          multiplier ← (match i with [] => Ok 1%Z | _ => py_int (JStr (string_of_list_ascii i)) end);
          seconds ← unit_seconds (match drop (length i) period with c :: _ => c | [] => "s"%char end);
          Ok (Some (num_requests, multiplier * seconds)%Z)
      | _ => Raise (ValueError "wrong number of values to unpack")
      end
  end.

Example inquiry_rate : parse_rate (Some "3/10minute") = Ok (Some (3, 600)%Z).
Proof. reflexivity. Qed.
Example standard_rate : parse_rate (Some "100/hour") = Ok (Some (100, 3600)%Z).
Proof. reflexivity. Qed.
Example bare_rate : parse_rate (Some "5/30") = Ok (Some (5, 30)%Z).
Proof. reflexivity. Qed.

(** ** The dashboard *)

Definition LOGIN_URL : string := "/admin/login/".

Record Dashboard := mkDashboard {
  da_subscription : option Subscription;
  da_plan : option Plan;
  da_plans : list Plan;
  da_products : list Product;
  da_org_memberships : list (MemberRow * OrgRow)
}.

Inductive dashboard_answer :=
  | ToLogin (url : string)
  | Rendered (d : Dashboard).

Definition _get_org_memberships (user : uuid) (d : db) : list (MemberRow * OrgRow) :=
  omap (λ r, o ← d.(d_orgs) !! r.2.(m_org); Some (r.2, o))
    (rows (tfilter (λ _ m, b_eq m.(m_user) user) d.(d_members))).

(** [DashboardView.get]; [user] is [None] for an anonymous browser. *)
Definition dashboard_get (user : option uuid) (path : string) : M store dashboard_answer :=
  match user with
  | None => mret (ToLogin (LOGIN_URL ++ "?next=" ++ path))
  | Some user =>
      subscription ← dquery (λ d, sub_active_for_user d user);
      all_plans ← dquery active_plans;
      products ← dquery products_list_active;
      org_memberships ← dquery (_get_org_memberships user);
      let context := match org_memberships with [] => PERSONAL | _ => TEAM end in
      let plans := base.filter (λ p, p.(plan_context) = context) all_plans in
      let plan := s ← subscription; head (base.filter (λ p, p.(plan_id) = s.(sub_plan_id)) plans) in
      mret (Rendered (mkDashboard subscription plan plans products org_memberships))
  end.

(** ** The admin's user list *)

(** [_subscription_status]: the latest by user or else the latest by customer. *)
Definition _subscription_status (user : uuid) (d : db) : option SubscriptionStatus :=
  let by_user := snd <$> tlatest sub_created_at
    (λ _ s, sub_is_active s && b_eq s.(sub_user_id) (Some user)) d.(d_subs) in
  let by_customer := snd <$> tlatest sub_created_at
    (λ _ s, sub_is_active s && b_eq (sub_customer_user d s) (Some user)) d.(d_subs) in
  sub_status <$> match by_user with Some s => Some s | None => by_customer end.

Definition subscription_status `{HtmlEscape} (status : option SubscriptionStatus) : string :=
  match status with
  | None => "—"
  | Some s =>
      let colour := match s with ACTIVE => "green" | TRIALING => "blue" | PAST_DUE => "orange" | _ => "grey" end in
      "<span style=" ++ dq ++ "color:" ++ escape colour ++ dq ++ ">" ++ escape (status_value s) ++ "</span>"
  end.

(** [SubscriptionAdmin.owner]; [str(user)] is the e-mail, [str(org)] the name. *)
Definition owner_user (d : db) (u : uuid) : string := "user: " ++ or_else (u_email <$> d.(d_users) !! u) "None".
Definition owner_org (d : db) (o : uuid) : string := "org: " ++ or_else (o_name <$> d.(d_orgs) !! o) "None".
Definition subscription_owner (d : db) (s : Subscription) : string :=
  match s.(sub_user_id), s.(sub_stripe_customer_id) ≫= λ c, d.(d_customers) !! c with
  | Some u, _ => owner_user d u
  | None, Some c =>
      match c.(cus_user_id), c.(cus_org_id) with
      | Some u, _ => owner_user d u
      | None, Some o => owner_org d o
      | None, None => "—"
      end
  | None, None => "—"
  end.

(** [CreditBalanceAdmin.owner] and [CreditTransactionAdmin.owner]. *)
Definition ledger_owner (d : db) (user org : option uuid) : string :=
  match user, org with
  | Some u, _ => owner_user d u
  | None, Some o => owner_org d o
  | None, None => "org: None"
  end.

(** ** The admin's deletion of organisations *)

(** A confirmation page with the organisations and their member counts, or the message
    and the way back after a deletion. *)
Inductive admin_answer :=
  | ConfirmDeletion (title : string) (orgs : list (uuid * OrgRow * nat)) (single_org : bool)
  | Deleted (message : string).

Definition with_member_count (d : db) (r : uuid * OrgRow) : uuid * OrgRow * nat := (r, member_count r.1 d).

(** [OrgAdmin.delete_org_view]; [confirm]: a POST with the field. *)
Definition delete_org_view (pk : uuid) (confirm : bool) : M store admin_answer :=
  org ← get_or_404 (λ d, d.(d_orgs) !! pk);
  if confirm then
    delete_org pk;;
    mret (Deleted ("Deleted org '" ++ org.(o_name) ++ "' and all associated member accounts."))
  else
    orgs ← dquery (λ d, with_member_count d <$> rows (tfilter (λ i _, b_eq i pk) d.(d_orgs)));
    mret (ConfirmDeletion ("Confirm deletion of " ++ org.(o_name)) orgs true).

(** The rows of the selected ids. *)
Definition selected_orgs (selected : list uuid) (d : db) : list (uuid * OrgRow) :=
  rows (tfilter (λ i _, bool_decide (i ∈ selected)) d.(d_orgs)).

(** [OrgAdmin.delete_org_action]. *)
Definition delete_org_action (selected : list uuid) (confirm : bool) : M store admin_answer :=
  if negb confirm then
    orgs ← dquery (λ d, with_member_count d <$> selected_orgs selected d);
    mret (ConfirmDeletion "Confirm org deletion" orgs false)
  else
    queryset ← dquery (selected_orgs selected);
    for_each (λ org, delete_org org.1) queryset;;
    mret (Deleted ("Deleted " ++ pretty (Z.of_nat (length queryset)) ++ " org(s) and all associated member accounts.")).

(** ** What becomes of an inquiry *)

Section Facts.
  Context `{EmailValidator} `{MarketingSettings} `{MailSettings} `{Resend} `{HtmlEscape}.

Lemma at_most_Ok n s t : at_most n s = Ok t → t = s ∧ (String.length t ≤ n)%nat.
Proof. unfold at_most. destruct (n <? String.length s)%nat eqn:Hn; [done|]. intros [= <-]. apply Nat.ltb_ge in Hn. done. Qed.

(** An inquiry the serializer let through. *)
Definition acceptable (i : Inquiry) : Prop :=
  email_valid i.(in_email) = true ∧ (String.length i.(in_email) ≤ INQUIRY_EMAIL_MAX)%nat ∧
  (String.length i.(in_message) ≤ INQUIRY_MESSAGE_MAX)%nat ∧ i.(in_source) ∈ INQUIRY_SOURCES ∧
  (i.(in_source) = "contact-page" → i.(in_message) ≠ "").

Lemma inquiry_acceptable b i : MarketingInquirySerializer b = Ok i → acceptable i.
Proof.
  unfold MarketingInquirySerializer. intros Hi. apply outcome_bind_Ok in Hi as (email & He & Hi).
  apply outcome_bind_Ok in Hi as (message & Hm & Hi). apply outcome_bind_Ok in Hi as (source & Hs & Hi).
  apply outcome_bind_Ok in Hi as (honeypot & _ & Hi). destruct (_ && _) eqn:Hc; [done|]. injection Hi as <-.
  unfold acceptable. cbn [in_email in_message in_source].
  assert (email_valid email = true ∧ (String.length email ≤ INQUIRY_EMAIL_MAX)%nat) as [Hv Hl].
  { destruct (iq_email b); [done..|]. cbn in He. apply outcome_bind_Ok in He as (s & Hs' & [-> Hl]%at_most_Ok).
    split; [|done]. unfold EmailField in Hs'. apply outcome_bind_Ok in Hs' as (t & _ & Ht).
    destruct (email_valid t) eqn:Hv; [|done]. by injection Ht as <-. }
  assert (String.length message ≤ INQUIRY_MESSAGE_MAX)%nat as Hlm.
  { destruct (iq_message b); cbn in Hm; [injection Hm as <-; cbn; unfold INQUIRY_MESSAGE_MAX; lia|done|].
    by apply outcome_bind_Ok in Hm as (s & _ & [_ Hlm]%at_most_Ok). }
  assert (source ∈ INQUIRY_SOURCES) as Hin.
  { destruct (iq_source b) as [| |s]; [done..|]. cbn [required] in Hs.
    destruct (str_in s INQUIRY_SOURCES) eqn:E; [|done]. injection Hs as <-. by apply str_in_true. }
  split_and!; [done..|]. intros -> ->. by rewrite !b_eq_refl in Hc.
Qed.

(** An inquiry is refused, dropped or forwarded, and the endpoint touches no data:
    a filled honeypot gets the answer of a success and queues nothing; without an inbox
    the caller is told so; otherwise one task is queued, and running it hands Resend one
    plain-text mail to the inbox, with the source, the sender and the message as they
    were accepted, within their bounds. *)
Theorem inquiry_forwarded {D} b (w : world D) (v : world (list mail)) :
  match MarketingInquirySerializer b with
  | Raise e => inquiry_post b w = (Raise e, w)
  | Ok i =>
      acceptable i ∧
      if negb (b_eq i.(in_honeypot) "") then inquiry_post b w = (Ok NoContent, w) else
      if b_eq (strip MARKETING_INQUIRIES_TO) ""
      then inquiry_post b w = (Ok (Message 500 "marketing_inbox_unconfigured"), w)
      else ∃ t run, inquiry_post b w = (Ok NoContent, set_tasks (w_tasks w ++ [t])%list w) ∧
        mail_task t = Some run ∧
        w_db (run v).2 = (w_db v ++ [mkMail EMAIL_FROM_ADDRESS [strip MARKETING_INQUIRIES_TO]
          ("[SaaSmint] " ++ i.(in_source) ++ ": " ++ i.(in_email))%string
          (Plain (inquiry_text i.(in_source) i.(in_email) i.(in_message) (w_now v)))])%list
  end.
Proof.
  unfold inquiry_post. destruct (MarketingInquirySerializer b) as [i|e] eqn:Hi; [|done].
  split; [by eapply inquiry_acceptable|]. rewrite lift_bind.
  destruct (negb (b_eq (in_honeypot i) "")); [done|]. cbv zeta.
  destruct (b_eq (strip MARKETING_INQUIRIES_TO) ""); [done|]. eexists _, _. split_and!; [reflexivity..|done].
Qed.
End Facts.

(** The log shows one character of the local part. *)
Lemma redact_email_hides c local d domain :
  "@"%char ∉ (c :: local) →
  redact_email (string_of_list_ascii (c :: local ++ "@"%char :: d :: domain)) =
  (String c "" ++ "***@" ++ string_of_list_ascii (d :: domain))%string.
Proof.
  intros Hc. unfold redact_email. rewrite list_ascii_of_string_of_list_ascii.
  assert (∀ l r, "@"%char ∉ l → partition "@"%char (l ++ "@"%char :: r) = (l, true, r)) as Hp.
  { intros l r Hl. induction l as [|x l IH]; [done|]. apply not_elem_of_cons in Hl as [Hx Hl].
    cbn [app partition]. rewrite IH by done. by rewrite (proj2 (b_eq_false _ _)) by done. }
  change (c :: local ++ "@"%char :: d :: domain) with ((c :: local) ++ "@"%char :: d :: domain)%list.
  rewrite Hp by done. done.
Qed.

(** ** Which plan a dashboard shows *)

(** The dashboard changes nothing; its plans are the active ones of the kind the user's
    memberships choose, and the plan next to the subscription is one of them. *)
Lemma dashboard_shows user path w :
  match dashboard_get (Some user) path w with
  | (Ok (Rendered da), w') =>
      w' = w ∧ da_subscription da = sub_active_for_user (s_db (w_db w)) user ∧
      Forall (λ p, p ∈ active_plans (s_db (w_db w)) ∧
                   plan_context p = match da_org_memberships da with [] => PERSONAL | _ => TEAM end) (da_plans da) ∧
      ∀ p, da_plan da = Some p → p ∈ da_plans da ∧ sub_plan_id <$> da_subscription da = Some (plan_id p)
  | _ => False
  end.
Proof.
  cbn. split_and!; [done..| |].
  - apply Forall_forall. intros p [Hc Hp]%list_elem_of_filter. by split.
  - intros p Hp. destruct (sub_active_for_user _ _) as [s|]; [|done]. cbn in Hp.
    apply head_Some_elem_of in Hp. apply list_elem_of_filter in Hp as [Hid Hp]. cbn. by rewrite Hid.
Qed.

(** ** What the user list shows *)

(** Where each subscription of a user's customer names the user, as the webhooks write
    it, the column shows the status of the subscription the endpoints work on. *)
Lemma subscription_status_agrees user d :
  (∀ i s, d.(d_subs) !! i = Some s → sub_customer_user d s = Some user → sub_user_id s = Some user) →
  _subscription_status user d = sub_status <$> sub_active_for_user d user.
Proof.
  intros Hmirror. unfold _subscription_status, sub_active_for_user, tlatest.
  destruct (tbest _ (λ _ s, sub_is_active s && b_eq (sub_user_id s) _) _) as [[i a]|] eqn:Hu; cbn.
  - apply tbest_Some in Hu as (_ & _ & Hmax).
    destruct (tbest _ (λ _ s, sub_is_active s && b_eq (sub_customer_user d s) _) _) as [[j b]|] eqn:Hc; cbn; [|done].
    apply tbest_Some in Hc as (Hj & [Hact Hcu]%andb_true_iff & _). rewrite b_eq_true in Hcu.
    specialize (Hmax j b Hj). rewrite Hact, (Hmirror j b Hj Hcu), b_eq_refl in Hmax. specialize (Hmax eq_refl).
    by rewrite (proj2 (Z.ltb_ge _ _)) by exact Hmax.
  - done.
Qed.

(** Of a database that keeps its constraints, every subscription names its owner. *)
Lemma subscription_owner_named d i s :
  db_ok d → d.(d_subs) !! i = Some s →
  (∃ u r, d.(d_users) !! u = Some r ∧ subscription_owner d s = "user: " ++ u_email r) ∨
  (∃ o r, d.(d_orgs) !! o = Some r ∧ subscription_owner d s = "org: " ++ o_name r).
Proof.
  intros Hok Hs.
  assert (table_ok sub_schema (has d) d.(d_subs)) as Hts by (unfold db_ok in Hok; tauto).
  assert (table_ok customer_schema (has d) d.(d_customers)) as Htc by (unfold db_ok in Hok; tauto).
  pose proof (table_ok_row _ _ _ _ _ Hts Hs) as Hr. unfold row_ok in Hr. cbn in Hr.
  rewrite !forallb_app, !andb_true_iff in Hr. destruct Hr as ((_ & Hown) & Hrc & Hru & _).
  assert (∀ u, has d TUsers u = true → ∃ r, d_users d !! u = Some r ∧ owner_user d u = "user: " ++ u_email r) as Huser.
  { intros u [r Hu]%not_none_true. exists r. unfold owner_user. by rewrite Hu. }
  unfold subscription_owner. destruct (sub_user_id s) as [u|]; cbn in Hru.
  { rewrite andb_true_r in Hru. destruct (Huser u Hru) as (r & Hr & Ho). left. by exists u, r. }
  destruct (sub_stripe_customer_id s) as [c|]; [|done]. cbn in Hrc. rewrite andb_true_r in Hrc.
  apply not_none_true in Hrc as [cus Hc]. cbn. rewrite Hc.
  pose proof (table_ok_row _ _ _ _ _ Htc Hc) as Hr. unfold row_ok in Hr. cbn in Hr.
  rewrite !forallb_app, !andb_true_iff in Hr. destruct Hr as ((_ & Hone) & Hcu & Hco).
  destruct (cus_user_id cus) as [u|]; cbn in Hcu.
  { rewrite andb_true_r in Hcu. destruct (Huser u Hcu) as (r & Hr & Ho). left. by exists u, r. }
  destruct (cus_org_id cus) as [o|]; [|done]. cbn in Hco. rewrite andb_true_r in Hco.
  apply not_none_true in Hco as [r Ho]. right. exists o, r. unfold owner_org. by rewrite Ho.
Qed.

(** ** Deleting the selected organisations *)

(** C22. The admin's bulk deletion, a transaction per organisation, leaves the database
    the one-transaction cascade leaves for all of them, table by table: a member of two
    selected organisations goes with the second although the first deletion spared the
    account. It cannot fail halfway, asks Stripe nothing, and each cancellation it queues is
    that of an active subscription of a selected organisation; every selected organisation
    with one that belongs to no user gets its cancellation. Unconfirmed it changes
    nothing. *)
Theorem bulk_deletion_is_one_cascade selected w :
  let d := s_db (w_db w) in
  let orgs := (selected_orgs selected d).*1 in
  db_ok d →
  (∃ page, delete_org_action selected false w = (Ok (ConfirmDeletion "Confirm org deletion" page false), w) ∧
    page.*1 = selected_orgs selected d) ∧
  ∃ w' new,
    delete_org_action selected true w =
      (Ok (Deleted ("Deleted " ++ pretty (Z.of_nat (length orgs)) ++ " org(s) and all associated member accounts.")), w') ∧
    (∀ o, o ∈ orgs ↔ o ∈ selected ∧ is_Some (d.(d_orgs) !! o)) ∧
    w_stripe w' = w_stripe w ∧ w_tasks w' = (w_tasks w ++ new)%list ∧ Forall (is_cancel_of d orgs) new ∧
    (∀ org i s k, org ∈ orgs → d.(d_subs) !! i = Some s → stripe_sub_of d org k s → s.(sub_user_id) = None →
      ∃ k', cancel_stripe_subs_task_delay [k'] (uuid_str org) ∈ new) ∧
    (orgs = [] → w' = w) ∧
    (orgs ≠ [] → ∃ w1, delete_orgs_db (λ o, bool_decide (o ∈ orgs)) w = (Ok tt, w1) ∧ s_db (w_db w') = s_db (w_db w1)).
Proof.
  intros d orgs Hok. split.
  { eexists. split; [reflexivity|]. rewrite <- list_fmap_compose. apply list_fmap_id. }
  unfold delete_org_action. cbn [negb]. rewrite bind_run. unfold dquery at 1, query. fold d.
  assert (length orgs = length (selected_orgs selected d)) as -> by apply length_fmap.
  assert (∀ o, o ∈ orgs ↔ o ∈ selected ∧ is_Some (d.(d_orgs) !! o)) as Hsel.
  { intros o. unfold orgs. rewrite list_elem_of_fmap. split.
    - intros ([i r] & -> & Hi%rows_elem). apply tfilter_lookup in Hi as [Hr Hs]. apply bool_decide_eq_true in Hs. by eauto.
    - intros [Hs [r Hr]]. exists (o, r). split; [done|]. apply rows_elem, tfilter_lookup. by rewrite bool_decide_eq_true. }
  assert (NoDup orgs) as Hnd by apply NoDup_fst_map_to_list.
  rewrite bind_run. destruct (decide (selected_orgs selected d = [])) as [Hnil|Hne].
  - exists w, []. rewrite Hnil. cbn. subst orgs. rewrite Hnil, app_nil_r in *. cbn.
    split_and!; [done..| |done|done]. intros ? ? ? ? []%elem_of_nil.
  - destruct (delete_each_run (selected_orgs selected d) w Hok Hnd Hne) as (w' & new & Hrun & Hd & Hs & Ht & Hnew & Hall).
    exists w', new. rewrite Hrun. split_and!; [done..| |].
    + intros Hn. by apply fmap_nil_inv in Hn.
    + intros _. destruct (delete_orgs_db_run (λ o, bool_decide (o ∈ orgs)) w) as (w1 & Hrun1 & Hd1 & _).
      exists w1. split; [done|]. by rewrite Hd, Hd1.
Qed.
