(* ===== verification/CatalogSync.v ===== *)
(** * The catalogue commands: mirroring to Stripe

    [sync_stripe_catalog.py] of [apps/billing/management/commands]: a Stripe price
    per active plan or product and billing currency, found again by its lookup key,
    and its id written back on the local row. *)

From S2P Require Import Prelude PyVal Effects Domain Relational Store Django Repositories.
From S2P Require Import Currency Fields OrgViews BillingContext BillingCatalog LocalizedSync.

#[local] Open Scope string_scope.

(** [stripe.api_key]. *)
Class StripeKey := stripe_api_key : string.

(** ** Lookup keys *)

(** A character of [[a-z0-9]]. *)
Definition slug_char (c : ascii) : bool :=
  let n := N_of_ascii c in ((97 <=? n) && (n <=? 122) || (48 <=? n) && (n <=? 57))%N.

(** [re.sub(r"[^a-z0-9]+", "_", s)]; [gap] inside a run of other characters. *)
Fixpoint slug_chars (gap : bool) (l : list ascii) : list ascii :=
  match l with
  | [] => []
  | c :: l =>
      if slug_char c then c :: slug_chars false l
      else if gap then slug_chars true l else "_"%char :: slug_chars true l
  end.

Definition _slug (value : string) : string :=
  string_of_list_ascii
    (strip_chars ["_"%char] (slug_chars false (list_ascii_of_string (lower value)))).

Definition in_currency (base currency : string) : string :=
  if b_eq currency "usd" then base else base ++ "_" ++ currency.

Definition _plan_lookup_key (plan : Plan) (currency : string) : string :=
  in_currency ("plan_" ++ context_value plan.(plan_context) ++ "_" ++ get_tier plan.(plan_tier)
               ++ "_" ++ interval_value plan.(plan_interval)) currency.

Definition _product_lookup_key (product : Product) (currency : string) : string :=
  in_currency ("product_" ++ _slug product.(prod_name)) currency.

Definition _collect_lookup_keys (currencies : list string) (d : db) : list string :=
  (p ← active_plans d; _plan_lookup_key p <$> currencies)
  ++ (p ← products_list_active d; _product_lookup_key p <$> currencies).

(** ** Stripe prices and products *)

Definition json_is_int (v : json) (n : Z) : bool :=
  match v with JNum z => (z =? n)%Z | JBool b => ((if b then 1 else 0) =? n)%Z | _ => false end.
Definition json_is_str (v : json) (s : string) : bool :=
  match v with JStr t => b_eq t s | _ => false end.

Definition _price_matches (stripe_price : json) (unit_amount : Z) (currency : string)
    (recurring : option string) : outcome bool :=
  a ← getattr stripe_price "unit_amount";
  if negb (json_is_int a unit_amount) then Ok false else
  c ← getattr stripe_price "currency";
  if negb (json_is_str c currency) then Ok false else
  current_recurring ← getattr stripe_price "recurring";
  match recurring with
  | None => Ok (is_null current_recurring)
  | Some interval =>
      if is_null current_recurring then Ok false else
      i ← getattr current_recurring "interval"; Ok (json_is_str i interval)
  end.

(** [isinstance(v, stripe.Product)]: the SDK builds it from the ["object"] field. *)
Definition is_stripe_product (v : json) : bool :=
  match v with
  | JObj fields => match assoc "object" fields with Some k => json_is_str k "product" | None => false end
  | _ => false
  end.

(** The product's metadata as a dict of strings. *)
Definition metadata_dict (raw_metadata : json) : outcome (gmap string string) :=
  if negb (truthy raw_metadata) then Ok ∅ else
  match raw_metadata with
  | JObj fields => Ok (list_to_map (map (λ p, (p.1, py_str p.2)) fields))
  | _ => Raise (AttributeError "to_dict")
  end.

(** What is known of a product: its id, name, description and metadata. *)
Definition known_product (product_or_id : json) : outcome (string * json * json * gmap string string) :=
  if is_stripe_product product_or_id then
    i ← getattr product_or_id "id";
    n ← getattr product_or_id "name";
    d ← getattr product_or_id "description";
    raw ← getattr product_or_id "metadata";
    metadata ← metadata_dict raw;
    Ok (py_str i, n, d, metadata)
  else Ok (py_str product_or_id, JNull, JNull, ∅).

(** The [update] dict of [_sync_stripe_product]. *)
Definition product_update (existing_name existing_description : json)
    (existing_metadata : gmap string string) (name : string) (description : option string)
    (metadata : gmap string string) : product_params :=
  let merged_metadata := metadata ∪ existing_metadata in
  ProductParams
    (if negb (is_null existing_name) && negb (json_is_str existing_name name) then Some name else None)
    (match non_empty description with
     | Some d => if json_is_str existing_description d then None else Some d
     | None => None
     end)
    (if b_eq merged_metadata existing_metadata then None else Some merged_metadata)
    None.

Definition no_update (u : product_params) : bool :=
  is_none u.(prm_name) && is_none u.(prm_description) && is_none u.(prm_metadata).

(** The keyword arguments of [_upsert_price] that describe the local row. *)
Record upsert := mkUpsert {
  us_lookup_key : string;
  us_recurring : option string;
  us_product_name : string;
  us_product_description : option string;
  us_product_metadata : gmap string string;
  us_price_metadata : gmap string string
}.

Definition plan_upsert (plan : Plan) (currency : string) : upsert :=
  mkUpsert (_plan_lookup_key plan currency) (Some (interval_value plan.(plan_interval)))
    plan.(plan_name) (non_empty (Some plan.(plan_description)))
    {[ "local_plan_id" := uuid_str plan.(plan_id); "kind" := "plan" ]}
    {[ "local_plan_id" := uuid_str plan.(plan_id) ]}.

Definition product_upsert (product : Product) (currency : string) : upsert :=
  mkUpsert (_product_lookup_key product currency) None product.(prod_name)
    (Some (pretty product.(prod_credits) ++ " credits"))
    {[ "local_product_id" := uuid_str product.(prod_id); "kind" := "product" ]}
    {[ "local_product_id" := uuid_str product.(prod_id) ]}.

(** ** Rows *)

(** The related [price] of a plan and of a product, if any. *)
Definition plan_price_row (d : db) (p : Plan) : option price_obj :=
  (λ r, mkPriceObj (OfPlanPrice r.1) r.2.(pp_stripe_price_id) r.2.(pp_amount) None)
    <$> tfind (λ _ pp, b_eq pp.(pp_plan_id) p.(plan_id)) d.(d_prices).
Definition product_price_row (d : db) (p : Product) : option price_obj :=
  (λ r, mkPriceObj (OfProductPrice r.1) r.2.(pr_stripe_price_id) r.2.(pr_amount) None)
    <$> tfind (λ _ pp, b_eq pp.(pr_product) p.(prod_id)) d.(d_product_prices).

(** [LocalizedPrice.objects.filter(currency=currency, **owner).first()]. *)
Definition localized_row (o : price_owner) (currency : string) (d : db) : option (N * LocalizedRow) :=
  tfind (λ _ l, localizes o l && b_eq l.(lp_currency) currency) d.(d_localized).

(** [row.save(update_fields=["stripe_price_id"])]. *)
Definition no_rows : exn := DatabaseError "Save with update_fields did not affect any rows.".

Definition save_price_id (o : price_owner) (k : string) (d : db) : outcome db :=
  match o with
  | OfPlanPrice i =>
      match d.(d_prices) !! i with
      | Some p => save_price (mkPlanPrice i p.(pp_plan_id) k p.(pp_amount)) d
      | None => Raise no_rows
      end
  | OfProductPrice i =>
      match d.(d_product_prices) !! i with
      | Some p => save_product_price i (mkProductPriceRow p.(pr_product) k p.(pr_amount)) d
      | None => Raise no_rows
      end
  end.

Definition with_price_id (k : string) (l : LocalizedRow) : LocalizedRow :=
  mkLocalizedRow l.(lp_plan_price) l.(lp_product_price) l.(lp_currency) l.(lp_amount_minor) (Some k)
    l.(lp_synced_at).

Definition save_localized_id (i : N) (k : string) (d : db) : outcome db :=
  match d.(d_localized) !! i with
  | Some l => save_localized i (with_price_id k l) d
  | None => Raise no_rows
  end.

(** ** The command *)

Section Command.
  Context `{StripeServer} `{FxFeed} `{FloatOfString} `{BillingSettings} `{StripeKey}.

Definition _sync_stripe_product (product_or_id : json) (name : string) (description : option string)
    (metadata : gmap string string) : M store unit :=
  known ← lift (known_product product_or_id);
  let '(product_id, existing_name, existing_description, existing_metadata) := known in
  let update := product_update existing_name existing_description existing_metadata name description metadata in
  if no_update update then mret tt else stripe (ProductModify product_id update);; mret tt.

Definition create_product (u : upsert) : M store string :=
  stripe_product ← stripe (ProductCreate (ProductParams (Some u.(us_product_name))
    (non_empty u.(us_product_description)) (Some u.(us_product_metadata)) None));
  lift (i ← getattr stripe_product "id"; Ok (py_str i)).

Definition create_price (u : upsert) (product_id : string) (unit_amount : Z) (currency : string) :
    M store string :=
  new_price ← stripe (PriceCreate (PriceParams product_id unit_amount currency u.(us_lookup_key)
    u.(us_price_metadata) u.(us_recurring)));
  lift (i ← getattr new_price "id"; Ok (py_str i)).

Definition _upsert_price (existing_prices : gmap string json) (u : upsert) (unit_amount : Z)
    (currency : string) : M store string :=
  match existing_prices !! u.(us_lookup_key) with
  | Some current =>
      current_product ← lift (getattr current "product");
      matches ← lift (_price_matches current unit_amount currency u.(us_recurring));
      if matches : bool then
        _sync_stripe_product current_product u.(us_product_name) u.(us_product_description)
          u.(us_product_metadata);;
        lift (i ← getattr current "id"; Ok (py_str i))
      else
        product_id ← lift (if is_stripe_product current_product
                           then i ← getattr current_product "id"; Ok (py_str i)
                           else Ok (py_str current_product));
        id ← lift (getattr current "id");
        stripe (PriceModify (py_str id) false);;
        _sync_stripe_product (JStr product_id) u.(us_product_name) u.(us_product_description)
          u.(us_product_metadata);;
        create_price u product_id unit_amount currency
  | None =>
      product_id ← create_product u;
      create_price u product_id unit_amount currency
  end.

Definition _unit_amount_for (price_row : price_obj) (currency : string) : M store (option Z) :=
  if b_eq currency "usd" then mret (Some price_row.(po_amount)) else
  existing ← dquery (localized_row price_row.(po_owner) currency);
  match existing with
  | Some r => mret (Some r.2.(lp_amount_minor))
  | None =>
      sync_localized_prices;;
      existing ← dquery (localized_row price_row.(po_owner) currency);
      mret (lp_amount_minor <$> (snd <$> existing))
  end.

Definition _write_price_id (price_row : price_obj) (new_price_id currency : string) : M store unit :=
  if b_eq currency "usd" then
    if b_eq new_price_id price_row.(po_stripe_price_id) then mret tt
    else dexec (save_price_id price_row.(po_owner) new_price_id)
  else
    localized ← dquery (localized_row price_row.(po_owner) currency);
    match localized with
    | None => mret tt
    | Some r =>
        if b_eq r.2.(lp_stripe_price_id) (Some new_price_id) then mret tt
        else dexec (save_localized_id r.1 new_price_id)
    end.

(** The body of the loops of [_sync_plans] and [_sync_products]. *)
Definition sync_row (existing_prices : gmap string json) (currency : string)
    (r : option price_obj * upsert) : M store unit :=
  match r.1 with
  | None => mret tt
  | Some price_row =>
      unit_amount ← _unit_amount_for price_row currency;
      match unit_amount with
      | None => mret tt
      | Some unit_amount =>
          new_price_id ← _upsert_price existing_prices r.2 unit_amount currency;
          _write_price_id price_row new_price_id currency
      end
  end.

Definition _sync_plans (existing_prices : gmap string json) (currency : string) : M store unit :=
  plans ← dquery (λ d, (λ p, (plan_price_row d p, plan_upsert p currency)) <$> active_plans d);
  for_each (sync_row existing_prices currency) plans.

Definition _sync_products (existing_prices : gmap string json) (currency : string) : M store unit :=
  products ← dquery (λ d, (λ p, (product_price_row d p, product_upsert p currency)) <$> products_list_active d);
  for_each (sync_row existing_prices currency) products.

(** The prices of a page by lookup key. *)
Fixpoint index_prices (prices : list json) (result : gmap string json) : outcome (gmap string json) :=
  match prices with
  | [] => Ok result
  | price :: prices =>
      k ← getattr price "lookup_key";
      match k with
      | JStr s => index_prices prices (if b_eq s "" then result else <[s := price]> result)
      | _ => if truthy k && negb (is_int k) then Raise (TypeError "unhashable type")
             else index_prices prices result
      end
  end.

(** [_bulk_fetch_existing], ten keys at a time; [fuel] batches, one more than there
    are keys is enough. *)
Fixpoint fetch_batches (fuel : nat) (lookup_keys : list string) (result : gmap string json) :
    M store (gmap string json) :=
  match fuel, lookup_keys with
  | S fuel, _ :: _ =>
      page ← stripe (PriceListByKeys (take 10 lookup_keys));
      prices ← lift (data ← getattr page "data"; py_iter data);
      result ← lift (index_prices prices result);
      fetch_batches fuel (drop 10 lookup_keys) result
  | _, _ => mret result
  end.

Definition _bulk_fetch_existing (lookup_keys : list string) : M store (gmap string json) :=
  fetch_batches (S (length lookup_keys)) lookup_keys ∅.

Definition sync_stripe_catalog : M store unit :=
  if b_eq stripe_api_key "" then mret tt else
  wanted_keys ← dquery (_collect_lookup_keys BILLING_CURRENCIES);
  existing_prices ← _bulk_fetch_existing wanted_keys;
  for_each (λ currency, _sync_plans existing_prices currency;; _sync_products existing_prices currency)
    BILLING_CURRENCIES.

End Command.

Example slug_credits : _slug "50 Credits!" = "50_credits".
Proof. reflexivity. Qed.
Example key_plan : _plan_lookup_key (mkPlan 1 "Pro" "" PERSONAL PRO YEAR true) "eur" = "plan_personal_pro_year_eur".
Proof. reflexivity. Qed.
