(* ===== verification/CatalogSeed.v ===== *)
(** * The catalogue commands: seeding and auditing

    [seed_catalog.py] and [audit_stripe_catalog.py] of
    [apps/billing/management/commands]: the plans and products every deployment has,
    and the Stripe products that belong to no local row. *)

From S2P Require Import Prelude PyVal Effects Domain Relational Store Django.
From S2P Require Import CatalogSync.

#[local] Open Scope string_scope.
#[local] Open Scope Z_scope.

(** ** The catalogue *)

Record _PlanSpec := mkPlanSpec {
  ps_name : string;
  ps_description : string;
  ps_context : PlanContext;
  ps_tier : PlanTier;
  ps_interval : PlanInterval;
  ps_amount : Z
}.

Definition _YEARLY_DISCOUNT_MONTHS : Z := 10.
Definition _YEARLY_DESCRIPTION_SUFFIX : string := " Billed annually — two months free.".

Definition _MONTHLY_PLANS : list _PlanSpec := [
  mkPlanSpec "Personal Basic"
    "For power users. Advanced analytics, priority email support, and API access."
    PERSONAL BASIC MONTH 1999;
  mkPlanSpec "Personal Pro"
    "Everything in Basic plus custom integrations, audit logs, and dedicated support."
    PERSONAL PRO MONTH 4999;
  mkPlanSpec "Team Basic"
    "For small teams. Per-seat pricing, shared dashboards, and team analytics."
    TEAM BASIC MONTH 1799;
  mkPlanSpec "Team Pro"
    "For growing organizations. Per-seat pricing, SSO, audit logs, and dedicated support."
    TEAM PRO MONTH 4599].

Definition _build_plans : list _PlanSpec :=
  (_MONTHLY_PLANS
   ++ map (λ spec, mkPlanSpec spec.(ps_name) (spec.(ps_description) +:+ _YEARLY_DESCRIPTION_SUFFIX)
                     spec.(ps_context) spec.(ps_tier) YEAR (spec.(ps_amount) * _YEARLY_DISCOUNT_MONTHS))
        _MONTHLY_PLANS)%list.

Definition PLANS : list _PlanSpec := _build_plans.

(** Name, credits, amount in US cents. *)
Definition BOOST_PRODUCTS : list (string * Z * Z) :=
  [("50 Credits", 50, 499); ("200 Credits", 200, 1499); ("500 Credits", 500, 2999)].

(** ** Rows *)

Definition insert_plan (a : Plan) (d : db) : outcome db :=
  _ ← fresh_pk d.(d_plans) a.(plan_id); save_plan a d.
Definition insert_price (a : PlanPrice) (d : db) : outcome db :=
  _ ← fresh_pk d.(d_prices) a.(pp_id); save_price a d.
Definition insert_product (a : Product) (d : db) : outcome db :=
  _ ← fresh_pk d.(d_products) a.(prod_id); save_product a d.
Definition insert_product_price (i : N) (a : ProductPriceRow) (d : db) : outcome db :=
  _ ← fresh_pk d.(d_product_prices) i; save_product_price i a d.

(** [existing.save(update_fields=["amount"])]. *)
Definition save_plan_amount (i : N) (amount : Z) (d : db) : outcome db :=
  match d.(d_prices) !! i with
  | Some p => save_price (mkPlanPrice i p.(pp_plan_id) p.(pp_stripe_price_id) amount) d
  | None => Raise no_rows
  end.
Definition save_product_amount (i : N) (amount : Z) (d : db) : outcome db :=
  match d.(d_product_prices) !! i with
  | Some p => save_product_price i (mkProductPriceRow p.(pr_product) p.(pr_stripe_price_id) amount) d
  | None => Raise no_rows
  end.

(** [objects.get_or_create]: the one row that matches, or a new one. *)
Definition get_or_create {A} (matching : db → list A) (create : M store A) : M store A :=
  found ← dquery matching;
  match found with
  | [] => create
  | [a] => mret a
  | _ => raise (MultipleObjectsReturned "get() returned more than one row")
  end.

(** ** Seeding *)

Definition plan_matches (spec : _PlanSpec) (p : Plan) : bool :=
  b_eq p.(plan_context) spec.(ps_context) && b_eq p.(plan_tier) spec.(ps_tier)
  && b_eq p.(plan_interval) spec.(ps_interval).

Definition matching_plans (spec : _PlanSpec) (d : db) : list Plan :=
  snd <$> map_to_list (tfilter (λ _ p, plan_matches spec p) d.(d_plans)).

Definition plan_placeholder (spec : _PlanSpec) : string :=
  "price_placeholder_" +:+ context_value spec.(ps_context) +:+ "_" +:+ pretty (tier_value spec.(ps_tier))
  +:+ "_" +:+ interval_value spec.(ps_interval).

Definition create_plan (spec : _PlanSpec) : M store Plan :=
  pk ← uuid4;
  let plan := mkPlan pk spec.(ps_name) spec.(ps_description) spec.(ps_context) spec.(ps_tier)
                spec.(ps_interval) true in
  dexec (insert_plan plan);; mret plan.

Definition seed_plan (spec : _PlanSpec) : M store unit :=
  plan ← get_or_create (matching_plans spec) (create_plan spec);
  existing ← dquery (λ d, tfind (λ _ pp, b_eq pp.(pp_plan_id) plan.(plan_id)) d.(d_prices));
  match existing with
  | None =>
      pk ← uuid4;
      dexec (insert_price (mkPlanPrice pk plan.(plan_id) (plan_placeholder spec) spec.(ps_amount)))
  | Some r =>
      if negb (b_eq r.2.(pp_amount) spec.(ps_amount))
      then dexec (save_plan_amount r.1 spec.(ps_amount)) else mret tt
  end.

Definition matching_products (name : string) (d : db) : list Product :=
  snd <$> map_to_list (tfilter (λ _ p, b_eq p.(prod_name) name) d.(d_products)).

Definition product_placeholder (credits : Z) : string := "price_placeholder_boost_" +:+ pretty credits.

Definition create_boost (name : string) (credits : Z) : M store Product :=
  pk ← uuid4;
  let product := mkProduct pk name credits true in
  dexec (insert_product product);; mret product.

Definition seed_product (spec : string * Z * Z) : M store unit :=
  let '(name, credits, amount) := spec in
  product ← get_or_create (matching_products name) (create_boost name credits);
  existing ← dquery (λ d, tfind (λ _ pp, b_eq pp.(pr_product) product.(prod_id)) d.(d_product_prices));
  match existing with
  | None =>
      pk ← uuid4;
      dexec (insert_product_price pk (mkProductPriceRow product.(prod_id) (product_placeholder credits) amount))
  | Some r =>
      if negb (b_eq r.2.(pr_amount) amount)
      then dexec (save_product_amount r.1 amount) else mret tt
  end.

Definition _seed_plans : M store unit := for_each seed_plan PLANS.
Definition _seed_products : M store unit := for_each seed_product BOOST_PRODUCTS.

Definition seed_catalog : M store unit := atomic (_seed_plans;; _seed_products).

(** ** Auditing *)

(** [sp.metadata.to_dict() if sp.metadata else {}]: its fields. *)
Definition _product_metadata (sp : json) : outcome json :=
  metadata ← getattr sp "metadata";
  Ok (if truthy metadata then metadata else JObj []).

(** The product belongs to a local row. *)
Definition owned (local_plan_ids local_product_ids : list string) (md : json) : outcome bool :=
  kind ← get md "kind";
  plan ← get md "local_plan_id";
  local_id ← (if truthy plan then Ok plan else get md "local_product_id");
  let is_in ids := match local_id with JStr s => str_in s ids | _ => false end in
  Ok (json_is_str kind "plan" && is_in local_plan_ids
      || json_is_str kind "product" && is_in local_product_ids).

Fixpoint classify (local_plan_ids local_product_ids : list string) (products : list json) :
    outcome (list json * Z) :=
  match products with
  | [] => Ok ([], 0)
  | sp :: products =>
      md ← _product_metadata sp;
      mine ← owned local_plan_ids local_product_ids md;
      rest ← classify local_plan_ids local_product_ids products;
      Ok (if mine : bool then (rest.1, rest.2 + 1) else (sp :: rest.1, rest.2))
  end.

Section Audit.
  Context `{StripeServer} `{StripeKey}.

Definition _classify_products (local_plan_ids local_product_ids : list string) : M store (list json * Z) :=
  page ← stripe ProductListActive;
  products ← lift (data ← getattr page "data"; py_iter data);
  lift (classify local_plan_ids local_product_ids products).

(** The loop over the prices of a stray product: does one back an active
    subscription? *)
Fixpoint backs_subscription (prices : list json) : M store bool :=
  match prices with
  | [] => mret false
  | price :: prices =>
      recurring ← lift (getattr price "recurring");
      if is_null recurring then backs_subscription prices else
      id ← lift (getattr price "id");
      subs ← stripe (SubscriptionListActive (py_str id));
      data ← lift (getattr subs "data");
      if truthy data then mret true else backs_subscription prices
  end.

Definition archive_stray (sp : json) : M store unit :=
  id ← lift (getattr sp "id");
  page ← stripe (PriceListByProduct (py_str id));
  prices ← lift (data ← getattr page "data"; py_iter data);
  has_active_sub ← backs_subscription prices;
  if has_active_sub : bool then mret tt
  else stripe (ProductModify (py_str id) (ProductParams None None None (Some false)));; mret tt.

Definition _archive_strays (strays : list json) : M store unit := for_each archive_stray strays.

(** The line printed for a stray product. *)
Definition print_stray (sp : json) : M store unit :=
  _ ← lift (getattr sp "id"); _ ← lift (getattr sp "name"); _ ← lift (_product_metadata sp); mret tt.

Definition audit_stripe_catalog (archive : bool) : M store unit :=
  if b_eq stripe_api_key "" then mret tt else
  local_plan_ids ← dquery (λ d, uuid_str <$> (map_to_list d.(d_plans)).*1);
  local_product_ids ← dquery (λ d, uuid_str <$> (map_to_list d.(d_products)).*1);
  r ← _classify_products local_plan_ids local_product_ids;
  if b_eq (length r.1) 0%nat then mret tt else
  for_each print_stray r.1;;
  if negb archive then mret tt else _archive_strays r.1.

End Audit.

Example yearly_pro : ps_amount <$> PLANS !! 5%nat = Some 49990.
Proof. reflexivity. Qed.
Example placeholder_pro : plan_placeholder <$> PLANS !! 1%nat = Some "price_placeholder_personal_3_month".
Proof. reflexivity. Qed.
