(* ===== verification/StripeCatalog.v ===== *)
(** * Stripe's catalogue

    What the catalogue commands rely on of Stripe: the prices that hold a lookup key,
    as a function of the calls made so far, and how the documented calls read and
    change them. *)

From S2P Require Import Prelude PyVal Text Effects Relational Store StoreFacts Django.
From S2P Require Import BillingContext CatalogSync.

#[local] Open Scope string_scope.

(** ** Specification *)

(** A price that holds a lookup key. *)
Record stripe_price := mkStripePrice {
  sp_id : string;
  sp_amount : Z;
  sp_currency : string;
  sp_interval : option string;
  sp_active : bool
}.

(** The object Stripe sends for it. *)
Definition shows (k : string) (p : stripe_price) (v : json) : Prop :=
  getattr v "id" = Ok (JStr p.(sp_id)) ∧ getattr v "lookup_key" = Ok (JStr k) ∧
  getattr v "unit_amount" = Ok (JNum p.(sp_amount)) ∧ getattr v "currency" = Ok (JStr p.(sp_currency)) ∧
  ∃ r, getattr v "recurring" = Ok r ∧
    match p.(sp_interval) with
    | None => r = JNull
    | Some i => is_null r = false ∧ getattr r "interval" = Ok (JStr i)
    end.

(** The prices by the lookup key they hold, after the calls of a history. *)
Class StripeCatalog := catalog : list stripe_call → gmap string stripe_price.

Definition set_active (a : bool) (p : stripe_price) : stripe_price :=
  mkStripePrice p.(sp_id) p.(sp_amount) p.(sp_currency) p.(sp_interval) a.

Definition created_price (i : string) (prm : price_params) : stripe_price :=
  mkStripePrice i prm.(prm_unit_amount) prm.(prm_currency) prm.(prm_interval) true.

(** A call that can change the prices. *)
Definition price_write (c : stripe_call) : bool :=
  match c with PriceCreate _ | PriceModify _ _ => true | _ => false end.

(** Ids are unique; a list call answers the prices that hold one of at most ten keys,
    active or not; a new price takes over its lookup key; an update touches the price
    it names; nothing else touches a price. *)
Class StripeCatalogLaws `{StripeServer} `{StripeCatalog} := {
  catalog_ids h k1 k2 p1 p2 :
    catalog h !! k1 = Some p1 → catalog h !! k2 = Some p2 → p1.(sp_id) = p2.(sp_id) → k1 = k2;
  catalog_list h keys page :
    (length keys ≤ 10)%nat → stripe_respond h (PriceListByKeys keys) = Ok page →
    ∃ l, getattr page "data" = Ok (JArr l) ∧
      (∀ v, v ∈ l → ∃ k p, k ∈ keys ∧ catalog h !! k = Some p ∧ shows k p v) ∧
      (∀ k p, k ∈ keys → catalog h !! k = Some p → ∃ v, v ∈ l ∧ shows k p v);
  catalog_create h prm v :
    stripe_respond h (PriceCreate prm) = Ok v →
    ∃ i, getattr v "id" = Ok (JStr i) ∧
      catalog (h ++ [PriceCreate prm])%list = <[prm.(prm_lookup_key) := created_price i prm]> (catalog h);
  catalog_modify h i a v :
    stripe_respond h (PriceModify i a) = Ok v →
    catalog (h ++ [PriceModify i a])%list =
      (λ p, if b_eq p.(sp_id) i then set_active a p else p) <$> catalog h;
  catalog_frame h c : price_write c = false → catalog (h ++ [c])%list = catalog h
}.

(** ** Lemmas *)

Section Lemmas.
  Context `{StripeCatalogLaws}.

Lemma catalog_frames h l :
  Forall (λ c, price_write c = false) l → catalog (h ++ l)%list = catalog h.
Proof.
  revert h. induction l as [|c l IH]; intros h; [by rewrite app_nil_r|].
  intros [Hc Hl]%Forall_cons. change (c :: l) with ([c] ++ l)%list. by rewrite (assoc_L (++)%list), IH, catalog_frame.
Qed.

Lemma price_matches_shows k p v a c i :
  shows k p v →
  _price_matches v a c i =
    Ok (bool_decide (p.(sp_amount) = a ∧ p.(sp_currency) = c ∧ p.(sp_interval) = i)).
Proof.
  intros (_ & _ & Ha & Hc & r & Hr & Hi). unfold _price_matches. rewrite Ha. cbn -[b_eq getattr is_null].
  destruct (Z.eqb_spec p.(sp_amount) a) as [->|Hne]; cbn -[b_eq getattr is_null];
    [|by rewrite bool_decide_eq_false_2 by tauto].
  rewrite Hc. cbn -[b_eq getattr is_null]. destruct (b_eq p.(sp_currency) c) eqn:Hbc; cbn -[b_eq getattr is_null].
  2:{ rewrite b_eq_false in Hbc. by rewrite bool_decide_eq_false_2 by tauto. }
  rewrite b_eq_true in Hbc. rewrite Hr. cbn -[b_eq getattr is_null].
  destruct i as [i|], (sp_interval p) as [j|].
  - destruct Hi as [-> Hi]. rewrite Hi. cbn. f_equal. unfold b_eq. apply bool_decide_ext. naive_solver.
  - subst r. cbn. f_equal. symmetry. apply bool_decide_eq_false_2. naive_solver.
  - destruct Hi as [-> _]. f_equal. symmetry. apply bool_decide_eq_false_2. naive_solver.
  - subst r. cbn. f_equal. symmetry. by apply bool_decide_eq_true_2.
Qed.

(** What [existing_prices] says of a key. *)
Definition accurate (existing : gmap string json) (h : list stripe_call) (k : string) : Prop :=
  match catalog h !! k with
  | Some p => ∃ v, existing !! k = Some v ∧ shows k p v
  | None => existing !! k = None
  end.

(** Every entry is a price that holds its key. *)
Definition sound (existing : gmap string json) (m : gmap string stripe_price) : Prop :=
  ∀ k v, existing !! k = Some v → ∃ p, m !! k = Some p ∧ shows k p v.

Lemma index_prices_spec (m : gmap string stripe_price) l result :
  sound result m → (∀ v, v ∈ l → ∃ k p, k ≠ "" ∧ m !! k = Some p ∧ shows k p v) →
  ∃ result', index_prices l result = Ok result' ∧ sound result' m ∧
    (∀ k, is_Some (result !! k) → is_Some (result' !! k)) ∧
    (∀ v k p, v ∈ l → k ≠ "" → shows k p v → is_Some (result' !! k)).
Proof.
  revert result. induction l as [|v l IH]; intros result Hs Hl.
  { exists result. split_and!; [done|done|done|]. intros v k p Hv. by apply elem_of_nil in Hv. }
  destruct (Hl v) as (k & p & Hk & Hm & Hsh); [left|]. cbn [index_prices].
  pose proof Hsh as (_ & Hkey & _). rewrite Hkey. change (Ok (JStr k) ≫= ?f) with (f (JStr k)). cbv beta iota.
  rewrite (proj2 (b_eq_false k "") Hk).
  destruct (IH (<[k := v]> result)) as (result' & Hr & Hs' & Hgrow & Hall).
  - intros k' v' [[<- <-]|[_ Hv]]%lookup_insert_Some; [|by apply Hs]. by exists p.
  - intros v' Hv'. apply Hl. by right.
  - exists result'. split_and!; [done|done| |].
    + intros k' Hk'. apply Hgrow, lookup_insert_is_Some'. by right.
    + intros v' k' p' [->|Hv']%elem_of_cons Hne Hsh'; [|by eapply Hall].
      destruct Hsh' as (_ & Hkey' & _). rewrite Hkey in Hkey'. injection Hkey' as <-.
      apply Hgrow. rewrite lookup_insert_eq. eauto.
Qed.

Lemma fetch_batches_step fuel keys result :
  keys ≠ [] →
  fetch_batches (S fuel) keys result =
    (page ← stripe (PriceListByKeys (take 10 keys));
     prices ← lift (data ← getattr page "data"; py_iter data);
     result ← lift (index_prices prices result);
     fetch_batches fuel (drop 10 keys) result).
Proof. by destruct keys. Qed.

Lemma fetch_batches_spec fuel keys result w :
  (length keys < fuel)%nat → Forall (λ k, k ≠ "") keys →
  let m := catalog (w_stripe w) in
  sound result m →
  ∃ r l, fetch_batches fuel keys result w = (r, on_log w l) ∧
    Forall (λ c, ∃ ks, c = PriceListByKeys ks) l ∧
    match r with
    | Ok result' => sound result' m ∧ (∀ k, is_Some (result !! k) → is_Some (result' !! k)) ∧
        (∀ k, k ∈ keys → is_Some (m !! k) → is_Some (result' !! k))
    | Raise _ => True
    end.
Proof.
  revert keys result w. induction fuel as [|fuel IH]; intros keys result w Hf Hne m Hs; [lia|].
  destruct keys as [|k0 keys'] eqn:Hkeys.
  { exists (Ok result), []. rewrite on_log_nil. split_and!; [done|constructor|done|done|].
    intros k Hk. by apply elem_of_nil in Hk. }
  rewrite <-Hkeys in *. set (c := PriceListByKeys (take 10 keys)).
  rewrite fetch_batches_step by (by rewrite Hkeys). fold c.
  rewrite stripe_bind. destruct (stripe_respond (w_stripe w) c) as [page|e] eqn:Hpage.
  2:{ exists (Raise e), [c]. split_and!; [done|repeat constructor; by eexists|done]. }
  destruct (catalog_list (w_stripe w) (take 10 keys) page) as (l & Hdata & Hin & Hall);
    [rewrite length_take; lia|done|].
  rewrite lift_bind, Hdata. change (Ok (JArr l) ≫= ?f) with (f (JArr l)). cbn [py_iter].
  destruct (index_prices_spec m l result Hs) as (result1 & Hr1 & Hs1 & Hg1 & Ha1).
  { intros v (k & p & Hk & Hm & Hsh)%Hin. exists k, p. split_and!; [|done|done].
    by eapply (proj1 (Forall_forall _ _) (Forall_take _ 10 _ Hne)). }
  rewrite lift_bind, Hr1.
  destruct (IH (drop 10 keys) result1 (on_log w [c])) as (r & l2 & Hrun & Hcalls & Hres).
  { rewrite length_drop. rewrite Hkeys in *. cbn in *. lia. }
  { by apply Forall_drop. }
  { cbn [on_log w_stripe]. rewrite catalog_frame by done. exact Hs1. }
  exists r, (c :: l2). rewrite Hrun, on_log_app. split_and!; [done|constructor; [by eexists|done]|].
  destruct r as [result2|e]; [|done]. destruct Hres as (Hs2 & Hg2 & Ha2).
  cbn [on_log w_stripe] in Hs2, Ha2. rewrite catalog_frame in Hs2, Ha2 by done. split_and!; [done|by auto|].
  intros k Hk Hm. rewrite <-(take_drop 10 keys) in Hk. apply elem_of_app in Hk as [Hk|Hk]; [|by apply Ha2].
  destruct Hm as [p Hp]. destruct (Hall k p Hk Hp) as (v & Hv & Hsh). apply Hg2, (Ha1 v k p); [done| |done].
  by eapply (proj1 (Forall_forall _ _) (Forall_take _ 10 _ Hne)).
Qed.

(** The table fetched in bulk is accurate for every key asked for. *)
Lemma bulk_fetch_spec keys w :
  Forall (λ k, k ≠ "") keys →
  ∃ r l, _bulk_fetch_existing keys w = (r, on_log w l) ∧ Forall (λ c, ∃ ks, c = PriceListByKeys ks) l ∧
    match r with Ok existing => ∀ k, k ∈ keys → accurate existing (w_stripe w) k | Raise _ => True end.
Proof.
  intros Hne. destruct (fetch_batches_spec (S (length keys)) keys ∅ w) as (r & l & Hrun & Hcalls & Hres);
    [lia|done|intros k v Hk; by rewrite lookup_empty in Hk|].
  exists r, l. split_and!; [done|done|]. destruct r as [existing|e]; [|done].
  destruct Hres as (Hs & _ & Ha). intros k Hk. unfold accurate.
  destruct (catalog (w_stripe w) !! k) as [p|] eqn:Hp.
  - destruct (Ha k Hk) as [v Hv]; [by rewrite Hp|]. destruct (Hs k v Hv) as (p' & Hp' & Hsh).
    exists v. split; [done|]. congruence.
  - destruct (existing !! k) as [v|] eqn:Hv; [|done]. destruct (Hs k v Hv) as (p & Hp' & _). congruence.
Qed.

End Lemmas.
