(* ===== verification/BillingViews.v ===== *)
(** * Billing endpoints

    [apps/billing/views.py]: checkout, portal, product purchases, credit balances
    and the subscription mutations, from the authenticated caller, the query
    parameters and the request body to the response.  The request serializers of
    [apps/billing/serializers.py] receive the fields after the type coercion of
    the framework (UUID, integer, boolean, string). *)

From S2P Require Import Prelude PyVal Effects Domain Relational Store Django Repos.
From S2P Require Import Repositories Credits Billing Subscriptions Fields OrgViews RedirectUrls.
From S2P Require Import BillingContext BillingCatalog.

#[local] Open Scope string_scope.

(** ** Requests *)

(** The query parameters. *)
Record Query := mkQuery {
  q_currency : option string;
  q_context : option string
}.

(** The format check of [URLField] is Django's. *)
Class URLField := url_field_ok : string → bool.

Record CheckoutRequest := mkCheckoutRequest {
  cr_plan_price_id : uuid;
  cr_seat_limit : option Z;
  cr_success_url : string;
  cr_cancel_url : string;
  cr_trial_period_days : option Z;
  cr_org_name : option string;
  cr_keep_personal_subscription : option bool
}.

Record CheckoutData := mkCheckoutData {
  cd_plan_price_id : uuid;
  cd_seat_limit : Z;
  cd_success_url : string;
  cd_cancel_url : string;
  cd_trial_period_days : option Z;
  cd_org_name : option string;
  cd_keep_personal_subscription : bool
}.

Record ProductCheckoutData := mkProductCheckoutData {
  pd_product_price_id : uuid;
  pd_success_url : string;
  pd_cancel_url : string
}.

Record UpdateRequest := mkUpdateRequest {
  ur_plan_price_id : option uuid;
  ur_prorate : option bool;
  ur_seat_limit : option Z;
  ur_cancel_at_period_end : option bool
}.

(** [IntegerField(min_value=lo, max_value=hi)]. *)
Definition in_range (lo hi : Z) (v : option Z) : bool :=
  match v with Some n => (lo <=? n)%Z && (n <=? hi)%Z | None => true end.

Section Serializers.
  Context `{IPLiterals} `{RedirectSettings} `{URLField}.

Definition redirect_field (url : string) : outcome string :=
  if url_field_ok url then _validate_redirect_url url else Raise ValidationError.

Definition CheckoutRequestSerializer (r : CheckoutRequest) : outcome CheckoutData :=
  if negb (in_range 1 10000 r.(cr_seat_limit)) then Raise ValidationError else
  success_url ← redirect_field r.(cr_success_url);
  cancel_url ← redirect_field r.(cr_cancel_url);
  if negb (in_range 1 90 r.(cr_trial_period_days)) then Raise ValidationError else
  org_name ← match r.(cr_org_name) with
             | Some n => n ← CharField 255 n; Ok (Some n)
             | None => Ok None
             end;
  Ok (mkCheckoutData r.(cr_plan_price_id) (or_else r.(cr_seat_limit) 1%Z) success_url cancel_url
        r.(cr_trial_period_days) org_name (or_else r.(cr_keep_personal_subscription) false)).

Definition ProductCheckoutRequestSerializer (r : ProductCheckoutData) : outcome ProductCheckoutData :=
  success_url ← redirect_field r.(pd_success_url);
  cancel_url ← redirect_field r.(pd_cancel_url);
  Ok (mkProductCheckoutData r.(pd_product_price_id) success_url cancel_url).

End Serializers.

(** The validated update; [validate] refuses an empty update and one that mixes
    the cancel toggle with a plan or seat change. *)
Definition UpdateSubscriptionSerializer (r : UpdateRequest) : outcome UpdateRequest :=
  if negb (in_range 1 10000 r.(ur_seat_limit)) then Raise ValidationError else
  let has_plan_change := not_none r.(ur_plan_price_id) || not_none r.(ur_seat_limit) in
  let has_cancel_toggle := not_none r.(ur_cancel_at_period_end) in
  if negb has_plan_change && negb has_cancel_toggle then Raise ValidationError else
  if has_cancel_toggle && has_plan_change then Raise ValidationError else
  Ok (mkUpdateRequest r.(ur_plan_price_id) (Some (or_else r.(ur_prorate) true)) r.(ur_seat_limit)
        r.(ur_cancel_at_period_end)).

(** ** Checkout *)

Definition owns_org (user : uuid) (d : db) : bool :=
  not_none (tfind (λ _ m, b_eq m.(m_user) user && is_owner m.(m_role)) d.(d_members)).

Definition _validate_team_checkout (user : uuid) (data : CheckoutData) : M store unit :=
  already_owns_org ← dquery (owns_org user);
  if already_owns_org : bool then raise _OrgAlreadyOwned else
  if is_none data.(cd_org_name) then raise ValidationError else mret tt.

Definition _build_checkout_metadata (is_team : bool) (data : CheckoutData) :
    option (list (string * string)) :=
  if negb is_team then None else
  Some [("org_name", or_else data.(cd_org_name) "");
        ("keep_personal_subscription",
         if data.(cd_keep_personal_subscription) then "true" else "false")].

Section Views.
  Context `{StripeServer} `{BillingSettings} `{IPLiterals} `{RedirectSettings} `{URLField}.

(** [CheckoutSessionView.post]: the URL of the session. *)
Definition checkout_session (user : uuid * UserRow) (q : Query) (r : CheckoutRequest) : M store json :=
  data ← lift (CheckoutRequestSerializer r);
  currency ← lift (_resolve_billing_currency q.(q_currency) (Some user.2));
  let billing_currency := currency.1 in
  plan_price ← _get_active_plan_price data.(cd_plan_price_id) (Some billing_currency);
  quantity ← lift (_validate_quantity_for_plan plan_price.1 data.(cd_seat_limit));
  stripe_price_id ← _resolve_stripe_price_id plan_price.2 billing_currency;
  let is_team := b_eq plan_price.1.(plan_context) TEAM in
  (if is_team then _validate_team_checkout user.1 data else mret tt);;
  let trial_period_days := if is_team then None else data.(cd_trial_period_days) in
  let metadata := _build_checkout_metadata is_team data in
  stripe_customer_id ←
    (if is_team
     then id ← create_team_stripe_customer user.1 user.2.(u_email) (Some user.2.(u_full_name))
                 user.2.(u_preferred_locale);
          lift (expect_str id)
     else customer ← get_or_create_customer (Some user.1) None user.2.(u_email)
                       (Some user.2.(u_full_name)) user.2.(u_preferred_locale);
          mret customer.(cus_stripe_id));
  create_checkout_session stripe_customer_id stripe_price_id (uuid_str user.1) billing_currency quantity
    user.2.(u_preferred_locale) data.(cd_success_url) data.(cd_cancel_url) trial_period_days metadata.

(** [PortalSessionView.post]; [return_url] is the body's only field. *)
Definition portal_session (user : uuid * UserRow) (q : Query) (return_url : string) : M store json :=
  return_url ← lift (redirect_field return_url);
  context ← lift (_validate_subscription_context q.(q_context));
  effective ← match context with Some c => mret c | None => _default_subscription_context user.1 end;
  stripe_customer_id ←
    match effective with
    | TEAM =>
        authorized_org_id ← _require_billing_authority user.1 TEAM;
        customer ← _resolve_billing_customer user.1 (Some TEAM) authorized_org_id;
        match customer with
        | None => raise NotFound
        | Some customer => mret customer.(cus_stripe_id)
        end
    | PERSONAL =>
        personal ← get_or_create_customer (Some user.1) None user.2.(u_email)
                     (Some user.2.(u_full_name)) user.2.(u_preferred_locale);
        mret personal.(cus_stripe_id)
    end;
  create_billing_portal_session stripe_customer_id user.2.(u_preferred_locale) return_url None.

(** [ProductCheckoutSessionView.post]. *)
Definition product_metadata (product_id : uuid) (org_id : option uuid) : list (string * string) :=
  (("product_id", uuid_str product_id)
   :: match org_id with Some o => [("org_id", uuid_str o)] | None => [] end)%list.

Definition product_checkout_session (user : uuid * UserRow) (q : Query) (r : ProductCheckoutData) :
    M store json :=
  data ← lift (ProductCheckoutRequestSerializer r);
  context ← lift (_validate_subscription_context q.(q_context));
  org_id ← _resolve_product_purchase_context user.1 context;
  currency ← lift (_resolve_billing_currency q.(q_currency) (Some user.2));
  let billing_currency := currency.1 in
  product_price ← _get_active_product_price data.(pd_product_price_id) (Some billing_currency);
  stripe_price_id ← _resolve_stripe_price_id product_price.2 billing_currency;
  let metadata := product_metadata product_price.1 org_id in
  customer ← get_or_create_customer (if not_none org_id then None else Some user.1) org_id
               user.2.(u_email) (Some user.2.(u_full_name)) user.2.(u_preferred_locale);
  create_product_checkout_session customer.(cus_stripe_id) stripe_price_id (uuid_str user.1)
    billing_currency user.2.(u_preferred_locale) data.(pd_success_url) data.(pd_cancel_url)
    (Some metadata).

(** ** Credit balances *)

Definition oldest_org (user : uuid) (d : db) : option uuid := m_org <$> first_membership user d.

Definition first_balance (owner : BalanceRow → bool) (rows : list BalanceRow) : Z :=
  match List.find owner rows with Some r => r.(b_balance) | None => 0%Z end.

(** [CreditBalanceView.get]: the entries [(balance, scope)]. *)
Definition credit_balances (user : uuid) (q : Query) : M store (list (Z * string)) :=
  context ← lift (_validate_subscription_context q.(q_context));
  org_id ← dquery (oldest_org user);
  if b_eq context (Some TEAM) && is_none org_id then raise NotFound else
  let wanted := λ r : BalanceRow,
    b_eq r.(b_user) (Some user)
    || (not_none org_id && negb (b_eq context (Some PERSONAL)) && b_eq r.(b_org) org_id) in
  rows ← dquery (λ d, snd <$> map_to_list (tfilter (λ _ r, wanted r) d.(d_balances)));
  let user_balance := first_balance (λ r, b_eq r.(b_user) (Some user)) rows in
  let org_balance := first_balance (λ r, b_eq r.(b_org) org_id) rows in
  mret match context with
       | Some PERSONAL => [(user_balance, "user")]
       | Some TEAM => [(org_balance, "org")]
       | None =>
           match org_id with
           | Some _ => (org_balance, "org") :: (if (0 <? user_balance)%Z then [(user_balance, "user")] else [])
           | None => [(user_balance, "user")]
           end
       end.

(** ** Subscriptions *)

(** [SubscriptionView.get]. *)
Fixpoint all_ok {A} (l : list (outcome A)) : outcome (list A) :=
  match l with
  | [] => Ok []
  | o :: l => a ← o; l ← all_ok l; Ok (a :: l)
  end.

Definition subscription_list (user : uuid * UserRow) (q : Query) : M store (Envelope SubscriptionOut) :=
  ctx ← lift (_currency_context q.(q_currency) (Some user.2));
  subs ← dquery (λ d, all_ok ((λ s, SubscriptionSerializer ctx s d)
                               <$> _get_active_subscriptions_for_user user.1 d));
  data ← lift subs;
  mret (_catalog_envelope data).

Definition _apply_cancel_toggle (customer : StripeCustomer) (cancel_at_period_end : bool) : M store unit :=
  if cancel_at_period_end then cancel_subscription customer.(cus_id) true
  else resume_subscription customer.(cus_id).

Definition _apply_plan_change (sub : Subscription) (stripe_sub_id : string) (plan_price : price_obj)
    (seat_limit : option Z) (prorate : bool) (org_id : option uuid) : M store unit :=
  new_price ← _resolve_plan_change_price plan_price sub.(sub_currency);
  match seat_limit, org_id with
  | Some n, Some o => _reject_seat_limit_below_member_count o n
  | _, _ => mret tt
  end;;
  change_plan stripe_sub_id new_price.1 (Some new_price.2) prorate seat_limit.

Definition _apply_seat_only (sub : Subscription) (seat_limit : Z) (org_id : option uuid) : M store unit :=
  current_plan ← objects_get (λ d, d.(d_plans) !! sub.(sub_plan_id)) "Plan";
  lift (_validate_quantity_for_context current_plan.(plan_context) seat_limit);;
  match org_id with
  | Some o => _reject_seat_limit_below_member_count o seat_limit
  | None => mret tt
  end;;
  update_seat_count sub seat_limit.

(** The branch of [SubscriptionView.patch] the request's fields select. *)
Definition apply_update (user : uuid) (context : PlanContext) (org_id : option uuid)
    (data : UpdateRequest) (plan_price : option (Plan * price_obj)) : M store unit :=
  found ← _get_customer_and_paid_subscription user (Some context) org_id;
  let '(customer, sub, stripe_sub_id) := found in
  match data.(ur_cancel_at_period_end), plan_price, data.(ur_seat_limit) with
  | Some cancel, _, _ => _apply_cancel_toggle customer cancel
  | None, Some p, seat_limit =>
      _apply_plan_change sub stripe_sub_id p.2 seat_limit (or_else data.(ur_prorate) true) org_id
  | None, None, Some n => _apply_seat_only sub n org_id
  | None, None, None => mret tt
  end.

(** The notice [on_commit]: outside a transaction it is sent at once. *)
Definition send_notice (user : UserRow) (org_id : option uuid) (plan_name : string)
    (action : string) : M store unit :=
  recipients ← _billing_notice_recipients user org_id;
  match recipients with
  | [] => mret tt
  | _ => on_commit (send_subscription_cancel_notice_task_delay recipients plan_name action)
  end.

Definition plan_name_of (s : Subscription) (d : db) : string :=
  or_else (plan_name <$> d.(d_plans) !! s.(sub_plan_id)) "".

(** [SubscriptionView.patch]. *)
Definition subscription_patch (user : uuid * UserRow) (q : Query) (r : UpdateRequest) :
    M store SubscriptionOut :=
  data ← lift (UpdateSubscriptionSerializer r);
  target ← _resolve_mutation_context q.(q_context) user.1;
  let '(context, org_id) := target in
  plan_price ← match data.(ur_plan_price_id) with
               | Some p => p ← _get_active_plan_price p None; mret (Some p)
               | None => mret None
               end;
  match plan_price, data.(ur_seat_limit) with
  | Some p, Some n => lift (_validate_quantity_for_plan p.1 n);; mret tt
  | _, _ => mret tt
  end;;
  apply_update user.1 context org_id data plan_price;;
  ctx ← lift (_currency_context q.(q_currency) (Some user.2));
  found ← dquery (_refetch_subscription_after_mutation user.1 context);
  sub ← lift found;
  match data.(ur_cancel_at_period_end) with
  | Some cancel =>
      plan_name ← dquery (plan_name_of sub);
      send_notice user.2 org_id plan_name (if cancel then "scheduled" else "resumed")
  | None => mret tt
  end;;
  out ← dquery (SubscriptionSerializer ctx sub);
  lift out.

(** [SubscriptionView.delete]. *)
Definition subscription_delete (user : uuid * UserRow) (q : Query) : M store unit :=
  target ← _resolve_mutation_context q.(q_context) user.1;
  let '(context, org_id) := target in
  found ← _get_customer_and_paid_subscription user.1 (Some context) org_id;
  cancel_subscription found.1.1.(cus_id) true;;
  recipients ← _billing_notice_recipients user.2 org_id;
  match recipients with
  | [] => mret tt
  | _ =>
      lift (_currency_context q.(q_currency) (Some user.2));;
      found ← dquery (_refetch_subscription_after_mutation user.1 context);
      sub ← lift found;
      plan_name ← dquery (plan_name_of sub);
      on_commit (send_subscription_cancel_notice_task_delay recipients plan_name "scheduled")
  end.

(** [ScheduledChangeView.delete]. *)
Definition scheduled_change_delete (user : uuid * UserRow) (q : Query) : M store unit :=
  target ← _resolve_mutation_context q.(q_context) user.1;
  let '(context, org_id) := target in
  found ← _get_customer_and_paid_subscription user.1 (Some context) org_id;
  release_pending_schedule_for_customer found.1.1.(cus_id).

End Views.
