(* ===== verification/BillingTraces.v ===== *)
(** * What the billing services ask of Stripe

    Traces of the subscription services of [Billing.v] and [Subscriptions.v] run
    on the Django store: every call is about one subscription or a schedule Stripe
    named as attached to it, and only that subscription's row changes. *)

From S2P Require Import Prelude PyVal Effects Domain Relational Store StoreFacts Django Repos.
From S2P Require Import Repositories RepositoriesFacts Billing Subscriptions.

#[local] Open Scope string_scope.

(** ** Specification *)

(** Nothing but the subscription row [i] changes. *)
Definition only_sub (i : uuid) (s1 s2 : store) : Prop :=
  s_cache s2 = s_cache s1 ∧
  ∃ t, s_db s2 = set_subs t (s_db s1) ∧ ∀ j, j ≠ i → t !! j = d_subs (s_db s1) !! j.

(** The object has the field. *)
Definition field (j : json) (key : string) (v : json) : Prop := ∃ l, j = JObj l ∧ assoc key l = Some v.

(** [i] is the id of the subscription [k] in Stripe's answer about it. *)
Definition own_id `{StripeServer} (log : list stripe_call) (k i : string) : Prop :=
  ∃ j v, answered log (SubscriptionRetrieve k) j ∧ field j "id" v ∧ i = py_str v.

(** The schedules Stripe attached to the subscription [k], by its answers: the one its
    subscription names, under that id or the schedule's own, and the one it created from
    the subscription. *)
Inductive attached `{StripeServer} (log : list stripe_call) (k : string) : string → Prop :=
  | attached_named j v : answered log (SubscriptionRetrieve k) j → field j "schedule" v → truthy v = true →
      attached log k (py_str v)
  | attached_read i j v : attached log k i → answered log (ScheduleRetrieve i) j → field j "id" v →
      attached log k (py_str v)
  | attached_created i j v : own_id log k i → answered log (ScheduleCreate i) j → field j "id" v →
      attached log k (py_str v).

(** A call of a mutation of the subscription [k] after the calls [log]: it retrieves or
    modifies [k], or works on a schedule Stripe attached to it; the prices it moves to
    satisfy [price] and the quantities it sets satisfy [qty]. *)
Definition mutates `{StripeServer} (k : string) (price : string → Prop) (qty : Z → Prop)
    (log : list stripe_call) (c : stripe_call) : Prop :=
  match c with
  | SubscriptionRetrieve i | SubscriptionModifyCancelAt i _ => i = k
  | SubscriptionModifyItem i _ p n _ => i = k ∧ (∀ x, p = Some x → price x) ∧ qty n
  | ScheduleModify i _ phases => attached log k i ∧
      (∀ ph, last phases = Some ph → price ph.(ph_price)) ∧ Forall (λ ph, qty ph.(ph_quantity)) phases
  | ScheduleRetrieve i | ScheduleRelease i => attached log k i
  | ScheduleCreate i => own_id log k i
  | PriceRetrieve x => price x
  | _ => False
  end.

(** ** Lemmas *)

#[export] Instance only_sub_preorder i : PreOrder (only_sub i).
Proof.
  split.
  - intros [d c]. split; [done|]. exists (d_subs d). split; [by destruct d|done].
  - intros s1 s2 s3 (Hc1 & t1 & Ht1 & Hj1) (Hc2 & t2 & Ht2 & Hj2). split; [congruence|].
    exists t2. split; [rewrite Ht2, Ht1; by destruct (s_db s1)|].
    intros j Hj. rewrite Hj2, Ht1 by done. by apply Hj1.
Qed.

Lemma only_sub_save now s (d d' : store) :
  subs_save_db now s d = Ok d' → only_sub s.(sub_id) d d'.
Proof.
  cbn. intros [[Hs _]%subscription_save_inv Hc]%on_db_inv. split; [done|].
  eexists. split; [exact Hs|]. intros j Hj. by rewrite lookup_insert_ne.
Qed.

Lemma getattr_field j key v : getattr j key = Ok v → field j key v.
Proof. unfold field. destruct j as [| | | | |l]; try done. cbn. destruct (assoc key l) as [x|] eqn:Hx; [|done]. intros [= ->]. by exists l. Qed.
Lemma getitem_field j key v : getitem j key = Ok v → field j key v.
Proof. unfold field. destruct j as [| | | | |l]; try done. cbn. destruct (assoc key l) as [x|] eqn:Hx; [|done]. intros [= ->]. by exists l. Qed.
Lemma safe_get_field j key v : _safe_get j key = Ok v → truthy v = true → field j key v.
Proof.
  unfold _safe_get. destruct (is_null j); [by intros [= <-]|]. destruct (getitem j key) as [x|[]] eqn:Hx; try done; try by intros [= <-].
  intros [= <-] _. by apply getitem_field.
Qed.

Lemma own_id_app `{StripeServer} log k i more : own_id log k i → own_id (log ++ more) k i.
Proof. intros (j & v & Ha & Hf). exists j, v. split; [by apply answered_app|done]. Qed.
Lemma attached_app `{StripeServer} log k i more : attached log k i → attached (log ++ more) k i.
Proof.
  induction 1 as [j v Ha Hf Ht|i j v _ IH Ha Hf|i j v Hi Ha Hf].
  - eapply attached_named; [by apply answered_app|done..].
  - eapply attached_read; [done|by apply answered_app|done].
  - eapply attached_created; [by apply own_id_app|by apply answered_app|done].
Qed.

(** [emits_step] takes one step of a proof of [emits]. *)
Ltac emits_step :=
  lazymatch goal with
  | |- emits _ _ (mbind _ _) _ => eapply emits_bind; [exact _| |intros ? ? ?]
  | |- emits _ _ (mret _) _ => apply emits_ret; exact _
  | |- emits _ _ (raise _) _ => apply emits_raise; exact _
  | |- emits _ _ (lift _) _ => apply emits_lift; exact _
  | |- emits _ _ (query _) _ => apply emits_query; exact _
  | |- emits _ _ (dquery _) _ => apply emits_query; exact _
  | |- emits _ _ utcnow _ => apply emits_utcnow; exact _
  | |- emits _ _ uuid4 _ => apply emits_uuid4; exact _
  | |- emits _ _ (delay _) _ => apply emits_delay; exact _
  | |- emits _ _ (stripe _) _ => apply emits_stripe; [exact _|]
  | |- emits _ _ (match ?x with _ => _ end) _ => destruct x eqn:?
  end.

Section Traces.
  Context `{StripeServer} (k : string) (price : string → Prop) (qty : Z → Prop).
  Implicit Types w : world store.

Abbreviation emits_on i := (emits (mutates k price qty) (only_sub i)).

Lemma save_emits i s w : s.(sub_id) = i → emits_on i (subs_save s) w.
Proof.
  intros <-. unfold subs_save. repeat emits_step. apply emits_exec; [exact _|]. intros d. apply only_sub_save.
Qed.

Lemma mirror_emits s j w : emits_on s.(sub_id) (_mirror_cancel_state_from_stripe s j) w.
Proof.
  unfold _mirror_cancel_state_from_stripe. repeat emits_step.
  by apply save_emits.
Qed.

Lemma release_emits i w : emits_on i (_release_pending_schedule k) w.
Proof.
  unfold _release_pending_schedule. apply emits_ask; [exact _|done|]. intros sub w1 Hsub _.
  apply emits_lifted; [exact _|]. intros sid Hsid%getattr_field. destruct (truthy sid) eqn:Ht; [|by apply emits_ret; exact _]. cbn [negb].
  assert (attached (w_stripe w1) k (py_str sid)) as Hsch by by eapply attached_named.
  apply emits_ask; [exact _|done|]. intros sch w2 Hans Hw2.
  apply emits_lifted; [exact _|]. intros st _. case_match; [by apply emits_ret; exact _|].
  apply emits_lifted; [exact _|]. intros i' Hi'%getattr_field. repeat emits_step. cbn.
  eapply attached_read; [|exact Hans|done]. rewrite Hw2. by apply attached_app.
Qed.

Lemma schedule_downgrade_emits i sub new q w :
  price new → qty q → answered (w_stripe w) (SubscriptionRetrieve k) sub →
  emits_on i (_schedule_downgrade_at_period_end sub new q) w.
Proof.
  intros Hp Hq Hsub. unfold _schedule_downgrade_at_period_end.
  do 6 (apply emits_lifted; [exact _|intros ? ?]). apply emits_ask; [exact _|done|]. intros np w1 _ Hw1.
  assert (answered (w_stripe w1) (SubscriptionRetrieve k) sub) as Hsub1 by (rewrite Hw1; by apply answered_app).
  apply emits_lifted; [exact _|]. intros ? _. case_match; [by apply emits_raise; exact _|].
  apply emits_lifted; [exact _|]. intros sid Hsid.
  assert (∀ σ w', attached (w_stripe w') k σ → emits_on i (stripe (ScheduleModify σ "release"
    (downgrade_phases a3 new q a1 a0));; mret tt) w') as Hmod.
  { intros σ w' Hσ. repeat emits_step. cbn. split_and!; [done|by intros ? [= <-]|by repeat constructor]. }
  destruct (truthy sid) eqn:Ht.
  - eapply emits_bind; [exact _|by apply emits_ret; exact _|]. intros ? ? [= <- <-]. apply Hmod.
    eapply attached_named; [done|by apply safe_get_field|done].
  - eapply emits_bind; [exact _| |].
    + apply emits_lifted; [exact _|]. intros i' Hi'%getitem_field. apply emits_ask; [exact _|by exists sub, i'|].
      intros sch w2 _ _. apply emits_lift; exact _.
    + intros σ w'. rewrite lift_bind. destruct (getitem sub "id") as [i'|] eqn:Hi'; [|done]. apply getitem_field in Hi'.
      rewrite stripe_bind. destruct (stripe_respond _ _) as [sch|] eqn:Hr; [|done]. unfold lift.
      destruct (getitem sch "id") as [v|] eqn:Hv; [|done]. cbn [mbind outcome_bind]. destruct v; try done. cbn. intros [= <- <-].
      apply Hmod. cbn. apply (attached_created _ _ (py_str i') sch (JStr s)); [|by eexists _, []|by apply getitem_field].
      apply own_id_app. by exists sub, i'.
Qed.

Lemma immediate_change_emits i sub item new prorate q w :
  price new → qty q → answered (w_stripe w) (SubscriptionRetrieve k) sub →
  emits_on i (_apply_immediate_plan_change sub k item new prorate q) w.
Proof.
  intros Hp Hq Hsub. unfold _apply_immediate_plan_change. apply emits_lifted; [exact _|]. intros sid Hsid.
  eapply emits_bind; [exact _| |intros item' w' _].
  - destruct (truthy sid) eqn:Ht; [|by apply emits_ret; exact _].
    eapply emits_bind; [exact _| |by intros; repeat emits_step; done]. apply emits_stripe; [exact _|].
    cbn. eapply attached_named; [done|by apply safe_get_field|done].
  - repeat emits_step. cbn. split_and!; [done| |done]. by intros ? [= <-].
Qed.

Lemma change_plan_emits i new amount prorate quantity w :
  price new → (∀ n, quantity = Some n → qty n) → (quantity = None → ∀ n, qty n) →
  emits_on i (change_plan k new amount prorate quantity) w.
Proof.
  intros Hp Hs Hn. unfold change_plan.
  assert (∀ n, qty (or_else quantity n)) as Hq by (intros n; destruct quantity; cbn; eauto).
  apply emits_ask; [exact _|done|]. intros sub w1 Hsub _. do 5 (apply emits_lifted; [exact _|intros ? _]).
  case_match; [by apply schedule_downgrade_emits|by apply immediate_change_emits].
Qed.

Lemma update_seat_emits s n w :
  s.(sub_stripe_id) = Some k → qty n → emits_on s.(sub_id) (update_seat_count s n) w.
Proof.
  intros Hk Hq. unfold update_seat_count. rewrite Hk.
  repeat first [emits_step|reflexivity].
  - cbn. split_and!; [done|done|done].
  - by apply save_emits.
Qed.

(** The three operations on a customer's active subscription. *)
Lemma active_with_id_found cid msg s w :
  sub_active_for_customer (s_db (w_db w)) cid = Some s → s.(sub_stripe_id) = Some k →
  active_with_id cid msg w = (Ok (s, k), w).
Proof. intros Hs Hk. unfold active_with_id. munfold. cbn. by rewrite Hs, Hk. Qed.

Lemma active_bind_emits {B} cid msg s i (f : Subscription * string → M store B) w :
  sub_active_for_customer (s_db (w_db w)) cid = Some s → s.(sub_stripe_id) = Some k →
  emits_on i (f (s, k)) w → emits_on i (active_with_id cid msg ≫= f) w.
Proof.
  intros Hs Hk Hf. pose proof (active_with_id_found cid msg s w Hs Hk) as Hrun.
  unfold emits. by rewrite (bind_Ok _ _ _ _ _ Hrun).
Qed.

Lemma cancel_emits cid s w :
  sub_active_for_customer (s_db (w_db w)) cid = Some s → s.(sub_stripe_id) = Some k →
  emits_on s.(sub_id) (cancel_subscription cid true) w.
Proof.
  intros Hs Hk. unfold cancel_subscription. eapply active_bind_emits; [done..|]. cbn [fst snd].
  repeat first [emits_step|apply release_emits|apply mirror_emits|reflexivity].
Qed.

Lemma resume_emits cid s w :
  sub_active_for_customer (s_db (w_db w)) cid = Some s → s.(sub_stripe_id) = Some k →
  emits_on s.(sub_id) (resume_subscription cid) w.
Proof.
  intros Hs Hk. unfold resume_subscription. eapply active_bind_emits; [done..|]. cbn [fst snd].
  repeat first [emits_step|apply mirror_emits|reflexivity].
Qed.

Lemma release_pending_emits cid s w :
  sub_active_for_customer (s_db (w_db w)) cid = Some s → s.(sub_stripe_id) = Some k →
  emits_on s.(sub_id) (release_pending_schedule_for_customer cid) w.
Proof.
  intros Hs Hk. unfold release_pending_schedule_for_customer. eapply active_bind_emits; [done..|].
  cbn [fst snd]. repeat first [emits_step|apply release_emits|apply save_emits; reflexivity].
Qed.

End Traces.
