(* ===== verification/BillingViewFacts.v ===== *)
(** * Correctness of the billing endpoints: authority over subscriptions

    Who may mutate which subscription, what a mutation asks of Stripe, and the
    limits it keeps. *)

From S2P Require Import Prelude PyVal Effects Domain Relational Store StoreFacts Django Repos.
From S2P Require Import Repositories RepositoriesFacts Billing Subscriptions Fields OrgViews RedirectUrls.
From S2P Require Import BillingContext BillingCatalog BillingViews BillingTraces.

#[local] Open Scope string_scope.

(** ** Specification *)

(** [user] is a billing member of [org]. *)
Definition billing_member (d : db) (user org : uuid) : Prop :=
  ∃ i m, d.(d_members) !! i = Some m ∧ m.(m_user) = user ∧ m.(m_org) = org ∧ m.(m_is_billing) = true.

Definition is_member (d : db) (user : uuid) : Prop :=
  ∃ i m, d.(d_members) !! i = Some m ∧ m.(m_user) = user.

(** [user] belongs to at most one org. *)
Definition single_membership (d : db) (user : uuid) : Prop :=
  ∀ i j m m', d.(d_members) !! i = Some m → d.(d_members) !! j = Some m' →
    m.(m_user) = user → m'.(m_user) = user → i = j.

(** The policy: which context and org a request for a mutation may resolve to. *)
Inductive may_mutate (d : db) (user : uuid) : option PlanContext → PlanContext * option uuid → Prop :=
  | mm_personal : may_mutate d user (Some PERSONAL) (PERSONAL, None)
  | mm_team o : billing_member d user o → may_mutate d user (Some TEAM) (TEAM, Some o)
  | mm_default_personal : ¬ is_member d user → may_mutate d user None (PERSONAL, None)
  | mm_default_team o : billing_member d user o → may_mutate d user None (TEAM, Some o).

(** When the policy may refuse: a team request of a user who is a billing member
    of no org, or a request without a context of a member who is not a billing
    member everywhere. *)
Definition may_refuse (d : db) (user : uuid) (requested : option PlanContext) : Prop :=
  match requested with
  | Some PERSONAL => False
  | Some TEAM => ∀ o, ¬ billing_member d user o
  | None => ∃ i m, d.(d_members) !! i = Some m ∧ m.(m_user) = user ∧ m.(m_is_billing) = false
  end.

(** The subscription [s], known to Stripe as [k], that [user] has authority over
    in this context. *)
Definition authorised (d : db) (user : uuid) (target : PlanContext * option uuid)
    (s : Subscription) (k : string) : Prop :=
  ∃ c, d.(d_customers) !! c.(cus_id) = Some c ∧
    d.(d_subs) !! s.(sub_id) = Some s ∧ s.(sub_stripe_customer_id) = Some c.(cus_id) ∧
    is_active_status s.(sub_status) = true ∧ s.(sub_stripe_id) = Some k ∧
    match target with
    | (PERSONAL, _) => c.(cus_user_id) = Some user
    | (TEAM, Some o) => c.(cus_org_id) = Some o ∧ billing_member d user o
    | (TEAM, None) => False
    end.

(** ** Helper lemmas *)

Lemma first_membership_Some user d m :
  first_membership user d = Some m → ∃ i, d.(d_members) !! i = Some m ∧ m.(m_user) = user.
Proof.
  unfold first_membership. intros [[i m'] [Hf [= ->]]]%fmap_Some.
  apply tfind_Some in Hf as [Hm Hu]. rewrite b_eq_true in Hu. eauto.
Qed.

Lemma first_membership_None user d : first_membership user d = None → ¬ is_member d user.
Proof.
  unfold first_membership. rewrite fmap_None, tfind_None. intros Hn (i & m & Hm & <-).
  specialize (Hn _ _ Hm). by rewrite b_eq_refl in Hn.
Qed.

Lemma first_billing_Some user d m :
  first_billing_membership user d = Some m → billing_member d user m.(m_org).
Proof.
  unfold first_billing_membership. intros [[i m'] [Hf [= ->]]]%fmap_Some.
  apply tfind_Some in Hf as [Hm Hu]. rewrite andb_true_iff, b_eq_true in Hu. destruct Hu. by exists i, m'.
Qed.

Lemma first_billing_None user d o : first_billing_membership user d = None → ¬ billing_member d user o.
Proof.
  unfold first_billing_membership. rewrite fmap_None, tfind_None. intros Hn (i & m & Hm & <- & _ & Hb).
  specialize (Hn _ _ Hm). by rewrite b_eq_refl, Hb in Hn.
Qed.

Lemma single_first user d i m :
  single_membership d user → d.(d_members) !! i = Some m → m.(m_user) = user →
  first_membership user d = Some m.
Proof.
  intros Hs Hm Hu. unfold first_membership.
  rewrite (tfind_unique _ _ i m); [done|done|by rewrite b_eq_true|].
  intros j b Hb Hp. rewrite b_eq_true in Hp. eauto.
Qed.

Section Authority.
  Context `{StripeServer} `{BillingSettings}.
  Implicit Types w : world store.

(** The prologue of the mutations reads the database only. *)
Definition mutation_target (q : option string) (user : uuid) (d : db) :
    outcome (PlanContext * option uuid) :=
  explicit ← _validate_subscription_context q;
  match explicit with
  | Some PERSONAL => Ok (PERSONAL, None)
  | Some TEAM => match first_billing_membership user d with
                 | Some m => Ok (TEAM, Some m.(m_org))
                 | None => Raise PermissionDenied
                 end
  | None => match first_membership user d with
            | Some m => if negb m.(m_is_billing) then Raise PermissionDenied else Ok (TEAM, Some m.(m_org))
            | None => Ok (PERSONAL, None)
            end
  end.

Lemma resolve_mutation_run q user w :
  _resolve_mutation_context q user w = (mutation_target q user (s_db (w_db w)), w).
Proof.
  unfold _resolve_mutation_context, mutation_target, _require_billing_authority, dquery. munfold.
  destruct (_validate_subscription_context q) as [[[]|]|]; try done.
  - by destruct (first_billing_membership _ _).
  - destruct (first_membership _ _) as [m|]; [|done]. by destruct (m_is_billing m).
Qed.

Lemma mutation_target_policy q user d t :
  mutation_target q user d = Ok t →
  ∃ requested, _validate_subscription_context q = Ok requested ∧ may_mutate d user requested t.
Proof.
  unfold mutation_target. intros (explicit & -> & Ht)%outcome_bind_Ok. exists explicit. split; [done|].
  destruct explicit as [[]|].
  - injection Ht as <-. constructor.
  - destruct (first_billing_membership user d) as [m|] eqn:E; [|done]. injection Ht as <-.
    constructor. by eapply first_billing_Some.
  - destruct (first_membership user d) as [m|] eqn:E.
    + apply first_membership_Some in E as (i & Hm & Hu). destruct (m_is_billing m) eqn:Hb; [|done].
      injection Ht as <-. constructor. by exists i, m.
    + injection Ht as <-. constructor. by apply first_membership_None.
Qed.

(** The subscription the mutation is about. *)
Definition paid_target (user : uuid) (t : PlanContext * option uuid) (d : db) :
    outcome (StripeCustomer * Subscription * string) :=
  match match t with
        | (TEAM, Some o) => customer_by_org d o
        | (TEAM, None) => m ← first_membership user d; customer_by_org d m.(m_org)
        | (PERSONAL, _) => customer_by_user d user
        end with
  | None => Raise NotFound
  | Some c => match s ← sub_active_for_customer d c.(cus_id); k ← s.(sub_stripe_id); Some (c, s, k) with
              | Some r => Ok r
              | None => Raise NotFound
              end
  end.

Lemma get_customer_run user context org_id w :
  _get_customer_and_paid_subscription user (Some context) org_id w =
  (paid_target user (context, org_id) (s_db (w_db w)), w).
Proof.
  unfold _get_customer_and_paid_subscription, _resolve_billing_customer, paid_target, dquery.
  munfold. cbn [custs_get_by_org_id custs_get_by_user_id subs_get_active_for_customer
    DjangoStripeCustomerRepository DjangoSubscriptionRepository].
  destruct context; [|destruct org_id as [o|]].
  - destruct (customer_by_user _ _) as [c|]; [|done].
    destruct (sub_active_for_customer _ _) as [s|]; [|done]. cbn. by destruct (sub_stripe_id s).
  - destruct (customer_by_org _ _) as [c|]; [|done].
    destruct (sub_active_for_customer _ _) as [s|]; [|done]. cbn. by destruct (sub_stripe_id s).
  - destruct (first_membership _ _) as [m|]; [|done]. cbn.
    destruct (customer_by_org _ _) as [c|]; [|done].
    destruct (sub_active_for_customer _ _) as [s|]; [|done]. cbn. by destruct (sub_stripe_id s).
Qed.

Lemma paid_target_authorised user t requested d c s k :
  db_ok d → may_mutate d user requested t → paid_target user t d = Ok (c, s, k) →
  authorised d user t s k ∧ sub_active_for_customer d c.(cus_id) = Some s.
Proof.
  intros Hok Hmay. unfold paid_target.
  destruct (match t with (TEAM, Some o) => _ | (TEAM, None) => _ | (PERSONAL, _) => _ end) as [c'|] eqn:Hc; [|done].
  destruct (sub_active_for_customer d (cus_id c')) as [s'|] eqn:Hs; [|done]. cbn.
  destruct (sub_stripe_id s') as [k'|] eqn:Hk; [|done]. intros [= -> -> ->]. split; [|done].
  apply fmap_Some in Hs as ([i s''] & Hf & [= <-]). apply tbest_Some in Hf as (Hs & Hp & _).
  rewrite andb_true_iff, b_eq_true in Hp. destruct Hp as [Hcus Hact].
  pose proof (db_ok_sub_id _ _ _ Hok Hs) as Hi. cbn in Hi. exists c.
  destruct Hmay as [|o Ho|Hn|o Ho].
  all: (apply customer_by_user_iff in Hc as [Hc Hu]; [|done]) || (apply customer_by_org_iff in Hc as [Hc Hu]; [|done]).
  all: split_and!; try done; by rewrite Hi.
Qed.

(** *** The body of a PATCH *)

(** The price a plan change may move to: one of the plan price's Stripe prices in
    the subscription's currency. *)
Definition minted_in (d : db) (p : price_obj) (currency k : string) : Prop :=
  (currency = "usd" ∧ k = p.(po_stripe_price_id)) ∨
  ∃ i l, d.(d_localized) !! i = Some l ∧ localizes p.(po_owner) l = true ∧ l.(lp_currency) = currency ∧
    l.(lp_stripe_price_id) = Some k ∧ k ≠ "".

Lemma non_empty_Some o s : non_empty o = Some s → o = Some s ∧ s ≠ "".
Proof. destruct o as [x|]; cbn; [|done]. destruct (b_eq x "") eqn:E; [done|]. rewrite b_eq_false in E. by intros [= <-]. Qed.

Lemma stripe_ready_spec o currency i l :
  stripe_ready o currency i l = true ↔
  localizes o l = true ∧ l.(lp_currency) = currency ∧ is_Some l.(lp_stripe_price_id).
Proof. unfold stripe_ready. rewrite !andb_true_iff, b_eq_true, not_none_true. tauto. Qed.

(** [p] is a price as [_get_active_plan_price] loads it. *)
Definition loaded (d : db) (p : price_obj) : Prop :=
  ∀ rows, p.(po_resolved) = Some rows →
    ∃ c, rows = _resolved_localized_prefetch p.(po_owner) c d.

Lemma localized_for_currency_run p currency w :
  loaded (s_db (w_db w)) p →
  ∃ o, _localized_for_currency p currency w = (Ok o, w) ∧
    ∀ l, o = Some l → (∃ i, d_localized (s_db (w_db w)) !! i = Some l) ∧
      localizes p.(po_owner) l = true ∧ l.(lp_currency) = currency.
Proof.
  intros Hl. unfold _localized_for_currency, dquery. destruct (po_resolved p) as [rows|] eqn:Hr.
  - eexists; split; [done|]. intros l [[j l'] [Hf [= ->]]]%fmap_Some.
    apply list_find_Some in Hf as (Hj & Hp & _). rewrite andb_true_iff, b_eq_true in Hp.
    destruct (Hl rows Hr) as [c ->]. apply list_elem_of_lookup_2 in Hj.
    unfold _resolved_localized_prefetch in Hj. apply list_elem_of_fmap in Hj as ([i l''] & [= ->] & Hin).
    apply elem_of_map_to_list, tfilter_lookup in Hin as [Hin Ho]. apply stripe_ready_spec in Ho.
    split; [by exists i|]. tauto.
  - eexists; split; [done|]. intros l [[i l'] [Hf [= ->]]]%fmap_Some.
    apply tfind_Some in Hf as [Hi Ho]. apply stripe_ready_spec in Ho. split; [by exists i|]. tauto.
Qed.

Lemma plan_change_price_run p currency w :
  loaded (s_db (w_db w)) p →
  (∃ k amount, _resolve_plan_change_price p currency w = (Ok (k, amount), w) ∧
    minted_in (s_db (w_db w)) p currency k) ∨
  _resolve_plan_change_price p currency w = (Raise ValidationError, w).
Proof.
  intros Hl. unfold _resolve_plan_change_price. destruct (b_eq currency "usd") eqn:Hu.
  { rewrite b_eq_true in Hu. left. eexists _, _. split; [done|]. by left. }
  destruct (localized_for_currency_run p currency w Hl) as (o & Hrun & Ho).
  rewrite (bind_Ok _ _ _ _ _ Hrun). destruct o as [l|]; [|by right].
  destruct (non_empty (lp_stripe_price_id l)) as [k|] eqn:Hk; [|by right].
  left. eexists _, _. split; [done|]. right. apply non_empty_Some in Hk as [Hk Hne].
  destruct (Ho l eq_refl) as ([i Hi] & Hown & Hc). by exists i, l.
Qed.

Lemma active_plan_price_loaded i d plan p :
  active_plan_price i None d = Some (plan, p) → loaded d p ∧ p.(po_owner) = OfPlanPrice i ∧
    plan.(plan_is_active) = true ∧ ∃ row, d.(d_prices) !! i = Some row ∧
      d.(d_plans) !! row.(pp_plan_id) = Some plan ∧ p.(po_stripe_price_id) = row.(pp_stripe_price_id).
Proof.
  unfold active_plan_price. destruct (d_prices d !! i) as [row|]; [|done]. cbn.
  destruct (d_plans d !! pp_plan_id row) as [pl|] eqn:Hp; [|done]. cbn.
  destruct (plan_is_active pl) eqn:Ha; [|done]. intros [= <- <-]. split_and!; [done..|by eexists].
Qed.

Lemma validate_quantity_Ok c n n' : _validate_quantity_for_context c n = Ok n' →
  n' = n ∧ (1 <= n)%Z ∧ (c = PERSONAL → n = 1%Z).
Proof.
  destruct c; cbn.
  - destruct (b_eq n 1%Z) eqn:E; cbn; [|done]. rewrite b_eq_true in E. intros [= <-]. lia.
  - unfold MIN_TEAM_SEATS. destruct (n <? 1)%Z eqn:E; [done|]. intros [= <-]. rewrite Z.ltb_ge in E. done.
Qed.

Lemma objects_get_run {A} (q : db → option A) model w :
  objects_get q model w =
  (match q (s_db (w_db w)) with
   | Some a => Ok a
   | None => Raise (DoesNotExist (model ++ " matching query does not exist."))
   end, w).
Proof. unfold objects_get, dquery. munfold. by destruct (q _). Qed.

Lemma reject_seats_run o n w :
  ((Z.of_nat (count_members o (s_db (w_db w))) <= n)%Z ∧
    _reject_seat_limit_below_member_count o n w = (Ok tt, w)) ∨
  ∃ e, _reject_seat_limit_below_member_count o n w = (Raise e, w).
Proof.
  unfold _reject_seat_limit_below_member_count, dquery. munfold.
  destruct (n <? _)%Z eqn:E; [right; eauto|]. rewrite Z.ltb_ge in E. by left.
Qed.

(** What the seat limit of an update is held to before anything is asked of
    Stripe. *)
Definition seats_allowed (d : db) (org_id : option uuid) (pp : option (Plan * price_obj))
    (s : Subscription) (n : Z) : Prop :=
  (∀ o, org_id = Some o → (Z.of_nat (count_members o d) <= n)%Z) ∧
  (pp = None → ∃ plan, d.(d_plans) !! s.(sub_plan_id) = Some plan ∧
    _validate_quantity_for_context plan.(plan_context) n = Ok n).

Lemma check_seats_emits {B} k price qty i o n (f : unit → M store B) w :
  ((∀ o', o = Some o' → (Z.of_nat (count_members o' (s_db (w_db w))) <= n)%Z) →
    emits (mutates k price qty) (only_sub i) (f tt) w) →
  emits (mutates k price qty) (only_sub i)
    (match o with Some o => _reject_seat_limit_below_member_count o n | None => mret tt end ≫= f) w.
Proof.
  intros Hf. destruct o as [o|].
  - destruct (reject_seats_run o n w) as [[Hn Hrun]|[e Hrun]].
    + unfold emits. rewrite (bind_Ok _ _ _ _ _ Hrun). apply Hf. by intros ? [= <-].
    + apply emits_pure; [exact _|]. by rewrite (bind_Raise _ _ _ _ _ Hrun).
  - apply Hf. done.
Qed.

Lemma apply_update_emits user t data pp w c s k (price : string → Prop) (qty : Z → Prop) :
  let d := s_db (w_db w) in
  paid_target user t d = Ok (c, s, k) → sub_active_for_customer d c.(cus_id) = Some s →
  s.(sub_stripe_id) = Some k →
  (∀ p, pp = Some p → loaded d p.2 ∧ ∀ k', minted_in d p.2 s.(sub_currency) k' → price k') →
  (∀ n, data.(ur_seat_limit) = Some n → seats_allowed d t.2 pp s n → qty n) →
  (data.(ur_seat_limit) = None → ∀ n, qty n) →
  emits (mutates k price qty) (only_sub s.(sub_id)) (apply_update user t.1 t.2 data pp) w.
Proof.
  intros d Ht Hs Hk Hp Hq Hany. unfold apply_update.
  assert (_get_customer_and_paid_subscription user (Some t.1) t.2 w = (Ok (c, s, k), w)) as Hrun
    by (rewrite get_customer_run, <-Ht; by destruct t).
  unfold emits. rewrite (bind_Ok _ _ _ _ _ Hrun). change (emits (mutates k price qty) (only_sub s.(sub_id))
    (match data.(ur_cancel_at_period_end), pp, data.(ur_seat_limit) with
     | Some cancel, _, _ => _apply_cancel_toggle c cancel
     | None, Some p, seat_limit =>
         _apply_plan_change s k p.2 seat_limit (or_else data.(ur_prorate) true) t.2
     | None, None, Some n => _apply_seat_only s n t.2
     | None, None, None => mret tt
     end) w).
  destruct (ur_cancel_at_period_end data) as [[]|]; [by apply cancel_emits|by apply resume_emits|].
  destruct pp as [p|].
  - destruct (Hp p eq_refl) as [Hl Hprice]. unfold _apply_plan_change.
    destruct (plan_change_price_run p.2 (sub_currency s) w Hl) as [(k' & a & Hr & Hm)|Hr].
    2:{ apply emits_pure; [exact _|]. by rewrite (bind_Raise _ _ _ _ _ Hr). }
    unfold emits. rewrite (bind_Ok _ _ _ _ _ Hr). cbn [fst snd].
    destruct (ur_seat_limit data) as [n|]; [|apply change_plan_emits; eauto; done].
    apply (check_seats_emits k price qty _ t.2 n). intros Hn.
    apply change_plan_emits; [by eauto| |done]. intros ? [= <-]. apply Hq; [done|]. by split.
  - destruct (ur_seat_limit data) as [n|]; [|by apply emits_ret; exact _]. unfold _apply_seat_only.
    eapply emits_bind; [exact _|by apply emits_pure; [exact _|]; rewrite objects_get_run|].
    intros plan w'. rewrite objects_get_run. fold d.
    destruct (d_plans d !! sub_plan_id s) as [pl|] eqn:Hplan; [|done]. intros [= <- <-].
    eapply emits_bind; [exact _|by apply emits_lift; exact _|]. intros n' w' [= Hv <-].
    apply validate_quantity_Ok in Hv as Hn. destruct Hn as (-> & _).
    apply (check_seats_emits k price qty _ t.2 n). intros Hn. apply update_seat_emits; [done|].
    apply Hq; [done|]. split; [done|]. intros _. by exists pl.
Qed.

(** *** The endpoints *)

(** What a PATCH decides before it looks for the subscription. *)
Definition patch_request (user : uuid) (q : Query) (r : UpdateRequest) (d : db) :
    outcome (UpdateRequest * (PlanContext * option uuid) * option (Plan * price_obj)) :=
  data ← UpdateSubscriptionSerializer r;
  t ← mutation_target q.(q_context) user d;
  pp ← match data.(ur_plan_price_id) with
       | Some p => match active_plan_price p None d with Some p => Ok (Some p) | None => Raise NotFound end
       | None => Ok None
       end;
  _ ← match pp, data.(ur_seat_limit) with
      | Some p, Some n => _validate_quantity_for_plan p.1 n
      | _, _ => Ok 0%Z
      end;
  Ok (data, t, pp).

(** What it does once the mutation is made. *)
Definition patch_response (user : uuid * UserRow) (q : Query) (t : PlanContext * option uuid)
    (data : UpdateRequest) : M store SubscriptionOut :=
  ctx ← lift (_currency_context q.(q_currency) (Some user.2));
  found ← dquery (_refetch_subscription_after_mutation user.1 t.1);
  sub ← lift found;
  match data.(ur_cancel_at_period_end) with
  | Some cancel =>
      plan_name ← dquery (plan_name_of sub);
      send_notice user.2 t.2 plan_name (if cancel then "scheduled" else "resumed")
  | None => mret tt
  end;;
  out ← dquery (SubscriptionSerializer ctx sub);
  lift out.

Lemma subscription_patch_run user q r w :
  subscription_patch user q r w =
  match patch_request user.1 q r (s_db (w_db w)) with
  | Ok (data, t, pp) => (apply_update user.1 t.1 t.2 data pp;; patch_response user q t data) w
  | Raise e => (Raise e, w)
  end.
Proof.
  unfold subscription_patch, patch_request. rewrite lift_bind.
  destruct (UpdateSubscriptionSerializer r) as [data|e]; [|done]. cbn [mbind outcome_bind].
  rewrite bind_run, resolve_mutation_run. destruct (mutation_target _ _ _) as [[context org_id]|e]; [|done].
  cbn [mbind outcome_bind]. destruct (ur_plan_price_id data) as [i|].
  - rewrite bind_run. unfold _get_active_plan_price, get_or_404, dquery. rewrite bind_run, query_bind.
    destruct (active_plan_price i None _) as [p|]; [|done]. cbv beta iota delta [mret M_ret].
    destruct (ur_seat_limit data) as [n|]; [|done]. rewrite bind_run, lift_bind. cbn [mbind outcome_bind].
    by destruct (_validate_quantity_for_plan _ _).
  - done.
Qed.

Lemma notice_emits P i user o name action w : emits P (only_sub i) (send_notice user o name action) w.
Proof.
  unfold send_notice, _billing_notice_recipients, on_commit.
  repeat first [emits_step|destruct o].
Qed.

Lemma patch_response_emits P i user q t data w : emits P (only_sub i) (patch_response user q t data) w.
Proof.
  unfold patch_response. repeat first [emits_step|apply notice_emits].
Qed.

Lemma UpdateSubscriptionSerializer_Ok r data :
  UpdateSubscriptionSerializer r = Ok data →
  data.(ur_plan_price_id) = r.(ur_plan_price_id) ∧ data.(ur_seat_limit) = r.(ur_seat_limit) ∧
  data.(ur_cancel_at_period_end) = r.(ur_cancel_at_period_end) ∧
  (∀ n, r.(ur_seat_limit) = Some n → (1 <= n <= 10000)%Z) ∧
  (is_Some r.(ur_cancel_at_period_end) → r.(ur_plan_price_id) = None ∧ r.(ur_seat_limit) = None).
Proof.
  unfold UpdateSubscriptionSerializer. destruct r as [[p|] pr [n|] [c|]]; cbn; try done;
    try (destruct (_ && _)%Z eqn:E; cbn; [|done]; rewrite andb_true_iff, !Z.leb_le in E);
    intros [= <-]; cbn; split_and!; try done; try (intros ? [= <-]; lia); by intros [].
Qed.

(** A PATCH either changes nothing and asks nothing of Stripe, or mutates the
    subscription the policy gives authority over. *)
Lemma patch_emits user q r w 
    (price : PlanContext * option uuid → Subscription → string → Prop)
    (qty : PlanContext * option uuid → Subscription → Z → Prop) :
  let d := s_db (w_db w) in
  let w' := (subscription_patch user q r w).2 in
  store_ok (w_db w) →
  (∀ t s pp p, r.(ur_plan_price_id) = Some pp → active_plan_price pp None d = Some p →
    (∃ k, authorised d user.1 t s k) →
    ∀ k', minted_in d p.2 s.(sub_currency) k' → price t s k') →
  (∀ t s pp n, r.(ur_seat_limit) = Some n → (1 <= n <= 10000)%Z →
    (∃ k, authorised d user.1 t s k) →
    (∀ i, r.(ur_plan_price_id) = Some i → ∃ p, active_plan_price i None d = Some p ∧ pp = Some p ∧
      _validate_quantity_for_plan p.1 n = Ok n) →
    (r.(ur_plan_price_id) = None → pp = None) →
    seats_allowed d t.2 pp s n → qty t s n) →
  (∀ t s n, r.(ur_seat_limit) = None → qty t s n) →
  w' = w ∨
  ∃ requested t s k l, _validate_subscription_context q.(q_context) = Ok requested ∧
    may_mutate d user.1 requested t ∧ authorised d user.1 t s k ∧
    w_stripe w' = (w_stripe w ++ l)%list ∧ held (mutates k (price t s) (qty t s)) (w_stripe w) l ∧
    only_sub s.(sub_id) (w_db w) (w_db w').
Proof.
  intros d w' Hok Hprice Hqty Hany. subst w'. rewrite subscription_patch_run. fold d.
  destruct (patch_request user.1 q r d) as [[[data t] pp]|e] eqn:Hreq; [|by left].
  unfold patch_request in Hreq.
  apply outcome_bind_Ok in Hreq as (data' & Hdata & Hreq). apply outcome_bind_Ok in Hreq as (t' & Ht & Hreq).
  apply outcome_bind_Ok in Hreq as (pp' & Hpp & Hreq). apply outcome_bind_Ok in Hreq as (n' & Hn & Hreq).
  injection Hreq as -> -> ->. apply UpdateSubscriptionSerializer_Ok in Hdata as (Hdp & Hds & Hdc & Hrange & _).
  apply mutation_target_policy in Ht as (requested & Hv & Hmay).
  destruct (paid_target user.1 t d) as [[[c s] k]|e] eqn:Hpaid.
  2:{ left. rewrite bind_run. unfold apply_update.
      assert (_get_customer_and_paid_subscription user.1 (Some t.1) t.2 w = (Raise e, w)) as Hrun
        by (rewrite get_customer_run; fold d; rewrite <-Hpaid; by destruct t).
      by rewrite (bind_Raise _ _ _ _ _ Hrun). }
  destruct (paid_target_authorised _ _ _ _ _ _ _ Hok Hmay Hpaid) as [Hauth Hact].
  right. exists requested, t, s, k.
  assert (s.(sub_stripe_id) = Some k) as Hk by (destruct Hauth as (? & ? & ? & ? & ? & ? & ?); done).
  assert (∀ p, pp = Some p → ∃ i, r.(ur_plan_price_id) = Some i ∧ active_plan_price i None d = Some p) as Hpp'.
  { intros p ->. rewrite Hdp in Hpp. destruct (ur_plan_price_id r) as [i|]; [|done]. exists i. split; [done|].
    by destruct (active_plan_price i None d); [injection Hpp as ->|]. }
  destruct (emits_bind (mutates k (price t s) (qty t s)) (only_sub (sub_id s)) (apply_update user.1 t.1 t.2 data pp)
    (λ _, patch_response user q t data) w) as (l & Hl & HP & HR).
  - apply (apply_update_emits user.1 t data pp w c s k); [done..| | |].
    + intros p Hp. destruct (Hpp' p Hp) as (i & Hi & Hload). destruct p as [plan po].
      split; [by destruct (active_plan_price_loaded _ _ _ _ Hload)|]. intros k' Hm.
      eapply (Hprice t s i (plan, po)); [done|done|by exists k|done].
    + rewrite Hds. intros n Hsn Hall. eapply (Hqty t s pp n); [done|by apply Hrange|by exists k| | |done].
      * intros i Hi. rewrite Hdp, Hi in Hpp. destruct (active_plan_price i None d) as [p|]; [|done].
        exists p. injection Hpp as <-. split_and!; [done..|]. rewrite Hds, Hsn in Hn.
        apply validate_quantity_Ok in Hn as Hn'. destruct Hn' as (-> & _). done.
      * intros Hi. rewrite Hdp, Hi in Hpp. by injection Hpp as <-.
    + rewrite Hds. intros Hsn n. by apply Hany.
  - intros _ w1 _. apply patch_response_emits.
  - exists l. split_and!; done.
Qed.

End Authority.
