(* ===== verification/BillingAuthority.v ===== *)
(** * Who may change a subscription, and how far

    The theorems about [PATCH] and [DELETE] on the current subscription and about
    the cancellation of a scheduled change. *)

From S2P Require Import Prelude PyVal Effects Domain Relational Store StoreFacts Django Repos.
From S2P Require Import Repositories RepositoriesFacts Billing Subscriptions Fields OrgViews RedirectUrls.
From S2P Require Import Currency BillingContext BillingCatalog BillingViews BillingTraces BillingViewFacts.

#[local] Open Scope string_scope.

Section Authority.
  Context `{StripeServer} `{BillingSettings}.
  Implicit Types w : world store.

(** ** Specification *)

(** The endpoints that mutate a subscription. *)
Inductive mutation (user : uuid * UserRow) (q : Query) : M store unit → Prop :=
  | mut_patch r : mutation user q (subscription_patch user q r;; mret tt)
  | mut_delete : mutation user q (subscription_delete user q)
  | mut_scheduled : mutation user q (scheduled_change_delete user q).

(** A call that sets a quantity. *)
Definition sets_quantity (c : stripe_call) : bool :=
  match c with
  | SubscriptionModifyItem _ _ _ _ _ => true
  | ScheduleModify _ _ phases => negb (b_eq (length phases) 0)
  | _ => false
  end.

(** The plan an update is about: the one moved to, or the current one. *)
Definition target_plan (d : db) (r : UpdateRequest) (s : Subscription) : option Plan :=
  match r.(ur_plan_price_id) with
  | Some i => fst <$> active_plan_price i None d
  | None => d.(d_plans) !! s.(sub_plan_id)
  end.

(** ** Helper lemmas *)

Lemma mutates_impl k (price price' : string → Prop) (qty qty' : Z → Prop) log c :
  (∀ x, price x → price' x) → (∀ x, qty x → qty' x) → mutates k price qty log c → mutates k price' qty' log c.
Proof.
  intros Hp Hq. destruct c; cbn; try done.
  - intros (-> & H1 & H2). split_and!; eauto.
  - intros (H1 & H2 & H3). split_and!; [done|eauto|]. eapply Forall_impl; [exact H3|]. eauto.
  - apply Hp.
Qed.

Lemma mutates_quantity k price (qty : Z → Prop) log c (G : Prop) :
  mutates k price qty log c → sets_quantity c = true → (∀ x, qty x → G) → G.
Proof.
  destruct c; cbn; try done.
  - intros (_ & _ & Hq) _ HG. by eapply HG.
  - intros (_ & _ & Hq) Hl HG. destruct phases as [|ph phases]; [done|].
    apply Forall_cons in Hq as [Hq _]. by eapply HG.
Qed.

Lemma bind_ret_snd {A} (m : M store A) w : ((m;; mret tt) w).2 = (m w).2.
Proof. rewrite bind_run. by destruct (m w) as [[] ?]. Qed.

Lemma found_run user t w :
  _get_customer_and_paid_subscription user (Some t.1) t.2 w = (paid_target user t (s_db (w_db w)), w).
Proof. rewrite get_customer_run. by destruct t. Qed.

(** A deletion: the prologue, then [f] on the subscription found. *)
Lemma deletion_emits user q w (f : PlanContext → option uuid → StripeCustomer * Subscription * string → M store unit) :
  let d := s_db (w_db w) in
  let w' := ((t ← _resolve_mutation_context q user;
              let '(context, org_id) := t in
              found ← _get_customer_and_paid_subscription user (Some context) org_id;
              f context org_id found) w).2 in
  store_ok (w_db w) →
  (∀ t c s k, sub_active_for_customer d c.(cus_id) = Some s → s.(sub_stripe_id) = Some k →
    emits (mutates k (λ _, True) (λ _, True)) (only_sub s.(sub_id)) (f t.1 t.2 (c, s, k)) w) →
  w' = w ∨
  ∃ requested t s k l, _validate_subscription_context q = Ok requested ∧
    may_mutate d user requested t ∧ authorised d user t s k ∧
    w_stripe w' = (w_stripe w ++ l)%list ∧ held (mutates k (λ _, True) (λ _, True)) (w_stripe w) l ∧
    only_sub s.(sub_id) (w_db w) (w_db w').
Proof.
  intros d w' Hok Hf. subst w'. rewrite bind_run, resolve_mutation_run. fold d.
  destruct (mutation_target q user d) as [t|e] eqn:Ht; [|by left].
  apply mutation_target_policy in Ht as (requested & Hv & Hmay). destruct t as [c0 o0].
  rewrite bind_run, get_customer_run. fold d.
  destruct (paid_target user (c0, o0) d) as [[[c s] k]|e] eqn:Hpaid; [|by left].
  destruct (paid_target_authorised _ _ _ _ _ _ _ Hok Hmay Hpaid) as [Hauth Hact].
  right. exists requested, (c0, o0), s, k.
  assert (s.(sub_stripe_id) = Some k) as Hk by (destruct Hauth as (? & ? & ? & ? & ? & ? & ?); done).
  destruct (Hf (c0, o0) c s k Hact Hk) as (l & Hl & HP & HR). exists l. split_and!; done.
Qed.

Lemma single_first_billing user d i m :
  single_membership d user → d.(d_members) !! i = Some m → m.(m_user) = user → m.(m_is_billing) = true →
  first_billing_membership user d = Some m.
Proof.
  intros Hs Hm Hu Hb. unfold first_billing_membership.
  rewrite (tfind_unique _ _ i m); [done|done|by rewrite Hb, andb_true_r, b_eq_true|].
  intros j b Hj Hp. rewrite andb_true_iff, b_eq_true in Hp. destruct Hp. eauto.
Qed.

(** ** Properties *)

(** C7. The prologue of the subscription mutations implements the authority
    policy: a malformed context is a validation error; otherwise the context and
    org it resolves to are ones the policy grants, a refusal is a 403 the policy
    allows, nothing is read but the database and nothing is changed; and for a
    user with at most one membership it grants whatever the policy grants. *)
Theorem mutation_context_refines_policy q user w :
  let d := s_db (w_db w) in
  ∃ r, _resolve_mutation_context q user w = (r, w) ∧
    match _validate_subscription_context q with
    | Raise e => r = Raise e
    | Ok requested =>
        match r with
        | Ok t => may_mutate d user requested t
        | Raise e => e = PermissionDenied ∧ may_refuse d user requested
        end ∧
        (single_membership d user → ∀ t, may_mutate d user requested t → r = Ok t)
    end.
Proof.
  intros d. exists (mutation_target q user d). split; [apply resolve_mutation_run|].
  unfold mutation_target.
  destruct (_validate_subscription_context q) as [requested|e] eqn:Hv; [|done].
  cbn [mbind outcome_bind]. split.
  - destruct (mutation_target q user d) as [t|e] eqn:Ht.
    + apply mutation_target_policy in Ht as Hmay. destruct Hmay as (req & Hreq & Hmay).
      rewrite Hv in Hreq. injection Hreq as <-.
      unfold mutation_target in Ht. rewrite Hv in Ht. cbn [mbind outcome_bind] in Ht. by rewrite Ht.
    + unfold mutation_target in Ht. rewrite Hv in Ht. cbn [mbind outcome_bind] in Ht. rewrite Ht.
      destruct requested as [[]|]; [done| |].
      * destruct (first_billing_membership user d) eqn:Hf; [done|]. injection Ht as <-. split; [done|].
        intros o. by apply first_billing_None.
      * destruct (first_membership user d) as [m|] eqn:Hf; [|done].
        apply first_membership_Some in Hf as (i & Hm & Hu).
        destruct (m_is_billing m) eqn:Hb; [done|]. injection Ht as <-. split; [done|]. by exists i, m.
  - intros Hs t Hmay. destruct Hmay as [|o (i & m & Hm & Hu & <- & Hb)|Hn|o (i & m & Hm & Hu & <- & Hb)].
    + done.
    + by rewrite (single_first_billing _ _ _ _ Hs Hm Hu Hb).
    + destruct (first_membership user d) as [m|] eqn:Hf; [|done].
      apply first_membership_Some in Hf as (i & Hm & Hu). destruct Hn. by exists i, m.
    + by rewrite (single_first _ _ _ _ Hs Hm Hu), Hb.
Qed.

(** C5. A subscription mutation, whatever its request and whatever Stripe answers,
    either changes nothing and asks Stripe nothing, or concerns one active
    subscription the caller has authority over under the policy: his own, or that
    of an org he is a billing member of.  Every call it makes retrieves or modifies
    that subscription, or the schedule Stripe's own answers attached to it, or attaches
    one to it, or reads a price; no other subscription, schedule or customer is touched, and no other row
    of the database changes. *)
Theorem subscription_mutations_authorised user q m w :
  let d := s_db (w_db w) in
  let w' := (m w).2 in
  store_ok (w_db w) → mutation user q m →
  w' = w ∨
  ∃ requested t s k l, _validate_subscription_context q.(q_context) = Ok requested ∧
    may_mutate d user.1 requested t ∧ authorised d user.1 t s k ∧
    w_stripe w' = (w_stripe w ++ l)%list ∧ held (mutates k (λ _, True) (λ _, True)) (w_stripe w) l ∧
    only_sub s.(sub_id) (w_db w) (w_db w').
Proof.
  intros d w' Hok Hm. subst w'. destruct Hm as [r| |].
  - rewrite bind_ret_snd.
    by apply (patch_emits user q r w (λ _ _ _, True) (λ _ _ _, True)).
  - apply (deletion_emits _ _ w (λ context org_id found, cancel_subscription found.1.1.(cus_id) true;; _)); [done|].
    intros t c s k Hact Hk. eapply emits_bind; [exact _|by apply cancel_emits|]. intros _ w1 _.
    unfold _billing_notice_recipients, on_commit. repeat first [emits_step|destruct t.2].
  - apply (deletion_emits _ _ w (λ context org_id found, release_pending_schedule_for_customer found.1.1.(cus_id)));
      [done|]. intros t c s k Hact Hk. by apply release_pending_emits.
Qed.

(** C9. A PATCH with a seat limit [n] sets no other quantity, and sets it only
    when [n] is between 1 and 10000, is not below the number of members of the
    team's org, and is 1 if the plan moved to, or kept, is personal. *)
Theorem patch_seat_limit_held user q r n w :
  let d := s_db (w_db w) in
  let w' := (subscription_patch user q r w).2 in
  store_ok (w_db w) → r.(ur_seat_limit) = Some n →
  w' = w ∨
  ∃ t s k l, authorised d user.1 t s k ∧ w_stripe w' = (w_stripe w ++ l)%list ∧
    held (mutates k (λ _, True) (λ x, x = n)) (w_stripe w) l ∧
    (∀ c, c ∈ l → sets_quantity c = true →
      (1 <= n <= 10000)%Z ∧
      (∀ o, t.2 = Some o → (Z.of_nat (count_members o d) <= n)%Z) ∧
      ∃ plan, target_plan d r s = Some plan ∧ (plan.(plan_context) = PERSONAL → n = 1%Z)).
Proof.
  intros d w' Hok Hn. subst w'.
  set (held_to := λ (t : PlanContext * option uuid) (s : Subscription), (1 <= n <= 10000)%Z ∧
      (∀ o, t.2 = Some o → (Z.of_nat (count_members o d) <= n)%Z) ∧
      ∃ plan, target_plan d r s = Some plan ∧ (plan.(plan_context) = PERSONAL → n = 1%Z)).
  destruct (patch_emits user q r w (λ _ _ _, True) (λ t s x, x = n ∧ held_to t s))
    as [Heq|(requested & t & s & k & l & _ & _ & Hauth & Hl & HP & _)]; [done|done| | |by left|].
  - intros t s pp x Hx Hrange _ Hplan Hnone [Hmem Hcur]. rewrite Hn in Hx. injection Hx as <-.
    split; [done|]. split; [done|]. split; [done|]. unfold target_plan.
    destruct (ur_plan_price_id r) as [i|].
    + destruct (Hplan i eq_refl) as ([plan p] & Hp & _ & Hv). fold d in Hp. rewrite Hp. exists plan. split; [done|].
      by apply validate_quantity_Ok in Hv as (_ & _ & Hone).
    + destruct (Hcur (Hnone eq_refl)) as (plan & Hplan' & Hv). exists plan. split; [done|].
      by apply validate_quantity_Ok in Hv as (_ & _ & Hone).
  - intros t s x Hx. congruence.
  - right. exists t, s, k, l. split_and!; [done|done| |].
    + eapply held_impl; [|exact HP]. intros log c. apply mutates_impl; [done|tauto].
    + apply (held_Forall _ (λ c, sets_quantity c = true → held_to t s)) in HP.
      * rewrite Forall_forall in HP. exact HP.
      * intros log c Hc Hq. by eapply mutates_quantity; [exact Hc|done|]; intros ? [_ ?].
Qed.

(** C10. A plan change never moves a subscription to another currency: every price a
    PATCH asks Stripe to move to is the one minted for the requested plan, which is
    active, in the subscription's own currency. *)
Theorem plan_change_keeps_currency user q r i w :
  let d := s_db (w_db w) in
  let w' := (subscription_patch user q r w).2 in
  store_ok (w_db w) → r.(ur_plan_price_id) = Some i →
  w' = w ∨
  ∃ t s k l plan p, authorised d user.1 t s k ∧ active_plan_price i None d = Some (plan, p) ∧
    plan.(plan_is_active) = true ∧ w_stripe w' = (w_stripe w ++ l)%list ∧
    held (mutates k (minted_in d p s.(sub_currency)) (λ _, True)) (w_stripe w) l.
Proof.
  intros d w' Hok Hi. subst w'.
  destruct (active_plan_price i None d) as [[plan p]|] eqn:Hp.
  2:{ left. rewrite subscription_patch_run. fold d. unfold patch_request.
      destruct (UpdateSubscriptionSerializer r) as [data|] eqn:Hdata; [|done]. cbn [mbind outcome_bind].
      apply UpdateSubscriptionSerializer_Ok in Hdata as (Hdp & _). rewrite Hdp, Hi.
      destruct (mutation_target _ _ _); [|done]. cbn [mbind outcome_bind]. by rewrite Hp. }
  destruct (patch_emits user q r w (λ _ s k', minted_in d p s.(sub_currency) k') (λ _ _ _, True))
    as [Heq|(requested & t & s & k & l & _ & _ & Hauth & Hl & HP & _)]; [done| |done|done|by left|].
  - intros t s i' p' Hi' Hp' _ k' Hm. rewrite Hi in Hi'. injection Hi' as <-. fold d in Hp'.
    rewrite Hp in Hp'. by injection Hp' as <-.
  - right. exists t, s, k, l, plan, p. apply active_plan_price_loaded in Hp as (_ & _ & Hact & _).
    done.
Qed.

(** The currency of the response is checked after the mutation: a PATCH whose
    [?currency=] is not supported, and that would otherwise have succeeded,
    changes the subscription exactly as it would have and then answers with a
    validation error. *)
Theorem unsupported_currency_refused_late user q r c data t pp w w1 :
  q.(q_currency) = Some c → c ≠ "" → lower c ∉ SUPPORTED_CURRENCIES →
  patch_request user.1 q r (s_db (w_db w)) = Ok (data, t, pp) →
  apply_update user.1 t.1 t.2 data pp w = (Ok tt, w1) →
  subscription_patch user q r w = (Raise ValidationError, w1).
Proof.
  intros Hq Hne Hc Hreq Hrun. rewrite subscription_patch_run, Hreq, (bind_Ok _ _ _ _ _ Hrun).
  unfold patch_response, _currency_context, _resolve_billing_currency. rewrite Hq. cbn [non_empty].
  rewrite (proj2 (b_eq_false c "") Hne). cbn [fmap option_fmap option_map].
  assert (str_in (lower c) SUPPORTED_CURRENCIES = false) as ->; [|done]. by apply bool_decide_eq_false.
Qed.

End Authority.
