(* ===== verification/CatalogFacts.v ===== *)
(** * Correctness of currencies, prices and visible subscriptions

    The currency charged is billable; the amount displayed is the amount charged, but
    for a localized row without a Stripe price; and the subscriptions listed are the
    caller's. *)

From Stdlib Require Import SpecFloat.
From S2P Require Import Prelude PyVal Effects Domain Relational Store StoreFacts Django Repos.
From S2P Require Import Repositories RepositoriesFacts Currency Orgs Fields OrgViews BillingContext BillingCatalog.
From S2P Require Import BillingTraces BillingViewFacts.

#[local] Open Scope string_scope.

(** ** Specification *)

(** The currency a caller asks for: the query parameter, else his preference when
    it is a supported one, else US dollars. *)
Definition asked_currency (query : option string) (user : option UserRow) : string :=
  match non_empty query, non_empty (u_preferred_currency <$> user) with
  | Some c, _ => lower c
  | None, Some p => if str_in (lower p) SUPPORTED_CURRENCIES then lower p else "usd"
  | None, None => "usd"
  end.

(** The localized row of a price in a currency other than US dollars. *)
Definition row_in (d : db) (o : price_owner) (currency : string) : option LocalizedRow :=
  if b_eq currency "usd" then None
  else snd <$> tfind (λ _ l, localizes o l && b_eq l.(lp_currency) currency) d.(d_localized).

(** What a price should be displayed as, and the Stripe price it should be charged
    with, in [currency]. *)
Definition shown (d : db) (p : price_obj) (currency : string) : spec_float * string :=
  match row_in d p.(po_owner) currency with
  | Some l => (format_amount l.(lp_amount_minor) currency, currency)
  | None => (format_amount p.(po_amount) "usd", "usd")
  end.

Definition charged (d : db) (p : price_obj) (currency : string) : string :=
  match row_in d p.(po_owner) currency with
  | Some l => or_else (non_empty l.(lp_stripe_price_id)) p.(po_stripe_price_id)
  | None => p.(po_stripe_price_id)
  end.

(** What is displayed for a price in the currency [c], and the Stripe price charged: a
    localized row of that currency is displayed, and charged when Stripe has a price for
    it; one Stripe has none for is displayed while the US dollar price is charged; without
    a row both are the US dollar one. *)
Inductive display_and_charge (d : db) (p : price_obj) (c : string) : spec_float * string → string → Prop :=
  | row_charged i l k : c ≠ "usd" → d.(d_localized) !! i = Some l → localizes p.(po_owner) l = true →
      l.(lp_currency) = c → l.(lp_stripe_price_id) = Some k → k ≠ "" →
      display_and_charge d p c (format_amount l.(lp_amount_minor) c, c) k
  | row_only_displayed i l : c ≠ "usd" → d.(d_localized) !! i = Some l → localizes p.(po_owner) l = true →
      l.(lp_currency) = c → l.(lp_stripe_price_id) = None ∨ l.(lp_stripe_price_id) = Some "" →
      display_and_charge d p c (format_amount l.(lp_amount_minor) c, c) p.(po_stripe_price_id)
  | no_row : (c = "usd" ∨ ∀ i l, d.(d_localized) !! i = Some l → localizes p.(po_owner) l = true → l.(lp_currency) ≠ c) →
      display_and_charge d p c (format_amount p.(po_amount) "usd", "usd") p.(po_stripe_price_id).

#[export] Instance LocalizedRow_eq_dec : EqDecision LocalizedRow.
Proof. solve_decision. Defined.

(** ** Helper lemmas *)

Lemma db_ok_localized d : db_ok d → table_ok localized_schema (has d) d.(d_localized).
Proof. unfold db_ok. tauto. Qed.
Lemma db_ok_prices d : db_ok d → table_ok price_schema (has d) d.(d_prices).
Proof. unfold db_ok. tauto. Qed.

(** At most one row per price and currency. *)
Lemma localized_unique d o i j l l' :
  db_ok d → d.(d_localized) !! i = Some l → d.(d_localized) !! j = Some l' →
  localizes o l = true → localizes o l' = true → l.(lp_currency) = l'.(lp_currency) → i = j.
Proof.
  intros Hok Hi Hj Ho Ho' Hc. destruct o as [p|p]; cbn in Ho, Ho'; rewrite b_eq_true in Ho, Ho'.
  - eapply (table_ok_unique localized_schema (has d) d.(d_localized)
      (λ l, key_currency l.(lp_plan_price) l.(lp_currency)) i j l l' [KN p; KS l.(lp_currency)]);
      [by apply db_ok_localized|by left|done|done|by rewrite Ho|by rewrite Ho', Hc].
  - eapply (table_ok_unique localized_schema (has d) d.(d_localized)
      (λ l, key_currency l.(lp_product_price) l.(lp_currency)) i j l l' [KN p; KS l.(lp_currency)]);
      [by apply db_ok_localized|by right; left|done|done|by rewrite Ho|by rewrite Ho', Hc].
Qed.

Lemma localized_row_ok d i l :
  db_ok d → d.(d_localized) !! i = Some l → row_ok localized_schema (has d) l = true.
Proof. intros Hok Hi. eapply table_ok_row; [by apply db_ok_localized|done]. Qed.

Lemma localizes_inj d o o' l :
  row_ok localized_schema (has d) l = true → localizes o l = true → localizes o' l = true → o = o'.
Proof.
  unfold row_ok. rewrite !andb_true_iff. intros [[_ Hone] _]. cbn in Hone.
  destruct o, o'; cbn; rewrite !b_eq_true; intros H1 H2; try congruence; by rewrite H1, H2 in Hone.
Qed.

Lemma row_in_Some d o c l :
  db_ok d → c ≠ "usd" →
  row_in d o c = Some l ↔ ∃ i, d.(d_localized) !! i = Some l ∧ localizes o l = true ∧ l.(lp_currency) = c.
Proof.
  intros Hok Hc. unfold row_in. rewrite (proj2 (b_eq_false c "usd") Hc). split.
  - intros [[i l'] [Hf [= ->]]]%fmap_Some. apply tfind_Some in Hf as [Hi Hp].
    rewrite andb_true_iff, b_eq_true in Hp. exists i. tauto.
  - intros (i & Hi & Ho & Hcur). erewrite (tfind_unique _ _ i l); [done|done| |].
    + by rewrite Ho, Hcur, b_eq_refl.
    + intros j b Hj Hp. rewrite andb_true_iff, b_eq_true in Hp. destruct Hp as [Hob Hcb].
      eapply localized_unique; [done|exact Hj|exact Hi|done|done|congruence].
Qed.

(** A search among fetched rows that hold the wanted row, and no other of that
    currency, finds it. *)
Lemma list_find_row d o c (P : LocalizedRow → Prop) `{!∀ l, Decision (P l)} (rows : list LocalizedRow) :
  db_ok d → c ≠ "usd" →
  (∀ l, l ∈ rows → ∃ i, d.(d_localized) !! i = Some l ∧ localizes o l = true) →
  (∀ l, P l → l.(lp_currency) = c) →
  snd <$> list_find P rows =
  match row_in d o c with
  | Some l => if decide (l ∈ rows ∧ P l) then Some l else None
  | None => None
  end.
Proof.
  intros Hok Hc Hrows HP. destruct (list_find P rows) as [[j l]|] eqn:Hf; cbn.
  - apply list_find_Some in Hf as (Hj & Hl & _). apply list_elem_of_lookup_2 in Hj.
    destruct (Hrows l Hj) as (i & Hi & Ho).
    rewrite (proj2 (row_in_Some d o c l Hok Hc)) by (exists i; auto). by rewrite decide_True by done.
  - apply list_find_None in Hf. rewrite Forall_forall in Hf. destruct (row_in d o c) as [l|]; [|done].
    case_decide as Hd; [|done]. destruct Hd as [Hin Hp]. by destruct (Hf l Hin).
Qed.

Lemma fetched_rows (p : N → LocalizedRow → bool) d l :
  l ∈ (snd <$> map_to_list (tfilter p d.(d_localized))) ↔ ∃ i, d.(d_localized) !! i = Some l ∧ p i l = true.
Proof.
  rewrite list_elem_of_fmap. split.
  - intros ([i l'] & -> & Hin). apply elem_of_map_to_list, tfilter_lookup in Hin. by exists i.
  - intros (i & Hi & Hp). exists (i, l). split; [done|]. by apply elem_of_map_to_list, tfilter_lookup.
Qed.

Lemma option_list_elem {A} (o : option A) x : x ∈ option_list o ↔ o = Some x.
Proof. destruct o; cbn; [rewrite list_elem_of_singleton; naive_solver|]. by split; [intros ?%elem_of_nil|]. Qed.

(** The latest subscription that satisfies [p]. *)
Definition latest_is (d : db) (p : Subscription → bool) (o : option Subscription) : Prop :=
  match o with
  | Some s => d.(d_subs) !! s.(sub_id) = Some s ∧ p s = true ∧
      ∀ s', d.(d_subs) !! s'.(sub_id) = Some s' → p s' = true → (s'.(sub_created_at) <= s.(sub_created_at))%Z
  | None => ∀ s, d.(d_subs) !! s.(sub_id) = Some s → p s = false
  end.

Lemma latest_sub p d :
  db_ok d → latest_is d p (snd <$> tlatest sub_created_at (λ _ s, p s) d.(d_subs)).
Proof.
  intros Hok. unfold tlatest. destruct (tbest _ _ _) as [[i s]|] eqn:Hf; cbn.
  - apply tbest_Some in Hf as (Hs & Hp & Hmax). rewrite (db_ok_sub_id _ _ _ Hok Hs).
    split_and!; [done|done|]. intros s' Hs' Hp'. by apply (Hmax _ s' Hs').
  - intros s Hs. rewrite tbest_None in Hf. by eapply Hf.
Qed.

Section Facts.
  Context `{BillingSettings}.
  Implicit Types w : world store.

Lemma shown_spec d p ctx :
  db_ok d → ctx.(cc_currency) ≠ "" →
  _localized_display p.(po_amount) (localized_of p.(po_owner) ctx d) ctx.(cc_currency) =
  shown d p ctx.(cc_currency).
Proof.
  intros Hok Hne. unfold _localized_display, shown. destruct (b_eq ctx.(cc_currency) "usd") eqn:Hu.
  { unfold row_in. by rewrite Hu. }
  apply b_eq_false in Hu as Hu'.
  pose proof (list_find_row d p.(po_owner) ctx.(cc_currency) (λ lp, lp.(lp_currency) = ctx.(cc_currency))
    (localized_of p.(po_owner) ctx d) Hok Hu') as Hf.
  assert (snd <$> list_find (λ lp, lp.(lp_currency) = ctx.(cc_currency)) (localized_of p.(po_owner) ctx d)
    = row_in d p.(po_owner) ctx.(cc_currency)) as Hrow.
  { rewrite Hf; [| |done].
    - destruct (row_in d _ _) as [l|] eqn:Hr; [|done]. apply row_in_Some in Hr as (i & Hi & Ho & Hc); [|done..].
      rewrite decide_True; [done|]. split; [|done]. unfold localized_of, _localized_prices_queryset.
      apply fetched_rows. exists i. split; [done|]. rewrite Ho. cbn [andb]. apply str_in_true.
      unfold wanted_currencies. apply list_elem_of_filter. rewrite Hc. split; [|by left].
      rewrite andb_true_iff, !negb_true_iff, !b_eq_false. done.
    - intros l Hl. unfold localized_of, _localized_prices_queryset in Hl. apply fetched_rows in Hl as (i & Hi & Hp).
      rewrite andb_true_iff in Hp. exists i. tauto. }
  destruct (list_find _ _) as [[j l]|] eqn:Hl; cbn in Hrow; by rewrite <-Hrow.
Qed.

Lemma charged_run d p c w :
  s_db (w_db w) = d → db_ok d → c ≠ "" →
  p.(po_resolved) = prefetch_for p.(po_owner) (Some c) d →
  _resolve_stripe_price_id p c w = (Ok (charged d p c), w).
Proof.
  intros <- Hok Hne Hres. unfold _resolve_stripe_price_id, charged. set (d := s_db (w_db w)).
  destruct (b_eq c "usd") eqn:Hu; [unfold row_in; by rewrite Hu|]. apply b_eq_false in Hu as Hu'.
  unfold _localized_for_currency. rewrite Hres. unfold prefetch_for. cbn [non_empty].
  rewrite (proj2 (b_eq_false c "") Hne), Hu.
  rewrite (list_find_row d p.(po_owner) c); [|done|done| |].
  - unfold mbind, M_bind, mret, M_ret. f_equal. f_equal.
    destruct (row_in d _ c) as [l|] eqn:Hr; [|done]. apply row_in_Some in Hr as (i & Hi & Ho & Hc); [|done..].
    case_decide as Hd; [done|]. destruct (non_empty (lp_stripe_price_id l)) as [k|] eqn:Hk; [|done].
    exfalso. apply Hd. split.
    + apply fetched_rows. exists i. split; [done|]. apply stripe_ready_spec.
      apply non_empty_Some in Hk as [Hk _]. split_and!; [done|done|by eexists].
    + by rewrite Hc, b_eq_refl.
  - intros l (i & Hi & Hp)%fetched_rows. apply stripe_ready_spec in Hp. exists i. tauto.
  - intros l. rewrite andb_true_iff, b_eq_true. tauto.
Qed.

Lemma shown_and_charged d p c : db_ok d → display_and_charge d p c (shown d p c) (charged d p c).
Proof.
  intros Hok. unfold shown, charged. destruct (decide (c = "usd")) as [->|Hc]; [apply no_row; by left|].
  destruct (row_in d _ c) as [l|] eqn:Hr.
  - apply row_in_Some in Hr as (i & Hi & Ho & Hcur); [|done..].
    destruct (lp_stripe_price_id l) as [k|] eqn:Hk; [|by apply (row_only_displayed d p c i l); auto].
    destruct (decide (k = "")) as [->|Hne]; [by apply (row_only_displayed d p c i l); auto|].
    unfold non_empty. rewrite (proj2 (b_eq_false k "") Hne). by apply (row_charged d p c i l).
  - apply no_row. right. intros i l Hi Ho Hcur. assert (row_in d p.(po_owner) c = Some l); [|congruence].
    apply row_in_Some; [done|done|]. by exists i.
Qed.

(** ** Properties *)

(** The currency a request is charged in: with the settings the application
    accepts to start on, an unsupported [?currency=] is a validation error and any
    other request resolves to a supported currency the merchant bills in, which is
    the one asked for whenever that one is billable and US dollars otherwise; the
    second currency is the caller's preference exactly when it differs. *)
Theorem billing_currency_resolved query user :
  billing_settings_error = false →
  let asked := asked_currency query user in
  if match non_empty query with Some c => negb (str_in (lower c) SUPPORTED_CURRENCIES) | None => false end
  then _resolve_billing_currency query user = Raise ValidationError
  else ∃ dual, let c := if str_in asked BILLING_CURRENCIES then asked else "usd" in
    _resolve_billing_currency query user = Ok (c, dual) ∧
    c ∈ BILLING_CURRENCIES ∧ c ∈ SUPPORTED_CURRENCIES ∧
    ∀ p, dual = Some p ↔ p ≠ c ∧ p ∈ SUPPORTED_CURRENCIES ∧
      ∃ pref, non_empty (u_preferred_currency <$> user) = Some pref ∧ p = lower pref.
Proof.
  intros Hset asked. unfold billing_settings_error in Hset.
  rewrite orb_false_iff, !negb_false_iff, str_in_true in Hset. destruct Hset as [Hall Husd].
  assert (∀ c, c ∈ BILLING_CURRENCIES → c ∈ SUPPORTED_CURRENCIES) as Hsup.
  { intros c Hc. rewrite forallb_forall in Hall. apply str_in_true, Hall. by apply list_elem_of_In. }
  assert (∀ c, (if str_in c BILLING_CURRENCIES then c else "usd") ∈ BILLING_CURRENCIES) as Hbill.
  { intros c. destruct (str_in c BILLING_CURRENCIES) eqn:E; [by apply str_in_true|done]. }
  unfold _resolve_billing_currency.
  set (pref := match non_empty (u_preferred_currency <$> user) with
               | Some p => if str_in (lower p) SUPPORTED_CURRENCIES then Some (lower p) else None
               | None => None
               end).
  assert (asked = or_else (lower <$> non_empty query) (or_else pref "usd")) as Hasked.
  { unfold asked, asked_currency, pref. destruct (non_empty query); [done|]. cbn.
    destruct (non_empty (u_preferred_currency <$> user)); [|done]. by destruct (str_in _ _). }
  assert (∀ c p, match pref with Some x => if b_eq x c then None else Some x | None => None end = Some p ↔
    p ≠ c ∧ p ∈ SUPPORTED_CURRENCIES ∧
    ∃ x, non_empty (u_preferred_currency <$> user) = Some x ∧ p = lower x) as Hdual.
  { intros c p. unfold pref. destruct (non_empty (u_preferred_currency <$> user)) as [x|]; [|naive_solver].
    destruct (str_in (lower x) SUPPORTED_CURRENCIES) eqn:Hs.
    - rewrite str_in_true in Hs. destruct (b_eq (lower x) c) eqn:Hc; [rewrite b_eq_true in Hc|rewrite b_eq_false in Hc];
        naive_solver.
    - assert (lower x ∉ SUPPORTED_CURRENCIES) as Hs' by by apply bool_decide_eq_false in Hs. naive_solver. }
  rewrite <-Hasked. destruct (non_empty query) as [c|]; cbn [fmap option_fmap option_map].
  - destruct (negb (str_in (lower c) SUPPORTED_CURRENCIES)); [done|]. eexists. split_and!; [done|done|by apply Hsup|apply Hdual].
  - eexists. split_and!; [done|done|by apply Hsup|apply Hdual].
Qed.

(** C11. What an active plan's price is displayed as and what the checkout charges for it,
    in a currency: the amount of the localized row of that currency is displayed and the
    Stripe price minted for that row charged; a row that has none yet is still displayed,
    in its currency, while the US dollar Stripe price is charged, so that what is
    displayed is then not what is charged; without a row, or in US dollars, the US dollar
    amount is displayed and its Stripe price charged. *)
Theorem displayed_price_charged ctx i plan p w :
  let d := s_db (w_db w) in
  let c := ctx.(cc_currency) in
  db_ok d → c ≠ "" → active_plan_price i (Some c) d = Some (plan, p) →
  ∃ out k, out_plan_price (PlanSerializer ctx d plan) = Some out ∧ out.(out_amount) = p.(po_amount) ∧
    _resolve_stripe_price_id p c w = (Ok k, w) ∧
    display_and_charge d p c (out.(out_display_amount), out.(out_currency)) k.
Proof.
  intros d c Hok Hne Hp. unfold active_plan_price in Hp.
  destruct (d_prices d !! i) as [row|] eqn:Hrow; [|done]. cbn in Hp.
  destruct (d_plans d !! pp_plan_id row) as [pl|] eqn:Hpl; [|done]. cbn in Hp.
  destruct (plan_is_active pl); [|done]. injection Hp as -> <-.
  set (p := mkPriceObj _ _ _ _). unfold PlanSerializer.
  assert (tfind (λ _ pp, b_eq pp.(pp_plan_id) plan.(plan_id)) d.(d_prices) = Some (i, row)) as Hf.
  { assert (plan_id plan = pp_plan_id row) as Hid.
    { unfold db_ok, ids_ok in Hok. destruct_and!.
      match goal with H : map_Forall _ (d_plans d) |- _ => exact (H _ _ Hpl) end. }
    apply tfind_unique; [done|by rewrite Hid, b_eq_refl|]. intros j b Hj Hb. rewrite b_eq_true in Hb.
    eapply (table_ok_unique price_schema (has d) d.(d_prices) (λ p, Some [KN p.(pp_plan_id)]) j i b row
      [KN row.(pp_plan_id)]); [by apply db_ok_prices|by left|done|done|by rewrite Hb, Hid|done]. }
  rewrite Hf. cbn [out_plan_price fmap option_fmap option_map fst snd]. eexists _, (charged d p c). split; [done|].
  pose proof (shown_spec d p ctx Hok Hne) as Hs. unfold price_to_representation.
  cbn [p po_amount po_owner] in Hs. rewrite Hs. destruct (shown d p (cc_currency ctx)) as [a cur] eqn:Hsh.
  destruct (_local_display _ _) as [la lc]. cbn [out_amount out_display_amount out_currency]. fold c in Hsh.
  split; [done|]. split; [by apply charged_run|]. rewrite <- Hsh. by apply shown_and_charged.
Qed.

(** The subscriptions a caller is shown: at most two, distinct, stored and
    active, each either his own or that of an org he belongs to; his latest
    personal one is always there, and, when he belongs to one org only, so is that
    org's latest one. *)
Theorem subscriptions_visible user d :
  db_ok d →
  let l := _get_active_subscriptions_for_user user d in
  let personal s := sub_user_id s = Some user ∨ sub_customer_user d s = Some user in
  NoDup (sub_id <$> l) ∧ (length l ≤ 2)%nat ∧
  (∀ s, s ∈ l → d.(d_subs) !! s.(sub_id) = Some s ∧ sub_is_active s = true ∧
    (personal s ∨ ∃ i m, d.(d_members) !! i = Some m ∧ m.(m_user) = user ∧
      sub_customer_org d s = Some m.(m_org))) ∧
  (∀ s, d.(d_subs) !! s.(sub_id) = Some s → sub_is_active s = true → personal s →
    ∃ s', s' ∈ l ∧ personal s' ∧ (s.(sub_created_at) <= s'.(sub_created_at))%Z) ∧
  (∀ i m s, single_membership d user → d.(d_members) !! i = Some m → m.(m_user) = user →
    d.(d_subs) !! s.(sub_id) = Some s → sub_is_active s = true →
    sub_customer_org d s = Some m.(m_org) →
    ∃ s', s' ∈ l ∧ sub_customer_org d s' = Some m.(m_org) ∧
      (s.(sub_created_at) <= s'.(sub_created_at))%Z).
Proof.
  intros Hok l personal. subst l personal. unfold _get_active_subscriptions_for_user.
  assert (latest_is d (λ s, sub_is_active s && (b_eq s.(sub_user_id) (Some user)
    || b_eq (sub_customer_user d s) (Some user))) (personal_sub_of user d)) as Hp by (by apply latest_sub).
  assert (∀ o, latest_is d (λ s, sub_is_active s && b_eq (sub_customer_org d s) (Some o)) (team_sub_of o d)) as Ht
    by (intros o; by apply latest_sub).
  set (team := m ← first_membership user d; team_sub_of m.(m_org) d).
  assert (∀ s, team = Some s → d.(d_subs) !! s.(sub_id) = Some s ∧ sub_is_active s = true ∧
    ∃ i m, d.(d_members) !! i = Some m ∧ m.(m_user) = user ∧ sub_customer_org d s = Some m.(m_org)) as Hteam.
  { intros s (m & Hm & Hs)%bind_Some. apply first_membership_Some in Hm as (i & Hm & Hu).
    specialize (Ht m.(m_org)). rewrite Hs in Ht. destruct Ht as (Hd & Hb & _).
    rewrite andb_true_iff, b_eq_true in Hb. split_and!; [done|tauto|]. exists i, m. tauto. }
  split_and!.
  - destruct team as [t|]; cbn; destruct (personal_sub_of user d) as [p|]; try destruct (b_eq _ _) eqn:E;
      cbn; try apply NoDup_singleton; try apply NoDup_nil_2.
    rewrite b_eq_false in E. apply NoDup_cons. split; [|apply NoDup_singleton].
    rewrite list_elem_of_singleton. congruence.
  - destruct team as [t|]; cbn; destruct (personal_sub_of user d) as [p|]; try destruct (b_eq _ _); cbn; lia.
  - intros s [Hs|Hs]%elem_of_app.
    + apply option_list_elem in Hs. destruct (Hteam s Hs) as (? & ? & ?). split_and!; [done|done|by right].
    + destruct (personal_sub_of user d) as [p|]; [|by apply elem_of_nil in Hs].
      destruct (b_eq _ _); [by apply elem_of_nil in Hs|]. apply list_elem_of_singleton in Hs as ->.
      destruct Hp as (Hd & Hb & _). rewrite andb_true_iff, orb_true_iff, !b_eq_true in Hb. split_and!; tauto.
  - intros s Hs Ha Hown. destruct (personal_sub_of user d) as [p|].
    + destruct Hp as (Hd & Hb & Hmax). rewrite andb_true_iff, orb_true_iff, !b_eq_true in Hb.
      exists p. split_and!; [|tauto|apply Hmax; [done|]; rewrite andb_true_iff, orb_true_iff, !b_eq_true; tauto].
      apply elem_of_app. destruct (b_eq (sub_id <$> team) _) eqn:E; [|right; by left]. left.
      rewrite b_eq_true in E. apply option_list_elem. apply fmap_Some in E as (t & Hte & Hid).
      destruct (Hteam t Hte) as (Htd & _). rewrite <-Hid, Hd in Htd. by injection Htd as ->.
    + specialize (Hp s Hs). rewrite andb_false_iff, orb_false_iff, !b_eq_false in Hp.
      destruct Hp as [?|[? ?]]; [congruence|by destruct Hown].
  - intros i m s Hone Hm Hu Hs Ha Ho. specialize (Ht m.(m_org)). destruct (team_sub_of (m_org m) d) as [t|] eqn:Hte.
    + destruct Ht as (Hd & Hb & Hmax). rewrite andb_true_iff, b_eq_true in Hb. exists t.
      split_and!; [|tauto|apply Hmax; [done|]; rewrite andb_true_iff, b_eq_true; tauto].
      apply elem_of_app. left. apply option_list_elem. unfold team.
      by rewrite (single_first user d i m Hone Hm Hu).
    + specialize (Ht s Hs). rewrite andb_false_iff, b_eq_false in Ht.
      destruct Ht; congruence.
Qed.

End Facts.
