(* ===== verification/LocalizedPlan.v ===== *)
(** * The plan of a recomputation

    What [LocalizedSync.v] plans to write, as a function of the wanted prices, and
    that the planned writes, in any order of the prices, are accepted by the
    database. *)

From Stdlib Require Import SpecFloat.
From S2P Require Import Prelude PyVal Effects Domain Relational Store StoreFacts Django.
From S2P Require Import Currency Fields OrgViews BillingContext BillingCatalog CatalogFacts LocalizedSync.

#[local] Open Scope string_scope.
#[local] Open Scope list_scope.

(** ** Specification *)

(** A localized price to have: the owner, the currency and the amount. *)
Record want := mkWant { wt_owner : price_owner; wt_currency : string; wt_amount : Z }.

Fixpoint wanted (rates : gmap string spec_float) (prices : list (price_owner * Z)) : outcome (list want) :=
  match prices with
  | [] => Ok []
  | (o, amount) :: prices =>
      l ← _compute_new_amounts rates amount SUPPORTED_CURRENCIES;
      ws ← wanted rates prices;
      Ok (map (λ p, mkWant o p.1 p.2) l ++ ws)
  end.

(** The row of a price in a currency, with its id. *)
Definition existing (d : db) (k : want) : option (N * LocalizedRow) := bucket k.(wt_owner) d !! k.(wt_currency).

(** The row written for a price that has none in the currency. *)
Definition new_row (now : datetime) (k : want) : LocalizedRow :=
  mkLocalizedRow (owner_plan_price k.(wt_owner)) (owner_product_price k.(wt_owner)) k.(wt_currency)
    k.(wt_amount) None now.

Definition created (d : db) (now : datetime) (k : want) : option LocalizedRow :=
  match existing d k with None => Some (new_row now k) | Some _ => None end.
Definition changed (d : db) (now : datetime) (k : want) : option (N * LocalizedRow) :=
  r ← existing d k;
  if b_eq r.2.(lp_amount_minor) k.(wt_amount) then None else Some (r.1, with_amount k.(wt_amount) now r.2).
Definition refreshed (d : db) (now : datetime) (k : want) : option (N * LocalizedRow) :=
  r ← existing d k;
  if b_eq r.2.(lp_amount_minor) k.(wt_amount) then Some (r.1, with_synced now r.2) else None.

(** Consecutive ids. *)
Fixpoint number {A} (n : N) (l : list A) : list (N * A) :=
  match l with [] => [] | a :: l => (n, a) :: number (n + 1) l end.

Definition set_next (n : N) (w : world store) : world store :=
  World w.(w_db) w.(w_stripe) w.(w_tasks) w.(w_now) n.

(** ** Lists *)

Lemma number_app {A} n (l1 l2 : list A) :
  number n (l1 ++ l2) = (number n l1 ++ number (n + N.of_nat (length l1)) l2)%list.
Proof.
  revert n. induction l1 as [|a l1 IH]; intros n; cbn; [by rewrite N.add_0_r|].
  rewrite IH. do 3 f_equal. lia.
Qed.

Lemma number_elem {A} n (l : list A) i a :
  (i, a) ∈ number n l → a ∈ l ∧ (n <= i)%N ∧ (i < n + N.of_nat (length l))%N.
Proof.
  revert n. induction l as [|x l IH]; intros n; cbn; [by intros ?%elem_of_nil|].
  intros [[= -> ->]|Hin]%elem_of_cons; [split_and!; [left|lia..]|].
  apply IH in Hin as (? & ? & ?). split_and!; [by right|lia..].
Qed.

Lemma number_length {A} n (l : list A) : length (number n l) = length l.
Proof. revert n. induction l as [|x l IH]; intros n; cbn; [done|]. by rewrite IH. Qed.

Lemma number_keys {A} n (l : list A) : NoDup (number n l).*1.
Proof.
  revert n. induction l as [|x l IH]; intros n; cbn; constructor; [|apply IH].
  intros [[i a] [-> Hin%number_elem]]%list_elem_of_fmap. cbn in Hin. lia.
Qed.

Lemma number_elem_of {A} n (l : list A) a : a ∈ l → ∃ i, (i, a) ∈ number n l.
Proof.
  revert n. induction l as [|x l IH]; intros n; [by intros ?%elem_of_nil|].
  intros [->|Ha]%elem_of_cons; [exists n; left|]. destruct (IH (n + 1)%N Ha) as [i Hi]. exists i. by right.
Qed.

Lemma number_inj {A} n (l : list A) i j a :
  NoDup l → (i, a) ∈ number n l → (j, a) ∈ number n l → i = j.
Proof.
  revert n. induction l as [|x l IH]; intros n Hnd; cbn; [by intros ?%elem_of_nil|].
  apply NoDup_cons in Hnd as [Hx Hnd].
  intros [[= -> ->]|Hi]%elem_of_cons [Hj|Hj]%elem_of_cons; [congruence| | |by eapply IH].
  - by apply number_elem in Hj as [? _].
  - injection Hj as -> ->. by apply number_elem in Hi as [? _].
Qed.

Lemma omap_nodup {A B} (f : A → option B) l :
  NoDup l → (∀ x y b, x ∈ l → y ∈ l → f x = Some b → f y = Some b → x = y) → NoDup (omap f l).
Proof.
  induction l as [|x l IH]; intros Hnd Hf; [constructor|]. apply NoDup_cons in Hnd as [Hx Hnd].
  assert (NoDup (omap f l)) as Hl by (apply IH; [done|intros ?????; apply Hf; by right]).
  cbn. destruct (f x) as [b|] eqn:Hfx; [|done]. constructor; [|done].
  intros (y & Hy & Hfy)%list_elem_of_omap. apply Hx. rewrite (Hf x y b); [done|left|by right|done..].
Qed.

(** ** The plan of the writes *)

Section Plan.
  Context (d : db) (now : datetime).

Definition add_wants (ws : list want) (n : N) (u : upserts) : upserts :=
  mkUpserts (u.(up_create) ++ number n (omap (created d now) ws)) (u.(up_changed) ++ omap (changed d now) ws)
    (u.(up_heartbeat) ++ omap (refreshed d now) ws).

Definition next_after (ws : list want) (n : N) : N := (n + N.of_nat (length (omap (created d now) ws)))%N.

Lemma add_wants_nil n u : add_wants [] n u = u.
Proof. destruct u. unfold add_wants. cbn. by rewrite !app_nil_r. Qed.

Lemma add_wants_app ws1 ws2 n u :
  add_wants (ws1 ++ ws2) n u = add_wants ws2 (next_after ws1 n) (add_wants ws1 n u).
Proof. unfold add_wants, next_after. cbn. rewrite !omap_app, number_app, !(assoc_L (++)). done. Qed.

Lemma next_after_app ws1 ws2 n : next_after (ws1 ++ ws2) n = next_after ws2 (next_after ws1 n).
Proof. unfold next_after. rewrite omap_app, length_app. lia. Qed.

Lemma add_wants_cons k ws n u :
  add_wants (k :: ws) n u = add_wants ws (next_after [k] n) (add_wants [k] n u).
Proof. apply (add_wants_app [k]). Qed.

Lemma next_after_cons k ws n : next_after (k :: ws) n = next_after ws (next_after [k] n).
Proof. apply (next_after_app [k]). Qed.

Lemma upsert_rows_run o l u w :
  upsert_rows now o (bucket o d) l u w =
  let ws := map (λ p, mkWant o p.1 p.2) l in
  (Ok (add_wants ws (w_next w) u), set_next (next_after ws (w_next w)) w).
Proof.
  revert u w. induction l as [|[c a] l IH]; intros u w.
  { cbn. rewrite add_wants_nil. unfold next_after. cbn. rewrite N.add_0_r. by destruct w. }
  cbn zeta. cbn [upsert_rows map fst snd]. rewrite bind_run, (add_wants_cons (mkWant o c a)), next_after_cons.
  destruct (bucket o d !! c) as [[i r]|] eqn:He.
  - destruct (b_eq (lp_amount_minor r) a) eqn:Hb; cbn [negb mret M_ret fst snd]; rewrite IH;
      unfold add_wants, next_after, created, changed, refreshed, existing; cbn; rewrite He; cbn; rewrite Hb;
      cbn; rewrite ?app_nil_r, ?N.add_0_r; done.
  - rewrite bind_run. cbn. rewrite IH.
    unfold add_wants, next_after, created, changed, refreshed, existing. cbn. rewrite He. cbn.
    rewrite ?app_nil_r. change (N.of_nat 0) with 0%N. rewrite N.add_0_r. unfold set_next. cbn [w_db w_stripe w_tasks w_now].
    f_equal. f_equal. lia.
Qed.

Lemma wanted_cons rates o amount prices :
  wanted rates ((o, amount) :: prices) =
  (l ← _compute_new_amounts rates amount SUPPORTED_CURRENCIES;
   ws ← wanted rates prices;
   Ok (map (λ p, mkWant o p.1 p.2) l ++ ws)).
Proof. reflexivity. Qed.

Lemma upsert_prices_cons rates o amount prices u :
  upsert_prices now rates d ((o, amount) :: prices) u =
  (l ← lift (_compute_new_amounts rates amount SUPPORTED_CURRENCIES);
   u ← upsert_rows now o (bucket o d) l u;
   upsert_prices now rates d prices u).
Proof. reflexivity. Qed.

(** The plan of all writes, or the error of an amount; nothing is written yet. *)
Lemma upsert_prices_run rates prices u w :
  match wanted rates prices with
  | Ok ws => upsert_prices now rates d prices u w =
      (Ok (add_wants ws (w_next w) u), set_next (next_after ws (w_next w)) w)
  | Raise e => ∃ n, upsert_prices now rates d prices u w = (Raise e, set_next n w)
  end.
Proof.
  revert u w. induction prices as [|[o amount] prices IH]; intros u w.
  { cbn. rewrite add_wants_nil. unfold next_after. cbn. rewrite N.add_0_r. by destruct w. }
  rewrite wanted_cons, upsert_prices_cons, lift_bind.
  destruct (_compute_new_amounts _ _ _) as [l|e]; [|exists (w_next w); by destruct w].
  rewrite bind_run, upsert_rows_run. cbv zeta iota beta. set (ws1 := map _ l).
  specialize (IH (add_wants ws1 (w_next w) u) (set_next (next_after ws1 (w_next w)) w)).
  change (Ok l ≫= ?f) with (f l). cbv beta. destruct (wanted rates prices) as [ws|e].
  - change (Ok ws ≫= ?f) with (f ws). cbv beta. fold ws1. rewrite IH, add_wants_app, next_after_app. done.
  - change (Raise e ≫= ?f) with (@Raise (list want) e). cbv iota. destruct IH as [n ->]. by exists n.
Qed.

End Plan.

(** ** Rows and keys *)

Lemma foldl_bucket (L : list (N * LocalizedRow)) b c r :
  (∀ x y, x ∈ L → y ∈ L → x.2.(lp_currency) = y.2.(lp_currency) → x = y) →
  (foldl (λ b r, <[r.2.(lp_currency) := r]> b) b L : gmap string (N * LocalizedRow)) !! c = Some r ↔
  r ∈ L ∧ r.2.(lp_currency) = c ∨ b !! c = Some r ∧ ∀ x, x ∈ L → x.2.(lp_currency) ≠ c.
Proof.
  revert b. induction L as [|x L IH]; intros b Hu; cbn.
  { split; [|by intros [[?%elem_of_nil _]|[? _]]]. intros Hb. right. split; [done|by intros ? ?%elem_of_nil]. }
  rewrite IH; [|intros y z Hy Hz; apply Hu; by right]. split.
  - intros [[Hr Hc]|[Hb Hn]]; [left; split; [by right|done]|].
    destruct (decide (lp_currency x.2 = c)) as [<-|Hne].
    + rewrite lookup_insert_eq in Hb. injection Hb as <-. left. split; [left|done].
    + rewrite lookup_insert_ne in Hb by done. right. split; [done|].
      intros y [->|Hy]%elem_of_cons; [done|by apply Hn].
  - intros [[[->|Hr]%elem_of_cons Hc]|[Hb Hn]].
    + destruct (decide (x ∈ L)) as [Hx|Hx]; [by left|]. right. rewrite <-Hc, lookup_insert_eq. split; [done|].
      intros y Hy Heq. apply Hx. rewrite (Hu x y); [done|left|by right|done].
    + by left.
    + right. rewrite lookup_insert_ne by (apply Hn; left). split; [done|]. intros y Hy. apply Hn. by right.
Qed.

Lemma existing_spec d k i l :
  db_ok d →
  existing d k = Some (i, l) ↔
  d.(d_localized) !! i = Some l ∧ localizes k.(wt_owner) l = true ∧ l.(lp_currency) = k.(wt_currency).
Proof.
  intros Hok. unfold existing, bucket.
  assert (∀ r, r ∈ map_to_list (tfilter (λ _ l, localizes k.(wt_owner) l) d.(d_localized)) ↔
    d.(d_localized) !! r.1 = Some r.2 ∧ localizes k.(wt_owner) r.2 = true) as Hel.
  { intros [j b]. rewrite elem_of_map_to_list. unfold tfilter. rewrite map_lookup_filter_Some. done. }
  rewrite foldl_bucket.
  - rewrite lookup_empty, Hel. cbn. naive_solver.
  - intros [i1 l1] [i2 l2] [H1 Ho1]%Hel [H2 Ho2]%Hel Hc. cbn in *.
    assert (i1 = i2) as -> by by eapply localized_unique. congruence.
Qed.

Lemma existing_None d k :
  db_ok d → existing d k = None →
  ∀ i l, d.(d_localized) !! i = Some l → localizes k.(wt_owner) l = true → l.(lp_currency) ≠ k.(wt_currency).
Proof.
  intros Hok Hn i l Hi Ho Hc. assert (existing d k = Some (i, l)) as H by by apply existing_spec. congruence.
Qed.

(** ** Writes *)

(** Two rows of one price and currency. *)
Definition same_price (a b : LocalizedRow) : Prop :=
  ∃ o, localizes o a = true ∧ localizes o b = true ∧ a.(lp_currency) = b.(lp_currency).

Definition with_localized (t : table LocalizedRow) (w : world store) : world store :=
  set_db (mkStore (set_localized t (s_db (w_db w))) (s_cache (w_db w)) (s_media (w_db w))) w.

Lemma row_ok_localized t d a :
  row_ok localized_schema (has (set_localized t d)) a = row_ok localized_schema (has d) a.
Proof.
  unfold row_ok. f_equal.
Qed.

(** A save succeeds when no other row is in its way. *)
Lemma put_localized d i a :
  db_ok d → row_ok localized_schema (has d) a = true →
  (∀ j b, d.(d_localized) !! j = Some b → same_price a b → j = i) →
  (∀ j b s, d.(d_localized) !! j = Some b → a.(lp_stripe_price_id) = Some s →
     b.(lp_stripe_price_id) = Some s → j = i) →
  save_localized i a d = Ok (set_localized (<[i := a]> d.(d_localized)) d) ∧
  db_ok (set_localized (<[i := a]> d.(d_localized)) d).
Proof.
  intros Hok Ha Hp Hs.
  assert (save_localized i a d = Ok (set_localized (<[i := a]> d.(d_localized)) d)) as Hsave.
  2:{ split; [done|]. by eapply save_localized_ok. }
  unfold save_localized. rewrite tput_Ok; [done|done|].
  repeat constructor; apply conflicts_false; intros j b Hb Hne [x Hx] Heq; apply Hne.
  - destruct (lp_plan_price a) as [p|] eqn:Hpa; [|done]. apply (Hp j b Hb). exists (OfPlanPrice p).
    destruct (lp_plan_price b) as [q|] eqn:Hpb; [|done]. cbn in Heq. injection Heq as -> Hc.
    cbn. rewrite Hpa, Hpb, b_eq_refl. done.
  - destruct (lp_product_price a) as [p|] eqn:Hpa; [|done]. apply (Hp j b Hb). exists (OfProductPrice p).
    destruct (lp_product_price b) as [q|] eqn:Hpb; [|done]. cbn in Heq. injection Heq as -> Hc.
    cbn. rewrite Hpa, Hpb, b_eq_refl. done.
  - destruct (lp_stripe_price_id a) as [s|] eqn:Hsa; [|done]. apply (Hs j b s Hb eq_refl).
    destruct (lp_stripe_price_id b) as [q|] eqn:Hsb; [|done]. cbn in Heq. congruence.
Qed.

(** Another amount for a row. *)
Lemma put_amount d i l x now :
  db_ok d → d.(d_localized) !! i = Some l → int4 x = true →
  save_localized i (with_amount x now l) d =
    Ok (set_localized (<[i := with_amount x now l]> d.(d_localized)) d) ∧
  db_ok (set_localized (<[i := with_amount x now l]> d.(d_localized)) d).
Proof.
  intros Hok Hi Hx. pose proof (localized_row_ok d i l Hok Hi) as Hl. apply put_localized; [done|..].
  - revert Hl. unfold row_ok. rewrite !andb_true_iff. intros [[Hf ?] ?]. cbn in Hf. rewrite !andb_true_iff in Hf.
    cbn. rewrite !andb_true_iff. tauto.
  - intros j b Hb (o & Ho & Hob & Hc). by eapply (localized_unique d o).
  - intros j b s Hb Hs Hsb. eapply (table_ok_unique localized_schema (has d) d.(d_localized)
      (λ l, key_opt_str l.(lp_stripe_price_id)) j i b l [KS s]);
      [by apply db_ok_localized|by right; right; left|done|done|by rewrite Hsb|by cbn in Hs; rewrite Hs].
Qed.

Lemma list_to_map_cons_union {A} i (a : A) l (t : gmap N A) :
  i ∉ l.*1 → (list_to_map l : gmap N A) ∪ <[i := a]> t = list_to_map ((i, a) :: l) ∪ t.
Proof.
  intros Hi. cbn. rewrite <-insert_union_l, <-insert_union_r; [done|]. by apply not_elem_of_list_to_map_1.
Qed.

Lemma with_localized_twice t1 t2 w : with_localized t2 (with_localized t1 w) = with_localized t2 w.
Proof. by destruct w as [[[] ?] ? ? ? ?]. Qed.

Lemma bulk_insert_run l w :
  let d := s_db (w_db w) in
  db_ok d → NoDup l.*1 →
  (∀ i a, (i, a) ∈ l → d.(d_localized) !! i = None ∧ row_ok localized_schema (has d) a = true ∧
     a.(lp_stripe_price_id) = None ∧ ∀ j b, d.(d_localized) !! j = Some b → ¬ same_price a b) →
  (∀ x y, x ∈ l → y ∈ l → same_price x.2 y.2 → x = y) →
  bulk insert_localized l w = (Ok tt, with_localized (list_to_map l ∪ d.(d_localized)) w) ∧
  db_ok (set_localized (list_to_map l ∪ d.(d_localized)) d).
Proof.
  revert w. induction l as [|[i a] l IH]; intros w d Hok Hnd Hl Hu.
  { assert (list_to_map [] ∪ d.(d_localized) = d.(d_localized)) as -> by apply (left_id_L ∅ (∪)).
    unfold d, with_localized. by destruct w as [[[] ?] ? ? ? ?]. }
  apply NoDup_cons in Hnd as [Hi Hnd]. cbn in Hi. destruct (Hl i a) as (Hf & Ha & Hs & Hp); [left|].
  destruct (put_localized d i a) as [Hsave Hok1]; [done|done| |by intros; congruence|].
  { intros j b Hb Hsp. by destruct (Hp j b Hb). }
  cbn [bulk]. rewrite bind_run, dexec_run. unfold insert_localized at 1, fresh_pk. fold d. rewrite Hf.
  cbn [not_none is_none negb mbind outcome_bind]. rewrite Hsave.
  set (w1 := set_db _ w). destruct (IH w1) as [Hrun Hok2]; [done|done| | |].
  - intros j b Hj. destruct (Hl j b) as (Hfj & Hb & Hsb & Hpb); [by right|]. cbn. split_and!; [| |done|].
    + rewrite lookup_insert_ne; [done|]. intros ->. apply Hi. apply list_elem_of_fmap. by exists (j, b).
    + by rewrite row_ok_localized.
    + intros j' b' [[<- <-]|[_ Hb']]%lookup_insert_Some; [|by apply (Hpb j')]. intros Hsp.
      assert ((j, b) = (i, a)) as [= -> ->] by (apply Hu; [by right|left|done]).
      apply Hi, list_elem_of_fmap. by exists (i, a).
  - intros x y Hx Hy. apply Hu; by right.
  - rewrite Hrun, <-list_to_map_cons_union by done. split; [reflexivity|exact Hok2].
Qed.

Lemma bulk_update_run f l w :
  let d := s_db (w_db w) in
  db_ok d → NoDup l.*1 →
  (∀ i a, (i, a) ∈ l → ∃ r x now, d.(d_localized) !! i = Some r ∧ f a r = a ∧ a = with_amount x now r ∧
     int4 x = true) →
  bulk (update_localized f) l w = (Ok tt, with_localized (list_to_map l ∪ d.(d_localized)) w) ∧
  db_ok (set_localized (list_to_map l ∪ d.(d_localized)) d).
Proof.
  revert w. induction l as [|[i a] l IH]; intros w d Hok Hnd Hl.
  { assert (list_to_map [] ∪ d.(d_localized) = d.(d_localized)) as -> by apply (left_id_L ∅ (∪)).
    unfold d, with_localized. by destruct w as [[[] ?] ? ? ? ?]. }
  apply NoDup_cons in Hnd as [Hi Hnd]. cbn in Hi.
  destruct (Hl i a) as (r & x & now & Hr & Hf & Ha & Hx); [left|].
  destruct (put_amount d i r x now Hok Hr Hx) as [Hsave Hok1]. rewrite <-Ha in Hsave, Hok1.
  cbn [bulk]. rewrite bind_run, dexec_run. unfold update_localized at 1. fold d. rewrite Hr, Hf, Hsave.
  set (w1 := set_db _ w). destruct (IH w1) as [Hrun Hok2]; [done|done| |].
  - intros j b Hj. destruct (Hl j b) as (r' & x' & now' & Hr' & ?); [by right|]. exists r', x', now'. cbn.
    split; [|done]. rewrite lookup_insert_ne; [done|]. intros ->. apply Hi, list_elem_of_fmap. by exists (j, b).
  - rewrite Hrun, <-list_to_map_cons_union by done. split; [reflexivity|exact Hok2].
Qed.

(** ** The wants *)

(** The price exists. *)
Definition priced (d : db) (o : price_owner) : bool :=
  match o with
  | OfPlanPrice i => not_none (d.(d_prices) !! i)
  | OfProductPrice i => not_none (d.(d_product_prices) !! i)
  end.

Record wants_ok (d : db) (ws : list want) : Prop := {
  wants_nodup : NoDup ws;
  wants_key k k' : k ∈ ws → k' ∈ ws → k.(wt_owner) = k'.(wt_owner) →
    k.(wt_currency) = k'.(wt_currency) → k = k';
  wants_priced k : k ∈ ws → priced d k.(wt_owner) = true;
  wants_currency k : k ∈ ws → k.(wt_currency) ∈ SUPPORTED_CURRENCIES ∧ k.(wt_currency) ≠ "usd"
}.

Lemma compute_spec rates amount cs l :
  _compute_new_amounts rates amount cs = Ok l → NoDup cs →
  NoDup l.*1 ∧ ∀ c a, (c, a) ∈ l → c ∈ cs ∧ c ≠ "usd" ∧
    ∃ rate, rates !! c = Some rate ∧ new_amount amount c rate = Ok a.
Proof.
  revert l. induction cs as [|c cs IH]; intros l.
  { intros [= <-] _. split; [constructor|by intros ? ? ?%elem_of_nil]. }
  cbn [_compute_new_amounts]. intros Hrun [Hc Hcs]%NoDup_cons.
  assert (_compute_new_amounts rates amount cs = Ok l → NoDup l.*1 ∧ ∀ x a, (x, a) ∈ l → x ∈ c :: cs ∧
    x ≠ "usd" ∧ ∃ rate, rates !! x = Some rate ∧ new_amount amount x rate = Ok a) as Hskip.
  { intros Hl. destruct (IH l Hl Hcs) as [Hnd Hin]. split; [done|]. intros x a Hx.
    destruct (Hin x a Hx) as (? & ?). split; [by right|done]. }
  destruct (b_eq c "usd") eqn:Hu; [by apply Hskip|]. rewrite b_eq_false in Hu.
  destruct (rates !! c) as [rate|] eqn:Hr; [|by apply Hskip].
  apply outcome_bind_Ok in Hrun as (n & Hn & Hrun). apply outcome_bind_Ok in Hrun as (l' & Hl' & Hl).
  injection Hl as <-. destruct (IH l' Hl' Hcs) as [Hnd Hin]. split.
  - constructor; [|done]. intros ([x a] & Heq & Hx)%list_elem_of_fmap. cbn in Heq. subst x.
    by destruct (Hin _ _ Hx) as [? _].
  - intros x a [[= -> ->]|Hx]%elem_of_cons; [split; [left|eauto]|].
    destruct (Hin x a Hx) as (? & ?). split; [by right|done].
Qed.

Lemma supported_nodup : NoDup SUPPORTED_CURRENCIES.
Proof. apply (bool_decide_eq_true_1 (NoDup _)). vm_compute. reflexivity. Qed.

Lemma wanted_elem rates prices ws k :
  wanted rates prices = Ok ws → k ∈ ws →
  ∃ amount rate, (k.(wt_owner), amount) ∈ prices ∧ k.(wt_currency) ∈ SUPPORTED_CURRENCIES ∧
    k.(wt_currency) ≠ "usd" ∧ rates !! k.(wt_currency) = Some rate ∧
    new_amount amount k.(wt_currency) rate = Ok k.(wt_amount).
Proof.
  revert ws. induction prices as [|[o amount] prices IH]; intros ws; [intros [= <-] []%elem_of_nil|].
  rewrite wanted_cons. intros (l & Hl & (ws' & Hws & [= <-])%outcome_bind_Ok)%outcome_bind_Ok.
  intros [[[c a] [-> Hin]]%list_elem_of_fmap|Hk]%elem_of_app.
  - destruct (compute_spec _ _ _ _ Hl supported_nodup) as [_ Hc].
    destruct (Hc c a Hin) as (? & ? & rate & ? & ?). exists amount, rate. cbn. split_and!; [left|done..].
  - destruct (IH _ Hws Hk) as (am & rate & Hp & ?). exists am, rate. split; [by right|done].
Qed.

(** A price in a supported currency with a rate, at the rounded amount. *)
Definition asked (rates : gmap string spec_float) (prices : list (price_owner * Z)) (k : want) : Prop :=
  ∃ amount rate, (k.(wt_owner), amount) ∈ prices ∧ k.(wt_currency) ∈ SUPPORTED_CURRENCIES ∧
    k.(wt_currency) ≠ "usd" ∧ rates !! k.(wt_currency) = Some rate ∧
    new_amount amount k.(wt_currency) rate = Ok k.(wt_amount).

Lemma compute_complete rates amount cs l c rate a :
  _compute_new_amounts rates amount cs = Ok l → c ∈ cs → c ≠ "usd" → rates !! c = Some rate →
  new_amount amount c rate = Ok a → (c, a) ∈ l.
Proof.
  intros Hrun Hc Hu Hr Ha. revert l Hrun. induction cs as [|c' cs IH]; intros l; [by apply elem_of_nil in Hc|].
  cbn [_compute_new_amounts]. destruct (decide (c' = c)) as [->|Hne].
  - rewrite <-b_eq_false in Hu. rewrite Hu, Hr, Ha. cbn. intros (l' & _ & [= <-])%outcome_bind_Ok. left.
  - apply elem_of_cons in Hc as [->|Hc]; [done|]. destruct (b_eq c' "usd"); [by apply IH|].
    destruct (rates !! c') as [r'|]; [|by apply IH].
    intros (n & _ & (l' & Hl' & [= <-])%outcome_bind_Ok)%outcome_bind_Ok. right. by apply IH.
Qed.

Lemma wanted_spec rates prices ws k : wanted rates prices = Ok ws → k ∈ ws ↔ asked rates prices k.
Proof.
  intros Hws. split; [by apply wanted_elem|]. intros (amount & rate & Hin & Hc & Hu & Hr & Ha).
  revert ws Hws. induction prices as [|[o am] prices IH]; intros ws; [by apply elem_of_nil in Hin|].
  rewrite wanted_cons. intros (l & Hl & (ws' & Hws & [= <-])%outcome_bind_Ok)%outcome_bind_Ok.
  apply elem_of_app. apply elem_of_cons in Hin as [[= Ho Ham]|Hin]; [left|right; by apply IH].
  subst. apply list_elem_of_fmap. exists (k.(wt_currency), k.(wt_amount)).
  split; [by destruct k|by eapply compute_complete].
Qed.

Lemma wanted_ok rates d prices ws :
  wanted rates prices = Ok ws → NoDup prices.*1 →
  (∀ o amount, (o, amount) ∈ prices → priced d o = true) → wants_ok d ws.
Proof.
  intros Hws Hnd Hp. split.
  - revert ws Hws. induction prices as [|[o amount] prices IH]; intros ws; [intros [= <-]; constructor|].
    apply NoDup_cons in Hnd as [Ho Hnd]. rewrite wanted_cons.
    intros (l & Hl & (ws' & Hws & [= <-])%outcome_bind_Ok)%outcome_bind_Ok.
    destruct (compute_spec _ _ _ _ Hl supported_nodup) as [Hndl _]. apply NoDup_app. split_and!.
    + apply NoDup_fmap_1 with (f := λ k, k.(wt_currency)). rewrite <-list_fmap_compose. exact Hndl.
    + intros k [[c a] [-> Hin]]%list_elem_of_fmap Hk. destruct (wanted_elem _ _ _ _ Hws Hk) as (am & _ & Hin' & _).
      apply Ho, list_elem_of_fmap. by exists (o, am).
    + apply IH; [done|intros ? ? ?; eapply Hp; by right|done].
  - revert ws Hws. induction prices as [|[o amount] prices IH]; intros ws; [intros [= <-] k k' []%elem_of_nil|].
    apply NoDup_cons in Hnd as [Ho Hnd]. rewrite wanted_cons.
    intros (l & Hl & (ws' & Hws & [= <-])%outcome_bind_Ok)%outcome_bind_Ok.
    destruct (compute_spec _ _ _ _ Hl supported_nodup) as [Hndl _]. intros k k' Hk Hk' Hok Hck.
    assert (∀ x, x ∈ ws' → x.(wt_owner) ≠ o) as Hfresh.
    { intros x Hx <-. destruct (wanted_elem _ _ _ _ Hws Hx) as (am & _ & Hin' & _).
      apply Ho, list_elem_of_fmap. by exists (x.(wt_owner), am). }
    apply elem_of_app in Hk as [[[c a] [-> Hin]]%list_elem_of_fmap|Hk],
      Hk' as [[[c' a'] [-> Hin']]%list_elem_of_fmap|Hk']; cbn [wt_owner wt_currency fst snd] in Hok, Hck.
    + subst c'. f_equal. apply list_elem_of_lookup in Hin as [i Hi], Hin' as [j Hj].
      assert (i = j) as -> by (eapply (NoDup_lookup l.*1 i j c); [done|by rewrite list_lookup_fmap, Hi..|by rewrite list_lookup_fmap, Hj]).
      congruence.
    + by destruct (Hfresh _ Hk').
    + by destruct (Hfresh _ Hk).
    + eapply IH; [done|intros ? ? ?; eapply Hp; by right|done..].
  - intros k Hk. destruct (wanted_elem _ _ _ _ Hws Hk) as (am & _ & Hin & _). by eapply Hp.
  - intros k Hk. destruct (wanted_elem _ _ _ _ Hws Hk) as (am & rate & _ & ? & ? & _). done.
Qed.

Lemma fst_map {A B C E} (f : A → C) (g : A * B → E) (l : list (A * B)) :
  (map (λ p, (f p.1, g p)) l).*1 = f <$> l.*1.
Proof. induction l as [|p l IH]; cbn; [done|]. by f_equal. Qed.

Lemma catalog_owners d : NoDup (catalog_prices d).*1.
Proof.
  unfold catalog_prices. rewrite fmap_app, !fst_map. apply NoDup_app. split_and!.
  - apply NoDup_fmap_2; [by intros ? ? [= ->]|]. apply NoDup_fst_map_to_list.
  - intros o (p & -> & _)%list_elem_of_fmap (q & Hq & _)%list_elem_of_fmap. done.
  - apply NoDup_fmap_2; [by intros ? ? [= ->]|]. apply NoDup_fst_map_to_list.
Qed.

Lemma catalog_priced d o amount : (o, amount) ∈ catalog_prices d → priced d o = true.
Proof.
  unfold catalog_prices. rewrite elem_of_app.
  intros [[[i p] [[= -> ->] Hi%elem_of_map_to_list]]%list_elem_of_fmap|
          [[i p] [[= -> ->] Hi%elem_of_map_to_list]]%list_elem_of_fmap]; cbn; by rewrite Hi.
Qed.
