(* ===== verification/LocalizedSyncFacts.v ===== *)
(** * What the recomputation of the localized prices does

    [LocalizedSync.v] against its specification: every price has one row per
    currency with a rate, with the recomputed amount, under the Stripe price it had;
    a second run changes nothing but the time of the synchronisation. *)

From Stdlib Require Import SpecFloat.
From S2P Require Import Prelude PyVal Effects Domain Relational Store StoreFacts Django.
From S2P Require Import Currency Fields OrgViews BillingContext BillingCatalog CatalogFacts LocalizedSync.
From S2P Require Import LocalizedPlan.

#[local] Open Scope string_scope.
#[local] Open Scope list_scope.

(** ** The plan is executable *)

Section Run.
  Context (d : db) (now : datetime) (ws : list want) (next : N).
  Context (Hok : db_ok d) (Hws : wants_ok d ws).
  Context (Hint : ∀ k, k ∈ ws → int4 k.(wt_amount) = true).
  Context (Hnext : ∀ i, is_Some (d.(d_localized) !! i) → (i < next)%N).

Definition creations : list (N * LocalizedRow) := number next (omap (created d now) ws).
Definition changes : list (N * LocalizedRow) := omap (changed d now) ws.
Definition refreshes : list (N * LocalizedRow) := omap (refreshed d now) ws.

Lemma changed_spec k i a :
  changed d now k = Some (i, a) ↔
  ∃ l, existing d k = Some (i, l) ∧ l.(lp_amount_minor) ≠ k.(wt_amount) ∧ a = with_amount k.(wt_amount) now l.
Proof.
  unfold changed. destruct (existing d k) as [[j l]|]; cbn; [|naive_solver].
  destruct (b_eq _ _) eqn:Hb; [rewrite b_eq_true in Hb|rewrite b_eq_false in Hb]; naive_solver.
Qed.

Lemma refreshed_spec k i a :
  refreshed d now k = Some (i, a) ↔
  ∃ l, existing d k = Some (i, l) ∧ l.(lp_amount_minor) = k.(wt_amount) ∧ a = with_amount k.(wt_amount) now l.
Proof.
  unfold refreshed, with_synced. destruct (existing d k) as [[j l]|]; cbn; [|naive_solver].
  destruct (b_eq _ _) eqn:Hb; [rewrite b_eq_true in Hb; rewrite Hb|rewrite b_eq_false in Hb]; naive_solver.
Qed.

Lemma created_spec k a : created d now k = Some a ↔ existing d k = None ∧ a = new_row now k.
Proof. unfold created. destruct (existing d k); naive_solver. Qed.

Lemma existing_inj k k' i l l' :
  k ∈ ws → k' ∈ ws → existing d k = Some (i, l) → existing d k' = Some (i, l') → k = k'.
Proof.
  intros Hk Hk' (Hi & Ho & Hc)%existing_spec (Hi' & Ho' & Hc')%existing_spec; [|done..].
  assert (l' = l) as -> by congruence. apply (wants_key _ _ Hws); [done|done| |congruence].
  eapply localizes_inj; [by eapply localized_row_ok|done|done].
Qed.

Lemma omap_keys (f : want → option (N * LocalizedRow)) l :
  NoDup l → (∀ k k' i a a', k ∈ l → k' ∈ l → f k = Some (i, a) → f k' = Some (i, a') → k = k') →
  NoDup (omap f l).*1.
Proof.
  induction l as [|k l IH]; intros Hnd Hf; [constructor|]. apply NoDup_cons in Hnd as [Hk Hnd].
  assert (NoDup (omap f l).*1) as Hl by (apply IH; [done|intros ?????? ?; apply Hf; by right]).
  cbn. destruct (f k) as [[i a]|] eqn:Hfk; [|done]. cbn. constructor; [|done].
  intros ([j b] & Heq & (k' & Hk' & Hfk')%list_elem_of_omap)%list_elem_of_fmap. cbn in Heq. subst j.
  apply Hk. rewrite (Hf k k' i a b); [done|left|by right|done|done].
Qed.

Lemma changes_keys : NoDup changes.*1.
Proof.
  apply omap_keys; [apply (wants_nodup _ _ Hws)|].
  intros k k' i a a' Hk Hk' (l & He & _)%changed_spec (l' & He' & _)%changed_spec. by eapply existing_inj.
Qed.

Lemma refreshes_keys : NoDup refreshes.*1.
Proof.
  apply omap_keys; [apply (wants_nodup _ _ Hws)|].
  intros k k' i a a' Hk Hk' (l & He & _)%refreshed_spec (l' & He' & _)%refreshed_spec. by eapply existing_inj.
Qed.

Lemma changes_elem i a :
  (i, a) ∈ changes ↔ ∃ k l, k ∈ ws ∧ existing d k = Some (i, l) ∧ l.(lp_amount_minor) ≠ k.(wt_amount) ∧
    a = with_amount k.(wt_amount) now l.
Proof.
  unfold changes. rewrite list_elem_of_omap. setoid_rewrite changed_spec. naive_solver.
Qed.

Lemma refreshes_elem i a :
  (i, a) ∈ refreshes ↔ ∃ k l, k ∈ ws ∧ existing d k = Some (i, l) ∧ l.(lp_amount_minor) = k.(wt_amount) ∧
    a = with_amount k.(wt_amount) now l.
Proof.
  unfold refreshes. rewrite list_elem_of_omap. setoid_rewrite refreshed_spec. naive_solver.
Qed.

Lemma creations_elem i a :
  (i, a) ∈ creations → (next <= i)%N ∧ ∃ k, k ∈ ws ∧ existing d k = None ∧ a = new_row now k.
Proof.
  intros (Ha & Hi & _)%number_elem. split; [done|].
  apply list_elem_of_omap in Ha as (k & Hk & [He ->]%created_spec). by exists k.
Qed.

Lemma creations_new i a : (i, a) ∈ creations → d.(d_localized) !! i = None.
Proof.
  intros [Hi _]%creations_elem. destruct (d_localized d !! i) eqn:He; [|done].
  assert (i < next)%N by (apply Hnext; eauto). lia.
Qed.

Lemma new_row_ok k : k ∈ ws → row_ok localized_schema (has d) (new_row now k) = true.
Proof.
  intros Hk. pose proof (Hint k Hk) as Hi. pose proof (wants_priced _ _ Hws k Hk) as Hp.
  destruct (wants_currency _ _ Hws k Hk) as [Hc _].
  assert (varchar 3 k.(wt_currency) = true) as Hv.
  { revert Hc. generalize (wt_currency k). apply Forall_forall.
    apply (bool_decide_eq_true_1 (Forall (λ c, varchar 3 c = true) SUPPORTED_CURRENCIES)). vm_compute. reflexivity. }
  unfold row_ok, new_row. cbn -[varchar int4]. rewrite Hv, Hi. destruct k as [[i|i] c a]; cbn in *; by rewrite Hp.
Qed.

Lemma new_row_localizes o k : localizes o (new_row now k) = true ↔ o = k.(wt_owner).
Proof.
  destruct o as [i|i], k as [[j|j] c a]; cbn; rewrite b_eq_true; split; congruence.
Qed.

Lemma creations_nodup : NoDup (omap (created d now) ws).
Proof.
  apply omap_nodup; [apply (wants_nodup _ _ Hws)|].
  intros k k' a Hk Hk' [_ ->]%created_spec [_ Heq]%created_spec. apply (wants_key _ _ Hws); [done|done| |].
  - apply new_row_localizes. rewrite <-Heq. by apply new_row_localizes.
  - by injection Heq.
Qed.

(** The rows created leave the others alone. *)
Lemma existing_kept k i l :
  existing d k = Some (i, l) → (list_to_map creations ∪ d.(d_localized) : table LocalizedRow) !! i = Some l.
Proof.
  intros (Hi & _ & _)%existing_spec; [|done]. rewrite lookup_union_r; [done|]. apply not_elem_of_list_to_map_1.
  intros ([j b] & Heq & Hin%creations_new)%list_elem_of_fmap. cbn in Heq. subst j. congruence.
Qed.

(** The table after the three batches. *)
Definition synced_table : table LocalizedRow :=
  list_to_map refreshes ∪ (list_to_map changes ∪ (list_to_map creations ∪ d.(d_localized))).

(** The three batches of writes succeed, whatever order the wants come in. *)
Lemma writes_run w0 :
  s_db (w_db w0) = d →
  ∃ w1, (bulk insert_localized creations;; bulk (update_localized write_amount) changes;;
         bulk (update_localized write_synced) refreshes;;
         mret (Z.of_nat (length creations + length changes))) w0 =
    (Ok (Z.of_nat (length creations + length changes)), w1) ∧
    w1 = with_localized synced_table w0 ∧
    db_ok (s_db (w_db w1)).
Proof.
  intros Hd. destruct (bulk_insert_run creations w0) as [H1 Hok1].
  { by rewrite Hd. }
  { apply number_keys. }
  { rewrite Hd. intros i a Hin. pose proof (creations_new _ _ Hin) as Hf.
    apply creations_elem in Hin as (_ & k & Hk & He & ->). split_and!; [done|by apply new_row_ok|done|].
    intros j b Hb (o & ->%new_row_localizes & Ho & Hc). eapply existing_None; [exact Hok|exact He|exact Hb|done|done]. }
  { intros [i a] [j b] Hx Hy (o & Ho & Ho' & Hc). cbn in *.
    pose proof Hx as (_ & k & Hk & _ & ->)%creations_elem. pose proof Hy as (_ & k' & Hk' & _ & ->)%creations_elem.
    apply new_row_localizes in Ho, Ho'. subst o. assert (k' = k) as -> by (by apply (wants_key _ _ Hws)).
    f_equal. by eapply number_inj; [apply creations_nodup|..]. }
  destruct (bulk_update_run write_amount changes (with_localized (list_to_map creations ∪ d.(d_localized)) w0))
    as [H2 Hok2].
  { cbn. by rewrite Hd in *. }
  { apply changes_keys. }
  { intros i a (k & l & Hk & He & _ & ->)%changes_elem. exists l, k.(wt_amount), now.
    split_and!; [|done|done|by apply Hint]. cbn. by apply existing_kept in He. }
  destruct (bulk_update_run write_synced refreshes (with_localized
    (list_to_map changes ∪ (list_to_map creations ∪ d.(d_localized))) w0)) as [H3 Hok3].
  { cbn in *. rewrite Hd in *. exact Hok2. }
  { apply refreshes_keys. }
  { intros i a (k & l & Hk & He & Ha & ->)%refreshes_elem. exists l, k.(wt_amount), now.
    split_and!; [|by rewrite <-Ha|done|by apply Hint]. cbn.
    rewrite lookup_union_r; [by apply existing_kept in He|]. apply not_elem_of_list_to_map_1.
    intros ([j b] & Heq & (k' & l' & Hk' & He' & Hne & _)%changes_elem)%list_elem_of_fmap. cbn in Heq. subst j.
    assert (k' = k) as -> by (by eapply existing_inj). congruence. }
  cbn in H2, H3, Hok2, Hok3. rewrite Hd in *. rewrite with_localized_twice in H2, H3.
  exists (with_localized synced_table w0).
  split; [|split; [reflexivity|cbn; rewrite Hd; exact Hok3]].
  by rewrite bind_run, H1, bind_run, H2, bind_run, H3.
Qed.

(** A wanted price that had a row keeps it, with its id and its Stripe price. *)
Lemma synced_existing k i l :
  k ∈ ws → existing d k = Some (i, l) → synced_table !! i = Some (with_amount k.(wt_amount) now l).
Proof.
  intros Hk He. unfold synced_table. destruct (decide (lp_amount_minor l = wt_amount k)) as [Ha|Ha].
  - apply lookup_union_Some_l, elem_of_list_to_map_1; [apply refreshes_keys|]. apply refreshes_elem. by exists k, l.
  - rewrite lookup_union_r.
    + apply lookup_union_Some_l, elem_of_list_to_map_1; [apply changes_keys|]. apply changes_elem. by exists k, l.
    + apply not_elem_of_list_to_map_1.
      intros ([j b] & Heq & (k' & l' & Hk' & He' & Heq' & _)%refreshes_elem)%list_elem_of_fmap. cbn in Heq. subst j.
      assert (k' = k) as -> by (by eapply existing_inj). congruence.
Qed.

(** No write touches a row that no want asks for. *)
Lemma synced_other i l :
  d.(d_localized) !! i = Some l → (∀ k l', k ∈ ws → existing d k ≠ Some (i, l')) → synced_table !! i = Some l.
Proof.
  intros Hi Hn. unfold synced_table.
  rewrite !lookup_union_r; [done|..]; apply not_elem_of_list_to_map_1; intros ([j b] & Heq & Hin)%list_elem_of_fmap;
    cbn in Heq; subst j.
  - apply creations_new in Hin. congruence.
  - apply changes_elem in Hin as (k & l' & Hk & He & _). by eapply Hn.
  - apply refreshes_elem in Hin as (k & l' & Hk & He & _). by eapply Hn.
Qed.

(** A wanted price without a row gets one, not yet known to Stripe. *)
Lemma synced_new k :
  k ∈ ws → existing d k = None → ∃ i, d.(d_localized) !! i = None ∧ synced_table !! i = Some (new_row now k).
Proof.
  intros Hk He. destruct (number_elem_of next (omap (created d now) ws) (new_row now k)) as [i Hi].
  { apply list_elem_of_omap. exists k. split; [done|]. by apply created_spec. }
  pose proof (creations_new _ _ Hi) as Hf. exists i. split; [done|]. unfold synced_table.
  rewrite lookup_union_r; [rewrite lookup_union_r|].
  - apply lookup_union_Some_l, elem_of_list_to_map_1; [apply number_keys|done].
  - apply not_elem_of_list_to_map_1. intros ([j b] & Heq & (k' & l' & _ & (Hj & _)%existing_spec & _)%changes_elem)
      %list_elem_of_fmap; [|done]. cbn in Heq. subst j. congruence.
  - apply not_elem_of_list_to_map_1. intros ([j b] & Heq & (k' & l' & _ & (Hj & _)%existing_spec & _)%refreshes_elem)
      %list_elem_of_fmap; [|done]. cbn in Heq. subst j. congruence.
Qed.

(** Every row is an old one untouched, or the row of a want. *)
Lemma synced_inv i l :
  synced_table !! i = Some l →
  d.(d_localized) !! i = Some l ∨
  ∃ k, k ∈ ws ∧ (existing d k = None ∧ (next <= i)%N ∧ l = new_row now k ∨
                 ∃ l0, existing d k = Some (i, l0) ∧ l = with_amount k.(wt_amount) now l0).
Proof.
  unfold synced_table. rewrite !lookup_union_Some_raw.
  intros [Hr|[_ [Hc|[_ [Hn|[_ Hd]]]]]].
  - apply elem_of_list_to_map_2, refreshes_elem in Hr as (k & l0 & Hk & He & _ & Hl). right. exists k. eauto.
  - apply elem_of_list_to_map_2, changes_elem in Hc as (k & l0 & Hk & He & _ & Hl). right. exists k. eauto.
  - apply elem_of_list_to_map_2, creations_elem in Hn as (Hle & k & Hk & He & Hl). right. exists k. eauto.
  - by left.
Qed.
End Run.

(** ** The run *)

(** The price has no row in the currency, or one with another amount. *)
Definition stale (d : db) (k : want) : bool :=
  match existing d k with None => true | Some (_, l) => negb (b_eq l.(lp_amount_minor) k.(wt_amount)) end.

Lemma stale_count d now ws :
  length (omap (created d now) ws) + length (omap (changed d now) ws) = length (List.filter (stale d) ws).
Proof.
  induction ws as [|k ws IH]; [done|]. cbn. unfold stale at 1, created at 1, changed at 1.
  destruct (existing d k) as [[i l]|]; cbn; [destruct (b_eq _ _)|]; cbn; lia.
Qed.

(** What the database must look like after a run: the wanted prices are there, under
    the ids and the Stripe prices they had, and nothing else has changed. *)
Record synced (d d' : db) (now : datetime) (ws : list want) : Prop := {
  synced_frame : d' = set_localized d'.(d_localized) d;
  synced_want k : k ∈ ws → ∃ i l, d'.(d_localized) !! i = Some l ∧ localizes k.(wt_owner) l = true ∧
    l.(lp_currency) = k.(wt_currency) ∧ l.(lp_amount_minor) = k.(wt_amount) ∧ l.(lp_synced_at) = now;
  synced_kept i l : d.(d_localized) !! i = Some l → ∃ x t, d'.(d_localized) !! i = Some (with_amount x t l);
  synced_rest i l : d.(d_localized) !! i = Some l →
    (∀ k, k ∈ ws → localizes k.(wt_owner) l = true → l.(lp_currency) ≠ k.(wt_currency)) →
    d'.(d_localized) !! i = Some l;
  synced_added i l : d.(d_localized) !! i = None → d'.(d_localized) !! i = Some l →
    ∃ k, k ∈ ws ∧ existing d k = None ∧ l = new_row now k
}.

Lemma synced_table_synced d now ws next :
  db_ok d → wants_ok d ws → (∀ i, is_Some (d.(d_localized) !! i) → (i < next)%N) →
  synced d (set_localized (synced_table d now ws next) d) now ws.
Proof.
  intros Hok Hws Hnext. split; cbn.
  - done.
  - intros k Hk. destruct (existing d k) as [[i l]|] eqn:He.
    + exists i, (with_amount k.(wt_amount) now l). split; [by apply synced_existing|].
      apply existing_spec in He as (_ & Ho & Hc); [|done]. destruct k as [[o|o] c a]; done.
    + destruct (synced_new d now ws next Hok Hnext k Hk He) as (i & _ & Hi). exists i, (new_row now k).
      split_and!; [done|by apply new_row_localizes|done..].
  - intros i l Hi.
    destruct (decide (Exists (λ k, localizes k.(wt_owner) l = true ∧ l.(lp_currency) = k.(wt_currency)) ws)) as [Hx|Hx].
    + apply Exists_exists in Hx as (k & Hk & Ho & Hc). exists k.(wt_amount), now. apply synced_existing; [done..|].
      by apply existing_spec.
    + exists l.(lp_amount_minor), l.(lp_synced_at). replace (with_amount _ _ l) with l by by destruct l.
      apply synced_other; [done..|]. intros k l' Hk (Hl & Ho & Hc)%existing_spec; [|done].
      apply Hx, Exists_exists. exists k. by assert (l' = l) as -> by congruence.
  - intros i l Hi Hn. apply synced_other; [done..|]. intros k l' Hk (Hl & Ho & Hc)%existing_spec; [|done].
    assert (l' = l) as -> by congruence. by apply (Hn k).
  - intros i l Hi [Hl|(k & Hk & [(He & _ & ->)|(l0 & (Hl0 & _)%existing_spec & _)])]%synced_inv;
      [congruence|by exists k|congruence|done].
Qed.

Section Runs.
  Context `{FxFeed} `{FloatOfString}.

Lemma sync_rates_run w rates ws :
  let d := s_db (w_db w) in
  db_ok d → (∀ i, is_Some (d.(d_localized) !! i) → (i < w_next w)%N) →
  wanted rates (catalog_prices d) = Ok ws → (∀ k, k ∈ ws → int4 k.(wt_amount) = true) →
  ∃ w', sync_rates rates w = (Ok (Z.of_nat (length (List.filter (stale d) ws))), w') ∧
    w' = with_localized (synced_table d (w_now w) ws (w_next w)) (set_next (next_after d (w_now w) ws (w_next w)) w) ∧
    db_ok (s_db (w_db w')).
Proof.
  intros d Hok Hnext Hws Hint.
  assert (wants_ok d ws) as Hwok by (eapply wanted_ok; [done|apply catalog_owners|apply catalog_priced]).
  pose proof (upsert_prices_run d (w_now w) rates (catalog_prices d) (mkUpserts [] [] []) w) as Hup.
  rewrite Hws in Hup.
  destruct (writes_run d (w_now w) ws (w_next w) Hok Hwok Hint Hnext
    (set_next (next_after d (w_now w) ws (w_next w)) w) eq_refl) as (w1 & Hrun & Hw1 & Hok1).
  exists w1. split; [|done]. unfold sync_rates. rewrite bind_run. cbn [utcnow]. unfold atomic.
  rewrite bind_run. unfold dquery, query. rewrite bind_run. change (id (s_db (w_db w))) with d. rewrite Hup.
  unfold add_wants. cbn [up_create up_changed up_heartbeat app]. fold (creations d (w_now w) ws (w_next w)).
  fold (changes d (w_now w) ws) (refreshes d (w_now w) ws). rewrite Hrun.
  rewrite <-(stale_count d (w_now w)). unfold creations, changes. rewrite number_length. reflexivity.
Qed.
(** A usable answer of the feed, and its rates. *)
Definition usable (data : fx_json) (rates : gmap string spec_float) : Prop :=
  fx_get data "result" = Ok (FxStr "success") ∧
  ∃ items, fx_get data "rates" = Ok (FxObj items) ∧ api_rates_of items ∅ = Ok rates.

Lemma usable_run data rates w :
  fx_fetch (w_now w) = Ok data → usable data rates → sync_localized_prices w = sync_rates rates w.
Proof.
  intros Hf (Hr & items & Hi & Ha). unfold sync_localized_prices. rewrite bind_run. cbn [utcnow]. rewrite Hf.
  rewrite lift_bind, Hr. cbn [fx_is_str]. rewrite b_eq_refl. cbn [negb]. by rewrite lift_bind, Hi, Ha.
Qed.

(** C13. With a usable answer, when every amount computed fits its column, a run
    succeeds.  The wants are every price of the catalogue in every supported currency
    other than the US dollar with a rate, at the rounded amount; every want has its
    row, stamped with the time of the run; rows keep their id and their Stripe price,
    rows no want asks for are untouched, none is removed, the rows added are for wants
    that had none, and nothing else in the database changes.  The result counts the
    rows created or given another amount. *)
Theorem sync_localized_prices_spec w data rates ws :
  store_ok (w_db w) → (∀ i, is_Some ((s_db (w_db w)).(d_localized) !! i) → (i < w_next w)%N) →
  fx_fetch (w_now w) = Ok data → usable data rates →
  wanted rates (catalog_prices (s_db (w_db w))) = Ok ws → (∀ k, k ∈ ws → int4 k.(wt_amount) = true) →
  ∃ w', sync_localized_prices w =
      (Ok (Z.of_nat (length (List.filter (stale (s_db (w_db w))) ws))), w') ∧
    (∀ k, k ∈ ws ↔ asked rates (catalog_prices (s_db (w_db w))) k) ∧
    synced (s_db (w_db w)) (s_db (w_db w')) (w_now w) ws ∧ store_ok (w_db w') ∧
    w_stripe w' = w_stripe w ∧ w_tasks w' = w_tasks w ∧ s_cache (w_db w') = s_cache (w_db w).
Proof.
  intros Hok Hnext Hf Hu Hws Hint. rewrite (usable_run _ _ _ Hf Hu).
  destruct (sync_rates_run w rates ws Hok Hnext Hws Hint) as (w' & -> & -> & Hok'). eexists. split; [done|].
  split; [intros k; by apply wanted_spec|]. split_and!; [|done..]. apply synced_table_synced; [done| |done].
  eapply wanted_ok; [done|apply catalog_owners|apply catalog_priced].
Qed.

(** After a run no want is stale. *)
Lemma synced_fresh d d' now ws :
  db_ok d' → synced d d' now ws → List.filter (stale d') ws = [].
Proof.
  intros Hok Hs. assert (∀ k, k ∈ ws → stale d' k = false) as Hf.
  - intros k Hk. destruct (synced_want _ _ _ _ Hs k Hk) as (i & l & Hi & Ho & Hc & Ha & _). unfold stale.
    replace (existing d' k) with (Some (i, l)) by (symmetry; by apply existing_spec). by rewrite Ha, b_eq_refl.
  - clear Hs. induction ws as [|k ws IH]; [done|]. cbn. rewrite Hf by left. apply IH. intros x Hx. apply Hf. by right.
Qed.

(** In a synced database a row that a want asks for has its amount. *)
Lemma synced_amount d d' now ws k i l :
  db_ok d' → synced d d' now ws → k ∈ ws → d'.(d_localized) !! i = Some l →
  localizes k.(wt_owner) l = true → l.(lp_currency) = k.(wt_currency) → l.(lp_amount_minor) = k.(wt_amount).
Proof.
  intros Hok Hs Hk Hi Ho Hc. destruct (synced_want _ _ _ _ Hs k Hk) as (j & b & Hj & Hob & Hcb & Ha & _).
  assert (j = i) as -> by (apply (localized_unique d' k.(wt_owner) j i b l); [done..|congruence]). congruence.
Qed.

(** Two synchronisations in a row agree up to their time. *)
Lemma synced_twice d d1 d2 now now' ws :
  db_ok d1 → db_ok d2 → synced d d1 now ws → synced d1 d2 now' ws →
  with_synced 0 <$> d2.(d_localized) = with_synced 0 <$> d1.(d_localized).
Proof.
  intros Hok1 Hok2 H1 H2. apply map_eq. intros i. rewrite !lookup_fmap.
  destruct (d_localized d1 !! i) as [l|] eqn:Hi.
  - destruct (synced_kept _ _ _ _ H2 i l Hi) as (x & t & Hx). rewrite Hx. cbn. f_equal.
    destruct (decide (Exists (λ k, localizes k.(wt_owner) l = true ∧ l.(lp_currency) = k.(wt_currency)) ws)) as [Hw|Hw].
    + apply Exists_exists in Hw as (k & Hk & Ho & Hc).
      pose proof (synced_amount _ _ _ _ k i _ Hok1 H1 Hk Hi Ho Hc) as Ha1.
      assert (x = k.(wt_amount)) as ->; [|by rewrite <-Ha1].
      eapply (synced_amount d1 d2 now' ws k i _ Hok2 H2 Hk Hx); [|done]. by destruct k as [[o|o] ? ?].
    + rewrite (synced_rest _ _ _ _ H2 i l Hi) in Hx; [by assert (with_amount x t l = l) as -> by congruence|].
      intros k Hk Ho Hc. apply Hw, Exists_exists. by exists k.
  - destruct (d_localized d2 !! i) as [l|] eqn:Hl; [|done].
    destruct (synced_added _ _ _ _ H2 i l Hi Hl) as (k & Hk & He & _).
    destruct (synced_want _ _ _ _ H1 k Hk) as (j & b & Hj & Hob & Hcb & _).
    by destruct (existing_None d1 k Hok1 He j b Hj Hob).
Qed.

(** A second run against the same rates, at whatever time,
    reports no change, and leaves every row as the first made it up to the time of
    its synchronisation. *)
Theorem sync_localized_prices_idempotent w w' w2 n data data2 rates ws :
  store_ok (w_db w) → (∀ i, is_Some ((s_db (w_db w)).(d_localized) !! i) → (i < w_next w)%N) →
  fx_fetch (w_now w) = Ok data → usable data rates →
  wanted rates (catalog_prices (s_db (w_db w))) = Ok ws → (∀ k, k ∈ ws → int4 k.(wt_amount) = true) →
  sync_localized_prices w = (Ok n, w') →
  w_db w2 = w_db w' → (∀ i, is_Some ((s_db (w_db w2)).(d_localized) !! i) → (i < w_next w2)%N) →
  fx_fetch (w_now w2) = Ok data2 → usable data2 rates →
  ∃ w3, sync_localized_prices w2 = (Ok 0%Z, w3) ∧
    with_synced 0 <$> (s_db (w_db w3)).(d_localized) = with_synced 0 <$> (s_db (w_db w')).(d_localized).
Proof.
  intros Hok Hnext Hf Hu Hws Hint Hrun H2 Hnext2 Hf2 Hu2.
  destruct (sync_localized_prices_spec w data rates ws Hok Hnext Hf Hu Hws Hint)
    as (w1 & Hrun1 & _ & Hs1 & Hok1 & _). rewrite Hrun in Hrun1. injection Hrun1 as _ <-.
  assert (catalog_prices (s_db (w_db w')) = catalog_prices (s_db (w_db w))) as Hcat.
  { rewrite (synced_frame _ _ _ _ Hs1). done. }
  destruct (sync_localized_prices_spec w2 data2 rates ws) as (w3 & Hrun3 & _ & Hs3 & Hok3 & _);
    [by rewrite H2|done|done|done|by rewrite H2, Hcat|done|].
  rewrite H2 in Hrun3, Hs3. rewrite (synced_fresh _ _ _ _ Hok1 Hs1) in Hrun3. exists w3. split; [exact Hrun3|].
  by eapply synced_twice.
Qed.

(** An answer that cannot be used, or none, writes nothing: the run returns 0 or
    raises. *)
Lemma sync_localized_prices_refused w :
  (∀ data rates, fx_fetch (w_now w) = Ok data → ¬ usable data rates) →
  sync_localized_prices w = (Ok 0%Z, w) ∨ ∃ e, sync_localized_prices w = (Raise e, w).
Proof.
  intros Hn. unfold sync_localized_prices. rewrite bind_run. cbn [utcnow].
  destruct (fx_fetch (w_now w)) as [data|e]; [|destruct (fetch_error e); [by left|by right; exists e]].
  specialize (Hn data). rewrite lift_bind. destruct (fx_get data "result") as [r|e] eqn:Hr; [|by right; exists e].
  destruct (fx_is_str r "success") eqn:Hsuc; cbn [negb]; [|by left].
  rewrite lift_bind. destruct (fx_get data "rates") as [[]|e] eqn:Hi; [by left..| |by right; exists e].
  destruct (api_rates_of fields ∅) as [rates|e] eqn:Ha; [|destruct (rate_error e); [by left|by right; exists e]].
  exfalso. apply (Hn rates eq_refl). split; [|eauto].
  destruct r as [|s| | | |]; try discriminate Hsuc. cbn in Hsuc. rewrite b_eq_true in Hsuc. by subst.
Qed.

(** A run that fails midway leaves the database as it was. *)
Lemma sync_rates_atomic rates w e w' :
  sync_rates rates w = (Raise e, w') → s_db (w_db w') = s_db (w_db w).
Proof. unfold sync_rates. rewrite bind_run. cbn [utcnow]. by intros [? _]%atomic_raise. Qed.
End Runs.
