(* ===== verification/CatalogSyncRows.v ===== *)
(** * Lookup keys and price rows

    The lookup keys of [CatalogSync.v] tell the plans and currencies apart, and its
    writes change nothing but the Stripe price of one row. *)

From S2P Require Import Prelude PyVal Text Effects Domain Relational Store StoreFacts Django Repositories.
From S2P Require Import Currency Fields OrgViews BillingContext BillingCatalog CatalogFacts CatalogSync.

#[local] Open Scope string_scope.
#[local] Open Scope list_scope.

(** ** Lookup keys *)

Lemma prefix_total (l1 l2 r1 r2 : list ascii) :
  l1 ++ r1 = l2 ++ r2 → is_prefix l1 l2 || is_prefix l2 l1 = true.
Proof.
  revert l2. induction l1 as [|c l1 IH]; intros [|c' l2]; cbn; try done.
  intros [= <- Heq]. rewrite b_eq_refl. by apply IH in Heq.
Qed.

(** The suffix of a currency. *)
Definition currency_suffix (c : string) : string := if b_eq c "usd" then "" else ("_" ++ c)%string.

Lemma in_currency_eq base c : in_currency base c = (base ++ currency_suffix c)%string.
Proof. unfold in_currency, currency_suffix. destruct (b_eq c "usd"); [by rewrite string_app_nil|done]. Qed.

Lemma currency_suffix_inj c c' : currency_suffix c = currency_suffix c' → c = c'.
Proof.
  unfold currency_suffix. destruct (b_eq c "usd") eqn:Hc, (b_eq c' "usd") eqn:Hc'; cbn; try discriminate.
  - rewrite b_eq_true in Hc. rewrite b_eq_true in Hc'. congruence.
  - change (String "_" c = String "_" c' → c = c'). congruence.
Qed.

Lemma chars_inj a b : list_ascii_of_string a = list_ascii_of_string b → a = b.
Proof. intros Heq. by rewrite <-(string_of_list_ascii_of_string a), Heq, string_of_list_ascii_of_string. Qed.

(** No two active plans share a key, in any two currencies. *)
Lemma plan_lookup_key_inj p q c c' :
  _plan_lookup_key p c = _plan_lookup_key q c' →
  p.(plan_context) = q.(plan_context) ∧ p.(plan_tier) = q.(plan_tier) ∧
  p.(plan_interval) = q.(plan_interval) ∧ c = c'.
Proof.
  unfold _plan_lookup_key. rewrite !in_currency_eq. intros Heq.
  pose proof (f_equal list_ascii_of_string Heq) as Hl. rewrite !chars_app in Hl. apply prefix_total in Hl.
  revert Heq Hl. destruct p as [? ? ? ctx tier iv ?], q as [? ? ? ctx' tier' iv' ?]. cbn [plan_context plan_tier plan_interval].
  destruct ctx, tier, iv, ctx', tier', iv'; intros Heq Hl; try (vm_compute in Hl; discriminate Hl);
    (split_and!; [done..|]); apply currency_suffix_inj, chars_inj;
    apply (f_equal list_ascii_of_string) in Heq; rewrite !chars_app in Heq; by apply app_inv_head in Heq.
Qed.

Lemma plan_product_key p q c c' : _plan_lookup_key p c ≠ _product_lookup_key q c'.
Proof. unfold _plan_lookup_key, _product_lookup_key. rewrite !in_currency_eq. cbn. discriminate. Qed.

Lemma plan_key_non_empty p c : _plan_lookup_key p c ≠ "".
Proof. unfold _plan_lookup_key. rewrite in_currency_eq. cbn. discriminate. Qed.
Lemma product_key_non_empty p c : _product_lookup_key p c ≠ "".
Proof. unfold _product_lookup_key. rewrite in_currency_eq. cbn. discriminate. Qed.

Lemma active_plans_elem d p :
  p ∈ active_plans d ↔ ∃ i, d.(d_plans) !! i = Some p ∧ p.(plan_is_active) = true.
Proof.
  unfold active_plans. rewrite merge_sort_Permutation, list_elem_of_fmap. split.
  - intros ([i q] & -> & Hq%elem_of_map_to_list). unfold tfilter in Hq.
    apply map_lookup_filter_Some in Hq. by exists i.
  - intros (i & Hi & Ha). exists (i, p). split; [done|]. apply elem_of_map_to_list. unfold tfilter.
    by apply map_lookup_filter_Some.
Qed.

Lemma active_products_elem d p :
  p ∈ products_list_active d ↔ ∃ i, d.(d_products) !! i = Some p ∧ p.(prod_is_active) = true.
Proof.
  unfold products_list_active. rewrite list_elem_of_fmap. split.
  - intros ([i q] & -> & Hq%elem_of_map_to_list). unfold tfilter in Hq.
    apply map_lookup_filter_Some in Hq. by exists i.
  - intros (i & Hi & Ha). exists (i, p). split; [done|]. apply elem_of_map_to_list. unfold tfilter.
    by apply map_lookup_filter_Some.
Qed.

Lemma plan_key_active d p q c c' :
  db_ok d → p ∈ active_plans d → q ∈ active_plans d →
  _plan_lookup_key p c = _plan_lookup_key q c' → p = q ∧ c = c'.
Proof.
  intros Hok (i & Hi & Hp)%active_plans_elem (j & Hj & Hq)%active_plans_elem (Hc & Ht & Hv & ->)%plan_lookup_key_inj.
  split; [|done]. enough (i = j) as -> by congruence.
  eapply (table_ok_unique plan_schema (has d) d.(d_plans)); [unfold db_ok in Hok; tauto|by left|done|done| |];
    cbn; [by rewrite Hp|by rewrite Hq, Hc, Ht, Hv].
Qed.

(** ** Rows up to their Stripe price *)

Definition erase_plan_price (p : PlanPrice) : PlanPrice := mkPlanPrice p.(pp_id) p.(pp_plan_id) "" p.(pp_amount).
Definition erase_product_price (p : ProductPriceRow) : ProductPriceRow := mkProductPriceRow p.(pr_product) "" p.(pr_amount).
Definition erase_localized (l : LocalizedRow) : LocalizedRow :=
  mkLocalizedRow l.(lp_plan_price) l.(lp_product_price) l.(lp_currency) l.(lp_amount_minor) None l.(lp_synced_at).

(** Databases that differ in the Stripe prices of their rows only. *)
Record static (d d' : db) : Prop := {
  static_frame : d' = set_prices d'.(d_prices) (set_product_prices d'.(d_product_prices)
    (set_localized d'.(d_localized) d));
  static_prices : erase_plan_price <$> d'.(d_prices) = erase_plan_price <$> d.(d_prices);
  static_product_prices :
    erase_product_price <$> d'.(d_product_prices) = erase_product_price <$> d.(d_product_prices);
  static_localized : erase_localized <$> d'.(d_localized) = erase_localized <$> d.(d_localized)
}.

#[export] Instance static_preorder : PreOrder static.
Proof.
  split.
  - intros d. split; [by destruct d|done..].
  - intros d1 d2 d3 [F1 P1 R1 L1] [F2 P2 R2 L2]. split; [|congruence..].
    rewrite F2, F1. by destruct d1, d3.
Qed.

Lemma static_plans d d' : static d d' → d'.(d_plans) = d.(d_plans).
Proof. intros Hs. by rewrite (static_frame _ _ Hs). Qed.
Lemma static_products d d' : static d d' → d'.(d_products) = d.(d_products).
Proof. intros Hs. by rewrite (static_frame _ _ Hs). Qed.

(** The Stripe price and the amount of the row in US dollars. *)
Definition dollar_row (o : price_owner) (d : db) : option (string * Z) :=
  match o with
  | OfPlanPrice i => (λ p, (p.(pp_stripe_price_id), p.(pp_amount))) <$> d.(d_prices) !! i
  | OfProductPrice i => (λ p, (p.(pr_stripe_price_id), p.(pr_amount))) <$> d.(d_product_prices) !! i
  end.

(** The Stripe price charged in a currency, and the local amount. *)
Definition stripe_id_in (o : price_owner) (c : string) (d : db) : option string :=
  if b_eq c "usd" then fst <$> dollar_row o d
  else localized_row o c d ≫= λ r, r.2.(lp_stripe_price_id).
Definition amount_in (o : price_owner) (c : string) (d : db) : option Z :=
  if b_eq c "usd" then snd <$> dollar_row o d
  else (λ r, r.2.(lp_amount_minor)) <$> localized_row o c d.

Lemma lookup_erase {A} (f : A → A) (t t' : table A) i a :
  f <$> t' = f <$> t → t !! i = Some a → ∃ a', t' !! i = Some a' ∧ f a' = f a.
Proof.
  intros Heq Hi. assert ((f <$> t') !! i = Some (f a)) as H by by rewrite Heq, lookup_fmap, Hi.
  by apply lookup_fmap_Some in H as (a' & ? & ?); exists a'.
Qed.

Lemma localized_row_spec d o c i l :
  db_ok d →
  localized_row o c d = Some (i, l) ↔ d.(d_localized) !! i = Some l ∧ localizes o l = true ∧ l.(lp_currency) = c.
Proof.
  intros Hok. unfold localized_row. split.
  - intros [Hi Hp]%tfind_Some. rewrite andb_true_iff, b_eq_true in Hp. tauto.
  - intros (Hi & Ho & Hc). apply tfind_unique; [done|by rewrite Ho, (proj2 (b_eq_true _ _) Hc)|].
    intros j b Hj Hp. rewrite andb_true_iff, b_eq_true in Hp. destruct Hp as [Hob Hcb].
    eapply (localized_unique d o); [done..|congruence].
Qed.

Lemma static_localized_row d d' o c :
  static d d' → (λ r, (r.1, erase_localized r.2)) <$> localized_row o c d' =
                (λ r, (r.1, erase_localized r.2)) <$> localized_row o c d.
Proof.
  intros Hs. pose proof (static_localized _ _ Hs) as Hl. unfold localized_row.
  assert (∀ t, tfind (λ _ l, localizes o l && b_eq l.(lp_currency) c) (erase_localized <$> t) =
    prod_map id erase_localized <$> tfind (λ _ l, localizes o l && b_eq l.(lp_currency) c) t) as Hf
    by (intros t; apply tbest_fmap; by destruct o).
  pose proof (Hf (d_localized d)) as H1. pose proof (Hf (d_localized d')) as H2. rewrite Hl, H1 in H2.
  by destruct (tfind _ (d_localized d)) as [[]|], (tfind _ (d_localized d')) as [[]|].
Qed.

Lemma static_amount d d' o c : static d d' → amount_in o c d' = amount_in o c d.
Proof.
  intros Hs. unfold amount_in. destruct (b_eq c "usd").
  - destruct o as [i|i]; cbn.
    + pose proof (f_equal (.!! i) (static_prices _ _ Hs)) as H. cbn in H. rewrite !lookup_fmap in H.
      destruct (d_prices d !! i), (d_prices d' !! i); cbn in H; try done. injection H as _ _ H. cbn. by rewrite H.
    + pose proof (f_equal (.!! i) (static_product_prices _ _ Hs)) as H. cbn in H. rewrite !lookup_fmap in H.
      destruct (d_product_prices d !! i), (d_product_prices d' !! i); cbn in H; try done. injection H as _ H. cbn. by rewrite H.
  - pose proof (static_localized_row d d' o c Hs) as H.
    destruct (localized_row o c d) as [[]|], (localized_row o c d') as [[]|]; cbn in H; try done.
    injection H as _ _ _ _ H _. cbn. by rewrite H.
Qed.

(** ** Writes *)

(** A write of the Stripe price of [o] in [c], and of nothing else. *)
Record writes_price_id (o : price_owner) (c k : string) (d d' : db) : Prop := {
  wpi_ok : db_ok d';
  wpi_static : static d d';
  wpi_id : stripe_id_in o c d' = Some k;
  wpi_frame o' c' : (o', c') ≠ (o, c) → stripe_id_in o' c' d' = stripe_id_in o' c' d
}.

Lemma fmap_insert_id {A B} (f : A → B) (t : table A) i a a' :
  t !! i = Some a → f a' = f a → f <$> <[i := a']> t = f <$> t.
Proof.
  intros Hi Hf. rewrite fmap_insert, Hf. apply insert_id. by rewrite lookup_fmap, Hi.
Qed.

Lemma save_price_id_spec o k d d' :
  db_ok d → save_price_id o k d = Ok d' → writes_price_id o "usd" k d d'.
Proof.
  intros Hok Hsave. destruct o as [i|i]; cbn in Hsave.
  - destruct (d_prices d !! i) as [p|] eqn:Hi; [|done].
    assert (pp_id p = i) as Hid by (unfold db_ok, ids_ok in Hok; destruct_and!; eauto).
    pose proof (save_price_ok _ _ _ Hok Hsave) as Hok'.
    apply outcome_bind_Ok in Hsave as (t & (-> & _)%tput_inv & [= <-]). split; [done| | |].
    + split; [by destruct d| |done..]. cbn. apply (fmap_insert_id _ _ _ p); [done|]. unfold erase_plan_price. cbn. by rewrite Hid.
    + unfold stripe_id_in. rewrite b_eq_refl. cbn. by rewrite lookup_insert_eq.
    + intros o' c' Hne. unfold stripe_id_in. destruct (b_eq c' "usd") eqn:Hc; [|done]. rewrite b_eq_true in Hc. subst c'.
      destruct o' as [j|j]; [|done]. cbn. rewrite lookup_insert_ne; [done|]. intros ->. by apply Hne.
  - destruct (d_product_prices d !! i) as [p|] eqn:Hi; [|done].
    pose proof (save_product_price_ok _ _ _ _ Hok Hsave) as Hok'.
    apply outcome_bind_Ok in Hsave as (t & (-> & _)%tput_inv & [= <-]). split; [done| | |].
    + split; [by destruct d|done| |done]. cbn. by apply (fmap_insert_id _ _ _ p).
    + unfold stripe_id_in. rewrite b_eq_refl. cbn. by rewrite lookup_insert_eq.
    + intros o' c' Hne. unfold stripe_id_in. destruct (b_eq c' "usd") eqn:Hc; [|done]. rewrite b_eq_true in Hc. subst c'.
      destruct o' as [j|j]; [done|]. cbn. rewrite lookup_insert_ne; [done|]. intros ->. by apply Hne.
Qed.

Lemma save_localized_id_spec o c i l k d d' :
  db_ok d → c ≠ "usd" → localized_row o c d = Some (i, l) → save_localized_id i k d = Ok d' →
  writes_price_id o c k d d'.
Proof.
  intros Hok Hc (Hi & Ho & Hcur)%localized_row_spec Hsave; [|done]. unfold save_localized_id in Hsave. rewrite Hi in Hsave.
  pose proof (save_localized_ok _ _ _ _ Hok Hsave) as Hok'.
  apply outcome_bind_Ok in Hsave as (t & (-> & _)%tput_inv & [= <-]).
  assert (∀ o' c', localized_row o' c' (set_localized (<[i := with_price_id k l]> d.(d_localized)) d) =
    (λ r, if b_eq r.1 i then (i, with_price_id k l) else r) <$> localized_row o' c' d) as Hrow.
  { intros o' c'. destruct (localized_row o' c' d) as [[j b]|] eqn:Hr; cbn -[b_eq].
    - apply localized_row_spec in Hr as (Hj & Hob & Hcb); [|done]. destruct (b_eq j i) eqn:Hji.
      + rewrite b_eq_true in Hji. subst j. assert (b = l) as -> by congruence.
        apply localized_row_spec; [done|]. cbn. rewrite lookup_insert_eq. by destruct o'.
      + rewrite b_eq_false in Hji. apply localized_row_spec; [done|]. cbn. by rewrite lookup_insert_ne.
    - destruct (localized_row o' c' (set_localized _ d)) as [[j b]|] eqn:Hr'; [|done].
      apply localized_row_spec in Hr' as (Hj & Hob & Hcb); [|done]. cbn in Hj.
      assert (∃ b0, localized_row o' c' d = Some (j, b0)) as [? ?]; [|congruence].
      apply lookup_insert_Some in Hj as [[<- <-]|[_ Hj]].
      + exists l. apply localized_row_spec; [done|]. by destruct o'.
      + exists b. by apply localized_row_spec. }
  split; [done| | |].
  - split; [by destruct d|done|done|]. cbn. by apply (fmap_insert_id _ _ _ l).
  - unfold stripe_id_in. rewrite (proj2 (b_eq_false _ _) Hc), Hrow.
    rewrite (proj2 (localized_row_spec _ _ _ _ _ Hok) (conj Hi (conj Ho Hcur))). cbn. by rewrite b_eq_refl.
  - intros o' c' Hne. unfold stripe_id_in. destruct (b_eq c' "usd"); [by destruct o'|]. rewrite Hrow.
    destruct (localized_row o' c' d) as [[j b]|] eqn:Hr; cbn -[b_eq]; [|done]. destruct (b_eq j i) eqn:Hji; [|done].
    exfalso. rewrite b_eq_true in Hji. subst j. apply localized_row_spec in Hr as (Hj & Hob & Hcb); [|done].
    assert (b = l) as -> by congruence. apply Hne. f_equal; [|congruence].
    apply (localizes_inj d _ _ l); [by eapply localized_row_ok|done|done].
Qed.

(** ** The prices to mirror *)

Inductive target (d : db) (c : string) : price_owner → upsert → Prop :=
  | target_plan p r : p ∈ active_plans d → plan_price_row d p = Some r →
      target d c r.(po_owner) (plan_upsert p c)
  | target_product p r : p ∈ products_list_active d → product_price_row d p = Some r →
      target d c r.(po_owner) (product_upsert p c).

Lemma plan_price_row_Some d p r :
  plan_price_row d p = Some r →
  ∃ i pp, r = mkPriceObj (OfPlanPrice i) pp.(pp_stripe_price_id) pp.(pp_amount) None ∧
    d.(d_prices) !! i = Some pp ∧ pp.(pp_plan_id) = p.(plan_id).
Proof.
  unfold plan_price_row. intros ([i pp] & Hf & ->)%fmap_Some. apply tfind_Some in Hf as [Hi Hp].
  rewrite b_eq_true in Hp. by exists i, pp.
Qed.

Lemma product_price_row_Some d p r :
  product_price_row d p = Some r →
  ∃ i pp, r = mkPriceObj (OfProductPrice i) pp.(pr_stripe_price_id) pp.(pr_amount) None ∧
    d.(d_product_prices) !! i = Some pp ∧ pp.(pr_product) = p.(prod_id).
Proof.
  unfold product_price_row. intros ([i pp] & Hf & ->)%fmap_Some. apply tfind_Some in Hf as [Hi Hp].
  rewrite b_eq_true in Hp. by exists i, pp.
Qed.

Lemma plan_price_row_dollar d p r :
  plan_price_row d p = Some r → dollar_row r.(po_owner) d = Some (r.(po_stripe_price_id), r.(po_amount)).
Proof. intros (i & pp & -> & Hi & _)%plan_price_row_Some. cbn. by rewrite Hi. Qed.
Lemma product_price_row_dollar d p r :
  product_price_row d p = Some r → dollar_row r.(po_owner) d = Some (r.(po_stripe_price_id), r.(po_amount)).
Proof. intros (i & pp & -> & Hi & _)%product_price_row_Some. cbn. by rewrite Hi. Qed.

(** A price belongs to one plan or product. *)
Lemma plan_of_price d p q r r' :
  db_ok d → p ∈ active_plans d → q ∈ active_plans d → plan_price_row d p = Some r →
  plan_price_row d q = Some r' → r.(po_owner) = r'.(po_owner) → p = q.
Proof.
  intros Hok (i & Hi & _)%active_plans_elem (j & Hj & _)%active_plans_elem
    (a & pa & -> & Ha & Hpa)%plan_price_row_Some (b & pb & -> & Hb & Hpb)%plan_price_row_Some [= ->].
  assert (map_Forall (λ i a, plan_id a = i) d.(d_plans)) as Hids by (unfold db_ok, ids_ok in Hok; tauto).
  apply Hids in Hi as Hi'. apply Hids in Hj as Hj'. congruence.
Qed.

Lemma product_of_price d p q r r' :
  db_ok d → p ∈ products_list_active d → q ∈ products_list_active d → product_price_row d p = Some r →
  product_price_row d q = Some r' → r.(po_owner) = r'.(po_owner) → p = q.
Proof.
  intros Hok (i & Hi & _)%active_products_elem (j & Hj & _)%active_products_elem
    (a & pa & -> & Ha & Hpa)%product_price_row_Some (b & pb & -> & Hb & Hpb)%product_price_row_Some [= ->].
  assert (map_Forall (λ i a, prod_id a = i) d.(d_products)) as Hids by (unfold db_ok, ids_ok in Hok; tauto).
  apply Hids in Hi as Hi'. apply Hids in Hj as Hj'. congruence.
Qed.

Lemma target_owner d c o u u' : db_ok d → target d c o u → target d c o u' → u = u'.
Proof.
  intros Hok [p r Hp Hr|p r Hp Hr] Ht; inversion Ht as [q r' Hq Hr' Ho|q r' Hq Hr' Ho]; subst.
  - by rewrite (plan_of_price d p q r r').
  - apply plan_price_row_Some in Hr as (? & ? & -> & _). apply product_price_row_Some in Hr' as (? & ? & -> & _). done.
  - apply product_price_row_Some in Hr as (? & ? & -> & _). apply plan_price_row_Some in Hr' as (? & ? & -> & _). done.
  - by rewrite (product_of_price d p q r r').
Qed.

(** The names of the active products give distinct keys. *)
Definition distinct_products (currencies : list string) (d : db) : Prop :=
  ∀ p q c c', p ∈ products_list_active d → q ∈ products_list_active d → c ∈ currencies → c' ∈ currencies →
    _product_lookup_key p c = _product_lookup_key q c' → p = q ∧ c = c'.

Lemma target_key d currencies c c' o o' u u' :
  db_ok d → distinct_products currencies d → c ∈ currencies → c' ∈ currencies →
  target d c o u → target d c' o' u' → u.(us_lookup_key) = u'.(us_lookup_key) → c = c' ∧ o = o' ∧ u = u'.
Proof.
  intros Hok Hd Hc Hc' [p r Hp Hr|p r Hp Hr] [q r' Hq Hr'|q r' Hq Hr']; cbn.
  - intros [-> ->]%(plan_key_active d); [|done..]. assert (r = r') as -> by congruence. done.
  - by intros ?%plan_product_key.
  - intros Heq. symmetry in Heq. by apply plan_product_key in Heq.
  - intros [-> ->]%Hd; [|done..]. assert (r = r') as -> by congruence. done.
Qed.

Lemma target_wanted d currencies c o u :
  c ∈ currencies → target d c o u → u.(us_lookup_key) ∈ _collect_lookup_keys currencies d.
Proof.
  intros Hc [p r Hp _|p r Hp _]; unfold _collect_lookup_keys; apply elem_of_app; [left|right];
    apply list_elem_of_bind; exists p; (split; [|done]); apply list_elem_of_fmap; by exists c.
Qed.

Lemma wanted_non_empty currencies d : Forall (λ k, k ≠ "") (_collect_lookup_keys currencies d).
Proof.
  apply Forall_app. split; apply Forall_forall; intros k (p & Hk & _)%list_elem_of_bind;
    apply list_elem_of_fmap in Hk as (c & -> & _); [apply plan_key_non_empty|apply product_key_non_empty].
Qed.

Lemma static_target d d' c o u : static d d' → target d c o u → target d' c o u.
Proof.
  intros Hs [p r Hp Hr|p r Hp Hr].
  - assert (∃ r', plan_price_row d' p = Some r' ∧ r'.(po_owner) = r.(po_owner)) as (r' & Hr' & <-).
    { pose proof (static_prices _ _ Hs) as He. unfold plan_price_row in *.
      assert (∀ t, tfind (λ _ pp, b_eq pp.(pp_plan_id) p.(plan_id)) (erase_plan_price <$> t) =
        prod_map id erase_plan_price <$> tfind (λ _ pp, b_eq pp.(pp_plan_id) p.(plan_id)) t) as Hf
        by (intros t; by apply tbest_fmap).
      pose proof (Hf (d_prices d)) as H1. pose proof (Hf (d_prices d')) as H2. rewrite He, H1 in H2.
      apply fmap_Some in Hr as ([i a] & Hi & ->). rewrite Hi in H2.
      destruct (tfind _ (d_prices d')) as [[j b]|]; [|done]. injection H2 as -> _. by eexists. }
    constructor; [|done]. unfold active_plans in *. by rewrite (static_plans _ _ Hs).
  - assert (∃ r', product_price_row d' p = Some r' ∧ r'.(po_owner) = r.(po_owner)) as (r' & Hr' & <-).
    { pose proof (static_product_prices _ _ Hs) as He. unfold product_price_row in *.
      assert (∀ t, tfind (λ _ pp, b_eq pp.(pr_product) p.(prod_id)) (erase_product_price <$> t) =
        prod_map id erase_product_price <$> tfind (λ _ pp, b_eq pp.(pr_product) p.(prod_id)) t) as Hf
        by (intros t; by apply tbest_fmap).
      pose proof (Hf (d_product_prices d)) as H1. pose proof (Hf (d_product_prices d')) as H2. rewrite He, H1 in H2.
      apply fmap_Some in Hr as ([i a] & Hi & ->). rewrite Hi in H2.
      destruct (tfind _ (d_product_prices d')) as [[j b]|]; [|done]. injection H2 as -> _. by eexists. }
    constructor; [|done]. unfold products_list_active in *. by rewrite (static_products _ _ Hs).
Qed.

Lemma static_sym d d' : static d d' → static d' d.
Proof.
  intros [F P R L]. split; [|done..]. rewrite F. by destruct d.
Qed.

Lemma static_localized_is_Some d d' o c :
  static d d' → is_Some (localized_row o c d) → is_Some (localized_row o c d').
Proof.
  intros Hs [x Hx]. pose proof (static_localized_row d d' o c Hs) as H. rewrite Hx in H.
  destruct (localized_row o c d'); [eauto|done].
Qed.

Lemma dollar_row_eq o d d' :
  stripe_id_in o "usd" d' = stripe_id_in o "usd" d → amount_in o "usd" d' = amount_in o "usd" d →
  dollar_row o d' = dollar_row o d.
Proof.
  unfold stripe_id_in, amount_in. rewrite b_eq_refl. intros H1 H2.
  destruct (dollar_row o d) as [[]|], (dollar_row o d') as [[]|]; cbn in *; congruence.
Qed.
