(* ===== verification/CatalogSyncFacts.v ===== *)
(** * What the mirroring to Stripe achieves

    [CatalogSync.v] against [StripeCatalog.v]: after a run every active price of the
    catalogue has, in every billing currency, an active Stripe price of its own amount
    and interval under its lookup key, whose id is on the local row; and another run
    changes nothing. *)

From S2P Require Import Prelude PyVal Text Effects Domain Relational Store StoreFacts Django Repositories.
From S2P Require Import Currency Fields OrgViews BillingContext BillingCatalog CatalogFacts LocalizedSync.
From S2P Require Import CatalogSync StripeCatalog CatalogSyncRows.

#[local] Open Scope string_scope.
#[local] Open Scope list_scope.

(** An update of a product. *)
Definition product_call (c : stripe_call) : bool :=
  match c with ProductModify _ _ => true | _ => false end.
(** A call that reads prices or updates a product. *)
Definition quiet_call (c : stripe_call) : bool :=
  match c with ProductModify _ _ | PriceListByKeys _ => true | _ => false end.

Section Facts.
  Context `{StripeServer} `{FxFeed} `{FloatOfString} `{BillingSettings} `{StripeKey}.
  Context `{!StripeCatalog} `{!StripeCatalogLaws}.

(** ** Calls *)

Lemma sync_stripe_product_run v name description metadata w :
  ∃ r l, _sync_stripe_product v name description metadata w = (r, on_log w l) ∧
    Forall (λ c, product_call c = true) l.
Proof.
  unfold _sync_stripe_product. rewrite lift_bind.
  destruct (known_product v) as [[[[i n] dsc] m]|e]; [|exists (Raise e), []; by rewrite on_log_nil].
  destruct (no_update _); [exists (Ok tt), []; by rewrite on_log_nil|].
  rewrite stripe_bind. destruct (stripe_respond _ _) as [x|e]; (eexists _, [_]; split; [reflexivity|by repeat constructor]).
Qed.

Lemma create_product_run u w :
  ∃ r l, create_product u w = (r, on_log w l) ∧ Forall (λ c, price_write c = false) l.
Proof.
  unfold create_product. rewrite stripe_bind.
  destruct (stripe_respond _ _) as [x|e]; (eexists _, [_]; split; [reflexivity|by repeat constructor]).
Qed.

Definition price_of (u : upsert) (product_id : string) (a : Z) (c : string) : price_params :=
  PriceParams product_id a c u.(us_lookup_key) u.(us_price_metadata) u.(us_recurring).

Lemma create_price_run u q a c w :
  ∃ r, create_price u q a c w = (r, on_log w [PriceCreate (price_of u q a c)]) ∧
    match r with
    | Ok i => catalog (w_stripe w ++ [PriceCreate (price_of u q a c)]) =
        <[u.(us_lookup_key) := created_price i (price_of u q a c)]> (catalog (w_stripe w))
    | Raise _ => True
    end.
Proof.
  unfold create_price. rewrite stripe_bind. fold (price_of u q a c).
  destruct (stripe_respond _ _) as [x|e] eqn:Hx; [|by eexists].
  apply catalog_create in Hx as (i & Hi & Hcat). rewrite Hi. exists (Ok i). split; [reflexivity|exact Hcat].
Qed.

(** A price of the wanted amount, currency and interval. *)
Definition fits (u : upsert) (a : Z) (c : string) (p : stripe_price) : Prop :=
  p.(sp_amount) = a ∧ p.(sp_currency) = c ∧ p.(sp_interval) = u.(us_recurring).

Lemma upsert_fitting E u a c w p :
  accurate E (w_stripe w) u.(us_lookup_key) → catalog (w_stripe w) !! u.(us_lookup_key) = Some p → fits u a c p →
  ∃ r l, _upsert_price E u a c w = (r, on_log w l) ∧ Forall (λ c, product_call c = true) l ∧
    match r with Ok i => i = p.(sp_id) | Raise _ => True end.
Proof.
  intros Hacc Hp Hfit. unfold accurate in Hacc. rewrite Hp in Hacc. destruct Hacc as (v & Hv & Hsh).
  unfold _upsert_price. rewrite Hv, lift_bind. destruct (getattr v "product") as [q|e];
    [|exists (Raise e), []; by rewrite on_log_nil].
  rewrite lift_bind, (price_matches_shows _ _ _ _ _ _ Hsh), bool_decide_eq_true_2 by done. rewrite bind_run.
  destruct (sync_stripe_product_run q u.(us_product_name) u.(us_product_description) u.(us_product_metadata) w)
    as (r & l & -> & Hl). destruct Hsh as (Hid & _).
  destruct r as [[]|e]; [|by exists (Raise e), l]. exists (Ok p.(sp_id)), l. rewrite Hid. done.
Qed.

Lemma product_calls_frame h l :
  Forall (λ c, product_call c = true) l → catalog (h ++ l) = catalog h.
Proof.
  intros Hl. apply catalog_frames. eapply Forall_impl; [exact Hl|]. by intros [].
Qed.

(** The price a stale one is replaced with. *)
Lemma replace_price E u a c w p :
  accurate E (w_stripe w) u.(us_lookup_key) → catalog (w_stripe w) !! u.(us_lookup_key) = Some p → ¬ fits u a c p →
  ∃ r l, _upsert_price E u a c w = (r, on_log w l) ∧
    match r with
    | Ok i => ∃ p', catalog (w_stripe w ++ l) = <[u.(us_lookup_key) := p']>
                ((λ q, if b_eq q.(sp_id) p.(sp_id) then set_active false q else q) <$> catalog (w_stripe w)) ∧
              p'.(sp_id) = i ∧ p'.(sp_active) = true ∧ fits u a c p'
    | Raise _ => True
    end.
Proof.
  intros Hacc Hp Hfit. unfold accurate in Hacc. rewrite Hp in Hacc. destruct Hacc as (v & Hv & Hsh).
  unfold _upsert_price. rewrite Hv, lift_bind. destruct (getattr v "product") as [q|e];
    [|exists (Raise e), []; by rewrite on_log_nil].
  rewrite lift_bind, (price_matches_shows _ _ _ _ _ _ Hsh), bool_decide_eq_false_2 by done. rewrite lift_bind.
  destruct (if is_stripe_product q then _ else _) as [qid|e]; [|exists (Raise e), []; by rewrite on_log_nil].
  destruct Hsh as (Hid & _). rewrite lift_bind, Hid, stripe_bind. change (py_str (JStr (sp_id p))) with p.(sp_id).
  destruct (stripe_respond _ _) as [x|e] eqn:Hx; [|by eexists _, [_]].
  apply catalog_modify in Hx. set (w1 := on_log w _). rewrite bind_run.
  destruct (sync_stripe_product_run (JStr qid) u.(us_product_name) u.(us_product_description) u.(us_product_metadata) w1)
    as (r & l & -> & Hl). unfold w1. rewrite on_log_app.
  destruct r as [[]|e]; [|by eexists _, _].
  destruct (create_price_run u qid a c (on_log w ([PriceModify p.(sp_id) false] ++ l))) as (r & -> & Hr).
  rewrite on_log_app. eexists r, _. split; [reflexivity|]. destruct r as [i|e]; [|done].
  eexists. rewrite (assoc_L (++)). cbn [on_log w_stripe] in Hr. rewrite Hr.
  rewrite (assoc_L (++)), (product_calls_frame _ l Hl), Hx. done.
Qed.

Lemma upsert_price_spec E u a c w :
  accurate E (w_stripe w) u.(us_lookup_key) →
  (∀ p, catalog (w_stripe w) !! u.(us_lookup_key) = Some p → p.(sp_active) = true) →
  ∃ r l, _upsert_price E u a c w = (r, on_log w l) ∧
    match r with
    | Ok i => (∃ p, catalog (w_stripe w ++ l) !! u.(us_lookup_key) = Some p ∧ p.(sp_id) = i ∧
                 p.(sp_active) = true ∧ fits u a c p) ∧
              ∀ k, k ≠ u.(us_lookup_key) → catalog (w_stripe w ++ l) !! k = catalog (w_stripe w) !! k
    | Raise _ => True
    end.
Proof.
  intros Hacc Hact. destruct (catalog (w_stripe w) !! us_lookup_key u) as [p|] eqn:Hp.
  - assert (Decision (fits u a c p)) as [Hfit|Hfit] by (unfold fits; apply _).
    + destruct (upsert_fitting E u a c w p Hacc Hp Hfit) as (r & l & -> & Hl & Hr). exists r, l. split; [done|].
      destruct r as [i|e]; [|done]. rewrite (product_calls_frame _ _ Hl). split; [|done]. exists p. subst i. by auto.
    + destruct (replace_price E u a c w p Hacc Hp Hfit) as (r & l & -> & Hr). exists r, l. split; [done|].
      destruct r as [i|e]; [|done]. destruct Hr as (p' & -> & Hi & Ha & Hf). split.
      * exists p'. by rewrite lookup_insert_eq.
      * intros k Hk. rewrite lookup_insert_ne, lookup_fmap by done.
        destruct (catalog (w_stripe w) !! k) as [q|] eqn:Hq; [|done]. cbn. destruct (b_eq _ _) eqn:Hb; [|done].
        rewrite b_eq_true in Hb. destruct Hk. by eapply catalog_ids.
  - unfold accurate in Hacc. rewrite Hp in Hacc. unfold _upsert_price. rewrite Hacc, bind_run.
    destruct (create_product_run u w) as (r & l & -> & Hl). destruct r as [q|e]; [|by exists (Raise e), l].
    destruct (create_price_run u q a c (on_log w l)) as (r & -> & Hr). rewrite on_log_app. eexists r, _.
    split; [reflexivity|]. destruct r as [i|e]; [|done]. cbn [on_log w_stripe] in Hr.
    rewrite (assoc_L (++)), Hr, (catalog_frames _ _ Hl). split.
    + eexists. by rewrite lookup_insert_eq.
    + intros k Hk. by rewrite lookup_insert_ne.
Qed.

(** ** One row *)

Implicit Types w : world store.

(** The price [r] of the catalogue is in Stripe in [c], as the local row says. *)
Definition mirrored (w : world store) (o : price_owner) (c : string) (u : upsert) : Prop :=
  ∃ p, catalog (w_stripe w) !! u.(us_lookup_key) = Some p ∧ p.(sp_active) = true ∧
    amount_in o c (s_db (w_db w)) = Some p.(sp_amount) ∧ p.(sp_currency) = c ∧
    p.(sp_interval) = u.(us_recurring) ∧ stripe_id_in o c (s_db (w_db w)) = Some p.(sp_id).

(** An instance that has been read, and not written since. *)
Definition current (d : db) (c : string) (r : price_obj) : Prop :=
  dollar_row r.(po_owner) d = Some (r.(po_stripe_price_id), r.(po_amount)) ∧
  (c ≠ "usd" → is_Some (localized_row r.(po_owner) c d)).

Lemma unit_amount_run r c w :
  current (s_db (w_db w)) c r →
  ∃ a, amount_in r.(po_owner) c (s_db (w_db w)) = Some a ∧ _unit_amount_for r c w = (Ok (Some a), w).
Proof.
  intros [Hrow Hloc]. unfold amount_in, _unit_amount_for. destruct (b_eq c "usd") eqn:Hc.
  - rewrite Hrow. by eexists.
  - rewrite b_eq_false in Hc. destruct (Hloc Hc) as [[i l] Hl]. unfold dquery. rewrite query_bind, Hl. by eexists.
Qed.

Definition with_db (d : db) (w : world store) : world store := set_db (mkStore d (s_cache (w_db w)) (s_media (w_db w))) w.

Lemma with_db_same w : with_db (s_db (w_db w)) w = w.
Proof. by destruct w as [[] ? ? ? ?]. Qed.

(** [x] is a run from [w] that sets the Stripe price of [o] in [c] to [k], or fails
    and changes nothing; it does nothing when that is the price already. *)
Definition wrote (o : price_owner) (c k : string) w (x : outcome unit * world store) : Prop :=
  let d := s_db (w_db w) in
  ∃ d', x.2 = with_db d' w ∧ db_ok d' ∧ static d d' ∧
    match x.1 with
    | Ok _ => stripe_id_in o c d' = Some k ∧
        ∀ o' c', (o', c') ≠ (o, c) → stripe_id_in o' c' d' = stripe_id_in o' c' d
    | Raise _ => d' = d
    end ∧ (stripe_id_in o c d = Some k → x.1 = Ok tt ∧ d' = d).

Lemma wrote_same o c k w :
  db_ok (s_db (w_db w)) → stripe_id_in o c (s_db (w_db w)) = Some k → wrote o c k w (Ok tt, w).
Proof. intros Hok Hk. exists (s_db (w_db w)). by rewrite with_db_same. Qed.

Lemma wrote_other o c k w m :
  db_ok (s_db (w_db w)) → stripe_id_in o c (s_db (w_db w)) ≠ Some k →
  (∀ d', m (s_db (w_db w)) = Ok d' → writes_price_id o c k (s_db (w_db w)) d') → wrote o c k w (dexec m w).
Proof.
  intros Hok Hk Hm. unfold wrote. rewrite dexec_run. destruct (m (s_db (w_db w))) as [d'|e].
  - destruct (Hm d' eq_refl) as [Hok' Hst Hid Hfr]. by exists d'.
  - exists (s_db (w_db w)). by rewrite with_db_same.
Qed.

Lemma write_price_id_run r k c w :
  db_ok (s_db (w_db w)) → current (s_db (w_db w)) c r → wrote r.(po_owner) c k w (_write_price_id r k c w).
Proof.
  intros Hok [Hrow Hloc]. unfold _write_price_id. destruct (b_eq c "usd") eqn:Hc.
  - rewrite b_eq_true in Hc. subst c. assert (stripe_id_in r.(po_owner) "usd" (s_db (w_db w)) = Some r.(po_stripe_price_id)) as Hid
      by (unfold stripe_id_in; by rewrite b_eq_refl, Hrow).
    destruct (b_eq k _) eqn:Hk; [rewrite b_eq_true in Hk; subst k; by apply wrote_same|].
    rewrite b_eq_false in Hk. apply wrote_other; [done|rewrite Hid; congruence|].
    intros d' Hd. by apply save_price_id_spec.
  - rewrite b_eq_false in Hc. destruct (Hloc Hc) as [[i l] Hl]. unfold dquery. rewrite query_bind, Hl. cbn [snd fst].
    assert (stripe_id_in r.(po_owner) c (s_db (w_db w)) = l.(lp_stripe_price_id)) as Hid
      by (unfold stripe_id_in; by rewrite (proj2 (b_eq_false _ _) Hc), Hl).
    destruct (b_eq _ _) eqn:Hk; [rewrite b_eq_true in Hk; apply wrote_same; [done|by rewrite Hid]|].
    rewrite b_eq_false in Hk. apply wrote_other; [done|by rewrite Hid|].
    intros d' Hd. by eapply save_localized_id_spec.
Qed.

(** What a run of [sync_row] does: nothing happens to the other prices and keys. *)
Definition row_synced (o : price_owner) (c : string) (u : upsert) w (x : outcome unit * world store) : Prop :=
  let d := s_db (w_db w) in let d' := s_db (w_db x.2) in
  db_ok d' ∧ static d d' ∧
  match x.1 with
  | Ok _ => mirrored x.2 o c u ∧
      (∀ k, k ≠ u.(us_lookup_key) → catalog (w_stripe x.2) !! k = catalog (w_stripe w) !! k) ∧
      (∀ o' c', (o', c') ≠ (o, c) → stripe_id_in o' c' d' = stripe_id_in o' c' d)
  | Raise _ => True
  end.

Lemma sync_row_run E c r u w :
  db_ok (s_db (w_db w)) → current (s_db (w_db w)) c r → accurate E (w_stripe w) u.(us_lookup_key) →
  (∀ p, catalog (w_stripe w) !! u.(us_lookup_key) = Some p → p.(sp_active) = true) →
  row_synced r.(po_owner) c u w (sync_row E c (Some r, u) w).
Proof.
  intros Hok Hcur Hacc Hact. unfold sync_row. cbn [fst snd].
  destruct (unit_amount_run r c w Hcur) as (a & Ha & Hrun). rewrite bind_run, Hrun, bind_run.
  destruct (upsert_price_spec E u a c w Hacc Hact) as (x & l & -> & Hx). destruct x as [k|e]; [|done].
  destruct Hx as [(p & Hp & Hid & Hpa & Hfa & Hfc & Hfi) Hframe].
  pose proof (write_price_id_run r k c (on_log w l) Hok Hcur) as (d' & Hw & Hok' & Hst & Hres & _).
  unfold row_synced. rewrite Hw. cbn [with_db set_db w_db s_db w_stripe on_log]. split; [done|]. split; [done|].
  destruct (_write_price_id _ _ _ _).1 as [[]|e]; [|done]. destruct Hres as [Hid' Hfr]. split; [|done].
  exists p. cbn [with_db set_db w_db s_db w_stripe on_log]. rewrite (static_amount (s_db (w_db w)) d' _ _ Hst), Ha, Hfa, Hid', Hid.
  done.
Qed.

(** A mirrored price is left as it is. *)
Lemma sync_row_quiet E c r u w :
  db_ok (s_db (w_db w)) → current (s_db (w_db w)) c r → accurate E (w_stripe w) u.(us_lookup_key) →
  mirrored w r.(po_owner) c u →
  ∃ x l, sync_row E c (Some r, u) w = (x, on_log w l) ∧ Forall (λ c, product_call c = true) l.
Proof.
  intros Hok Hcur Hacc (p & Hp & _ & Ham & Hc & Hi & Hid). unfold sync_row. cbn [fst snd].
  destruct (unit_amount_run r c w Hcur) as (a & Ha & Hrun). rewrite bind_run, Hrun, bind_run.
  assert (fits u a c p) as Hfit by (split; [congruence|done]).
  destruct (upsert_fitting E u a c w p Hacc Hp Hfit) as (x & l & -> & Hl & Hx).
  destruct x as [k|e]; [|by exists (Raise e), l]. subst k. exists (Ok tt), l.
  destruct (write_price_id_run r p.(sp_id) c (on_log w l) Hok Hcur) as (d' & Hw & _ & _ & _ & Hsame).
  destruct (Hsame Hid) as [Hres ->]. rewrite (surjective_pairing (_write_price_id _ _ _ _)), Hres, Hw, with_db_same. done.
Qed.

(** ** The loops *)

Section Run.
  Context (E : gmap string json) (d0 : db) (Hok0 : db_ok d0).
  Context (Hdistinct : distinct_products BILLING_CURRENCIES d0).
  Context (Hcomplete : ∀ c o u, c ∈ BILLING_CURRENCIES → c ≠ "usd" → target d0 c o u →
                         is_Some (localized_row o c d0)).

(** [done] has been mirrored; what [E] says of the rest still holds. *)
Record progress (done : string → price_owner → upsert → Prop) w : Prop := {
  pr_ok : db_ok (s_db (w_db w));
  pr_static : static d0 (s_db (w_db w));
  pr_done c o u : c ∈ BILLING_CURRENCIES → target d0 c o u → done c o u → mirrored w o c u;
  pr_rest c o u : c ∈ BILLING_CURRENCIES → target d0 c o u → ¬ done c o u →
    accurate E (w_stripe w) u.(us_lookup_key) ∧
    ∀ p, catalog (w_stripe w) !! u.(us_lookup_key) = Some p → p.(sp_active) = true
}.

Lemma progress_ext (P Q : string → price_owner → upsert → Prop) w :
  (∀ c o u, target d0 c o u → P c o u ↔ Q c o u) → progress P w → progress Q w.
Proof.
  intros HPQ [Hok Hst Hd Hr]. split; [done|done| |]; intros c o u Hc Ht HQ.
  - apply Hd; [done|done|]. by eapply HPQ.
  - apply (Hr c o u); [done|done|]. by rewrite HPQ.
Qed.

Definition failed w : Prop := db_ok (s_db (w_db w)) ∧ static d0 (s_db (w_db w)).

(** One more target. *)
Lemma progress_step done c r u w :
  progress done w → c ∈ BILLING_CURRENCIES → target d0 c r.(po_owner) u → ¬ done c r.(po_owner) u →
  current (s_db (w_db w)) c r →
  match sync_row E c (Some r, u) w with
  | (Ok _, w') => progress (λ c' o' u', done c' o' u' ∨ c' = c ∧ o' = r.(po_owner)) w' ∧
      ∀ o', o' ≠ r.(po_owner) → dollar_row o' (s_db (w_db w')) = dollar_row o' (s_db (w_db w))
  | (Raise _, w') => failed w'
  end.
Proof.
  intros [Hok Hst Hd Hr] Hc Ht Hn Hcur. destruct (Hr c r.(po_owner) u Hc Ht Hn) as [Hacc Hact].
  pose proof (sync_row_run E c r u w Hok Hcur Hacc Hact) as (Hok' & Hst' & Hres).
  destruct (sync_row E c (Some r, u) w) as [[[]|e] w']; cbn [fst snd] in *.
  2:{ split; [done|]. by etrans. }
  destruct Hres as (Hm & Hcat & Hid). split.
  - split; [done|by etrans| |].
    + intros c' o' u' Hc' Ht' [Hdone|[-> ->]].
      * destruct (decide (u'.(us_lookup_key) = u.(us_lookup_key))) as [Hk|Hk].
        { by destruct (target_key d0 _ c' c o' r.(po_owner) u' u Hok0 Hdistinct Hc' Hc Ht' Ht Hk) as (-> & -> & ->). }
        destruct (Hd c' o' u' Hc' Ht' Hdone) as (p & Hp & Ha & Ham & Hcu & Hi & Hsid). exists p.
        rewrite Hcat by done. rewrite (static_amount _ _ _ _ Hst'). split_and!; [done..|].
        rewrite Hid; [done|]. intros [= -> ->]. apply Hk. by rewrite (target_owner d0 c r.(po_owner) u' u).
      * by rewrite (target_owner d0 c r.(po_owner) u' u).
    + intros c' o' u' Hc' Ht' Hn'. assert (u'.(us_lookup_key) ≠ u.(us_lookup_key)) as Hk.
      { intros Hk. apply Hn'. right.
        by destruct (target_key d0 _ c' c o' r.(po_owner) u' u Hok0 Hdistinct Hc' Hc Ht' Ht Hk) as (-> & -> & _). }
      destruct (Hr c' o' u' Hc' Ht') as [Hacc' Hact']; [tauto|]. unfold accurate. rewrite Hcat by done. done.
  - intros o' Ho'. apply dollar_row_eq; [apply Hid; congruence|by apply static_amount].
Qed.

(** The rows of a loop, as the query at its head reads them. *)
Definition loop_rows (d : db) (c : string) (rows : list (option price_obj * upsert)) : Prop :=
  NoDup (omap (λ x, po_owner <$> x.1) rows) ∧
  ∀ r u, (Some r, u) ∈ rows → target d0 c r.(po_owner) u ∧ current d c r.

Lemma progress_loop rows done c w :
  progress done w → c ∈ BILLING_CURRENCIES → loop_rows (s_db (w_db w)) c rows →
  (∀ r u, (Some r, u) ∈ rows → ¬ done c r.(po_owner) u) →
  match for_each (sync_row E c) rows w with
  | (Ok _, w') => progress (λ c' o' u', done c' o' u' ∨ c' = c ∧ o' ∈ omap (λ x, po_owner <$> x.1) rows) w'
  | (Raise _, w') => failed w'
  end.
Proof.
  revert done w. induction rows as [|[[r|] u] rows IH]; intros done w Hp Hc [Hnd Hrows] Hn.
  - eapply progress_ext; [|exact Hp]. intros c' o' u' _. split; [tauto|]. intros [?|[_ []%elem_of_nil]]. done.
  - cbn [for_each omap list_omap fst] in *. cbn in Hnd. apply NoDup_cons in Hnd as [Hno Hnd].
    destruct (Hrows r u) as [Ht Hcur]; [left|]. rewrite bind_run.
    pose proof (progress_step done c r u w Hp Hc Ht (Hn r u ltac:(left)) Hcur) as Hstep.
    destruct (sync_row E c (Some r, u) w) as [[[]|e] w1]; [|done]. destruct Hstep as [Hp1 Hdol].
    assert (∀ r' u', (Some r', u') ∈ rows → r'.(po_owner) ≠ r.(po_owner)) as Hother.
    { intros r' u' Hin Heq. apply Hno, list_elem_of_omap. exists (Some r', u'). split; [done|]. cbn. by rewrite Heq. }
    specialize (IH _ w1 Hp1 Hc). cbv beta in IH.
    assert (loop_rows (s_db (w_db w1)) c rows) as Hrows1.
    { split; [done|]. intros r' u' Hin. destruct (Hrows r' u') as [Ht' [Hrow' Hloc']]; [by right|]. split; [done|].
      split; [by rewrite Hdol by (by eapply Hother)|]. intros Hcu.
      eapply (static_localized_is_Some d0); [apply Hp1|by eapply Hcomplete]. }
    specialize (IH Hrows1). destruct (for_each (sync_row E c) rows w1) as [[[]|e] w2].
    + eapply progress_ext; [|apply IH].
      * intros c' o' u' _. cbn. rewrite elem_of_cons. tauto.
      * intros r' u' Hin [Hd|[_ Ho]]; [by apply (Hn r' u'); [right|]|by eapply Hother].
    + apply IH. intros r' u' Hin [Hd|[_ Ho]]; [by apply (Hn r' u'); [right|]|by eapply Hother].
  - cbn [for_each]. rewrite bind_run. cbn [sync_row fst mret M_ret]. apply IH; [done|done|split; [done|]|].
    + intros r' u' Hin. apply Hrows. by right.
    + intros r' u' Hin. apply Hn. by right.
Qed.

(** The two queries give such rows. *)
Lemma omap_rows_nodup {A} (f : A → option price_obj) (u : A → upsert) (l : list A) :
  NoDup l → (∀ x y r r', x ∈ l → y ∈ l → f x = Some r → f y = Some r' → r.(po_owner) = r'.(po_owner) → x = y) →
  NoDup (omap (λ x : option price_obj * upsert, po_owner <$> x.1) ((λ x, (f x, u x)) <$> l)).
Proof.
  intros Hnd Hf. induction l as [|x l IH]; [constructor|]. apply NoDup_cons in Hnd as [Hx Hnd]. cbn.
  assert (NoDup (omap (λ x : option price_obj * upsert, po_owner <$> x.1) ((λ x, (f x, u x)) <$> l))) as Hl.
  { apply IH; [done|]. intros ???? Ha Hb. by apply Hf; right. }
  destruct (f x) as [r|] eqn:Hr; cbn; [|done]. constructor; [|done].
  intros ([o v] & (y & [= -> ->] & Hy)%list_elem_of_fmap & (r' & Hr' & Heq)%fmap_Some)%list_elem_of_omap. cbn in Hr'.
  apply Hx. rewrite (Hf x y r r'); [done|left|by right|done..].
Qed.

Lemma active_plans_nodup d : db_ok d → NoDup (active_plans d).
Proof.
  intros Hok. unfold active_plans. rewrite merge_sort_Permutation. apply NoDup_fmap_2_strong; [|apply NoDup_map_to_list].
  intros [i p] [j q] Hi%elem_of_map_to_list Hj%elem_of_map_to_list Heq. cbn in Heq. subst q. unfold tfilter in *.
  apply map_lookup_filter_Some in Hi as [Hi _], Hj as [Hj _].
  assert (map_Forall (λ i a, plan_id a = i) d.(d_plans)) as Hids by (unfold db_ok, ids_ok in Hok; tauto).
  apply Hids in Hi. apply Hids in Hj. congruence.
Qed.

Lemma active_products_nodup d : db_ok d → NoDup (products_list_active d).
Proof.
  intros Hok. unfold products_list_active. apply NoDup_fmap_2_strong; [|apply NoDup_map_to_list].
  intros [i p] [j q] Hi%elem_of_map_to_list Hj%elem_of_map_to_list Heq. cbn in Heq. subst q. unfold tfilter in *.
  apply map_lookup_filter_Some in Hi as [Hi _], Hj as [Hj _].
  assert (map_Forall (λ i a, prod_id a = i) d.(d_products)) as Hids by (unfold db_ok, ids_ok in Hok; tauto).
  apply Hids in Hi. apply Hids in Hj. congruence.
Qed.

Definition plan_rows (d : db) (c : string) : list (option price_obj * upsert) :=
  (λ p, (plan_price_row d p, plan_upsert p c)) <$> active_plans d.
Definition product_rows (d : db) (c : string) : list (option price_obj * upsert) :=
  (λ p, (product_price_row d p, product_upsert p c)) <$> products_list_active d.

Lemma plan_rows_ok d c : db_ok d → static d0 d → c ∈ BILLING_CURRENCIES → loop_rows d c (plan_rows d c).
Proof.
  intros Hok Hst Hc. split.
  - apply omap_rows_nodup; [by apply active_plans_nodup|]. intros. by eapply plan_of_price.
  - intros r u (p & [= Hr ->] & Hp)%list_elem_of_fmap.
    assert (target d0 c r.(po_owner) (plan_upsert p c)) as Ht by (eapply static_target; [by apply static_sym|by constructor]).
    split; [done|]. split; [by eapply plan_price_row_dollar|]. intros Hcu.
    eapply static_localized_is_Some; [done|by eapply Hcomplete].
Qed.

Lemma product_rows_ok d c : db_ok d → static d0 d → c ∈ BILLING_CURRENCIES → loop_rows d c (product_rows d c).
Proof.
  intros Hok Hst Hc. split.
  - apply omap_rows_nodup; [by apply active_products_nodup|]. intros. by eapply product_of_price.
  - intros r u (p & [= Hr ->] & Hp)%list_elem_of_fmap.
    assert (target d0 c r.(po_owner) (product_upsert p c)) as Ht by (eapply static_target; [by apply static_sym|by constructor]).
    split; [done|]. split; [by eapply product_price_row_dollar|]. intros Hcu.
    eapply static_localized_is_Some; [done|by eapply Hcomplete].
Qed.

Definition is_plan_price (o : price_owner) : bool := match o with OfPlanPrice _ => true | _ => false end.

Lemma plan_rows_owners d c o :
  o ∈ omap (λ x : option price_obj * upsert, po_owner <$> x.1) (plan_rows d c) ↔
  is_plan_price o = true ∧ ∃ u, target d c o u.
Proof.
  rewrite list_elem_of_omap. split.
  - intros ([x u] & (p & [= -> ->] & Hp)%list_elem_of_fmap & (r & Hr & ->)%fmap_Some). cbn in Hr.
    split; [|by eexists; constructor]. by apply plan_price_row_Some in Hr as (i & pp & -> & _).
  - intros [Ho [u Ht]]. revert Ho. destruct Ht as [p r Hp Hr|p r Hp Hr]; intros Ho.
    + eexists. split; [apply list_elem_of_fmap; by exists p|]. cbn. by rewrite Hr.
    + apply product_price_row_Some in Hr as (i & pp & -> & _). discriminate Ho.
Qed.

Lemma product_rows_owners d c o :
  o ∈ omap (λ x : option price_obj * upsert, po_owner <$> x.1) (product_rows d c) ↔
  is_plan_price o = false ∧ ∃ u, target d c o u.
Proof.
  rewrite list_elem_of_omap. split.
  - intros ([x u] & (p & [= -> ->] & Hp)%list_elem_of_fmap & (r & Hr & ->)%fmap_Some). cbn in Hr.
    split; [|by eexists; constructor]. by apply product_price_row_Some in Hr as (i & pp & -> & _).
  - intros [Ho [u Ht]]. revert Ho. destruct Ht as [p r Hp Hr|p r Hp Hr]; intros Ho.
    + apply plan_price_row_Some in Hr as (i & pp & -> & _). discriminate Ho.
    + eexists. split; [apply list_elem_of_fmap; by exists p|]. cbn. by rewrite Hr.
Qed.

(** A currency of the outer loop. *)
Lemma progress_currency gone c w :
  progress (λ c' _ _, c' ∈ gone) w → c ∈ BILLING_CURRENCIES → c ∉ gone →
  match (_sync_plans E c;; _sync_products E c) w with
  | (Ok _, w') => progress (λ c' _ _, c' ∈ gone ++ [c]) w'
  | (Raise _, w') => failed w'
  end.
Proof.
  intros Hp Hc Hn. rewrite bind_run. unfold _sync_plans at 1, dquery. rewrite query_bind. fold (plan_rows (s_db (w_db w)) c).
  pose proof (progress_loop (plan_rows (s_db (w_db w)) c) _ c w Hp Hc) as Hplans.
  specialize (Hplans (plan_rows_ok _ _ (pr_ok _ _ Hp) (pr_static _ _ Hp) Hc) ltac:(by intros)).
  destruct (for_each _ (plan_rows _ _) w) as [[[]|e] w1]; [|done].
  unfold _sync_products, dquery. rewrite query_bind. fold (product_rows (s_db (w_db w1)) c).
  pose proof (progress_loop (product_rows (s_db (w_db w1)) c) _ c w1 Hplans Hc) as Hproducts.
  specialize (Hproducts (product_rows_ok _ _ (pr_ok _ _ Hplans) (pr_static _ _ Hplans) Hc)).
  match type of Hproducts with (?P → _) => assert P as HP end.
  { intros r u Hin [?|[_ [Ho _]%plan_rows_owners]]; [done|].
    assert (is_plan_price r.(po_owner) = false) as Ho' by (apply (product_rows_owners (s_db (w_db w1)) c),
      list_elem_of_omap; by exists (Some r, u)). congruence. }
  specialize (Hproducts HP). destruct (for_each _ (product_rows _ _) w1) as [[[]|e] w2]; [|done].
  eapply progress_ext; [|exact Hproducts]. intros c' o u Ht. rewrite elem_of_app, list_elem_of_singleton.
  rewrite plan_rows_owners, product_rows_owners. split; [tauto|]. intros [?| ->]; [tauto|].
  destruct (is_plan_price o); [left; right|right]; (split; [done|]); (split; [done|]); exists u;
    (eapply static_target; [|exact Ht]); [apply Hp|apply Hplans].
Qed.
End Run.

(** ** The command *)

(** Every active price of the catalogue has a localized row in every billing currency
    other than the US dollar, so that no exchange rate is needed. *)
Definition localized_complete (d : db) : Prop :=
  ∀ c o u, c ∈ BILLING_CURRENCIES → c ≠ "usd" → target d c o u → is_Some (localized_row o c d).

(** The prices that hold the wanted keys are active. *)
Definition keys_active w : Prop :=
  ∀ k p, k ∈ _collect_lookup_keys BILLING_CURRENCIES (s_db (w_db w)) →
    catalog (w_stripe w) !! k = Some p → p.(sp_active) = true.

Lemma list_calls_quiet (P : stripe_call → bool) l :
  (∀ ks, P (PriceListByKeys ks) = true) → Forall (λ c, ∃ ks, c = PriceListByKeys ks) l →
  Forall (λ c, P c = true) l.
Proof. intros HP Hl. eapply Forall_impl; [exact Hl|]. intros c [ks ->]. apply HP. Qed.

(** C14. A run against a Stripe that keeps its documented promises, when the names of
    the active products give distinct lookup keys, every price has its localized rows
    and no price that holds a wanted key is archived: whatever happens, no declared constraint is broken and nothing changes
    locally but Stripe price ids; and a run that ends without an exception leaves, for
    every active plan or product with a price and every billing currency, an active
    Stripe price under its lookup key, of the local amount, the currency and the
    plan's interval, with its id on the local row that is charged. *)
Theorem sync_stripe_catalog_mirrors w :
  store_ok (w_db w) → NoDup BILLING_CURRENCIES → stripe_api_key ≠ "" →
  distinct_products BILLING_CURRENCIES (s_db (w_db w)) → localized_complete (s_db (w_db w)) → keys_active w →
  let '(r, w') := sync_stripe_catalog w in
  store_ok (w_db w') ∧ static (s_db (w_db w)) (s_db (w_db w')) ∧
  (r = Ok tt → ∀ c o u, c ∈ BILLING_CURRENCIES → target (s_db (w_db w)) c o u → mirrored w' o c u).
Proof.
  intros Hok Hnd Hkey Hdist Hcomp Hact. unfold sync_stripe_catalog. rewrite (proj2 (b_eq_false _ _) Hkey).
  unfold dquery. rewrite query_bind, bind_run. set (keys := _collect_lookup_keys _ _).
  destruct (bulk_fetch_spec keys w (wanted_non_empty _ _)) as (r & l & -> & Hl & Hr).
  destruct r as [E|e]; [|split_and!; [done|done|discriminate]].
  assert (catalog (w_stripe (on_log w l)) = catalog (w_stripe w)) as Hcat.
  { apply catalog_frames. eapply Forall_impl; [exact Hl|]. by intros c [ks ->]. }
  pose proof (for_each_rule (λ currency, _sync_plans E currency;; _sync_products E currency) BILLING_CURRENCIES
    (λ gone, progress E (s_db (w_db w)) (λ c _ _, c ∈ gone)) (failed (s_db (w_db w))) (on_log w l)) as Hrule.
  match type of Hrule with (?P → _) => assert P as Hinit end.
  { split; [done|done|by intros ? ? ? _ _ ?%elem_of_nil|]. intros c o u Hc Ht _. unfold accurate. rewrite Hcat.
    split; [by apply Hr, (target_wanted _ _ c o)|]. intros p. by apply Hact, (target_wanted _ _ c o). }
  specialize (Hrule Hinit). match type of Hrule with (?P → _) => assert P as Hstep end.
  { intros gone c rest w0 Hsplit Hp. pose proof Hnd as Hnd'. rewrite Hsplit in Hnd'.
    apply progress_currency; [done|done|done|done| |].
    - rewrite Hsplit. apply elem_of_app. right. left.
    - apply NoDup_app in Hnd' as (_ & Hnot & _). intros Hin. by apply (Hnot c Hin); left. }
  specialize (Hrule Hstep). destruct (for_each _ _ _) as [[[]|e] w'].
  - split_and!; [apply Hrule|apply Hrule|]. intros _ c o u Hc Ht. by eapply (pr_done _ _ _ _ Hrule).
  - destruct Hrule as [Hok' Hst]. split_and!; [done|done|discriminate].
Qed.

(** ** A second run *)

(** A run that only reads prices and updates products. *)
Definition quietly (m : M store unit) w : Prop :=
  ∃ r l, m w = (r, on_log w l) ∧ Forall (λ c, quiet_call c = true) l.

Lemma quietly_bind m1 m2 w :
  quietly m1 w → (∀ l, Forall (λ c, quiet_call c = true) l → quietly m2 (on_log w l)) → quietly (m1;; m2) w.
Proof.
  intros (r & l & Hrun & Hl) Hm. unfold quietly. rewrite bind_run, Hrun. destruct r as [[]|e]; [|by exists (Raise e), l].
  destruct (Hm l Hl) as (r & l2 & -> & Hl2). exists r, (l ++ l2). rewrite on_log_app. split; [done|by apply Forall_app].
Qed.

Lemma quietly_for_each {A} (f : A → M store unit) l w :
  (∀ a calls, a ∈ l → Forall (λ c, quiet_call c = true) calls → quietly (f a) (on_log w calls)) →
  quietly (for_each f l) w.
Proof.
  revert w. induction l as [|a l IH]; intros w Hf; [exists (Ok tt), []; by rewrite on_log_nil|].
  apply quietly_bind; [|intros calls Hcalls; apply IH].
  - rewrite <-(on_log_nil w). apply Hf; [left|constructor].
  - intros a' calls' Ha' Hcalls'. rewrite on_log_app. apply Hf; [by right|by apply Forall_app].
Qed.

Lemma quiet_catalog h l : Forall (λ c, quiet_call c = true) l → catalog (h ++ l) = catalog h.
Proof. intros Hl. apply catalog_frames. eapply Forall_impl; [exact Hl|]. by intros []. Qed.

Definition all_mirrored w : Prop :=
  ∀ c o u, c ∈ BILLING_CURRENCIES → target (s_db (w_db w)) c o u → mirrored w o c u.

Lemma mirrored_current w c r u :
  mirrored w r.(po_owner) c u → dollar_row r.(po_owner) (s_db (w_db w)) = Some (r.(po_stripe_price_id), r.(po_amount)) →
  current (s_db (w_db w)) c r.
Proof.
  intros (p & _ & _ & _ & _ & _ & Hid) Hrow. split; [done|]. intros Hc. unfold stripe_id_in in Hid.
  rewrite (proj2 (b_eq_false _ _) Hc) in Hid. destruct (localized_row _ _ _) as [[]|]; [eauto|discriminate].
Qed.

Lemma sync_row_quietly E c x w :
  store_ok (w_db w) → all_mirrored w → c ∈ BILLING_CURRENCIES →
  (∀ r u, x = (Some r, u) → target (s_db (w_db w)) c r.(po_owner) u ∧ accurate E (w_stripe w) u.(us_lookup_key) ∧
     dollar_row r.(po_owner) (s_db (w_db w)) = Some (r.(po_stripe_price_id), r.(po_amount))) →
  quietly (sync_row E c x) w.
Proof.
  intros Hok Hall Hc Hx. destruct x as [[r|] u]; [|exists (Ok tt), []; by rewrite on_log_nil].
  destruct (Hx r u eq_refl) as (Ht & Hacc & Hrow). pose proof (Hall c _ u Hc Ht) as Hm.
  destruct (sync_row_quiet E c r u w Hok (mirrored_current w c r u Hm Hrow) Hacc Hm) as (y & l & Hrun & Hl).
  exists y, l. split; [done|]. eapply Forall_impl; [exact Hl|]. by intros [].
Qed.

(** Where every price is mirrored, as after a run, a run against the same Stripe
    creates and archives no price and changes nothing locally: it only lists prices
    and may update a product's name, description or metadata. *)
Theorem sync_stripe_catalog_quiet w :
  store_ok (w_db w) → all_mirrored w → quietly sync_stripe_catalog w.
Proof.
  intros Hok Hall. unfold sync_stripe_catalog. destruct (b_eq stripe_api_key ""); [exists (Ok tt), []; by rewrite on_log_nil|].
  unfold quietly, dquery. rewrite query_bind, bind_run. set (keys := _collect_lookup_keys _ _).
  destruct (bulk_fetch_spec keys w (wanted_non_empty _ _)) as (r & l & -> & Hl & Hr).
  apply (list_calls_quiet quiet_call) in Hl; [|done]. destruct r as [E|e]; [|by exists (Raise e), l].
  assert (quietly (for_each (λ currency, _sync_plans E currency;; _sync_products E currency) BILLING_CURRENCIES)
    (on_log w l)) as (r & l2 & -> & Hl2).
  2:{ exists r, (l ++ l2). rewrite on_log_app. split; [done|by apply Forall_app]. }
  assert (∀ c l, c ∈ BILLING_CURRENCIES → Forall (λ c, quiet_call c = true) l →
    ∀ x, x ∈ plan_rows (s_db (w_db w)) c ++ product_rows (s_db (w_db w)) c → quietly (sync_row E c x) (on_log w l)) as Hrow.
  { intros c l' Hc Hl' x Hx. pose proof (quiet_catalog (w_stripe w) l' Hl') as Hcat.
    apply sync_row_quietly; [done| |done|].
    - intros c' o u Hc' Ht. unfold mirrored. cbn [on_log w_stripe]. rewrite Hcat. by apply Hall.
    - intros r u ->. assert (target (s_db (w_db w)) c r.(po_owner) u ∧
        dollar_row r.(po_owner) (s_db (w_db w)) = Some (r.(po_stripe_price_id), r.(po_amount))) as [Ht Hd].
      { apply elem_of_app in Hx as [(p & [= Hp ->] & Hin)%list_elem_of_fmap|(p & [= Hp ->] & Hin)%list_elem_of_fmap].
        - split; [by constructor|by eapply plan_price_row_dollar].
        - split; [by constructor|by eapply product_price_row_dollar]. }
      split; [done|]. split; [|done]. unfold accurate. cbn [on_log w_stripe]. rewrite Hcat.
      apply Hr. by eapply target_wanted. }
  apply quietly_for_each. intros c calls Hc Hcalls. rewrite on_log_app. apply quietly_bind; [|intros calls2 Hcalls2].
  - unfold quietly, _sync_plans, dquery. rewrite query_bind. apply quietly_for_each. intros x calls' Hx Hcalls'.
    rewrite on_log_app. apply Hrow; [done|by rewrite !Forall_app|]. apply elem_of_app. by left.
  - unfold quietly, _sync_products, dquery. rewrite query_bind. apply quietly_for_each. intros x calls' Hx Hcalls'.
    rewrite !on_log_app. apply Hrow; [done|by rewrite !Forall_app|]. apply elem_of_app. by right.
Qed.

End Facts.
