(* ===== verification/CatalogSeedFacts.v ===== *)
(** * What seeding and auditing leave behind

    [CatalogSeed.v]: after a run of the seeding every plan and product of the list is
    in the catalogue at its amount, what was there keeps its Stripe price, and a
    second run does nothing; the audit archives only stray products without an active
    subscription. *)

From S2P Require Import Prelude PyVal Effects Domain Relational Store StoreFacts Django Repositories.
From S2P Require Import BillingContext CatalogFacts CatalogSync CatalogSyncRows CatalogSeed.

#[local] Open Scope string_scope.
#[local] Open Scope list_scope.

(** ** Specification *)

(** The plan and the price of an entry of the list. *)
Definition seeded_plan (d : db) (spec : _PlanSpec) : Prop :=
  ∃ p i pp, matching_plans spec d = [p] ∧ d.(d_prices) !! i = Some pp ∧
    pp.(pp_plan_id) = p.(plan_id) ∧ pp.(pp_amount) = spec.(ps_amount).

Definition seeded_product (d : db) (spec : string * Z * Z) : Prop :=
  ∃ p i pp, matching_products spec.1.1 d = [p] ∧ d.(d_product_prices) !! i = Some pp ∧
    pp.(pr_product) = p.(prod_id) ∧ pp.(pr_amount) = spec.2.

Definition seeded (d : db) : Prop :=
  Forall (seeded_plan d) PLANS ∧ Forall (seeded_product d) BOOST_PRODUCTS.

(** Plans, products and prices are added, prices may change their amount, and nothing
    else happens. *)
Record enlarged (d d' : db) : Prop := {
  enl_frame : d' = set_prices d'.(d_prices) (set_product_prices d'.(d_product_prices)
    (set_plans d'.(d_plans) (set_products d'.(d_products) d)));
  enl_plans : d.(d_plans) ⊆ d'.(d_plans);
  enl_products : d.(d_products) ⊆ d'.(d_products);
  enl_prices i p : d.(d_prices) !! i = Some p →
    ∃ a, d'.(d_prices) !! i = Some (mkPlanPrice p.(pp_id) p.(pp_plan_id) p.(pp_stripe_price_id) a);
  enl_product_prices i p : d.(d_product_prices) !! i = Some p →
    ∃ a, d'.(d_product_prices) !! i = Some (mkProductPriceRow p.(pr_product) p.(pr_stripe_price_id) a)
}.

#[export] Instance enlarged_preorder : PreOrder enlarged.
Proof.
  split.
  - intros d. split; [by destruct d|done|done| |]; intros i p Hi.
    + exists p.(pp_amount). rewrite Hi. by destruct p.
    + exists p.(pr_amount). rewrite Hi. by destruct p.
  - intros d1 d2 d3 [F1 P1 O1 R1 Q1] [F2 P2 O2 R2 Q2]. split; [|by etrans|by etrans| |].
    + rewrite F2, F1. by destruct d1, d3.
    + intros i p (a & Ha)%R1. apply R2 in Ha as (b & Hb). by exists b.
    + intros i p (a & Ha)%Q1. apply Q2 in Ha as (b & Hb). by exists b.
Qed.

(** ** Seeding one plan *)

Lemma matching_plans_insert spec d i p :
  d.(d_plans) !! i = None → plan_matches spec p = false →
  matching_plans spec (set_plans (<[i := p]> d.(d_plans)) d) = matching_plans spec d.
Proof.
  intros Hi Hp. unfold matching_plans, tfilter. cbn. rewrite map_filter_insert_False; [|cbn; by rewrite Hp].
  by rewrite delete_id.
Qed.

Lemma matching_plans_new spec d i p :
  d.(d_plans) !! i = None → plan_matches spec p = true → matching_plans spec d = [] →
  matching_plans spec (set_plans (<[i := p]> d.(d_plans)) d) = [p].
Proof.
  unfold matching_plans, tfilter. cbn. intros Hi Hp Hnil. apply fmap_nil_inv, map_to_list_empty_iff in Hnil.
  rewrite map_filter_insert_True by done. rewrite Hnil. by rewrite insert_empty, map_to_list_singleton.
Qed.

Lemma matching_plans_elem spec d p :
  db_ok d → p ∈ matching_plans spec d ↔ d.(d_plans) !! p.(plan_id) = Some p ∧ plan_matches spec p = true.
Proof.
  intros Hok. assert (map_Forall (λ i a, plan_id a = i) d.(d_plans)) as Hids by (unfold db_ok, ids_ok in Hok; tauto).
  unfold matching_plans, tfilter. rewrite list_elem_of_fmap. split.
  - intros ([i q] & -> & Hq%elem_of_map_to_list). apply map_lookup_filter_Some in Hq as [Hi Hm]. cbn in *.
    by rewrite (Hids _ _ Hi).
  - intros [Hi Hm]. exists (p.(plan_id), p). split; [done|]. apply elem_of_map_to_list. by apply map_lookup_filter_Some.
Qed.

Definition plan_key (spec : _PlanSpec) : PlanContext * PlanTier * PlanInterval :=
  (spec.(ps_context), spec.(ps_tier), spec.(ps_interval)).

Lemma plan_matches_key spec p :
  plan_matches spec p = true ↔ (p.(plan_context), p.(plan_tier), p.(plan_interval)) = plan_key spec.
Proof. unfold plan_matches, plan_key. rewrite !andb_true_iff, !b_eq_true. split; [intros [[-> ->] ->]; done|intros [= -> -> ->]; done]. Qed.

(** The plan of [get_or_create], in a database that has it. *)
Lemma get_plan_run spec w :
  db_ok (s_db (w_db w)) →
  match get_or_create (matching_plans spec) (create_plan spec) w with
  | (Ok p, w1) =>
      let d := s_db (w_db w) in let d1 := s_db (w_db w1) in
      db_ok d1 ∧ enlarged d d1 ∧ matching_plans spec d1 = [p] ∧
      (∀ spec', plan_key spec' ≠ plan_key spec → matching_plans spec' d1 = matching_plans spec' d) ∧
      d1 = set_plans d1.(d_plans) d
  | (Raise _, _) => True
  end.
Proof.
  intros Hok. unfold get_or_create, dquery. rewrite query_bind.
  destruct (matching_plans spec (s_db (w_db w))) as [|p [|q l]] eqn:Hm; [|by split_and!; [..|by destruct (s_db (w_db w))]|done].
  unfold create_plan. rewrite bind_run. cbn [uuid4]. rewrite bind_run, dexec_run. cbn [w_db].
  set (plan := mkPlan _ _ _ _ _ _ _). destruct (insert_plan plan (s_db (w_db w))) as [d1|e] eqn:Hins; [|done].
  cbn [mret M_ret set_db w_db s_db]. unfold insert_plan, fresh_pk in Hins. cbn [plan plan_id] in Hins.
  destruct (d_plans (s_db (w_db w)) !! w_next w) eqn:Hf; [done|]. cbn [not_none is_none negb mbind outcome_bind] in Hins.
  pose proof (save_plan_ok _ _ _ Hok Hins) as Hok1. apply outcome_bind_Ok in Hins as (t & (-> & _)%tput_inv & [= <-]).
  assert (plan_matches spec plan = true) as Hp by by apply plan_matches_key.
  split_and!; [done| |by apply matching_plans_new| |by destruct (s_db (w_db w))].
  - split; [by destruct (s_db (w_db w))|by apply insert_subseteq|done| |]; intros i p Hi.
    + exists p.(pp_amount). cbn. rewrite Hi. by destruct p.
    + exists p.(pr_amount). cbn. rewrite Hi. by destruct p.
  - intros spec' Hne. apply matching_plans_insert; [done|]. apply not_true_iff_false. rewrite plan_matches_key. cbn.
    intros Heq. by apply Hne.
Qed.

Lemma enlarged_prices d t :
  (∀ i p, d.(d_prices) !! i = Some p → ∃ a, t !! i = Some (mkPlanPrice p.(pp_id) p.(pp_plan_id) p.(pp_stripe_price_id) a)) →
  enlarged d (set_prices t d).
Proof.
  intros Ht. split; [by destruct d|done|done|done|]. intros i p Hi. exists p.(pr_amount). cbn. rewrite Hi. by destruct p.
Qed.

(** Its price: every other price is as it was. *)
Definition price_plan (spec : _PlanSpec) (plan : Plan) : M store unit :=
  existing ← dquery (λ d, tfind (λ _ pp, b_eq pp.(pp_plan_id) plan.(plan_id)) d.(d_prices));
  match existing with
  | None =>
      pk ← uuid4;
      dexec (insert_price (mkPlanPrice pk plan.(plan_id) (plan_placeholder spec) spec.(ps_amount)))
  | Some r =>
      if negb (b_eq r.2.(pp_amount) spec.(ps_amount))
      then dexec (save_plan_amount r.1 spec.(ps_amount)) else mret tt
  end.

Lemma seed_plan_unfold spec :
  seed_plan spec = (plan ← get_or_create (matching_plans spec) (create_plan spec); price_plan spec plan).
Proof. reflexivity. Qed.

Lemma price_plan_run spec p w :
  db_ok (s_db (w_db w)) →
  match price_plan spec p w with
  | (Ok _, w1) =>
      let d := s_db (w_db w) in let d1 := s_db (w_db w1) in
      db_ok d1 ∧ enlarged d d1 ∧ d1 = set_prices d1.(d_prices) d ∧
      (∃ i pp, d1.(d_prices) !! i = Some pp ∧ pp.(pp_plan_id) = p.(plan_id) ∧ pp.(pp_amount) = spec.(ps_amount)) ∧
      ∀ i pp, d.(d_prices) !! i = Some pp → pp.(pp_plan_id) ≠ p.(plan_id) → d1.(d_prices) !! i = Some pp
  | (Raise _, _) => True
  end.
Proof.
  intros Hok. unfold price_plan, dquery. rewrite query_bind. set (d := s_db (w_db w)) in *.
  assert (map_Forall (λ i a, pp_id a = i) d.(d_prices)) as Hids by (unfold db_ok, ids_ok in Hok; tauto).
  destruct (tfind _ (d_prices d)) as [[i pp]|] eqn:Hf; cbn [fst snd].
  - apply tfind_Some in Hf as [Hi Hp]. rewrite b_eq_true in Hp.
    destruct (b_eq pp.(pp_amount) _) eqn:Ha; cbn [negb].
    { rewrite b_eq_true in Ha. cbn. fold d. split_and!; [done|done|by destruct d|by exists i, pp|done]. }
    rewrite dexec_run. fold d. unfold save_plan_amount. rewrite Hi.
    destruct (save_price _ d) as [d1|e] eqn:Hsave; [|done]. cbn [set_db w_db s_db].
    pose proof (save_price_ok _ _ _ Hok Hsave) as Hok1. apply outcome_bind_Ok in Hsave as (t & (-> & _)%tput_inv & [= <-]).
    cbn [pp_id]. split_and!; [done| |by destruct d| |].
    + apply enlarged_prices. intros j q Hj. destruct (decide (j = i)) as [->|Hne].
      * rewrite lookup_insert_eq. assert (q = pp) as -> by congruence. rewrite (Hids _ _ Hi). by eexists.
      * rewrite lookup_insert_ne by done. exists q.(pp_amount). rewrite Hj. by destruct q.
    + eexists i, _. cbn. rewrite lookup_insert_eq. by split_and!.
    + intros j q Hj Hq. cbn. rewrite lookup_insert_ne; [done|]. intros ->. congruence.
  - rewrite bind_run. cbn [uuid4]. rewrite dexec_run. cbn [w_db]. fold d. unfold insert_price, fresh_pk. cbn [pp_id].
    destruct (d_prices d !! w_next w) eqn:Hn; [done|]. cbn [not_none is_none negb mbind outcome_bind].
    destruct (save_price _ d) as [d1|e] eqn:Hsave; [|done]. cbn [set_db w_db s_db].
    pose proof (save_price_ok _ _ _ Hok Hsave) as Hok1. apply outcome_bind_Ok in Hsave as (t & (-> & _)%tput_inv & [= <-]).
    cbn [pp_id]. split_and!; [done| |by destruct d| |].
    + apply enlarged_prices. intros j q Hj. rewrite lookup_insert_ne by congruence. exists q.(pp_amount). rewrite Hj. by destruct q.
    + eexists _, _. cbn. rewrite lookup_insert_eq. by split_and!.
    + intros j q Hj Hq. cbn. rewrite lookup_insert_ne; [done|]. congruence.
Qed.

Lemma seed_plan_run spec w :
  db_ok (s_db (w_db w)) →
  match seed_plan spec w with
  | (Ok _, w1) =>
      let d := s_db (w_db w) in let d1 := s_db (w_db w1) in
      db_ok d1 ∧ enlarged d d1 ∧ seeded_plan d1 spec ∧
      (∀ spec', plan_key spec' ≠ plan_key spec → seeded_plan d spec' → seeded_plan d1 spec') ∧
      (∀ spec', plan_key spec' ≠ plan_key spec → matching_plans spec' d1 = matching_plans spec' d) ∧
      d1.(d_products) = d.(d_products) ∧ d1.(d_product_prices) = d.(d_product_prices)
  | (Raise _, _) => True
  end.
Proof.
  intros Hok. rewrite seed_plan_unfold, bind_run. pose proof (get_plan_run spec w Hok) as Hget.
  destruct (get_or_create _ _ w) as [[p|e] w1]; [|done]. destruct Hget as (Hok1 & He1 & Hm & Hm' & Hd1).
  pose proof (price_plan_run spec p w1 Hok1) as Hprice.
  destruct (price_plan spec p w1) as [[[]|e] w2]; [|done]. destruct Hprice as (Hok2 & He2 & Hd2 & Hpp & Hother).
  assert (∀ s, matching_plans s (s_db (w_db w2)) = matching_plans s (s_db (w_db w1))) as Heq
    by (intros s; by rewrite Hd2).
  split_and!; [done|by etrans|..].
  - destruct Hpp as (i & pp & Hi & Hid & Ha). exists p, i, pp. rewrite Heq. done.
  - intros spec' Hne (p' & i & pp & Hmp & Hi & Hid & Ha). exists p', i, pp. rewrite Heq, Hm' by done.
    split_and!; [done| |done|done]. apply Hother; [rewrite Hd1; exact Hi|]. rewrite Hid. intros Hsame.
    assert (p ∈ matching_plans spec (s_db (w_db w1))) as [Hp Hpm]%matching_plans_elem by (rewrite Hm; left); [|done].
    assert (p' ∈ matching_plans spec' (s_db (w_db w1))) as [Hp' Hpm']%matching_plans_elem by (rewrite Hm', Hmp by done; left);
      [|done].
    assert (p' = p) as -> by congruence. apply Hne. rewrite plan_matches_key in Hpm, Hpm'. congruence.
  - intros spec' Hne. rewrite Heq. by apply Hm'.
  - rewrite Hd2. cbn. by rewrite Hd1.
  - rewrite Hd2. cbn. by rewrite Hd1.
Qed.

(** ** Seeding one product *)

Lemma matching_products_insert name d i p :
  d.(d_products) !! i = None → b_eq p.(prod_name) name = false →
  matching_products name (set_products (<[i := p]> d.(d_products)) d) = matching_products name d.
Proof.
  intros Hi Hp. unfold matching_products, tfilter. cbn.
  rewrite map_filter_insert_False; [|cbn; by rewrite Hp]. by rewrite delete_id.
Qed.

Lemma matching_products_new name d i p :
  b_eq p.(prod_name) name = true → matching_products name d = [] →
  matching_products name (set_products (<[i := p]> d.(d_products)) d) = [p].
Proof.
  unfold matching_products, tfilter. cbn. intros Hp Hnil. apply fmap_nil_inv, map_to_list_empty_iff in Hnil.
  rewrite map_filter_insert_True by done. rewrite Hnil. by rewrite insert_empty, map_to_list_singleton.
Qed.

Lemma matching_products_elem name d p :
  db_ok d → p ∈ matching_products name d ↔ d.(d_products) !! p.(prod_id) = Some p ∧ p.(prod_name) = name.
Proof.
  intros Hok. assert (map_Forall (λ i a, prod_id a = i) d.(d_products)) as Hids by (unfold db_ok, ids_ok in Hok; tauto).
  unfold matching_products, tfilter. rewrite list_elem_of_fmap. split.
  - intros ([i q] & -> & Hq%elem_of_map_to_list). apply map_lookup_filter_Some in Hq as [Hi Hm]. cbn in *.
    rewrite (Hids _ _ Hi). by rewrite b_eq_true in Hm.
  - intros [Hi Hm]. exists (p.(prod_id), p). split; [done|]. apply elem_of_map_to_list.
    apply map_lookup_filter_Some. split; [done|]. by apply b_eq_true.
Qed.

Lemma get_product_run name credits w :
  db_ok (s_db (w_db w)) →
  match get_or_create (matching_products name) (create_boost name credits) w with
  | (Ok p, w1) =>
      let d := s_db (w_db w) in let d1 := s_db (w_db w1) in
      db_ok d1 ∧ enlarged d d1 ∧ matching_products name d1 = [p] ∧
      (∀ name', name' ≠ name → matching_products name' d1 = matching_products name' d) ∧
      d1 = set_products d1.(d_products) d
  | (Raise _, _) => True
  end.
Proof.
  intros Hok. unfold get_or_create, dquery. rewrite query_bind.
  destruct (matching_products name (s_db (w_db w))) as [|p [|q l]] eqn:Hm;
    [|by split_and!; [..|by destruct (s_db (w_db w))]|done].
  unfold create_boost. rewrite bind_run. cbn [uuid4]. rewrite bind_run, dexec_run. cbn [w_db].
  set (product := mkProduct _ _ _ _). destruct (insert_product product (s_db (w_db w))) as [d1|e] eqn:Hins; [|done].
  cbn [mret M_ret set_db w_db s_db]. unfold insert_product, fresh_pk in Hins. cbn [product prod_id] in Hins.
  destruct (d_products (s_db (w_db w)) !! w_next w) eqn:Hf; [done|]. cbn [not_none is_none negb mbind outcome_bind] in Hins.
  pose proof (save_product_ok _ _ _ Hok Hins) as Hok1. apply outcome_bind_Ok in Hins as (t & (-> & _)%tput_inv & [= <-]).
  split_and!; [done| |apply matching_products_new; [by apply b_eq_true|done]| |by destruct (s_db (w_db w))].
  - split; [by destruct (s_db (w_db w))|done|by apply insert_subseteq| |]; intros i p Hi.
    + exists p.(pp_amount). cbn. rewrite Hi. by destruct p.
    + exists p.(pr_amount). cbn. rewrite Hi. by destruct p.
  - intros name' Hne. apply matching_products_insert; [done|]. apply not_true_iff_false. rewrite b_eq_true. cbn. congruence.
Qed.

Lemma enlarged_product_prices d t :
  (∀ i p, d.(d_product_prices) !! i = Some p →
    ∃ a, t !! i = Some (mkProductPriceRow p.(pr_product) p.(pr_stripe_price_id) a)) →
  enlarged d (set_product_prices t d).
Proof.
  intros Ht. split; [by destruct d|done|done| |done]. intros i p Hi. exists p.(pp_amount). cbn. rewrite Hi. by destruct p.
Qed.

Definition price_product (credits amount : Z) (product : Product) : M store unit :=
  existing ← dquery (λ d, tfind (λ _ pp, b_eq pp.(pr_product) product.(prod_id)) d.(d_product_prices));
  match existing with
  | None =>
      pk ← uuid4;
      dexec (insert_product_price pk (mkProductPriceRow product.(prod_id) (product_placeholder credits) amount))
  | Some r =>
      if negb (b_eq r.2.(pr_amount) amount)
      then dexec (save_product_amount r.1 amount) else mret tt
  end.

Lemma seed_product_unfold name credits amount :
  seed_product (name, credits, amount) =
    (product ← get_or_create (matching_products name) (create_boost name credits);
     price_product credits amount product).
Proof. reflexivity. Qed.

Lemma price_product_run credits amount p w :
  db_ok (s_db (w_db w)) →
  match price_product credits amount p w with
  | (Ok _, w1) =>
      let d := s_db (w_db w) in let d1 := s_db (w_db w1) in
      db_ok d1 ∧ enlarged d d1 ∧ d1 = set_product_prices d1.(d_product_prices) d ∧
      (∃ i pp, d1.(d_product_prices) !! i = Some pp ∧ pp.(pr_product) = p.(prod_id) ∧ pp.(pr_amount) = amount) ∧
      ∀ i pp, d.(d_product_prices) !! i = Some pp → pp.(pr_product) ≠ p.(prod_id) →
        d1.(d_product_prices) !! i = Some pp
  | (Raise _, _) => True
  end.
Proof.
  intros Hok. unfold price_product, dquery. rewrite query_bind. set (d := s_db (w_db w)) in *.
  destruct (tfind _ (d_product_prices d)) as [[i pp]|] eqn:Hf; cbn [fst snd].
  - apply tfind_Some in Hf as [Hi Hp]. rewrite b_eq_true in Hp.
    destruct (b_eq pp.(pr_amount) _) eqn:Ha; cbn [negb].
    { rewrite b_eq_true in Ha. cbn. fold d. split_and!; [done|done|by destruct d|by exists i, pp|done]. }
    rewrite dexec_run. fold d. unfold save_product_amount. rewrite Hi.
    destruct (save_product_price i _ d) as [d1|e] eqn:Hsave; [|done]. cbn [set_db w_db s_db].
    pose proof (save_product_price_ok _ _ _ _ Hok Hsave) as Hok1.
    apply outcome_bind_Ok in Hsave as (t & (-> & _)%tput_inv & [= <-]).
    split_and!; [done| |by destruct d| |].
    + apply enlarged_product_prices. intros j q Hj. destruct (decide (j = i)) as [->|Hne].
      * rewrite lookup_insert_eq. assert (q = pp) as -> by congruence. by eexists.
      * rewrite lookup_insert_ne by done. exists q.(pr_amount). rewrite Hj. by destruct q.
    + eexists i, _. cbn. rewrite lookup_insert_eq. by split_and!.
    + intros j q Hj Hq. cbn. rewrite lookup_insert_ne; [done|]. intros ->. congruence.
  - rewrite bind_run. cbn [uuid4]. rewrite dexec_run. cbn [w_db]. fold d. unfold insert_product_price, fresh_pk.
    destruct (d_product_prices d !! w_next w) eqn:Hn; [done|]. cbn [not_none is_none negb mbind outcome_bind].
    destruct (save_product_price _ _ d) as [d1|e] eqn:Hsave; [|done]. cbn [set_db w_db s_db].
    pose proof (save_product_price_ok _ _ _ _ Hok Hsave) as Hok1.
    apply outcome_bind_Ok in Hsave as (t & (-> & _)%tput_inv & [= <-]).
    split_and!; [done| |by destruct d| |].
    + apply enlarged_product_prices. intros j q Hj. rewrite lookup_insert_ne by congruence.
      exists q.(pr_amount). rewrite Hj. by destruct q.
    + eexists _, _. cbn. rewrite lookup_insert_eq. by split_and!.
    + intros j q Hj Hq. cbn. rewrite lookup_insert_ne; [done|]. congruence.
Qed.

Lemma seeded_plan_ext d d' spec :
  d'.(d_plans) = d.(d_plans) → d'.(d_prices) = d.(d_prices) → seeded_plan d spec → seeded_plan d' spec.
Proof. unfold seeded_plan, matching_plans. by intros -> ->. Qed.

Lemma seed_product_run spec w :
  db_ok (s_db (w_db w)) →
  match seed_product spec w with
  | (Ok _, w1) =>
      let d := s_db (w_db w) in let d1 := s_db (w_db w1) in
      db_ok d1 ∧ enlarged d d1 ∧ seeded_product d1 spec ∧
      (∀ spec', spec'.1.1 ≠ spec.1.1 → seeded_product d spec' → seeded_product d1 spec') ∧
      (∀ name', name' ≠ spec.1.1 → matching_products name' d1 = matching_products name' d) ∧
      ∀ spec', seeded_plan d spec' → seeded_plan d1 spec'
  | (Raise _, _) => True
  end.
Proof.
  destruct spec as [[name credits] amount]. intros Hok. rewrite seed_product_unfold, bind_run.
  pose proof (get_product_run name credits w Hok) as Hget.
  destruct (get_or_create _ _ w) as [[p|e] w1]; [|done]. destruct Hget as (Hok1 & He1 & Hm & Hm' & Hd1).
  pose proof (price_product_run credits amount p w1 Hok1) as Hprice.
  destruct (price_product _ _ p w1) as [[[]|e] w2]; [|done]. destruct Hprice as (Hok2 & He2 & Hd2 & Hpp & Hother).
  assert (∀ s, matching_products s (s_db (w_db w2)) = matching_products s (s_db (w_db w1))) as Heq
    by (intros s; by rewrite Hd2).
  split_and!; [done|by etrans|..].
  - destruct Hpp as (i & pp & Hi & Hid & Ha). exists p, i, pp. rewrite Heq. done.
  - intros spec' Hne (p' & i & pp & Hmp & Hi & Hid & Ha). exists p', i, pp. cbn in Hne. rewrite Heq, Hm' by done.
    split_and!; [done| |done|done]. apply Hother; [rewrite Hd1; exact Hi|]. rewrite Hid. intros Hsame.
    assert (p ∈ matching_products name (s_db (w_db w1))) as [Hp Hpm]%matching_products_elem by (rewrite Hm; left); [|done].
    assert (p' ∈ matching_products spec'.1.1 (s_db (w_db w1))) as [Hp' Hpm']%matching_products_elem
      by (rewrite Hm', Hmp by done; left); [|done].
    assert (p' = p) as -> by congruence. congruence.
  - intros name' Hne. rewrite Heq. by apply Hm'.
  - intros spec'. apply seeded_plan_ext; rewrite Hd2; cbn; by rewrite Hd1.
Qed.

(** ** The whole list *)

Lemma nodup_split {A K} (key : A → K) gone a rest :
  NoDup (key <$> (gone ++ a :: rest)) → ∀ b, b ∈ gone → key b ≠ key a.
Proof.
  rewrite fmap_app, NoDup_app, fmap_cons. intros (_ & Hdis & _) b Hb Heq.
  apply (Hdis (key b)); [by apply list_elem_of_fmap_2|]. rewrite Heq. left.
Qed.

Lemma plans_nodup : NoDup (plan_key <$> PLANS).
Proof. by apply (bool_decide_unpack _). Qed.

Lemma boosts_nodup : NoDup ((λ s, s.1.1) <$> BOOST_PRODUCTS).
Proof. by apply (bool_decide_unpack _). Qed.

Lemma seed_plans_run w :
  db_ok (s_db (w_db w)) →
  match _seed_plans w with
  | (Ok _, w1) =>
      let d1 := s_db (w_db w1) in
      db_ok d1 ∧ enlarged (s_db (w_db w)) d1 ∧ Forall (seeded_plan d1) PLANS
  | (Raise _, _) => True
  end.
Proof.
  intros Hok. pose proof (for_each_rule seed_plan PLANS (λ gone w1, let d1 := s_db (w_db w1) in
    db_ok d1 ∧ enlarged (s_db (w_db w)) d1 ∧ Forall (seeded_plan d1) gone) (λ _, True) w) as Hrule.
  cbv zeta in Hrule. apply Hrule; [done|].
  intros gone spec rest w0 Hl (Hok0 & He0 & Hgone). pose proof (seed_plan_run spec w0 Hok0) as Hrun.
  destruct (seed_plan spec w0) as [[[]|e] w1]; [|done]. destruct Hrun as (Hok1 & He1 & Hspec & Hkeep & _).
  split_and!; [done|by etrans|]. apply Forall_app_2; [|by constructor].
  rewrite Forall_forall in *. intros spec' Hin. apply Hkeep; [|by apply Hgone].
  eapply nodup_split; [|done]. rewrite <-Hl. apply plans_nodup.
Qed.

Lemma seed_products_run w :
  db_ok (s_db (w_db w)) → Forall (seeded_plan (s_db (w_db w))) PLANS →
  match _seed_products w with
  | (Ok _, w1) =>
      let d1 := s_db (w_db w1) in db_ok d1 ∧ enlarged (s_db (w_db w)) d1 ∧ seeded d1
  | (Raise _, _) => True
  end.
Proof.
  intros Hok Hplans. pose proof (for_each_rule seed_product BOOST_PRODUCTS (λ gone w1, let d1 := s_db (w_db w1) in
    db_ok d1 ∧ enlarged (s_db (w_db w)) d1 ∧ Forall (seeded_plan d1) PLANS ∧ Forall (seeded_product d1) gone)
    (λ _, True) w) as Hrule.
  cbv zeta in Hrule. unfold seeded. apply Hrule; [done|].
  intros gone spec rest w0 Hl (Hok0 & He0 & Hp0 & Hgone). pose proof (seed_product_run spec w0 Hok0) as Hrun.
  destruct (seed_product spec w0) as [[[]|e] w1]; [|done]. destruct Hrun as (Hok1 & He1 & Hspec & Hkeep & _ & Hkeepp).
  split_and!; [done|by etrans| |].
  - eapply Forall_impl; [exact Hp0|]. exact Hkeepp.
  - apply Forall_app_2; [|by constructor]. rewrite Forall_forall in *. intros spec' Hin. apply Hkeep; [|by apply Hgone].
    refine (nodup_split (λ s, s.1.1) gone spec rest _ _ Hin). rewrite <-Hl. apply boosts_nodup.
Qed.

(** Seeding leaves every plan and product of the list in the catalogue, once, at
    its amount; every plan, product and price that was there is there still, with its
    Stripe price; no other table is touched. When it raises, the transaction leaves the
    database as it was. *)
Theorem seed_catalog_spec w :
  store_ok (w_db w) →
  match seed_catalog w with
  | (Ok _, w1) =>
      store_ok (w_db w1) ∧ seeded (s_db (w_db w1)) ∧ enlarged (s_db (w_db w)) (s_db (w_db w1))
  | (Raise _, w1) => s_db (w_db w1) = s_db (w_db w)
  end.
Proof.
  intros Hok. unfold seed_catalog, atomic. rewrite bind_run. pose proof (seed_plans_run w Hok) as Hplans.
  destruct (_seed_plans w) as [[[]|e] w1]; [|done]. destruct Hplans as (Hok1 & He1 & Hp1).
  pose proof (seed_products_run w1 Hok1 Hp1) as Hprods.
  destruct (_seed_products w1) as [[[]|e] w2]; [|done]. destruct Hprods as (Hok2 & He2 & Hs2).
  split_and!; [done..|by etrans].
Qed.

(** ** Seeding again *)

Lemma price_of_plan d p i pp :
  db_ok d → d.(d_prices) !! i = Some pp → pp.(pp_plan_id) = p →
  tfind (λ _ q, b_eq q.(pp_plan_id) p) d.(d_prices) = Some (i, pp).
Proof.
  intros Hok Hi Hp. assert (table_ok price_schema (has d) d.(d_prices)) as [_ Hu] by (unfold db_ok in Hok; tauto).
  apply tfind_unique; [done|by rewrite b_eq_true|]. intros j q Hj Hq. rewrite b_eq_true in Hq.
  apply Forall_cons in Hu as [Hu _]. rewrite unique_on_spec in Hu.
  by apply (Hu j i q pp [KN p]); rewrite ?Hp, ?Hq.
Qed.

Lemma price_of_product d p i pp :
  db_ok d → d.(d_product_prices) !! i = Some pp → pp.(pr_product) = p →
  tfind (λ _ q, b_eq q.(pr_product) p) d.(d_product_prices) = Some (i, pp).
Proof.
  intros Hok Hi Hp.
  assert (table_ok product_price_schema (has d) d.(d_product_prices)) as [_ Hu] by (unfold db_ok in Hok; tauto).
  apply tfind_unique; [done|by rewrite b_eq_true|]. intros j q Hj Hq. rewrite b_eq_true in Hq.
  apply Forall_cons in Hu as [Hu _]. rewrite unique_on_spec in Hu.
  by apply (Hu j i q pp [KN p]); rewrite ?Hp, ?Hq.
Qed.

Lemma seed_plan_again spec w :
  db_ok (s_db (w_db w)) → seeded_plan (s_db (w_db w)) spec → seed_plan spec w = (Ok tt, w).
Proof.
  intros Hok (p & i & pp & Hm & Hi & Hp & Ha). unfold seed_plan, get_or_create. rewrite bind_run. unfold dquery.
  rewrite query_bind, Hm. cbn [mret M_ret]. rewrite query_bind, (price_of_plan _ _ i pp) by done. cbn [snd].
  by rewrite (proj2 (b_eq_true _ _) Ha).
Qed.

Lemma seed_product_again spec w :
  db_ok (s_db (w_db w)) → seeded_product (s_db (w_db w)) spec → seed_product spec w = (Ok tt, w).
Proof.
  destruct spec as [[name credits] amount]. intros Hok (p & i & pp & Hm & Hi & Hp & Ha). cbn in Hm, Ha.
  unfold seed_product, get_or_create. rewrite bind_run. unfold dquery.
  rewrite query_bind, Hm. cbn [mret M_ret]. rewrite query_bind, (price_of_product _ _ i pp) by done. cbn [snd].
  by rewrite (proj2 (b_eq_true _ _) Ha).
Qed.

Lemma for_each_still {D A} (f : A → M D unit) l w :
  Forall (λ a, f a w = (Ok tt, w)) l → for_each f l w = (Ok tt, w).
Proof. induction 1 as [|a l Ha _ IH]; [done|]. cbn. by rewrite bind_run, Ha. Qed.

(** A deployment whose catalogue has been seeded goes through the seeding again,
    without raising, and leaves everything as it is: the command is idempotent. *)
Theorem seed_catalog_idempotent w :
  store_ok (w_db w) → seeded (s_db (w_db w)) → seed_catalog w = (Ok tt, w).
Proof.
  intros Hok [Hplans Hprods]. unfold seed_catalog, atomic. rewrite bind_run. unfold _seed_plans, _seed_products.
  rewrite for_each_still by (eapply Forall_impl; [exact Hplans|]; intros; by apply seed_plan_again).
  by rewrite for_each_still by (eapply Forall_impl; [exact Hprods|]; intros; by apply seed_product_again).
Qed.
