(* ===== verification/CatalogSeedTotal.v ===== *)
(** * The seeding goes through

    When no two plans share a context, tier and interval of the list, no two products a
    name of the list, and no other row holds a placeholder, a deployment's seeding
    completes: nothing in it raises. *)

From S2P Require Import Prelude PyVal Effects Domain Relational Store StoreFacts Django.
From S2P Require Import CatalogSync CatalogSeed CatalogSeedFacts.

#[local] Open Scope string_scope.
#[local] Open Scope list_scope.

(** ** What a deployment must satisfy *)

(** The keys to come are free in the tables the seeding writes. *)
Definition fresh_keys (w : world store) : Prop :=
  let d := s_db (w_db w) in
  ∀ i, (w_next w ≤ i)%N → d.(d_plans) !! i = None ∧ d.(d_prices) !! i = None ∧
    d.(d_products) !! i = None ∧ d.(d_product_prices) !! i = None.

Definition unused_price (s : string) (d : db) : Prop :=
  map_Forall (λ _ pp, pp.(pp_stripe_price_id) ≠ s) d.(d_prices).
Definition unused_product_price (s : string) (d : db) : Prop :=
  map_Forall (λ _ pp, pp.(pr_stripe_price_id) ≠ s) d.(d_product_prices).

Definition priced_plan (d : db) (p : Plan) : Prop :=
  ∃ i pp, d.(d_prices) !! i = Some pp ∧ pp.(pp_plan_id) = p.(plan_id).
Definition priced_product (d : db) (p : Product) : Prop :=
  ∃ i pp, d.(d_product_prices) !! i = Some pp ∧ pp.(pr_product) = p.(prod_id).

#[export] Instance priced_plan_dec d p : Decision (priced_plan d p).
Proof.
  destruct (tfind (λ _ pp, b_eq pp.(pp_plan_id) p.(plan_id)) d.(d_prices)) as [[i pp]|] eqn:Hf; [left|right].
  - apply tfind_Some in Hf as [Hi Hp]. rewrite b_eq_true in Hp. by exists i, pp.
  - intros (i & pp & Hi & Hp). pose proof (proj1 (tfind_None _ _) Hf i pp Hi) as Hn. by rewrite b_eq_false in Hn.
Defined.

#[export] Instance priced_product_dec d p : Decision (priced_product d p).
Proof.
  destruct (tfind (λ _ pp, b_eq pp.(pr_product) p.(prod_id)) d.(d_product_prices)) as [[i pp]|] eqn:Hf; [left|right].
  - apply tfind_Some in Hf as [Hi Hp]. rewrite b_eq_true in Hp. by exists i, pp.
  - intros (i & pp & Hi & Hp). pose proof (proj1 (tfind_None _ _) Hf i pp Hi) as Hn. by rewrite b_eq_false in Hn.
Defined.

Definition plan_seedable (d : db) (spec : _PlanSpec) : Prop :=
  match matching_plans spec d with
  | [] => unused_price (plan_placeholder spec) d
  | [p] => priced_plan d p ∨ unused_price (plan_placeholder spec) d
  | _ => False
  end.

Definition product_seedable (d : db) (spec : string * Z * Z) : Prop :=
  match matching_products spec.1.1 d with
  | [] => unused_product_price (product_placeholder spec.1.2) d
  | [p] => priced_product d p ∨ unused_product_price (product_placeholder spec.1.2) d
  | _ => False
  end.

#[export] Instance plan_seedable_dec d spec : Decision (plan_seedable d spec).
Proof. unfold plan_seedable, unused_price. destruct (matching_plans spec d) as [|p [|]]; apply _. Defined.
#[export] Instance product_seedable_dec d spec : Decision (product_seedable d spec).
Proof. unfold product_seedable, unused_product_price. destruct (matching_products _ d) as [|p [|]]; apply _. Defined.

Definition seedable (d : db) : Prop :=
  Forall (plan_seedable d) PLANS ∧ Forall (product_seedable d) BOOST_PRODUCTS.

#[export] Instance seedable_dec d : Decision (seedable d).
Proof. unfold seedable. apply _. Defined.

(** It is enough that the rows there have smaller keys. *)
Lemma fresh_keys_below w :
  let d := s_db (w_db w) in
  map_Forall (λ i _, (i < w_next w)%N) d.(d_plans) → map_Forall (λ i _, (i < w_next w)%N) d.(d_prices) →
  map_Forall (λ i _, (i < w_next w)%N) d.(d_products) → map_Forall (λ i _, (i < w_next w)%N) d.(d_product_prices) →
  fresh_keys w.
Proof.
  cbv zeta. intros H1 H2 H3 H4 i Hi. split_and!; apply eq_None_not_Some; intros [a Ha];
    [apply H1 in Ha|apply H2 in Ha|apply H3 in Ha|apply H4 in Ha]; cbn beta in Ha; lia.
Qed.

(** ** Plans *)

Definition plan_fits (spec : _PlanSpec) : bool :=
  varchar 255 spec.(ps_name) && varchar 255 (plan_placeholder spec) && int4 spec.(ps_amount).

Lemma plans_fit : Forall (λ spec, plan_fits spec = true) PLANS.
Proof. by apply (bool_decide_unpack _). Qed.

Lemma plan_fits_spec spec :
  spec ∈ PLANS → varchar 255 spec.(ps_name) = true ∧ varchar 255 (plan_placeholder spec) = true ∧
    int4 spec.(ps_amount) = true.
Proof.
  intros Hin. pose proof plans_fit as Hf. rewrite Forall_forall in Hf. apply Hf in Hin.
  unfold plan_fits in Hin. rewrite !andb_true_iff in Hin. tauto.
Qed.

Lemma get_plan_completes spec w :
  spec ∈ PLANS → fresh_keys w → plan_seedable (s_db (w_db w)) spec →
  ∃ p w1, get_or_create (matching_plans spec) (create_plan spec) w = (Ok p, w1) ∧ fresh_keys w1 ∧
    d_prices (s_db (w_db w1)) = d_prices (s_db (w_db w)) ∧
    (priced_plan (s_db (w_db w)) p ∨ unused_price (plan_placeholder spec) (s_db (w_db w))).
Proof.
  intros (Hname & _ & _)%plan_fits_spec Hfresh Hseed. unfold plan_seedable in Hseed.
  unfold get_or_create, dquery. rewrite query_bind.
  destruct (matching_plans spec (s_db (w_db w))) as [|p [|q l]] eqn:Hm; [|by exists p, w|done].
  unfold create_plan. rewrite bind_run. cbn [uuid4]. rewrite bind_run, dexec_run. cbn [w_db].
  set (plan := mkPlan _ _ _ _ _ _ _). destruct (Hfresh (w_next w)) as (Hn & _); [lia|].
  assert (insert_plan plan (s_db (w_db w)) =
    Ok (set_plans (<[w_next w := plan]> (d_plans (s_db (w_db w)))) (s_db (w_db w)))) as ->.
  { unfold insert_plan, fresh_pk. cbn [plan plan_id]. rewrite Hn. cbn [not_none is_none negb mbind outcome_bind].
    unfold save_plan. cbn [plan_id]. rewrite tput_Ok; [done|by unfold row_ok; cbn -[varchar]; rewrite Hname|].
    constructor; [|done]. apply conflicts_false. intros j b Hj _ _ Hkey. cbn in Hkey.
    destruct (plan_is_active b); [|done]. injection Hkey as Hc Ht Hi.
    assert (b ∈ matching_plans spec (s_db (w_db w))) as Hb; [|by rewrite Hm in Hb; apply not_elem_of_nil in Hb].
    unfold matching_plans. apply list_elem_of_fmap. exists (j, b). split; [done|]. apply elem_of_map_to_list.
    apply map_lookup_filter_Some. split; [done|]. cbn. apply plan_matches_key. unfold plan_key.
    by destruct (plan_context b), (plan_tier b), (plan_interval b), (ps_context spec), (ps_tier spec), (ps_interval spec). }
  eexists _, _. split; [done|]. split_and!; [|done|by right].
  intros i Hi. cbn in *. destruct (Hfresh i) as (H1 & H2 & H3 & H4); [lia|].
  split_and!; [|done..]. rewrite lookup_insert_ne by lia. done.
Qed.

Lemma price_plan_completes spec p w :
  spec ∈ PLANS → db_ok (s_db (w_db w)) → fresh_keys w →
  d_plans (s_db (w_db w)) !! p.(plan_id) = Some p →
  priced_plan (s_db (w_db w)) p ∨ unused_price (plan_placeholder spec) (s_db (w_db w)) →
  ∃ w1, price_plan spec p w = (Ok tt, w1) ∧ fresh_keys w1 ∧
    ∀ s, s ≠ plan_placeholder spec → unused_price s (s_db (w_db w)) → unused_price s (s_db (w_db w1)).
Proof.
  intros (_ & Hph & Hamount)%plan_fits_spec Hok Hfresh Hp Hpriced. set (d := s_db (w_db w)) in *.
  assert (table_ok price_schema (has d) d.(d_prices)) as [Hrows Huniq] by (unfold db_ok in Hok; tauto).
  apply Forall_cons in Huniq as [Hu1 [Hu2 _]%Forall_cons].
  unfold price_plan, dquery. rewrite query_bind. fold d.
  destruct (tfind _ (d_prices d)) as [[i pp]|] eqn:Hf; cbn [fst snd].
  - apply tfind_Some in Hf as [Hi Hpp]. rewrite b_eq_true in Hpp.
    destruct (b_eq pp.(pp_amount) _); cbn [negb]; [by exists w|].
    rewrite dexec_run. fold d. unfold save_plan_amount. rewrite Hi. unfold save_price. cbn [pp_id].
    pose proof (Hrows i pp Hi) as Hrow. unfold row_ok in Hrow. cbn -[varchar int4] in Hrow.
    rewrite !andb_true_iff in Hrow. rewrite tput_Ok; [|unfold row_ok; cbn -[varchar int4]; rewrite !andb_true_iff; tauto|].
    2: { repeat constructor; by eapply conflict_free_same. }
    cbn [mbind outcome_bind]. eexists. split; [done|]. split.
    + intros j Hj. cbn in *. destruct (Hfresh j Hj) as (H1 & H2 & H3 & H4). fold d in H1, H2, H3, H4.
      split_and!; [done| |done..]. rewrite lookup_insert_ne; [done|]. intros ->. congruence.
    + intros s _ Hs. cbn. apply map_Forall_insert_2; [|done]. cbn. exact (Hs i pp Hi).
  - rewrite bind_run. cbn [uuid4]. rewrite dexec_run. cbn [w_db]. fold d. unfold insert_price, fresh_pk. cbn [pp_id].
    destruct (Hfresh (w_next w)) as (_ & Hn & _); [lia|]. fold d in Hn. rewrite Hn.
    cbn [not_none is_none negb mbind outcome_bind]. unfold save_price. cbn [pp_id].
    pose proof (proj1 (tfind_None _ _) Hf) as Hnone. cbn beta in Hnone.
    assert (unused_price (plan_placeholder spec) d) as Hunused.
    { destruct Hpriced as [(i & pp & Hi & Hpp)|]; [|done]. specialize (Hnone i pp Hi).
      by rewrite b_eq_false in Hnone. }
    rewrite tput_Ok; [| |].
    2: { unfold row_ok. cbn -[varchar int4]. rewrite Hph, Hamount. fold d. by rewrite Hp. }
    2: { repeat constructor; apply conflicts_false; intros j b Hj _ _ Hkey; injection Hkey as Hkey.
         - specialize (Hnone j b Hj). by rewrite b_eq_false in Hnone.
         - by apply (Hunused j b Hj). }
    cbn [mbind outcome_bind]. eexists. split; [done|]. split.
    + intros j Hj. cbn in *. destruct (Hfresh j) as (H1 & H2 & H3 & H4); [lia|]. fold d in H1, H2, H3, H4.
      split_and!; [done| |done..]. rewrite lookup_insert_ne by lia. done.
    + intros s Hs Hsu. cbn. by apply map_Forall_insert_2; [apply not_eq_sym|].
Qed.

Lemma plan_seedable_kept d d1 spec spec' :
  plan_key spec' ≠ plan_key spec → plan_placeholder spec' ≠ plan_placeholder spec → enlarged d d1 →
  matching_plans spec' d1 = matching_plans spec' d →
  (∀ s, s ≠ plan_placeholder spec → unused_price s d → unused_price s d1) →
  plan_seedable d spec' → plan_seedable d1 spec'.
Proof.
  intros _ Hph Hen Hm Hunused. unfold plan_seedable. rewrite Hm.
  destruct (matching_plans spec' d) as [|p [|]]; [by apply Hunused| |done].
  intros [(i & pp & Hi & Hp)|Hu]; [|right; by apply Hunused]. left.
  apply (enl_prices _ _ Hen) in Hi as (a & Hi). eexists _, _. split; [exact Hi|done].
Qed.

Lemma seed_plan_completes spec w :
  spec ∈ PLANS → db_ok (s_db (w_db w)) → fresh_keys w → plan_seedable (s_db (w_db w)) spec →
  ∃ w1, seed_plan spec w = (Ok tt, w1) ∧ fresh_keys w1 ∧
    ∀ s, s ≠ plan_placeholder spec → unused_price s (s_db (w_db w)) → unused_price s (s_db (w_db w1)).
Proof.
  intros Hin Hok Hfresh Hseed. rewrite seed_plan_unfold, bind_run. pose proof (get_plan_run spec w Hok) as Hget.
  destruct (get_plan_completes spec w Hin Hfresh Hseed) as (p & w1 & Hrun & Hfresh1 & Hprices & Hpriced).
  rewrite Hrun in *. destruct Hget as (Hok1 & _ & Hm & _ & _).
  assert (p ∈ matching_plans spec (s_db (w_db w1))) as [Hp _]%matching_plans_elem by (rewrite Hm; left); [|done].
  unfold priced_plan, unused_price in *. rewrite <-Hprices in *.
  apply (price_plan_completes spec p w1); done.
Qed.

Lemma placeholders_nodup : NoDup (plan_placeholder <$> PLANS).
Proof. apply (bool_decide_unpack _). vm_compute. exact I. Qed.

Lemma boost_placeholders_nodup : NoDup ((λ s, product_placeholder s.1.2) <$> BOOST_PRODUCTS).
Proof. apply (bool_decide_unpack _). vm_compute. exact I. Qed.

Lemma nodup_split_after {A K} (key : A → K) gone a rest :
  NoDup (key <$> (gone ++ a :: rest)) → ∀ b, b ∈ rest → key b ≠ key a.
Proof.
  rewrite fmap_app, NoDup_app, fmap_cons. intros (_ & _ & [Hn _]%NoDup_cons) b Hb Heq.
  apply Hn. rewrite <-Heq. by apply list_elem_of_fmap_2.
Qed.

(** The rule of a loop on what is left to go through. *)
Lemma for_each_left {D A} (f : A → M D unit) l (J : list A → world D → Prop) w :
  J l w →
  (∀ gone a rest w0, l = gone ++ a :: rest → J (a :: rest) w0 →
    ∃ w1, f a w0 = (Ok tt, w1) ∧ J rest w1) →
  ∃ w1, for_each f l w = (Ok tt, w1) ∧ J [] w1.
Proof.
  intros H0 Hstep. assert (∀ rest gone w0, l = gone ++ rest → J rest w0 →
    ∃ w1, for_each f rest w0 = (Ok tt, w1) ∧ J [] w1) as Hrun; [|by apply (Hrun l [])].
  induction rest as [|a rest IH]; intros gone w0 Hl HJ; [by exists w0|].
  destruct (Hstep gone a rest w0 Hl HJ) as (w1 & Hf & HJ1).
  destruct (IH (gone ++ [a]) w1) as (w2 & Hw2 & HJ2); [by rewrite <-app_assoc|done|].
  exists w2. cbn. by rewrite bind_run, Hf.
Qed.

Definition plans_left (rest : list _PlanSpec) (w : world store) : Prop :=
  let d := s_db (w_db w) in
  db_ok d ∧ fresh_keys w ∧ Forall (plan_seedable d) rest ∧ Forall (product_seedable d) BOOST_PRODUCTS.

Lemma seed_plan_step gone spec rest w :
  PLANS = gone ++ spec :: rest → plans_left (spec :: rest) w →
  ∃ w1, seed_plan spec w = (Ok tt, w1) ∧ plans_left rest w1.
Proof.
  intros Hl (Hok & Hfresh & [Hspec Hrest]%Forall_cons & Hprods). pose proof (seed_plan_run spec w Hok) as Hrun.
  destruct (seed_plan_completes spec w) as (w1 & Heq & Hfresh1 & Hunused); [|done..|].
  { rewrite Hl. apply elem_of_app. right. left. }
  exists w1. rewrite Heq in *. split; [done|]. destruct Hrun as (Hok1 & Hen & _ & _ & Hm & Hp1 & Hp2).
  split_and!; [done..| |].
  - rewrite Forall_forall in *. intros spec' Hin.
    assert (plan_key spec' ≠ plan_key spec) as Hkey
      by (apply (nodup_split_after plan_key gone spec rest); [rewrite <-Hl; apply plans_nodup|done]).
    apply (plan_seedable_kept (s_db (w_db w)) _ spec); auto.
    apply (nodup_split_after plan_placeholder gone spec rest); [rewrite <-Hl; apply placeholders_nodup|done].
  - eapply Forall_impl; [exact Hprods|]. unfold product_seedable, matching_products, priced_product,
      unused_product_price. by rewrite Hp1, Hp2.
Qed.

Lemma seed_plans_complete w :
  plans_left PLANS w → ∃ w1, _seed_plans w = (Ok tt, w1) ∧ plans_left [] w1.
Proof. intros Hw. apply for_each_left; [done|]. intros gone spec rest w0. apply seed_plan_step. Qed.

(** ** Products *)

Definition product_fits (spec : string * Z * Z) : bool :=
  varchar 255 spec.1.1 && varchar 255 (product_placeholder spec.1.2) && int4 spec.1.2 && int4 spec.2.

Lemma products_fit : Forall (λ spec, product_fits spec = true) BOOST_PRODUCTS.
Proof. by apply (bool_decide_unpack _). Qed.

Lemma product_fits_spec name credits amount :
  (name, credits, amount) ∈ BOOST_PRODUCTS →
  varchar 255 name = true ∧ varchar 255 (product_placeholder credits) = true ∧ int4 credits = true ∧ int4 amount = true.
Proof.
  intros Hin. pose proof products_fit as Hf. rewrite Forall_forall in Hf. apply Hf in Hin.
  unfold product_fits in Hin. rewrite !andb_true_iff in Hin. cbn [fst snd] in Hin. tauto.
Qed.

Lemma get_product_completes name credits amount w :
  (name, credits, amount) ∈ BOOST_PRODUCTS → fresh_keys w →
  product_seedable (s_db (w_db w)) (name, credits, amount) →
  ∃ p w1, get_or_create (matching_products name) (create_boost name credits) w = (Ok p, w1) ∧ fresh_keys w1 ∧
    d_product_prices (s_db (w_db w1)) = d_product_prices (s_db (w_db w)) ∧
    (priced_product (s_db (w_db w)) p ∨ unused_product_price (product_placeholder credits) (s_db (w_db w))).
Proof.
  intros (Hname & _ & Hcredits & _)%product_fits_spec Hfresh Hseed. unfold product_seedable in Hseed. cbn [fst snd] in Hseed.
  unfold get_or_create, dquery. rewrite query_bind.
  destruct (matching_products name (s_db (w_db w))) as [|p [|q l]] eqn:Hm; [|by exists p, w|done].
  unfold create_boost. rewrite bind_run. cbn [uuid4]. rewrite bind_run, dexec_run. cbn [w_db].
  set (product := mkProduct _ _ _ _). destruct (Hfresh (w_next w)) as (_ & _ & Hn & _); [lia|].
  assert (insert_product product (s_db (w_db w)) =
    Ok (set_products (<[w_next w := product]> (d_products (s_db (w_db w)))) (s_db (w_db w)))) as ->.
  { unfold insert_product, fresh_pk. cbn [product prod_id]. rewrite Hn. cbn [not_none is_none negb mbind outcome_bind].
    unfold save_product. cbn [prod_id]. rewrite tput_Ok; [done| |].
    - unfold row_ok. cbn -[varchar int4]. by rewrite Hname, ?Hcredits.
    - repeat constructor. }
  eexists _, _. split; [done|]. split_and!; [|done|by right].
  intros i Hi. cbn in *. destruct (Hfresh i) as (H1 & H2 & H3 & H4); [lia|].
  split_and!; [done..| |done]. rewrite lookup_insert_ne by lia. done.
Qed.

Lemma price_product_completes name credits amount p w :
  (name, credits, amount) ∈ BOOST_PRODUCTS → db_ok (s_db (w_db w)) → fresh_keys w →
  d_products (s_db (w_db w)) !! p.(prod_id) = Some p →
  priced_product (s_db (w_db w)) p ∨ unused_product_price (product_placeholder credits) (s_db (w_db w)) →
  ∃ w1, price_product credits amount p w = (Ok tt, w1) ∧ fresh_keys w1 ∧
    ∀ s, s ≠ product_placeholder credits →
      unused_product_price s (s_db (w_db w)) → unused_product_price s (s_db (w_db w1)).
Proof.
  intros (_ & Hph & _ & Hamount)%product_fits_spec Hok Hfresh Hp Hpriced. set (d := s_db (w_db w)) in *.
  assert (table_ok product_price_schema (has d) d.(d_product_prices)) as [Hrows Huniq] by (unfold db_ok in Hok; tauto).
  apply Forall_cons in Huniq as [Hu1 [Hu2 _]%Forall_cons].
  unfold price_product, dquery. rewrite query_bind. fold d.
  destruct (tfind _ (d_product_prices d)) as [[i pp]|] eqn:Hf; cbn [fst snd].
  - apply tfind_Some in Hf as [Hi Hpp]. rewrite b_eq_true in Hpp.
    destruct (b_eq pp.(pr_amount) _); cbn [negb]; [by exists w|].
    rewrite dexec_run. fold d. unfold save_product_amount. rewrite Hi. unfold save_product_price.
    pose proof (Hrows i pp Hi) as Hrow. unfold row_ok in Hrow. cbn -[varchar int4] in Hrow.
    rewrite !andb_true_iff in Hrow. rewrite tput_Ok; [|unfold row_ok; cbn -[varchar int4]; rewrite !andb_true_iff; tauto|].
    2: { repeat constructor; by eapply conflict_free_same. }
    cbn [mbind outcome_bind]. eexists. split; [done|]. split.
    + intros j Hj. cbn in *. destruct (Hfresh j Hj) as (H1 & H2 & H3 & H4). fold d in H1, H2, H3, H4.
      split_and!; [done..|]. rewrite lookup_insert_ne; [done|]. intros ->. congruence.
    + intros s _ Hs. cbn. apply map_Forall_insert_2; [|done]. cbn. exact (Hs i pp Hi).
  - rewrite bind_run. cbn [uuid4]. rewrite dexec_run. cbn [w_db]. fold d. unfold insert_product_price, fresh_pk.
    destruct (Hfresh (w_next w)) as (_ & _ & _ & Hn); [lia|]. fold d in Hn. rewrite Hn.
    cbn [not_none is_none negb mbind outcome_bind]. unfold save_product_price.
    pose proof (proj1 (tfind_None _ _) Hf) as Hnone. cbn beta in Hnone.
    assert (unused_product_price (product_placeholder credits) d) as Hunused.
    { destruct Hpriced as [(i & pp & Hi & Hpp)|]; [|done]. specialize (Hnone i pp Hi).
      by rewrite b_eq_false in Hnone. }
    rewrite tput_Ok; [| |].
    2: { unfold row_ok. cbn -[varchar int4]. rewrite Hph, Hamount. fold d. by rewrite Hp. }
    2: { repeat constructor; apply conflicts_false; intros j b Hj _ _ Hkey; injection Hkey as Hkey.
         - specialize (Hnone j b Hj). by rewrite b_eq_false in Hnone.
         - by apply (Hunused j b Hj). }
    cbn [mbind outcome_bind]. eexists. split; [done|]. split.
    + intros j Hj. cbn in *. destruct (Hfresh j) as (H1 & H2 & H3 & H4); [lia|]. fold d in H1, H2, H3, H4.
      split_and!; [done..|]. rewrite lookup_insert_ne by lia. done.
    + intros s Hs Hsu. cbn. by apply map_Forall_insert_2; [apply not_eq_sym|].
Qed.

Lemma seed_product_completes spec w :
  spec ∈ BOOST_PRODUCTS → db_ok (s_db (w_db w)) → fresh_keys w → product_seedable (s_db (w_db w)) spec →
  ∃ w1, seed_product spec w = (Ok tt, w1) ∧ fresh_keys w1 ∧
    ∀ s, s ≠ product_placeholder spec.1.2 →
      unused_product_price s (s_db (w_db w)) → unused_product_price s (s_db (w_db w1)).
Proof.
  destruct spec as [[name credits] amount]. intros Hin Hok Hfresh Hseed. rewrite seed_product_unfold, bind_run.
  pose proof (get_product_run name credits w Hok) as Hget.
  destruct (get_product_completes name credits amount w Hin Hfresh Hseed) as (p & w1 & Hrun & Hfresh1 & Hprices & Hpriced).
  rewrite Hrun in *. destruct Hget as (Hok1 & _ & Hm & _ & _).
  assert (p ∈ matching_products name (s_db (w_db w1))) as [Hp _]%matching_products_elem by (rewrite Hm; left); [|done].
  unfold priced_product, unused_product_price in *. rewrite <-Hprices in *.
  apply (price_product_completes name credits amount p w1); done.
Qed.

Lemma product_seedable_kept d d1 (spec spec' : string * Z * Z) :
  product_placeholder spec'.1.2 ≠ product_placeholder spec.1.2 → enlarged d d1 →
  matching_products spec'.1.1 d1 = matching_products spec'.1.1 d →
  (∀ s, s ≠ product_placeholder spec.1.2 → unused_product_price s d → unused_product_price s d1) →
  product_seedable d spec' → product_seedable d1 spec'.
Proof.
  intros Hph Hen Hm Hunused. unfold product_seedable. rewrite Hm.
  destruct (matching_products spec'.1.1 d) as [|p [|]]; [by apply Hunused| |done].
  intros [(i & pp & Hi & Hp)|Hu]; [|right; by apply Hunused]. left.
  apply (enl_product_prices _ _ Hen) in Hi as (a & Hi). eexists _, _. split; [exact Hi|done].
Qed.

Definition products_left (rest : list (string * Z * Z)) (w : world store) : Prop :=
  db_ok (s_db (w_db w)) ∧ fresh_keys w ∧ Forall (product_seedable (s_db (w_db w))) rest.

Lemma seed_product_step gone spec rest w :
  BOOST_PRODUCTS = gone ++ spec :: rest → products_left (spec :: rest) w →
  ∃ w1, seed_product spec w = (Ok tt, w1) ∧ products_left rest w1.
Proof.
  intros Hl (Hok & Hfresh & [Hspec Hrest]%Forall_cons). pose proof (seed_product_run spec w Hok) as Hrun.
  destruct (seed_product_completes spec w) as (w1 & Heq & Hfresh1 & Hunused); [|done..|].
  { rewrite Hl. apply elem_of_app. right. left. }
  exists w1. rewrite Heq in *. split; [done|]. destruct Hrun as (Hok1 & Hen & _ & _ & Hm & _).
  split_and!; [done..|]. rewrite Forall_forall in *. intros spec' Hin.
  apply (product_seedable_kept (s_db (w_db w)) _ spec); auto.
  - apply (nodup_split_after (λ s, product_placeholder s.1.2) gone spec rest);
      [rewrite <-Hl; apply boost_placeholders_nodup|done].
  - apply Hm, (nodup_split_after (λ s, s.1.1) gone spec rest); [rewrite <-Hl; apply boosts_nodup|done].
Qed.

Lemma seed_products_complete w :
  products_left BOOST_PRODUCTS w → ∃ w1, _seed_products w = (Ok tt, w1) ∧ products_left [] w1.
Proof. intros Hw. apply for_each_left; [done|]. intros gone spec rest w0. apply seed_product_step. Qed.

(** C15. A deployment's seeding completes, whatever the rest of the database holds, when
    no two plans share a context, tier and interval of the list, no two products a name
    of the list, and the placeholder of a plan or product that has no price yet is not
    the Stripe price of another: nothing in it raises. *)
Theorem seed_catalog_completes w :
  store_ok (w_db w) → fresh_keys w → seedable (s_db (w_db w)) →
  ∃ w1, seed_catalog w = (Ok tt, w1) ∧ seeded (s_db (w_db w1)).
Proof.
  intros Hok Hfresh [Hplans Hprods]. unfold seed_catalog, atomic. rewrite bind_run.
  destruct (seed_plans_complete w) as (w1 & Hrun1 & Hok1 & Hfresh1 & _ & Hprods1); [done|].
  pose proof (seed_plans_run w Hok) as Hseeded. rewrite Hrun1 in *. cbv beta iota zeta in Hseeded.
  destruct Hseeded as (_ & _ & Hseeded).
  destruct (seed_products_complete w1) as (w2 & Hrun2 & _); [done|].
  pose proof (seed_products_run w1 Hok1 Hseeded) as Hs2. rewrite Hrun2 in *. exists w2.
  destruct Hs2 as (_ & _ & Hs2). by split.
Qed.
