(* ===== verification/CatalogAuditFacts.v ===== *)
(** * What the audit does to Stripe

    [CatalogSeed.v]'s [audit_stripe_catalog]: without the archive flag it only lists;
    with it, the products it archives are strays of the listing, and Stripe had answered
    for each of their recurring active prices that no active subscription uses it. *)

From S2P Require Import Prelude PyVal Effects Domain Relational Store Django.
From S2P Require Import CatalogSync CatalogSeed.

#[local] Open Scope string_scope.
#[local] Open Scope list_scope.

(** ** Specification *)

Section Answers.
  Context `{StripeServer} `{StripeKey}.

(** Stripe said that the price is not recurring, or that no active subscription has it. *)
Definition unsubscribed (log : list stripe_call) (price : json) : Prop :=
  getattr price "recurring" = Ok JNull ∨
  ∃ id subs data, getattr price "id" = Ok id ∧ answered log (SubscriptionListActive (py_str id)) subs ∧
    getattr subs "data" = Ok data ∧ truthy data = false.

(** Of every active price of the product. *)
Definition cleared (log : list stripe_call) (product : string) : Prop :=
  ∃ page data prices, answered log (PriceListByProduct product) page ∧ getattr page "data" = Ok data ∧
    py_iter data = Ok prices ∧ Forall (unsubscribed log) prices.

(** The metadata names a row of the database: as the plan with the [local_plan_id], or as
    the product with the [local_product_id] when there is no plan's. *)
Definition names_row (d : db) (md : json) : Prop :=
  (get md "kind" = Ok (JStr "plan") ∧ ∃ i p, d.(d_plans) !! i = Some p ∧
    get md "local_plan_id" = Ok (JStr (uuid_str i))) ∨
  (get md "kind" = Ok (JStr "product") ∧ ∃ i p, d.(d_products) !! i = Some p ∧
    get md "local_product_id" = Ok (JStr (uuid_str i)) ∧
    ∃ v, get md "local_plan_id" = Ok v ∧ truthy v = false).

(** The product is in the listing, and its metadata names no plan or product of the
    database. *)
Definition stray (d : db) (log : list stripe_call) (product : string) : Prop :=
  ∃ page data products sp id md, answered log ProductListActive page ∧ getattr page "data" = Ok data ∧
    py_iter data = Ok products ∧ sp ∈ products ∧ getattr sp "id" = Ok id ∧ py_str id = product ∧
    _product_metadata sp = Ok md ∧ ¬ names_row d md.

Definition archived : product_params := ProductParams None None None (Some false).

(** What the audit may ask of Stripe after the calls [log]. *)
Definition audit_call (archive : bool) (d : db) (log : list stripe_call) (c : stripe_call) : Prop :=
  match c with
  | ProductListActive | PriceListByProduct _ | SubscriptionListActive _ => True
  | ProductModify product params =>
      archive = true ∧ params = archived ∧ stray d log product ∧ cleared log product
  | _ => False
  end.

(** The calls of [m] satisfy [ok], each with the log before it; nothing else happens. *)
Definition asks {A} (ok : list stripe_call → stripe_call → Prop) (m : M store A) (w : world store) : Prop :=
  ∃ calls, (m w).2 = World (w_db w) (w_stripe w ++ calls) (w_tasks w) (w_now w) (w_next w) ∧
    ∀ before c after, calls = before ++ c :: after → ok (w_stripe w ++ before) c.

(** ** Lemmas *)

Lemma unsubscribed_app log price more : unsubscribed log price → unsubscribed (log ++ more) price.
Proof.
  intros [Hn|(id & subs & data & Hid & Ha & Hd)]; [by left|right].
  exists id, subs, data. split; [done|]. split; [by apply answered_app|done].
Qed.

Lemma stray_app d log product more : stray d log product → stray d (log ++ more) product.
Proof.
  intros (page & data & products & sp & id & md & Ha & Hrest). exists page, data, products, sp, id, md.
  split; [by apply answered_app|done].
Qed.

Section Rules.
  Context (ok : list stripe_call → stripe_call → Prop).
  Implicit Types w : world store.

Lemma asks_still {A} (m : M store A) w : (m w).2 = w → asks ok m w.
Proof.
  intros Hw. exists []. split; [rewrite Hw, app_nil_r; by destruct w|]. by intros [] c after.
Qed.

Lemma asks_lift {A} (o : outcome A) w : asks ok (lift o) w.
Proof. by apply asks_still. Qed.
Lemma asks_ret {A} (a : A) w : asks ok (mret a) w.
Proof. by apply asks_still. Qed.
Lemma asks_query {A} (q : db → A) w : asks ok (dquery q) w.
Proof. by apply asks_still. Qed.

Lemma asks_stripe c w : ok (w_stripe w) c → asks ok (stripe c) w.
Proof.
  intros Hc. exists [c]. split; [done|]. intros before c' after Heq.
  destruct before as [|b [|]]; [|done..]. injection Heq as <- _. by rewrite app_nil_r.
Qed.

Lemma asks_bind {A B} (m : M store A) (f : A → M store B) w :
  asks ok m w → (∀ a w1, m w = (Ok a, w1) → asks ok (f a) w1) → asks ok (m ≫= f) w.
Proof.
  intros (l1 & Hw1 & H1) Hf. unfold asks. rewrite bind_run. destruct (m w) as [[a|e] w1]; cbn in Hw1; [|by exists l1].
  destruct (Hf a w1 eq_refl) as (l2 & Hw2 & H2). rewrite Hw1 in Hw2, H2. cbn in Hw2, H2. exists (l1 ++ l2).
  rewrite Hw1. split; [by rewrite Hw2, app_assoc|]. intros before c after Heq.
  apply app_eq_app in Heq as (mid & [[-> Hc]|[-> Hc]]).
  - destruct mid as [|c' mid]; cbn in Hc.
    + rewrite app_nil_r in *. specialize (H2 [] c after (eq_sym Hc)). by rewrite app_nil_r in H2.
    + injection Hc as <- ->. by apply (H1 before c mid).
  - rewrite app_assoc. by apply (H2 mid c after).
Qed.

Lemma asks_log {A} (m : M store A) w r w1 : asks ok m w → m w = (r, w1) → ∃ l, w_stripe w1 = w_stripe w ++ l.
Proof. intros (l & Hl & _) Hm. exists l. rewrite Hm in Hl. cbn in Hl. by rewrite Hl. Qed.

Lemma asks_db {A} (m : M store A) w r w1 : asks ok m w → m w = (r, w1) → w_db w1 = w_db w.
Proof. intros (l & Hl & _) Hm. rewrite Hm in Hl. cbn in Hl. by rewrite Hl. Qed.

(** A loop whose bodies keep to [ok] wherever the log has [I], which later calls keep. *)
Lemma asks_for_each {A} (f : A → M store unit) (I : world store → Prop) l w :
  I w → (∀ a w r w1, a ∈ l → I w → f a w = (r, w1) → asks ok (f a) w ∧ I w1) → asks ok (for_each f l) w.
Proof.
  revert w. induction l as [|a l IH]; intros w HI Hf; [apply asks_ret|]. cbn. destruct (f a w) as [r w1] eqn:Hr.
  destruct (Hf a w r w1 (list_elem_of_here _ _) HI Hr) as [Ha HI1]. apply asks_bind; [done|].
  intros u w1' Hw1. apply IH; [congruence|]. intros b w2 r2 w3 Hb. apply Hf. by right.
Qed.
End Rules.

(** ** The commands *)

Lemma backs_subscription_asks archive d prices w : asks (audit_call archive d) (backs_subscription prices) w.
Proof.
  revert w. induction prices as [|price prices IH]; intros w; [apply asks_ret|]. cbn [backs_subscription].
  apply asks_bind; [apply asks_lift|]. intros recurring w1 _. destruct (is_null recurring); [apply IH|].
  apply asks_bind; [apply asks_lift|]. intros id w2 _. apply asks_bind; [by apply asks_stripe|]. intros subs w3 _.
  apply asks_bind; [apply asks_lift|]. intros data w4 _. destruct (truthy data); [apply asks_ret|apply IH].
Qed.

Lemma backs_subscription_false prices w w1 :
  backs_subscription prices w = (Ok false, w1) → Forall (unsubscribed (w_stripe w1)) prices.
Proof.
  revert w. induction prices as [|price prices IH]; intros w Hrun; [constructor|]. cbn [backs_subscription] in Hrun.
  rewrite lift_bind in Hrun. destruct (getattr price "recurring") as [recurring|] eqn:Hr; [|done].
  destruct (is_null recurring) eqn:Hn.
  { constructor; [left; by destruct recurring|by apply (IH w)]. }
  rewrite lift_bind in Hrun. destruct (getattr price "id") as [id|] eqn:Hid; [|done].
  apply bind_Ok_inv in Hrun as (subs & w2 & Hs & Hrun). injection Hs as Hs <-.
  rewrite lift_bind in Hrun. destruct (getattr subs "data") as [data|] eqn:Hd; [|done].
  destruct (truthy data) eqn:Ht; [done|]. constructor; [|by apply (IH _ Hrun)].
  destruct (asks_log _ _ _ _ _ (backs_subscription_asks true (s_db (w_db w)) prices _) Hrun) as (l & ->).
  apply unsubscribed_app. right. exists id, subs, data. split_and!; [done| |done|done].
  exists (w_stripe w), []. by rewrite Hs.
Qed.

(** A member of the listing that [classify] calls a stray. *)
Lemma classify_strays plans products sps strays n :
  classify plans products sps = Ok (strays, n) →
  ∀ sp, sp ∈ strays → sp ∈ sps ∧ ∃ md, _product_metadata sp = Ok md ∧ owned plans products md = Ok false.
Proof.
  revert strays n. induction sps as [|sp' sps IH]; intros strays n; cbn [classify].
  { intros [= <- <-] sp Hsp. by apply not_elem_of_nil in Hsp. }
  intros (md & Hmd & Hrun)%outcome_bind_Ok sp. apply outcome_bind_Ok in Hrun as (mine & Hmine & Hrun).
  apply outcome_bind_Ok in Hrun as ([strays' n'] & Hrest & [= Hrun]). cbn [fst snd] in Hrun.
  pose proof (IH strays' n' Hrest sp) as Hin. destruct mine; injection Hrun as <- <-.
  - intros Hsp. destruct (Hin Hsp) as [? Hmd']. split; [by right|done].
  - intros [->|Hsp]%elem_of_cons; [split; [by left|by exists md]|].
    destruct (Hin Hsp) as [? Hmd']. split; [by right|done].
Qed.

(** What the code does not own names no row. *)
Lemma not_owned d md :
  owned (uuid_str <$> (map_to_list d.(d_plans)).*1) (uuid_str <$> (map_to_list d.(d_products)).*1) md = Ok false →
  ¬ names_row d md.
Proof.
  assert (∀ A (t : table A) i a, t !! i = Some a → str_in (uuid_str i) (uuid_str <$> (map_to_list t).*1) = true) as Hin.
  { intros A t i a Ha. apply str_in_true, list_elem_of_fmap. exists i. split; [done|]. apply list_elem_of_fmap.
    exists (i, a). split; [done|]. by apply elem_of_map_to_list. }
  assert (∀ i, truthy (JStr (uuid_str i)) = true) as Ht.
  { intros i. cbn. by rewrite (proj2 (b_eq_false _ _)) by apply uuid_str_nonempty. }
  unfold owned. intros Ho [[Hk (i & p & Hp & Hid)]|[Hk (i & p & Hp & Hid & v & Hv & Hf)]]; rewrite Hk in Ho;
    cbn [mbind outcome_bind] in Ho.
  - rewrite Hid in Ho. cbn [mbind outcome_bind] in Ho. rewrite Ht in Ho. cbn [mbind outcome_bind] in Ho.
    rewrite (Hin _ _ _ _ Hp) in Ho. discriminate Ho.
  - rewrite Hv in Ho. cbn [mbind outcome_bind] in Ho. rewrite Hf, Hid in Ho. cbn [mbind outcome_bind] in Ho.
    rewrite (Hin _ _ _ _ Hp) in Ho. discriminate Ho.
Qed.

Lemma archive_stray_asks d sp w :
  (∀ id, getattr sp "id" = Ok id → stray d (w_stripe w) (py_str id)) →
  asks (audit_call true d) (archive_stray sp) w.
Proof.
  intros Hstray. unfold archive_stray. apply asks_bind; [apply asks_lift|]. intros id w0 [= Hid <-].
  apply asks_bind; [by apply asks_stripe|]. intros page w1 [= Hpage <-].
  apply asks_bind; [apply asks_lift|]. intros prices w2 [= Hprices <-].
  apply asks_bind; [apply backs_subscription_asks|]. intros active w3 Hrun.
  destruct active; [apply asks_ret|]. apply asks_bind; [|intros; apply asks_ret]. apply asks_stripe.
  apply outcome_bind_Ok in Hprices as (data & Hdata & Hprices).
  pose proof (backs_subscription_false _ _ _ Hrun) as Hfree.
  destruct (asks_log _ _ _ _ _ (backs_subscription_asks true d prices _) Hrun) as (l & Hl). cbn in Hl.
  split_and!; [done..| |].
  - rewrite Hl, <-app_assoc. by apply stray_app, Hstray.
  - exists page, data, prices. split_and!; [|done..]. rewrite Hl. apply answered_app. by exists (w_stripe w), [].
Qed.

Lemma archive_strays_asks d strays w :
  (∀ sp id, sp ∈ strays → getattr sp "id" = Ok id → stray d (w_stripe w) (py_str id)) →
  asks (audit_call true d) (_archive_strays strays) w.
Proof.
  intros Hstrays. apply (asks_for_each _ _ (λ w1, ∀ sp id, sp ∈ strays → getattr sp "id" = Ok id →
    stray d (w_stripe w1) (py_str id))); [done|].
  intros sp w0 r w1 Hin HI Hrun. assert (asks (audit_call true d) (archive_stray sp) w0) as Ha
    by (apply archive_stray_asks; intros id Hid; by apply (HI sp)).
  split; [done|]. destruct (asks_log _ _ _ _ _ Ha Hrun) as (l & ->). intros sp' id Hin' Hid. by apply stray_app, (HI sp').
Qed.

Lemma print_strays_still strays w : (for_each print_stray strays w).2 = w.
Proof.
  induction strays as [|sp strays IH]; [done|]. cbn. rewrite bind_run. unfold print_stray.
  rewrite lift_bind. destruct (getattr sp "id"); [|done]. rewrite lift_bind. destruct (getattr sp "name"); [|done].
  rewrite lift_bind. by destruct (_product_metadata sp).
Qed.

(** C16. The audit leaves the database and the queue as they are. Without [--archive] it
    asks Stripe for lists only. With it, the one thing it changes is to archive products,
    and each archived product is one of the listed products whose metadata names no row
    of the database, neither a plan nor a product, and Stripe has answered for each active
    recurring price of it that no active subscription has it. *)
Theorem audit_archives_strays archive w :
  asks (audit_call archive (s_db (w_db w))) (audit_stripe_catalog archive) w.
Proof.
  unfold audit_stripe_catalog. destruct (b_eq stripe_api_key ""); [apply asks_ret|].
  apply asks_bind; [apply asks_query|]. intros plans w0 [= Hplans <-].
  apply asks_bind; [apply asks_query|]. intros products w0 [= Hproducts <-].
  apply asks_bind.
  { unfold _classify_products. apply asks_bind; [by apply asks_stripe|]. intros page w1 _.
    apply asks_bind; [apply asks_lift|]. intros sps w2 _. apply asks_lift. }
  intros [strays n] w1 Hrun. cbn [fst]. destruct (b_eq (length strays) 0); [apply asks_ret|].
  apply asks_bind; [apply asks_still, print_strays_still|]. intros [] w2 Hprint.
  assert (w2 = w1) as -> by (pose proof (print_strays_still strays w1) as Hs; by rewrite Hprint in Hs).
  destruct archive; [|apply asks_ret]. apply archive_strays_asks. intros sp id Hin Hid.
  unfold _classify_products in Hrun. apply bind_Ok_inv in Hrun as (page & w3 & Hpage & Hrun).
  injection Hpage as Hpage <-. rewrite lift_bind in Hrun.
  destruct (data ← getattr page "data"; py_iter data) as [sps|] eqn:Hsps; [|done].
  injection Hrun as Hclassify <-. apply outcome_bind_Ok in Hsps as (data & Hdata & Hsps).
  destruct (classify_strays _ _ _ _ _ Hclassify sp Hin) as (Hlisted & md & Hmd & Hown).
  exists page, data, sps, sp, id, md. split_and!; [|done..|by apply not_owned; subst]. by exists (w_stripe w), [].
Qed.
End Answers.
