(* ===== verification/CheckoutFacts.v ===== *)
(** * Correctness of checkouts

    What a checkout asks of Stripe, and that the session it creates comes back
    through the webhook as it was meant. *)

From S2P Require Import Prelude PyVal Effects Domain Relational Store StoreFacts Django Repos.
From S2P Require Import Repositories RepositoriesFacts Webhooks Credits CreditsFacts Auth Orgs Account.
From S2P Require Import Currency Billing Subscriptions Fields OrgViews RedirectUrls.
From S2P Require Import BillingContext BillingCatalog BillingViews BillingTraces BillingViewFacts CatalogFacts.

#[local] Open Scope string_scope.
#[local] Arguments uuid_str : simpl never.

(** ** Specification *)

(** The trial and the metadata of a plan's checkout. *)
Definition checkout_trial (plan : Plan) (data : CheckoutData) : option Z :=
  match plan.(plan_context) with PERSONAL => data.(cd_trial_period_days) | TEAM => None end.

(** The plan a checkout is about. *)
Definition requested_plan (d : db) (r : CheckoutRequest) : option Plan :=
  row ← d.(d_prices) !! r.(cr_plan_price_id); d.(d_plans) !! row.(pp_plan_id).

(** The customer of a buyer: a user, or an org. *)
Definition customer_of_buyer (user_id org_id : option uuid) (d : db) : option StripeCustomer :=
  match user_id, org_id with
  | Some u, _ => customer_by_user d u
  | None, Some o => customer_by_org d o
  | None, None => None
  end.

Section Facts.
  Context `{StripeServer} `{BillingSettings} `{IPLiterals} `{RedirectSettings} `{URLField}.
  Context `{DjangoLib} `{Secrets}.
  Implicit Types w : world store.

(** ** Helper lemmas *)

Lemma get_or_create_run user_id org_id email name locale w c w1 :
  store_ok (w_db w) → (user_id = None ∨ org_id = None) →
  get_or_create_customer user_id org_id email name locale w = (Ok c, w1) →
  store_ok (w_db w1) ∧ w_tasks w1 = w_tasks w ∧
  (∃ row, customer_of_buyer user_id org_id (s_db (w_db w1)) = Some row ∧
    row.(cus_stripe_id) = c.(cus_stripe_id)) ∧
  ∃ l, w_stripe w1 = (w_stripe w ++ l)%list ∧
    (l = [] ∧ w1 = w ∨ l = [CustomerCreate email name locale (customer_metadata user_id org_id)]).
Proof.
  intros Hok Hone. unfold get_or_create_customer.
  set (existing := customer_of_buyer user_id org_id (s_db (w_db w))).
  assert (match user_id, org_id with
          | Some u, _ => query (λ d, custs_get_by_user_id d u)
          | None, Some o => query (λ d, custs_get_by_org_id d o)
          | None, None => raise (ValueError "Either user_id or org_id must be provided")
          end w = (match user_id, org_id with
                   | None, None => Raise (ValueError "Either user_id or org_id must be provided")
                   | _, _ => Ok existing
                   end, w)) as Hq by (by destruct user_id, org_id).
  destruct existing as [row|] eqn:Hex.
  { rewrite bind_run, Hq. destruct user_id as [u|], org_id as [o|]; try done; intros [= <- <-];
      (split_and!; [done|done|by exists row|exists []; rewrite app_nil_r; by auto]). }
  rewrite bind_run, Hq. intros Hrun.
  assert ((sc ← stripe (CustomerCreate email name locale (customer_metadata user_id org_id));
           id ← uuid4; stripe_id ← lift (i ← getattr sc "id"; expect_str i);
           livemode ← lift (l ← getattr sc "livemode"; expect_bool l);
           now ← utcnow;
           customer ← lift (new_StripeCustomer id stripe_id user_id org_id livemode now);
           custs_save customer) w = (Ok c, w1)) as Hrun' by (destruct user_id, org_id; done).
  clear Hrun Hq. apply bind_Ok_inv in Hrun' as (sc & w2 & Hsc & Hrun).
  unfold stripe in Hsc. injection Hsc as _ <-.
  apply bind_Ok_inv in Hrun as (id & w3 & Hid & Hrun). injection Hid as <- <-.
  apply bind_Ok_inv in Hrun as (k & w4 & Hk & Hrun). injection Hk as _ <-.
  apply bind_Ok_inv in Hrun as (lm & w4 & Hlm & Hrun). injection Hlm as _ <-.
  apply bind_Ok_inv in Hrun as (now & w4 & Hnow & Hrun). injection Hnow as <- <-.
  apply bind_Ok_inv in Hrun as (cus & w4 & Hcus & Hrun). injection Hcus as Hcus <-.
  unfold new_StripeCustomer in Hcus. destruct (exactly_one_owner user_id org_id) eqn:Hown; [|done].
  injection Hcus as <-. unfold custs_save in Hrun.
  apply bind_Ok_inv in Hrun as (t & w5 & Ht & Hrun). injection Ht as <- <-.
  apply bind_Ok_inv in Hrun as (pk & w5 & Hpk & Hrun). injection Hpk as <- <-.
  apply bind_Ok_inv in Hrun as ([] & w5 & Hex' & Hrun). injection Hrun as <- <-.
  unfold exec in Hex'. cbn in Hex'. destruct (on_db _ _) as [d|] eqn:Hsave; [|done]. injection Hex' as <-.
  apply on_db_inv in Hsave as [Hsave _]. pose proof (customer_save_inv _ _ _ _ _ Hok Hsave) as (Hok1 & row & Hrow & Hst & Hu & Ho).
  cbn in Hst, Hu, Ho. split_and!; [exact Hok1|done| |].
  - exists row. split; [|done]. cbn. destruct user_id as [u|], org_id as [o|]; try done; cbn.
    + apply customer_by_user_iff; [done|]. done.
    + apply customer_by_org_iff; [done|]. done.
  - eexists. split; [reflexivity|]. by right.
Qed.

Lemma lower_non_empty s : s ≠ "" → lower s ≠ "".
Proof. by destruct s. Qed.

Lemma billing_currency_non_empty query user c dual :
  _resolve_billing_currency query user = Ok (c, dual) → c ≠ "".
Proof.
  unfold _resolve_billing_currency. destruct (match lower <$> non_empty query with Some c => _ | None => _ end); [done|].
  intros [= <- _]. destruct (str_in _ BILLING_CURRENCIES); [|done].
  destruct (non_empty query) as [c|] eqn:Hq; cbn; [apply non_empty_Some in Hq as [_ Hq]; by apply lower_non_empty|].
  destruct (non_empty (u_preferred_currency <$> user)) as [p|] eqn:Hp; cbn; [|done].
  destruct (str_in (lower p) SUPPORTED_CURRENCIES); cbn; [|done].
  apply non_empty_Some in Hp as [_ Hp]. by apply lower_non_empty.
Qed.

Lemma active_plan_price_resolved i c d plan p :
  active_plan_price i c d = Some (plan, p) →
  p.(po_resolved) = prefetch_for p.(po_owner) c d ∧ plan.(plan_is_active) = true.
Proof.
  unfold active_plan_price. destruct (d_prices d !! i) as [row|]; [|done]. cbn.
  destruct (d_plans d !! pp_plan_id row) as [pl|]; [|done]. cbn.
  destruct (plan_is_active pl) eqn:Ha; [|done]. by intros [= <- <-].
Qed.

Lemma CheckoutRequestSerializer_Ok r data :
  CheckoutRequestSerializer r = Ok data →
  data.(cd_plan_price_id) = r.(cr_plan_price_id) ∧ (1 <= data.(cd_seat_limit) <= 10000)%Z ∧
  data.(cd_success_url) = r.(cr_success_url) ∧ data.(cd_cancel_url) = r.(cr_cancel_url) ∧
  _validate_redirect_url r.(cr_success_url) = Ok r.(cr_success_url) ∧
  _validate_redirect_url r.(cr_cancel_url) = Ok r.(cr_cancel_url) ∧
  (∀ n, data.(cd_org_name) = Some n → n ≠ "" ∧ (String.length n <= 255)%nat).
Proof.
  assert (∀ u v, redirect_field u = Ok v → v = u ∧ _validate_redirect_url u = Ok u) as Hurl.
  { intros u v. unfold redirect_field. destruct (url_field_ok u); [|done]. intros Hv.
    assert (v = u) as ->; [|done]. unfold _validate_redirect_url in Hv.
    apply outcome_bind_Ok in Hv as (sr & _ & Hv). cbn in Hv. repeat (case_match; try done); congruence. }
  unfold CheckoutRequestSerializer. destruct (in_range 1 10000 _) eqn:Hs; cbn [negb]; [|done].
  intros (su & [-> Hsu]%Hurl & Hr)%outcome_bind_Ok.
  apply outcome_bind_Ok in Hr as (cu & [-> Hcu]%Hurl & Hr).
  destruct (in_range 1 90 _); cbn [negb] in Hr; [|done].
  apply outcome_bind_Ok in Hr as (name & Hname & [= <-]). cbn. split_and!; try done.
  - destruct (cr_seat_limit r); cbn in *; [rewrite andb_true_iff, Z.leb_le in Hs; lia|lia].
  - destruct (cr_seat_limit r); cbn in *; [rewrite andb_true_iff, !Z.leb_le in Hs; lia|lia].
  - intros n ->. destruct (cr_org_name r) as [raw|]; [|done].
    apply outcome_bind_Ok in Hname as (n' & Hn & [= ->]).
    apply CharField_between_Ok in Hn. tauto.
Qed.

Lemma CheckoutRequestSerializer_name r data name :
  CheckoutRequestSerializer r = Ok data → data.(cd_org_name) = Some name →
  ∃ raw, r.(cr_org_name) = Some raw ∧ CharField 255 raw = Ok name ∧
    data.(cd_keep_personal_subscription) = or_else r.(cr_keep_personal_subscription) false.
Proof.
  unfold CheckoutRequestSerializer. destruct (negb (in_range 1 10000 _)); [done|].
  intros (su & _ & Hr)%outcome_bind_Ok Hname. apply outcome_bind_Ok in Hr as (cu & _ & Hr).
  destruct (negb (in_range 1 90 _)); [done|]. apply outcome_bind_Ok in Hr as (n & Hn & [= <-]).
  cbn in Hname. subst n. destruct (cr_org_name r) as [raw|]; [|done].
  apply outcome_bind_Ok in Hn as (n & Hn & [= ->]). by exists raw.
Qed.

(** *** Plan checkouts *)

Lemma checkout_session_run user q r w url w' :
  let d := s_db (w_db w) in let u := user.2 in
  store_ok (w_db w) → checkout_session user q r w = (Ok url, w') →
  ∃ data cur dual plan p cust calls metadata,
    CheckoutRequestSerializer r = Ok data ∧
    _resolve_billing_currency q.(q_currency) (Some u) = Ok (cur, dual) ∧
    active_plan_price data.(cd_plan_price_id) (Some cur) d = Some (plan, p) ∧
    plan.(plan_is_active) = true ∧
    w_stripe w' = (w_stripe w ++ calls ++
      [CheckoutSessionCreate (checkout_params cust (charged d p cur) (uuid_str user.1) cur
         data.(cd_seat_limit) u.(u_preferred_locale) data.(cd_success_url) data.(cd_cancel_url)
         (checkout_trial plan data) metadata)])%list ∧
    match plan.(plan_context) with
    | PERSONAL =>
        data.(cd_seat_limit) = 1%Z ∧ metadata = None ∧
        (calls = [] ∨ calls = [CustomerCreate u.(u_email) (Some u.(u_full_name)) u.(u_preferred_locale)
                                 [("user_id", uuid_str user.1)]]) ∧
        ∃ c, customer_by_user (s_db (w_db w')) user.1 = Some c ∧ c.(cus_stripe_id) = cust
    | TEAM =>
        (1 <= data.(cd_seat_limit) <= 10000)%Z ∧ owns_org user.1 d = false ∧ w_db w' = w_db w ∧
        calls = [CustomerCreate u.(u_email) (Some u.(u_full_name)) u.(u_preferred_locale)
                   [("user_id", uuid_str user.1); ("scope", "team_checkout")]] ∧
        ∃ name, data.(cd_org_name) = Some name ∧ name ≠ "" ∧
          metadata = _build_checkout_metadata true data ∧ is_Some metadata
    end.
Proof.
  intros d u Hok Hrun. unfold checkout_session in Hrun.
  apply bind_Ok_inv in Hrun as (data & w1 & Hdata & Hrun). injection Hdata as Hdata <-.
  apply bind_Ok_inv in Hrun as ([cur dual] & w1 & Hcur & Hrun). injection Hcur as Hcur <-.
  cbn [fst snd] in Hrun.
  apply bind_Ok_inv in Hrun as ([plan p] & w1 & Hp & Hrun).
  unfold _get_active_plan_price, get_or_404, dquery in Hp. rewrite query_bind in Hp. fold d in Hp.
  destruct (active_plan_price _ _ d) as [pp|] eqn:Hact; [|done]. injection Hp as -> <-. cbn [fst snd] in Hrun.
  apply bind_Ok_inv in Hrun as (qty & w1 & Hqty & Hrun). injection Hqty as Hqty <-.
  apply validate_quantity_Ok in Hqty as (-> & Hq1 & Hpers).
  destruct (active_plan_price_resolved _ _ _ _ _ Hact) as [Hres Hisact].
  pose proof (billing_currency_non_empty _ _ _ _ Hcur) as Hne.
  rewrite (bind_Ok _ _ _ _ _ (charged_run d p cur w eq_refl Hok Hne Hres)) in Hrun.
  destruct (CheckoutRequestSerializer_Ok _ _ Hdata) as (_ & Hseats & _ & _ & _ & _ & Hname).
  exists data, cur, dual, plan, p.
  destruct (plan_context plan) eqn:Hctx; cbn [b_eq] in Hrun.
  - change (b_eq PERSONAL TEAM) with false in Hrun. cbv iota zeta in Hrun. rewrite bind_run in Hrun.
    apply bind_Ok_inv in Hrun as (cust & w1 & Hcust & Hrun).
    apply bind_Ok_inv in Hcust as (c & w2 & Hc & [= <- <-]).
    destruct (get_or_create_run _ _ _ _ _ _ _ _ Hok (or_intror eq_refl) Hc) as (_ & _ & (row & Hrow & Hst) & l & Hl & Hcases).
    apply bind_Ok_inv in Hrun as (session & w3 & Hses & [= _ <-]). injection Hses as _ <-.
    exists (cus_stripe_id c), l, None. cbn [w_stripe w_db]. split_and!; try done.
    + unfold checkout_trial. rewrite Hctx. rewrite Hl, <-app_assoc. done.
    + by apply Hpers.
    + destruct Hcases as [[-> _]| ->]; [by left|by right].
    + by exists row.
  - change (b_eq TEAM TEAM) with true in Hrun. cbv iota zeta in Hrun.
    apply bind_Ok_inv in Hrun as ([] & w1 & Hval & Hrun).
    unfold _validate_team_checkout, dquery in Hval. rewrite query_bind in Hval. fold d in Hval.
    destruct (owns_org user.1 d) eqn:Howns; [done|].
    destruct (cd_org_name data) as [name|] eqn:Hon; [|done]. injection Hval as <-.
    apply bind_Ok_inv in Hrun as (cust & w1 & Hcust & Hrun).
    apply bind_Ok_inv in Hcust as (id & w2 & Hid & [= Hcid <-]).
    apply bind_Ok_inv in Hid as (sc & w3 & Hsc & [= _ <-]). injection Hsc as _ <-.
    apply bind_Ok_inv in Hrun as (session & w3 & Hses & [= _ <-]). injection Hses as _ <-.
    exists cust. eexists. exists (_build_checkout_metadata true data). cbn [w_stripe w_db].
    split_and!; try done.
    + unfold checkout_trial. rewrite Hctx. rewrite <-app_assoc. done.
    + apply Hseats.
    + exists name. destruct (Hname name eq_refl) as [Hn _]. by split_and!.
Qed.

(** *** Product purchases *)

(** The buyers a caller may purchase credits for: himself, or the org he owns. *)
Definition may_purchase (d : db) (user : uuid) (org_id : option uuid) : Prop :=
  match org_id with
  | None => True
  | Some o => ∃ i m, d.(d_members) !! i = Some m ∧ m.(m_user) = user ∧ m.(m_org) = o ∧ m.(m_role) = OWNER
  end.

Definition in_scope (context : option PlanContext) (org_id : option uuid) : Prop :=
  match context with
  | Some PERSONAL => org_id = None
  | Some TEAM => org_id ≠ None
  | None => True
  end.

(** A completed session carries the parameters it was created with. *)
Definition echoes (params session : json) : Prop :=
  ∀ key, key ∈ ["mode"; "client_reference_id"; "metadata"; "customer"] → get session key = get params key.

Lemma purchase_context_run user context w org_id w' :
  _resolve_product_purchase_context user context w = (Ok org_id, w') →
  w' = w ∧ may_purchase (s_db (w_db w)) user org_id ∧ in_scope context org_id.
Proof.
  unfold _resolve_product_purchase_context, dquery. rewrite query_bind.
  destruct (first_membership user _) as [m|] eqn:Hm.
  - apply first_membership_Some in Hm as (i & Hm & Hu).
    destruct context as [[]|]; cbn [or_else]; [by intros [= <- <-]| |];
      (destruct (is_owner (m_role m)) eqn:Ho; [|done]; intros [= <- <-]; split; [done|]; split; [|done];
       exists i, m; unfold is_owner in Ho; rewrite b_eq_true in Ho; done).
  - destruct context as [[]|]; cbn [or_else]; [by intros [= <- <-]|done|by intros [= <- <-]].
Qed.

Lemma product_checkout_run user q r url w w' :
  store_ok (w_db w) → product_checkout_session user q r w = (Ok url, w') →
  ∃ data cur p product_id org_id cust context,
    _validate_subscription_context q.(q_context) = Ok context ∧ in_scope context org_id ∧
    may_purchase (s_db (w_db w)) user.1 org_id ∧ ProductCheckoutRequestSerializer r = Ok data ∧
    active_product_price data.(pd_product_price_id) (Some cur) (s_db (w_db w)) = Some (product_id, p) ∧
    (∃ row, customer_of_buyer (if not_none org_id then None else Some user.1) org_id (s_db (w_db w')) = Some row ∧
      row.(cus_stripe_id) = cust) ∧
    last (w_stripe w') = Some (CheckoutSessionCreate
      (product_checkout_params cust (charged (s_db (w_db w)) p cur) (uuid_str user.1) cur
         user.2.(u_preferred_locale) data.(pd_success_url) data.(pd_cancel_url)
         (Some (product_metadata product_id org_id)))).
Proof.
  intros Hok Hrun. unfold product_checkout_session in Hrun.
  apply bind_Ok_inv in Hrun as (data & w1 & Hdata & Hrun). injection Hdata as Hdata <-.
  apply bind_Ok_inv in Hrun as (context & w1 & Hctx & Hrun). injection Hctx as Hctx <-.
  apply bind_Ok_inv in Hrun as (org_id & w1 & Horg & Hrun).
  apply purchase_context_run in Horg as (-> & Hmay & Hscope).
  apply bind_Ok_inv in Hrun as ([cur dual] & w1 & Hcur & Hrun). injection Hcur as Hcur <-. cbn [fst snd] in Hrun.
  apply bind_Ok_inv in Hrun as ([product_id p] & w1 & Hp & Hrun).
  unfold _get_active_product_price, get_or_404, dquery in Hp. rewrite query_bind in Hp.
  destruct (active_product_price _ _ _) as [pp|] eqn:Hact; [|done]. injection Hp as -> <-. cbn [fst snd] in Hrun.
  assert (p.(po_resolved) = prefetch_for p.(po_owner) (Some cur) (s_db (w_db w))) as Hres.
  { unfold active_product_price in Hact. destruct (d_product_prices _ !! _) as [row|]; [|done]. cbn in Hact.
    destruct (d_products _ !! _) as [pr|]; [|done]. cbn in Hact. destruct (prod_is_active pr); [|done].
    by injection Hact as _ <-. }
  pose proof (billing_currency_non_empty _ _ _ _ Hcur) as Hne.
  rewrite (bind_Ok _ _ _ _ _ (charged_run _ p cur w eq_refl Hok Hne Hres)) in Hrun.
  apply bind_Ok_inv in Hrun as (c & w2 & Hc & Hrun).
  apply get_or_create_run in Hc as (_ & _ & (row & Hrow & Hst) & l & Hl & _); [|done|by destruct org_id; [left|right]].
  apply bind_Ok_inv in Hrun as (session & w3 & Hses & [= _ <-]). injection Hses as _ <-.
  exists data, cur, p, product_id, org_id, (cus_stripe_id c), context. split_and!; [done..| |].
  - by exists row.
  - cbn [w_stripe]. by rewrite last_snoc.
Qed.

(** The webhook's reading of a completed product session. *)
Lemma product_session_dispatch session params k cust price user cur locale su cu product_id org_id w :
  params = product_checkout_params cust price (uuid_str user) cur locale su cu
             (Some (product_metadata product_id org_id)) →
  echoes params session → get session "id" = Ok (JStr k) → k ≠ "" →
  (user < 2 ^ 128)%N → (product_id < 2 ^ 128)%N → (∀ o, org_id = Some o → (o < 2 ^ 128)%N) →
  _on_checkout_completed session get_webhook_repos w =
  Credits.on_product_checkout_completed k product_id user org_id w.
Proof.
  intros -> He Hid Hk Hu Hp Ho.
  assert (∀ u, truthy (JStr (uuid_str u)) = true) as Ht.
  { intros u. cbn. destruct (b_eq (uuid_str u) "") eqn:E; [|done]. rewrite b_eq_true in E.
    pose proof (uuid_str_length u) as Hlen. by rewrite E in Hlen. }
  set (md := metadata_json (product_metadata product_id org_id)).
  assert (get session "mode" = Ok (JStr "payment")) as Hmode by (rewrite He by set_solver; reflexivity).
  assert (get session "client_reference_id" = Ok (JStr (uuid_str user))) as Hclient
    by (rewrite He by set_solver; reflexivity).
  assert (get session "metadata" = Ok md) as Hmd by (rewrite He by set_solver; reflexivity).
  assert (py_or md (JObj []) = md) as Hor by (by destruct org_id).
  assert (get md "product_id" = Ok (JStr (uuid_str product_id))) as Hpid by (by destruct org_id).
  assert (get md "org_id" = Ok (match org_id with Some o => JStr (uuid_str o) | None => JNull end)) as Hoid
    by (by destruct org_id).
  unfold _on_checkout_completed. rewrite lift_bind, Hmode. change (b_eq "payment" "payment") with true. cbv iota.
  unfold _on_product_checkout_completed. rewrite lift_bind, Hid.
  assert (truthy (JStr k) = true) as -> by (cbn; by rewrite (proj2 (b_eq_false k "") Hk)).
  cbn [negb]. rewrite lift_bind, Hmd. cbv zeta. rewrite Hor, lift_bind, Hpid, Ht. cbn [negb].
  rewrite lift_bind, Hclient, Ht. cbn [negb py_uuid]. rewrite !uuid_parse_str by done. cbn [mbind outcome_bind].
  rewrite lift_bind, Hoid. destruct org_id as [o|]; [|done]. rewrite Ht. cbn [py_uuid].
  by rewrite uuid_parse_str by by apply Ho.
Qed.

(** A team checkout's metadata comes back as it was sent. *)
Lemma team_session_dispatch session params k cust price user cur qty locale su cu data name livemode
    (repos : WebhookRepos store) w :
  params = checkout_params cust price (uuid_str user) cur qty locale su cu None
             (_build_checkout_metadata true data) →
  echoes params session → data.(cd_org_name) = Some name → name ≠ "" → cust ≠ "" →
  get session "subscription" = Ok (JStr k) → get_default session "livemode" (JBool false) = Ok (JBool livemode) →
  (user < 2 ^ 128)%N →
  _on_checkout_completed session repos w =
  match Webhooks.on_team_checkout_completed repos with
  | Some callback => callback user name cust livemode (Some k) data.(cd_keep_personal_subscription) w
  | None => (Ok tt, w)
  end.
Proof.
  intros -> He Hname Hne Hcust Hk Hlive Hu.
  assert (∀ s, s ≠ "" → truthy (JStr s) = true) as Ht
    by (intros s Hs; cbn; by rewrite (proj2 (b_eq_false s "") Hs)).
  assert (uuid_str user ≠ "") as Huser
    by (intros E; pose proof (uuid_str_length user) as Hlen; by rewrite E in Hlen).
  set (md := metadata_json [("org_name", name); ("keep_personal_subscription",
    if data.(cd_keep_personal_subscription) then "true" else "false")]).
  assert (get session "mode" = Ok (JStr "subscription")) as Hmode
    by (rewrite He by set_solver; reflexivity).
  assert (get session "client_reference_id" = Ok (JStr (uuid_str user))) as Hclient
    by (rewrite He by set_solver; reflexivity).
  assert (get session "customer" = Ok (JStr cust)) as Hcus by (rewrite He by set_solver; reflexivity).
  assert (get session "metadata" = Ok md) as Hmd.
  { rewrite He by set_solver. unfold _build_checkout_metadata. rewrite Hname. reflexivity. }
  assert (get md "keep_personal_subscription" =
    Ok (JStr (if data.(cd_keep_personal_subscription) then "true" else "false"))) as Hkeep by reflexivity.
  assert (get md "org_name" = Ok (JStr name)) as Hon by reflexivity.
  assert (py_or md (JObj []) = md) as Hor by reflexivity.
  unfold _on_checkout_completed. rewrite lift_bind, Hmode. change (b_eq "subscription" "payment") with false.
  cbv iota. rewrite lift_bind, Hmd. cbv zeta. rewrite Hor, lift_bind, Hon, (Ht name) by done. cbn [negb].
  rewrite lift_bind, Hclient, (Ht (uuid_str user)) by done. cbn [negb]. rewrite lift_bind. cbn [py_uuid].
  rewrite uuid_parse_str by done. rewrite lift_bind, Hcus, (Ht cust) by done. cbn [negb].
  rewrite lift_bind, Hk, lift_bind, Hlive, lift_bind, Hkeep.
  destruct (Webhooks.on_team_checkout_completed repos) as [cb|]; [|done]. by destruct (cd_keep_personal_subscription data).
Qed.

(** *** Balances *)

Definition fetched_balances (d : db) (wanted : BalanceRow → bool) : list BalanceRow :=
  snd <$> map_to_list (tfilter (λ _ r, wanted r) d.(d_balances)).

Lemma first_balance_row d f wanted user org :
  db_ok d → exactly_one_owner user org = true → (∀ b, f b = true → wanted b = true) →
  (∀ i b, d.(d_balances) !! i = Some b → f b = true ↔ b.(b_user) = user ∧ b.(b_org) = org) →
  first_balance f (fetched_balances d wanted) = balance_of user org d.
Proof.
  intros Hok Hone Hw Hf. unfold first_balance.
  assert (∀ b, b ∈ fetched_balances d wanted ↔ ∃ i, d.(d_balances) !! i = Some b ∧ wanted b = true) as Hin.
  { intros b. unfold fetched_balances. rewrite list_elem_of_fmap. split.
    - intros ([i b'] & -> & Hb). apply elem_of_map_to_list, tfilter_lookup in Hb. by exists i.
    - intros (i & Hb & Hp). exists (i, b). split; [done|]. by apply elem_of_map_to_list, tfilter_lookup. }
  destruct (List.find f _) as [b|] eqn:Hfind.
  - apply List.find_some in Hfind as [Hb Hfb]. apply list_elem_of_In, Hin in Hb as (i & Hb & _).
    symmetry. destruct (proj1 (Hf i b Hb) Hfb) as [Hu Ho]. by eapply balance_of_row.
  - unfold balance_of. destruct (owner_balance user org d) as [[i b]|] eqn:Ho; [|done].
    apply owner_balance_spec in Ho as (Hb & Hu & Ho); [|done..].
    pose proof (List.find_none _ _ Hfind b) as Hn. rewrite (proj2 (Hf i b Hb) (conj Hu Ho)) in Hn.
    discriminate Hn. apply list_elem_of_In, Hin. exists i. split; [done|]. apply Hw. by apply (Hf i b Hb).
Qed.

Lemma balance_owner d i b :
  db_ok d → d.(d_balances) !! i = Some b → exactly_one_owner b.(b_user) b.(b_org) = true.
Proof.
  intros Hok Hb. assert (table_ok balance_schema (has d) d.(d_balances)) as Ht by (unfold db_ok in Hok; tauto).
  pose proof (table_ok_row _ _ _ _ _ Ht Hb) as Hr. unfold row_ok in Hr. cbn in Hr.
  rewrite !andb_true_iff in Hr. tauto.
Qed.

Lemma first_balance_user d wanted user :
  db_ok d → (∀ b, b_eq b.(b_user) (Some user) = true → wanted b = true) →
  first_balance (λ b, b_eq b.(b_user) (Some user)) (fetched_balances d wanted) = balance_of (Some user) None d.
Proof.
  intros Hok Hw. apply first_balance_row; [done|done|done|]. intros i b Hb. rewrite b_eq_true.
  apply balance_owner in Hb; [|done]. split; [intros Hu|tauto]. split; [done|].
  rewrite Hu in Hb. by destruct (b_org b).
Qed.

Lemma first_balance_org d wanted o :
  db_ok d → (∀ b, b_eq b.(b_org) (Some o) = true → wanted b = true) →
  first_balance (λ b, b_eq b.(b_org) (Some o)) (fetched_balances d wanted) = balance_of None (Some o) d.
Proof.
  intros Hok Hw. apply first_balance_row; [done|done|done|]. intros i b Hb. rewrite b_eq_true.
  apply balance_owner in Hb; [|done]. split; [intros Ho|tauto]. split; [|done].
  rewrite Ho in Hb. by destruct (b_user b).
Qed.

(** The delivery of a product's session. *)
Lemma delivery_spec k product_id product user org_id w :
  let d := s_db (w_db w) in
  let buyer := if not_none org_id then None else Some user in
  let credits := product.(prod_credits) in
  let delivery := Credits.on_product_checkout_completed k product_id user org_id w in
  store_ok (w_db w) → d_products d !! product_id = Some product →
  ((credits <= 0)%Z ∨ owner_there buyer org_id d = false → delivery = (Ok tt, w)) ∧
  ((0 < credits)%Z → owner_there buyer org_id d = true →
    (∀ w', delivery = (Ok tt, w') → let d' := s_db (w_db w') in
      d' = d ∧ (d_transactions d !! w_next w = None → granted k d) ∨
      ¬ granted k d ∧ granted k d' ∧ ∀ u o, exactly_one_owner u o = true →
        balance_of u o d' = (balance_of u o d + if decide (u = buyer ∧ o = org_id) then credits else 0)%Z) ∧
    ((String.length product.(prod_name) <= 55)%nat → (String.length k <= 255)%nat →
      int4 (balance_of buyer org_id d + credits) = true →
      d_transactions d !! w_next w = None → d_balances d !! (w_next w + 1)%N = None →
      ∃ w', delivery = (Ok tt, w'))).
Proof.
  intros d buyer credits delivery Hok Hprod.
  assert (delivery = if (credits <=? 0)%Z then (Ok tt, w) else if owner_there buyer org_id d
    then (grant_credits_for_session k credits ("purchase:" ++ prod_name product) buyer org_id;; mret tt) w else (Ok tt, w)) as ->.
  { unfold delivery, Credits.on_product_checkout_completed, dquery. rewrite query_bind. fold d. rewrite Hprod. fold credits.
    destruct (credits <=? 0)%Z; [done|]. cbv zeta. unfold owner_there, buyer.
    destruct org_id as [o|]; rewrite query_bind; fold d; cbn; [by destruct (d_orgs d !! o)|by destruct (d_users d !! user)]. }
  assert (exactly_one_owner buyer org_id = true) as Hone by by unfold buyer; destruct org_id.
  split; [|intros Hpos Hthere; split].
  - destruct (Z.leb_spec credits 0) as [|Hpos]; [done|]. intros [|Hthere]; [lia|]. by rewrite Hthere.
  - rewrite (proj2 (Z.leb_gt _ _)), Hthere by done. intros w' (b & w4 & Hg & [= <-])%bind_Ok_inv d'.
    pose proof (grant_run _ _ _ _ _ _ _ _ Hok Hg) as (_ & _ & Hres & Hok4). destruct b.
    + right. split_and!.
      * intros Hk. inversion Hres as [|i t j d1 _ _ _ _ Hs Hi _]. by apply (insert_granted_fails k i t d Hk Hs d1).
      * eapply grant_false_or_granted; [exact Hok| |]; by rewrite Hg.
      * intros u o Huo. by eapply grant_result_effect.
    + left. split; [by inversion Hres|]. intros Hf. by eapply grant_false_granted.
  - intros Hname Hk Hsum Hft Hfb. rewrite (proj2 (Z.leb_gt _ _)), Hthere by done.
    destruct (grant_returns k credits ("purchase:" ++ prod_name product) buyer org_id w) as (b & w' & Hg & _); try done.
    + assert (table_ok product_schema (has d) d.(d_products)) as Ht by (unfold store_ok, db_ok in Hok; tauto).
      pose proof (table_ok_row _ _ _ _ _ Ht Hprod) as Hr. unfold row_ok in Hr. cbn in Hr. rewrite !andb_true_iff in Hr. tauto.
    + unfold varchar. apply Nat.leb_le. change (9 + String.length (prod_name product) <= 64)%nat. lia.
    + unfold varchar. by apply Nat.leb_le.
    + exists w'. by rewrite bind_run, Hg.
Qed.

(** ** Properties *)

(** What a successful plan checkout did: the plan is active, the session is
    created for the caller with the checkout price of the plan in the resolved
    currency and redirect URLs that passed the policy.  A personal plan is bought
    once, by the caller's own customer, without metadata; a team plan for 1 to
    10000 seats, by a new customer no row is written for, without a trial, with a
    named org, and only by a caller who owns none. *)
Theorem checkout_session_spec user q r w url w' :
  let d := s_db (w_db w) in let u := user.2 in
  store_ok (w_db w) → checkout_session user q r w = (Ok url, w') →
  ∃ data cur dual plan p cust calls metadata,
    CheckoutRequestSerializer r = Ok data ∧
    _resolve_billing_currency q.(q_currency) (Some u) = Ok (cur, dual) ∧
    active_plan_price data.(cd_plan_price_id) (Some cur) d = Some (plan, p) ∧
    plan.(plan_is_active) = true ∧
    w_stripe w' = (w_stripe w ++ calls ++
      [CheckoutSessionCreate (checkout_params cust (charged d p cur) (uuid_str user.1) cur
         data.(cd_seat_limit) u.(u_preferred_locale) data.(cd_success_url) data.(cd_cancel_url)
         (checkout_trial plan data) metadata)])%list ∧
    match plan.(plan_context) with
    | PERSONAL =>
        data.(cd_seat_limit) = 1%Z ∧ metadata = None ∧
        (calls = [] ∨ calls = [CustomerCreate u.(u_email) (Some u.(u_full_name)) u.(u_preferred_locale)
                                 [("user_id", uuid_str user.1)]]) ∧
        ∃ c, customer_by_user (s_db (w_db w')) user.1 = Some c ∧ c.(cus_stripe_id) = cust
    | TEAM =>
        (1 <= data.(cd_seat_limit) <= 10000)%Z ∧ owns_org user.1 d = false ∧ w_db w' = w_db w ∧
        calls = [CustomerCreate u.(u_email) (Some u.(u_full_name)) u.(u_preferred_locale)
                   [("user_id", uuid_str user.1); ("scope", "team_checkout")]] ∧
        ∃ name, data.(cd_org_name) = Some name ∧ name ≠ "" ∧
          metadata = _build_checkout_metadata true data ∧ is_Some metadata
    end.
Proof. apply checkout_session_run. Qed.

(** C8. A team checkout round-trips: the session a successful team checkout
    created, delivered to the webhook with the parameters it was created with,
    calls the team callback for the caller, with the org name he chose, the
    customer the session was opened for and his choice to keep the personal
    subscription. *)
Theorem team_checkout_round_trip user q r plan w url w1 :
  store_ok (w_db w) → checkout_session user q r w = (Ok url, w1) → (user.1 < 2 ^ 128)%N →
  requested_plan (s_db (w_db w)) r = Some plan → plan.(plan_context) = TEAM →
  ∃ params cust raw name, last (w_stripe w1) = Some (CheckoutSessionCreate params) ∧
    get params "customer" = Ok (JStr cust) ∧ r.(cr_org_name) = Some raw ∧ CharField 255 raw = Ok name ∧
    ∀ session k livemode (repos : WebhookRepos store) w2,
      cust ≠ "" → echoes params session → get session "subscription" = Ok (JStr k) →
      get_default session "livemode" (JBool false) = Ok (JBool livemode) →
      _on_checkout_completed session repos w2 =
      match Webhooks.on_team_checkout_completed repos with
      | Some callback =>
          callback user.1 name cust livemode (Some k) (or_else r.(cr_keep_personal_subscription) false) w2
      | None => (Ok tt, w2)
      end.
Proof.
  intros Hok Hrun Hu Hplan Hctx.
  apply checkout_session_run in Hrun as (data & cur & dual & plan' & p & cust & calls & metadata & Hdata & _ & Hact &
    _ & Hlog & Hcase); [|done].
  destruct (CheckoutRequestSerializer_Ok _ _ Hdata) as (Hid & _).
  assert (plan' = plan) as ->.
  { unfold requested_plan in Hplan. unfold active_plan_price in Hact. rewrite Hid in Hact.
    destruct (d_prices _ !! _) as [row|]; [|done]. cbn in *. rewrite Hplan in Hact. cbn in Hact.
    destruct (plan_is_active plan); [|done]. by injection Hact. }
  rewrite Hctx in Hcase. destruct Hcase as (_ & _ & _ & _ & name & Hname & Hne & -> & _).
  destruct (CheckoutRequestSerializer_name _ _ _ Hdata Hname) as (raw & Hraw & Hchar & Hkeep).
  eexists _, cust, raw, name. split; [rewrite Hlog, app_assoc; apply last_snoc|].
  split_and!; [done|done|done|]. intros session k livemode repos w2 Hcust He Hk Hlive.
  rewrite <-Hkeep. assert (checkout_trial plan data = None) as Htrial by (unfold checkout_trial; by rewrite Hctx).
  rewrite Htrial in He. by eapply team_session_dispatch; [reflexivity|exact He|..].
Qed.

(** C6. Credits reach the buyer authorised at checkout, once.  The session a successful
    product checkout created names the product asked for and the caller, or the org he
    owns when he buys for it.  Delivered to the webhook with the parameters it was created
    with: a product without credits, or a buyer who is gone, changes nothing; otherwise a
    delivery that succeeds grants the product's credits to the buyer and to nobody else,
    unless the session was granted before, and then it changes nothing.  It does succeed
    when the product's name leaves room for the ledger's reason, the session's id and the
    new balance fit their columns, and the new ids are new. *)
Theorem credit_purchase_reaches_buyer user q r w url w1 :
  store_ok (w_db w) → product_checkout_session user q r w = (Ok url, w1) → (user.1 < 2 ^ 128)%N →
  ∃ params row org_id context, last (w_stripe w1) = Some (CheckoutSessionCreate params) ∧
    d_product_prices (s_db (w_db w)) !! r.(pd_product_price_id) = Some row ∧
    _validate_subscription_context q.(q_context) = Ok context ∧ in_scope context org_id ∧
    may_purchase (s_db (w_db w)) user.1 org_id ∧
    ∀ session k product w2,
      let d2 := s_db (w_db w2) in
      let buyer := if not_none org_id then None else Some user.1 in
      let credits := product.(prod_credits) in
      let delivery := _on_checkout_completed session get_webhook_repos w2 in
      echoes params session → get session "id" = Ok (JStr k) → k ≠ "" →
      (row.(pr_product) < 2 ^ 128)%N → (∀ o, org_id = Some o → (o < 2 ^ 128)%N) →
      store_ok (w_db w2) → d_products d2 !! row.(pr_product) = Some product →
      ((credits <= 0)%Z ∨ owner_there buyer org_id d2 = false → delivery = (Ok tt, w2)) ∧
      ((0 < credits)%Z → owner_there buyer org_id d2 = true →
        (∀ w3, delivery = (Ok tt, w3) → let d3 := s_db (w_db w3) in
          d3 = d2 ∧ (d_transactions d2 !! w_next w2 = None → granted k d2) ∨
          ¬ granted k d2 ∧ granted k d3 ∧ ∀ u o, exactly_one_owner u o = true →
            balance_of u o d3 = (balance_of u o d2 + if decide (u = buyer ∧ o = org_id) then credits else 0)%Z) ∧
        ((String.length product.(prod_name) <= 55)%nat → (String.length k <= 255)%nat →
          int4 (balance_of buyer org_id d2 + credits) = true →
          d_transactions d2 !! w_next w2 = None → d_balances d2 !! (w_next w2 + 1)%N = None →
          ∃ w3, delivery = (Ok tt, w3))).
Proof.
  intros Hok Hrun Hu.
  apply product_checkout_run in Hrun as (data & cur & p & product_id & org_id & cust & context & Hctx & Hscope &
    Hmay & Hdata & Hact & _ & Hlast); [|done].
  assert (data.(pd_product_price_id) = r.(pd_product_price_id)) as Hid0.
  { unfold ProductCheckoutRequestSerializer in Hdata. apply outcome_bind_Ok in Hdata as (? & _ & Hdata).
    apply outcome_bind_Ok in Hdata as (? & _ & [= <-]). done. }
  rewrite Hid0 in Hact. unfold active_product_price in Hact.
  destruct (d_product_prices _ !! _) as [row|]; [|done]. cbn in Hact. destruct (d_products _ !! _) as [pr|]; [|done].
  cbn in Hact. destruct (prod_is_active pr); [|done]. injection Hact as <- _.
  eexists _, row, org_id, context. split; [exact Hlast|]. split_and!; [done..|].
  intros session k product w2 d2 buyer credits delivery He Hid Hk Hp Ho Hok2 Hprod. unfold delivery.
  rewrite (product_session_dispatch _ _ k _ _ _ _ _ _ _ _ _ _ eq_refl He Hid Hk Hu Hp Ho).
  by apply delivery_spec.
Qed.

(** The balances a caller is shown are the stored ones: his own, that of the
    first org he belongs to, or both, by the context asked for; his own is left
    out beside the org's when it is not positive, and asking for an org without
    one is a 404.  Nothing is changed. *)
Theorem credit_balances_shown user q w :
  store_ok (w_db w) →
  let d := s_db (w_db w) in
  let mine := balance_of (Some user) None d in
  let org o := (balance_of None (Some o) d, "org") in
  credit_balances user q w =
  (match _validate_subscription_context q.(q_context) with
   | Raise e => Raise e
   | Ok (Some PERSONAL) => Ok [(mine, "user")]
   | Ok (Some TEAM) =>
       match oldest_org user d with Some o => Ok [org o] | None => Raise NotFound end
   | Ok None =>
       match oldest_org user d with
       | Some o => Ok (org o :: if (0 <? mine)%Z then [(mine, "user")] else [])
       | None => Ok [(mine, "user")]
       end
   end, w).
Proof.
  intros Hok d mine org. unfold credit_balances. rewrite lift_bind.
  destruct (_validate_subscription_context _) as [context|e]; [|done].
  unfold dquery. rewrite query_bind. fold d.
  assert (∀ wanted, (∀ b, b_eq b.(b_user) (Some user) = true → wanted b = true) →
    first_balance (λ b, b_eq b.(b_user) (Some user)) (fetched_balances d wanted) = mine) as Hmine
    by (intros; by apply first_balance_user).
  assert (∀ wanted o, (∀ b, b_eq b.(b_org) (Some o) = true → wanted b = true) →
    first_balance (λ b, b_eq b.(b_org) (Some o)) (fetched_balances d wanted) = balance_of None (Some o) d) as Horg
    by (intros; by apply first_balance_org).
  destruct context as [[]|]; cbn [b_eq].
  - change (b_eq (Some PERSONAL) (Some TEAM)) with false. cbn [andb]. rewrite query_bind. fold d.
    unfold fetched_balances in Hmine. by rewrite Hmine by (intros b ->; done).
  - change (b_eq (Some TEAM) (Some TEAM)) with true. cbn [andb].
    destruct (oldest_org user d) as [o|]; [|done]. cbn [is_none]. rewrite query_bind. fold d.
    unfold fetched_balances in Horg. rewrite Horg; [done|]. intros b ->. by rewrite orb_true_r.
  - change (b_eq None (Some TEAM)) with false. cbn [andb]. rewrite query_bind. fold d.
    unfold fetched_balances in Hmine, Horg. rewrite Hmine by (intros b ->; done).
    destruct (oldest_org user d) as [o|]; [|done]. rewrite Horg; [done|]. intros b ->. by rewrite orb_true_r.
Qed.

End Facts.
