(* ===== verification/Demo.v ===== *)
(** * A concrete backend

    A small database, a Stripe server and library functions: the inputs at
    which the theorems of the development are applied. *)

From S2P Require Import Profile Avatar.
From S2P Require Import Prelude PyVal Effects Domain StripeObjects Relational Store StoreFacts.
From S2P Require Import Django Repos Repositories RepositoriesFacts Webhooks Credits Auth Account.
From S2P Require Import RedirectUrls BillingContext BillingViews.

#[local] Open Scope string_scope.

(** ** Library functions *)

#[export] Instance demo_lib : DjangoLib := {|
  slugify s := lower s;
  normalize_email s := s;
  make_password _ raw := "plain$" ++ raw;
  check_password_hash raw h := b_eq h ("plain$" ++ raw)
|}.

#[export] Instance demo_secrets : Secrets := {|
  token_urlsafe n := uuid_str n;
  sha256_hex s := if varchar 64 s then s else ""
|}.

#[export] Instance demo_secrets_laws : SecretsLaws.
Proof.
  assert (∀ n, varchar 64 (uuid_str n) = true) as Hl
    by (intros n; unfold varchar; by rewrite uuid_str_length).
  split.
  - intros n _. exact (Hl n).
  - intros a b Ha Hb. cbn [sha256_hex token_urlsafe demo_secrets]. rewrite !Hl. by apply uuid_str_inj.
  - intros s. cbn [sha256_hex demo_secrets]. by destruct (varchar 64 s) eqn:E.
Qed.

#[export] Instance demo_lib_laws : DjangoLibLaws.
Proof. split; [|done]. intros salt raw. cbn. apply b_eq_refl. Qed.

#[export] Instance demo_backend : AuthBackend := λ email password d,
  tfind (λ _ u, b_eq u.(u_email) email && u.(u_is_active) &&
    match u.(u_password) with Some h => check_password_hash password h | None => false end) d.(d_users).

#[export] Instance demo_backend_laws : AuthBackendLaws.
Proof.
  split. intros email password d i u Hok. unfold backend_authenticate, demo_backend. split.
  - intros [Hu Hc]%tfind_Some. rewrite !andb_true_iff in Hc. destruct Hc as [[He Ha] Hp]. rewrite b_eq_true in He.
    split_and!; [done..|]. destruct (u_password u) as [h|]; [by exists h|done].
  - intros (Hu & He & Ha & h & Hp & Hh).
    assert (table_ok user_schema (has d) d.(d_users)) as Ht by (unfold db_ok in Hok; tauto).
    apply tfind_unique; [exact Hu|by rewrite He, b_eq_refl, Ha, Hp|].
    intros j b Hb. rewrite !andb_true_iff. intros [[Hj _] _]. rewrite b_eq_true in Hj.
    eapply (table_ok_unique user_schema (has d) _ (λ u, key_str (u_email u))); [exact Ht|by left|exact Hb|exact Hu|..];
      cbn; by rewrite ?Hj, ?He.
Qed.

#[export] Instance demo_billing : BillingSettings := ["usd"; "eur"].
#[export] Instance demo_ip : IPLiterals := λ _, false.

(** Images are their bytes; the encoder marks its output and Pillow opens what starts
    with [P]. *)
#[export] Instance demo_pillow : Pillow := {|
  image := string;
  Image_open c := match c with String "P" _ => Ok c | _ => Raise (OSError "cannot identify image file") end;
  image_format _ := Some "png";
  exif_transpose _ := Ok None;
  image_mode _ := "RGB";
  getbands _ := ["R"; "G"; "B"];
  convert _ c := Ok c;
  thumbnail _ c := Ok c;
  save_webp _ c := Ok ("WEBP" ++ c)
|}.
#[export] Instance demo_storage : Storage := {|
  storage_exists m p := Ok (not_none (m !! p));
  storage_delete m p := Ok (delete p m);
  storage_save m p c := if not_none (m !! p) then Raise (OSError "file exists") else Ok (p, <[p := c]> m)
|}.
#[export] Instance demo_storage_laws : StorageLaws.
Proof.
  split.
  - intros m p Hp. cbn. by rewrite (proj2 (not_none_true _) Hp).
  - by intros m p m' [= <-].
  - intros m dir name c q m'. cbn. destruct (not_none _) eqn:Hn; [done|]. intros [= <- <-].
    apply not_none_false in Hn. split_and!; [done..|exists name; by split].
Qed.
#[export] Instance demo_host : RequestHost := λ location, "https://app.example.com" ++ location.
#[export] Instance demo_image_field : ImageField := λ _, true.
#[export] Instance demo_zones : TimeZones := ["Europe/Madrid"; "UTC"; "America/New_York"].

#[export] Instance demo_redirect : RedirectSettings := {|
  CORS_ALLOWED_ORIGINS := ["https://app.example.com"];
  ALLOWED_HOSTS := ["api.example.com"; ".preview.example.com"; "*"];
  CORS_ALLOW_ALL_ORIGINS := false
|}.
#[export] Instance demo_url_field : URLField := λ _, true.

(** A token is the bits of its payload. *)
Fixpoint json_tree (j : json) : gen_tree (string + Z + bool) :=
  match j with
  | JNull => GenNode 0 []
  | JBool b => GenLeaf (inr b)
  | JNum z => GenLeaf (inl (inr z))
  | JStr s => GenLeaf (inl (inl s))
  | JArr l => GenNode 1 (map json_tree l)
  | JObj l => GenNode 2 (map (λ f, GenNode 3 [GenLeaf (inl (inl f.1)); json_tree f.2]) l)
  end.

Fixpoint tree_json (t : gen_tree (string + Z + bool)) : json :=
  match t with
  | GenLeaf (inr b) => JBool b
  | GenLeaf (inl (inr z)) => JNum z
  | GenLeaf (inl (inl s)) => JStr s
  | GenNode 1 l => JArr (map tree_json l)
  | GenNode 2 l =>
      JObj (map (λ t, match t with
                      | GenNode _ [GenLeaf (inl (inl k)); v] => (k, tree_json v)
                      | _ => ("", JNull)
                      end) l)
  | GenNode _ _ => JNull
  end.

Fixpoint tree_json_tree (j : json) : tree_json (json_tree j) = j.
Proof.
  destruct j as [| | | |l|l]; cbn; [done..| |].
  - f_equal. induction l as [|x l IH]; cbn; [done|]. by rewrite tree_json_tree, IH.
  - f_equal. induction l as [|[k x] l IH]; cbn; [done|]. by rewrite tree_json_tree, IH.
Qed.

Fixpoint pos_str (p : positive) : string :=
  match p with xH => "" | xO p => String "0" (pos_str p) | xI p => String "1" (pos_str p) end.
Fixpoint str_pos (s : string) : positive :=
  match s with
  | "" => xH
  | String c s => if b_eq c "1"%char then xI (str_pos s) else xO (str_pos s)
  end.

Lemma str_pos_str p : str_pos (pos_str p) = p.
Proof.
  induction p as [p IH|p IH|]; cbn [pos_str str_pos]; [| |done].
  - by rewrite b_eq_refl, IH.
  - change (b_eq "0"%char "1"%char) with false. by rewrite IH.
Qed.

Definition demo_encode (j : json) : string := pos_str (encode (json_tree j)).
Definition demo_decode (s : string) : option json := tree_json <$> decode (str_pos s).

Lemma demo_decode_encode j : demo_decode (demo_encode j) = Some j.
Proof. unfold demo_decode, demo_encode. rewrite str_pos_str, decode_encode. cbn. by rewrite tree_json_tree. Qed.

Definition demo_expired (now : datetime) (j : json) : bool :=
  match j with
  | JObj fields => match assoc "exp" fields with
                   | Some (JNum exp) => (exp * 1000000 <=? now)%Z
                   | _ => false
                   end
  | _ => false
  end.

#[export] Instance demo_jwt : JWT := {|
  jwt_encode := demo_encode;
  jwt_decode now t :=
    match demo_decode t with
    | Some j => if negb (b_eq t (demo_encode j)) then JwtInvalid
                else if demo_expired now j then JwtExpired else JwtOk j
    | None => JwtInvalid
    end
|}.

#[export] Instance demo_jwt_laws : JWTLaws.
Proof.
  split.
  - intros now fields iat exp _ Hexp _. cbn [jwt_decode jwt_encode demo_jwt].
    rewrite demo_decode_encode, b_eq_refl. cbn [negb demo_expired]. rewrite Hexp. by destruct (_ <=? _)%Z.
  - intros now t payload. cbn [jwt_decode jwt_encode demo_jwt]. destruct (demo_decode t) as [j|]; [|done].
    destruct (b_eq t (demo_encode j)) eqn:E; [|done]. cbn [negb].
    destruct (demo_expired now j); [done|]. intros [= <-]. by rewrite b_eq_true in E.
Qed.

(** ** Database *)

Definition demo_now : datetime := usec 1700000000.
Definition demo_start : Z := 1699000000.
Definition demo_end : Z := 1701600000.

Definition demo_user (email name : string) : UserRow :=
  mkUserRow email name None "en" "usd" None None None None None None true "email" true (Some "hash") None 0 0.

Definition demo_plan (i : uuid) (name : string) (c : PlanContext) (t : PlanTier) : Plan :=
  mkPlan i name "" c t MONTH true.

(** Alice's personal subscription, with and without a pending downgrade, and the
    team subscription of the organisation 50. *)
Definition demo_sub : Subscription :=
  mkSubscription 40 (Some "sub_alice") (Some 30%N) (Some 1%N) ACTIVE 12 1 None (usec demo_start)
    (usec demo_end) None None None None "usd" 0.
Definition demo_sub_pending : Subscription :=
  sub_copy_scheduled demo_sub (Some 10%N) (Some (usec demo_end)).
Definition demo_team_sub : Subscription :=
  mkSubscription 41 (Some "sub_org") (Some 31%N) None ACTIVE 11 5 None (usec demo_start)
    (usec demo_end) None None None None "usd" 0.

Definition demo_event : EventRow :=
  mkEventRow "evt_1" "customer.subscription.deleted" false
    (JObj [("id", JStr "evt_1"); ("type", JStr "customer.subscription.deleted");
           ("livemode", JBool false);
           ("data", JObj [("object", JObj [("id", JStr "sub_alice")])])])
    None None 0.

Definition long_name : string :=
  "One hundred credits, to be spent on anything within the year".

(** Bob owns 50 and created it; Carol created 51 and owns it, and is a member of
    50; Alice created 52, whose ownership was transferred to Dave. *)
Definition demo_db : db :=
  mkDb
    (list_to_map [(1%N, demo_user "alice@example.com" "Alice"); (2%N, demo_user "bob@example.com" "Bob");
                  (3%N, demo_user "carol@example.com" "Carol"); (4%N, demo_user "dave@example.com" "Dave")])
    (list_to_map [(50%N, mkOrgRow "Acme" "acme" None (Some 2%N) 0); (51%N, mkOrgRow "Beta" "beta" None (Some 3%N) 0);
                  (52%N, mkOrgRow "Gamma" "gamma" None (Some 1%N) 0)])
    (list_to_map [(60%N, mkMemberRow 50 2 OWNER true 0); (61%N, mkMemberRow 50 3 MEMBER false 0);
                  (62%N, mkMemberRow 51 3 OWNER true 0); (63%N, mkMemberRow 52 1 ADMIN false 0);
                  (64%N, mkMemberRow 52 4 OWNER true 0)])
    (list_to_map [(70%N, mkInvitationRow 50 "eve@example.com" MEMBER "token" PENDING (Some 2%N) 0
                           (usec 1800000000))])
    (list_to_map [(10%N, demo_plan 10 "Basic" PERSONAL BASIC); (11%N, demo_plan 11 "Team" TEAM PRO);
                  (12%N, demo_plan 12 "Pro" PERSONAL PRO)])
    (list_to_map [(20%N, mkPlanPrice 20 10 "price_basic" 900); (21%N, mkPlanPrice 21 11 "price_team" 5000);
                  (22%N, mkPlanPrice 22 12 "price_pro" 1900)])
    (list_to_map [(30%N, mkStripeCustomer 30 "cus_alice" (Some 1%N) None false 0);
                  (31%N, mkStripeCustomer 31 "cus_org" None (Some 50%N) false 0)])
    (list_to_map [(40%N, demo_sub); (41%N, demo_team_sub)])
    (list_to_map [(80%N, demo_event)])
    (list_to_map [(90%N, mkProduct 90 "Credits" 100 true); (91%N, mkProduct 91 long_name 100 true)])
    ∅ ∅ ∅ ∅ ∅ ∅ ∅
    (list_to_map [(95%N, mkProductPriceRow 90 "price_credits" 500)])
    (list_to_map [(96%N, mkLocalizedRow (Some 22%N) None "eur" 1799 (Some "price_pro_eur") 0);
                  (97%N, mkLocalizedRow (Some 20%N) None "eur" 849 None 0)]).

Definition demo_store : store := mkStore demo_db (mkCache ∅ ∅ ∅) ∅.
Definition demo_world : world store := World demo_store [] [] demo_now 1000.

Definition with_db (d : db) : world store := World (mkStore d (mkCache ∅ ∅ ∅) ∅) [] [] demo_now 1000.

(** The database with Alice's downgrade pending. *)
Definition pending_db : db := set_subs (<[40%N := demo_sub_pending]> demo_db.(d_subs)) demo_db.

Lemma demo_db_ok : db_ok demo_db.
Proof. apply (bool_decide_eq_true_1 (db_ok _)). vm_compute. reflexivity. Qed.

Lemma demo_store_ok : store_ok demo_store.
Proof. exact demo_db_ok. Qed.

Lemma pending_db_ok : db_ok pending_db.
Proof. apply (bool_decide_eq_true_1 (db_ok _)). vm_compute. reflexivity. Qed.

(** ** Stripe *)

(** Alice's subscription as Stripe sends it. *)
Definition demo_obj : SubObj :=
  mkSubObj "sub_alice" "cus_alice" ACTIVE "si_1" "price_pro" 1900 1 true demo_start demo_end None None
    None "usd" None.

Definition demo_cancelled : json :=
  JObj [("id", JStr "sub_alice"); ("status", JStr "active"); ("cancel_at", JNum demo_end);
        ("canceled_at", JNum 1700000000); ("schedule", JNull)].

#[export] Instance demo_stripe : StripeServer := λ _ c,
  match c with
  | SubscriptionRetrieve _ => Ok (so_json demo_obj)
  | SubscriptionModifyItem _ _ _ _ _ => Ok (so_json demo_obj)
  | SubscriptionModifyCancelAt _ _ | SubscriptionCancel _ _ => Ok demo_cancelled
  | ScheduleRetrieve _ | ScheduleCreate _ | ScheduleModify _ _ _ | ScheduleRelease _ =>
      Ok (JObj [("id", JStr "sub_sched_1"); ("status", JStr "active")])
  | PriceRetrieve k => Ok (JObj [("id", JStr k); ("currency", JStr "usd")])
  | CustomerCreate _ _ _ _ => Ok (JObj [("id", JStr "cus_new"); ("livemode", JBool false)])
  | CustomerDelete k => Ok (JObj [("id", JStr k); ("deleted", JBool true)])
  | CheckoutSessionCreate _ | PortalSessionCreate _ => Ok (JObj [("url", JStr "https://stripe")])
  | _ => Raise (StripeError "InvalidRequestError" (Some "resource_missing") (Some 404%Z) "no such object")
  end.

(** A Stripe that is down. *)
Definition down : exn := ConnectionError "stripe is down".
Definition down_stripe : StripeServer := λ _ _, Raise down.

(** ** Computing *)

Lemma run_pair {A} (m : M store A) w r : (m w).1 = r → m w = (r, (m w).2).
Proof. destruct (m w) as [a w']. cbn. by intros ->. Qed.

(** Solves the computations of a witness. *)
Ltac computed := vm_compute; reflexivity.

