(* ===== verification/AuthWitnesses.v ===== *)
(** * The authentication theorems at work

    The theorems on tokens, sessions, OAuth accounts and providers, the captcha and the
    sign-up, applied to the
    backend of [Demo.v]. *)

From Stdlib Require Import SpecFloat.
From S2P Require Import Prelude PyVal Effects Domain Relational Store StoreFacts Django Auth.
From S2P Require Import StripeObjects AuthViews TokenFacts SessionFacts CacheFacts AccessFacts OAuthFacts.
From S2P Require Import OAuthProviders OAuthProviderFacts Currency Profile Avatar AvatarFacts Fields AuthForms AuthFormsFacts Demo.

#[local] Open Scope string_scope.

(** ** Helper lemmas *)

(** Alice signed in: her refresh token is the draw 1000. *)
Definition signed_world : world store := (create_refresh_token 1 demo_world).2.
Definition alice_token : string := token_urlsafe 1000.

Lemma signed_ok : db_ok (s_db (w_db signed_world)).
Proof. apply (bool_decide_eq_true_1 (db_ok _)). computed. Qed.

Lemma signed_supply : refresh_supply signed_world.
Proof.
  intros i r Hr.
  assert (d_refresh (s_db (w_db signed_world)) =
    {[1001%N := mkRefreshRow 1 (_hash_token alice_token) demo_now (demo_now + REFRESH_TOKEN_LIFETIME) None]})
    as Heq by computed.
  rewrite Heq in Hr. apply lookup_singleton_Some in Hr as [<- <-]. split; [reflexivity|].
  intros n Hn Hs. cbn [rt_token_hash]. unfold _hash_token, alice_token. intros Hh%sha256_hex_inj; [|reflexivity|exact Hs].
  subst n. by apply N.leb_le in Hn.
Qed.

Lemma demo_coherent d : coherent (mkStore d (mkCache ∅ ∅ ∅) ∅).
Proof. apply map_Forall_empty. Qed.

(** ** Tokens and sessions *)

Lemma tokens_single_use_witness :
  let w1 := (redeem KRefresh alice_token signed_world).2 in
  ∃ c, (redeem KRefresh alice_token (set_now 0 w1)).1 = Raise (AuthenticationFailed c).
Proof.
  intros w1.
  destruct (tokens_single_use KRefresh 1000 signed_world w1 (set_now 0 w1)) as [Hrefused _];
    [exact signed_ok|reflexivity|apply run_pair; computed|apply rtc_once, TokenFacts.step_time|by apply N.leb_le; computed|].
  exact Hrefused.
Defined.

Lemma refresh_rotation_witness :
  ∃ w', rotate_refresh_token alice_token signed_world = (Ok (1%N, demo_user "alice@example.com" "Alice", token_urlsafe 1002), w') ∧
    ∀ t, ∃ w1, rotate_refresh_token alice_token (set_now t w') =
      (Raise (AuthenticationFailed "token_revoked"), w1).
Proof.
  pose proof (refresh_rotation alice_token signed_world signed_ok signed_supply) as Hr.
  assert (refresh_by_hash (_hash_token alice_token) (s_db (w_db signed_world)) =
    Some (1001%N, mkRefreshRow 1 (_hash_token alice_token) demo_now (demo_now + REFRESH_TOKEN_LIFETIME) None))
    as Hf by computed.
  rewrite Hf in Hr. destruct Hr as (u & Hu & Hr); [by apply N.leb_le; computed|].
  assert (u = demo_user "alice@example.com" "Alice") as -> by (vm_compute in Hu; by injection Hu).
  destruct Hr as (new & w' & Hrun & _ & Hagain). exists w'. split.
  - assert ((rotate_refresh_token alice_token signed_world).1 =
      Ok (1%N, demo_user "alice@example.com" "Alice", token_urlsafe 1002)) as Hc by computed.
    rewrite Hrun in Hc. cbn in Hc. rewrite Hrun. by injection Hc as ->.
  - intros t. destruct (Hagain t) as (w1 & Hw1 & _). by exists w1.
Defined.

Lemma rotation_race_witness :
  ∃ rt u w1 w2, rotate_checks alice_token signed_world = (Ok (rt, u), signed_world) ∧
    rotate_writes rt signed_world = (Ok (token_urlsafe 1002), w1) ∧
    rotate_writes rt w1 = (Ok (token_urlsafe 1004), w2).
Proof.
  set (row := mkRefreshRow 1 (_hash_token alice_token) demo_now (demo_now + REFRESH_TOKEN_LIFETIME) None).
  assert (rotate_checks alice_token signed_world =
    (Ok ((1001%N, row), demo_user "alice@example.com" "Alice"), signed_world)) as Hc by computed.
  destruct (rotation_race alice_token signed_world _ _ signed_ok signed_supply
    ltac:(by apply N.leb_le; computed) Hc) as (a & b & w1 & w2 & H1 & H2 & _).
  assert ((rotate_writes (1001%N, row) signed_world).1 = Ok (token_urlsafe 1002)) as Ha by computed.
  assert ((rotate_writes (1001%N, row) (rotate_writes (1001%N, row) signed_world).2).1 =
    Ok (token_urlsafe 1004)) as Hb by computed.
  rewrite H1 in Ha, Hb. cbn in Ha, Hb. rewrite H2 in Hb. cbn in Hb. injection Ha as ->. injection Hb as ->.
  eexists _, _, w1, w2. split; [exact Hc|]. by split.
Defined.

(** An honest header: nobody's. *)
Lemma honest_empty : honest "".
Proof. by intros t now p. Qed.

Lemma auth_cache_coherent_witness :
  coherent (w_db (run_op (OpLogin "alice@example.com" "x") demo_world).2).
Proof.
  destruct (auth_cache_coherent demo_world (run_op (OpLogin "alice@example.com" "x") demo_world).2)
    as [Hc _]; [apply demo_coherent|by apply rtc_once, step_auth|exact Hc].
Defined.

(** Alice's access token, half a day and a minute later. *)
Definition alice : UserRow := demo_user "alice@example.com" "Alice".
Definition alice_access : string := jwt_encode (JObj (access_claims 1 alice demo_now)).

Lemma access_token_verdict_witness :
  (authenticate (Auth.bearer ++ alice_access) (set_now (demo_now + minutes 1) demo_world)).1 = Ok (Some (1%N, alice)) ∧
  (authenticate (Auth.bearer ++ alice_access) (set_now (demo_now + hours 12) demo_world)).1 =
    Raise (AuthenticationFailed "token_expired").
Proof.
  split; (etrans; [apply (access_token_verdict 1 alice demo_world); [apply demo_coherent|reflexivity| |reflexivity]|]);
    try computed; by split; apply Z.leb_le; computed.
Defined.

(** Alice with a password, and a reset token of hers. *)
Definition reset_world : world store := (create_password_reset_token 1 signed_world).2.

Lemma reset_ok : db_ok (s_db (w_db reset_world)).
Proof. apply (bool_decide_eq_true_1 (db_ok _)). computed. Qed.

Lemma password_change_ends_sessions_witness :
  ∃ r w', reset_password (token_urlsafe 1002) "new password" reset_world = (Ok r, w') ∧
    ∃ user, sessions_restarted user "new password" reset_world w' r.
Proof.
  destruct (reset_password (token_urlsafe 1002) "new password" reset_world) as [[r|e] w'] eqn:Hrun.
  - exists r, w'. split; [reflexivity|].
    destruct (password_change_ends_sessions "new password" reset_world r w') as [_ Hreset];
      [exact reset_ok|apply demo_coherent|by apply Z.leb_le; computed| |by eapply Hreset].
    apply (bool_decide_eq_true_1 (map_Forall (λ i _, (i < 2 ^ 128)%N) (d_users (s_db (w_db reset_world))))).
    computed.
  - exfalso. assert (match (reset_password (token_urlsafe 1002) "new password" reset_world).1 with
      | Ok _ => true | Raise _ => false end = true) as Hok by computed. by rewrite Hrun in Hok.
Defined.

(** ** OAuth *)

Definition demo_info : OAuthUserInfo := mkOAuthUserInfo "Alice@Example.com" "Alice" "g-1" None true.

Lemma oauth_resolution_witness :
  let w' := (resolve_oauth_user "google" demo_info demo_world).2 in
  resolved "google" demo_info 1 alice (s_db (w_db demo_world)) (s_db (w_db w')).
Proof.
  intros w'. pose proof (oauth_resolution "google" demo_info demo_world demo_db_ok) as Hr.
  assert (resolve_oauth_user "google" demo_info demo_world = (Ok (ResolvedUser (1%N, alice)), w')) as Hrun
    by (apply run_pair; computed).
  rewrite Hrun in Hr. by destruct Hr.
Defined.

(** Eve accepted her invitation and has no password yet. *)
Definition invited_world : world store := (Orgs.accept_invitation 70 (mkInvitationRow 50 "eve@example.com" MEMBER "token" PENDING (Some 2%N) 0 (usec 1800000000)) "Eve" demo_world).2.

Lemma invited_ok : db_ok (s_db (w_db invited_world)).
Proof. apply (bool_decide_eq_true_1 (db_ok _)). computed. Qed.

Lemma password_required_spends_link_witness :
  ∃ w1, verify_email (token_urlsafe 1003) None invited_world = (Ok (Message 400 "password_required"), w1) ∧
    ∃ c, (verify_email (token_urlsafe 1003) (Some "password") w1).1 = Raise (AuthenticationFailed c).
Proof.
  destruct (verify_email_token (token_urlsafe 1003) invited_world) as [[[user u]|e] w1] eqn:Hrun.
  - destruct (password_required_spends_link (token_urlsafe 1003) invited_world user u w1) as [Hm Hagain];
      [exact invited_ok|exact Hrun| |].
    { assert (match (verify_email_token (token_urlsafe 1003) invited_world).1 with
        | Ok (_, u) => u_password u | Raise _ => Some "" end = None) as Hp by computed. by rewrite Hrun in Hp. }
    exists w1. split; [exact Hm|]. destruct (Hagain (w_now w1) (Some "password")) as [c Hc]. exists c.
    by destruct w1.
  - exfalso. assert (match (verify_email_token (token_urlsafe 1003) invited_world).1 with
      | Ok _ => true | Raise _ => false end = true) as Hok by computed. by rewrite Hrun in Hok.
Defined.

(** ** Providers *)

(** *** Servers *)

#[export] Instance demo_oauth_settings : OAuthSettings := {|
  OAUTH_GOOGLE_CLIENT_ID := "google client";
  OAUTH_GOOGLE_CLIENT_SECRET := "google secret";
  OAUTH_GITHUB_CLIENT_ID := "github client";
  OAUTH_GITHUB_CLIENT_SECRET := "github secret";
  OAUTH_MICROSOFT_CLIENT_ID := "microsoft client";
  OAUTH_MICROSOFT_CLIENT_SECRET := "microsoft secret"
|}.

Definition demo_google_user : json :=
  JObj [("id", JStr "g-1"); ("email", JStr "Alice@Example.com"); ("verified_email", JBool true);
        ("name", JStr "Alice")].
Definition demo_graph_user : json :=
  JObj [("id", JStr "m-1"); ("mail", JStr "victim@example.com"); ("displayName", JStr "Mallory")].

#[export] Instance demo_http : OAuthHTTP := λ r,
  match r with
  | HttpPost _ _ => Ok (JObj [("access_token", JStr "access"); ("id_token", JStr "signed")])
  | HttpGet url _ =>
      if b_eq url "https://www.googleapis.com/oauth2/v2/userinfo" then Ok demo_google_user
      else if b_eq url "https://graph.microsoft.com/v1.0/me" then Ok demo_graph_user
      else Raise (HTTPError "404")
  end.

(** Microsoft's signed token names the tenant's mailbox but vouches for no domain. *)
#[export] Instance demo_ms_jwt : MicrosoftJWT := λ _ _,
  Ok (Some [("iss", JStr "https://login.microsoftonline.com/tenant/v2.0");
            ("email", JStr "victim@example.com"); ("oid", JStr "m-1")]).

(** ** Witnesses *)

Definition demo_google : UserInfo :=
  mkUserInfo (JStr "Alice@Example.com") (JStr "Alice") "g-1" JNull true.
Definition demo_microsoft : UserInfo :=
  mkUserInfo (JStr "victim@example.com") (JStr "Mallory") "m-1" JNull false.

Lemma email_verified_iff_evidence_witness :
  evidence GOOGLE "code" "uri" demo_google ∧ ¬ evidence MICROSOFT "code" "uri" demo_microsoft.
Proof.
  split.
  - destruct (email_verified_iff_evidence "google" "code" "uri" demo_google) as ([| |] & Hp & Hv);
      [computed| |discriminate Hp..]. by apply Hv.
  - destruct (email_verified_iff_evidence "microsoft" "code" "uri" demo_microsoft) as ([| |] & Hp & Hv);
      [computed|discriminate Hp..|]. intros He%Hv. discriminate He.
Defined.

Definition demo_google_info : OAuthUserInfo := mkOAuthUserInfo "Alice@Example.com" "Alice" "g-1" None true.

Lemma oauth_callback_vouched_witness :
  let run := oauth_callback "google" (Some "code") (Some "state") None (Some "state")
               (Ok demo_google_info) demo_world in
  ∃ c user u, run.1 = Ok (RedirectCallback c) ∧ u.(u_is_active) = true ∧
    session_of c user u demo_world run.2.
Proof.
  intros run. set (c := match run.1 with Ok (RedirectCallback c) => c | _ => "" end).
  assert (run.1 = Ok (RedirectCallback c)) as Hrun by computed.
  destruct (oauth_callback_vouched "google" (Some "code") (Some "state") None (Some "state") "uri"
    demo_google_info demo_world c run.2) as [_ (p & user & u & _ & Ha & Hs & _)];
    [exact demo_db_ok|computed|by apply run_pair|].
  exists c, user, u. exact (conj Hrun (conj Ha Hs)).
Defined.

(** ** The front door *)

#[export] Instance demo_captcha : CaptchaSettings := {|
  RECAPTCHA_SECRET_KEY := "secret";
  RECAPTCHA_MIN_SCORE := S754_finite false 4503599627370496 (-53)
|}.

(** Google vouches for the token [human], answers [null] to [null] and is down for any
    other. *)
#[export] Instance demo_siteverify : SiteVerify := λ payload,
  if existsb (λ f, b_eq f ("response", "human")) payload
  then Ok (FxObj [("success", FxBool true); ("action", FxStr "register"); ("score", FxNum (S754_finite false 6755399441055744 (-53)))])
  else if existsb (λ f, b_eq f ("response", "null")) payload then Ok FxNull
  else Raise (HTTPError "siteverify is down").

#[export] Instance demo_policy : PasswordPolicy := λ password, negb (b_eq password "password12").
#[export] Instance demo_email_validator : EmailValidator := λ email, existsb (λ c, b_eq c "@"%char) (list_ascii_of_string email).

Definition demo_register (token email : string) : RegisterBody :=
  mkRegisterBody (Given token) (Given email) (Given "correct horse") (Given " Frank ").

Lemma CharField_any_path s : path_chars s = true → s ≠ "" → CharField_any s = Ok s.
Proof.
  intros Hs Hne. unfold path_chars in Hs. rewrite forallb_forall in Hs.
  assert (strip s = s) as Hstrip.
  { unfold strip. rewrite strip_chars_id; [apply string_of_list_ascii_of_string|].
    apply Forall_forall. intros c Hc%list_elem_of_In%Hs Hin.
    assert (Forall (λ c, path_char c = false) py_spaces) as Hsp by (apply (bool_decide_unpack _); vm_compute; exact I).
    rewrite Forall_forall in Hsp. by rewrite Hsp in Hc. }
  unfold CharField_any. rewrite Hstrip, (proj2 (b_eq_false _ _) Hne). unfold no_null_char.
  replace (existsb _ _) with false; [done|]. symmetry. apply not_true_iff_false. rewrite existsb_exists.
  intros (c & Hc%Hs & Hz). apply N.eqb_eq in Hz. rewrite <- (ascii_N_embedding c), Hz in Hc. discriminate Hc.
Qed.

Lemma demo_tokens n : CharField_any (token_urlsafe n) = Ok (token_urlsafe n).
Proof.
  apply CharField_any_path; [apply uuid_str_chars|]. intros Hn.
  apply (f_equal String.length) in Hn. cbn [token_urlsafe demo_secrets] in Hn. by rewrite uuid_str_length in Hn.
Qed.

Lemma demo_supplied : supplied demo_world.
Proof.
  split_and!.
  - intros i r Hr. assert (d_refresh (s_db (w_db demo_world)) = ∅) as Heq by reflexivity. by rewrite Heq in Hr.
  - intros i r Hr. assert (d_verify (s_db (w_db demo_world)) = ∅) as Heq by reflexivity. by rewrite Heq in Hr.
  - apply (bool_decide_eq_true_1 (map_Forall (λ i _, (i < w_next demo_world)%N) _)). computed.
Qed.

(** Exhibit: an answer of Google that is JSON but no object is not taken for an outage. *)
Example captcha_null_refused :
  (register_post (demo_register "down" "frank@example.com") demo_world).1 ≠ Raise CaptchaFailedError ∧
  register_post (demo_register "null" "frank@example.com") demo_world =
    (Raise (AttributeError "object has no attribute 'get'"), demo_world).
Proof. split; [vm_compute; discriminate|computed]. Qed.

(** Exhibit: the address is stored with its domain in lower case, and the login looks it
    up as typed. *)
Definition lowering_lib : DjangoLib := {|
  slugify := slugify;
  normalize_email s := if b_eq s "Frank@Example.com" then "Frank@example.com" else s;
  make_password := make_password;
  check_password_hash := check_password_hash
|}.

Example capital_domain_locked_out :
  let b := demo_register "human" "Frank@Example.com" in
  let w1 := (@register_post _ _ _ _ lowering_lib _ _ b demo_world).2 in
  let w2 := (@verify_email_post _ lowering_lib _ _ (mkTokenPasswordBody (Given (token_urlsafe 1002)) Absent) w1) in
  (∃ r, w2.1 = Ok r) ∧
  (@login_post _ _ _ _ (mkLoginBody b.(rb_email) b.(rb_password)) w2.2).1 = Raise InvalidCredentials.
Proof. split; [eexists|]; computed. Qed.

Lemma sign_up_round_trip_witness :
  let b := demo_register "human" "frank@example.com" in
  ∃ r w1 token, register_post b demo_world = (Ok r, w1) ∧
    w_tasks w1 = [send_verification_email_task_delay "frank@example.com" token] ∧
    ∃ r' w2, verify_email_post (mkTokenPasswordBody (Given token) Absent) w1 = (Ok r', w2).
Proof.
  intros b.
  destruct (sign_up_round_trip b "frank@example.com" "correct horse" "Frank" demo_world) as (r & w1 & token & Hrun & Htasks & _ & Hv);
    [exact demo_db_ok|exact demo_supplied|by apply N.leb_le; computed|exact demo_tokens|computed..|].
  exists r, w1, token. split; [exact Hrun|]. split; [exact Htasks|].
  destruct (Hv (w_now demo_world)) as (r' & w2 & Hrun2 & _); [by apply Z.ltb_lt; computed|].
  assert (w_now w1 = w_now demo_world) as Hnow.
  { assert (w1 = (register_post b demo_world).2) as -> by by rewrite Hrun. computed. }
  exists r', w2. rewrite <- Hrun2. f_equal. rewrite <- Hnow. by destruct w1.
Defined.

(** An authorization at Google, whose state is accepted by GitHub's callback; a replay. *)
Definition demo_browsing : list browsing :=
  [Authorize "google"; Later (demo_now + 5);
   Callback "github" (Some "code") (Some (token_urlsafe 1000)) None (Ok demo_google_info);
   Callback "google" (Some "code") (Some (token_urlsafe 1000)) None (Ok demo_google_info)].

Lemma oauth_state_single_use_witness :
  let run := browse_all demo_browsing None demo_world in
  run.1.1 = [Issued (token_urlsafe 1000); Redeemed (token_urlsafe 1000)] ∧ run.1.2 = None ∧
  ∃ error s', oauth_callback_get "google" (Some "code") (Some (token_urlsafe 1000)) None (Ok demo_google_info) None run.2 =
    (Ok (ToFrontend (RedirectError error), s'), run.2).
Proof.
  intros run. assert (run.1.1 = [Issued (token_urlsafe 1000); Redeemed (token_urlsafe 1000)] ∧ run.1.2 = None) as [Hev Hs]
    by (split; computed).
  split; [exact Hev|]. split; [exact Hs|].
  destruct (oauth_state_single_use demo_browsing demo_world run.1.1 run.1.2 run.2) as [_ Hno];
    [by rewrite <- !surjective_pairing|by apply N.leb_le; computed|].
  rewrite Hs in Hno. apply Hno. reflexivity.
Defined.
