(* ===== verification/Witnesses.v ===== *)
(** * The theorems at work

    Each theorem with hypotheses, applied to the backend of [Demo.v]. *)

From S2P Require Import Prelude PyVal Effects Domain StripeObjects Repos Relational Store.
From S2P Require Import StoreFacts Django Repositories RepositoriesFacts Credits CreditsFacts.
From S2P Require Import Webhooks WebhookFacts Subscriptions SubscriptionFacts Billing.
From S2P Require Import BillingFacts Gdpr GdprFacts Auth Orgs Fields OrgViews OrgFacts.
From S2P Require Import OrgInvariant Account OrgLifecycle EntryFacts Avatar OrgRequests OrgRequestFacts Demo.

#[local] Open Scope string_scope.

(** ** Helper lemmas *)

Lemma demo_ok_world : subs_valid (w_db demo_world).
Proof. exact demo_db_ok. Qed.

(** A stored row's references. *)
Lemma demo_refs s : row_ok sub_schema (has demo_db) s = true → subs_refs (w_db demo_world) s.
Proof. done. Qed.

Lemma demo_inv : org_inv demo_db.
Proof.
  split_and!; [exact demo_db_ok| |].
  - intros o [r Hr].
    assert (o ∈ [50%N; 51%N; 52%N]) as Ho.
    { assert (o ∈ (map_to_list demo_db.(d_orgs)).*1) as Hin.
      { apply list_elem_of_fmap. exists (o, r). split; [done|by apply elem_of_map_to_list]. }
      vm_compute (map_to_list _).*1 in Hin. set_solver. }
    assert (∀ j m', d_members demo_db !! j = Some m' → (j, m') ∈ map_to_list (d_members demo_db)) as Hl
      by (intros; by apply elem_of_map_to_list).
    vm_compute (map_to_list _) in Hl.
    rewrite !elem_of_cons in Ho. destruct Ho as [->|[->|[->|[]%elem_of_nil]]].
    + eexists 60%N, _. split_and!; [computed|done..|]. intros j m' Hj. apply Hl in Hj. set_solver.
    + eexists 62%N, _. split_and!; [computed|done..|]. intros j m' Hj. apply Hl in Hj. set_solver.
    + eexists 64%N, _. split_and!; [computed|done..|]. intros j m' Hj. apply Hl in Hj. set_solver.
  - apply (bool_decide_eq_true_1 (map_Forall (λ _ i, i.(i_role) ≠ OWNER) (d_invitations demo_db))). computed.
Qed.

(** ** Repositories *)


(** ** Webhooks *)

Lemma process_stored_event_marks_witness :
  events_status (w_db (process_stored_event demo_event.(e_payload) "evt_1" get_webhook_repos demo_world).2)
    "evt_1" = Some (Some demo_now, None).
Proof.
  destruct (process_stored_event_marks demo_event.(e_payload) "evt_1" get_webhook_repos demo_world (Ok tt)
    (_dispatch demo_event.(e_payload) get_webhook_repos demo_world).2) as (w' & -> & Hs & _); [computed|].
  cbn [snd]. rewrite Hs. computed.
Defined.

Lemma sync_mirrors_subscription_witness :
  ∃ w', sync_subscription_from_data (so_json demo_obj) demo_world = (Ok tt, w') ∧
    ∃ s', subs_get_by_stripe_id (w_db w') "sub_alice" = Some s' ∧ s' ≡ demo_sub.
Proof.
  destruct (sync_mirrors_subscription demo_obj (mkStripeCustomer 30 "cus_alice" (Some 1%N) None false 0)
    (mkPlanPrice 22 12 "price_pro" 1900) demo_world) as (w' & Hrun & (s' & Hs & Heq) & _);
    [exact demo_ok_world|computed..|].
  exists w'. split; [exact Hrun|]. exists s'. split; [exact Hs|]. rewrite Heq. reflexivity.
Defined.

Lemma sync_replay_witness :
  let w1 := (sync_subscription_from_data (so_json demo_obj) demo_world).2 in
  ∃ w2, sync_subscription_from_data (so_json demo_obj) w1 = (Ok tt, w2) ∧
    ∀ k, subs_get_by_stripe_id (w_db w2) k ≡ subs_get_by_stripe_id (w_db w1) k.
Proof.
  intros w1. apply (sync_replay (so_json demo_obj) demo_world w1); [exact demo_ok_world|].
  apply run_pair. computed.
Defined.

(** A subscription of an unknown customer. *)
Definition stranger_obj : SubObj :=
  mkSubObj "sub_new" "cus_stranger" ACTIVE "si_2" "price_pro" 1900 1 false demo_start demo_end None None
    None "usd" None.

Lemma sync_refused_witness :
  (sync_subscription_from_data (so_json stranger_obj) demo_world).1
    = Raise (WebhookDataError "Unknown customer cus_stranger") ∧
  w_db (sync_subscription_from_data (so_json stranger_obj) demo_world).2 = w_db demo_world.
Proof.
  destruct (sync_refused (so_json stranger_obj) demo_world
    (WebhookDataError "Unknown customer cus_stranger")
    (sync_subscription_from_data (so_json stranger_obj) demo_world).2) as (Hd & _);
    [apply run_pair; computed|].
  split; [computed|exact Hd].
Defined.

Lemma pending_pairs : pending_changes_paired (mkStore pending_db (mkCache ∅ ∅ ∅) ∅).
Proof.
  split; [exact pending_db_ok|]. intros k s Hs. apply sub_by_stripe_id_iff in Hs as [Hs _]; [|exact pending_db_ok].
  cbn in Hs. apply lookup_insert_Some in Hs as [[_ <-]|[_ Hs]]; [split; eauto|].
  apply lookup_insert_Some in Hs as [[_ <-]|[_ Hs]]; [split; intros []; discriminate|].
  apply lookup_insert_Some in Hs as [[_ <-]|[_ Hs]]; [split; intros []; discriminate|done].
Qed.

Lemma webhooks_keep_pending_pair_witness :
  pending_changes_paired (w_db (process_stored_event demo_event.(e_payload) "evt_1"
    (mkWebhookRepos None None None) (with_db pending_db)).2).
Proof.
  eapply (webhooks_keep_pending_pair demo_event.(e_payload) "evt_1" (mkWebhookRepos None None None)
    (with_db pending_db)); [by split_and!|exact pending_pairs|apply run_pair; reflexivity].
Defined.

Lemma subscription_deleted_cancels_witness :
  ∃ d' s', subs_get_by_stripe_id d' "sub_org" = Some s' ∧ s' ≡ sub_copy_canceled demo_team_sub demo_now ∧
    _on_subscription_deleted (JObj [("id", JStr "sub_org")]) get_webhook_repos demo_world =
      delete_org_on_subscription_cancel 50 (set_db d' demo_world).
Proof.
  destruct (subscription_deleted_cancels [("id", JStr "sub_org")] "sub_org" demo_team_sub
    get_webhook_repos demo_world) as (d' & s' & Hs & Heq & _ & Hrun);
    [computed|exact demo_ok_world|computed..|].
  exists d', s'. split; [exact Hs|]. split; [exact Heq|]. rewrite Hrun. reflexivity.
Defined.

(** The schedule of a downgrade to the basic plan. *)
Definition demo_schedule : json :=
  schedule_json "sub_sched_1" "sub_alice"
    (downgrade_phases "price_pro" "price_basic" 1 (JNum demo_start) (JNum demo_end)).

Lemma schedule_events_idempotent_witness :
  let w1 := (_on_subscription_schedule_upserted demo_schedule demo_world).2 in
  sub_scheduled_plan_id <$> subs_get_by_stripe_id (w_db w1) "sub_alice" = Some (Some 10%N) ∧
  _on_subscription_schedule_upserted demo_schedule w1 = (Ok tt, w1).
Proof.
  intros w1. split; [computed|].
  apply (schedule_events_idempotent demo_schedule _on_subscription_schedule_upserted demo_world w1);
    [by left|exact demo_ok_world|apply run_pair; computed].
Defined.

(** ** Subscriptions *)

Lemma deferred_downgrade_round_trip_witness :
  let w1 := (change_plan "sub_alice" "price_basic" (Some 900%Z) true None demo_world).2 in
  ∃ sid phases, last (w_stripe w1) = Some (ScheduleModify sid "release" phases) ∧
    ∃ w3 s', _on_subscription_schedule_upserted (schedule_json sid "sub_alice" phases) demo_world
               = (Ok tt, w3) ∧
      subs_get_by_stripe_id (w_db w3) "sub_alice" = Some s' ∧ s' ≡ demo_sub_pending.
Proof.
  intros w1.
  destruct (deferred_downgrade_round_trip demo_obj "price_basic" 900 true None demo_world w1)
    as (sid & phases & Hl & Hback);
    [computed|discriminate|discriminate|reflexivity|reflexivity|apply run_pair; computed|].
  exists sid, phases. split; [exact Hl|].
  destruct (Hback demo_world (mkPlanPrice 20 10 "price_basic" 900) demo_sub)
    as (w3 & Hrun & s' & Hs & Heq); [exact demo_ok_world|computed..|].
  exists w3, s'. split; [exact Hrun|]. split; [exact Hs|exact Heq].
Defined.

Lemma update_seat_count_spec_witness :
  ∃ d' s', update_seat_count demo_sub 4 demo_world =
      (Ok tt, set_db d' (on_log demo_world
        [SubscriptionRetrieve "sub_alice";
         SubscriptionModifyItem "sub_alice" "si_1" None 4 "create_prorations"])) ∧
    subs_get_by_stripe_id d' "sub_alice" = Some s' ∧ s' ≡ sub_copy_seats demo_sub 4.
Proof.
  destruct (update_seat_count_spec demo_sub 4 demo_world) as [_ Hspec].
  destruct (Hspec demo_obj "sub_alice") as (d' & s' & Hrun & Hs & Heq & _);
    [discriminate|reflexivity|exact demo_ok_world|computed..|].
  exists d', s'. split; [exact Hrun|]. split; [exact Hs|exact Heq].
Defined.

(** ** Billing *)

Lemma cancel_subscription_mirrors_witness :
  let w' := (cancel_subscription 30 true demo_world).2 in
  w_stripe w' = [SubscriptionModifyCancelAt "sub_alice" "min_period_end"] ∧
  ∃ s', subs_get_by_stripe_id (w_db w') "sub_alice" = Some s' ∧
    s' ≡ sub_copy_cancel_state demo_sub (Some (usec demo_end)) (Some demo_now) ACTIVE.
Proof.
  intros w'.
  destruct (cancel_subscription_mirrors 30 true demo_sub "sub_alice" demo_world w')
    as (l & j & ca & cd & st & s' & Hl & Hlog & Hj & Hf & Hs & Heq & _);
    [exact demo_ok_world|computed|reflexivity|apply run_pair; computed|].
  cbn in Hl. subst l. injection Hj as <-. vm_compute in Hf. injection Hf as <- <- <-.
  split; [exact Hlog|]. exists s'. split; [exact Hs|exact Heq].
Defined.

Lemma billing_mutations_refused_witness :
  (@cancel_subscription store _ down_stripe 30 true demo_world).1 = Raise down ∧
  w_db (@cancel_subscription store _ down_stripe 30 true demo_world).2 = w_db demo_world.
Proof.
  split; [computed|].
  destruct (@billing_mutations_refused store _ down_stripe 30%N
    (@cancel_subscription store _ down_stripe 30 true) demo_world down
    (@cancel_subscription store _ down_stripe 30 true demo_world).2) as [Hd _];
    [by left|apply run_pair; computed|exact Hd].
Defined.

Lemma customer_created_once_witness :
  let m e := get_or_create_customer (Some 2%N) None e None "en" in
  let w1 := (m "bob@example.com" demo_world).2 in
  w_stripe w1 = [CustomerCreate "bob@example.com" None "en" [("user_id", uuid_str 2)]] ∧
  ∃ c', m "bob@new.example.com" w1 = (Ok c', w1) ∧ cus_stripe_id c' = "cus_new".
Proof.
  intros m w1. split; [computed|].
  destruct (customer_created_once (Some 2%N) None "bob@example.com" None "en" "bob@new.example.com"
    None "en" (mkStripeCustomer 1000 "cus_new" (Some 2%N) None false demo_now) demo_world w1) as [Hagain _];
    [exact demo_db_ok|apply run_pair; computed|exact Hagain].
Defined.

Lemma cancel_mirror_resurrects_schedule_witness :
  let w := with_db pending_db in
  let w1 := (_on_subscription_schedule_cleared (JObj [("subscription", JStr "sub_alice")]) w).2 in
  let w2 := (_mirror_cancel_state_from_stripe demo_sub_pending demo_cancelled w1).2 in
  (sub_scheduled_plan_id <$> subs_get_by_stripe_id (w_db w1) "sub_alice") = Some None ∧
  (sub_scheduled_plan_id <$> subs_get_by_stripe_id (w_db w2) "sub_alice") = Some (Some 10%N).
Proof.
  intros w w1 w2.
  destruct (cancel_mirror_resurrects_schedule demo_sub_pending "sub_alice" demo_cancelled w w1 w2)
    as (s1 & s2 & H1 & Hs1 & H2 & Hs2);
    [exact pending_db_ok|reflexivity|discriminate|computed|by eexists|apply run_pair; computed..|].
  rewrite H1, H2. cbn. rewrite Hs1, Hs2. split; reflexivity.
Defined.

(** ** Erasure *)

Lemma delete_account_erases_witness :
  users_get_by_id (w_db (account_delete 1 demo_world).2) 1 = None ∧
  all_accepted [] [SubscriptionCancel "sub_alice" (Some false); CustomerDelete "cus_alice"].
Proof.
  destruct (delete_account_erases 1%N (Some _pre_delete) demo_world (account_delete 1 demo_world).2)
    as (Hacc & w1 & _ & _ & Hgone & _); [apply run_pair; computed|].
  split; [exact Hgone|exact Hacc].
Defined.

Lemma delete_account_refused_witness :
  ∃ calls, @delete_account store _ _ _ down_stripe 1 (Some (@_pre_delete)) demo_world =
    (Raise down, on_log demo_world calls).
Proof.
  destruct (@delete_account_refused store _ _ _ down_stripe 1%N (Some (@_pre_delete)) demo_world)
    as [_ Hrefused].
  destruct Hrefused as (e & pre & c & post & _ & He & _ & Hrun).
  - by eexists.
  - intros [Hacc _]. discriminate (Hacc _ eq_refl).
  - injection He as <-. by eexists.
Defined.

(** ** Credits *)

Lemma demo_ledger : ledger_ok demo_db.
Proof. intros [u|] [o|] Hone; reflexivity. Qed.

Lemma grant_keeps_books_witness :
  let w' := (grant_credits_for_session "cs_1" 100 "purchase:Credits" (Some 1%N) None demo_world).2 in
  ledger_ok (s_db (w_db w')) ∧ balance_of (Some 1%N) None (s_db (w_db w')) = 100%Z.
Proof.
  intros w'.
  destruct (grant_keeps_books "cs_1" 100 "purchase:Credits" (Some 1%N) None demo_world true w')
    as (_ & Hl & _ & Hr & _); [exact demo_db_ok|exact demo_ledger|apply run_pair; computed|].
  split; [exact Hl|]. destruct (Hr eq_refl) as [_ Hb]. rewrite Hb by done. rewrite decide_True by done.
  reflexivity.
Defined.

Lemma long_product_name_never_granted_witness :
  ∃ msg w', Credits.on_product_checkout_completed "cs_1" 91 1 None demo_world = (Raise (DataError msg), w') ∧
    s_db (w_db w') = demo_db.
Proof.
  apply (long_product_name_never_granted "cs_1" 91%N 1%N (mkProduct 91 long_name 100 true) demo_world);
    [computed|by eexists|reflexivity|apply Nat.ltb_lt; computed|].
  apply not_elem_of_dom. reflexivity.
Defined.

(** ** Organisations *)

Lemma delete_orgs_cascade_witness :
  ∃ w', delete_orgs_db (b_eq 50%N) demo_world = (Ok tt, w') ∧ d_orgs (s_db (w_db w')) !! 50%N = None ∧
    d_users (s_db (w_db w')) !! 2%N = None ∧ is_Some (d_users (s_db (w_db w')) !! 3%N).
Proof.
  destruct (delete_orgs_cascade (b_eq 50%N) demo_world) as (w' & Hrun & _); [exact demo_db_ok|].
  exists w'. split; [exact Hrun|].
  assert (w' = (delete_orgs_db (b_eq 50%N) demo_world).2) as -> by (by rewrite Hrun).
  split; [computed|]. split; [computed|]. by eexists.
Defined.

Lemma reachable_one_owner_witness :
  has_one_owner 50 (s_db (w_db (transfer_ownership 4 52 1 demo_world).2)).
Proof.
  destruct (reachable_one_owner demo_world (transfer_ownership 4 52 1 demo_world).2) as (_ & Hone & _);
    [exact demo_inv| |apply Hone; by eexists].
  apply rtc_once. exact (step_request (OpTransfer 4 52 1) demo_world).
Defined.

Definition demo_invitation : InvitationRow :=
  mkInvitationRow 50 "eve@example.com" MEMBER "token" PENDING (Some 2%N) 0 (usec 1800000000).

Lemma accept_invitation_spec_witness :
  i_status <$> d_invitations (s_db (w_db (accept_invitation 70 demo_invitation "Eve" demo_world).2)) !! 70%N
    = Some ACCEPTED.
Proof.
  destruct (accept_invitation_spec 70%N demo_invitation "Eve" demo_world (Ok (1000%N, 50%N))
    (accept_invitation 70 demo_invitation "Eve" demo_world).2) as (_ & _ & _ & Hs & _);
    [apply run_pair; computed|exact Hs].
Defined.

Lemma team_checkout_once_witness :
  let w' := (_create_org_with_owner 1 "Delta" (Some "cus_delta") false demo_world).2 in
  is_Some (d_orgs (s_db (w_db w')) !! 1000%N) ∧
  _create_org_with_owner 1 "Other" (Some "cus_delta") false w' = (Ok 1000%N, w').
Proof.
  intros w'.
  destruct (team_checkout_once 1%N "Delta" "Other" "cus_delta" false false demo_world (Ok 1000%N) w')
    as (Ho & _ & _ & Hrun); [exact demo_db_ok|apply run_pair; computed|].
  split; [exact Ho|exact Hrun].
Defined.

(** Alice created 52, which Dave owns: her deletion destroys it, and his leaves
    it ownerless. *)
Lemma account_deletion_misses_ownership_witness :
  d_orgs (s_db (w_db (account_delete 1 demo_world).2)) !! 52%N = None ∧
  ∀ j m', d_members (s_db (w_db (account_delete 4 demo_world).2)) !! j = Some m' →
    m'.(m_org) = 52%N → m'.(m_role) ≠ OWNER.
Proof.
  destruct (account_deletion_misses_ownership 1%N demo_world (account_delete 1 demo_world).2) as [Hgone _];
    [exact demo_inv|apply run_pair; computed|].
  destruct (account_deletion_misses_ownership 4%N demo_world (account_delete 4 demo_world).2) as [_ Horphan];
    [exact demo_inv|apply run_pair; computed|].
  split; [by eapply (Hgone 52%N)|].
  by apply (Horphan 52%N (mkOrgRow "Gamma" "gamma" None (Some 1%N) 0) 64%N (mkMemberRow 52 4 OWNER true 0)).
Defined.

(** Bob removes Carol from 50; her own organisation 51 has no owner any more. *)
Lemma member_delete_orphans_other_org_witness :
  is_Some (d_orgs (s_db (w_db (member_delete 2 50 3 demo_world).2)) !! 51%N) ∧
  ∀ j m', d_members (s_db (w_db (member_delete 2 50 3 demo_world).2)) !! j = Some m' →
    m'.(m_org) = 51%N → m'.(m_role) ≠ OWNER.
Proof.
  destruct (member_delete_orphans_other_org 2%N 50%N 3%N demo_world (member_delete 2 50 3 demo_world).2
    51%N 62%N (mkMemberRow 51 3 OWNER true 0)) as (Ho & Hm & _);
    [exact demo_inv|apply run_pair; computed|reflexivity..|].
  split; [exact Ho|exact Hm].
Defined.

(** ** Entry points *)

Definition demo_request : HttpRequest :=
  mkHttpRequest "64" 64 (Ok (JObj [("id", JStr "evt_2"); ("type", JStr "invoice.payment_failed");
    ("livemode", JBool false)])) (Ok tt).

Lemma webhook_persisted_once_witness :
  let w' := (stripe_webhook false demo_request demo_world).2 in
  w_tasks w' = [process_stripe_webhook_delay 1000] ∧
  stripe_webhook false demo_request w' = (Ok 202%Z, w').
Proof.
  intros w'.
  destruct (webhook_persisted_once false demo_request demo_world (Ok 202%Z) w') as (_ & Hok & _);
    [apply run_pair; computed|].
  destruct (Hok eq_refl) as (b & k & ty & l & _ & Hagain & _). split; [computed|exact Hagain].
Defined.

Lemma task_reaches_outcome_witness :
  ∃ n r w', (n <= 3)%nat ∧ run_task 4 0 80 demo_world = Some (r, w') ∧
    w_now w' = (demo_now + seconds (2 ^ Z.of_nat n - 1))%Z.
Proof.
  destruct (task_reaches_outcome 80%N demo_event demo_world) as (n & r & w' & Hn & Hrun & Hnow & _);
    [reflexivity|].
  exists n, r, w'. split; [exact Hn|]. split; [exact Hrun|exact Hnow].
Defined.

(** ** Organisation requests *)

(** A page query is a limit and an offset, or absent. *)
#[export] Instance demo_pagination : Pagination := {|
  page_query := option (nat * nat);
  page_window default max q :=
    match q with Some (l, o) => (Nat.max 1 (Nat.min l max), o) | None => (default, 0%nat) end;
  page_link l o := Some (l, o)
|}.

#[export] Instance demo_pagination_laws : PaginationLaws.
Proof.
  split.
  - intros default max [[l o]|] Hd; cbn [page_window demo_pagination fst]; lia.
  - intros default max l o Hl. cbn [page_window page_link demo_pagination]. f_equal. lia.
Qed.

(** Rows in the order of the table, but for the pages that start at an odd offset. *)
#[export] Instance demo_order : RowOrder := λ q n,
  match q with Some (_, o) => if Nat.odd o then reverse (seq 0 n) else seq 0 n | None => seq 0 n end.
#[export] Instance demo_order_laws : RowOrderLaws.
Proof. intros [[l o]|] n; cbn; [|done]. destruct (Nat.odd o); [apply reverse_Permutation|done]. Qed.

#[export] Instance demo_https : HttpsURL := λ s, b_eq (substring 0 8 s) "https://".
#[export] Instance demo_org_email : EmailValidator := λ s, existsb (λ c, b_eq c "@"%char) (list_ascii_of_string s).

(** Carol, a plain member of 50, cannot see the name of 52, a password, who is
    verified, nor the invitations of 50. *)
Definition hidden_db : db :=
  set_invitations ∅ (set_orgs (<[52%N := mkOrgRow "Omega" "omega" None None 7]> demo_db.(d_orgs))
    (set_users ((λ u, mkUserRow u.(u_email) u.(u_full_name) u.(u_avatar_url) "de" "eur" None None None None None None
      false "email" true (Some "another") None 1 1) <$> demo_db.(d_users)) demo_db)).

Lemma hidden_view : same_view 3 demo_db hidden_db.
Proof.
  assert (∀ o, role_in_org 3 o demo_db = role_in_org 3 o hidden_db) as Hrole by reflexivity.
  assert (∀ o r, role_in_org 3 o demo_db = Some r → r ∈ _ADMIN_OR_ABOVE → o = 51%N) as Hadmin.
  { intros o r Hr Ha. unfold role_in_org in Hr. destruct (member_of demo_db o 3) as [[i m]|] eqn:Hm; [|done].
    injection Hr as <-. apply member_of_Some in Hm as (Hm & Ho & Hu).
    assert (map_Forall (λ _ m, m.(m_user) = 3%N → m.(m_role) ∈ _ADMIN_OR_ABOVE → m.(m_org) = 51%N) demo_db.(d_members)) as Hall
      by (apply (bool_decide_eq_true_1 (map_Forall _ _)); computed).
    rewrite <- Ho. by apply (Hall i m Hm). }
  assert (role_in_org 3 52 demo_db = None) as H52 by computed.
  split.
  - intros o. change (d_orgs hidden_db) with (<[52%N := mkOrgRow "Omega" "omega" None None 7]> (d_orgs demo_db)).
    rewrite lookup_insert_is_Some. split; [|intros [<-|[_ Ho]]; [by eexists|done]].
    intros Ho. destruct (decide (52%N = o)); auto.
  - exact Hrole.
  - intros o [r Hr]. change (d_orgs hidden_db) with (<[52%N := mkOrgRow "Omega" "omega" None None 7]> (d_orgs demo_db)).
    rewrite lookup_insert_ne; [done|]. intros <-. by rewrite H52 in Hr.
  - reflexivity.
  - intros o i m _ _. unfold hidden_db. cbn [d_users set_users set_orgs set_invitations]. rewrite lookup_fmap. by destruct (d_users demo_db !! m_user m).
  - intros o r Hr Ha. rewrite (Hadmin o r Hr Ha). computed.
  - intros o r i inv u Hr Ha Hi. rewrite (Hadmin o r Hr Ha) in Hi.
    assert (pending_table 51 demo_db = ∅) as He by computed. by rewrite He in Hi.
Qed.

(** Eve's invitation, addressed to somebody else. *)
Definition readdressed_db : db :=
  set_invitations {[70%N := mkInvitationRow 50 "mallory@example.com" MEMBER "token" PENDING (Some 2%N) 0 (usec 1800000000)]} demo_db.

Lemma org_reads_noninterference_witness :
  (run_read 3 (ListMembers 50 None) demo_world).1 = (run_read 3 (ListMembers 50 None) (with_db hidden_db)).1 ∧
  (run_read 3 (ShowOrg 52) (with_db hidden_db)).1 = Raise (InsufficientPermissionError "Access denied.") ∧
  (invitation_detail_get "token" demo_world).1 = (invitation_detail_get "token" (with_db readdressed_db)).1.
Proof.
  destruct (org_reads_noninterference demo_world (with_db hidden_db)) as [Hread _].
  destruct (org_reads_noninterference demo_world (with_db readdressed_db)) as [_ Hpub].
  split; [exact (proj1 (Hread 3%N (ListMembers 50 None) hidden_view))|]. split.
  - rewrite <- (proj1 (Hread 3%N (ShowOrg 52) hidden_view)). computed.
  - apply Hpub. split; [computed|]. intros i _. by split.
Defined.

Lemma listings_paged_witness :
  ∃ outs, collect 10 (org_list_get 3) (Some (1%nat, 0%nat)) demo_world = (Ok outs, demo_world) ∧
    lists name_le (λ o, Ok (OrgSerializer o.1 o.2))
      (tfilter (λ i _, not_none (member_of demo_db i 3)) demo_db.(d_orgs)) outs.
Proof.
  destruct (listings_paged 3 50 demo_world demo_db_ok) as ((_ & Hall) & _).
  destruct Hall as (outs & Hl & Hc).
  - set (t := tfilter _ _). assert (map_to_list t = [(50%N, mkOrgRow "Acme" "acme" None (Some 2%N) 0); (51%N, mkOrgRow "Beta" "beta" None (Some 3%N) 0)]) as Ht by computed.
    assert (∀ r, t !! r.1 = Some r.2 → r ∈ map_to_list t) as Hin by by intros [i a] Hi; apply elem_of_map_to_list.
    rewrite Ht in Hin. intros r r' Hr%Hin Hr'%Hin. unfold name_le.
    rewrite elem_of_cons, list_elem_of_singleton in Hr, Hr'. by destruct Hr as [->| ->], Hr' as [->| ->].
  - exists outs. split; [|exact Hl]. apply Hc; [reflexivity|]. apply Nat.ltb_lt. computed.
Defined.

(** Bob and Carol joined 50 at the same time: a client reading the list one member at a
    time sees Bob twice and Carol never. *)
Lemma tied_pages_skip_a_row :
  ∃ outs, collect 10 (member_list_get 3 50) (Some (1%nat, 0%nat)) demo_world = (Ok outs, demo_world) ∧
    mo_id <$> outs = [60%N; 60%N] ∧ size (member_table 50 demo_db) = 2%nat.
Proof. eexists. split; [apply run_pair; computed|]. split; [computed|computed]. Qed.

Lemma org_writes_read_back_witness :
  let w' := (org_patch_request 2 50 (mkOrgBody (Given " Acme Ltd ") Null) demo_world).2 in
  (org_detail_get 2 50 w').1 = Ok (mkOrgOut 50 "Acme Ltd" "acme" None 0).
Proof.
  intros w'. destruct (org_writes_read_back 2 50 demo_world w' demo_db_ok) as (Hp & _).
  apply (Hp (mkOrgBody (Given " Acme Ltd ") Null)). apply run_pair. computed.
Defined.

Lemma org_requests_refine_witness :
  has_one_owner 52 (s_db (w_db (run_request (Transfer 4 52 (Given 1%N)) demo_world).2)).
Proof.
  destruct (org_requests_refine (Transfer 4 52 (Given 1%N)) demo_world demo_world demo_inv) as [_ Hreach]; [reflexivity|].
  specialize (Hreach I). apply (rtc_ind_r (λ w, org_inv (s_db (w_db w))) demo_world) in Hreach as (_ & Hone & _).
  - apply Hone. by eexists.
  - exact demo_inv.
  - intros w1 w2 _ Hs Hi. exact (org_step_keeps w1 w2 Hi Hs).
Defined.
