(* ===== verification/BillingWitnesses.v ===== *)
(** * The billing endpoints at work

    The theorems about the billing endpoints, applied to the backend of [Demo.v],
    and the behaviours it exhibits. *)

From Stdlib Require Import SpecFloat.
From S2P Require Import Prelude PyVal Effects Domain StripeObjects Relational Store StoreFacts.
From S2P Require Import Django Repos Repositories RepositoriesFacts Webhooks Credits CreditsFacts.
From S2P Require Import Auth Account Currency Billing Subscriptions Fields OrgViews RedirectUrls.
From S2P Require Import RedirectFacts BillingContext BillingCatalog BillingViews BillingTraces.
From S2P Require Import BillingViewFacts BillingAuthority CatalogFacts CheckoutFacts.
From S2P Require Import LocalizedSync LocalizedPlan LocalizedSyncFacts AuthViews Orgs Mail Pages Demo.

#[local] Open Scope string_scope.

(** ** Requests *)

Definition alice : uuid * UserRow := (1%N, demo_user "alice@example.com" "Alice").
Definition bob : uuid * UserRow := (2%N, demo_user "bob@example.com" "Bob").
Definition carol : uuid * UserRow := (3%N, demo_user "carol@example.com" "Carol").

Definition q_none : Query := mkQuery None None.
Definition q_personal : Query := mkQuery None (Some "personal").
Definition q_team : Query := mkQuery None (Some "team").
Definition q_eur : Query := mkQuery (Some "EUR") (Some "personal").

Definition app_url : string := "https://app.example.com/billing".
Definition seats (n : Z) : UpdateRequest := mkUpdateRequest None None (Some n) None.
Definition to_plan (p : uuid) (n : option Z) : UpdateRequest := mkUpdateRequest (Some p) None n None.
Definition buy_plan (p : uuid) (n : option Z) (name : option string) : CheckoutRequest :=
  mkCheckoutRequest p n app_url app_url (Some 14%Z) name (Some true).
Definition buy_credits : ProductCheckoutData := mkProductCheckoutData 95 app_url app_url.

(** ** Redirect URLs *)

Definition demo_authority : Authority :=
  mkAuthority (Some (list_ascii_of_string "eve")) (list_ascii_of_string "App.example.com")
    (Some (list_ascii_of_string "9999")).

Lemma redirect_url_verdict_witness :
  let url := url_of "https" demo_authority (list_ascii_of_string "/x") in
  url = "https://eve@App.example.com:9999/x" ∧ _validate_redirect_url url = Ok url.
Proof.
  intros url. split; [computed|].
  apply (redirect_url_verdict "https" demo_authority (list_ascii_of_string "/x"));
    [computed|computed|computed|].
  split; [by right|]. do 2 right. left. vm_compute. left.
Defined.

(** ** Authority *)

Lemma mutation_context_refines_policy_witness :
  ∃ r, _resolve_mutation_context (Some "team") 2 demo_world = (r, demo_world) ∧
    match r with Ok t => may_mutate demo_db 2 (Some TEAM) t | Raise _ => False end.
Proof.
  destruct (mutation_context_refines_policy (Some "team") 2 demo_world) as (r & Hr & Hp).
  exists r. split; [exact Hr|]. change (_validate_subscription_context (Some "team")) with (Ok (Some TEAM)) in Hp.
  destruct Hp as [Hp _]. assert (r = Ok (TEAM, Some 50%N)) as ->; [|exact Hp].
  transitivity (_resolve_mutation_context (Some "team") 2 demo_world).1; [by rewrite Hr|computed].
Defined.

Lemma subscription_mutations_authorised_witness :
  let w' := (subscription_delete alice q_personal demo_world).2 in
  w' ≠ demo_world ∧
  ∃ requested t s k, may_mutate demo_db 1 requested t ∧ authorised demo_db 1 t s k ∧
    only_sub s.(sub_id) (w_db demo_world) (w_db w').
Proof.
  intros w'. assert (w' ≠ demo_world) as Hne by (intros E; discriminate (f_equal w_stripe E)).
  split; [exact Hne|].
  destruct (subscription_mutations_authorised alice q_personal (subscription_delete alice q_personal) demo_world)
    as [Heq|(requested & t & s & k & l & _ & Hmay & Hauth & _ & _ & Honly)];
    [exact demo_store_ok|constructor|by destruct Hne|].
  exists requested, t, s, k. split; [exact Hmay|]. split; [exact Hauth|exact Honly].
Defined.

Lemma patch_seat_limit_held_witness :
  let w' := (subscription_patch bob q_team (seats 4) demo_world).2 in
  w' ≠ demo_world ∧
  ∃ t s k l, authorised demo_db 2 t s k ∧ w_stripe w' = l ∧ l ≠ [] ∧
    held (mutates k (λ _, True) (λ x, x = 4%Z)) [] l.
Proof.
  intros w'. assert (w_stripe w' ≠ []) as Hs by (vm_compute; discriminate).
  assert (w' ≠ demo_world) as Hne by (intros E; apply Hs; rewrite E; reflexivity).
  split; [exact Hne|].
  destruct (patch_seat_limit_held bob q_team (seats 4) 4 demo_world)
    as [Heq|(t & s & k & l & Hauth & Hl & HP & _)]; [exact demo_store_ok|reflexivity|by destruct Hne|].
  exists t, s, k, l. split; [exact Hauth|]. fold w' in Hl. rewrite Hl in Hs. split; [exact Hl|]. split; [exact Hs|exact HP].
Defined.

Lemma plan_change_keeps_currency_witness :
  let w' := (subscription_patch alice q_personal (to_plan 20 None) demo_world).2 in
  w' ≠ demo_world ∧
  ∃ s k l p, w_stripe w' = l ∧ held (mutates k (minted_in demo_db p s.(sub_currency)) (λ _, True)) [] l.
Proof.
  intros w'. assert (w' ≠ demo_world) as Hne by (intros E; discriminate (f_equal w_stripe E)).
  split; [exact Hne|].
  destruct (plan_change_keeps_currency alice q_personal (to_plan 20 None) 20 demo_world)
    as [Heq|(t & s & k & l & plan & p & _ & _ & _ & Hl & HP)];
    [exact demo_store_ok|reflexivity|by destruct Hne|].
  exists s, k, l, p. split; [exact Hl|exact HP].
Defined.

Definition cancel_alice : UpdateRequest := mkUpdateRequest None None None (Some true).

Lemma unsupported_currency_refused_late_witness :
  let q := mkQuery (Some "xyz") (Some "personal") in
  (subscription_patch alice q cancel_alice demo_world).1 = Raise ValidationError ∧
  w_stripe (subscription_patch alice q cancel_alice demo_world).2 ≠ [].
Proof.
  intros q.
  set (data := mkUpdateRequest None (Some true) None (Some true)).
  rewrite (unsupported_currency_refused_late alice q cancel_alice "xyz" data (PERSONAL, None) None demo_world
    (apply_update 1 PERSONAL None data None demo_world).2).
  - split; [reflexivity|]. vm_compute. discriminate.
  - reflexivity.
  - discriminate.
  - apply (bool_decide_eq_false_1 (lower "xyz" ∈ SUPPORTED_CURRENCIES)). computed.
  - computed.
  - apply run_pair. computed.
Defined.

(** ** Prices and subscriptions *)

Lemma billing_currency_resolved_witness :
  ∃ dual, _resolve_billing_currency (Some "JPY") (Some alice.2) = Ok ("usd", dual) ∧
    "usd" ∈ BILLING_CURRENCIES ∧ "usd" ∈ SUPPORTED_CURRENCIES.
Proof.
  destruct (billing_currency_resolved (Some "JPY") (Some alice.2)) as (dual & Hr & Hb & Hs & _); [computed|].
  exists dual. split; [exact Hr|]. split; [exact Hb|exact Hs].
Defined.

(** The price without a Stripe price in euros is displayed in euros and charged
    in dollars. *)
Lemma displayed_price_charged_witness :
  let ctx := mkCurrencyContext "eur" None in
  ∃ plan p, active_plan_price 20 (Some "eur") demo_db = Some (plan, p) ∧
    (_resolve_stripe_price_id p "eur" demo_world).1 = Ok "price_basic" ∧
    ∃ out, out_plan_price (PlanSerializer ctx demo_db plan) = Some out ∧
      out.(out_currency) = "eur" ∧ out.(out_display_amount) = cents 849.
Proof.
  intros ctx. destruct (active_plan_price 20 (Some "eur") demo_db) as [[plan p]|] eqn:Hp; [|discriminate Hp].
  exists plan, p. split; [reflexivity|].
  destruct (displayed_price_charged ctx 20 plan p demo_world) as (out & k & Hout & _ & Hk & Hshown);
    [exact demo_db_ok|discriminate|exact Hp|].
  assert ((plan, p) = (demo_plan 10 "Basic" PERSONAL BASIC,
    mkPriceObj (OfPlanPrice 20) "price_basic" 900
      (Some (_resolved_localized_prefetch (OfPlanPrice 20) "eur" demo_db)))) as Heq.
  { apply (f_equal (from_option id (plan, p))) in Hp. cbn in Hp. rewrite <-Hp. computed. }
  injection Heq as -> ->. split; [computed|]. exists out. split; [exact Hout|].
  apply (f_equal (from_option (λ o, (out_display_amount o, out_currency o)) (cents 0, ""))) in Hout. cbn [from_option] in Hout.
  assert ((out_display_amount out, out_currency out) = (cents 849, "eur")) as Hs by (rewrite <- Hout; computed).
  injection Hs as Ha Hcur. split; [exact Hcur|exact Ha].
Defined.

Lemma subscriptions_visible_witness :
  NoDup (sub_id <$> _get_active_subscriptions_for_user 1 demo_db) ∧
  ∃ s, s ∈ _get_active_subscriptions_for_user 1 demo_db ∧ (0 <= s.(sub_created_at))%Z.
Proof.
  destruct (subscriptions_visible 1 demo_db demo_db_ok) as (Hnd & _ & _ & Hown & _).
  split; [exact Hnd|].
  destruct (Hown demo_sub) as (s & Hs & _ & Ht); [computed|computed|left; reflexivity|].
  exists s. split; [exact Hs|exact Ht].
Defined.

(** ** Checkout *)

Definition plan_checkout : outcome json * world store :=
  checkout_session carol (mkQuery None None) (buy_plan 22 None None) demo_world.

Lemma checkout_session_spec_witness :
  ∃ cust, customer_by_user (s_db (w_db plan_checkout.2)) 3 = Some cust ∧ cust.(cus_stripe_id) = "cus_new".
Proof.
  destruct (checkout_session_spec carol (mkQuery None None) (buy_plan 22 None None) demo_world
    (JStr "https://stripe") plan_checkout.2)
    as (data & cur & dual & plan & p & cust & calls & metadata & Hdata & Hcur & Hact & _ & _ & Hcase);
    [exact demo_store_ok|apply run_pair; computed|].
  vm_compute in Hdata. injection Hdata as <-. vm_compute in Hcur. injection Hcur as <- <-.
  vm_compute in Hact. injection Hact as <- <-. destruct Hcase as (_ & _ & _ & c & Hc & Hcust).
  exists c. split; [exact Hc|]. vm_compute in Hc. injection Hc as <-. reflexivity.
Defined.

Definition team_checkout : outcome json * world store :=
  checkout_session alice q_none (buy_plan 21 (Some 3%Z) (Some " Alice & Co ")) demo_world.

Definition completed (params : json) (fields : list (string * json)) : json :=
  match params with JObj l => JObj (fields ++ l)%list | v => v end.

Lemma team_checkout_round_trip_witness :
  ∃ params cust raw name, last (w_stripe team_checkout.2) = Some (CheckoutSessionCreate params) ∧
    get params "customer" = Ok (JStr cust) ∧ CharField 255 raw = Ok name ∧ raw = " Alice & Co ".
Proof.
  destruct (team_checkout_round_trip alice q_none (buy_plan 21 (Some 3%Z) (Some " Alice & Co "))
    (demo_plan 11 "Team" TEAM PRO) demo_world (JStr "https://stripe") team_checkout.2)
    as (params & cust & raw & name & Hlast & Hcust & Hraw & Hname & _);
    [exact demo_store_ok|apply run_pair; computed|computed|computed|computed|].
  exists params, cust, raw, name. split_and!; [exact Hlast|exact Hcust|exact Hname|by injection Hraw].
Defined.

Definition credit_checkout : outcome json * world store :=
  product_checkout_session bob q_team buy_credits demo_world.

Definition paid_session : json :=
  completed (match last (w_stripe credit_checkout.2) with Some (CheckoutSessionCreate p) => p | _ => JNull end)
    [("id", JStr "cs_1")].

Definition after_payment : world store := (_on_checkout_completed paid_session get_webhook_repos credit_checkout.2).2.

Lemma credit_purchase_reaches_buyer_witness :
  balance_of None (Some 50%N) (s_db (w_db after_payment)) = 100%Z ∧
  balance_of (Some 2%N) None (s_db (w_db after_payment)) = 0%Z.
Proof.
  destruct (credit_purchase_reaches_buyer bob q_team buy_credits demo_world (JStr "https://stripe")
    credit_checkout.2) as (params & row & org_id & context & Hlast & Hrow & Hctx & Hscope & Hmay & Hrest);
    [exact demo_store_ok|apply run_pair; computed|computed|].
  vm_compute in Hlast. injection Hlast as <-. vm_compute in Hrow. injection Hrow as <-.
  injection Hctx as <-.
  assert (org_id = Some 50%N) as ->.
  { destruct org_id as [o|]; [|by destruct Hscope]. destruct Hmay as (i & m & Hm & Hu & <- & _). f_equal.
    assert ((i, m) ∈ map_to_list (d_members demo_db)) as Hin by by apply elem_of_map_to_list.
    vm_compute (map_to_list _) in Hin. set_solver. }
  destruct (Hrest paid_session "cs_1" (mkProduct 90 "Credits" 100 true) credit_checkout.2) as [_ Hsent].
  - intros key Hkey. rewrite !elem_of_cons in Hkey.
    destruct Hkey as [->|[->|[->|[->|[]%elem_of_nil]]]]; computed.
  - computed.
  - discriminate.
  - computed.
  - intros o [= <-]. computed.
  - apply (bool_decide_eq_true_1 (db_ok (s_db (w_db credit_checkout.2)))). computed.
  - computed.
  - destruct Hsent as [Heffect Hret]; [computed|computed|].
    destruct Hret as [w3 Hw3]; [apply Nat.leb_le; computed|apply Nat.leb_le; computed|computed|computed|computed|].
    assert (after_payment = w3) as -> by (unfold after_payment; by rewrite Hw3).
    destruct (Heffect w3 Hw3) as [[_ Hdup]|(_ & _ & Hb)].
    + destruct Hdup as (i & t & Ht & _); [computed|]. vm_compute in Ht. discriminate Ht.
    + rewrite !Hb by reflexivity. split; computed.
Defined.

Lemma credit_balances_shown_witness :
  (credit_balances 2 q_team demo_world).1 = Ok [(0%Z, "org")].
Proof.
  rewrite (credit_balances_shown 2 q_team demo_world demo_store_ok). computed.
Defined.

(** ** Behaviours *)

(** A plan change does not compare the contexts of the two plans: Alice's personal
    subscription is moved to the team plan, for one seat. *)
Lemma personal_subscription_moved_to_team_plan :
  let r := subscription_patch alice q_personal (to_plan 21 None) demo_world in
  plan_context <$> d_plans demo_db !! 11%N = Some TEAM ∧
  w_stripe r.2 = [SubscriptionRetrieve "sub_alice";
                  SubscriptionModifyItem "sub_alice" "si_1" (Some "price_team") 1 "create_prorations"].
Proof. split; computed. Qed.

(** Carol owns 51, whose team subscription is "sub_beta", and is a plain member of
    50, which she joined first. *)
Definition beta_sub : Subscription :=
  mkSubscription 42 (Some "sub_beta") (Some 32%N) None ACTIVE 11 3 None (usec demo_start)
    (usec demo_end) None None None None "usd" 0.
Definition two_orgs_db : db :=
  set_customers (<[32%N := mkStripeCustomer 32 "cus_beta" None (Some 51%N) false 0]> demo_db.(d_customers))
    (set_subs (<[42%N := beta_sub]> demo_db.(d_subs)) demo_db).

(** Her PATCH without a context is refused, although she is a billing member; with
    [?context=team] it cancels "sub_beta" but answers with the subscription of 50. *)
Lemma patch_answers_with_another_org :
  db_ok two_orgs_db ∧
  (subscription_patch carol q_none cancel_alice (with_db two_orgs_db)).1 = Raise PermissionDenied ∧
  let r := subscription_patch carol q_team cancel_alice (with_db two_orgs_db) in
  w_stripe r.2 = [SubscriptionModifyCancelAt "sub_beta" "min_period_end"] ∧
  match r.1 with Ok out => out.(out_sub) = demo_team_sub | Raise _ => False end.
Proof.
  split; [apply (bool_decide_eq_true_1 (db_ok two_orgs_db)); computed|].
  split; [computed|]. split; computed.
Qed.

(** With no subscription for 50, the cancellation is made and answered 404. *)
Definition one_team_sub_db : db := set_subs (delete 41%N two_orgs_db.(d_subs)) two_orgs_db.

Lemma delete_answers_404_after_cancelling :
  let r := subscription_delete carol q_team (with_db one_team_sub_db) in
  r.1 = Raise NotFound ∧ w_stripe r.2 = [SubscriptionModifyCancelAt "sub_beta" "min_period_end"] ∧
  sub_cancel_at <$> d_subs (s_db (w_db r.2)) !! 42%N = Some (Some (usec demo_end)).
Proof. split_and!; computed. Qed.

(** A checkout in euros of a plan without a euro price opens a session with the
    dollar price and adaptive pricing turned off. *)
Lemma euro_checkout_with_dollar_price :
  match last (w_stripe (checkout_session alice q_eur (buy_plan 20 None None) demo_world).2) with
  | Some (CheckoutSessionCreate params) =>
      get params "adaptive_pricing" = Ok (JObj [("enabled", JBool false)]) ∧
      get params "line_items" = Ok (JArr [JObj [("price", JStr "price_basic"); ("quantity", JNum 1)]])
  | _ => False
  end.
Proof. split; computed. Qed.

(** ** The recomputation of the localized prices *)

Definition demo_answer : fx_json :=
  FxObj [("result", FxStr "success");
         ("rates", FxObj [("USD", FxNum (float_of_Z 1)); ("EUR", FxNum (cents 92)); ("JPY", FxStr "150")])].

#[export] Instance demo_feed : FxFeed := λ _, Ok demo_answer.

(** [float(s)] of a string of digits. *)
#[export] Instance demo_float : FloatOfString := λ s, if b_eq s "150" then Some (float_of_Z 150) else None.

Definition demo_rates : gmap string spec_float :=
  list_to_map [("usd", float_of_Z 1); ("eur", cents 92); ("jpy", float_of_Z 150)].

Lemma demo_usable : usable demo_answer demo_rates.
Proof. split; [reflexivity|]. eexists. split; [reflexivity|computed]. Qed.

Definition demo_wants : list want :=
  match wanted demo_rates (catalog_prices demo_db) with Ok ws => ws | Raise _ => [] end.

Lemma demo_wanted : wanted demo_rates (catalog_prices demo_db) = Ok demo_wants.
Proof. computed. Qed.

Lemma demo_int4 k : k ∈ demo_wants → int4 k.(wt_amount) = true.
Proof.
  revert k. apply Forall_forall.
  apply (bool_decide_eq_true_1 (Forall (λ k, int4 k.(wt_amount) = true) demo_wants)). vm_compute. reflexivity.
Qed.

(** The ids of the rows are below the next one. *)
Lemma ids_below (t : table LocalizedRow) n :
  bool_decide (map_Forall (λ i _, (i < n)%N) t) = true → ∀ i, is_Some (t !! i) → (i < n)%N.
Proof. intros H i [l Hl]. apply bool_decide_eq_true_1 in H. exact (H i l Hl). Qed.

Lemma sync_localized_prices_spec_witness :
  ∃ w', sync_localized_prices demo_world = (Ok 7%Z, w') ∧
    synced demo_db (s_db (w_db w')) demo_now demo_wants.
Proof.
  destruct (sync_localized_prices_spec demo_world demo_answer demo_rates demo_wants) as (w' & Hrun & _ & Hs & _);
    [exact demo_db_ok|apply ids_below; computed|reflexivity|exact demo_usable|exact demo_wanted|exact demo_int4|].
  exists w'. split; [|exact Hs]. rewrite Hrun. do 2 f_equal.
Defined.

(** The first run, and the world on the next day. *)
Definition first_run : world store := (sync_localized_prices demo_world).2.
Definition next_day : world store := World (w_db first_run) [] [] (demo_now + usec 86400) 2000.

Lemma first_run_eq : sync_localized_prices demo_world = (Ok 7%Z, first_run).
Proof.
  unfold first_run. rewrite (surjective_pairing (sync_localized_prices demo_world)) at 1. apply (f_equal2 pair); [computed|reflexivity].
Qed.

Lemma sync_localized_prices_idempotent_witness :
  ∃ w3, sync_localized_prices next_day = (Ok 0%Z, w3) ∧
    with_synced 0 <$> (s_db (w_db w3)).(d_localized) = with_synced 0 <$> (s_db (w_db first_run)).(d_localized).
Proof.
  apply (sync_localized_prices_idempotent demo_world first_run next_day 7
    demo_answer demo_answer demo_rates demo_wants demo_db_ok);
    [apply ids_below; computed|unfold fx_fetch, demo_feed; reflexivity|exact demo_usable|exact demo_wanted|exact demo_int4
    |exact first_run_eq|unfold next_day; cbn [w_db]; reflexivity|apply ids_below; computed
    |unfold fx_fetch, demo_feed; reflexivity|exact demo_usable].
Defined.

(** The recomputed price keeps the Stripe price of the old amount. *)
Lemma synced_price_drifts :
  ∃ l, (s_db (w_db (sync_localized_prices demo_world).2)).(d_localized) !! 96%N = Some l ∧
    l.(lp_amount_minor) = 1749%Z ∧ l.(lp_stripe_price_id) = Some "price_pro_eur" ∧
    lp_amount_minor <$> demo_db.(d_localized) !! 96%N = Some 1799%Z.
Proof. eexists. split; [computed|]. split_and!; reflexivity. Qed.

(** ** Mails and pages *)

#[export] Instance demo_mail : MailSettings := {|
  FRONTEND_URL := "https://app.example.com";
  EMAIL_FROM_ADDRESS := "SaasMint <no-reply@example.com>"
|}.

#[export] Instance demo_escape : HtmlEscape := replaced.
#[export] Instance demo_escape_laws : HtmlEscapeLaws.
Proof. by constructor. Qed.

(** Resend refuses one address. *)
#[export] Instance demo_resend : Resend := {|
  resend_send _ m := if b_eq (ml_to m) ["bad@example.com"] then Raise (HTTPError "422") else Ok tt;
  is_resend_error _ := false
|}.

Definition outbox_world : world (list mail) := World [] [] [] demo_now 0.

Lemma mail_markup_is_the_templates_witness :
  let t := send_invitation_email_task_delay "eve@example.com" "token" "<script>" "Mallory & Co" in
  ∃ new, w_db (send_invitation_email "eve@example.com" "token" "<script>" "Mallory & Co" outbox_world).2 = new ∧
    Forall (proper_mail t) new.
Proof.
  intros t. destruct (mail_markup_is_the_templates t _ outbox_world eq_refl eq_refl) as (new & Hnew & Hall).
  exists new. by split.
Defined.

(** A refused recipient does not hold the next one back. *)
Lemma notice_past_a_refusal :
  map ml_to (w_db (send_subscription_cancel_notice_task ["bad@example.com"; "bob@example.com"] "Acme" "scheduled"
    outbox_world).2) = [["bad@example.com"]; ["bob@example.com"]].
Proof. vm_compute. reflexivity. Qed.

(** Alice, a member of an organisation with a plan of her own, sees her subscription
    without its plan. *)
Lemma dashboard_misses_personal_plan :
  ∃ da, (dashboard_get (Some 1%N) "/dashboard/" demo_world).1 = Ok (Rendered da) ∧
    da_subscription da = Some demo_sub ∧ sub_plan_id demo_sub ∈ map plan_id (active_plans demo_db) ∧
    da_plan da = None.
Proof.
  eexists. split; [by vm_compute|]. split; [done|]. split; [|done].
  apply (bool_decide_eq_true_1 (_ ∈ _)). vm_compute. reflexivity.
Qed.

(** The column of Alice's row, coloured. *)
Lemma user_list_shows_alice :
  subscription_status (_subscription_status 1 demo_db) =
  ("<span style=" ++ dq ++ "color:green" ++ dq ++ ">active</span>")%string.
Proof. vm_compute. reflexivity. Qed.

(** Carol is a member of both organisations: her account goes with the second. *)
Lemma bulk_deletion_is_one_cascade_witness :
  ∃ w', (delete_org_action [50%N; 51%N] true demo_world) =
      (Ok (Deleted "Deleted 2 org(s) and all associated member accounts."), w') ∧
    d_users (s_db (w_db w')) !! 3%N = None ∧
    ∃ w1, delete_orgs_db (λ o, bool_decide (o ∈ (selected_orgs [50%N; 51%N] demo_db).*1)) demo_world = (Ok tt, w1) ∧
      s_db (w_db w') = s_db (w_db w1).
Proof.
  destruct (bulk_deletion_is_one_cascade [50%N; 51%N] demo_world demo_db_ok) as [_ (w' & new & Hrun & _ & _ & _ & _ & _ & _ & Hone)].
  exists w'. split; [exact Hrun|].
  destruct Hone as (w1 & Hrun1 & Hd); [by apply (bool_decide_eq_false_1 (_ = _)); vm_compute|]. split; [|by exists w1].
  rewrite Hd. pose proof (f_equal (λ r, d_users (s_db (w_db r.2)) !! 3%N) Hrun1) as H3. cbn [snd] in H3. rewrite <- H3.
  vm_compute. reflexivity.
Defined.
