(* ===== verification/CatalogWitnesses.v ===== *)
(** * The catalogue commands at work

    The theorems on the catalogue commands, applied to the catalogue of [Demo.v] and a
    Stripe that keeps the prices it is asked to create, and the behaviours they
    exhibit. *)

From S2P Require Import Prelude PyVal Effects Domain Relational Store StoreFacts Django Repositories.
From S2P Require Import Fields OrgViews BillingContext BillingCatalog LocalizedSync LocalizedPlan LocalizedSyncFacts.
From S2P Require Import CatalogSync StripeCatalog CatalogSyncRows CatalogSyncFacts Demo BillingWitnesses.
From S2P Require Import CatalogSeed CatalogSeedFacts CatalogSeedTotal CatalogAuditFacts.

#[local] Open Scope string_scope.
#[local] Open Scope list_scope.

(** ** Stripe *)

(** The id of the price created by the [n]-th call. *)
Definition nth_price (n : N) : string := ("price_" ++ pretty n)%string.

Definition after_call (s : N * gmap string stripe_price) (c : stripe_call) : N * gmap string stripe_price :=
  ((s.1 + 1)%N,
   match c with
   | PriceCreate prm => <[prm.(prm_lookup_key) := created_price (nth_price s.1) prm]> s.2
   | PriceModify i a => (λ p, if b_eq p.(sp_id) i then set_active a p else p) <$> s.2
   | _ => s.2
   end).

Definition after_calls (h : list stripe_call) : N * gmap string stripe_price := foldl after_call (0%N, ∅) h.

Definition price_json (k : string) (p : stripe_price) : json :=
  JObj [("id", JStr p.(sp_id)); ("lookup_key", JStr k); ("unit_amount", JNum p.(sp_amount));
        ("currency", JStr p.(sp_currency));
        ("recurring", match p.(sp_interval) with Some i => JObj [("interval", JStr i)] | None => JNull end);
        ("product", JStr "prod")].

#[export] Instance demo_catalog : StripeCatalog := λ h, (after_calls h).2.

#[export] Instance catalog_stripe : StripeServer := λ h c,
  match c with
  | PriceListByKeys ks =>
      Ok (JObj [("data", JArr (omap (λ k, price_json k <$> catalog h !! k) ks))])
  | PriceCreate _ => Ok (JObj [("id", JStr (nth_price (after_calls h).1))])
  | PriceModify i _ => Ok (JObj [("id", JStr i)])
  | ProductCreate _ | ProductModify _ _ => Ok (JObj [("id", JStr "prod")])
  | _ => demo_stripe h c
  end.

Lemma after_calls_snoc h c : after_calls (h ++ [c]) = after_call (after_calls h) c.
Proof. unfold after_calls. by rewrite foldl_app. Qed.

Lemma shows_json k p : shows k p (price_json k p).
Proof. repeat (split; [reflexivity|]). eexists. split; [reflexivity|]. by destruct (sp_interval p). Qed.

(** The ids are those of the calls made, each once. *)
Lemma after_calls_ids h :
  (∀ k p, catalog h !! k = Some p → ∃ n, p.(sp_id) = nth_price n ∧ (n < (after_calls h).1)%N) ∧
  (∀ k1 k2 p1 p2, catalog h !! k1 = Some p1 → catalog h !! k2 = Some p2 → p1.(sp_id) = p2.(sp_id) → k1 = k2).
Proof.
  induction h as [|c h [IHn IHu]] using rev_ind.
  { split; intros *; unfold catalog, demo_catalog, after_calls; cbn; rewrite lookup_empty; discriminate. }
  unfold catalog, demo_catalog in *. rewrite after_calls_snoc. destruct (after_calls h) as [n m]. cbn in *.
  assert ((∀ k p, m !! k = Some p → ∃ j, sp_id p = nth_price j ∧ (j < n + 1)%N)) as IHn'.
  { intros k p (j & ? & ?)%IHn. exists j. split; [done|lia]. }
  destruct c; cbn; try done.
  - assert (∀ k p, m !! k = Some p → p.(sp_id) ≠ nth_price n) as Hnew.
    { intros k p (j & -> & Hj)%IHn Heq. unfold nth_price in Heq. apply (inj _) in Heq. apply (inj pretty) in Heq. lia. }
    split.
    + intros k p [[<- <-]|[_ Hp]]%lookup_insert_Some; [|by eapply IHn']. exists n. split; [done|lia].
    + intros k1 k2 p1 p2 [[<- <-]|[H1 Hp1]]%lookup_insert_Some [[<- <-]|[H2 Hp2]]%lookup_insert_Some Heq; try done.
      * by destruct (Hnew _ _ Hp2).
      * by destruct (Hnew _ _ Hp1).
      * by eapply IHu.
  - assert (∀ q, sp_id (if b_eq (sp_id q) id then set_active active q else q) = sp_id q) as Hid
      by (intros q; by destruct (b_eq _ _)).
    split.
    + intros k p (q & <- & Hq)%lookup_fmap_Some. rewrite Hid. by eapply IHn'.
    + intros k1 k2 p1 p2 (q1 & <- & Hq1)%lookup_fmap_Some (q2 & <- & Hq2)%lookup_fmap_Some. rewrite !Hid. by eapply IHu.
Qed.

#[export] Instance demo_catalog_laws : StripeCatalogLaws.
Proof.
  split.
  - intros h k1 k2 p1 p2. apply (proj2 (after_calls_ids h)).
  - intros h keys page _ [= <-]. eexists. split; [reflexivity|]. split.
    + intros v (k & Hk & (p & Hp & ->)%fmap_Some)%list_elem_of_omap. exists k, p. split_and!; [done|done|apply shows_json].
    + intros k p Hk Hp. exists (price_json k p). split; [|apply shows_json]. apply list_elem_of_omap. exists k.
      by rewrite Hp.
  - intros h prm v [= <-]. eexists. split; [reflexivity|]. unfold catalog, demo_catalog. by rewrite after_calls_snoc.
  - intros h i a v _. unfold catalog, demo_catalog. by rewrite after_calls_snoc.
  - intros h c Hc. unfold catalog, demo_catalog. rewrite after_calls_snoc. by destruct c.
Qed.

#[export] Instance demo_key : StripeKey := "sk_test".

(** ** A deploy: the localized prices, then Stripe *)

Definition sync_run (w : world store) : world store := (sync_stripe_catalog w).2.
Definition mirrored_run : world store := sync_run first_run.

(** [mirrored] as a boolean. *)
Definition mirrored_b (w : world store) (c : string) (x : option price_obj * upsert) : bool :=
  match x.1, catalog (w_stripe w) !! x.2.(us_lookup_key) with
  | None, _ => true
  | Some r, Some p =>
      p.(sp_active) && b_eq (amount_in r.(po_owner) c (s_db (w_db w))) (Some p.(sp_amount))
      && b_eq p.(sp_currency) c && b_eq p.(sp_interval) x.2.(us_recurring)
      && b_eq (stripe_id_in r.(po_owner) c (s_db (w_db w))) (Some p.(sp_id))
  | Some _, None => false
  end.

Lemma target_rows d c o u :
  target d c o u → ∃ r, (Some r, u) ∈ plan_rows d c ++ product_rows d c ∧ r.(po_owner) = o.
Proof.
  intros [p r Hp Hr|p r Hp Hr]; exists r; (split; [|done]); apply elem_of_app; [left|right];
    apply list_elem_of_fmap; exists p; by rewrite Hr.
Qed.

Lemma all_mirrored_b w :
  forallb (λ c, forallb (mirrored_b w c) (plan_rows (s_db (w_db w)) c ++ product_rows (s_db (w_db w)) c))
    BILLING_CURRENCIES = true → all_mirrored w.
Proof.
  intros Hb c o u Hc (r & Hr & <-)%target_rows. rewrite forallb_forall in Hb.
  specialize (Hb c ltac:(by apply list_elem_of_In)). rewrite forallb_forall in Hb.
  specialize (Hb (Some r, u) ltac:(by apply list_elem_of_In)). unfold mirrored_b in Hb. cbn [fst snd] in Hb.
  destruct (catalog _ !! _) as [p|] eqn:Hp; [|done]. rewrite !andb_true_iff, !b_eq_true in Hb.
  exists p. tauto.
Qed.

Lemma first_run_ok : store_ok (w_db first_run).
Proof. apply (bool_decide_eq_true_1 (db_ok _)). vm_compute. reflexivity. Qed.

(** [distinct_products] as a boolean. *)
Lemma distinct_products_b currencies d :
  db_ok d →
  forallb (λ p, forallb (λ q, forallb (λ c, forallb (λ c',
    negb (b_eq (_product_lookup_key p c) (_product_lookup_key q c')) || b_eq p.(prod_id) q.(prod_id) && b_eq c c')
    currencies) currencies) (products_list_active d)) (products_list_active d) = true →
  distinct_products currencies d.
Proof.
  intros Hok Hb p q c c' Hp Hq Hc Hc' Heq.
  rewrite forallb_forall in Hb. specialize (Hb p ltac:(by apply list_elem_of_In)).
  rewrite forallb_forall in Hb. specialize (Hb q ltac:(by apply list_elem_of_In)).
  rewrite forallb_forall in Hb. specialize (Hb c ltac:(by apply list_elem_of_In)).
  rewrite forallb_forall in Hb. specialize (Hb c' ltac:(by apply list_elem_of_In)).
  rewrite Heq, b_eq_refl in Hb. cbn [negb orb] in Hb. rewrite andb_true_iff, !b_eq_true in Hb. destruct Hb as [Hid ->].
  split; [|done]. apply active_products_elem in Hp as (i & Hi & _), Hq as (j & Hj & _).
  assert (map_Forall (λ i a, prod_id a = i) d.(d_products)) as Hids by (unfold db_ok, ids_ok in Hok; tauto).
  apply Hids in Hi as Hi'. apply Hids in Hj as Hj'. congruence.
Qed.

Lemma demo_distinct : distinct_products BILLING_CURRENCIES (s_db (w_db first_run)).
Proof. apply distinct_products_b; [exact first_run_ok|]. vm_compute. reflexivity. Qed.

(** [localized_complete] as a boolean. *)
Lemma localized_complete_b d :
  forallb (λ c, b_eq c "usd" || forallb (λ x, match x.1 with
      | Some r => not_none (localized_row r.(po_owner) c d) | None => true end)
    (plan_rows d c ++ product_rows d c)) BILLING_CURRENCIES = true → localized_complete d.
Proof.
  intros Hb c o u Hc Hne (r & Hr & <-)%target_rows. rewrite forallb_forall in Hb.
  specialize (Hb c ltac:(by apply list_elem_of_In)). rewrite (proj2 (b_eq_false _ _) Hne) in Hb. cbn [orb] in Hb.
  rewrite forallb_forall in Hb. specialize (Hb (Some r, u) ltac:(by apply list_elem_of_In)). by apply not_none_true in Hb.
Qed.

Lemma demo_complete : localized_complete (s_db (w_db first_run)).
Proof. apply localized_complete_b. vm_compute. reflexivity. Qed.

Lemma demo_target : target (s_db (w_db first_run)) "eur" (OfPlanPrice 22) (plan_upsert (demo_plan 12 "Pro" PERSONAL PRO) "eur").
Proof.
  apply (target_plan _ _ (demo_plan 12 "Pro" PERSONAL PRO)
    (mkPriceObj (OfPlanPrice 22) "price_pro" 1900 None)); [|computed].
  apply active_plans_elem. exists 12%N. split; [computed|reflexivity].
Qed.

(** A Stripe that knows no price yet. *)
Lemma first_run_active : keys_active first_run.
Proof.
  assert (w_stripe first_run = []) as Hnil by computed. unfold keys_active. rewrite Hnil. intros k p _ Hp.
  unfold catalog, demo_catalog, after_calls in Hp. cbn in Hp. by rewrite lookup_empty in Hp.
Qed.

Lemma sync_stripe_catalog_mirrors_witness :
  mirrored mirrored_run (OfPlanPrice 22) "eur" (plan_upsert (demo_plan 12 "Pro" PERSONAL PRO) "eur") ∧
  stripe_id_in (OfPlanPrice 22) "eur" (s_db (w_db mirrored_run)) = Some "price_12".
Proof.
  split; [|computed].
  pose proof (sync_stripe_catalog_mirrors first_run first_run_ok) as Hrun.
  unfold mirrored_run, sync_run. assert ((sync_stripe_catalog first_run).1 = Ok tt) as Hok by computed.
  destruct (sync_stripe_catalog first_run) as [r w']. cbn [fst] in Hok.
  apply Hrun; [| |exact demo_distinct|exact demo_complete| |exact Hok|right; left|exact demo_target].
  - apply (bool_decide_eq_true_1 (NoDup _)). computed.
  - discriminate.
  - exact first_run_active.
Defined.

Lemma mirrored_run_ok : store_ok (w_db mirrored_run).
Proof. apply (bool_decide_eq_true_1 (db_ok _)). vm_compute. reflexivity. Qed.

Lemma mirrored_run_all : all_mirrored mirrored_run.
Proof. apply all_mirrored_b. vm_compute. reflexivity. Qed.

Lemma sync_stripe_catalog_quiet_witness :
  length (w_stripe mirrored_run) = 17%nat ∧ quietly sync_stripe_catalog mirrored_run.
Proof. split; [computed|]. apply sync_stripe_catalog_quiet; [exact mirrored_run_ok|exact mirrored_run_all]. Defined.

(** ** What the hypotheses rule out *)

(** Two products whose names differ in case: after the second run the second one is
    sold with a price that the run has archived. *)
Definition colliding_db : db :=
  set_product_prices (list_to_map [(95%N, mkProductPriceRow 90 "price_a" 500); (94%N, mkProductPriceRow 92 "price_b" 900)])
    (set_products (list_to_map [(90%N, mkProduct 90 "Credits" 100 true); (92%N, mkProduct 92 "credits!" 200 true)])
       demo_db).

Lemma colliding_products_archived :
  let w := sync_run (sync_run (Demo.with_db colliding_db)) in
  stripe_id_in (OfProductPrice 94) "usd" (s_db (w_db w)) = Some "price_10" ∧
  existsb (λ c, match c with PriceModify k false => b_eq k "price_10" | _ => false end) (w_stripe w) = true.
Proof. cbv zeta. split; computed. Qed.

(** A price archived elsewhere is taken for the current one. *)
Definition archived_run : world store := on_log mirrored_run [PriceModify "price_12" false].

Lemma archived_price_kept :
  (sync_stripe_catalog archived_run).1 = Ok tt ∧
  stripe_id_in (OfPlanPrice 22) "eur" (s_db (w_db (sync_run archived_run))) = Some "price_12" ∧
  sp_active <$> catalog (w_stripe (sync_run archived_run)) !! "plan_personal_pro_month_eur" = Some false.
Proof. split_and!; computed. Qed.

(** The inline recomputation changes an amount after its price was minted. *)
Lemma bootstrap_drifts :
  let w := sync_run demo_world in
  amount_in (OfPlanPrice 22) "eur" (s_db (w_db w)) = Some 1749%Z ∧
  sp_amount <$> catalog (w_stripe w) !! "plan_personal_pro_month_eur" = Some 1799%Z.
Proof. cbv zeta. split; computed. Qed.

(** ** Seeding *)

Definition seeded_world : world store := (seed_catalog demo_world).2.

Lemma demo_fresh : fresh_keys demo_world.
Proof. apply fresh_keys_below; apply (bool_decide_eq_true_1 (map_Forall _ _)); computed. Qed.

Lemma demo_seedable : seedable demo_db.
Proof. apply (bool_decide_eq_true_1 (seedable _)). computed. Qed.

Lemma seed_catalog_completes_witness :
  ∃ w1, seed_catalog demo_world = (Ok tt, w1) ∧ seeded (s_db (w_db w1)).
Proof. apply seed_catalog_completes; [exact demo_db_ok|exact demo_fresh|exact demo_seedable]. Defined.

Lemma seed_catalog_spec_witness :
  store_ok (w_db seeded_world) ∧ seeded (s_db (w_db seeded_world)) ∧ enlarged demo_db (s_db (w_db seeded_world)) ∧
  amount_in (OfPlanPrice 20) "usd" (s_db (w_db seeded_world)) = Some 1999%Z.
Proof.
  pose proof (seed_catalog_spec demo_world demo_db_ok) as Hrun. unfold seeded_world.
  assert ((seed_catalog demo_world).1 = Ok tt) as Hok by computed.
  assert (amount_in (OfPlanPrice 20) "usd" (s_db (w_db (seed_catalog demo_world).2)) = Some 1999%Z) as Ha by computed.
  destruct (seed_catalog demo_world) as [r w1]. cbn [fst snd] in *. subst r. destruct Hrun as (? & ? & ?).
  split_and!; assumption.
Defined.

Lemma seed_catalog_idempotent_witness : seed_catalog seeded_world = (Ok tt, seeded_world).
Proof.
  pose proof (seed_catalog_spec demo_world demo_db_ok) as Hrun. unfold seeded_world.
  assert ((seed_catalog demo_world).1 = Ok tt) as Hok by computed.
  destruct (seed_catalog demo_world) as [r w1]. cbn [fst snd] in *. subst r. destruct Hrun as (? & ? & _).
  apply seed_catalog_idempotent; assumption.
Defined.

(** An inactive plan and its active successor: the seeding raises, and nothing of it
    stays. *)
Definition twin_db : db :=
  set_plans (<[13%N := mkPlan 13 "Pro" "" PERSONAL PRO MONTH false]> demo_db.(d_plans)) demo_db.

Lemma twin_plans_raise :
  (seed_catalog (Demo.with_db twin_db)).1 = Raise (MultipleObjectsReturned "get() returned more than one row") ∧
  s_db (w_db (seed_catalog (Demo.with_db twin_db)).2) = twin_db.
Proof. split; computed. Qed.

(** ** Auditing *)

(** A Stripe with four products: one owned by the plan 10, a stray with a subscriber,
    one without, and a one-time product. *)
Definition audit_product (id kind plan : string) : json :=
  JObj [("id", JStr id); ("name", JStr id);
        ("metadata", JObj [("kind", JStr kind); ("local_plan_id", JStr plan)])].

Definition audit_price (id : string) (recurring : json) : json :=
  JObj [("id", JStr id); ("recurring", recurring)].

Definition audit_stripe : StripeServer := λ h c,
  match c with
  | ProductListActive =>
      Ok (JObj [("data", JArr [audit_product "prod_own" "plan" (uuid_str 10%N); audit_product "prod_busy" "plan" "gone";
                               audit_product "prod_idle" "plan" "gone"; audit_product "prod_once" "pack" ""])])
  | PriceListByProduct p =>
      Ok (JObj [("data", JArr [audit_price ("price_of_" ++ p)%string
                                 (if b_eq p "prod_once" then JNull else JObj [("interval", JStr "month")])])])
  | SubscriptionListActive p =>
      Ok (JObj [("data", JArr (if b_eq p "price_of_prod_busy" then [JObj [("id", JStr "sub")]] else []))])
  | ProductModify id _ => Ok (JObj [("id", JStr id)])
  | _ => Raise (TypeError "not asked")
  end.

Lemma audit_run :
  let audit archive := @audit_stripe_catalog audit_stripe "sk_test" archive demo_world in
  (audit true).1 = Ok tt ∧ w_stripe (audit false).2 = [ProductListActive] ∧
  w_stripe (audit true).2 =
    [ProductListActive; PriceListByProduct "prod_busy"; SubscriptionListActive "price_of_prod_busy";
     PriceListByProduct "prod_idle"; SubscriptionListActive "price_of_prod_idle"; ProductModify "prod_idle" archived;
     PriceListByProduct "prod_once"; ProductModify "prod_once" archived].
Proof. cbv zeta. split_and!; computed. Qed.
