(* ===== verification/ProfileWitnesses.v ===== *)
(** * The profile theorems at work

    The theorems on profiles and avatars, applied to the world of [Demo.v], and two
    runs that show what an avatar's deletion goes by and when it happens. *)

From S2P Require Import Prelude PyVal Text Effects Domain Relational Store StoreFacts Django Auth.
From S2P Require Import Fields AuthViews Currency RedirectUrls Profile Avatar Requests CacheFacts.
From S2P Require Import RedirectFacts ProfileFacts AvatarFacts Demo.
From S2P Require TokenFacts.

#[local] Open Scope string_scope.

(** ** The host of the demonstration *)

Lemma after_last_suffix c l : ∃ before, l = (before ++ after_last c l)%list.
Proof.
  assert (∀ l, ∃ after, l = ((partition c l).1.1 ++ after)%list) as Hp.
  { clear l. induction l as [|x l (after & Hl)]; [by exists []|]. cbn. destruct (b_eq x c); [by exists (x :: l)|].
    destruct (partition c l) as [[b f] a]. exists after. cbn in *. by rewrite <- Hl. }
  destruct (Hp (rev l)) as (after & Hl). exists (rev after). unfold after_last.
  rewrite <- rev_app_distr. rewrite <- Hl. symmetry. apply rev_involutive.
Qed.

Lemma until_none stop l : Forall (λ c, c ∉ stop) l → until stop l = l.
Proof. induction 1 as [|c l Hc _ IH]; [done|]. cbn. rewrite bool_decide_false by done. by rewrite IH. Qed.

Lemma drop_params_none l : Forall (λ c, c ≠ ";"%char) l → drop_params l = l.
Proof.
  intros Hl. unfold drop_params. destruct (after_last_suffix "/"%char l) as (before & Hb).
  set (s := after_last "/"%char l) in *. rewrite until_none.
  - rewrite Hb at 1. rewrite Hb at 1. rewrite length_app.
    replace (length before + length s - length s)%nat with (length before) by lia. by rewrite take_app_length.
  - rewrite Hb in Hl. apply Forall_app in Hl as [_ Hs]. eapply Forall_impl; [exact Hs|]. intros c Hc.
    by rewrite list_elem_of_singleton.
Qed.

Lemma path_chars_spec s :
  path_chars s = true →
  Forall (λ c, unsafe_byte c = false ∧ (c ∉ ["?"%char; "#"%char]) ∧ c ≠ ";"%char) (list_ascii_of_string s).
Proof.
  apply forallb_Forall. intros c Hc. assert (∀ n, N_of_ascii c = n → c = ascii_of_N n) as Hn
    by (intros n <-; by rewrite ascii_N_embedding).
  split_and!.
  - unfold unsafe_byte. apply bool_decide_eq_false. rewrite !elem_of_cons, elem_of_nil.
    intros [Hx|[Hx|[Hx|[]]]]; apply Hn in Hx; subst c; discriminate.
  - rewrite !elem_of_cons, elem_of_nil. intros [->|[->|[]]]; discriminate.
  - intros ->. discriminate.
Qed.

#[export] Instance demo_host_laws : RequestHostLaws.
Proof.
  split. intros path Hpath%path_chars_spec. unfold build_absolute_uri, demo_host, urlparse_path, urlsplit.
  set (p := list_ascii_of_string path) in *.
  assert (clean (list_ascii_of_string ("https://app.example.com" ++ ("/" ++ path))) =
    (list_ascii_of_string "https://app.example.com/" ++ p)%list) as ->.
  { rewrite !chars_app. unfold clean.
    change (lstrip_controls _) with (list_ascii_of_string "https://app.example.com/" ++ p)%list.
    apply filter_id, Forall_app. split; [apply (bool_decide_unpack _); vm_compute; exact I|].
    eapply Forall_impl; [exact Hpath|]. cbn beta. tauto. }
  assert (split_scheme (list_ascii_of_string "https://app.example.com/" ++ p)%list =
    ("https", (list_ascii_of_string "//app.example.com/" ++ p)%list)) as -> by done.
  cbv beta iota zeta.
  assert (until ["/"%char; "?"%char; "#"%char] (drop 2 (list_ascii_of_string "//app.example.com/" ++ p)) =
    list_ascii_of_string "app.example.com") as Hn by done.
  change (is_prefix _ _) with true. rewrite Hn. change (eqb _ _) with true. change (has_char _ _) with false.
  cbn [negb andb mbind outcome_bind sr_netloc sr_scheme snd].
  change (drop _ _) with ("/"%char :: p). change (str_in "https" uses_params) with true.
  rewrite until_none, drop_params_none.
  - cbn. subst p. by rewrite string_of_list_ascii_of_string.
  - constructor; [done|]. eapply Forall_impl; [exact Hpath|]. cbn beta. tauto.
  - constructor; [set_solver|]. eapply Forall_impl; [exact Hpath|]. cbn beta. tauto.
Qed.

(** ** Profiles *)

Definition madrid_body : ProfileBody :=
  mkProfileBody Absent (Given "es") (Given "eur") (Given (mkPhoneBody (Given "+34") (Given "612345678")))
    (Given "Europe/Madrid") Absent Absent (Given "hello").

Lemma account_patch_spec_witness :
  ∃ out w1, account_patch 1 madrid_body demo_world = (Ok out, w1) ∧
    account_get 1 w1 = (Ok out, w1) ∧ out.(uo_phone) = Some (Some "+34", Some "612345678").
Proof.
  pose proof (account_patch_spec 1 madrid_body demo_world demo_store_ok) as Hspec.
  assert ((λ o, uo_phone <$> match o with Ok out => Some out | Raise _ => None end)
    (account_patch 1 madrid_body demo_world).1 = Some (Some (Some "+34", Some "612345678"))) as Hphone by computed.
  destruct (account_patch 1 madrid_body demo_world) as [[out|e] w1]; [|done].
  destruct Hspec as (data & u & _ & _ & _ & _ & _ & Hget). exists out, w1. split_and!; [done..|].
  by injection Hphone.
Defined.

Lemma reference_lists_accepted_witness :
  (∀ s, s ∈ _TIMEZONES ↔ stores only_timezone (λ d, mjoin d.(up_timezone)) s) ∧
  "Europe/Madrid" ∈ _TIMEZONES.
Proof.
  destruct (reference_lists_accepted "612345678") as (_ & _ & Hzones & _);
    [computed|by apply (bool_decide_unpack _); vm_compute; exact I|].
  split; [exact Hzones|]. apply (bool_decide_unpack _). vm_compute. exact I.
Defined.

Lemma demo_profiles_supported : profiles_supported (w_db demo_world).
Proof.
  intros i u Hu. assert (Forall (λ r, profile_supported r.2) (map_to_list (d_users demo_db))) as Hall.
  { assert (map_to_list (d_users demo_db) = map_to_list (d_users demo_db)) as Heq by done. revert Heq.
    set (l := map_to_list (d_users demo_db)) at 1. vm_compute in l. intros <-. subst l.
    repeat constructor; apply (bool_decide_unpack _); vm_compute; exact I. }
  rewrite Forall_forall in Hall. apply (Hall (i, u)). by apply elem_of_map_to_list.
Qed.

Lemma profiles_stay_supported_witness :
  ∃ w1, (account_patch 1 madrid_body demo_world).2 = w1 ∧ profiles_supported (w_db w1).
Proof.
  exists (account_patch 1 madrid_body demo_world).2. split; [done|].
  apply (profiles_stay_supported demo_world); [exact demo_profiles_supported|].
  by apply rtc_once, step_account_patch.
Defined.

(** ** Avatars *)

Definition photo : field UploadedFile := Given (mkUploadedFile "Pixels" (Some 6%Z)).
Definition alice : UserRow := demo_user "alice@example.com" "Alice".
Definition uploaded_world : world store := (avatar_post 1 alice photo demo_world).2.
Definition uploaded_url : string :=
  match (avatar_post 1 alice photo demo_world).1 with Ok url => url | Raise _ => "" end.

Lemma uploaded : avatar_post 1 alice photo demo_world = (Ok uploaded_url, uploaded_world).
Proof. apply run_pair. computed. Qed.

Lemma avatar_post_spec_witness :
  ∃ name, s_media (w_db uploaded_world) = {[avatar_file 1 name := "WEBPPixels"]} ∧
    uploaded_url = build_absolute_uri (MEDIA_URL ++ avatar_file 1 name).
Proof.
  pose proof (avatar_post_spec 1 alice photo demo_world demo_store_ok ltac:(computed)) as Hspec. rewrite uploaded in Hspec.
  destruct Hspec as (f & data & name & Hf & _ & Hdata & _ & Hurl & _ & Hmedia & _). exists name.
  injection Hf as <-. assert (data = "WEBPPixels") as -> by (by vm_compute in Hdata; injection Hdata).
  split; [|exact Hurl]. rewrite Hmedia. unfold without_file. cbn. by rewrite insert_empty.
Defined.

Lemma avatar_replaced_witness :
  ∃ name u1, is_Some (s_media (w_db uploaded_world) !! avatar_file 1 name) ∧
    d_users (s_db (w_db uploaded_world)) !! 1%N = Some u1 ∧ u1.(u_avatar_url) = Some uploaded_url.
Proof.
  destruct (avatar_replaced 1 alice photo demo_world uploaded_url uploaded_world demo_store_ok)
    as (name & u1 & _ & Hfile & Hu1 & Hurl & _); [computed|exact uploaded|].
  by exists name, u1.
Defined.

Lemma stored_files_reencoded_witness : files_reencoded (w_db uploaded_world).
Proof.
  apply (stored_files_reencoded demo_world); [by apply map_Forall_empty|].
  by apply rtc_once, step_avatar_post.
Defined.

(** Alice's avatar is an address of another host: the one an OAuth provider gave. *)
Definition with_alice_avatar (url : string) (media : gmap string string) : world store :=
  let d := set_users (<[1%N := with_avatar (Some url) alice]> demo_db.(d_users)) demo_db in
  World (mkStore d (mkCache ∅ ∅ ∅) media) [] [] demo_now 1000.

(** Only the path of an avatar's address is looked at: taking down an avatar that another
    host serves removes the file of ours that has the same path, here Bob's. *)
Lemma foreign_host_avatar_deletes_local_file :
  let w := with_alice_avatar "https://cdn.example.org/media/avatars/bob/1.webp" {["avatars/bob/1.webp" := "WEBPbob"]} in
  ∃ w', avatar_delete 1 (with_avatar (Some "https://cdn.example.org/media/avatars/bob/1.webp") alice) w = (Ok tt, w') ∧
    s_media (w_db w') = ∅.
Proof. eexists. split; [apply run_pair; computed|computed]. Qed.

(** The old file goes before the new one is stored: with a storage that refuses the new
    file, the user keeps an address that no file answers. *)
Definition full_storage : Storage := {|
  storage_exists m p := Ok (not_none (m !! p));
  storage_delete m p := Ok (delete p m);
  storage_save m p c := Raise (OSError "No space left on device")
|}.

Lemma failed_upload_loses_avatar :
  let url := "https://app.example.com/media/avatars/alice/1.webp" in
  let w := with_alice_avatar url {["avatars/alice/1.webp" := "WEBPalice"]} in
  ∃ w', @avatar_post demo_pillow full_storage demo_host demo_ip demo_image_field 1 (with_avatar (Some url) alice) photo w =
      (Raise (OSError "No space left on device"), w') ∧
    s_media (w_db w') = ∅ ∧ (u_avatar_url <$> d_users (s_db (w_db w')) !! 1%N) = Some (Some url).
Proof. eexists. split; [apply run_pair; computed|split; computed]. Qed.

(** The deletion of an account leaves the account's avatar in the storage. *)
Lemma erased_account_keeps_avatar :
  let url := "https://app.example.com/media/avatars/alice/1.webp" in
  let w := with_alice_avatar url {["avatars/alice/1.webp" := "WEBPalice"]} in
  let w' := (Account.account_delete 1 w).2 in
  d_users (s_db (w_db w')) !! 1%N = None ∧ s_media (w_db w') = {["avatars/alice/1.webp" := "WEBPalice"]}.
Proof. split; [computed|by rewrite account_delete_leaves_files]. Qed.
